(* ===== verification/_CoqProject ===== *)
-Q . S2P
Prelude.v
Conv.v
Frame.v
PktDecode.v
PktEncode.v
PktHd.v
Mem.v
Monad.v
Range.v
Gaptr.v
Idtr.v
Ringbuf.v
AckScan.v
Acktr.v
Pq.v
Rtb.v
Map.v
Rob.v
Crypto.v
Ppe.v
Strm.v
Err.v
Conn.v
ConnAck.v
ConnApp.v
ConnInv.v
ConnStream.v
ConnRecv.v
ConnSend.v
ConnState.v
ConnTx.v
ConnWrite.v
ConnSingle.v
ConnDel.v
ConnFrames.v
ConnPkt.v
ConnReady.v
ConnRetx.v
ConnOut.v
ConnSession.v
ConnNew.v
ConnLink.v
ConnProps.v
ConnPeers.v
