(* ===== verification/Prelude.v ===== *)
(** * A verification of the ngtcp2 library

    ngtcp2 is a C implementation of QUIC (draft 8). The library, [src/lib],
    does no input or output: the application passes datagrams to a connection
    ([ngtcp2_conn.c]) and sends the datagrams the connection writes. The
    connection is built on the components verified here, and is itself
    verified on top of them. This file is the prelude all others load: bit
    operators, machine integers, the [res] monad, its specifications ([wpe]),
    and the tactics and lemmas the files share.

    ** The program's parts and their files

    The components the connection is built on:

    - [Conv.v]: [ngtcp2_conv.c], network byte order and variable-length
      integers.
    - [Frame.v]: the constants, the packet header and the frames of
      [includes/ngtcp2/ngtcp2.h] and [ngtcp2_pkt.h], and the error codes.
    - [PktDecode.v], [PktEncode.v]: [ngtcp2_pkt_decode_frame] and
      [ngtcp2_pkt_encode_frame] of [ngtcp2_pkt.c], with the sixteen frame
      decoders and encoders they dispatch to.
    - [PktHd.v]: the rest of [ngtcp2_pkt.c]: packet headers, Version
      Negotiation and Stateless Reset packets, recovery of truncated packet
      numbers, ACK validation.
    - [Mem.v]: [ngtcp2_mem.c], the outcomes of allocation requests.
    - [Range.v], [Gaptr.v]: [ngtcp2_range.c] and [ngtcp2_gaptr.c], ranges of
      offsets and the tracker of acknowledged offsets.
    - [Idtr.v]: [ngtcp2_idtr.c], the tracker of opened stream IDs.
    - [Ringbuf.v]: [ngtcp2_ringbuf.c].
    - [AckScan.v]: the walk over a list of packets and the ranges of an ACK
      frame that [ngtcp2_acktr.c] and [ngtcp2_rtb.c] both contain.
    - [Acktr.v]: [ngtcp2_acktr.c], the received packets to acknowledge and the
      ACK frames sent (in a ring buffer).
    - [Pq.v]: [ngtcp2_pq.c], a heap whose entries know their positions.
    - [Rtb.v]: [ngtcp2_rtb.c], the sent packets that are not acknowledged, in
      a list and in a priority queue ordered by expiry. The connection it
      calls back into is the class [RtbConn], of which [ConnApp.v] has the
      instance.
    - [Map.v]: [ngtcp2_map.c], the hash table of streams.
    - [Rob.v]: [ngtcp2_rob.c], the reorder buffer of a stream.
    - [Crypto.v]: [ngtcp2_crypto.c], nonces, keys, and transport parameters.
    - [Ppe.v]: [ngtcp2_ppe.c] and [ngtcp2_buf.c], which put a protected packet
      together from a header and frames.
    - [Strm.v]: [ngtcp2_strm.c], and what the reorder buffer of a stream holds
      with respect to what the peer sent.
    - [Err.v]: [ngtcp2_err.c].

    The connection, [ngtcp2_conn.c], definitions first:

    - [Monad.v]: the monad of its functions: a state that survives an error, a
      value or an error code, or undefined behaviour; its specification [wp].
    - [Conn.v]: the state ([ngtcp2_conn]), creation, and the functions that
      call neither the application nor the packet encoder: streams, flow
      control, timers, keys, transport parameters.
    - [ConnAck.v]: [conn_create_ack_frame].
    - [ConnApp.v]: the callbacks, and the handlers of frames, which call them.
    - [ConnRecv.v]: [ngtcp2_conn_recv], from a datagram to the handlers, and
      the handshake state machine.
    - [ConnSend.v]: [ngtcp2_conn_write_pkt], [ngtcp2_conn_write_stream],
      [ngtcp2_conn_write_ack_pkt] and the closing functions, with
      retransmission and handshake packets.
    - [ConnDel.v]: [ngtcp2_conn_del].

    The connection, proofs:

    - [ConnInv.v]: the invariant [conn_ok], kept by the calls of the API.
    - [ConnStream.v], [ConnFrames.v], [ConnPkt.v]: it is kept by the handlers
      of stream frames, of all frames, and by a received packet. What the
      receive path asks of an invariant is the class [RecvInv]; [conn_ok] is
      one instance, the invariant of [ConnReady.v] another.
    - [ConnNew.v]: a new connection has it.
    - [ConnState.v], [ConnTx.v]: which functions change [conn->state],
      [conn->last_tx_pkt_num] and the keys, and how; what a packet is sealed
      with ([sealed]). Their lemmas are about relations
      between the states before and after a function, which are instances of
      the classes [StateRel] and [NumberRel].
    - [ConnWrite.v], [ConnSingle.v]: the packets [ngtcp2_conn_write_stream],
      the closing functions and [ngtcp2_conn_write_ack_pkt] send.
    - [ConnReady.v]: [ready], what sending relies on: the frames that wait to be
      sent or acknowledged, credit, timers, keys. It is kept by the calls of the
      API and by a received packet.
    - [ConnRetx.v], [ConnOut.v]: it is kept by retransmission, and by the
      functions that write packets.
    - [ConnSession.v]: sequences of calls, by these lemmas.
    - [ConnLink.v]: a packet that one connection writes, received by another.
    - [ConnProps.v], [ConnPeers.v]: the properties of one connection, and of two
      that talk to each other.

    Definitions have the names of the C functions, types and constants they
    model; a loop or a block of a function that is a definition of its own is
    named after the function. A member name that two structs share has a prefix
    for its struct.

    ** How C is modelled

    - An unsigned integer is a [Z], and an operation that can leave the range
      of its type is followed by the wrap-around of that type ([u8], [u16],
      [u32], [u64]; [size_t] is 64 bits wide). The host is little-endian.
    - A function returns [Ok v], [Err e] for a negative error code, or [Ub]
      for an access outside an object, an uninitialised read, or a failed
      [assert] ([ret], [fail] and [undef] in the connection). Where the state
      after an error matters (the callers of [ngtcp2_gaptr_push],
      [ngtcp2_rob_push], [ngtcp2_rtb_recv_ack], the streams), a function of a
      component returns the state together with the C return value. A theorem
      that gives the result as [Ok _], or through [wpe] or [wp], therefore also
      says that the function returns and that no access is out of bounds.
    - A pointer into an input buffer is the rest of the buffer from there;
      output into a buffer of [outlen] bytes is the list of bytes stored so
      far, and storing past [outlen] is [Ub].
    - A linked list is a list, an array is a list with its length. Where
      identity matters, pointers are kept: the heap of [Pq.v] holds pointers
      whose [index] members are a finite map, and the streams and the packets
      of the retransmission buffer of a connection have addresses in a heap.
      Reading, writing or releasing one of these after it has been released is
      undefined behaviour; so is changing a link of the list of streams for flow
      control in one that has been released ([access_strms]). Other objects are
      values, members of the records that own them.
    - Allocation is an oracle ([Mem.v]), a list of outcomes. The theorems about
      code that allocates hold for every oracle and say what a failed
      allocation leaves behind; those that assume that none fails say so, with
      the hypothesis [mem_reliable] ([gaptr_first_gap_least],
      [conn_new_establishes]) or with [true] for the argument [reliable] of the
      invariant [conn_ok] ([stream_in_order], [stream_data_arrives],
      [session_safe], [recv_after_handshake_safe], [delayed_ack_sent],
      [stateless_reset_exact], [decrypt_buffer_terminates]). There
      is never memory for more than [MAX_STREAMS] = 2^28 streams, which keeps
      the hash table within the 32 bits of its length.
    - What the application supplies, the AEAD, the callbacks, the order of a
      priority queue, is a parameter of the definitions. A callback is a program
      of API calls ([prog]) that is run on the connection.

    Fuel. Loops that are not structural take fuel, and no fuel left is [Ub].
    The amount is computed from the state: the number of bytes left (the frames
    of a payload, the transport parameters), the chunks and bytes to write
    ([rob_write_data]), the frames in the ring of ACK frames, the length of the
    heap ([bubble_up], [bubble_down]), the chunks held by the reorder buffer
    ([emit_loop]), the packets held by the retransmission buffer
    ([retransmit_loop]), 65 doublings of a 64-bit length ([grow_len]), one more
    than the 16 packets that are buffered during a handshake ([recv_each]). The
    theorems on these functions exclude [Ub], which shows that the amount is
    enough; the loops over the packets of a handshake are the exception, their
    safety is not proved.

    ** What is shown

    - Wire format. Decoders never read outside the packet, return a
      well-formed value and consume at most what they were given
      ([frame_decoder_safe], [header_decoder_safe], [params_decoder_safe]);
      encoders write exactly the length they announce ([frame_encoder_exact]);
      decoding what was encoded gives back the value ([varint_roundtrip],
      [frame_roundtrip], [header_roundtrip], [params_roundtrip]); a packet
      built and protected by the packet encoder is read back, frame by frame,
      by the header and frame decoders ([packet_roundtrip]), and no two packets
      of one key have the same nonce ([nonce_unique]).
    - Acknowledgements. A frame passes validation exactly when its ranges stay
      in the number space ([validate_ack_exact]); the single pass over a
      decreasing list visits exactly the packets in the ranges
      ([ack_scan_reference]), hence the retransmission buffer drops exactly
      these ([rtb_recv_ack_removes]) and the tracker forgets what an
      acknowledged ACK frame covered ([acktr_recv_ack_forgets]); the tracker
      stays well formed along every sequence of operations
      ([acktr_reachable_wf]). The frame that is built covers exactly the newest
      received packets ([ack_frame_exact]), and a received packet is
      acknowledged within the delay allowed for it ([delayed_ack_sent]).
    - Stream data. The reorder buffer and the gap tracker refine the set of
      received offsets and the partial function from offsets to bytes
      ([gaptr_push_exact], [gaptr_first_gap_least], [rob_push_stores],
      [rob_read_next]). Whatever the order, overlap and duplication of the
      frames of a stream, and whatever API calls the callbacks make, the
      application receives a prefix of the stream, each byte once and in order
      ([stream_in_order]), and no more than the flow control limits allow is
      accepted ([recv_flow_control]). Data is sent within the limits of the
      peer, in the frame that the packet decrypts to ([write_stream_exact]), and
      from there it gets to the application of the peer, through the choice of
      the packet number's length and its recovery, the AEAD, the decoders and the
      checks of the receiver ([stream_data_arrives]).
    - The connection as a whole. A new connection has the invariant
      ([conn_new_establishes]), any calls of the API keep it
      ([api_calls_safe]), and so does any datagram received after the
      handshake, whose handling never leads to undefined behaviour
      ([recv_after_handshake_safe]). A whole session after the handshake, in
      which packets are received, written, lost and retransmitted between any
      calls of the application, never does either ([session_safe]). Over any
      sequence of calls and datagrams the state follows the state machine of its
      role and does not leave closing and draining ([conn_lifecycle]), and after the handshake the
      packets are sealed under the keys of the connection with increasing
      numbers, and with nonces that differ ([pkt_nums_increase]). [close_exact],
      [stateless_reset_exact] and [conn_del_exact] are about the end: the
      packets sent when a connection is closed, the packets that reset it, and
      the release of each stream and packet exactly once.
    - Containers. The hash table refines a finite map ([map_insert_refines],
      [map_find_remove_refines]); the heap keeps its order and its back
      pointers, and pops a least element ([pq_pop_least]); a stream ID opens
      once ([idtr_open_once]). Lemmas of their files show the rest of their
      operations, the ring buffer among them.
    - Deviations. [err_fatal_inverted] (the test for fatal errors accepts all
      others), [idtr_first_gap_stale] (an opened ID is reported as the first
      gap), and the precondition of [pkt_num_recovery] (a packet number below
      the window of the expected one is not recovered).

    The hypotheses on the application and the peer are [callbacks_ok] (the
    callbacks make calls with arguments of the types of the parameters, and the
    application takes note of the data it is handed), [aead_ok] (decryption
    gives no more bytes than the ciphertext has, and they are frames the peer
    has sent), [authentic] (the data of a frame is that of the stream), and for
    sending [can_send] (decryption inverts encryption, which adds the announced
    overhead, and the counters are in the range of their types).
    [pkt_nums_increase] assumes that the keys have been set ([keyed]).
    [delayed_ack_sent] assumes that no packet is due to be sent again
    ([rtb_idle]), and that the received packets fit one frame ([ack_range]).
    [session_safe] assumes of the application that it does not ask the peer to
    stop sending ([call_live]: the code may read a frame past the end of a chain
    when it drops a STOP_SENDING frame) and makes none of the calls of the
    handshake that change the AEAD overhead, the early keys or the parameters of
    the peer, that the callbacks that are told of sent
    packets do not fail ([callbacks_live]: a failure there trips an assertion),
    and of the peer that it sends no data on stream 0 once the handshake is over
    ([past_handshake]: the credit for it is not bounded).
    [stream_data_arrives] assumes that the two connections agree ([linked]: the
    same keys and connection ID, and packets that are neither late nor lost for so
    long that the peer cannot number them; [stream_ends]: the stream is known to
    the receiver, and the limits are those the sender has been told), and that the
    receiver has no callbacks for single packets and frames, which might change the
    state between the steps. The
    witnesses instantiate all of them with a server whose application keeps a
    log.

    ** What is not modelled

    - The [_free] functions of the components that are values here: the gap and
      ID trackers, the ring buffer, the ACK tracker, the priority queue, the
      hash table, the reorder buffer, the members of a stream, key material.
      Leaks of these objects are not visible in the model.
    - A callback that itself receives or writes packets on its connection.
    - The example client and server and the HTTP parser they use, which are
      outside the library.

    Not proved: the safety of the functions that receive and write packets
    during the handshake. *)

From Stdlib Require Export ZArith Lia.
From stdpp Require Export base tactics list numbers option gmap.

#[global] Open Scope Z_scope.

(** ** Notation for the C bit operators *)

Declare Scope c_scope.
Delimit Scope c_scope with c.
Infix ".&" := Z.land (at level 40, left associativity) : c_scope.
Infix ".|" := Z.lor (at level 41, left associativity) : c_scope.
Infix ".^" := Z.lxor (at level 41, left associativity) : c_scope.
Infix ".<<" := Z.shiftl (at level 39, left associativity) : c_scope.
Infix ".>>" := Z.shiftr (at level 39, left associativity) : c_scope.
#[global] Open Scope c_scope.

(** ** Fixed-width unsigned integers

    A [uintN_t] is a [Z]; every C operation that can leave the range is
    followed by the wrap-around of its type. [size_t] is 64 bits wide. *)

Definition u8 (x : Z) : Z := x mod 2 ^ 8.
Definition u16 (x : Z) : Z := x mod 2 ^ 16.
Definition u32 (x : Z) : Z := x mod 2 ^ 32.
Definition u64 (x : Z) : Z := x mod 2 ^ 64.
Definition UINT64_MAX : Z := 2 ^ 64 - 1.

(** [is_uint w x]: [x] is a value of the unsigned type of width [w]. *)
Definition is_uint (w x : Z) : Prop := 0 <= x < 2 ^ w.
#[global] Instance is_uint_dec w x : Decision (is_uint w x).
Proof. unfold is_uint; apply _. Defined.

(** C truth value of a comparison. *)
Definition c_bool (b : bool) : Z := if b then 1 else 0.

Create HintDb cint discriminated.
Create Rewrite HintDb zlen.

Lemma u64_small x : is_uint 64 x -> u64 x = x.
Proof. apply Z.mod_small. Qed.
Lemma u32_small x : is_uint 32 x -> u32 x = x.
Proof. apply Z.mod_small. Qed.
Lemma u16_small x : is_uint 16 x -> u16 x = x.
Proof. apply Z.mod_small. Qed.
Lemma u8_small x : is_uint 8 x -> u8 x = x.
Proof. apply Z.mod_small. Qed.
Lemma u64_range x : is_uint 64 (u64 x).
Proof. apply Z.mod_pos_bound; lia. Qed.
Lemma u32_range x : is_uint 32 (u32 x).
Proof. apply Z.mod_pos_bound; lia. Qed.
Lemma u16_range x : is_uint 16 (u16 x).
Proof. apply Z.mod_pos_bound; lia. Qed.
Lemma u8_range x : is_uint 8 (u8 x).
Proof. apply Z.mod_pos_bound; lia. Qed.
#[export] Hint Resolve u64_range u32_range u16_range u8_range : cint.

(** [cints] makes the width bounds visible to [lia], which knows the
    powers of two as numerals. *)
Ltac cints :=
  unfold is_uint, UINT64_MAX in *;
  change (2 ^ 8) with 256 in *;
  change (2 ^ 16) with 65536 in *;
  change (2 ^ 32) with 4294967296 in *;
  change (2 ^ 62) with 4611686018427387904 in *;
  change (2 ^ 63) with 9223372036854775808 in *;
  change (2 ^ 64) with 18446744073709551616 in *.

(** [clia] decides linear goals about machine integers, once the wrap-arounds
    of values in range have been removed. *)
Ltac clia :=
  repeat match goal with H : Forall _ _ |- _ => clear H end;
  unfold is_uint, UINT64_MAX in *; lia.

Ltac unwrap :=
  repeat match goal with
  | |- context [u64 ?x] => rewrite (u64_small x) by clia
  | |- context [u32 ?x] => rewrite (u32_small x) by clia
  | |- context [u16 ?x] => rewrite (u16_small x) by clia
  | |- context [u8 ?x] => rewrite (u8_small x) by clia
  end.

(** [bdestr] splits on the integer comparisons of the code. *)
Ltac bdestr :=
  repeat match goal with
  | |- context [Z.leb ?a ?b] => destruct (Z.leb_spec a b)
  | |- context [Z.ltb ?a ?b] => destruct (Z.ltb_spec a b)
  | |- context [Z.eqb ?a ?b] => destruct (Z.eqb_spec a b)
  end.

(** [dispatch] evaluates the tests of closed conditions, such as a [switch] on
    a constant. *)
Ltac has_var t := match t with context [?v] => is_var v end.
Ltac dispatch :=
  repeat match goal with
  | |- context [if ?b then _ else _] =>
      tryif has_var b then fail else idtac;
      let v := eval vm_compute in b in change b with v; cbv iota
  end.

(** ** Bytes and lengths *)

Abbreviation bytes := (list Z).
Abbreviation is_byte := (is_uint 8).
Abbreviation all_bytes := (Forall (is_uint 8)).

Definition zlen {A} (l : list A) : Z := Z.of_nat (length l).

Lemma zlen_nonneg {A} (l : list A) : 0 <= zlen l.
Proof. unfold zlen; lia. Qed.
Lemma zlen_nil {A} : zlen (@nil A) = 0.
Proof. reflexivity. Qed.
Lemma zlen_cons {A} (x : A) l : zlen (x :: l) = 1 + zlen l.
Proof. unfold zlen; simpl length; lia. Qed.
Lemma zlen_app {A} (l k : list A) : zlen (l ++ k) = zlen l + zlen k.
Proof. unfold zlen; rewrite length_app; lia. Qed.
Lemma zlen_drop {A} (l : list A) n : zlen (drop n l) = Z.max 0 (zlen l - Z.of_nat n).
Proof. unfold zlen; rewrite length_drop; lia. Qed.
Lemma zlen_take {A} (l : list A) n : zlen (take n l) = Z.min (Z.of_nat n) (zlen l).
Proof. unfold zlen; rewrite length_take; lia. Qed.
Lemma zlen_replicate {A} n (x : A) : zlen (replicate n x) = Z.of_nat n.
Proof. unfold zlen; rewrite length_replicate; lia. Qed.
#[export] Hint Rewrite @zlen_nil @zlen_cons @zlen_app @zlen_drop @zlen_take
  @zlen_replicate : zlen.

(** ** Filters *)

Section Filters.
Context {A : Type} (P : A -> Prop) `{!forall x, Decision (P x)}.

Lemma filter_all l : Forall P l -> filter P l = l.
Proof. induction 1 as [|x l Hx _ IH]; [done|]. by rewrite filter_cons_True, IH. Qed.

Lemma Forall_filter (Q : A -> Prop) l : Forall Q l -> Forall Q (filter P l).
Proof.
  induction 1 as [|x l Hx _ IH]; [constructor|]. rewrite filter_cons.
  destruct (decide (P x)); [by constructor | done].
Qed.
End Filters.

(** [zlia] decides linear goals about lengths of concatenations. *)
Ltac zfacts :=
  repeat match goal with
  | |- context [zlen ?l] =>
      lazymatch goal with
      | _ : 0 <= zlen l |- _ => fail
      | _ => pose proof (zlen_nonneg l)
      end
  | _ : context [zlen ?l] |- _ =>
      lazymatch goal with
      | _ : 0 <= zlen l |- _ => fail
      | _ => pose proof (zlen_nonneg l)
      end
  end.
Ltac zlia := autorewrite with zlen in *; zfacts; clia.

(** A finite check settles a boolean fact about every byte. *)
Lemma byte_cases (f : Z -> bool) :
  forallb f (seqZ 0 256) = true -> forall b, is_byte b -> f b = true.
Proof.
  intros H b Hb. rewrite forallb_forall in H. apply H.
  apply list_elem_of_In, elem_of_seqZ. clia.
Qed.

(** ** Results of C functions

    [Ok a] is a normal return, [Err e] the return of the negative error code
    [e], [Ub] an access outside an object, or a failed [assert]. *)

Inductive res (A : Type) : Type :=
| Ok (a : A)
| Err (e : Z)
| Ub.
Arguments Ok {A} a.
Arguments Err {A} e.
Arguments Ub {A}.

#[global] Instance res_ret : MRet res := fun A a => Ok a.
#[global] Instance res_bind : MBind res := fun A B k m =>
  match m with Ok a => k a | Err e => Err e | Ub => Ub end.

Lemma res_bind_ok {A B} (m : res A) (k : A -> res B) b :
  m ≫= k = Ok b -> exists a, m = Ok a /\ k a = Ok b.
Proof. destruct m as [a|e|]; [|done|done]. intros H. by exists a. Qed.

(** [if (b) { return e; }] *)
Definition fail_if (b : bool) (e : Z) : res unit := if b then Err e else Ok tt.

(** [assert(b);] *)
Definition c_assert (b : bool) : res unit := if b then Ok tt else Ub.

Lemma c_assert_ok b : c_assert b = Ok tt -> b = true.
Proof. by destruct b. Qed.

Ltac res_simpl := cbn [mbind res_bind]; unfold mret, res_ret.

(** ** Specifications of results

    [wpe m Q E]: [m] does not run into undefined behaviour, its value
    satisfies [Q] and its error code satisfies [E]. *)

Definition wpe {A} (m : res A) (Q : A -> Prop) (E : Z -> Prop) : Prop :=
  match m with Ok a => Q a | Err e => E e | Ub => False end.

Section Wpe.
Context {A B : Type}.

Lemma wpe_ret (a : A) (Q : A -> Prop) E : Q a -> wpe (Ok a) Q E.
Proof. done. Qed.

Lemma wpe_bind (m : res A) (k : A -> res B) Q E :
  wpe m (fun a => wpe (k a) Q E) E -> wpe (m ≫= k) Q E.
Proof. by destruct m. Qed.

Lemma wpe_mono (m : res A) (Q Q' : A -> Prop) (E E' : Z -> Prop) :
  wpe m Q E -> (forall a, Q a -> Q' a) -> (forall e, E e -> E' e) -> wpe m Q' E'.
Proof. destruct m; simpl; naive_solver. Qed.

Lemma wpe_ok (m : res A) (a : A) Q E : wpe m Q E -> m = Ok a -> Q a.
Proof. by intros H ->. Qed.

Lemma wpe_not_ub (m : res A) Q E : wpe m Q E -> m <> Ub.
Proof. by intros H ->. Qed.
End Wpe.

Lemma wpe_fail_if b e (Q : unit -> Prop) (E : Z -> Prop) :
  (b = true -> E e) -> (b = false -> Q tt) -> wpe (fail_if b e) Q E.
Proof. destruct b; simpl; auto. Qed.

Lemma wpe_assert b (Q : unit -> Prop) (E : Z -> Prop) :
  b = true -> Q tt -> wpe (c_assert b) Q E.
Proof. by intros ->. Qed.

(** ** Reading through a pointer

    A [const uint8_t *] into a buffer is the list of the bytes from the
    pointer to the end of the buffer: [p - q] is a difference of lengths,
    [p += n] drops [n] bytes, and one cannot move or read past the end. *)

Definition rd (p : bytes) : res Z :=
  match p with b :: _ => Ok b | [] => Ub end.

Definition rdn (n : Z) (p : bytes) : res bytes :=
  if (0 <=? n) && (n <=? zlen p) then Ok (take (Z.to_nat n) p) else Ub.

Definition adv (n : Z) (p : bytes) : res bytes :=
  if (0 <=? n) && (n <=? zlen p) then Ok (drop (Z.to_nat n) p) else Ub.

(** ** Writing through a pointer

    [wr cap w bs] stores [bs] after the bytes [w] already written to a buffer
    of [cap] bytes; storing beyond the capacity is undefined. *)

Definition wr (cap : Z) (w bs : bytes) : res bytes :=
  if zlen w + zlen bs <=? cap then Ok (w ++ bs) else Ub.

Lemma rd_cons b p : rd (b :: p) = Ok b.
Proof. reflexivity. Qed.

Lemma rdn_app n bs p : zlen bs = n -> rdn n (bs ++ p) = Ok bs.
Proof.
  intros H. unfold rdn. rewrite zlen_app. pose proof (zlen_nonneg p).
  pose proof (zlen_nonneg bs).
  rewrite (proj2 (Z.leb_le 0 n)), (proj2 (Z.leb_le n _)) by lia. simpl.
  rewrite take_app_length'; [done | unfold zlen in H; lia].
Qed.

Lemma rdn_le n p : 0 <= n <= zlen p -> rdn n p = Ok (take (Z.to_nat n) p).
Proof. intros. unfold rdn. by rewrite (proj2 (Z.leb_le 0 n)), (proj2 (Z.leb_le n _)) by lia. Qed.

Lemma adv_app n bs p : zlen bs = n -> adv n (bs ++ p) = Ok p.
Proof.
  intros H. unfold adv. rewrite zlen_app. pose proof (zlen_nonneg p).
  pose proof (zlen_nonneg bs).
  rewrite (proj2 (Z.leb_le 0 n)), (proj2 (Z.leb_le n _)) by lia. simpl.
  rewrite drop_app_length'; [done | unfold zlen in H; lia].
Qed.

Lemma adv_1 b p : adv 1 (b :: p) = Ok p.
Proof. apply (adv_app 1 [b] p). reflexivity. Qed.

Lemma wr_ok cap w bs : zlen w + zlen bs <= cap -> wr cap w bs = Ok (w ++ bs).
Proof. intros. unfold wr. by rewrite (proj2 (Z.leb_le _ _)). Qed.

(** The pointer after [p += n], once the move is known to be in bounds. *)
Definition advance (n : Z) (p : bytes) : bytes := drop (Z.to_nat n) p.

Lemma wpe_rd p (Q : Z -> Prop) E :
  all_bytes p -> 1 <= zlen p ->
  (forall b, b = hd 0 p -> is_byte b -> Q b) -> wpe (rd p) Q E.
Proof.
  intros Hp Hl HQ. destruct Hp as [|b p Hb Hp]; [rewrite zlen_nil in Hl; lia|].
  simpl. auto.
Qed.

Lemma wpe_rd_known p b (Q : Z -> Prop) E :
  b = hd 0 p -> 1 <= zlen p -> Q b -> wpe (rd p) Q E.
Proof.
  intros Hb Hl HQ. destruct p; [rewrite zlen_nil in Hl; lia|]. simpl in *. by subst.
Qed.

Lemma wpe_rdn n p (Q : bytes -> Prop) E :
  all_bytes p -> 0 <= n <= zlen p ->
  (forall bs, bs = take (Z.to_nat n) p -> zlen bs = n -> all_bytes bs -> Q bs) ->
  wpe (rdn n p) Q E.
Proof.
  intros Hp Hl HQ. unfold rdn.
  rewrite (proj2 (Z.leb_le 0 n)), (proj2 (Z.leb_le n _)) by lia. simpl.
  apply HQ; [done | rewrite zlen_take; lia | by apply Forall_take].
Qed.

Lemma wpe_adv_known n p q (Q : bytes -> Prop) E :
  q = advance n p -> 0 <= n <= zlen p -> Q q -> wpe (adv n p) Q E.
Proof.
  intros -> Hl HQ. unfold adv.
  by rewrite (proj2 (Z.leb_le 0 n)), (proj2 (Z.leb_le n _)) by lia.
Qed.

Lemma wpe_adv n p (Q : bytes -> Prop) E :
  all_bytes p -> 0 <= n <= zlen p ->
  (forall q, q = advance n p -> zlen q = zlen p - n -> all_bytes q -> Q q) ->
  wpe (adv n p) Q E.
Proof.
  intros Hp Hl HQ. eapply wpe_adv_known; [done | done |].
  unfold advance in *. apply HQ; [done | rewrite zlen_drop; lia | by apply Forall_drop].
Qed.

Lemma wpe_adv_add a b p (Q : bytes -> Prop) E :
  0 <= a -> 0 <= b ->
  wpe (adv a p) (fun q => wpe (adv b q) Q E) E -> wpe (adv (a + b) p) Q E.
Proof.
  intros Ha Hb. unfold adv.
  rewrite !(proj2 (Z.leb_le 0 _)) by lia. simpl.
  destruct (Z.leb_spec a (zlen p)); [|done]. simpl. rewrite zlen_drop, drop_drop.
  destruct (Z.leb_spec b (Z.max 0 (zlen p - Z.of_nat (Z.to_nat a)))); [|done].
  rewrite (proj2 (Z.leb_le _ _)) by lia. simpl.
  by replace (Z.to_nat a + Z.to_nat b)%nat with (Z.to_nat (a + b)) by lia.
Qed.

Lemma wpe_wr cap w bs (Q : bytes -> Prop) E :
  zlen w + zlen bs <= cap -> Q (w ++ bs) -> wpe (wr cap w bs) Q E.
Proof. intros. by rewrite wr_ok. Qed.
