(* ===== verification/Conv.v ===== *)
(** Byte order conversion and variable-length integers: [ngtcp2_conv.c],
    [ngtcp2_conv.h] and [ngtcp2_str.c].

    The host is little-endian ([WORDS_BIGENDIAN] is not defined), so an
    integer in memory is [le_store] and a [memcpy] into an integer object is
    [le_load]. [be_load] and [be_store] are the reference definitions of
    network byte order the routines are compared with. *)

From S2P Require Import Prelude.

(** ** Object representation of integers *)

Fixpoint le_load (bs : bytes) : Z :=
  match bs with
  | [] => 0
  | b :: t => b + 256 * le_load t
  end.

Fixpoint le_store (n : nat) (x : Z) : bytes :=
  match n with
  | O => []
  | S k => x mod 256 :: le_store k (x / 256)
  end.

(** Reference: network byte order. *)
Definition be_load (bs : bytes) : Z := le_load (reverse bs).
Definition be_store (n : nat) (x : Z) : bytes := reverse (le_store n x).

(** POSIX [ntohs], [ntohl] and their inverses on a little-endian host: the
    bytes of the argument are read in network order. *)
Definition ntohs (x : Z) : Z := be_load (le_store 2 x).
Definition ntohl (x : Z) : Z := be_load (le_store 4 x).
Definition htons (x : Z) : Z := le_load (be_store 2 x).
Definition htonl (x : Z) : Z := le_load (be_store 4 x).

(** The macro of [ngtcp2_conv.h]. *)
Definition bswap64 (N : Z) : Z :=
  u64 (ntohl (u32 N) .<< 32) .| ntohl (u32 (N .>> 32)).

(** ** Reading *)

Definition ngtcp2_get_uint64 (p : bytes) : res Z :=
  n ← rdn 8 p; mret (bswap64 (le_load n)).

Definition ngtcp2_get_uint48 (p : bytes) : res Z :=
  n ← rdn 6 p; mret (bswap64 (le_load ([0; 0] ++ n))).

Definition ngtcp2_get_uint32 (p : bytes) : res Z :=
  n ← rdn 4 p; mret (ntohl (le_load n)).

Definition ngtcp2_get_uint24 (p : bytes) : res Z :=
  n ← rdn 3 p; mret (ntohl (le_load ([0] ++ n))).

Definition ngtcp2_get_uint16 (p : bytes) : res Z :=
  n ← rdn 2 p; mret (ntohs (le_load n)).

Definition varintlen_def : list Z := [1; 2; 4; 8].

(** [varintlen_def[i]] *)
Definition varintlen_at (i : Z) : res Z :=
  match varintlen_def !! Z.to_nat i with Some n => Ok n | None => Ub end.

(** [n.b[0] &= 0x3f] on the bytes copied into the union. *)
Definition mask_first (bs : bytes) : bytes :=
  match bs with [] => [] | b :: t => (b .& 0x3f) :: t end.

(** The value and [*plen]. *)
Definition ngtcp2_get_varint (p : bytes) : res (Z * Z) :=
  b ← rd p;
  plen ← varintlen_at (b .>> 6);
  if plen =? 1 then mret (b, plen)
  else if plen =? 2 then n ← rdn 2 p; mret (ntohs (le_load (mask_first n)), plen)
  else if plen =? 4 then n ← rdn 4 p; mret (ntohl (le_load (mask_first n)), plen)
  else if plen =? 8 then n ← rdn 8 p; mret (bswap64 (le_load (mask_first n)), plen)
  else Ub.

Definition ngtcp2_get_varint_len (p : bytes) : res Z :=
  b ← rd p; varintlen_at (b .>> 6).

(** ** Writing: the bytes stored at [p] *)

Definition ngtcp2_put_uint64be (n : Z) : bytes := le_store 8 (bswap64 n).
Definition ngtcp2_put_uint48be (n : Z) : bytes := drop 2 (le_store 8 (bswap64 n)).
Definition ngtcp2_put_uint32be (n : Z) : bytes := le_store 4 (htonl n).
Definition ngtcp2_put_uint24be (n : Z) : bytes := drop 1 (le_store 4 (htonl n)).
Definition ngtcp2_put_uint16be (n : Z) : bytes := le_store 2 (htons n).

(** [*p |= m] after the store. *)
Definition or_first (m : Z) (bs : bytes) : bytes :=
  match bs with [] => [] | b :: t => (b .| m) :: t end.

Definition ngtcp2_put_varint (n : Z) : res bytes :=
  if n <? 64 then mret [u8 n]
  else if n <? 16384 then mret (or_first 0x40 (ngtcp2_put_uint16be (u16 n)))
  else if n <? 1073741824 then mret (or_first 0x80 (ngtcp2_put_uint32be (u32 n)))
  else
    c_assert (n <? 4611686018427387904);;
    mret (or_first 0xc0 (ngtcp2_put_uint64be n)).

Definition ngtcp2_put_varint_len (n : Z) : res Z :=
  if n <? 64 then mret 1
  else if n <? 16384 then mret 2
  else if n <? 1073741824 then mret 4
  else c_assert (n <? 4611686018427387904);; mret 8.

(** ** Object representations: facts *)

Lemma length_le_store n x : length (le_store n x) = n.
Proof. revert x; induction n; simpl; auto. Qed.

Lemma le_store_bytes n x : all_bytes (le_store n x).
Proof.
  revert x; induction n; simpl; constructor; auto.
  unfold is_uint. apply Z.mod_pos_bound. lia.
Qed.

Lemma le_store_load bs : all_bytes bs -> le_store (length bs) (le_load bs) = bs.
Proof.
  induction 1 as [|b t Hb _ IH]; [done|]. cbn [length le_store le_load]. cints.
  f_equal.
  - rewrite Z.mul_comm, Z.mod_add by lia. apply Z.mod_small. lia.
  - rewrite Z.mul_comm, Z.div_add, (Z.div_small b) by lia. by rewrite Z.add_0_l.
Qed.

Lemma le_load_store n x : le_load (le_store n x) = x mod 2 ^ (8 * Z.of_nat n).
Proof.
  revert x; induction n as [|n IH]; intros x.
  - by rewrite Z.mod_1_r.
  - cbn [le_store le_load]. rewrite IH.
    replace (8 * Z.of_nat (S n)) with (8 + 8 * Z.of_nat n) by lia.
    rewrite Z.pow_add_r by lia. change (2 ^ 8) with 256.
    rewrite Z.rem_mul_r; [done | lia |]. apply Z.pow_pos_nonneg; lia.
Qed.

Lemma le_load_range bs : all_bytes bs -> 0 <= le_load bs < 2 ^ (8 * zlen bs).
Proof.
  intros H. pose proof (le_load_store (length bs) (le_load bs)) as E.
  rewrite le_store_load in E by done. rewrite E.
  apply Z.mod_pos_bound, Z.pow_pos_nonneg; unfold zlen; lia.
Qed.

Lemma zlen_le_store n x : zlen (le_store n x) = Z.of_nat n.
Proof. unfold zlen. by rewrite length_le_store. Qed.

Lemma le_store_mod n x : le_store n (x mod 2 ^ (8 * Z.of_nat n)) = le_store n x.
Proof.
  rewrite <- le_load_store.
  pose proof (le_store_load (le_store n x) (le_store_bytes n x)) as E.
  by rewrite length_le_store in E.
Qed.

Lemma le_store_app n m x :
  le_store (n + m) x = le_store n x ++ le_store m (x / 2 ^ (8 * Z.of_nat n)).
Proof.
  revert x; induction n as [|n IH]; intros x.
  - by rewrite Z.div_1_r.
  - cbn [le_store Nat.add app]. rewrite IH. do 3 f_equal.
    replace (8 * Z.of_nat (S n)) with (8 + 8 * Z.of_nat n) by lia.
    rewrite Z.pow_add_r by lia. change (2 ^ 8) with 256.
    rewrite Z.div_div; [done | lia |]. apply Z.pow_pos_nonneg; lia.
Qed.

Lemma le_load_app a b : le_load (a ++ b) = le_load a + 2 ^ (8 * zlen a) * le_load b.
Proof.
  induction a as [|x a IH].
  { change (zlen []) with 0. cbn [app le_load]. change (2 ^ (8 * 0)) with 1. lia. }
  cbn [app le_load]. rewrite IH, zlen_cons.
  replace (8 * (1 + zlen a)) with (8 + 8 * zlen a) by lia.
  rewrite Z.pow_add_r by (pose proof (zlen_nonneg a); lia). change (2 ^ 8) with 256. ring.
Qed.

Lemma zlen_reverse {A} (l : list A) : zlen (reverse l) = zlen l.
Proof. unfold zlen. by rewrite length_reverse. Qed.

Lemma zlen_be_store n x : zlen (be_store n x) = Z.of_nat n.
Proof. unfold be_store. by rewrite zlen_reverse, zlen_le_store. Qed.
#[export] Hint Rewrite zlen_le_store zlen_be_store @zlen_reverse : zlen.

Lemma be_store_bytes n x : all_bytes (be_store n x).
Proof. unfold be_store. apply Forall_reverse, le_store_bytes. Qed.

Lemma be_load_app a b : be_load (a ++ b) = be_load a * 2 ^ (8 * zlen b) + be_load b.
Proof. unfold be_load. rewrite reverse_app, le_load_app, zlen_reverse. ring. Qed.

Lemma be_load_range bs : all_bytes bs -> 0 <= be_load bs < 2 ^ (8 * zlen bs).
Proof.
  intros H. unfold be_load. rewrite <- zlen_reverse. apply le_load_range.
  by apply Forall_reverse.
Qed.

Lemma be_load_store n x : be_load (be_store n x) = x mod 2 ^ (8 * Z.of_nat n).
Proof. unfold be_load, be_store. by rewrite reverse_involutive, le_load_store. Qed.

Lemma be_store_S n x : be_store (S n) x = x / 2 ^ (8 * Z.of_nat n) mod 256 :: be_store n x.
Proof.
  unfold be_store. rewrite <- Nat.add_1_r, le_store_app, reverse_app. reflexivity.
Qed.

Lemma be_load_cons b t : be_load (b :: t) = b * 2 ^ (8 * zlen t) + be_load t.
Proof. change (b :: t) with ([b] ++ t). rewrite be_load_app. unfold be_load; simpl. lia. Qed.

(** ** The conversion routines compute network byte order *)

Lemma lor_shiftl_add x y k : 0 <= k -> 0 <= y < 2 ^ k -> (x .<< k) .| y = x * 2 ^ k + y.
Proof.
  intros Hk Hy.
  assert ((x .<< k) .& y = 0) as H0.
  { apply Z.bits_inj'. intros i Hi. rewrite Z.land_spec, Z.bits_0.
    destruct (Z.ltb_spec i k).
    - rewrite Z.shiftl_spec_low; done.
    - rewrite <- (Z.mod_small y (2 ^ k)), Z.mod_pow2_bits_high by lia.
      apply andb_false_r. }
  rewrite <- Z.lxor_lor, <- Z.add_nocarry_lxor by done.
  by rewrite Z.shiftl_mul_pow2.
Qed.

Lemma bswap64_spec N : is_uint 64 N -> bswap64 N = be_load (le_store 8 N).
Proof.
  intros HN. unfold bswap64, ntohl, u32.
  change 8%nat with (4 + 4)%nat. rewrite le_store_app, be_load_app, zlen_le_store.
  rewrite (le_store_mod 4), Z.shiftr_div_pow2, (le_store_mod 4) by lia.
  change (8 * Z.of_nat 4) with 32.
  pose proof (be_load_range (le_store 4 N) (le_store_bytes _ _)) as R1.
  pose proof (be_load_range (le_store 4 (N / 2 ^ 32)) (le_store_bytes _ _)) as R2.
  rewrite zlen_le_store in R1, R2. change (8 * Z.of_nat 4) with 32 in R1, R2.
  rewrite u64_small; [by apply lor_shiftl_add|].
  rewrite Z.shiftl_mul_pow2 by lia. cints. lia.
Qed.

Lemma htonl_store n : le_store 4 (htonl n) = be_store 4 n.
Proof. apply (le_store_load (be_store 4 n)). apply be_store_bytes. Qed.
Lemma htons_store n : le_store 2 (htons n) = be_store 2 n.
Proof. apply (le_store_load (be_store 2 n)). apply be_store_bytes. Qed.

Lemma put_uint64be_spec n : is_uint 64 n -> ngtcp2_put_uint64be n = be_store 8 n.
Proof.
  intros Hn. unfold ngtcp2_put_uint64be. rewrite bswap64_spec by done.
  apply (le_store_load (be_store 8 n)), be_store_bytes.
Qed.
Lemma put_uint32be_spec n : ngtcp2_put_uint32be n = be_store 4 n.
Proof. apply htonl_store. Qed.
Lemma put_uint16be_spec n : ngtcp2_put_uint16be n = be_store 2 n.
Proof. apply htons_store. Qed.

Lemma get_load_spec k bs :
  all_bytes bs -> zlen bs = Z.of_nat k -> be_load (le_store k (le_load bs)) = be_load bs.
Proof.
  intros Hb Hl. f_equal. replace k with (length bs) by (unfold zlen in Hl; lia).
  by apply le_store_load.
Qed.

Lemma bswap64_load bs : all_bytes bs -> zlen bs = 8 -> bswap64 (le_load bs) = be_load bs.
Proof.
  intros Hb Hl. pose proof (le_load_range bs Hb) as R. rewrite Hl in R.
  rewrite bswap64_spec by done. by apply get_load_spec.
Qed.

Lemma zlen_put_uint16be n : zlen (ngtcp2_put_uint16be n) = 2.
Proof. apply zlen_le_store. Qed.
Lemma zlen_put_uint32be n : zlen (ngtcp2_put_uint32be n) = 4.
Proof. apply zlen_le_store. Qed.
Lemma zlen_put_uint64be n : zlen (ngtcp2_put_uint64be n) = 8.
Proof. apply zlen_le_store. Qed.
#[export] Hint Rewrite zlen_put_uint16be zlen_put_uint32be zlen_put_uint64be : zlen.

(** ** Readers as specifications for the clients *)

Lemma wpe_get_uint64 p (Q : Z -> Prop) E :
  all_bytes p -> 8 <= zlen p -> (forall v, is_uint 64 v -> Q v) ->
  wpe (ngtcp2_get_uint64 p) Q E.
Proof.
  intros Hp Hl HQ. apply wpe_bind, wpe_rdn; [done | lia |].
  intros bs _ Hbs Hb. apply HQ. rewrite bswap64_load by done.
  pose proof (be_load_range bs Hb) as R. by rewrite Hbs in R.
Qed.

Lemma wpe_get_uint32 p (Q : Z -> Prop) E :
  all_bytes p -> 4 <= zlen p -> (forall v, is_uint 32 v -> Q v) ->
  wpe (ngtcp2_get_uint32 p) Q E.
Proof.
  intros Hp Hl HQ. apply wpe_bind, wpe_rdn; [done | lia |].
  intros bs _ Hbs Hb. apply HQ. unfold ntohl. rewrite get_load_spec by done.
  pose proof (be_load_range bs Hb) as R. by rewrite Hbs in R.
Qed.

Lemma wpe_get_uint16 p (Q : Z -> Prop) E :
  all_bytes p -> 2 <= zlen p -> (forall v, is_uint 16 v -> Q v) ->
  wpe (ngtcp2_get_uint16 p) Q E.
Proof.
  intros Hp Hl HQ. apply wpe_bind, wpe_rdn; [done | lia |].
  intros bs _ Hbs Hb. apply HQ. unfold ntohs. rewrite get_load_spec by done.
  pose proof (be_load_range bs Hb) as R. by rewrite Hbs in R.
Qed.

Lemma get_put_uint64 n p :
  is_uint 64 n -> ngtcp2_get_uint64 (ngtcp2_put_uint64be n ++ p) = Ok n.
Proof.
  intros Hn. rewrite put_uint64be_spec by done. unfold ngtcp2_get_uint64.
  rewrite rdn_app by apply zlen_be_store. res_simpl.
  rewrite bswap64_load, be_load_store; [by rewrite Z.mod_small | apply be_store_bytes | done].
Qed.

Lemma get_put_uint32 n p :
  is_uint 32 n -> ngtcp2_get_uint32 (ngtcp2_put_uint32be n ++ p) = Ok n.
Proof.
  intros Hn. rewrite put_uint32be_spec. unfold ngtcp2_get_uint32, ntohl.
  rewrite rdn_app by apply zlen_be_store. res_simpl.
  rewrite get_load_spec, be_load_store; [by rewrite Z.mod_small | apply be_store_bytes | done].
Qed.

Lemma get_put_uint16 n p :
  is_uint 16 n -> ngtcp2_get_uint16 (ngtcp2_put_uint16be n ++ p) = Ok n.
Proof.
  intros Hn. rewrite put_uint16be_spec. unfold ngtcp2_get_uint16, ntohs.
  rewrite rdn_app by apply zlen_be_store. res_simpl.
  rewrite get_load_spec, be_load_store; [by rewrite Z.mod_small | apply be_store_bytes | done].
Qed.

(** ** Variable-length integers *)

(** The length announced by the first byte, and the value stored at [p]. *)
Definition vlen (p : bytes) : Z :=
  match ngtcp2_get_varint_len p with Ok n => n | _ => 0 end.
Definition vval (p : bytes) : Z :=
  match ngtcp2_get_varint p with Ok (v, _) => v | _ => 0 end.

Lemma varintlen_byte b :
  is_byte b -> varintlen_at (b .>> 6) = Ok (2 ^ (b .>> 6)) /\ 0 <= b .>> 6 <= 3.
Proof.
  intros Hb.
  assert (match varintlen_at (b .>> 6) with
          | Ok n => (n =? 2 ^ (b .>> 6)) && (0 <=? b .>> 6) && (b .>> 6 <=? 3)
          | _ => false end = true) as H.
  { revert b Hb. apply byte_cases. vm_compute. reflexivity. }
  destruct (varintlen_at _); try done.
  rewrite !andb_true_iff, Z.eqb_eq, !Z.leb_le in H. destruct H as [[-> ?] ?]. auto.
Qed.

Lemma pow2_03 k : 0 <= k <= 3 -> 2 ^ k = 1 \/ 2 ^ k = 2 \/ 2 ^ k = 4 \/ 2 ^ k = 8.
Proof.
  intros H. assert (k = 0 \/ k = 1 \/ k = 2 \/ k = 3) as [-> | [-> | [-> | ->]]] by lia; auto.
Qed.

Lemma vlen_cons b p : is_byte b -> vlen (b :: p) = 2 ^ (b .>> 6).
Proof.
  intros Hb. unfold vlen, ngtcp2_get_varint_len. cbn [rd]. res_simpl.
  by destruct (varintlen_byte b Hb) as [-> _].
Qed.

Lemma vlen_cases p :
  all_bytes p -> 1 <= zlen p ->
  ngtcp2_get_varint_len p = Ok (vlen p) /\
  (vlen p = 1 \/ vlen p = 2 \/ vlen p = 4 \/ vlen p = 8).
Proof.
  intros Hp Hl. destruct Hp as [|b p Hb Hp]; [rewrite zlen_nil in Hl; lia|].
  rewrite vlen_cons by done. destruct (varintlen_byte b Hb) as [E ?].
  split; [exact E | by apply pow2_03].
Qed.

Lemma mask_first_small bs :
  all_bytes bs -> all_bytes (mask_first bs) /\ zlen (mask_first bs) = zlen bs /\
  be_load (mask_first bs) < 2 ^ (8 * zlen bs) / 4 \/ bs = [].
Proof.
  intros H. destruct H as [|b t Hb Ht]; [by right|left]. cbn [mask_first].
  assert (0 <= b .& 63 < 64) as Hm.
  { change 63 with (Z.ones 6). rewrite Z.land_ones by lia. apply Z.mod_pos_bound. lia. }
  split; [constructor; [cints; lia | done]|]. rewrite !zlen_cons. split; [done|].
  rewrite be_load_cons. pose proof (be_load_range t Ht) as R.
  replace (8 * (1 + zlen t)) with (8 + 8 * zlen t) by lia.
  pose proof (zlen_nonneg t). rewrite Z.pow_add_r by lia.
  change (2 ^ 8) with (64 * 4).
  replace (64 * 4 * 2 ^ (8 * zlen t)) with (64 * 2 ^ (8 * zlen t) * 4) by ring.
  rewrite Z.div_mul by lia. nia.
Qed.

Lemma get_varint_spec p :
  all_bytes p -> 1 <= zlen p -> vlen p <= zlen p ->
  ngtcp2_get_varint p = Ok (vval p, vlen p) /\ 0 <= vval p < 2 ^ (8 * vlen p) / 4.
Proof.
  intros Hp Hl Hv.
  enough (exists v, ngtcp2_get_varint p = Ok (v, vlen p) /\ 0 <= v < 2 ^ (8 * vlen p) / 4)
    as (v & E & R).
  { unfold vval. by rewrite E. }
  destruct (vlen_cases p Hp Hl) as [_ Hc].
  destruct Hp as [|b p' Hb Hp']; [rewrite zlen_nil in Hl; lia|].
  unfold ngtcp2_get_varint. cbn [rd]. res_simpl.
  destruct (varintlen_byte b Hb) as [-> Hk]. res_simpl.
  pose proof (vlen_cons b p' Hb) as Hn. rewrite <- Hn. set (p := b :: p') in *.
  assert (all_bytes p) as Hp by (by constructor). clearbody p.
  revert Hn Hv Hc. generalize (vlen p). intros n Hn Hv Hc.
  assert (forall k, n = k -> rdn k p = Ok (take (Z.to_nat k) p)) as Hrd.
  { intros k ->. unfold rdn. rewrite !(proj2 (Z.leb_le _ _)) by lia. done. }
  destruct Hc as [-> | [-> | [-> | ->]]]; cbn [Z.eqb Pos.eqb].
  { eexists. split; [done|]. cints. change (_ / 4) with 64.
    pose proof (Z.pow_gt_1 2 (b .>> 6)) as P. assert (b .>> 6 = 0) as B0 by lia.
    rewrite Z.shiftr_div_pow2 in B0 by lia. change (2 ^ 6) with 64 in B0.
    apply Z.div_small_iff in B0; lia. }
  all: rewrite Hrd by done; res_simpl; eexists; (split; [done|]).
  all: match goal with |- context [take ?k ?l] => set (bs := take k l) end.
  all: assert (all_bytes bs) as Hbs by (by apply Forall_take).
  all: assert (zlen bs = Z.of_nat (length bs)) as Hlb by done.
  all: unfold bs in Hlb at 1; rewrite zlen_take in Hlb.
  all: destruct (mask_first_small bs Hbs) as [(M1 & M2 & M3) | E];
    [| rewrite E in Hlb; simpl in Hlb; lia].
  all: unfold ntohs, ntohl.
  all: rewrite ?get_load_spec, ?bswap64_load by (try done; rewrite M2; unfold zlen; lia).
  all: pose proof (be_load_range _ M1) as R; unfold zlen in M3.
  all: rewrite <- Hlb, Z.min_l in M3 by lia; split; [lia | exact M3].
Qed.

Lemma vval_range p : all_bytes p -> 1 <= zlen p -> vlen p <= zlen p -> is_uint 62 (vval p).
Proof.
  intros Hp Hl Hv. destruct (get_varint_spec p Hp Hl Hv) as [_ R].
  destruct (vlen_cases p Hp Hl) as [_ Hc]. cints.
  destruct Hc as [Hc | [Hc | [Hc | Hc]]]; rewrite Hc in R; vm_compute (_ / _) in R; lia.
Qed.

Lemma wpe_get_varint_len p (Q : Z -> Prop) E :
  all_bytes p -> 1 <= zlen p ->
  (forall n, n = vlen p -> n = 1 \/ n = 2 \/ n = 4 \/ n = 8 -> Q n) ->
  wpe (ngtcp2_get_varint_len p) Q E.
Proof. intros Hp Hl HQ. destruct (vlen_cases p Hp Hl) as [-> ?]. by apply HQ. Qed.

Lemma wpe_get_varint_len_known p n (Q : Z -> Prop) E :
  n = vlen p -> all_bytes p -> 1 <= zlen p -> Q n -> wpe (ngtcp2_get_varint_len p) Q E.
Proof. intros -> Hp Hl HQ. by destruct (vlen_cases p Hp Hl) as [-> _]. Qed.

Lemma wpe_get_varint p n (Q : Z * Z -> Prop) E :
  all_bytes p -> n = vlen p -> 1 <= zlen p -> n <= zlen p ->
  (forall v, v = vval p -> is_uint 62 v -> Q (v, n)) -> wpe (ngtcp2_get_varint p) Q E.
Proof.
  intros Hp -> Hl Hv HQ. destruct (get_varint_spec p Hp Hl Hv) as [-> R].
  apply HQ; [done | by apply vval_range].
Qed.

(** Tagging the first byte of a big-endian integer that leaves its two high
    bits free, and reading it back. *)
Lemma tagged_first b k :
  0 <= b < 64 -> 0 <= k <= 3 ->
  let t := b .| (64 * k) in is_byte t /\ t .>> 6 = k /\ t .& 0x3f = b.
Proof.
  intros Hb Hk t. subst t.
  replace (b .| (64 * k)) with (64 * k + b).
  2:{ pose proof (lor_shiftl_add k b 6) as H. rewrite Z.shiftl_mul_pow2 in H by lia.
      change (2 ^ 6) with 64 in H. rewrite (Z.mul_comm 64), (Z.lor_comm b).
      symmetry. apply H; lia. }
  change 0x3f with (Z.ones 6). rewrite Z.shiftr_div_pow2, Z.land_ones by lia.
  change (2 ^ 6) with 64. rewrite (Z.mul_comm 64), Z.add_comm.
  rewrite Z.div_add, Z.mod_add, Z.div_small, Z.mod_small by lia. cints. lia.
Qed.

(** The [k]-th encoding (2^k bytes) of [n]. *)
Lemma tagged_be (k : nat) n rest :
  (1 <= k <= 3)%nat -> 0 <= n < 2 ^ (8 * 2 ^ Z.of_nat k) / 4 ->
  let bs := or_first (64 * Z.of_nat k) (be_store (2 ^ k) n) in
  all_bytes bs /\ zlen bs = 2 ^ Z.of_nat k /\
  ngtcp2_get_varint (bs ++ rest) = Ok (n, zlen bs).
Proof.
  intros Hk Hn bs.
  destruct (2 ^ k)%nat as [|m] eqn:Hm; [by apply Nat.pow_nonzero in Hm|].
  assert (2 ^ Z.of_nat k = Z.of_nat (S m)) as Hz.
  { rewrite <- Hm, Nat2Z.inj_pow. done. }
  unfold bs. rewrite be_store_S. cbn [or_first].
  set (b := n / 2 ^ (8 * Z.of_nat m) mod 256).
  assert (b = n / 2 ^ (8 * Z.of_nat m) /\ 0 <= b < 64) as [Eb Hb].
  { rewrite Hz in Hn. replace (8 * Z.of_nat (S m)) with (8 * Z.of_nat m + 8) in Hn by lia.
    rewrite Z.pow_add_r in Hn by lia. change (2 ^ 8) with (64 * 4) in Hn.
    rewrite Z.mul_assoc, Z.div_mul in Hn by lia.
    assert (0 <= n / 2 ^ (8 * Z.of_nat m) < 64).
    { split; [apply Z.div_pos; lia | apply Z.div_lt_upper_bound; lia]. }
    unfold b. rewrite Z.mod_small by lia. lia. }
  destruct (tagged_first b (Z.of_nat k)) as (T1 & T2 & T3); [done | lia |].
  set (t := b .| (64 * Z.of_nat k)) in *.
  assert (all_bytes (t :: be_store m n)) as Hall by (constructor; [done | apply be_store_bytes]).
  assert (zlen (t :: be_store m n) = Z.of_nat (S m)) as Hlen.
  { rewrite zlen_cons, zlen_be_store. lia. }
  split; [done|]. split; [by rewrite Hlen|].
  rewrite Hlen. unfold ngtcp2_get_varint. cbn [app rd]. res_simpl.
  destruct (varintlen_byte t T1) as [-> _]. rewrite T2, Hz. res_simpl.
  change (t :: be_store m n ++ rest) with ((t :: be_store m n) ++ rest).
  assert (be_load (mask_first (t :: be_store m n)) = n /\
          all_bytes (mask_first (t :: be_store m n)) /\
          zlen (mask_first (t :: be_store m n)) = Z.of_nat (S m)) as (L1 & L2 & L3).
  { cbn [mask_first]. rewrite T3. split; [|split].
    - rewrite be_load_cons, be_load_store, zlen_be_store, Eb.
      pose proof (Z.div_mod n (2 ^ (8 * Z.of_nat m))) as D.
      assert (0 < 2 ^ (8 * Z.of_nat m)) by (apply Z.pow_pos_nonneg; lia). lia.
    - constructor; [cints; lia | apply be_store_bytes].
    - rewrite zlen_cons, zlen_be_store. lia. }
  assert (k = 1 \/ k = 2 \/ k = 3)%nat as [-> | [-> | ->]] by lia;
    injection Hm as <-;
    change (Z.of_nat 2) with 2 in *; change (Z.of_nat 4) with 4 in *;
    change (Z.of_nat 8) with 8 in *; cbn [Z.eqb Pos.eqb];
    rewrite rdn_app by done; res_simpl; unfold ntohs, ntohl;
    rewrite ?get_load_spec, ?bswap64_load, L1 by done; done.
Qed.

(** [encodes n bs]: [bs] is read back as [n], whatever follows it. *)
Definition encodes (n : Z) (bs : bytes) : Prop :=
  all_bytes bs /\ 1 <= zlen bs <= 8 /\
  forall rest, ngtcp2_get_varint (bs ++ rest) = Ok (n, zlen bs).

Lemma tagged_encodes (k : nat) n bs len :
  (1 <= k <= 3)%nat -> 0 <= n < 2 ^ (8 * 2 ^ Z.of_nat k) / 4 ->
  bs = or_first (64 * Z.of_nat k) (be_store (2 ^ k) n) -> len = 2 ^ Z.of_nat k ->
  exists bs', Ok bs = Ok bs' /\ Ok len = Ok (zlen bs') /\ encodes n bs'.
Proof.
  intros Hk Hn -> ->. destruct (tagged_be k n [] Hk Hn) as (A & B & _).
  eexists. split; [done|]. split; [by rewrite B|]. split; [done|]. split.
  - rewrite B. destruct (pow2_03 (Z.of_nat k)) as [-> | [-> | [-> | ->]]]; lia.
  - intros rest. by apply tagged_be.
Qed.

Lemma put_varint_spec n :
  is_uint 62 n ->
  exists bs, ngtcp2_put_varint n = Ok bs /\ ngtcp2_put_varint_len n = Ok (zlen bs) /\
    encodes n bs.
Proof.
  intros Hn. unfold ngtcp2_put_varint, ngtcp2_put_varint_len, c_assert. cints.
  destruct (Z.ltb_spec n 64).
  { exists [u8 n]. rewrite u8_small by clia. split; [done|]. split; [done|].
    split; [constructor; [clia | constructor]|]. split; [change (zlen [n]) with 1; lia|].
    intros rest. unfold ngtcp2_get_varint. cbn [app rd]. res_simpl.
    destruct (varintlen_byte n) as [-> _]; [clia|].
    rewrite Z.shiftr_div_pow2, Z.div_small by lia. done. }
  destruct (Z.ltb_spec n 16384).
  { rewrite u16_small, put_uint16be_spec by clia.
    apply (tagged_encodes 1); [lia | change (_ / 4) with 16384; lia | done..]. }
  destruct (Z.ltb_spec n 1073741824).
  { rewrite u32_small, put_uint32be_spec by clia.
    apply (tagged_encodes 2); [lia | change (_ / 4) with 1073741824; lia | done..]. }
  rewrite (proj2 (Z.ltb_lt n _)), put_uint64be_spec by clia.
  apply (tagged_encodes 3); [lia | change (_ / 4) with 4611686018427387904; lia | done..].
Qed.

(** The bytes and the length of the encoding of a value in range. *)
Definition vbytes (n : Z) : bytes :=
  match ngtcp2_put_varint n with Ok bs => bs | _ => [] end.

Section Varint.
Context (n : Z) (Hn : is_uint 62 n).

Lemma put_varint_ok : ngtcp2_put_varint n = Ok (vbytes n).
Proof. unfold vbytes. by destruct (put_varint_spec n Hn) as (bs & -> & _). Qed.

Lemma put_varint_len_ok : ngtcp2_put_varint_len n = Ok (zlen (vbytes n)).
Proof. unfold vbytes. by destruct (put_varint_spec n Hn) as (bs & -> & -> & _). Qed.

Lemma vbytes_bytes : all_bytes (vbytes n).
Proof. unfold vbytes. by destruct (put_varint_spec n Hn) as (bs & -> & _ & ? & _ & _). Qed.

Lemma vbytes_len : 1 <= zlen (vbytes n) <= 8.
Proof. unfold vbytes. by destruct (put_varint_spec n Hn) as (bs & -> & _ & _ & ? & _). Qed.

Lemma get_vbytes rest : ngtcp2_get_varint (vbytes n ++ rest) = Ok (n, zlen (vbytes n)).
Proof. unfold vbytes. by destruct (put_varint_spec n Hn) as (bs & -> & _ & _ & _ & H). Qed.

Lemma get_len_vbytes rest : ngtcp2_get_varint_len (vbytes n ++ rest) = Ok (zlen (vbytes n)).
Proof.
  pose proof (get_vbytes rest) as H. unfold ngtcp2_get_varint in H.
  unfold ngtcp2_get_varint_len. destruct (rd _) as [b|e|]; try done. revert H. res_simpl.
  destruct (varintlen_at _) as [k|e|]; try done. res_simpl. bdestr; try done;
  repeat match goal with |- context [rdn ?a ?b] => destruct (rdn a b) end; try done;
  res_simpl; intros [= _ <-]; done.
Qed.
End Varint.

(** No encoding of a value is shorter than the one [ngtcp2_put_varint] emits. *)
Lemma vbytes_len_min p :
  all_bytes p -> 1 <= zlen p -> vlen p <= zlen p -> zlen (vbytes (vval p)) <= vlen p.
Proof.
  intros Hp Hl Hv. destruct (get_varint_spec p Hp Hl Hv) as [_ R].
  destruct (vlen_cases p Hp Hl) as [_ Hc].
  pose proof (put_varint_len_ok _ (vval_range p Hp Hl Hv)) as Hlen.
  revert Hlen. unfold ngtcp2_put_varint_len, c_assert.
  destruct Hc as [Hc | [Hc | [Hc | Hc]]]; rewrite Hc in *; vm_compute (_ / _) in R;
    bdestr; try lia; res_simpl; intros [= <-]; lia.
Qed.

(** The 24-bit and 48-bit routines go through the wider integer. *)
Lemma get_put_uint24 n p :
  is_uint 24 n -> ngtcp2_put_uint24be n = be_store 3 n /\
  ngtcp2_get_uint24 (ngtcp2_put_uint24be n ++ p) = Ok n.
Proof.
  intros Hn. assert (Hp : ngtcp2_put_uint24be n = be_store 3 n).
  { unfold ngtcp2_put_uint24be. by rewrite htonl_store, be_store_S. }
  split; [done|]. rewrite Hp. unfold ngtcp2_get_uint24, ntohl.
  rewrite rdn_app by apply zlen_be_store. res_simpl. f_equal.
  rewrite get_load_spec; [|constructor; [clia | apply be_store_bytes] | by rewrite zlen_app, zlen_be_store].
  simpl app. rewrite be_load_cons, be_load_store, Z.mod_small by done. lia.
Qed.

Lemma get_put_uint48 n p :
  is_uint 48 n -> ngtcp2_put_uint48be n = be_store 6 n /\
  ngtcp2_get_uint48 (ngtcp2_put_uint48be n ++ p) = Ok n.
Proof.
  intros Hn. assert (Hp : ngtcp2_put_uint48be n = be_store 6 n).
  { unfold ngtcp2_put_uint48be. change (le_store 8 (bswap64 n)) with (ngtcp2_put_uint64be n).
    rewrite put_uint64be_spec by clia. by rewrite !be_store_S. }
  split; [done|]. rewrite Hp. unfold ngtcp2_get_uint48.
  rewrite rdn_app by apply zlen_be_store. res_simpl. f_equal.
  rewrite bswap64_load; [|repeat (constructor; [clia|]); apply be_store_bytes
    | by rewrite zlen_app, zlen_be_store].
  simpl app. rewrite !be_load_cons, be_load_store, Z.mod_small by done. lia.
Qed.

#[global] Opaque ngtcp2_put_uint64be ngtcp2_put_uint32be ngtcp2_put_uint16be.

(** ** Properties *)

(** A variable-length integer of up to 62 bits is written in 1, 2, 4 or 8
    bytes, as many as [ngtcp2_put_varint_len] announces, and is read back from
    them whatever follows; a wider value fails the assertion. *)
Theorem varint_roundtrip n rest :
  0 <= n ->
  if n <? 2 ^ 62 then
    exists bs, ngtcp2_put_varint n = Ok bs /\ ngtcp2_put_varint_len n = Ok (zlen bs) /\
      zlen bs ∈ varintlen_def /\ all_bytes bs /\
      ngtcp2_get_varint_len (bs ++ rest) = Ok (zlen bs) /\
      ngtcp2_get_varint (bs ++ rest) = Ok (n, zlen bs)
  else ngtcp2_put_varint n = Ub /\ ngtcp2_put_varint_len n = Ub.
Proof.
  intros Hn. destruct (Z.ltb_spec n (2 ^ 62)).
  - assert (Hu : is_uint 62 n) by clia. exists (vbytes n).
    rewrite put_varint_ok, put_varint_len_ok, get_vbytes, get_len_vbytes by done.
    split_and!; try done; [|by apply vbytes_bytes].
    pose proof (put_varint_len_ok n Hu) as H'. unfold ngtcp2_put_varint_len in H'.
    unfold varintlen_def. rewrite !elem_of_cons. revert H'. bdestr; res_simpl; intros [= <-]; auto.
  - unfold ngtcp2_put_varint, ngtcp2_put_varint_len. bdestr; try lia; done.
Qed.

Lemma varint_roundtrip_witness :
  exists bs, ngtcp2_put_varint 15293 = Ok bs /\ ngtcp2_get_varint (bs ++ [7]) = Ok (15293, zlen bs).
Proof. destruct (varint_roundtrip 15293 [7]) as (bs & ? & _ & _ & _ & _ & ?); [lia | eauto]. Defined.

(** The writer is minimal: whatever encoding a value was read from,
    [ngtcp2_put_varint] does not need more bytes for it. *)
Theorem varint_shortest p v n :
  all_bytes p -> ngtcp2_get_varint p = Ok (v, n) ->
  exists bs, ngtcp2_put_varint v = Ok bs /\ zlen bs <= n.
Proof.
  intros Hp Hg. assert (Hl : 1 <= zlen p /\ vlen p <= zlen p).
  { destruct p as [|b p]; [done|]. rewrite zlen_cons. pose proof (zlen_nonneg p). split; [lia|].
    inversion Hp as [|? ? Hb _]; subst. rewrite vlen_cons by done.
    destruct (varintlen_byte b Hb) as [Hv Hk]. unfold ngtcp2_get_varint in Hg. cbn [rd mbind res_bind] in Hg.
    rewrite Hv in Hg. cbn [mbind res_bind] in Hg.
    destruct (pow2_03 _ Hk) as [E|[E|[E|E]]]; rewrite E in *; [lia|..]; unfold rdn in Hg;
      rewrite zlen_cons in Hg; simpl in Hg; revert Hg; bdestr; try done; lia. }
  destruct (get_varint_spec p Hp) as [Hs _]; [tauto..|]. rewrite Hg in Hs. injection Hs as -> ->.
  exists (vbytes (vval p)). split; [apply put_varint_ok, vval_range; tauto|].
  apply vbytes_len_min; tauto.
Qed.

Lemma varint_shortest_witness : exists bs, ngtcp2_put_varint 5 = Ok bs /\ zlen bs <= 4.
Proof. apply (varint_shortest [0x80; 0; 0; 5]); [repeat constructor; done | reflexivity]. Defined.

(** The fixed-width routines write network byte order and read it back, at
    every width: 16, 24, 32, 48 and 64 bits. *)
Theorem uint_roundtrip n rest :
  is_uint 64 n ->
  (ngtcp2_put_uint64be n = be_store 8 n /\ ngtcp2_get_uint64 (ngtcp2_put_uint64be n ++ rest) = Ok n) /\
  (is_uint 48 n ->
    ngtcp2_put_uint48be n = be_store 6 n /\ ngtcp2_get_uint48 (ngtcp2_put_uint48be n ++ rest) = Ok n) /\
  (is_uint 32 n ->
    ngtcp2_put_uint32be n = be_store 4 n /\ ngtcp2_get_uint32 (ngtcp2_put_uint32be n ++ rest) = Ok n) /\
  (is_uint 24 n ->
    ngtcp2_put_uint24be n = be_store 3 n /\ ngtcp2_get_uint24 (ngtcp2_put_uint24be n ++ rest) = Ok n) /\
  (is_uint 16 n ->
    ngtcp2_put_uint16be n = be_store 2 n /\ ngtcp2_get_uint16 (ngtcp2_put_uint16be n ++ rest) = Ok n).
Proof.
  intros Hn. split_and!; try intros ?;
    eauto using put_uint64be_spec, get_put_uint64, put_uint32be_spec, get_put_uint32,
      put_uint16be_spec, get_put_uint16, get_put_uint48, get_put_uint24.
  all: by apply get_put_uint48 || by apply get_put_uint24.
Qed.

Lemma uint_roundtrip_witness : ngtcp2_get_uint24 (ngtcp2_put_uint24be 0x010203 ++ [9]) = Ok 0x010203.
Proof. apply (uint_roundtrip 0x010203 [9]); done. Defined.
