(* ===== verification/Frame.v ===== *)
(** Wire constants, the packet header and the frames of
    [lib/includes/ngtcp2/ngtcp2.h] and [lib/ngtcp2_pkt.h].

    A (pointer, length) pair of a struct ([data]/[datalen],
    [reason]/[reasonlen], [blks]/[num_blks]) is one list; the [type] member of
    a frame is the constructor of the union [ngtcp2_frame]. *)

From S2P Require Import Prelude.

(** ** Error codes: [ngtcp2_lib_error] *)

Definition NGTCP2_ERR_INVALID_ARGUMENT : Z := -201.
Definition NGTCP2_ERR_UNKNOWN_PKT_TYPE : Z := -202.
Definition NGTCP2_ERR_NOBUF : Z := -203.
Definition NGTCP2_ERR_BAD_PKT_HASH : Z := -204.
Definition NGTCP2_ERR_PROTO : Z := -205.
Definition NGTCP2_ERR_INVALID_STATE : Z := -206.
Definition NGTCP2_ERR_ACK_FRAME : Z := -207.
Definition NGTCP2_ERR_STREAM_ID_BLOCKED : Z := -208.
Definition NGTCP2_ERR_STREAM_IN_USE : Z := -209.
Definition NGTCP2_ERR_STREAM_DATA_BLOCKED : Z := -210.
Definition NGTCP2_ERR_FLOW_CONTROL : Z := -211.
Definition NGTCP2_ERR_PKT_TIMEOUT : Z := -212.
Definition NGTCP2_ERR_STREAM_ID : Z := -213.
Definition NGTCP2_ERR_FINAL_OFFSET : Z := -214.
Definition NGTCP2_ERR_TLS_HANDSHAKE : Z := -215.
Definition NGTCP2_ERR_PKT_NUM_EXHAUSTED : Z := -216.
Definition NGTCP2_ERR_REQUIRED_TRANSPORT_PARAM : Z := -217.
Definition NGTCP2_ERR_MALFORMED_TRANSPORT_PARAM : Z := -218.
Definition NGTCP2_ERR_FRAME_FORMAT : Z := -219.
Definition NGTCP2_ERR_TLS_DECRYPT : Z := -220.
Definition NGTCP2_ERR_STREAM_SHUT_WR : Z := -221.
Definition NGTCP2_ERR_STREAM_NOT_FOUND : Z := -222.
Definition NGTCP2_ERR_VERSION_NEGOTIATION : Z := -223.
Definition NGTCP2_ERR_TLS_FATAL_ALERT_GENERATED : Z := -224.
Definition NGTCP2_ERR_TLS_FATAL_ALERT_RECEIVED : Z := -225.
Definition NGTCP2_ERR_STREAM_STATE : Z := -226.
Definition NGTCP2_ERR_NOKEY : Z := -227.
Definition NGTCP2_ERR_EARLY_DATA_REJECTED : Z := -228.
Definition NGTCP2_ERR_FATAL : Z := -500.
Definition NGTCP2_ERR_NOMEM : Z := -501.
Definition NGTCP2_ERR_CALLBACK_FAILURE : Z := -502.
Definition NGTCP2_ERR_INTERNAL : Z := -503.

(** ** Packet header constants *)

Definition NGTCP2_HEADER_FORM_BIT : Z := 0x80.
Definition NGTCP2_OMIT_CONN_ID_BIT : Z := 0x40.
Definition NGTCP2_KEY_PHASE_BIT : Z := 0x20.
Definition NGTCP2_LONG_TYPE_MASK : Z := 0x7f.
Definition NGTCP2_SHORT_TYPE_MASK : Z := 0x1f.
Definition NGTCP2_LONG_HEADERLEN : Z := 17.

Definition NGTCP2_PKT_FLAG_NONE : Z := 0.
Definition NGTCP2_PKT_FLAG_LONG_FORM : Z := 0x01.
Definition NGTCP2_PKT_FLAG_OMIT_CONN_ID : Z := 0x02.
Definition NGTCP2_PKT_FLAG_KEY_PHASE : Z := 0x04.

Definition NGTCP2_PKT_VERSION_NEGOTIATION : Z := 0x00.
Definition NGTCP2_PKT_INITIAL : Z := 0x7F.
Definition NGTCP2_PKT_RETRY : Z := 0x7E.
Definition NGTCP2_PKT_HANDSHAKE : Z := 0x7D.
Definition NGTCP2_PKT_0RTT_PROTECTED : Z := 0x7C.
Definition NGTCP2_PKT_01 : Z := 0x1F.
Definition NGTCP2_PKT_02 : Z := 0x1E.
Definition NGTCP2_PKT_03 : Z := 0x1D.

Record ngtcp2_pkt_hd := mk_pkt_hd {
  hd_flags : Z;
  hd_type : Z;
  hd_conn_id : Z;
  hd_pkt_num : Z;
  hd_version : Z
}.

(** ** Frame constants *)

Definition NGTCP2_FRAME_PADDING : Z := 0x00.
Definition NGTCP2_FRAME_RST_STREAM : Z := 0x01.
Definition NGTCP2_FRAME_CONNECTION_CLOSE : Z := 0x02.
Definition NGTCP2_FRAME_APPLICATION_CLOSE : Z := 0x03.
Definition NGTCP2_FRAME_MAX_DATA : Z := 0x04.
Definition NGTCP2_FRAME_MAX_STREAM_DATA : Z := 0x05.
Definition NGTCP2_FRAME_MAX_STREAM_ID : Z := 0x06.
Definition NGTCP2_FRAME_PING : Z := 0x07.
Definition NGTCP2_FRAME_BLOCKED : Z := 0x08.
Definition NGTCP2_FRAME_STREAM_BLOCKED : Z := 0x09.
Definition NGTCP2_FRAME_STREAM_ID_BLOCKED : Z := 0x0a.
Definition NGTCP2_FRAME_NEW_CONNECTION_ID : Z := 0x0b.
Definition NGTCP2_FRAME_STOP_SENDING : Z := 0x0c.
Definition NGTCP2_FRAME_PONG : Z := 0x0d.
Definition NGTCP2_FRAME_ACK : Z := 0x0e.
Definition NGTCP2_FRAME_STREAM : Z := 0x10.

Definition NGTCP2_STREAM_FIN_BIT : Z := 0x01.
Definition NGTCP2_STREAM_LEN_BIT : Z := 0x02.
Definition NGTCP2_STREAM_OFF_BIT : Z := 0x04.

Definition NGTCP2_MAX_ACK_BLKS : Z := 255.
Definition NGTCP2_STATELESS_RESET_TOKENLEN : Z := 16.

(** ** Frames *)

Record ngtcp2_stream := mk_stream {
  stream_flags : Z;
  stream_fin : Z;
  stream_stream_id : Z;
  stream_offset : Z;
  stream_data : bytes
}.

Record ngtcp2_ack_blk := mk_ack_blk { blk_gap : Z; blk_blklen : Z }.

Record ngtcp2_ack := mk_ack {
  ack_largest_ack : Z;
  ack_ack_delay : Z;
  ack_first_ack_blklen : Z;
  ack_blks : list ngtcp2_ack_blk
}.

Record ngtcp2_rst_stream := mk_rst_stream {
  rst_stream_id : Z;
  rst_app_error_code : Z;
  rst_final_offset : Z
}.

(** [ngtcp2_connection_close] and [ngtcp2_application_close]. *)
Record ngtcp2_close := mk_close {
  close_error_code : Z;
  close_reason : bytes
}.

Record ngtcp2_new_connection_id := mk_new_connection_id {
  ncid_seq : Z;
  ncid_conn_id : Z;
  ncid_stateless_reset_token : bytes
}.

(** The union [ngtcp2_frame]. [fr_other] is a frame whose [type] is none of
    [ngtcp2_frame_type]. *)
Inductive ngtcp2_frame :=
| fr_stream (fr : ngtcp2_stream)
| fr_ack (fr : ngtcp2_ack)
| fr_padding (len : Z)
| fr_rst_stream (fr : ngtcp2_rst_stream)
| fr_connection_close (fr : ngtcp2_close)
| fr_application_close (fr : ngtcp2_close)
| fr_max_data (max_data : Z)
| fr_max_stream_data (stream_id max_stream_data : Z)
| fr_max_stream_id (max_stream_id : Z)
| fr_ping (data : bytes)
| fr_blocked (offset : Z)
| fr_stream_blocked (stream_id offset : Z)
| fr_stream_id_blocked (stream_id : Z)
| fr_new_connection_id (fr : ngtcp2_new_connection_id)
| fr_stop_sending (stream_id app_error_code : Z)
| fr_pong (data : bytes)
| fr_other (type : Z).

(** ** Ranges of the fields

    [wf_frame fr]: the members of [fr] fit the types and the wire format;
    what the application must provide for [fr] to be encodable. *)

Definition wf_blk (b : ngtcp2_ack_blk) : Prop :=
  is_uint 62 (blk_gap b) /\ is_uint 62 (blk_blklen b).

Definition wf_close (fr : ngtcp2_close) : Prop :=
  is_uint 16 (close_error_code fr) /\ all_bytes (close_reason fr) /\
  is_uint 62 (zlen (close_reason fr)).

Definition wf_frame (fr : ngtcp2_frame) : Prop :=
  match fr with
  | fr_stream s =>
      is_uint 62 (stream_stream_id s) /\ is_uint 62 (stream_offset s) /\
      all_bytes (stream_data s) /\ is_uint 62 (zlen (stream_data s))
  | fr_ack a =>
      is_uint 62 (ack_largest_ack a) /\ is_uint 62 (ack_ack_delay a) /\
      is_uint 62 (ack_first_ack_blklen a) /\ Forall wf_blk (ack_blks a) /\
      zlen (ack_blks a) <= NGTCP2_MAX_ACK_BLKS
  | fr_padding n => 1 <= n < 2 ^ 64
  | fr_rst_stream r =>
      is_uint 62 (rst_stream_id r) /\ is_uint 16 (rst_app_error_code r) /\
      is_uint 62 (rst_final_offset r)
  | fr_connection_close c | fr_application_close c => wf_close c
  | fr_max_data v | fr_max_stream_id v | fr_blocked v | fr_stream_id_blocked v =>
      is_uint 62 v
  | fr_max_stream_data i v | fr_stream_blocked i v => is_uint 62 i /\ is_uint 62 v
  | fr_ping d | fr_pong d => all_bytes d /\ zlen d <= 255
  | fr_new_connection_id c =>
      is_uint 16 (ncid_seq c) /\ is_uint 64 (ncid_conn_id c) /\
      all_bytes (ncid_stateless_reset_token c) /\
      zlen (ncid_stateless_reset_token c) = NGTCP2_STATELESS_RESET_TOKENLEN
  | fr_stop_sending i e => is_uint 62 i /\ is_uint 16 e
  | fr_other _ => False
  end.

(** What the encoder is given. An ACK frame the library builds may have one block
    more than it reads. *)
Definition encodable (fr : ngtcp2_frame) : Prop :=
  match fr with
  | fr_ack a =>
      is_uint 62 (ack_largest_ack a) /\ is_uint 62 (ack_ack_delay a) /\
      is_uint 62 (ack_first_ack_blklen a) /\ Forall wf_blk (ack_blks a) /\
      zlen (ack_blks a) <= NGTCP2_MAX_ACK_BLKS + 1
  | _ => wf_frame fr
  end.

Lemma wf_encodable fr : wf_frame fr -> encodable fr.
Proof. destruct fr; simpl; try done. intros (? & ? & ? & ? & ?). split_and!; try done. lia. Qed.
