(* ===== verification/PktDecode.v ===== *)
(** Frame decoding: [ngtcp2_pkt_decode_frame] and the decoders it dispatches
    to ([lib/ngtcp2_pkt.c]). Each decoder returns the frame and the number of
    bytes read. The first pass over the payload computes [len] and checks it
    against [payloadlen]; the second pass reads the fields. *)

From S2P Require Import Prelude Conv Frame.

(** [if (payloadlen < len) { return NGTCP2_ERR_FRAME_FORMAT; }] *)
Definition check_len (payload : bytes) (len : Z) : res unit :=
  fail_if (zlen payload <? len) NGTCP2_ERR_FRAME_FORMAT.

(** [n = ngtcp2_get_varint_len(p); len += n - 1;] and the check that follows. *)
Definition varint_len_checked (payload p : bytes) (len : Z) : res (Z * Z) :=
  n ← ngtcp2_get_varint_len p;
  let len := len + (n - 1) in
  check_len payload len;;
  mret (n, len).

(** [assert((size_t)(p - payload) == len)] *)
Definition assert_read (payload p : bytes) (len : Z) : res unit :=
  c_assert (zlen payload - zlen p =? len).

Definition has_bit (b m : Z) : bool := negb (b .& m =? 0).
Definition has_mask (b mask : Z) : bool := b .& mask =? mask.

(** ** STREAM *)

(** The optional Offset field of the first pass. *)
Definition stream_skip_offset (payload : bytes) (type len : Z) (p : bytes) : res (Z * bytes) :=
  if has_bit type NGTCP2_STREAM_OFF_BIT then
    let len := len + 1 in
    check_len payload len;;
    '(n, len) ← varint_len_checked payload p len;
    p ← adv n p;
    mret (len, p)
  else mret (len, p).

(** The optional Data Length field of the first pass. *)
Definition stream_check_datalen (payload : bytes) (type len : Z) (p : bytes) : res Z :=
  if has_bit type NGTCP2_STREAM_LEN_BIT then
    let len := len + 1 in
    check_len payload len;;
    '(_, len) ← varint_len_checked payload p len;
    '(datalen, _) ← ngtcp2_get_varint p;
    let len := u64 (len + datalen) in
    check_len payload len;;
    mret len
  else mret len.

Definition ngtcp2_pkt_decode_stream_frame (payload : bytes) : res (ngtcp2_stream * Z) :=
  let len := 1 + 1 in
  check_len payload len;;
  type ← rd payload;
  p ← adv 1 payload;
  '(n, len) ← varint_len_checked payload p len;
  p ← adv n p;
  '(len, p) ← stream_skip_offset payload type len p;
  len ← stream_check_datalen payload type len p;
  p ← adv 1 payload;
  let flags := u8 (type .& Z.lnot NGTCP2_FRAME_STREAM) in
  let fin := c_bool (has_bit type NGTCP2_STREAM_FIN_BIT) in
  '(stream_id, n) ← ngtcp2_get_varint p;
  p ← adv n p;
  '(offset, p) ←
    (if has_bit type NGTCP2_STREAM_OFF_BIT then
       '(offset, n) ← ngtcp2_get_varint p;
       p ← adv n p;
       mret (offset, p)
     else mret (0, p));
  if has_bit type NGTCP2_STREAM_LEN_BIT then
    '(datalen, n) ← ngtcp2_get_varint p;
    p ← adv n p;
    data ← rdn datalen p;
    p ← adv datalen p;
    assert_read payload p len;;
    mret (mk_stream flags fin stream_id offset data, len)
  else
    mret (mk_stream flags fin stream_id offset p, zlen payload).

(** ** ACK *)

(** [for (i = 0; i < num_blks; ++i) for (j = 0; j < 2; ++j)] of the first pass:
    [k] fields are left. *)
Fixpoint ack_skip_fields (payload : bytes) (k : nat) (len : Z) (p : bytes) : res (Z * bytes) :=
  match k with
  | O => mret (len, p)
  | S k =>
      '(n, len) ← varint_len_checked payload p len;
      p ← adv n p;
      ack_skip_fields payload k len p
  end.

(** [for (i = 0; i < max_num_blks; ++i)] of the second pass. *)
Fixpoint ack_read_blks (k : nat) (p : bytes) : res (list ngtcp2_ack_blk * bytes) :=
  match k with
  | O => mret ([], p)
  | S k =>
      '(gap, n) ← ngtcp2_get_varint p;
      p ← adv n p;
      '(blklen, n) ← ngtcp2_get_varint p;
      p ← adv n p;
      '(blks, p) ← ack_read_blks k p;
      mret (mk_ack_blk gap blklen :: blks, p)
  end.

(** [for (i = max_num_blks; i < num_blks; ++i)] of the second pass. *)
Fixpoint ack_skip_blks (k : nat) (p : bytes) : res bytes :=
  match k with
  | O => mret p
  | S k =>
      n ← ngtcp2_get_varint_len p;
      p ← adv n p;
      n ← ngtcp2_get_varint_len p;
      p ← adv n p;
      ack_skip_blks k p
  end.

Definition ngtcp2_pkt_decode_ack_frame (payload : bytes) : res (ngtcp2_ack * Z) :=
  let len := 1 + 1 + 1 + 1 + 1 in
  check_len payload len;;
  p ← adv 1 payload;
  (* Largest Acknowledged *)
  '(n, len) ← varint_len_checked payload p len;
  p ← adv n p;
  (* ACK Delay *)
  '(n, len) ← varint_len_checked payload p len;
  p ← adv n p;
  (* ACK Block Count *)
  '(n, len) ← varint_len_checked payload p len;
  '(num_blks, n) ← ngtcp2_get_varint p;
  let len := u64 (len + u64 (num_blks * (1 + 1))) in
  check_len payload len;;
  p ← adv n p;
  (* First ACK Block *)
  '(n, len) ← varint_len_checked payload p len;
  p ← adv n p;
  '(len, p) ← ack_skip_fields payload (Z.to_nat num_blks * 2) len p;
  let max_num_blks := Z.min NGTCP2_MAX_ACK_BLKS num_blks in
  p ← adv 1 payload;
  '(largest_ack, n) ← ngtcp2_get_varint p;
  p ← adv n p;
  '(ack_delay, n) ← ngtcp2_get_varint p;
  p ← adv n p;
  n ← ngtcp2_get_varint_len p;
  p ← adv n p;
  '(first_ack_blklen, n) ← ngtcp2_get_varint p;
  p ← adv n p;
  '(blks, p) ← ack_read_blks (Z.to_nat max_num_blks) p;
  p ← ack_skip_blks (Z.to_nat (num_blks - max_num_blks)) p;
  assert_read payload p len;;
  mret (mk_ack largest_ack ack_delay first_ack_blklen blks, len).

(** ** PADDING *)

(** [for (; p != ep && *p == NGTCP2_FRAME_PADDING; ++p)] *)
Fixpoint padding_end (p : bytes) : bytes :=
  match p with
  | [] => []
  | b :: q => if b =? NGTCP2_FRAME_PADDING then padding_end q else p
  end.

Definition ngtcp2_pkt_decode_padding_frame (payload : bytes) : res (Z * Z) :=
  c_assert (0 <? zlen payload);;
  p ← adv 1 payload;
  let p := padding_end p in
  let len := zlen payload - zlen p in
  mret (len, len).

(** ** RST_STREAM *)

Definition ngtcp2_pkt_decode_rst_stream_frame (payload : bytes) : res (ngtcp2_rst_stream * Z) :=
  let len := 1 + 1 + 2 + 1 in
  check_len payload len;;
  p ← adv 1 payload;
  '(n, len) ← varint_len_checked payload p len;
  p ← adv (n + 2) p;
  '(n, len) ← varint_len_checked payload p len;
  p ← adv 1 payload;
  '(stream_id, n) ← ngtcp2_get_varint p;
  p ← adv n p;
  app_error_code ← ngtcp2_get_uint16 p;
  p ← adv 2 p;
  '(final_offset, n) ← ngtcp2_get_varint p;
  p ← adv n p;
  assert_read payload p len;;
  mret (mk_rst_stream stream_id app_error_code final_offset, len).

(** ** CONNECTION_CLOSE and APPLICATION_CLOSE, which have the same layout *)

(** [if (n == 0) { data = NULL; } else { data = p; p += n; }] *)
Definition rd_data (n : Z) (p : bytes) : res (bytes * bytes) :=
  if n =? 0 then mret ([], p)
  else data ← rdn n p; p ← adv n p; mret (data, p).

Definition decode_close_frame (payload : bytes) : res (ngtcp2_close * Z) :=
  let len := 1 + 2 + 1 in
  check_len payload len;;
  p ← adv (1 + 2) payload;
  '(n, len) ← varint_len_checked payload p len;
  '(reasonlen, n) ← ngtcp2_get_varint p;
  let len := u64 (len + reasonlen) in
  check_len payload len;;
  p ← adv 1 payload;
  error_code ← ngtcp2_get_uint16 p;
  p ← adv 2 p;
  p ← adv n p;
  '(reason, p) ← rd_data reasonlen p;
  assert_read payload p len;;
  mret (mk_close error_code reason, len).

Definition ngtcp2_pkt_decode_connection_close_frame := decode_close_frame.
Definition ngtcp2_pkt_decode_application_close_frame := decode_close_frame.

(** ** Frames made of one variable-length integer: MAX_DATA, MAX_STREAM_ID,
    BLOCKED, STREAM_ID_BLOCKED *)

Definition decode_varint_frame (payload : bytes) : res (Z * Z) :=
  let len := 1 + 1 in
  check_len payload len;;
  p ← adv 1 payload;
  '(n, len) ← varint_len_checked payload p len;
  '(v, n) ← ngtcp2_get_varint p;
  p ← adv n p;
  assert_read payload p len;;
  mret (v, len).

Definition ngtcp2_pkt_decode_max_data_frame := decode_varint_frame.
Definition ngtcp2_pkt_decode_max_stream_id_frame := decode_varint_frame.
Definition ngtcp2_pkt_decode_blocked_frame := decode_varint_frame.
Definition ngtcp2_pkt_decode_stream_id_blocked_frame := decode_varint_frame.

(** ** Frames made of two: MAX_STREAM_DATA, STREAM_BLOCKED *)

Definition decode_varint2_frame (payload : bytes) : res (Z * Z * Z) :=
  let len := 1 + 1 + 1 in
  check_len payload len;;
  p ← adv 1 payload;
  '(n, len) ← varint_len_checked payload p len;
  p ← adv n p;
  '(n, len) ← varint_len_checked payload p len;
  p ← adv 1 payload;
  '(stream_id, n) ← ngtcp2_get_varint p;
  p ← adv n p;
  '(v, n) ← ngtcp2_get_varint p;
  p ← adv n p;
  assert_read payload p len;;
  mret (stream_id, v, len).

Definition ngtcp2_pkt_decode_max_stream_data_frame := decode_varint2_frame.
Definition ngtcp2_pkt_decode_stream_blocked_frame := decode_varint2_frame.

(** ** PING and PONG *)

Definition decode_ping_frame (payload : bytes) : res (bytes * Z) :=
  let len := 1 + 1 in
  check_len payload len;;
  p ← adv 1 payload;
  b ← rd p;
  let len := len + b in
  check_len payload len;;
  datalen ← rd p;
  p ← adv 1 p;
  '(data, p) ← rd_data datalen p;
  assert_read payload p len;;
  mret (data, len).

Definition ngtcp2_pkt_decode_ping_frame := decode_ping_frame.
Definition ngtcp2_pkt_decode_pong_frame := decode_ping_frame.

(** ** NEW_CONNECTION_ID *)

Definition ngtcp2_pkt_decode_new_connection_id_frame (payload : bytes) :
    res (ngtcp2_new_connection_id * Z) :=
  let len := 1 + 1 + 8 + 16 in
  check_len payload len;;
  p ← adv 1 payload;
  '(n, len) ← varint_len_checked payload p len;
  '(seq, n) ← ngtcp2_get_varint p;
  let seq := u16 seq in
  p ← adv n p;
  conn_id ← ngtcp2_get_uint64 p;
  p ← adv 8 p;
  token ← rdn NGTCP2_STATELESS_RESET_TOKENLEN p;
  p ← adv NGTCP2_STATELESS_RESET_TOKENLEN p;
  assert_read payload p len;;
  mret (mk_new_connection_id seq conn_id token, len).

(** ** STOP_SENDING *)

Definition ngtcp2_pkt_decode_stop_sending_frame (payload : bytes) : res (Z * Z * Z) :=
  let len := 1 + 1 + 2 in
  check_len payload len;;
  p ← adv 1 payload;
  '(n, len) ← varint_len_checked payload p len;
  '(stream_id, n) ← ngtcp2_get_varint p;
  p ← adv n p;
  app_error_code ← ngtcp2_get_uint16 p;
  p ← adv 2 p;
  assert_read payload p len;;
  mret (stream_id, app_error_code, len).

(** ** Dispatch *)

(** [inj1 f m]: the result of a decoder, as a member of the union. *)
Definition inj1 {A} (f : A -> ngtcp2_frame) (m : res (A * Z)) : res (ngtcp2_frame * Z) :=
  '(a, n) ← m; mret (f a, n).

(** [None]: the payload is empty, [dest] is not written and 0 is returned. *)
Definition ngtcp2_pkt_decode_frame (payload : bytes) : res (option ngtcp2_frame * Z) :=
  if zlen payload =? 0 then mret (None, 0)
  else
    type ← rd payload;
    '(fr, n) ←
      (if has_mask type NGTCP2_FRAME_STREAM then
         inj1 fr_stream (ngtcp2_pkt_decode_stream_frame payload)
       else if has_mask type NGTCP2_FRAME_ACK then
         inj1 fr_ack (ngtcp2_pkt_decode_ack_frame payload)
       else if type =? NGTCP2_FRAME_PADDING then
         inj1 fr_padding (ngtcp2_pkt_decode_padding_frame payload)
       else if type =? NGTCP2_FRAME_RST_STREAM then
         inj1 fr_rst_stream (ngtcp2_pkt_decode_rst_stream_frame payload)
       else if type =? NGTCP2_FRAME_CONNECTION_CLOSE then
         inj1 fr_connection_close (ngtcp2_pkt_decode_connection_close_frame payload)
       else if type =? NGTCP2_FRAME_APPLICATION_CLOSE then
         inj1 fr_application_close (ngtcp2_pkt_decode_application_close_frame payload)
       else if type =? NGTCP2_FRAME_MAX_DATA then
         inj1 fr_max_data (ngtcp2_pkt_decode_max_data_frame payload)
       else if type =? NGTCP2_FRAME_MAX_STREAM_DATA then
         inj1 (fun '(i, v) => fr_max_stream_data i v)
           (ngtcp2_pkt_decode_max_stream_data_frame payload)
       else if type =? NGTCP2_FRAME_MAX_STREAM_ID then
         inj1 fr_max_stream_id (ngtcp2_pkt_decode_max_stream_id_frame payload)
       else if type =? NGTCP2_FRAME_PING then
         inj1 fr_ping (ngtcp2_pkt_decode_ping_frame payload)
       else if type =? NGTCP2_FRAME_BLOCKED then
         inj1 fr_blocked (ngtcp2_pkt_decode_blocked_frame payload)
       else if type =? NGTCP2_FRAME_STREAM_BLOCKED then
         inj1 (fun '(i, v) => fr_stream_blocked i v)
           (ngtcp2_pkt_decode_stream_blocked_frame payload)
       else if type =? NGTCP2_FRAME_STREAM_ID_BLOCKED then
         inj1 fr_stream_id_blocked (ngtcp2_pkt_decode_stream_id_blocked_frame payload)
       else if type =? NGTCP2_FRAME_NEW_CONNECTION_ID then
         inj1 fr_new_connection_id (ngtcp2_pkt_decode_new_connection_id_frame payload)
       else if type =? NGTCP2_FRAME_STOP_SENDING then
         inj1 (fun '(i, e) => fr_stop_sending i e)
           (ngtcp2_pkt_decode_stop_sending_frame payload)
       else if type =? NGTCP2_FRAME_PONG then
         inj1 fr_pong (ngtcp2_pkt_decode_pong_frame payload)
       else Err NGTCP2_ERR_FRAME_FORMAT);
    mret (Some fr, n).

(** ** Memory safety, bounds and error codes *)

Definition fmt_err (e : Z) : Prop := e = NGTCP2_ERR_FRAME_FORMAT.

Lemma wpe_check_len payload len (Q : unit -> Prop) :
  (len <= zlen payload -> Q tt) -> wpe (check_len payload len) Q fmt_err.
Proof. intros HQ. apply wpe_fail_if; [done|]. intros ?%Z.ltb_ge. auto. Qed.

Lemma wpe_varint_len_checked payload p len (Q : Z * Z -> Prop) :
  all_bytes p -> 1 <= zlen p ->
  (forall n, n = vlen p -> n = 1 \/ n = 2 \/ n = 4 \/ n = 8 ->
   len + (n - 1) <= zlen payload -> Q (n, len + (n - 1))) ->
  wpe (varint_len_checked payload p len) Q fmt_err.
Proof.
  intros Hp Hl HQ. apply wpe_bind, wpe_get_varint_len; [done..|]. intros n Hn Hv.
  apply wpe_bind, wpe_check_len. intros ?. apply wpe_ret; auto.
Qed.

Lemma wpe_assert_read payload p len (Q : unit -> Prop) E :
  zlen payload - zlen p = len -> Q tt -> wpe (assert_read payload p len) Q E.
Proof. intros ? ?. apply wpe_assert; [by apply Z.eqb_eq | done]. Qed.

(** [wstep] runs one operation of a decoder; bounds are found by [clia] from
    the guards already passed. A field visited again is the same value. *)
Ltac wstep :=
  lazymatch goal with
  | |- wpe (_ ≫= _) _ _ => apply wpe_bind
  | |- wpe (check_len _ _) _ _ => apply wpe_check_len; intros ?
  | |- wpe (varint_len_checked _ _ _) _ _ =>
      apply wpe_varint_len_checked; [assumption | clia |];
      let n := fresh "n" in intros n ? ? ?
  | |- wpe (assert_read _ _ _) _ _ => apply wpe_assert_read; [clia |]
  | |- wpe (ngtcp2_get_varint_len ?p) _ _ =>
      lazymatch goal with
      | H : ?n = vlen p |- _ =>
          apply (wpe_get_varint_len_known p n _ _ H); [assumption | clia |]
      end
  | |- wpe (ngtcp2_get_varint ?p) _ _ =>
      lazymatch goal with
      | H : ?n = vlen p |- _ =>
          apply (wpe_get_varint p n); [assumption | exact H | clia | clia |];
          let v := fresh "v" in let Hv := fresh in intros v Hv ?;
          try match goal with
          | H' : ?v' = vval p |- _ =>
              lazymatch v' with v => fail | _ => rewrite <- H' in Hv; subst v end
          end
      end
  | |- wpe (ngtcp2_get_uint16 _) _ _ =>
      apply wpe_get_uint16; [assumption | clia | intros ? ?]
  | |- wpe (ngtcp2_get_uint32 _) _ _ =>
      apply wpe_get_uint32; [assumption | clia | intros ? ?]
  | |- wpe (ngtcp2_get_uint64 _) _ _ =>
      apply wpe_get_uint64; [assumption | clia | intros ? ?]
  | |- wpe (rd ?p) _ _ =>
      lazymatch goal with
      | H : ?b = hd 0 p |- _ => apply (wpe_rd_known p b _ _ H); [clia |]
      | _ => apply wpe_rd; [assumption | clia |]; let b := fresh "b" in intros b ? ?
      end
  | |- wpe (rdn _ _) _ _ => apply wpe_rdn; [assumption | clia | intros ? ? ? ?]
  | |- wpe (adv (?a + ?b) _) _ _ => apply wpe_adv_add; [clia | clia |]
  | |- wpe (adv ?n ?p) _ _ =>
      lazymatch goal with
      | H : ?q = advance n p |- _ => apply (wpe_adv_known n p q _ _ H); [clia |]
      | _ => apply wpe_adv; [assumption | clia |]; let q := fresh "p" in intros q ? ? ?
      end
  | |- wpe (if ?b then _ else _) _ _ => destruct b eqn:?
  | |- wpe (mret _) _ _ => apply wpe_ret
  end; cbn beta iota zeta; unwrap.

Ltac wauto := repeat wstep.

Section Safety.
Context (payload : bytes) (Hb : all_bytes payload) (Hl : 1 <= zlen payload).

Lemma decode_varint_safe :
  wpe (decode_varint_frame payload)
    (fun '(v, n) => is_uint 62 v /\ 1 <= n <= zlen payload) fmt_err.
Proof using Hb Hl. unfold decode_varint_frame. wauto. clia. Qed.

Lemma decode_varint2_safe :
  wpe (decode_varint2_frame payload)
    (fun '(i, v, n) => (is_uint 62 i /\ is_uint 62 v) /\ 1 <= n <= zlen payload) fmt_err.
Proof using Hb Hl. unfold decode_varint2_frame. wauto. clia. Qed.

Lemma decode_rst_stream_safe :
  wpe (ngtcp2_pkt_decode_rst_stream_frame payload)
    (fun '(fr, n) => wf_frame (fr_rst_stream fr) /\ 1 <= n <= zlen payload) fmt_err.
Proof using Hb Hl.
  unfold ngtcp2_pkt_decode_rst_stream_frame. wauto. simpl. clia.
Qed.

Lemma decode_close_safe :
  wpe (decode_close_frame payload)
    (fun '(fr, n) => wf_close fr /\ 1 <= n <= zlen payload) fmt_err.
Proof using Hb Hl.
  unfold decode_close_frame, rd_data. wauto; unfold wf_close; simpl; split_and!;
    try done; clia.
Qed.

Lemma decode_ping_safe :
  wpe (decode_ping_frame payload)
    (fun '(d, n) => (all_bytes d /\ zlen d <= 255) /\ 1 <= n <= zlen payload) fmt_err.
Proof using Hb Hl.
  unfold decode_ping_frame, rd_data. wauto; split_and!; try done; rewrite ?zlen_nil; clia.
Qed.

Lemma decode_new_connection_id_safe :
  wpe (ngtcp2_pkt_decode_new_connection_id_frame payload)
    (fun '(fr, n) => wf_frame (fr_new_connection_id fr) /\ 1 <= n <= zlen payload) fmt_err.
Proof using Hb Hl.
  unfold ngtcp2_pkt_decode_new_connection_id_frame, NGTCP2_STATELESS_RESET_TOKENLEN.
  wauto. simpl. split_and!; try done; try apply u16_range; clia.
Qed.

Lemma decode_stop_sending_safe :
  wpe (ngtcp2_pkt_decode_stop_sending_frame payload)
    (fun '(i, e, n) => (is_uint 62 i /\ is_uint 16 e) /\ 1 <= n <= zlen payload) fmt_err.
Proof using Hb Hl. unfold ngtcp2_pkt_decode_stop_sending_frame. wauto. clia. Qed.

Lemma padding_end_len p : zlen (padding_end p) <= zlen p.
Proof using.
  induction p as [|b p IH]; simpl; [lia|]. destruct (_ =? _); rewrite ?zlen_cons; lia.
Qed.

Lemma decode_padding_safe :
  zlen payload < 2 ^ 64 ->
  wpe (ngtcp2_pkt_decode_padding_frame payload)
    (fun '(l, n) => wf_frame (fr_padding l) /\ 1 <= n <= zlen payload) fmt_err.
Proof using Hb Hl.
  intros Hs. unfold ngtcp2_pkt_decode_padding_frame.
  apply wpe_bind, wpe_assert; [by apply Z.ltb_lt; lia|]. wauto.
  pose proof (padding_end_len p). pose proof (zlen_nonneg (padding_end p)). simpl. clia.
Qed.

Lemma decode_stream_safe :
  zlen payload < 2 ^ 62 ->
  wpe (ngtcp2_pkt_decode_stream_frame payload)
    (fun '(fr, n) => wf_frame (fr_stream fr) /\ 1 <= n <= zlen payload) fmt_err.
Proof using Hb Hl.
  intros Hs. unfold ngtcp2_pkt_decode_stream_frame, stream_skip_offset, stream_check_datalen.
  wauto.
  all: simpl; split_and!; try done; try clia.
Qed.
End Safety.

(** *** ACK: the second pass follows the chain of fields the first one checked *)

Fixpoint vskip (k : nat) (p : bytes) : bytes :=
  match k with O => p | S k => vskip k (advance (vlen p) p) end.

Fixpoint vchain (k : nat) (p : bytes) : Prop :=
  match k with
  | O => True
  | S k => 1 <= zlen p /\ vlen p <= zlen p /\ vchain k (advance (vlen p) p)
  end.

Lemma vskip_bytes k p : all_bytes p -> all_bytes (vskip k p).
Proof.
  revert p; induction k; intros p Hp; simpl; [done|].
  apply IHk. unfold advance. by apply Forall_drop.
Qed.

Lemma vskip_len k p : zlen (vskip k p) <= zlen p.
Proof.
  revert p; induction k; intros p; simpl; [lia|].
  etransitivity; [apply IHk|]. unfold advance. rewrite zlen_drop.
  pose proof (zlen_nonneg p). lia.
Qed.

Lemma vskip_add a b p : vskip (a + b) p = vskip b (vskip a p).
Proof. revert p; induction a; intros p; simpl; auto. Qed.

Lemma vchain_add a b p : vchain (a + b) p -> vchain a p /\ vchain b (vskip a p).
Proof. revert p; induction a; intros p; simpl; [done|]. intros (? & ? & [? ?]%IHa). auto. Qed.

Lemma ack_skip_fields_spec payload k len p :
  all_bytes p -> zlen payload - zlen p + Z.of_nat k = len -> len <= zlen payload ->
  wpe (ack_skip_fields payload k len p)
    (fun '(len', p') => vchain k p /\ p' = vskip k p /\
       zlen payload - zlen p' = len' /\ len' <= zlen payload) fmt_err.
Proof.
  revert len p; induction k as [|k IH]; intros len p Hp Hlen Hle; simpl.
  { split_and!; try done; lia. }
  wauto. eapply wpe_mono; [apply IH; [done | lia | lia] | | done].
  intros [len1 p1] (? & ? & ? & ?). subst. split_and!; try done; lia.
Qed.

Lemma ack_read_blks_spec k p E :
  all_bytes p -> vchain (k * 2) p ->
  wpe (ack_read_blks k p)
    (fun '(blks, p') => p' = vskip (k * 2) p /\ zlen blks = Z.of_nat k /\ Forall wf_blk blks) E.
Proof.
  revert p; induction k as [|k IH]; intros p Hp Hc; simpl; [done|].
  destruct Hc as (? & Hv1 & H1 & Hv2 & Hc).
  destruct (vlen_cases p) as [_ ?]; [done..|].
  assert (all_bytes (advance (vlen p) p)) by (by apply Forall_drop).
  destruct (vlen_cases (advance (vlen p) p)) as [_ ?]; [done..|].
  remember (vlen p) as n eqn:En. remember (advance n p) as q eqn:Eq.
  remember (vlen q) as m eqn:Em. wauto.
  eapply wpe_mono; [apply IH; [done | by subst] | | done].
  intros [blks p'] (-> & Hz & Hf). apply wpe_ret. rewrite zlen_cons.
  split_and!; [by subst | lia |]. constructor; [split; done | done].
Qed.

Lemma ack_skip_blks_spec k p E :
  all_bytes p -> vchain (k * 2) p ->
  wpe (ack_skip_blks k p) (fun p' => p' = vskip (k * 2) p) E.
Proof.
  revert p; induction k as [|k IH]; intros p Hp Hc; simpl; [done|].
  destruct Hc as (? & Hv1 & H1 & Hv2 & Hc).
  destruct (vlen_cases p) as [_ ?]; [done..|].
  assert (all_bytes (advance (vlen p) p)) by (by apply Forall_drop).
  destruct (vlen_cases (advance (vlen p) p)) as [_ ?]; [done..|].
  remember (vlen p) as n eqn:En. remember (advance n p) as q eqn:Eq.
  remember (vlen q) as m eqn:Em. wauto. subst. by apply IH.
Qed.

Lemma decode_ack_safe payload :
  all_bytes payload -> 1 <= zlen payload ->
  wpe (ngtcp2_pkt_decode_ack_frame payload)
    (fun '(fr, n) => wf_frame (fr_ack fr) /\ 1 <= n <= zlen payload) fmt_err.
Proof.
  intros Hb Hl. unfold ngtcp2_pkt_decode_ack_frame. wauto.
  eapply wpe_mono; [apply ack_skip_fields_spec; [done | clia | clia] | | done].
  intros [len q] (Hc & -> & Hlen & Hle). wauto. unfold NGTCP2_MAX_ACK_BLKS.
  match goal with H : ?v = vval _ |- context [Z.min 255 ?v] => rename v into k end.
  replace (Z.to_nat k * 2)%nat with
    (Z.to_nat (Z.min 255 k) * 2 + Z.to_nat (k - Z.min 255 k) * 2)%nat in * by clia.
  apply vchain_add in Hc as [Hc1 Hc2]. rewrite vskip_add in Hlen.
  eapply wpe_mono; [apply ack_read_blks_spec; done | | done].
  intros [blks q] (-> & Hz & Hf). wstep.
  eapply wpe_mono; [apply ack_skip_blks_spec; [by apply vskip_bytes | done] | | done].
  intros q ->. wauto. simpl. unfold NGTCP2_MAX_ACK_BLKS.
  match type of Hlen with context [vskip ?a (vskip ?b ?r)] =>
    pose proof (vskip_len a (vskip b r)); pose proof (vskip_len b r) end.
  split_and!; try done; clia.
Qed.

(** *** The dispatcher *)

Lemma wpe_inj1 {A} (f : A -> ngtcp2_frame) m (P : A -> Prop) (Q : ngtcp2_frame * Z -> Prop) L E :
  wpe m (fun '(a, n) => P a /\ 1 <= n <= L) E ->
  (forall a n, P a -> 1 <= n <= L -> Q (f a, n)) -> wpe (inj1 f m) Q E.
Proof.
  intros H HQ. apply wpe_bind. eapply wpe_mono; [exact H | | done].
  intros [a n] [? ?]. apply wpe_ret. auto.
Qed.

(** A payload no packet can exceed. *)
Lemma decode_frame_safe payload :
  all_bytes payload -> zlen payload < 2 ^ 62 ->
  wpe (ngtcp2_pkt_decode_frame payload)
    (fun '(o, n) =>
       match o with
       | None => payload = [] /\ n = 0
       | Some fr => wf_frame fr /\ 1 <= n <= zlen payload
       end) fmt_err.
Proof.
  intros Hb Hs. unfold ngtcp2_pkt_decode_frame.
  destruct (Z.eqb_spec (zlen payload) 0) as [E0|E0].
  { apply wpe_ret. by destruct payload. }
  assert (1 <= zlen payload) as Hl by (pose proof (zlen_nonneg payload); lia).
  wstep. wstep. apply wpe_bind.
  apply wpe_mono with
    (Q := fun '(fr, n) => wf_frame fr /\ 1 <= n <= zlen payload) (E := fmt_err);
    [| by intros [fr n] ? | done].
  repeat case_match; first
    [ by apply wpe_ret
    | eapply wpe_inj1; [apply decode_stream_safe | by intros ?]
    | eapply wpe_inj1; [apply decode_ack_safe | by intros ?]
    | eapply wpe_inj1; [apply decode_padding_safe | by intros ?]
    | eapply wpe_inj1; [apply decode_rst_stream_safe | by intros ?]
    | eapply wpe_inj1; [apply decode_close_safe | by intros ?]
    | eapply wpe_inj1; [apply decode_varint_safe | by intros ?]
    | eapply (wpe_inj1 _ _ (fun '(i, v) => is_uint 62 i /\ is_uint 62 v));
        [eapply wpe_mono; [apply decode_varint2_safe | by intros [[? ?] ?] | done]
        | by intros [? ?] ? ? ?]
    | eapply wpe_inj1; [apply decode_ping_safe | by intros ?]
    | eapply wpe_inj1; [apply decode_new_connection_id_safe | by intros ?]
    | eapply (wpe_inj1 _ _ (fun '(i, v) => is_uint 62 i /\ is_uint 16 v));
        [eapply wpe_mono; [apply decode_stop_sending_safe | by intros [[? ?] ?] | done]
        | by intros [? ?] ? ? ?]
    | done ]; try done; clia.
Qed.

Lemma stream_mask b : is_byte b -> has_mask b NGTCP2_FRAME_STREAM = Z.testbit b 4.
Proof.
  intros Hb. apply eqb_prop. revert b Hb.
  apply (byte_cases (fun b => eqb (has_mask b NGTCP2_FRAME_STREAM) (Z.testbit b 4))). by vm_compute.
Qed.

(** What a decoder returns is the member of the union it is for. *)
Lemma inj1_inv {A} (f : A -> ngtcp2_frame) (m : res (A * Z)) fr n :
  inj1 f m = Ok (fr, n) -> exists a, fr = f a.
Proof. unfold inj1. destruct m as [[a k]| |]; [|done..]. intros [= <- <-]. by exists a. Qed.

(** ** Properties *)

(** C17. Decoding a frame never reads outside of the payload and no assertion of
    the decoders fails: for every payload the result is the error
    [NGTCP2_ERR_FRAME_FORMAT], nothing for an empty payload, or a frame whose
    members are in range, read from at least one byte and at most all of them. *)
Theorem frame_decoder_safe payload :
  all_bytes payload -> zlen payload < 2 ^ 62 ->
  match ngtcp2_pkt_decode_frame payload with
  | Ok (None, n) => payload = [] /\ n = 0
  | Ok (Some fr, n) => wf_frame fr /\ 1 <= n <= zlen payload
  | Err e => e = NGTCP2_ERR_FRAME_FORMAT
  | Ub => False
  end.
Proof.
  intros Hp Hl. pose proof (decode_frame_safe payload Hp Hl) as H.
  by destruct (ngtcp2_pkt_decode_frame payload) as [[[fr|] n]|e|].
Qed.

(** A truncated ACK frame is rejected. *)
Lemma frame_decoder_safe_witness :
  match ngtcp2_pkt_decode_frame [0x0e; 0x41; 0x00; 0x00; 0x02; 0x00] with
  | Ok (None, n) => [0x0e; 0x41; 0x00; 0x00; 0x02; 0x00] = [] /\ n = 0
  | Ok (Some fr, n) => wf_frame fr /\ 1 <= n <= zlen [0x0e; 0x41; 0x00; 0x00; 0x02; 0x00]
  | Err e => e = NGTCP2_ERR_FRAME_FORMAT
  | Ub => False
  end.
Proof. apply frame_decoder_safe; [repeat constructor; done | reflexivity]. Defined.

(** The dispatch of the decoder: a type byte with bit 0x10 is always a STREAM
    frame, whatever its three high bits; 0x0f is read as an ACK frame; of the
    others, only the types 0x00 to 0x0e are known. *)
Theorem frame_type_dispatch b rest fr n :
  is_byte b -> ngtcp2_pkt_decode_frame (b :: rest) = Ok (Some fr, n) ->
  match fr with
  | fr_stream _ => Z.testbit b 4 = true
  | fr_ack _ => Z.testbit b 4 = false /\ b .& 0x0e = 0x0e
  | _ => 0 <= b <= 0x0d
  end.
Proof.
  intros Hb. unfold ngtcp2_pkt_decode_frame. rewrite zlen_cons.
  destruct (Z.eqb_spec (1 + zlen rest) 0); [zfacts; lia|]. cbn [rd mbind res_bind].
  rewrite <- (stream_mask b Hb).
  match goal with |- (?m ≫= _) = _ -> _ => destruct m as [[fr' n']|e|] eqn:Hm end; [|done..].
  cbn [mbind res_bind]. unfold mret, res_ret. intros [= -> ->]. revert Hm.
  destruct (has_mask b NGTCP2_FRAME_STREAM); [by intros [a ->]%inj1_inv|].
  destruct (has_mask b NGTCP2_FRAME_ACK) eqn:Hack;
    [intros [a ->]%inj1_inv; split; [done | by apply Z.eqb_eq in Hack]|].
  repeat match goal with
  | |- (if b =? ?c then _ else _) = _ -> _ =>
      destruct (Z.eqb_spec b c) as [->|];
        [intros [a ->]%inj1_inv; try destruct a; vm_compute; intuition discriminate|]
  end.
  done.
Qed.

Lemma frame_type_dispatch_witness : Z.testbit 0xf2 4 = true.
Proof.
  apply (frame_type_dispatch 0xf2 [0; 1; 0xaa] (fr_stream (mk_stream 0xe2 0 0 0 [0xaa])) 4); [done|].
  vm_compute. reflexivity.
Defined.
