(* ===== verification/PktEncode.v ===== *)
(** Frame encoding: [ngtcp2_pkt_encode_frame] and the encoders it dispatches
    to ([lib/ngtcp2_pkt.c]), and the round trip with the decoders. An encoder
    returns the bytes it stored at [out] and their number. *)

From S2P Require Import Prelude Conv Frame PktDecode.

(** [p = ngtcp2_put_varint(p, n)] *)
Definition wr_varint (outlen : Z) (w : bytes) (n : Z) : res bytes :=
  bs ← ngtcp2_put_varint n; wr outlen w bs.

(** [if (datalen) { p = ngtcp2_cpymem(p, data, datalen); }] *)
Definition wr_data (outlen : Z) (w data : bytes) : res bytes :=
  if zlen data =? 0 then mret w else wr outlen w data.

(** [if (outlen < len) { return NGTCP2_ERR_NOBUF; }] *)
Definition check_out (outlen len : Z) : res unit :=
  fail_if (outlen <? len) NGTCP2_ERR_NOBUF.

(** [assert((size_t)(p - out) == len); return (ssize_t)len;] *)
Definition finish (w : bytes) (len : Z) : res (bytes * Z) :=
  c_assert (zlen w =? len);; mret (w, len).

(** STREAM; the frame returned has its [flags] member set. *)
Definition ngtcp2_pkt_encode_stream_frame (outlen : Z) (fr : ngtcp2_stream) :
    res (bytes * Z * ngtcp2_stream) :=
  let flags := NGTCP2_STREAM_LEN_BIT in
  let flags := if stream_fin fr =? 0 then flags else flags .| NGTCP2_STREAM_FIN_BIT in
  '(flags, len) ←
    (if stream_offset fr =? 0 then mret (flags, 1)
     else
       n ← ngtcp2_put_varint_len (stream_offset fr);
       mret (flags .| NGTCP2_STREAM_OFF_BIT, 1 + n));
  n ← ngtcp2_put_varint_len (stream_stream_id fr);
  let len := len + n in
  n ← ngtcp2_put_varint_len (zlen (stream_data fr));
  let len := len + n in
  let len := u64 (len + zlen (stream_data fr)) in
  check_out outlen len;;
  w ← wr outlen [] [flags .| NGTCP2_FRAME_STREAM];
  let fr' := mk_stream flags (stream_fin fr) (stream_stream_id fr) (stream_offset fr)
               (stream_data fr) in
  w ← wr_varint outlen w (stream_stream_id fr);
  w ← (if stream_offset fr =? 0 then mret w else wr_varint outlen w (stream_offset fr));
  w ← wr_varint outlen w (zlen (stream_data fr));
  w ← wr_data outlen w (stream_data fr);
  '(w, len) ← finish w len;
  mret (w, len, fr').

(** ACK: [for (i = 0; i < fr->num_blks; ++i)], the length of the blocks. *)
Fixpoint ack_blks_len (len : Z) (blks : list ngtcp2_ack_blk) : res Z :=
  match blks with
  | [] => mret len
  | blk :: blks =>
      n ← ngtcp2_put_varint_len (blk_gap blk);
      m ← ngtcp2_put_varint_len (blk_blklen blk);
      ack_blks_len (len + n + m) blks
  end.

Fixpoint ack_write_blks (outlen : Z) (w : bytes) (blks : list ngtcp2_ack_blk) : res bytes :=
  match blks with
  | [] => mret w
  | blk :: blks =>
      w ← wr_varint outlen w (blk_gap blk);
      w ← wr_varint outlen w (blk_blklen blk);
      ack_write_blks outlen w blks
  end.

Definition ngtcp2_pkt_encode_ack_frame (outlen : Z) (fr : ngtcp2_ack) : res (bytes * Z) :=
  n1 ← ngtcp2_put_varint_len (ack_largest_ack fr);
  n2 ← ngtcp2_put_varint_len (ack_ack_delay fr);
  n3 ← ngtcp2_put_varint_len (zlen (ack_blks fr));
  n4 ← ngtcp2_put_varint_len (ack_first_ack_blklen fr);
  len ← ack_blks_len (1 + n1 + n2 + n3 + n4) (ack_blks fr);
  check_out outlen len;;
  w ← wr outlen [] [NGTCP2_FRAME_ACK];
  w ← wr_varint outlen w (ack_largest_ack fr);
  w ← wr_varint outlen w (ack_ack_delay fr);
  w ← wr_varint outlen w (zlen (ack_blks fr));
  w ← wr_varint outlen w (ack_first_ack_blklen fr);
  w ← ack_write_blks outlen w (ack_blks fr);
  finish w len.

(** PADDING: [memset(out, 0, fr->len)] *)
Definition ngtcp2_pkt_encode_padding_frame (outlen len : Z) : res (bytes * Z) :=
  check_out outlen len;;
  w ← wr outlen [] (replicate (Z.to_nat len) 0);
  mret (w, len).

Definition ngtcp2_pkt_encode_rst_stream_frame (outlen : Z) (fr : ngtcp2_rst_stream) :
    res (bytes * Z) :=
  n1 ← ngtcp2_put_varint_len (rst_stream_id fr);
  n2 ← ngtcp2_put_varint_len (rst_final_offset fr);
  let len := 1 + n1 + 2 + n2 in
  check_out outlen len;;
  w ← wr outlen [] [NGTCP2_FRAME_RST_STREAM];
  w ← wr_varint outlen w (rst_stream_id fr);
  w ← wr outlen w (ngtcp2_put_uint16be (rst_app_error_code fr));
  w ← wr_varint outlen w (rst_final_offset fr);
  finish w len.

(** CONNECTION_CLOSE and APPLICATION_CLOSE *)
Definition encode_close_frame (type outlen : Z) (fr : ngtcp2_close) : res (bytes * Z) :=
  n ← ngtcp2_put_varint_len (zlen (close_reason fr));
  let len := u64 (1 + 2 + n + zlen (close_reason fr)) in
  check_out outlen len;;
  w ← wr outlen [] [type];
  w ← wr outlen w (ngtcp2_put_uint16be (close_error_code fr));
  w ← wr_varint outlen w (zlen (close_reason fr));
  w ← wr_data outlen w (close_reason fr);
  finish w len.

Definition ngtcp2_pkt_encode_connection_close_frame :=
  encode_close_frame NGTCP2_FRAME_CONNECTION_CLOSE.
Definition ngtcp2_pkt_encode_application_close_frame :=
  encode_close_frame NGTCP2_FRAME_APPLICATION_CLOSE.

(** MAX_DATA, MAX_STREAM_ID, BLOCKED, STREAM_ID_BLOCKED *)
Definition encode_varint_frame (type outlen v : Z) : res (bytes * Z) :=
  n ← ngtcp2_put_varint_len v;
  let len := 1 + n in
  check_out outlen len;;
  w ← wr outlen [] [type];
  w ← wr_varint outlen w v;
  finish w len.

Definition ngtcp2_pkt_encode_max_data_frame := encode_varint_frame NGTCP2_FRAME_MAX_DATA.
Definition ngtcp2_pkt_encode_max_stream_id_frame :=
  encode_varint_frame NGTCP2_FRAME_MAX_STREAM_ID.
Definition ngtcp2_pkt_encode_blocked_frame := encode_varint_frame NGTCP2_FRAME_BLOCKED.
Definition ngtcp2_pkt_encode_stream_id_blocked_frame :=
  encode_varint_frame NGTCP2_FRAME_STREAM_ID_BLOCKED.

(** MAX_STREAM_DATA, STREAM_BLOCKED *)
Definition encode_varint2_frame (type outlen i v : Z) : res (bytes * Z) :=
  n1 ← ngtcp2_put_varint_len i;
  n2 ← ngtcp2_put_varint_len v;
  let len := 1 + n1 + n2 in
  check_out outlen len;;
  w ← wr outlen [] [type];
  w ← wr_varint outlen w i;
  w ← wr_varint outlen w v;
  finish w len.

Definition ngtcp2_pkt_encode_max_stream_data_frame :=
  encode_varint2_frame NGTCP2_FRAME_MAX_STREAM_DATA.
Definition ngtcp2_pkt_encode_stream_blocked_frame :=
  encode_varint2_frame NGTCP2_FRAME_STREAM_BLOCKED.

(** PING, PONG *)
Definition encode_ping_frame (type outlen : Z) (data : bytes) : res (bytes * Z) :=
  let len := u64 (1 + 1 + zlen data) in
  check_out outlen len;;
  w ← wr outlen [] [type];
  w ← wr outlen w [u8 (zlen data)];
  w ← wr_data outlen w data;
  finish w len.

Definition ngtcp2_pkt_encode_ping_frame := encode_ping_frame NGTCP2_FRAME_PING.
Definition ngtcp2_pkt_encode_pong_frame := encode_ping_frame NGTCP2_FRAME_PONG.

Definition ngtcp2_pkt_encode_new_connection_id_frame (outlen : Z)
    (fr : ngtcp2_new_connection_id) : res (bytes * Z) :=
  n ← ngtcp2_put_varint_len (ncid_seq fr);
  let len := 1 + n + 8 + NGTCP2_STATELESS_RESET_TOKENLEN in
  check_out outlen len;;
  w ← wr outlen [] [NGTCP2_FRAME_NEW_CONNECTION_ID];
  w ← wr_varint outlen w (ncid_seq fr);
  w ← wr outlen w (ngtcp2_put_uint64be (ncid_conn_id fr));
  w ← wr outlen w (ncid_stateless_reset_token fr);
  finish w len.

Definition ngtcp2_pkt_encode_stop_sending_frame (outlen i e : Z) : res (bytes * Z) :=
  n ← ngtcp2_put_varint_len i;
  let len := 1 + n + 2 in
  check_out outlen len;;
  w ← wr outlen [] [NGTCP2_FRAME_STOP_SENDING];
  w ← wr_varint outlen w i;
  w ← wr outlen w (ngtcp2_put_uint16be e);
  finish w len.

(** The dispatcher; the frame is returned because STREAM updates it. *)
Definition ngtcp2_pkt_encode_frame (outlen : Z) (fr : ngtcp2_frame) :
    res (bytes * Z * ngtcp2_frame) :=
  let keep m := '(w, n) ← m; mret (w, n, fr) in
  match fr with
  | fr_stream s =>
      '(w, n, s') ← ngtcp2_pkt_encode_stream_frame outlen s; mret (w, n, fr_stream s')
  | fr_ack a => keep (ngtcp2_pkt_encode_ack_frame outlen a)
  | fr_padding n => keep (ngtcp2_pkt_encode_padding_frame outlen n)
  | fr_rst_stream r => keep (ngtcp2_pkt_encode_rst_stream_frame outlen r)
  | fr_connection_close c => keep (ngtcp2_pkt_encode_connection_close_frame outlen c)
  | fr_application_close c => keep (ngtcp2_pkt_encode_application_close_frame outlen c)
  | fr_max_data v => keep (ngtcp2_pkt_encode_max_data_frame outlen v)
  | fr_max_stream_data i v => keep (ngtcp2_pkt_encode_max_stream_data_frame outlen i v)
  | fr_max_stream_id v => keep (ngtcp2_pkt_encode_max_stream_id_frame outlen v)
  | fr_ping d => keep (ngtcp2_pkt_encode_ping_frame outlen d)
  | fr_blocked v => keep (ngtcp2_pkt_encode_blocked_frame outlen v)
  | fr_stream_blocked i v => keep (ngtcp2_pkt_encode_stream_blocked_frame outlen i v)
  | fr_stream_id_blocked v => keep (ngtcp2_pkt_encode_stream_id_blocked_frame outlen v)
  | fr_new_connection_id c => keep (ngtcp2_pkt_encode_new_connection_id_frame outlen c)
  | fr_stop_sending i e => keep (ngtcp2_pkt_encode_stop_sending_frame outlen i e)
  | fr_pong d => keep (ngtcp2_pkt_encode_pong_frame outlen d)
  | fr_other _ => Err NGTCP2_ERR_INVALID_ARGUMENT
  end.

(** ** Reference layout of the frames *)

Definition stream_flags_of (s : ngtcp2_stream) : Z :=
  (NGTCP2_STREAM_LEN_BIT .| (if stream_fin s =? 0 then 0 else NGTCP2_STREAM_FIN_BIT))
  .| (if stream_offset s =? 0 then 0 else NGTCP2_STREAM_OFF_BIT).

Fixpoint blks_layout (blks : list ngtcp2_ack_blk) : bytes :=
  match blks with
  | [] => []
  | b :: t => vbytes (blk_gap b) ++ vbytes (blk_blklen b) ++ blks_layout t
  end.

Definition layout (fr : ngtcp2_frame) : bytes :=
  match fr with
  | fr_stream s =>
      [stream_flags_of s .| NGTCP2_FRAME_STREAM] ++ vbytes (stream_stream_id s) ++
      (if stream_offset s =? 0 then [] else vbytes (stream_offset s)) ++
      vbytes (zlen (stream_data s)) ++ stream_data s
  | fr_ack a =>
      [NGTCP2_FRAME_ACK] ++ vbytes (ack_largest_ack a) ++ vbytes (ack_ack_delay a) ++
      vbytes (zlen (ack_blks a)) ++ vbytes (ack_first_ack_blklen a) ++
      blks_layout (ack_blks a)
  | fr_padding n => replicate (Z.to_nat n) NGTCP2_FRAME_PADDING
  | fr_rst_stream r =>
      [NGTCP2_FRAME_RST_STREAM] ++ vbytes (rst_stream_id r) ++
      ngtcp2_put_uint16be (rst_app_error_code r) ++ vbytes (rst_final_offset r)
  | fr_connection_close c =>
      [NGTCP2_FRAME_CONNECTION_CLOSE] ++ ngtcp2_put_uint16be (close_error_code c) ++
      vbytes (zlen (close_reason c)) ++ close_reason c
  | fr_application_close c =>
      [NGTCP2_FRAME_APPLICATION_CLOSE] ++ ngtcp2_put_uint16be (close_error_code c) ++
      vbytes (zlen (close_reason c)) ++ close_reason c
  | fr_max_data v => [NGTCP2_FRAME_MAX_DATA] ++ vbytes v
  | fr_max_stream_data i v => [NGTCP2_FRAME_MAX_STREAM_DATA] ++ vbytes i ++ vbytes v
  | fr_max_stream_id v => [NGTCP2_FRAME_MAX_STREAM_ID] ++ vbytes v
  | fr_ping d => [NGTCP2_FRAME_PING] ++ [zlen d] ++ d
  | fr_blocked v => [NGTCP2_FRAME_BLOCKED] ++ vbytes v
  | fr_stream_blocked i v => [NGTCP2_FRAME_STREAM_BLOCKED] ++ vbytes i ++ vbytes v
  | fr_stream_id_blocked v => [NGTCP2_FRAME_STREAM_ID_BLOCKED] ++ vbytes v
  | fr_new_connection_id c =>
      [NGTCP2_FRAME_NEW_CONNECTION_ID] ++ vbytes (ncid_seq c) ++
      ngtcp2_put_uint64be (ncid_conn_id c) ++ ncid_stateless_reset_token c
  | fr_stop_sending i e => [NGTCP2_FRAME_STOP_SENDING] ++ vbytes i ++ ngtcp2_put_uint16be e
  | fr_pong d => [NGTCP2_FRAME_PONG] ++ [zlen d] ++ d
  | fr_other _ => []
  end.

(** The caller's frame after encoding, and the frame the peer decodes. *)
Definition encoded_frame (fr : ngtcp2_frame) : ngtcp2_frame :=
  match fr with
  | fr_stream s => fr_stream (mk_stream (stream_flags_of s) (stream_fin s)
                     (stream_stream_id s) (stream_offset s) (stream_data s))
  | _ => fr
  end.

Definition received_frame (fr : ngtcp2_frame) : ngtcp2_frame :=
  match fr with
  | fr_stream s => fr_stream (mk_stream (stream_flags_of s) (c_bool (negb (stream_fin s =? 0)))
                     (stream_stream_id s) (stream_offset s) (stream_data s))
  | _ => fr
  end.

(** [estep] runs one operation of an encoder. *)
Ltac estep :=
  res_simpl;
  first
    [ rewrite put_varint_len_ok by (first [assumption | zlia])
    | unfold wr_varint at 1; rewrite put_varint_ok by (first [assumption | zlia])
    | rewrite wr_ok by zlia ].

Lemma check_out_bind {A} outlen len (k : unit -> res A) r :
  (len <= outlen -> k tt = Ok r) ->
  (check_out outlen len ≫= k) = (if outlen <? len then Err NGTCP2_ERR_NOBUF else Ok r).
Proof. intros H. unfold check_out, fail_if. destruct (Z.ltb_spec outlen len); auto. Qed.

Lemma finish_ok w len : zlen w = len -> finish w len = Ok (w, len).
Proof. intros H. unfold finish. by rewrite (proj2 (Z.eqb_eq _ _) H). Qed.

(** [encodes_as m outlen bs]: an encoder that emits [bs] when they fit. *)
Definition encodes_as (m : res (bytes * Z)) (outlen : Z) (bs : bytes) : Prop :=
  m = if outlen <? zlen bs then Err NGTCP2_ERR_NOBUF else Ok (bs, zlen bs).

Ltac encode :=
  unfold encodes_as; repeat estep; res_simpl; unwrap;
  match goal with |- _ = if _ <? zlen ?bs then _ else _ =>
    match goal with |- context [check_out _ ?l] => replace l with (zlen bs) by zlia end end;
  apply check_out_bind; intros ?;
  repeat estep; res_simpl; rewrite <- ?app_assoc; apply finish_ok; zlia.

Lemma encode_varint_spec type outlen v :
  is_uint 62 v -> encodes_as (encode_varint_frame type outlen v) outlen ([type] ++ vbytes v).
Proof. intros. unfold encode_varint_frame. encode. Qed.

Lemma encode_varint2_spec type outlen i v :
  is_uint 62 i -> is_uint 62 v ->
  encodes_as (encode_varint2_frame type outlen i v) outlen ([type] ++ vbytes i ++ vbytes v).
Proof. intros. unfold encode_varint2_frame. encode. Qed.

Lemma encode_rst_stream_spec outlen r :
  wf_frame (fr_rst_stream r) ->
  encodes_as (ngtcp2_pkt_encode_rst_stream_frame outlen r) outlen (layout (fr_rst_stream r)).
Proof.
  intros (? & ? & ?). unfold ngtcp2_pkt_encode_rst_stream_frame, layout. encode.
Qed.

Lemma encode_stop_sending_spec outlen i e :
  is_uint 62 i ->
  encodes_as (ngtcp2_pkt_encode_stop_sending_frame outlen i e) outlen
    (layout (fr_stop_sending i e)).
Proof. intros. unfold ngtcp2_pkt_encode_stop_sending_frame, layout. encode. Qed.

Lemma encode_new_connection_id_spec outlen c :
  wf_frame (fr_new_connection_id c) ->
  encodes_as (ngtcp2_pkt_encode_new_connection_id_frame outlen c) outlen
    (layout (fr_new_connection_id c)).
Proof.
  intros (? & ? & ? & ?). unfold ngtcp2_pkt_encode_new_connection_id_frame, layout.
  unfold NGTCP2_STATELESS_RESET_TOKENLEN in *. encode.
Qed.

Lemma wr_data_ok outlen w data :
  zlen w + zlen data <= outlen -> wr_data outlen w data = Ok (w ++ data).
Proof.
  intros. unfold wr_data. destruct (Z.eqb_spec (zlen data) 0); [|by apply wr_ok].
  destruct data; [by rewrite app_nil_r | zlia].
Qed.

Lemma encode_close_spec type outlen c :
  wf_close c ->
  encodes_as (encode_close_frame type outlen c) outlen
    ([type] ++ ngtcp2_put_uint16be (close_error_code c) ++
     vbytes (zlen (close_reason c)) ++ close_reason c).
Proof.
  intros (? & ? & Hz). pose proof (vbytes_len _ Hz).
  unfold encode_close_frame, encodes_as. repeat estep. res_simpl.
  rewrite u64_small by zlia.
  match goal with |- _ = if _ <? zlen ?bs then _ else _ =>
    match goal with |- context [check_out _ ?l] => replace l with (zlen bs) by zlia end end.
  apply check_out_bind. intros ?. repeat estep. res_simpl. rewrite wr_data_ok by zlia.
  res_simpl. rewrite <- ?app_assoc. apply finish_ok. zlia.
Qed.

Lemma encode_ping_spec type outlen d :
  zlen d <= 255 ->
  encodes_as (encode_ping_frame type outlen d) outlen ([type] ++ [zlen d] ++ d).
Proof.
  intros. unfold encode_ping_frame, encodes_as. res_simpl. rewrite u64_small by zlia.
  match goal with |- _ = if _ <? zlen ?bs then _ else _ =>
    match goal with |- context [check_out _ ?l] => replace l with (zlen bs) by zlia end end.
  apply check_out_bind. intros ?. rewrite u8_small by zlia. repeat estep. res_simpl.
  rewrite wr_data_ok by zlia. res_simpl. rewrite <- ?app_assoc. apply finish_ok. zlia.
Qed.

Lemma encode_padding_spec outlen n :
  0 <= n -> encodes_as (ngtcp2_pkt_encode_padding_frame outlen n) outlen (layout (fr_padding n)).
Proof.
  intros Hn. unfold ngtcp2_pkt_encode_padding_frame, encodes_as, layout.
  rewrite zlen_replicate, Z2Nat.id by done. apply check_out_bind. intros ?.
  rewrite wr_ok by zlia. res_simpl. done.
Qed.

(** The blocks of an ACK frame. *)
Lemma ack_blks_len_spec len blks :
  Forall wf_blk blks ->
  ack_blks_len len blks = Ok (len + zlen (blks_layout blks)).
Proof.
  intros H. revert len. induction H as [|b blks [? ?] _ IH]; intros len; simpl.
  { change (zlen []) with 0. by rewrite Z.add_0_r. }
  rewrite !put_varint_len_ok by done. res_simpl. rewrite IH. f_equal.
  zlia.
Qed.

Lemma ack_write_blks_spec outlen w blks :
  Forall wf_blk blks -> zlen w + zlen (blks_layout blks) <= outlen ->
  ack_write_blks outlen w blks = Ok (w ++ blks_layout blks).
Proof.
  intros H. revert w. induction H as [|b blks [? ?] _ IH]; intros w Hle; simpl in *.
  { by rewrite app_nil_r. }
  repeat estep. res_simpl. rewrite IH by zlia.
  by rewrite <- !app_assoc.
Qed.

Lemma encode_ack_spec outlen a :
  encodable (fr_ack a) ->
  encodes_as (ngtcp2_pkt_encode_ack_frame outlen a) outlen (layout (fr_ack a)).
Proof.
  intros (? & ? & ? & Hf & Hn). unfold NGTCP2_MAX_ACK_BLKS in Hn.
  assert (is_uint 62 (zlen (ack_blks a))) by zlia.
  unfold ngtcp2_pkt_encode_ack_frame, encodes_as, layout. repeat estep. res_simpl.
  rewrite ack_blks_len_spec by done. res_simpl.
  match goal with |- _ = if _ <? zlen ?bs then _ else _ =>
    match goal with |- context [check_out _ ?l] => replace l with (zlen bs) by zlia end end.
  apply check_out_bind. intros ?. repeat estep. res_simpl.
  rewrite ack_write_blks_spec by (try done; zlia). res_simpl. rewrite <- ?app_assoc.
  apply finish_ok. zlia.
Qed.

Lemma encode_stream_spec outlen s :
  wf_frame (fr_stream s) ->
  ngtcp2_pkt_encode_stream_frame outlen s =
  if outlen <? zlen (layout (fr_stream s)) then Err NGTCP2_ERR_NOBUF
  else Ok (layout (fr_stream s), zlen (layout (fr_stream s)),
           mk_stream (stream_flags_of s) (stream_fin s) (stream_stream_id s)
             (stream_offset s) (stream_data s)).
Proof.
  intros (Hi & Ho & Hd & Hz). unfold ngtcp2_pkt_encode_stream_frame, layout, stream_flags_of.
  pose proof (vbytes_len _ Hi). pose proof (vbytes_len _ Ho). pose proof (vbytes_len _ Hz).
  destruct (stream_fin s =? 0), (stream_offset s =? 0); rewrite ?Z.lor_0_r;
    repeat estep; res_simpl; rewrite u64_small by zlia;
    (match goal with |- _ = if _ <? zlen ?bs then _ else _ =>
      match goal with |- context [check_out _ ?l] => replace l with (zlen bs) by zlia end end);
    (apply check_out_bind; intros ?); repeat estep; res_simpl;
    (rewrite wr_data_ok by zlia); res_simpl; rewrite <- ?app_assoc;
    (rewrite finish_ok by zlia); done.
Qed.

(** ** Decoding what was encoded *)

Lemma check_len_ok payload len : len <= zlen payload -> check_len payload len = Ok tt.
Proof. intros. unfold check_len, fail_if. by rewrite (proj2 (Z.ltb_ge _ _)). Qed.

Lemma varint_len_checked_ok payload n rest len :
  is_uint 62 n -> len + (zlen (vbytes n) - 1) <= zlen payload ->
  varint_len_checked payload (vbytes n ++ rest) len =
  Ok (zlen (vbytes n), len + (zlen (vbytes n) - 1)).
Proof.
  intros Hn Hl. unfold varint_len_checked. rewrite get_len_vbytes by done. res_simpl.
  by rewrite check_len_ok.
Qed.

Lemma assert_read_ok payload p len : zlen payload - zlen p = len -> assert_read payload p len = Ok tt.
Proof. intros H. unfold assert_read. by rewrite (proj2 (Z.eqb_eq _ _) H). Qed.

Lemma adv_app2 n a b p : zlen a + zlen b = n -> adv n (a ++ b ++ p) = Ok p.
Proof. intros H. rewrite app_assoc. apply adv_app. by rewrite zlen_app. Qed.

Lemma adv_cons_app n t a p : 1 + zlen a = n -> adv n (t :: a ++ p) = Ok p.
Proof. intros H. apply (adv_app2 n [t] a p). by rewrite <- H. Qed.

Lemma rd_data_ok d p : rd_data (zlen d) (d ++ p) = Ok (d, p).
Proof.
  unfold rd_data. destruct (Z.eqb_spec (zlen d) 0).
  - by destruct d.
  - rewrite rdn_app, adv_app by done. done.
Qed.

(** [dstep] runs one operation of a decoder on an encoded frame. *)
Ltac dstep :=
  res_simpl; cbn beta iota zeta;
  first
    [ rewrite rd_cons
    | rewrite check_len_ok by zlia
    | rewrite varint_len_checked_ok by (first [assumption | zlia])
    | rewrite get_len_vbytes by (first [assumption | zlia])
    | rewrite get_vbytes by (first [assumption | zlia])
    | rewrite adv_1
    | rewrite adv_cons_app by (rewrite zlen_put_uint16be; done)
    | rewrite rd_data_ok
    | rewrite adv_app by zlia
    | rewrite adv_app2 by zlia
    | rewrite rdn_app by zlia
    | rewrite get_put_uint16 by assumption
    | rewrite get_put_uint32 by assumption
    | rewrite get_put_uint64 by assumption
    | rewrite assert_read_ok by zlia
    | match goal with |- context [u64 ?x] => rewrite (u64_small x) by zlia end ].

Ltac dfin :=
  res_simpl; cbn [layout app];
  match goal with |- Ok (_, ?a) = Ok (_, ?b) => replace a with b by zlia end; try done.

Ltac dlayout := cbn [layout app]; rewrite <- ?app_assoc.

Section RoundTrip.
Context (rest : bytes).

Lemma varint_frame_roundtrip t v :
  is_uint 62 v ->
  decode_varint_frame (t :: vbytes v ++ rest) = Ok (v, 1 + zlen (vbytes v)).
Proof using.
  intros Hv. pose proof (vbytes_len v Hv). unfold decode_varint_frame.
  repeat dstep. dfin.
Qed.

Lemma varint2_roundtrip t i v :
  is_uint 62 i -> is_uint 62 v ->
  decode_varint2_frame (t :: vbytes i ++ vbytes v ++ rest) =
  Ok (i, v, 1 + zlen (vbytes i) + zlen (vbytes v)).
Proof using.
  intros Hi Hv. pose proof (vbytes_len i Hi). pose proof (vbytes_len v Hv).
  unfold decode_varint2_frame. repeat dstep. dfin.
Qed.

Lemma rst_stream_roundtrip r :
  wf_frame (fr_rst_stream r) ->
  ngtcp2_pkt_decode_rst_stream_frame (layout (fr_rst_stream r) ++ rest) =
  Ok (r, zlen (layout (fr_rst_stream r))).
Proof using.
  intros (Hi & ? & Ho). pose proof (vbytes_len _ Hi). pose proof (vbytes_len _ Ho).
  unfold ngtcp2_pkt_decode_rst_stream_frame. dlayout.
  repeat dstep. dfin. by destruct r.
Qed.

Lemma stop_sending_roundtrip i e :
  wf_frame (fr_stop_sending i e) ->
  ngtcp2_pkt_decode_stop_sending_frame (layout (fr_stop_sending i e) ++ rest) =
  Ok (i, e, zlen (layout (fr_stop_sending i e))).
Proof using.
  intros (Hi & ?). pose proof (vbytes_len _ Hi).
  unfold ngtcp2_pkt_decode_stop_sending_frame. dlayout.
  repeat dstep. dfin.
Qed.

Lemma new_connection_id_roundtrip c :
  wf_frame (fr_new_connection_id c) ->
  ngtcp2_pkt_decode_new_connection_id_frame (layout (fr_new_connection_id c) ++ rest) =
  Ok (c, zlen (layout (fr_new_connection_id c))).
Proof using.
  intros (Hi & ? & ? & Ht). assert (is_uint 62 (ncid_seq c)) as Hi' by clia.
  pose proof (vbytes_len _ Hi'). unfold NGTCP2_STATELESS_RESET_TOKENLEN in *.
  unfold ngtcp2_pkt_decode_new_connection_id_frame, NGTCP2_STATELESS_RESET_TOKENLEN. dlayout.
  repeat dstep. dfin. rewrite u16_small by done. by destruct c.
Qed.

Lemma close_roundtrip t c :
  wf_close c ->
  decode_close_frame (t :: ngtcp2_put_uint16be (close_error_code c) ++
    vbytes (zlen (close_reason c)) ++ close_reason c ++ rest) =
  Ok (c, 3 + zlen (vbytes (zlen (close_reason c))) + zlen (close_reason c)).
Proof using.
  intros (? & ? & Hz). pose proof (vbytes_len _ Hz). unfold decode_close_frame.
  repeat dstep. dfin. by destruct c.
Qed.

Lemma ping_roundtrip t d :
  zlen d <= 255 ->
  decode_ping_frame (t :: zlen d :: d ++ rest) = Ok (d, 2 + zlen d).
Proof using.
  intros Hd. unfold decode_ping_frame. repeat dstep. dfin.
Qed.

Lemma padding_end_replicate k :
  padding_end (replicate k NGTCP2_FRAME_PADDING ++ rest) = padding_end rest.
Proof using. by induction k. Qed.

Lemma padding_roundtrip n :
  1 <= n -> padding_end rest = rest ->
  ngtcp2_pkt_decode_padding_frame (layout (fr_padding n) ++ rest) = Ok (n, n).
Proof using.
  intros Hn Hr. unfold ngtcp2_pkt_decode_padding_frame, layout, c_assert.
  destruct (Z.to_nat n) as [|k] eqn:Hk; [lia|].
  rewrite (proj2 (Z.ltb_lt _ _)) by (cbn [replicate app]; zlia).
  cbn [replicate app]. repeat dstep. res_simpl. rewrite padding_end_replicate, Hr. res_simpl.
  match goal with |- Ok (?a, _) = _ => replace a with n by (autorewrite with zlen; lia) end.
  done.
Qed.

Lemma blks_layout_len blks : Forall wf_blk blks -> 2 * zlen blks <= zlen (blks_layout blks).
Proof using.
  induction 1 as [|b blks [Hg Hb] _ IH]; [done|]. cbn [blks_layout].
  pose proof (vbytes_len _ Hg). pose proof (vbytes_len _ Hb). zlia.
Qed.

Lemma ack_skip_fields_roundtrip payload blks len :
  Forall wf_blk blks -> len + zlen (blks_layout blks) - 2 * zlen blks <= zlen payload ->
  ack_skip_fields payload (length blks * 2) len (blks_layout blks ++ rest) =
  Ok (len + zlen (blks_layout blks) - 2 * zlen blks, rest).
Proof using.
  intros H. revert len. induction H as [|b blks [Hg Hb] Hf IH]; intros len Hlen.
  { cbn [length Nat.mul ack_skip_fields blks_layout app]. res_simpl. do 2 f_equal. zlia. }
  pose proof (vbytes_len _ Hg). pose proof (vbytes_len _ Hb).
  pose proof (blks_layout_len blks Hf).
  cbn [length Nat.mul Nat.add blks_layout ack_skip_fields] in *. rewrite <- !app_assoc.
  repeat dstep. res_simpl. rewrite IH by zlia. do 2 f_equal. zlia.
Qed.

Lemma ack_read_blks_roundtrip blks :
  Forall wf_blk blks ->
  ack_read_blks (length blks) (blks_layout blks ++ rest) = Ok (blks, rest).
Proof using.
  induction 1 as [|b blks [Hg Hb] Hf IH]; [done|].
  cbn [length blks_layout ack_read_blks]. rewrite <- !app_assoc.
  repeat dstep. res_simpl. rewrite IH. res_simpl. by destruct b.
Qed.

Lemma ack_roundtrip a :
  wf_frame (fr_ack a) ->
  ngtcp2_pkt_decode_ack_frame (layout (fr_ack a) ++ rest) = Ok (a, zlen (layout (fr_ack a))).
Proof using.
  intros (Hl & Hd & Hb & Hf & Hn). unfold NGTCP2_MAX_ACK_BLKS in Hn.
  assert (is_uint 62 (zlen (ack_blks a))) as Hz by zlia.
  pose proof (vbytes_len _ Hl). pose proof (vbytes_len _ Hd). pose proof (vbytes_len _ Hb).
  pose proof (vbytes_len _ Hz). pose proof (blks_layout_len _ Hf).
  unfold ngtcp2_pkt_decode_ack_frame, NGTCP2_MAX_ACK_BLKS. dlayout.
  repeat dstep. res_simpl.
  replace (Z.to_nat (zlen (ack_blks a))) with (length (ack_blks a)) by (unfold zlen; lia).
  rewrite ack_skip_fields_roundtrip by (try done; zlia).
  replace (Z.min 255 (zlen (ack_blks a))) with (zlen (ack_blks a)) by lia.
  rewrite Z.sub_diag.
  replace (Z.to_nat (zlen (ack_blks a))) with (length (ack_blks a)) by (unfold zlen; lia).
  repeat dstep. res_simpl. rewrite ack_read_blks_roundtrip by done.
  res_simpl. change (ack_skip_blks (Z.to_nat 0) rest) with (Ok rest).
  repeat dstep. dfin. by destruct a.
Qed.

(** Flag bits of an encoded STREAM frame. *)
Lemma stream_type_bits s :
  let t := stream_flags_of s .| NGTCP2_FRAME_STREAM in
  has_mask t NGTCP2_FRAME_STREAM = true /\
  has_bit t NGTCP2_STREAM_OFF_BIT = negb (stream_offset s =? 0) /\
  has_bit t NGTCP2_STREAM_LEN_BIT = true /\
  has_bit t NGTCP2_STREAM_FIN_BIT = negb (stream_fin s =? 0) /\
  u8 (t .& Z.lnot NGTCP2_FRAME_STREAM) = stream_flags_of s.
Proof using.
  unfold stream_flags_of. by destruct (stream_fin s =? 0), (stream_offset s =? 0).
Qed.

Lemma stream_roundtrip s :
  wf_frame (fr_stream s) ->
  inj1 fr_stream (ngtcp2_pkt_decode_stream_frame (layout (fr_stream s) ++ rest)) =
  Ok (received_frame (fr_stream s), zlen (layout (fr_stream s))).
Proof using.
  intros (Hi & Ho & Hd & Hz).
  pose proof (vbytes_len _ Hi). pose proof (vbytes_len _ Ho). pose proof (vbytes_len _ Hz).
  destruct (stream_type_bits s) as (_ & Boff & Blen & Bfin & Bfl).
  unfold inj1, ngtcp2_pkt_decode_stream_frame, stream_skip_offset, stream_check_datalen,
    received_frame. dlayout.
  repeat dstep. res_simpl. rewrite Boff, Blen, Bfin, Bfl.
  destruct (Z.eqb_spec (stream_offset s) 0) as [E|E]; cbn [negb app] in *;
    rewrite <- ?app_assoc; repeat dstep; dfin; by rewrite <- ?E.
Qed.
End RoundTrip.

(** ** The dispatchers *)

(** Every encoder emits the reference layout, or reports a short buffer. *)
Lemma encode_frame_spec outlen fr :
  encodable fr ->
  ngtcp2_pkt_encode_frame outlen fr =
  if outlen <? zlen (layout fr) then Err NGTCP2_ERR_NOBUF
  else Ok (layout fr, zlen (layout fr), encoded_frame fr).
Proof.
  intros Hwf.
  assert (forall m, encodes_as m outlen (layout fr) ->
    (('(w, n) ← m; mret (w, n, fr)) : res (bytes * Z * ngtcp2_frame)) =
    if outlen <? zlen (layout fr) then Err NGTCP2_ERR_NOBUF
    else Ok (layout fr, zlen (layout fr), fr)) as keep.
  { intros m ->. by destruct (outlen <? _). }
  destruct fr; cbn [ngtcp2_pkt_encode_frame encoded_frame];
    try (apply keep; first
      [ apply encode_ack_spec | apply encode_padding_spec | apply encode_rst_stream_spec
      | apply encode_close_spec | apply encode_varint_spec
      | apply encode_varint2_spec | apply encode_ping_spec
      | apply encode_new_connection_id_spec | apply encode_stop_sending_spec ];
      simpl in Hwf; (done || lia || by destruct Hwf)).
  - rewrite encode_stream_spec by done. by destruct (outlen <? _).
  - by destruct Hwf.
Qed.

(** [frame_follows fr rest]: what may follow [fr] in a packet; zero bytes after
    PADDING are part of the same run. *)
Definition frame_follows (fr : ngtcp2_frame) (rest : bytes) : Prop :=
  match fr with
  | fr_padding _ => match rest with b :: _ => b <> NGTCP2_FRAME_PADDING | [] => True end
  | _ => True
  end.

Lemma layout_cons fr : wf_frame fr -> exists t q, layout fr = t :: q.
Proof.
  intros Hwf. destruct fr; try (by destruct Hwf); try (do 2 eexists; reflexivity).
  simpl in *. destruct (Z.to_nat len) eqn:?; [lia|]. by do 2 eexists.
Qed.

Lemma inj1_ok {A} (f : A -> ngtcp2_frame) m a n : m = Ok (a, n) -> inj1 f m = Ok (f a, n).
Proof. by intros ->. Qed.

Lemma decode_layout fr rest :
  wf_frame fr -> frame_follows fr rest ->
  ngtcp2_pkt_decode_frame (layout fr ++ rest) =
  Ok (Some (received_frame fr), zlen (layout fr)).
Proof.
  intros Hwf Hfo. unfold ngtcp2_pkt_decode_frame.
  destruct (layout_cons fr Hwf) as (t & q & El).
  destruct (Z.eqb_spec (zlen (layout fr ++ rest)) 0) as [E|_]; [rewrite El in E; zlia|].
  assert (rd (layout fr ++ rest) = Ok t) as -> by (by rewrite El). res_simpl.
  assert (forall m : res (ngtcp2_frame * Z), m = Ok (received_frame fr, zlen (layout fr)) ->
    ('(fr, n) ← m; Ok (Some fr, n)) = Ok (Some (received_frame fr), zlen (layout fr))) as Hret
    by (by intros m ->).
  apply Hret. clear Hret.
  destruct fr as [s|a|n|r|c|c|v|i v|v|d|v|i v|v|c|i e|d|]; try (by destruct Hwf);
    try (injection El as <- _; dispatch; cbn [received_frame]; cbn [wf_frame] in Hwf).
  - rewrite (proj1 (stream_type_bits s)). by apply stream_roundtrip.
  - by apply inj1_ok, ack_roundtrip.
  - assert (t = NGTCP2_FRAME_PADDING) as ->.
    { cbn [layout] in El. destruct (Z.to_nat n); simpl in El; congruence. }
    dispatch. cbn [received_frame layout]. simpl in Hwf.
    rewrite zlen_replicate, Z2Nat.id by lia. apply inj1_ok, padding_roundtrip; [lia|].
    destruct rest as [|b p]; [done|]. simpl in *. by rewrite (proj2 (Z.eqb_neq _ _)).
  - by apply inj1_ok, rst_stream_roundtrip.
  - cbn [layout app]. rewrite <- !app_assoc. erewrite inj1_ok by (by apply close_roundtrip). dfin.
  - cbn [layout app]. rewrite <- !app_assoc. erewrite inj1_ok by (by apply close_roundtrip). dfin.
  - erewrite inj1_ok by (by apply varint_frame_roundtrip). dfin.
  - destruct Hwf. cbn [layout app]. rewrite <- app_assoc.
    erewrite inj1_ok by (by apply (varint2_roundtrip rest)). dfin.
  - erewrite inj1_ok by (by apply varint_frame_roundtrip). dfin.
  - destruct Hwf. erewrite inj1_ok by (by apply ping_roundtrip). dfin.
  - erewrite inj1_ok by (by apply varint_frame_roundtrip). dfin.
  - destruct Hwf. cbn [layout app]. rewrite <- app_assoc.
    erewrite inj1_ok by (by apply (varint2_roundtrip rest)). dfin.
  - erewrite inj1_ok by (by apply varint_frame_roundtrip). dfin.
  - by apply inj1_ok, new_connection_id_roundtrip.
  - by erewrite inj1_ok by (by apply stop_sending_roundtrip).
  - destruct Hwf. erewrite inj1_ok by (by apply ping_roundtrip). dfin.
Qed.

(** ** Properties *)

(** C18. What is encoded is decoded: the bytes the encoder stores for a
    well-formed frame fit the output buffer, and are decoded, whatever frame
    follows, to the same frame, reading exactly those bytes. (The decoder
    normalises [fin] and sets [flags] of a STREAM frame; PADDING must not be
    followed by more PADDING.) *)
Theorem frame_roundtrip outlen fr w n fr' rest :
  wf_frame fr -> frame_follows fr rest ->
  ngtcp2_pkt_encode_frame outlen fr = Ok (w, n, fr') ->
  zlen w = n /\ n <= outlen /\ fr' = encoded_frame fr /\
  ngtcp2_pkt_decode_frame (w ++ rest) = Ok (Some (received_frame fr), n).
Proof.
  intros Hwf Hf. rewrite encode_frame_spec by (by apply wf_encodable). destruct (Z.ltb_spec outlen (zlen (layout fr))); [done|].
  intros [= <- <- <-]. split_and!; [done | done | done | by apply decode_layout].
Qed.

Lemma frame_roundtrip_witness :
  let fr := fr_stream (mk_stream 0 7 4 0x10000 [0xde; 0xad]) in
  exists w n fr', ngtcp2_pkt_encode_frame 1200 fr = Ok (w, n, fr') /\
  ngtcp2_pkt_decode_frame (w ++ [0]) = Ok (Some (received_frame fr), n).
Proof.
  intros fr. do 3 eexists. split; [reflexivity|].
  refine (proj2 (proj2 (proj2 (frame_roundtrip 1200 fr _ _ _ [0] _ _ _)))); [|done|reflexivity].
  unfold wf_frame. split_and!; try done. repeat constructor; done.
Defined.

(** C34. The length the encoder computes up front is the length of what it
    writes: there is one sequence of bytes for a frame within the ranges of the
    format (and with up to 256 blocks, if it is an ACK frame) that is emitted into every buffer it fits, and for every smaller buffer the result is
    [NGTCP2_ERR_NOBUF]. No store is outside of the buffer. *)
Theorem frame_encoder_exact fr :
  encodable fr ->
  exists bs, forall outlen, ngtcp2_pkt_encode_frame outlen fr =
    if outlen <? zlen bs then Err NGTCP2_ERR_NOBUF else Ok (bs, zlen bs, encoded_frame fr).
Proof. intros Hwf. exists (layout fr). intros outlen. by apply encode_frame_spec. Qed.

Lemma frame_encoder_exact_witness :
  let fr := fr_ack (mk_ack 1000 8 3 [mk_ack_blk 1 2; mk_ack_blk 300 0]) in
  exists bs, forall outlen, ngtcp2_pkt_encode_frame outlen fr =
    if outlen <? zlen bs then Err NGTCP2_ERR_NOBUF else Ok (bs, zlen bs, encoded_frame fr).
Proof.
  intros fr. apply (frame_encoder_exact fr). unfold encodable. split_and!; try done.
  repeat constructor; done.
Defined.
