(* ===== verification/PktHd.v ===== *)
(** Packet headers and the packets without frames: [ngtcp2_pkt_decode_hd],
    [ngtcp2_pkt_encode_hd_long/short], Version Negotiation, Stateless Reset,
    packet number recovery and ACK validation ([lib/ngtcp2_pkt.c]). *)

From S2P Require Import Prelude Conv Frame PktDecode PktEncode.

Definition ngtcp2_pkt_hd_init (flags type conn_id pkt_num version : Z) : ngtcp2_pkt_hd :=
  mk_pkt_hd flags type conn_id pkt_num version.

(** ** Decoding: the header and the number of bytes read *)

Definition ngtcp2_pkt_decode_hd_long (pkt : bytes) : res (ngtcp2_pkt_hd * Z) :=
  fail_if (zlen pkt <? NGTCP2_LONG_HEADERLEN) NGTCP2_ERR_INVALID_ARGUMENT;;
  b ← rd pkt;
  fail_if (b .& NGTCP2_HEADER_FORM_BIT =? 0) NGTCP2_ERR_INVALID_ARGUMENT;;
  p ← adv 9 pkt;
  version ← ngtcp2_get_uint32 p;
  let type := b .& NGTCP2_LONG_TYPE_MASK in
  type ←
    (if (type =? NGTCP2_PKT_INITIAL) || (type =? NGTCP2_PKT_RETRY) ||
        (type =? NGTCP2_PKT_HANDSHAKE) || (type =? NGTCP2_PKT_0RTT_PROTECTED)
     then mret type
     else if version =? 0 then mret NGTCP2_PKT_VERSION_NEGOTIATION
     else Err NGTCP2_ERR_UNKNOWN_PKT_TYPE);
  p ← adv 1 pkt;
  conn_id ← ngtcp2_get_uint64 p;
  p ← adv 13 pkt;
  pkt_num ← ngtcp2_get_uint32 p;
  mret (mk_pkt_hd NGTCP2_PKT_FLAG_LONG_FORM type conn_id pkt_num version,
        NGTCP2_LONG_HEADERLEN).

(** [switch (type)]: the bytes a short header's packet number takes. *)
Definition short_pkt_num_len (type : Z) : option Z :=
  if type =? NGTCP2_PKT_01 then Some 1
  else if type =? NGTCP2_PKT_02 then Some 2
  else if type =? NGTCP2_PKT_03 then Some 4
  else None.

Definition ngtcp2_pkt_decode_hd_short (pkt : bytes) : res (ngtcp2_pkt_hd * Z) :=
  b ← rd pkt;
  fail_if (has_bit b NGTCP2_HEADER_FORM_BIT) NGTCP2_ERR_INVALID_ARGUMENT;;
  let omit := has_bit b NGTCP2_OMIT_CONN_ID_BIT in
  let flags := if omit then NGTCP2_PKT_FLAG_OMIT_CONN_ID else 0 in
  let len := if omit then 1 else 1 + 8 in
  let flags := if has_bit b NGTCP2_KEY_PHASE_BIT
               then flags .| NGTCP2_PKT_FLAG_KEY_PHASE else flags in
  let type := b .& NGTCP2_SHORT_TYPE_MASK in
  match short_pkt_num_len type with
  | None => Err NGTCP2_ERR_UNKNOWN_PKT_TYPE
  | Some n =>
      let len := len + n in
      fail_if (zlen pkt <? len) NGTCP2_ERR_INVALID_ARGUMENT;;
      p ← adv 1 pkt;
      '(conn_id, p) ←
        (if has_bit flags NGTCP2_PKT_FLAG_OMIT_CONN_ID then mret (0, p)
         else conn_id ← ngtcp2_get_uint64 p; p ← adv 8 p; mret (conn_id, p));
      pkt_num ←
        (if type =? NGTCP2_PKT_01 then rd p
         else if type =? NGTCP2_PKT_02 then ngtcp2_get_uint16 p
         else ngtcp2_get_uint32 p);
      mret (mk_pkt_hd flags type conn_id pkt_num 0, len)
  end.

Definition ngtcp2_pkt_decode_hd (pkt : bytes) : res (ngtcp2_pkt_hd * Z) :=
  if zlen pkt =? 0 then Err NGTCP2_ERR_INVALID_ARGUMENT
  else
    b ← rd pkt;
    if has_bit b NGTCP2_HEADER_FORM_BIT then ngtcp2_pkt_decode_hd_long pkt
    else ngtcp2_pkt_decode_hd_short pkt.

(** ** Encoding *)

Definition ngtcp2_pkt_encode_hd_long (outlen : Z) (hd : ngtcp2_pkt_hd) : res (bytes * Z) :=
  check_out outlen NGTCP2_LONG_HEADERLEN;;
  w ← wr outlen [] [u8 (NGTCP2_HEADER_FORM_BIT .| hd_type hd)];
  w ← wr outlen w (ngtcp2_put_uint64be (hd_conn_id hd));
  w ← wr outlen w (ngtcp2_put_uint32be (hd_version hd));
  w ← wr outlen w (ngtcp2_put_uint32be (u32 (hd_pkt_num hd)));
  finish w NGTCP2_LONG_HEADERLEN.

Definition ngtcp2_pkt_encode_hd_short (outlen : Z) (hd : ngtcp2_pkt_hd) : res (bytes * Z) :=
  let need_conn_id := negb (has_bit (hd_flags hd) NGTCP2_PKT_FLAG_OMIT_CONN_ID) in
  let len := if need_conn_id then 1 + 8 else 1 in
  match short_pkt_num_len (hd_type hd) with
  | None => Err NGTCP2_ERR_INVALID_ARGUMENT
  | Some n =>
      let len := len + n in
      check_out outlen len;;
      let b := hd_type hd in
      let b := if need_conn_id then b else b .| NGTCP2_OMIT_CONN_ID_BIT in
      let b := if has_bit (hd_flags hd) NGTCP2_PKT_FLAG_KEY_PHASE
               then b .| NGTCP2_KEY_PHASE_BIT else b in
      w ← wr outlen [] [b];
      w ← (if need_conn_id then wr outlen w (ngtcp2_put_uint64be (hd_conn_id hd)) else mret w);
      w ← (if hd_type hd =? NGTCP2_PKT_01 then wr outlen w [u8 (hd_pkt_num hd)]
           else if hd_type hd =? NGTCP2_PKT_02 then
             wr outlen w (ngtcp2_put_uint16be (u16 (hd_pkt_num hd)))
           else wr outlen w (ngtcp2_put_uint32be (u32 (hd_pkt_num hd))));
      finish w len
  end.

(** ** Version Negotiation *)

Fixpoint put_versions (destlen : Z) (w : bytes) (sv : list Z) : res bytes :=
  match sv with
  | [] => mret w
  | v :: sv =>
      w ← wr destlen w (ngtcp2_put_uint32be v);
      put_versions destlen w sv
  end.

Definition ngtcp2_pkt_write_version_negotiation (destlen unused_random conn_id : Z)
    (sv : list Z) : res (bytes * Z) :=
  let len := u64 (1 + 8 + 4 + zlen sv * 4) in
  check_out destlen len;;
  w ← wr destlen [] [0x80 .| unused_random];
  w ← wr destlen w (ngtcp2_put_uint64be conn_id);
  w ← wr destlen w (ngtcp2_put_uint32be 0);
  w ← put_versions destlen w sv;
  finish w len.

(** [for (; payload != end; payload += sizeof(uint32_t))]: at most [fuel]
    iterations; the payload is a multiple of four bytes long. *)
Fixpoint get_versions (fuel : nat) (payload : bytes) : res (list Z) :=
  match fuel with
  | O => mret []
  | S fuel =>
      if zlen payload =? 0 then mret []
      else
        v ← ngtcp2_get_uint32 payload;
        payload ← adv 4 payload;
        vs ← get_versions fuel payload;
        mret (v :: vs)
  end.

Definition ngtcp2_pkt_decode_version_negotiation (payload : bytes) : res (list Z * Z) :=
  c_assert (zlen payload mod 4 =? 0);;
  vs ← get_versions (length payload) payload;
  mret (vs, zlen payload / 4).

(** ** Stateless Reset *)

(** [rand] and [stateless_reset_token]. *)
Definition ngtcp2_pkt_decode_stateless_reset (payload : bytes) : res (bytes * bytes) :=
  fail_if (zlen payload <? NGTCP2_STATELESS_RESET_TOKENLEN) NGTCP2_ERR_INVALID_ARGUMENT;;
  let randlen := zlen payload - NGTCP2_STATELESS_RESET_TOKENLEN in
  rand ← rdn randlen payload;
  p ← adv randlen payload;
  token ← rdn NGTCP2_STATELESS_RESET_TOKENLEN p;
  mret (rand, token).

Definition ngtcp2_pkt_write_stateless_reset (destlen : Z) (hd : ngtcp2_pkt_hd)
    (stateless_reset_token rand : bytes) : res (bytes * Z) :=
  '(w, nwrite) ← ngtcp2_pkt_encode_hd_short destlen hd;
  let left := destlen - nwrite in
  fail_if (left <? NGTCP2_STATELESS_RESET_TOKENLEN) NGTCP2_ERR_NOBUF;;
  let randlen := Z.min (left - NGTCP2_STATELESS_RESET_TOKENLEN) (zlen rand) in
  bs ← rdn randlen rand;
  w ← wr destlen w bs;
  token ← rdn NGTCP2_STATELESS_RESET_TOKENLEN stateless_reset_token;
  w ← wr destlen w token;
  mret (w, zlen w).

(** ** Packet number recovery and ACK validation *)

Definition ngtcp2_pkt_adjust_pkt_num (max_pkt_num pkt_num n : Z) : Z :=
  let k := if max_pkt_num =? UINT64_MAX then max_pkt_num else max_pkt_num + 1 in
  let u := k .& u64 (Z.lnot (u64 (1 .<< n) - 1)) in
  let a := u .| pkt_num in
  let b := u64 (u + u64 (1 .<< n)) .| pkt_num in
  let a1 := if k <? a then a - k else k - a in
  let b1 := if k <? b then b - k else k - b in
  if a1 <? b1 then a else b.

(** [for (i = 0; i < fr->num_blks; ++i)]; the value is [largest_ack] at the end. *)
Fixpoint validate_blks (largest_ack : Z) (blks : list ngtcp2_ack_blk) : res Z :=
  match blks with
  | [] => mret largest_ack
  | b :: blks =>
      fail_if (largest_ack <? u64 (blk_gap b + 2)) NGTCP2_ERR_ACK_FRAME;;
      let largest_ack := u64 (largest_ack - u64 (blk_gap b + 2)) in
      fail_if (largest_ack <? blk_blklen b) NGTCP2_ERR_ACK_FRAME;;
      validate_blks (u64 (largest_ack - blk_blklen b)) blks
  end.

Definition ngtcp2_pkt_validate_ack (fr : ngtcp2_ack) : res unit :=
  fail_if (ack_largest_ack fr <? ack_first_ack_blklen fr) NGTCP2_ERR_ACK_FRAME;;
  _ ← validate_blks (u64 (ack_largest_ack fr - ack_first_ack_blklen fr)) (ack_blks fr);
  mret tt.

(** ** Safety of header decoding *)

Definition hd_err (e : Z) : Prop :=
  e = NGTCP2_ERR_INVALID_ARGUMENT \/ e = NGTCP2_ERR_UNKNOWN_PKT_TYPE.

(** Ranges of a decoded header. *)
Definition wf_hd (hd : ngtcp2_pkt_hd) : Prop :=
  is_uint 8 (hd_flags hd) /\ is_uint 8 (hd_type hd) /\ is_uint 64 (hd_conn_id hd) /\
  is_uint 32 (hd_pkt_num hd) /\ is_uint 32 (hd_version hd).

Lemma wpe_fail_if_lt a b e (Q : unit -> Prop) (E : Z -> Prop) :
  E e -> (b <= a -> Q tt) -> wpe (fail_if (a <? b) e) Q E.
Proof. intros ? ?. apply wpe_fail_if; [done|]. intros ?%Z.ltb_ge. auto. Qed.

Lemma land_byte b m : 0 <= m < 256 -> is_uint 8 (b .& m).
Proof.
  intros Hm. replace m with (m .& Z.ones 8).
  2:{ rewrite Z.land_ones by lia. apply Z.mod_small. done. }
  rewrite Z.land_assoc, Z.land_ones by lia. apply Z.mod_pos_bound. done.
Qed.

Lemma decode_hd_long_safe pkt :
  all_bytes pkt ->
  wpe (ngtcp2_pkt_decode_hd_long pkt) (fun '(hd, n) => (wf_hd hd /\ 1 <= n <= zlen pkt) /\
    hd_flags hd = NGTCP2_PKT_FLAG_LONG_FORM) hd_err.
Proof.
  intros Hb. unfold ngtcp2_pkt_decode_hd_long, NGTCP2_LONG_HEADERLEN.
  apply wpe_bind, wpe_fail_if_lt; [by left|]. intros ?. wstep. wstep.
  apply wpe_bind, wpe_fail_if; [by left|]. intros _. do 4 wstep.
  apply wpe_bind.
  apply wpe_mono with (Q := fun t => is_uint 8 t) (E := hd_err); [| |done].
  { repeat case_match; try (by right); apply wpe_ret; [by apply land_byte | done]. }
  intros type Ht. wauto. split; [|done]. split; [split_and!; try done; simpl; clia | clia].
Qed.

Lemma short_pkt_num_len_cases t n :
  short_pkt_num_len t = Some n ->
  (t = NGTCP2_PKT_01 /\ n = 1) \/ (t = NGTCP2_PKT_02 /\ n = 2) \/ (t = NGTCP2_PKT_03 /\ n = 4).
Proof. unfold short_pkt_num_len. bdestr; intros [= <-]; auto. Qed.

Lemma decode_hd_short_safe pkt :
  all_bytes pkt -> 1 <= zlen pkt ->
  wpe (ngtcp2_pkt_decode_hd_short pkt) (fun '(hd, n) => (wf_hd hd /\ 1 <= n <= zlen pkt) /\
    has_bit (hd_flags hd) NGTCP2_PKT_FLAG_LONG_FORM = false /\
    (hd_type hd = NGTCP2_PKT_01 \/ hd_type hd = NGTCP2_PKT_02 \/ hd_type hd = NGTCP2_PKT_03)) hd_err.
Proof.
  intros Hb Hl. unfold ngtcp2_pkt_decode_hd_short. do 2 wstep.
  apply wpe_bind, wpe_fail_if; [by left|]. intros _.
  destruct (short_pkt_num_len _) as [n|] eqn:Hn; [|by right].
  apply short_pkt_num_len_cases in Hn.
  apply wpe_bind, wpe_fail_if_lt; [by left|]. intros ?.
  pose proof (land_byte b NGTCP2_SHORT_TYPE_MASK ltac:(done)) as Ht.
  destruct (has_bit b NGTCP2_OMIT_CONN_ID_BIT), (has_bit b NGTCP2_KEY_PHASE_BIT);
    (destruct Hn as [[-> ->] | [[-> ->] | [-> ->]]]); dispatch;
    wauto; (split; [split; [split_and!; try done; simpl; clia | clia] | simpl; auto]).
Qed.

Lemma decode_hd_safe pkt :
  all_bytes pkt ->
  wpe (ngtcp2_pkt_decode_hd pkt) (fun '(hd, n) => wf_hd hd /\ 1 <= n <= zlen pkt) hd_err.
Proof.
  intros Hb. unfold ngtcp2_pkt_decode_hd.
  destruct (Z.eqb_spec (zlen pkt) 0); [by left|].
  assert (1 <= zlen pkt) by zlia. do 2 wstep. wstep.
  - eapply wpe_mono; [by apply decode_hd_long_safe | by intros [? ?] [? _] | done].
  - eapply wpe_mono; [by apply decode_hd_short_safe | by intros [? ?] [? _] | done].
Qed.

(** ** Round trip of headers *)

(** Headers an endpoint sends. *)
Definition long_hd (hd : ngtcp2_pkt_hd) : Prop :=
  hd_flags hd = NGTCP2_PKT_FLAG_LONG_FORM /\
  (hd_type hd = NGTCP2_PKT_INITIAL \/ hd_type hd = NGTCP2_PKT_RETRY \/
   hd_type hd = NGTCP2_PKT_HANDSHAKE \/ hd_type hd = NGTCP2_PKT_0RTT_PROTECTED) /\
  is_uint 64 (hd_conn_id hd) /\ is_uint 64 (hd_pkt_num hd) /\ is_uint 32 (hd_version hd).

Definition short_hd (hd : ngtcp2_pkt_hd) : Prop :=
  (hd_flags hd = 0 \/ hd_flags hd = NGTCP2_PKT_FLAG_OMIT_CONN_ID \/
   hd_flags hd = NGTCP2_PKT_FLAG_KEY_PHASE \/
   hd_flags hd = NGTCP2_PKT_FLAG_OMIT_CONN_ID .| NGTCP2_PKT_FLAG_KEY_PHASE) /\
  (hd_type hd = NGTCP2_PKT_01 \/ hd_type hd = NGTCP2_PKT_02 \/ hd_type hd = NGTCP2_PKT_03) /\
  is_uint 64 (hd_conn_id hd) /\ is_uint 64 (hd_pkt_num hd).

(** The bits of the packet number on the wire. *)
Definition pkt_num_bits (hd : ngtcp2_pkt_hd) : Z :=
  if hd_type hd =? NGTCP2_PKT_01 then 8 else if hd_type hd =? NGTCP2_PKT_02 then 16 else 32.

(** The header the peer reads. *)
Definition received_hd (hd : ngtcp2_pkt_hd) : ngtcp2_pkt_hd :=
  let omit := has_bit (hd_flags hd) NGTCP2_PKT_FLAG_OMIT_CONN_ID in
  let long := has_bit (hd_flags hd) NGTCP2_PKT_FLAG_LONG_FORM in
  mk_pkt_hd (hd_flags hd) (hd_type hd) (if omit then 0 else hd_conn_id hd)
    (hd_pkt_num hd mod 2 ^ pkt_num_bits hd) (if long then hd_version hd else 0).

Lemma encode_hd_long_spec outlen hd :
  ngtcp2_pkt_encode_hd_long outlen hd =
  if outlen <? NGTCP2_LONG_HEADERLEN then Err NGTCP2_ERR_NOBUF
  else Ok (u8 (NGTCP2_HEADER_FORM_BIT .| hd_type hd) :: ngtcp2_put_uint64be (hd_conn_id hd) ++
           ngtcp2_put_uint32be (hd_version hd) ++ ngtcp2_put_uint32be (u32 (hd_pkt_num hd)),
           NGTCP2_LONG_HEADERLEN).
Proof.
  unfold ngtcp2_pkt_encode_hd_long, NGTCP2_LONG_HEADERLEN.
  apply check_out_bind. intros ?. repeat estep. res_simpl. rewrite <- ?app_assoc.
  apply finish_ok. zlia.
Qed.

Lemma hd_long_roundtrip outlen hd w n rest :
  long_hd hd -> ngtcp2_pkt_encode_hd_long outlen hd = Ok (w, n) ->
  zlen w = n /\ n <= outlen /\ ngtcp2_pkt_decode_hd (w ++ rest) = Ok (received_hd hd, n).
Proof.
  intros (Hf & Ht & Hc & Hp & Hv). rewrite encode_hd_long_spec.
  unfold NGTCP2_LONG_HEADERLEN. destruct (Z.ltb_spec outlen 17) as [|Hl]; [done|].
  intros [= <- <-]. split; [zlia|]. split; [done|].
  unfold ngtcp2_pkt_decode_hd, ngtcp2_pkt_decode_hd_long, NGTCP2_LONG_HEADERLEN.
  rewrite <- ?app_comm_cons, <- ?app_assoc.
  rewrite (proj2 (Z.eqb_neq _ 0)) by zlia. repeat dstep. res_simpl.
  assert (received_hd hd = mk_pkt_hd NGTCP2_PKT_FLAG_LONG_FORM (hd_type hd) (hd_conn_id hd)
            (u32 (hd_pkt_num hd)) (hd_version hd)) as ->.
  { unfold received_hd, pkt_num_bits. rewrite Hf.
    by destruct Ht as [-> | [-> | [-> | ->]]]. }
  pose proof (u32_range (hd_pkt_num hd)) as Hr.
  unfold fail_if at 1. rewrite (proj2 (Z.ltb_ge _ 17)) by zlia.
  destruct Ht as [Ht | [Ht | [Ht | Ht]]]; rewrite Ht; dispatch; res_simpl;
    rewrite (adv_cons_app 9) by zlia; repeat dstep; dispatch; repeat dstep; res_simpl;
    rewrite (app_assoc (ngtcp2_put_uint64be _)), (adv_cons_app 13) by zlia;
    repeat dstep; done.
Qed.

(** The packet number field of a short header. *)
Definition short_num (hd : ngtcp2_pkt_hd) : bytes :=
  if hd_type hd =? NGTCP2_PKT_01 then [u8 (hd_pkt_num hd)]
  else if hd_type hd =? NGTCP2_PKT_02 then ngtcp2_put_uint16be (u16 (hd_pkt_num hd))
  else ngtcp2_put_uint32be (u32 (hd_pkt_num hd)).

(** The first byte of a short header. *)
Definition short_first (hd : ngtcp2_pkt_hd) : Z :=
  let b := hd_type hd in
  let b := if has_bit (hd_flags hd) NGTCP2_PKT_FLAG_OMIT_CONN_ID
           then b .| NGTCP2_OMIT_CONN_ID_BIT else b in
  if has_bit (hd_flags hd) NGTCP2_PKT_FLAG_KEY_PHASE then b .| NGTCP2_KEY_PHASE_BIT else b.

Definition short_layout (hd : ngtcp2_pkt_hd) : bytes :=
  short_first hd ::
  (if has_bit (hd_flags hd) NGTCP2_PKT_FLAG_OMIT_CONN_ID then []
   else ngtcp2_put_uint64be (hd_conn_id hd)) ++ short_num hd.

Lemma encode_hd_short_spec outlen hd :
  short_hd hd ->
  encodes_as (ngtcp2_pkt_encode_hd_short outlen hd) outlen (short_layout hd).
Proof.
  intros (_ & Ht & _). unfold encodes_as, ngtcp2_pkt_encode_hd_short, short_layout, short_first, short_num.
  destruct Ht as [-> | [-> | ->]]; unfold short_pkt_num_len; dispatch;
    destruct (has_bit (hd_flags hd) NGTCP2_PKT_FLAG_OMIT_CONN_ID); cbn [negb];
    (match goal with |- _ = if _ <? zlen ?bs then _ else _ =>
      match goal with |- context [check_out _ ?l] => replace l with (zlen bs) by zlia end end);
    (apply check_out_bind; intros ?); repeat estep; res_simpl; rewrite <- ?app_assoc;
    (apply finish_ok; zlia).
Qed.

Lemma hd_short_roundtrip hd rest :
  short_hd hd ->
  ngtcp2_pkt_decode_hd (short_layout hd ++ rest) = Ok (received_hd hd, zlen (short_layout hd)).
Proof.
  intros (Hf & Ht & Hc & Hp).
  assert (has_bit (short_first hd) NGTCP2_HEADER_FORM_BIT = false) as B1
    by (unfold short_first; destruct Ht as [-> | [-> | ->]], Hf as [-> | [-> | [-> | ->]]]; done).
  unfold ngtcp2_pkt_decode_hd, short_layout. cbn [app]. rewrite <- !app_assoc.
  rewrite (proj2 (Z.eqb_neq _ 0)) by zlia. repeat dstep. res_simpl. rewrite B1.
  unfold ngtcp2_pkt_decode_hd_short. dstep. res_simpl. rewrite B1. cbn [fail_if]. res_simpl.
  unfold short_first, short_num, received_hd, pkt_num_bits.
  pose proof (u8_range (hd_pkt_num hd)). pose proof (u16_range (hd_pkt_num hd)).
  pose proof (u32_range (hd_pkt_num hd)).
  destruct Ht as [Et | [Et | Et]], Hf as [Ef | [Ef | [Ef | Ef]]]; rewrite Et, Ef; dispatch;
    cbn [app];
    (match goal with |- context [short_pkt_num_len ?t] =>
       let v := eval vm_compute in (short_pkt_num_len t) in change (short_pkt_num_len t) with v end);
    cbv iota; unfold fail_if;
    rewrite (proj2 (Z.ltb_ge _ _)) by zlia; repeat dstep; dispatch; repeat dstep;
    res_simpl; dfin.
Qed.

(** ** Version Negotiation: round trip *)

Definition versions_layout (sv : list Z) : bytes := concat (map ngtcp2_put_uint32be sv).

Lemma zlen_versions_layout sv : zlen (versions_layout sv) = zlen sv * 4.
Proof.
  induction sv as [|v sv IH]; [done|]. change (versions_layout (v :: sv))
    with (ngtcp2_put_uint32be v ++ versions_layout sv). zlia.
Qed.

Lemma put_versions_spec destlen w sv :
  zlen w + zlen (versions_layout sv) <= destlen ->
  put_versions destlen w sv = Ok (w ++ versions_layout sv).
Proof.
  revert w; induction sv as [|v sv IH]; intros w Hl; [by cbn; rewrite app_nil_r|].
  change (versions_layout (v :: sv)) with (ngtcp2_put_uint32be v ++ versions_layout sv) in *.
  cbn [put_versions]. estep. res_simpl. rewrite IH by zlia. by rewrite app_assoc.
Qed.

Lemma get_versions_spec sv fuel :
  Forall (is_uint 32) sv -> (length sv <= fuel)%nat ->
  get_versions fuel (versions_layout sv) = Ok sv.
Proof.
  intros H. revert fuel. induction H as [|v sv Hv _ IH]; intros fuel Hf; simpl in Hf.
  { by destruct fuel. }
  destruct fuel as [|fuel]; [lia|]. cbn [get_versions].
  change (versions_layout (v :: sv)) with (ngtcp2_put_uint32be v ++ versions_layout sv).
  rewrite (proj2 (Z.eqb_neq _ 0)) by zlia. repeat dstep. res_simpl.
  by rewrite IH by lia.
Qed.

Lemma decode_versions sv :
  Forall (is_uint 32) sv ->
  ngtcp2_pkt_decode_version_negotiation (versions_layout sv) = Ok (sv, zlen sv).
Proof.
  intros Hv. pose proof (zlen_versions_layout sv) as Hz.
  unfold ngtcp2_pkt_decode_version_negotiation. rewrite Hz, Z.mod_mul, Z.div_mul by lia.
  cbn [c_assert Z.eqb]. res_simpl. rewrite get_versions_spec; [done..|].
  unfold zlen in Hz. lia.
Qed.

Lemma version_negotiation_spec destlen r conn_id sv :
  is_uint 32 (zlen sv) ->
  encodes_as (ngtcp2_pkt_write_version_negotiation destlen r conn_id sv) destlen
    (0x80 .| r :: ngtcp2_put_uint64be conn_id ++ ngtcp2_put_uint32be 0 ++ versions_layout sv).
Proof.
  intros Hs. pose proof (zlen_versions_layout sv).
  unfold ngtcp2_pkt_write_version_negotiation, encodes_as. rewrite u64_small by zlia.
  match goal with |- _ = if _ <? zlen ?bs then _ else _ =>
    match goal with |- context [check_out _ ?l] => replace l with (zlen bs) by zlia end end.
  apply check_out_bind. intros ?. repeat estep. res_simpl. rewrite put_versions_spec by zlia.
  res_simpl. rewrite <- ?app_assoc. apply finish_ok. done.
Qed.

(** ** Stateless Reset: round trip *)

Lemma stateless_reset_spec destlen hd token rand :
  short_hd hd -> zlen token = 16 -> all_bytes rand ->
  ngtcp2_pkt_write_stateless_reset destlen hd token rand =
  if destlen <? zlen (short_layout hd) + 16 then Err NGTCP2_ERR_NOBUF
  else
    let r := take (Z.to_nat (destlen - zlen (short_layout hd) - 16)) rand in
    Ok (short_layout hd ++ r ++ token, zlen (short_layout hd) + zlen r + 16).
Proof.
  intros Hh Ht Hr. unfold ngtcp2_pkt_write_stateless_reset.
  rewrite (encode_hd_short_spec destlen hd Hh).
  unfold NGTCP2_STATELESS_RESET_TOKENLEN, fail_if.
  set (h := short_layout hd).
  destruct (Z.ltb_spec destlen (zlen h)).
  { by rewrite (proj2 (Z.ltb_lt _ _)) by lia. }
  res_simpl. destruct (Z.ltb_spec (destlen - zlen h) 16).
  { by rewrite (proj2 (Z.ltb_lt _ _)) by lia. }
  rewrite (proj2 (Z.ltb_ge _ _)) by lia. res_simpl.
  pose proof (zlen_nonneg rand). set (k := destlen - zlen h - 16).
  rewrite (rdn_le (Z.min k (zlen rand))) by lia. res_simpl.
  replace (take (Z.to_nat (Z.min k (zlen rand))) rand) with (take (Z.to_nat k) rand).
  2:{ destruct (Z.min_spec k (zlen rand)) as [[_ ->] | [? ->]]; [done|].
      rewrite !take_ge; [done | unfold zlen in *; lia..]. }
  rewrite wr_ok by (rewrite zlen_take; lia). res_simpl.
  rewrite <- (app_nil_r token) at 1. rewrite rdn_app by done. res_simpl.
  rewrite wr_ok by (rewrite zlen_app, zlen_take; lia). res_simpl.
  rewrite <- app_assoc. do 2 f_equal. rewrite !zlen_app. lia.
Qed.

Lemma decode_reset_app r token :
  zlen token = 16 -> ngtcp2_pkt_decode_stateless_reset (r ++ token) = Ok (r, token).
Proof.
  intros Ht. unfold ngtcp2_pkt_decode_stateless_reset, NGTCP2_STATELESS_RESET_TOKENLEN, fail_if.
  rewrite (proj2 (Z.ltb_ge _ _)) by zlia. res_simpl.
  rewrite rdn_app by zlia. res_simpl. rewrite adv_app by zlia. res_simpl.
  rewrite <- (app_nil_r token) at 1. by rewrite rdn_app.
Qed.

(** ** Packet number recovery *)

Lemma window_base k n :
  is_uint 64 k -> 0 <= n < 64 ->
  k .& u64 (Z.lnot (u64 (1 .<< n) - 1)) = 2 ^ n * (k / 2 ^ n).
Proof.
  intros Hk Hn. assert (0 < 2 ^ n < 2 ^ 64) as Hp.
  { split; [apply Z.pow_pos_nonneg; lia | apply Z.pow_lt_mono_r; lia]. }
  rewrite Z.shiftl_1_l, (u64_small (2 ^ n)) by (unfold is_uint; lia).
  unfold u64. rewrite <- Z.land_ones, (Z.land_comm _ (Z.ones 64)), Z.land_assoc by lia.
  rewrite (Z.land_ones k), (Z.mod_small k) by (done || lia).
  replace (2 ^ n - 1) with (Z.ones n) by (rewrite Z.ones_equiv; lia).
  rewrite <- Z.ldiff_land, Z.ldiff_ones_r by lia.
  rewrite Z.shiftl_mul_pow2, Z.shiftr_div_pow2 by lia. ring.
Qed.

Lemma lor_low m n x : 0 <= n -> 0 <= x < 2 ^ n -> (2 ^ n * m) .| x = 2 ^ n * m + x.
Proof.
  intros Hn Hx. rewrite (Z.mul_comm _ m), <- Z.shiftl_mul_pow2 by lia.
  by rewrite lor_shiftl_add, Z.shiftl_mul_pow2 by lia.
Qed.

(** It is never far above the largest number received. *)
Lemma adjust_pkt_num_bound max_pkt_num pkt_num n :
  0 <= max_pkt_num < 2 ^ 62 -> is_uint 32 pkt_num -> 0 <= n <= 32 ->
  0 <= ngtcp2_pkt_adjust_pkt_num max_pkt_num pkt_num n <= max_pkt_num + 2 ^ 34.
Proof.
  intros Hm Hp Hn. unfold ngtcp2_pkt_adjust_pkt_num.
  rewrite (proj2 (Z.eqb_neq _ _)) by (unfold UINT64_MAX; lia). set (k := max_pkt_num + 1).
  assert (0 < 2 ^ n <= 2 ^ 32) as HW.
  { split; [apply Z.pow_pos_nonneg; lia | apply Z.pow_le_mono_r; lia]. }
  rewrite window_base by (unfold is_uint, k; lia).
  rewrite Z.shiftl_1_l, (u64_small (2 ^ n)) by (unfold is_uint; lia).
  assert (0 <= 2 ^ n * (k / 2 ^ n) <= k) as Hu.
  { split; [apply Z.mul_nonneg_nonneg; [lia | apply Z.div_pos; unfold k; lia]|apply Z.mul_div_le; lia]. }
  set (u := 2 ^ n * (k / 2 ^ n)) in *. rewrite (u64_small (u + 2 ^ n)) by (unfold is_uint, k in *; lia).
  assert (Hor : forall x, 0 <= x -> 0 <= x .| pkt_num <= x + pkt_num).
  { intros x Hx. unfold is_uint in Hp. split; [apply Z.lor_nonneg; lia|].
    pose proof (Z.add_lor_land x pkt_num). pose proof (proj2 (Z.land_nonneg x pkt_num) (or_introl Hx)). lia. }
  unfold is_uint in Hp. pose proof (Hor u ltac:(lia)). pose proof (Hor (u + 2 ^ n) ltac:(lia)).
  cbv zeta. destruct (_ <? _); unfold k in *; lia.
Qed.

(** What [ngtcp2_pkt_adjust_pkt_num] returns for the packet number [N] sent in
    [n] bits: [N] itself, unless [N] lies below the window of 2^n numbers that
    holds the expected number [k]; then the number one window too high. *)
Lemma adjust_pkt_num_spec max_pkt_num n N :
  0 <= max_pkt_num < 2 ^ 62 -> 1 <= n <= 32 -> 0 <= N ->
  let k := max_pkt_num + 1 in
  let W := 2 ^ n in
  k - W / 2 < N <= k + W / 2 ->
  ngtcp2_pkt_adjust_pkt_num max_pkt_num (N mod W) n =
  if N <? W * (k / W) then N + W else N.
Proof.
  intros Hm Hn HN k W Hr. unfold ngtcp2_pkt_adjust_pkt_num.
  rewrite (proj2 (Z.eqb_neq _ _)) by (unfold UINT64_MAX; lia). fold k.
  assert (0 < W <= 2 ^ 32) as HW.
  { split; [apply Z.pow_pos_nonneg; lia | apply Z.pow_le_mono_r; lia]. }
  assert (W = 2 * (W / 2)) as Heven.
  { apply Z_div_exact_full_2; [lia|]. unfold W. replace n with (1 + (n - 1)) by lia.
    rewrite Z.pow_add_r, Z.mul_comm, Z.mod_mul; lia. }
  rewrite window_base by (unfold is_uint, k; lia). fold W.
  rewrite Z.shiftl_1_l, (u64_small (2 ^ n)) by (unfold is_uint; fold W; lia). fold W.
  pose proof (Z.div_mod k W ltac:(lia)) as Dk. pose proof (Z.mod_pos_bound k W ltac:(lia)) as Bk.
  pose proof (Z.div_mod N W ltac:(lia)) as DN. pose proof (Z.mod_pos_bound N W ltac:(lia)) as BN.
  set (q := k / W) in *. set (r := N mod W) in *. set (m := N / W) in *.
  rewrite u64_small by (unfold is_uint, k in *; lia).
  replace (W * q + W) with (W * (q + 1)) by ring.
  assert (forall x, (W * x) .| r = W * x + r) as L by (intros; apply lor_low; lia).
  rewrite !L. clear L.
  assert (m = q - 1 \/ m = q \/ m = q + 1) as Hm3 by nia.
  assert (W * m = W * q - W \/ W * m = W * q \/ W * m = W * q + W) as Hc
    by (destruct Hm3 as [-> | [-> | ->]]; lia).
  replace (W * (q + 1)) with (W * q + W) by ring. generalize dependent (W * m).
  generalize dependent (W * q). intros A Dk C DN Hc.
  clearbody k r. destruct (Z.ltb_spec k (A + r)), (Z.ltb_spec k (A + W + r)); bdestr; lia.
Qed.

(** ** ACK validation *)

(** The packet number ranges [lo, hi] a frame acknowledges, as integers. *)
Fixpoint blk_ranges (min_ack : Z) (blks : list ngtcp2_ack_blk) : list (Z * Z) :=
  match blks with
  | [] => []
  | b :: blks =>
      let hi := min_ack - blk_gap b - 2 in
      let lo := hi - blk_blklen b in
      (lo, hi) :: blk_ranges lo blks
  end.

Definition ack_ranges (fr : ngtcp2_ack) : list (Z * Z) :=
  let lo := ack_largest_ack fr - ack_first_ack_blklen fr in
  (lo, ack_largest_ack fr) :: blk_ranges lo (ack_blks fr).

(** No range reaches below packet number 0. *)
Definition valid_ranges (l : list (Z * Z)) : Prop := Forall (fun r => 0 <= fst r) l.

Lemma validate_blks_spec la blks :
  is_uint 62 la -> Forall wf_blk blks ->
  match validate_blks la blks with
  | Ok _ => valid_ranges (blk_ranges la blks)
  | Err e => e = NGTCP2_ERR_ACK_FRAME /\ ~ valid_ranges (blk_ranges la blks)
  | Ub => False
  end.
Proof.
  intros Hla H. revert la Hla. induction H as [|b blks [Hg Hb] _ IH]; intros la Hla; simpl.
  { constructor. }
  rewrite (u64_small (blk_gap b + 2)) by clia. unfold fail_if.
  destruct (Z.ltb_spec la (blk_gap b + 2)); res_simpl.
  { split; [done|]. intros Hv. inversion Hv; subst; simpl in *. clia. }
  rewrite (u64_small (la - _)) by clia.
  destruct (Z.ltb_spec (la - (blk_gap b + 2)) (blk_blklen b)); res_simpl.
  { split; [done|]. intros Hv. inversion Hv; subst; simpl in *. clia. }
  rewrite u64_small by clia.
  replace (la - (blk_gap b + 2) - blk_blklen b) with (la - blk_gap b - 2 - blk_blklen b) by lia.
  specialize (IH (la - blk_gap b - 2 - blk_blklen b)). 
  destruct (validate_blks _ blks) as [?|?|]; [|split|]; try apply IH; try clia.
  - constructor; [simpl; clia | apply IH; clia].
  - intros Hv. inversion Hv; subst. apply IH; [clia | done].
Qed.

(** The members of the frame are variable-length integers. *)
Definition wf_ack (fr : ngtcp2_ack) : Prop :=
  is_uint 62 (ack_largest_ack fr) /\ is_uint 62 (ack_first_ack_blklen fr) /\ Forall wf_blk (ack_blks fr).

Lemma wf_frame_ack fr : wf_frame (fr_ack fr) -> wf_ack fr.
Proof. by intros (? & _ & ? & ? & _). Qed.

Lemma validate_ack_spec fr :
  wf_ack fr ->
  match ngtcp2_pkt_validate_ack fr with
  | Ok _ => valid_ranges (ack_ranges fr)
  | Err e => e = NGTCP2_ERR_ACK_FRAME /\ ~ valid_ranges (ack_ranges fr)
  | Ub => False
  end.
Proof.
  intros (Hl & Hf & Hb). unfold ngtcp2_pkt_validate_ack, ack_ranges, fail_if.
  destruct (Z.ltb_spec (ack_largest_ack fr) (ack_first_ack_blklen fr)); res_simpl.
  { split; [done|]. intros Hv. inversion Hv; subst; simpl in *. lia. }
  rewrite u64_small by clia.
  pose proof (validate_blks_spec (ack_largest_ack fr - ack_first_ack_blklen fr) (ack_blks fr)
    ltac:(clia) Hb) as H1.
  destruct (validate_blks _ _); res_simpl; [| |done].
  - constructor; [simpl; lia | done].
  - split; [apply H1|]. intros Hv. inversion Hv; subst. by apply H1.
Qed.

(** The header of a Version Negotiation packet. *)
Lemma vn_header r conn_id sv :
  is_byte r -> is_uint 64 conn_id -> sv <> [] -> Forall (is_uint 32) sv ->
  exists hd, ngtcp2_pkt_decode_hd (0x80 .| r :: ngtcp2_put_uint64be conn_id ++ ngtcp2_put_uint32be 0 ++
    versions_layout sv) = Ok (hd, NGTCP2_LONG_HEADERLEN) /\ hd_version hd = 0 /\ hd_conn_id hd = conn_id.
Proof.
  intros Hr Hc Hne Hsv. destruct sv as [|v sv]; [done|]. inversion Hsv; subst.
  assert (Hb : has_bit (0x80 .| r) NGTCP2_HEADER_FORM_BIT = true).
  { revert r Hr. apply (byte_cases (fun r => has_bit (0x80 .| r) NGTCP2_HEADER_FORM_BIT)). by vm_compute. }
  unfold ngtcp2_pkt_decode_hd, ngtcp2_pkt_decode_hd_long, versions_layout. cbn [map concat].
  rewrite (proj2 (Z.eqb_neq _ 0)) by zlia. repeat dstep. res_simpl. rewrite Hb.
  unfold has_bit in Hb. apply negb_true_iff in Hb. rewrite Hb.
  unfold fail_if at 1. rewrite (proj2 (Z.ltb_ge _ _)) by (unfold NGTCP2_LONG_HEADERLEN; zlia). res_simpl.
  cbn [fail_if]. res_simpl. rewrite (adv_cons_app 9) by zlia. res_simpl.
  rewrite (get_put_uint32 0) by done. repeat dstep. res_simpl.
  destruct (_ || _); res_simpl; repeat dstep; res_simpl;
    rewrite (app_assoc (ngtcp2_put_uint64be _)), (adv_cons_app 13) by zlia;
    repeat dstep; res_simpl; cbn [Z.eqb]; res_simpl; eexists; split_and!; done.
Qed.

(** ** Properties *)

(** C33. Decoding a packet header never reads outside of the packet: the result
    is an error of the two documented kinds, or a header with members in range
    that was read from within the packet. *)
Theorem header_decoder_safe pkt :
  all_bytes pkt ->
  match ngtcp2_pkt_decode_hd pkt with
  | Ok (hd, n) => wf_hd hd /\ 1 <= n <= zlen pkt
  | Err e => e = NGTCP2_ERR_INVALID_ARGUMENT \/ e = NGTCP2_ERR_UNKNOWN_PKT_TYPE
  | Ub => False
  end.
Proof.
  intros Hp. pose proof (decode_hd_safe pkt Hp) as H.
  by destruct (ngtcp2_pkt_decode_hd pkt) as [[hd n]|e|].
Qed.

Lemma header_decoder_safe_witness :
  match ngtcp2_pkt_decode_hd [0x1f; 1; 2] with
  | Ok (hd, n) => wf_hd hd /\ 1 <= n <= zlen [0x1f; 1; 2]
  | Err e => e = NGTCP2_ERR_INVALID_ARGUMENT \/ e = NGTCP2_ERR_UNKNOWN_PKT_TYPE
  | Ub => False
  end.
Proof. apply header_decoder_safe. repeat constructor; done. Defined.

(** C32. A header is decoded from what was encoded: long or short, the receiver
    gets the flags, the type, the connection ID unless it is omitted, the version
    of a long header, and the packet number truncated to the bits the type
    allows; the number of bytes read is the number written. *)
Theorem header_roundtrip outlen hd w n rest :
  (long_hd hd /\ ngtcp2_pkt_encode_hd_long outlen hd = Ok (w, n)) \/
  (short_hd hd /\ ngtcp2_pkt_encode_hd_short outlen hd = Ok (w, n)) ->
  zlen w = n /\ n <= outlen /\ ngtcp2_pkt_decode_hd (w ++ rest) = Ok (received_hd hd, n).
Proof.
  intros [[Hl He]|[Hs He]]; [by apply hd_long_roundtrip|].
  rewrite (encode_hd_short_spec outlen hd Hs) in He.
  destruct (Z.ltb_spec outlen (zlen (short_layout hd))); [done|]. injection He as <- <-.
  split_and!; [done | done | by apply hd_short_roundtrip].
Qed.

Lemma header_roundtrip_witness :
  let hd := mk_pkt_hd NGTCP2_PKT_FLAG_KEY_PHASE NGTCP2_PKT_02 0xfeedfacecafe 0x12345 0 in
  exists w n, ngtcp2_pkt_encode_hd_short 40 hd = Ok (w, n) /\
  ngtcp2_pkt_decode_hd (w ++ [1]) = Ok (received_hd hd, n).
Proof.
  intros hd. do 2 eexists. split; [reflexivity|].
  refine (proj2 (proj2 (header_roundtrip 40 hd _ _ [1] (or_intror (conj _ _))))); [|reflexivity].
  unfold short_hd. split_and!; try done; [right; right; by left | right; by left].
Defined.

(** A Version Negotiation packet that was written is read back: the header
    has the connection ID and version 0, whatever random bits the first byte has,
    and the versions follow it (the decoder of long headers counts the first of
    them as a packet number). *)
Theorem version_negotiation_roundtrip destlen r conn_id sv w n :
  is_byte r -> is_uint 64 conn_id -> sv <> [] -> Forall (is_uint 32) sv -> is_uint 32 (zlen sv) ->
  ngtcp2_pkt_write_version_negotiation destlen r conn_id sv = Ok (w, n) ->
  zlen w = n /\ n <= destlen /\
  (exists hd, ngtcp2_pkt_decode_hd w = Ok (hd, NGTCP2_LONG_HEADERLEN) /\
    hd_version hd = 0 /\ hd_conn_id hd = conn_id) /\
  ngtcp2_pkt_decode_version_negotiation (drop 13 w) = Ok (sv, zlen sv).
Proof.
  intros Hr Hc Hne Hsv Hl. rewrite version_negotiation_spec by done.
  match goal with |- (if _ <? ?l then _ else _) = _ -> _ => destruct (Z.ltb_spec destlen l) end; [done|].
  intros [= <- <-]. split_and!; [done | done | by apply vn_header|].
  assert (drop 13 (0x80 .| r :: ngtcp2_put_uint64be conn_id ++ ngtcp2_put_uint32be 0 ++ versions_layout sv) =
    versions_layout sv) as ->; [|by apply decode_versions].
  rewrite app_assoc. simpl. apply drop_app_length'.
  pose proof (zlen_put_uint64be conn_id). pose proof (zlen_put_uint32be 0).
  rewrite length_app. unfold zlen in *. lia.
Qed.

Lemma version_negotiation_roundtrip_witness :
  exists w n, ngtcp2_pkt_write_version_negotiation 100 0xff 0xabcd [1; 0xff000008] = Ok (w, n) /\
  ngtcp2_pkt_decode_version_negotiation (drop 13 w) = Ok ([1; 0xff000008], 2).
Proof.
  do 2 eexists. split; [reflexivity|].
  refine (proj2 (proj2 (proj2 (version_negotiation_roundtrip 100 0xff 0xabcd [1; 0xff000008] _ _
    _ _ _ _ _ eq_refl)))); try done. repeat constructor; done.
Defined.

(** A Stateless Reset packet that was written ends with the token: the
    decoder finds it, and the random bytes before it, in what follows the
    header; the random part is cut to the space that is left. *)
Theorem stateless_reset_roundtrip destlen hd token rand w n :
  short_hd hd -> zlen token = 16 -> all_bytes rand ->
  ngtcp2_pkt_write_stateless_reset destlen hd token rand = Ok (w, n) ->
  zlen w = n /\ n <= destlen /\
  exists hdlen, ngtcp2_pkt_decode_hd w = Ok (received_hd hd, hdlen) /\
    ngtcp2_pkt_decode_stateless_reset (drop (Z.to_nat hdlen) w) =
      Ok (take (Z.to_nat (destlen - hdlen - 16)) rand, token).
Proof.
  intros Hs Ht Hr. rewrite stateless_reset_spec by done.
  destruct (Z.ltb_spec destlen (zlen (short_layout hd) + 16)); [done|]. cbv zeta.
  set (r := take _ rand). intros Heq.
  assert (w = short_layout hd ++ r ++ token) as -> by congruence.
  assert (n = zlen (short_layout hd) + zlen r + 16) as -> by congruence.
  assert (Hlen : zlen r <= destlen - zlen (short_layout hd) - 16) by (unfold r; rewrite zlen_take; lia).
  split; [rewrite !zlen_app; lia|]. split; [lia|]. exists (zlen (short_layout hd)).
  split; [by apply hd_short_roundtrip|].
  rewrite drop_app_length' by (unfold zlen; lia). by apply decode_reset_app.
Qed.

Lemma stateless_reset_roundtrip_witness :
  let hd := mk_pkt_hd 0 NGTCP2_PKT_01 7 1 0 in
  let token := replicate 16 0xaa in
  exists w n, ngtcp2_pkt_write_stateless_reset 30 hd token [1; 2; 3; 4; 5] = Ok (w, n) /\
  exists hdlen, ngtcp2_pkt_decode_hd w = Ok (received_hd hd, hdlen) /\
    ngtcp2_pkt_decode_stateless_reset (drop (Z.to_nat hdlen) w) =
      Ok (take (Z.to_nat (30 - hdlen - 16)) [1; 2; 3; 4; 5], token).
Proof.
  intros hd token. do 2 eexists. split; [reflexivity|].
  refine (proj2 (proj2 (stateless_reset_roundtrip 30 hd token [1; 2; 3; 4; 5] _ _ _ _ _ eq_refl)));
    [|done | repeat constructor; done].
  unfold short_hd. split_and!; try done; by left.
Defined.

(** C35. Recovery of a packet number from its low [n] bits: a number within half a
    window of the expected one is recovered exactly when it is not below the
    window of 2^n numbers that holds the expected number; a late packet from
    before that window gets a number that is 2^n too high. *)
Theorem pkt_num_recovery max_pkt_num n N :
  0 <= max_pkt_num < 2 ^ 62 -> 1 <= n <= 32 -> 0 <= N ->
  max_pkt_num + 1 - 2 ^ n / 2 < N <= max_pkt_num + 1 + 2 ^ n / 2 ->
  ngtcp2_pkt_adjust_pkt_num max_pkt_num (N mod 2 ^ n) n =
  if N <? 2 ^ n * ((max_pkt_num + 1) / 2 ^ n) then N + 2 ^ n else N.
Proof. intros. by apply (adjust_pkt_num_spec max_pkt_num n N). Qed.

(** Packet 0xff arrives after packet 0x100 and is taken for packet 0x1ff. *)
Lemma pkt_num_recovery_witness : ngtcp2_pkt_adjust_pkt_num 0x100 (0xff mod 2 ^ 8) 8 = 0x1ff.
Proof. apply (pkt_num_recovery 0x100 8 0xff); vm_compute; intuition discriminate. Defined.

(** [ngtcp2_pkt_validate_ack] accepts exactly the frames whose ranges, as
    sets of integers, do not reach below packet number 0; all computations are on
    unsigned 64-bit integers and none of them wraps around unnoticed. *)
Theorem validate_ack_exact fr :
  wf_frame (fr_ack fr) ->
  (ngtcp2_pkt_validate_ack fr = Ok tt <-> valid_ranges (ack_ranges fr)) /\
  (ngtcp2_pkt_validate_ack fr <> Ok tt -> ngtcp2_pkt_validate_ack fr = Err NGTCP2_ERR_ACK_FRAME).
Proof.
  intros Hwf. pose proof (validate_ack_spec fr (wf_frame_ack _ Hwf)) as H.
  destruct (ngtcp2_pkt_validate_ack fr) as [[]|e|]; [done | | done].
  destruct H as [-> H]. split; [|done]. split; [done | tauto].
Qed.

Lemma validate_ack_exact_witness :
  ngtcp2_pkt_validate_ack (mk_ack 10 0 3 [mk_ack_blk 1 2]) = Ok tt <->
  valid_ranges (ack_ranges (mk_ack 10 0 3 [mk_ack_blk 1 2])).
Proof.
  apply validate_ack_exact. unfold wf_frame. split_and!; try done. repeat constructor; done.
Defined.
