(* ===== verification/Mem.v ===== *)
(** The allocator interface of [ngtcp2_mem.h].

    The memory functions are supplied by the application ([ngtcp2_mem]); what
    the library sees of them is whether each request succeeds. [mem] holds the
    outcomes of the requests to come; requests beyond the list succeed. *)

From S2P Require Import Prelude.

Definition mem := list bool.

(** [ngtcp2_mem_malloc], [ngtcp2_mem_calloc] or [ngtcp2_mem_realloc]: [true]
    when the result is not NULL. *)
Definition mem_alloc (m : mem) : bool * mem :=
  match m with
  | [] => (true, [])
  | ok :: m => (ok, m)
  end.

(** No request fails. *)
Definition mem_reliable (m : mem) : Prop := Forall (eq true) m.

Lemma mem_alloc_reliable m : mem_reliable m -> (mem_alloc m).1 = true /\ mem_reliable (mem_alloc m).2.
Proof.
  intros H. unfold mem_reliable in *.
  destruct H as [|? ? <- H]; simpl; split; auto; constructor.
Qed.
