(* ===== verification/Monad.v ===== *)
(** The monad of the functions of [ngtcp2_conn.c]: a state, which survives an
    error, a value or a negative error code, and undefined behaviour. *)

From S2P Require Import Prelude Frame Mem.

(** [ret a s] is a normal return, [fail e s] the return of the negative error
    code [e]; both leave the state [s]. *)
Inductive out (S A : Type) : Type :=
| ret (a : A) (s : S)
| fail (e : Z) (s : S)
| undef.
Arguments ret {S A}.
Arguments fail {S A}.
Arguments undef {S A}.

Definition M (S A : Type) : Type := S -> out S A.

#[global] Instance M_ret {S} : MRet (M S) := fun A a s => ret a s.
#[global] Instance M_bind {S} : MBind (M S) := fun A B k m s =>
  match m s with
  | ret a s => k a s
  | fail e s => fail e s
  | undef => undef
  end.

#[global] Instance M_fmap {S} : FMap (M S) := fun A B f m => m ≫= (fun a => mret (f a)).
#[global] Instance res_fmap : FMap res := fun A B f m => m ≫= (fun a => Ok (f a)).

Section Operations.
Context {S : Type}.

Definition get : M S S := fun s => ret s s.
Definition gets {A} (f : S -> A) : M S A := fun s => ret (f s) s.
Definition modify (f : S -> S) : M S unit := fun s => ret tt (f s).

(** [return e;] *)
Definition throw {A} (e : Z) : M S A := fun s => fail e s.

(** Undefined behaviour. *)
Definition undefined {A} : M S A := fun _ => undef.

(** A function that does not touch the state. *)
Definition lift {A} (r : res A) : M S A := fun s =>
  match r with
  | Ok a => ret a s
  | Err e => fail e s
  | Ub => undef
  end.

(** [if (b) { return e; }] *)
Definition throw_if (b : bool) (e : Z) : M S unit := if b then throw e else mret tt.

(** [assert(b);] *)
Definition assert_ (b : bool) : M S unit := if b then mret tt else undefined.

(** [if (rv != 0) { return rv; }] *)
Definition check (rv : Z) : M S unit := throw_if (negb (rv =? 0)) rv.

(** The return value of a call the caller inspects: the value or the error. *)
Definition attempt {A} (m : M S A) : M S (A + Z) := fun s =>
  match m s with
  | ret a s => ret (inl a) s
  | fail e s => ret (inr e) s
  | undef => undef
  end.

(** A call whose return value is ignored. *)
Definition ignore {A} (m : M S A) : M S unit := attempt m;; mret tt.

(** [rv], for a call that returns 0 or an error. *)
Definition status {A} (m : M S A) : M S Z :=
  r ← attempt m; mret (match r with inl _ => 0 | inr e => e end).
End Operations.

(** ** Specifications

    [wp m Q E s]: started in [s], [m] does not run into undefined behaviour; its
    value and its final state satisfy [Q], or its error code and its final state
    satisfy [E]. *)
Definition wp {S A} (m : M S A) (Q : A -> S -> Prop) (E : Z -> S -> Prop) (s : S) : Prop :=
  match m s with
  | ret a s => Q a s
  | fail e s => E e s
  | undef => False
  end.

Section Wp.
Context {S A B : Type}.
Implicit Types (s : S) (Q : A -> S -> Prop) (E : Z -> S -> Prop).

Lemma wp_ret (a : A) Q E s : Q a s -> wp (mret a) Q E s.
Proof. done. Qed.
Lemma wp_bind (m : M S A) (k : A -> M S B) R E s :
  wp m (fun a s => wp (k a) R E s) E s -> wp (m ≫= k) R E s.
Proof. unfold wp, mbind, M_bind. by destruct (m s). Qed.
Lemma wp_mono (m : M S A) Q Q' E E' s :
  wp m Q E s -> (forall a s, Q a s -> Q' a s) -> (forall e s, E e s -> E' e s) -> wp m Q' E' s.
Proof. unfold wp. destruct (m s); naive_solver. Qed.
Lemma wp_and (m : M S A) Q Q' E E' s : wp m Q E s -> wp m Q' E' s -> wp m (fun a s => Q a s /\ Q' a s) (fun e s => E e s /\ E' e s) s.
Proof. unfold wp. by destruct (m s). Qed.
Lemma wp_get (Q : S -> S -> Prop) E s : Q s s -> wp get Q E s.
Proof. done. Qed.
Lemma wp_gets (f : S -> A) Q E s : Q (f s) s -> wp (gets f) Q E s.
Proof. done. Qed.
Lemma wp_modify f (Q : unit -> S -> Prop) E s : Q tt (f s) -> wp (modify f) Q E s.
Proof. done. Qed.
Lemma wp_throw e Q E s : E e s -> wp (throw e) Q E s.
Proof. done. Qed.
Lemma wp_throw_if b e (Q : unit -> S -> Prop) E s :
  (b = true -> E e s) -> (b = false -> Q tt s) -> wp (throw_if b e) Q E s.
Proof. destruct b; unfold wp; simpl; auto. Qed.
Lemma wp_check rv (Q : unit -> S -> Prop) E s :
  (rv <> 0 -> E rv s) -> (rv = 0 -> Q tt s) -> wp (check rv) Q E s.
Proof. intros H1 H2. apply wp_throw_if; destruct (Z.eqb_spec rv 0); naive_solver. Qed.
Lemma wp_assert b (Q : unit -> S -> Prop) E s : b = true -> Q tt s -> wp (assert_ b) Q E s.
Proof. by intros ->. Qed.
Lemma wp_lift (r : res A) Q E s :
  wpe r (fun a => Q a s) (fun e => E e s) -> wp (lift r) Q E s.
Proof. by destruct r. Qed.
Lemma wp_attempt (m : M S A) (Q : A + Z -> S -> Prop) E s :
  wp m (fun a => Q (inl a)) (fun e => Q (inr e)) s -> wp (attempt m) Q E s.
Proof. unfold wp, attempt. by destruct (m s). Qed.
Lemma wp_result (m : M S A) Q E a s s' : wp m Q E s -> m s = ret a s' -> Q a s'.
Proof. unfold wp. intros H Hm. by rewrite Hm in H. Qed.
Lemma wp_not_undef (m : M S A) Q E s : wp m Q E s -> m s <> undef.
Proof. unfold wp. by destruct (m s). Qed.
End Wp.

Lemma wp_ignore {S A} (m : M S A) (Q : unit -> S -> Prop) E s :
  wp m (fun _ => Q tt) (fun _ => Q tt) s -> wp (ignore m) Q E s.
Proof. intros H. unfold ignore. by apply wp_bind, wp_attempt. Qed.
Lemma wp_status {S A} (m : M S A) (Q : Z -> S -> Prop) E s :
  wp m (fun _ => Q 0) (fun e => Q e) s -> wp (status m) Q E s.
Proof. intros H. unfold status. by apply wp_bind, wp_attempt. Qed.

(** Steps through a program; what is left are the calls with a specification
    of their own. *)
Ltac wp_step :=
  lazymatch goal with
  | |- wp (mbind _ _) _ _ _ => apply wp_bind
  | |- wp (mret _) _ _ _ => apply wp_ret
  | |- wp get _ _ _ => apply wp_get
  | |- wp (gets _) _ _ _ => apply wp_gets
  | |- wp (modify _) _ _ _ => apply wp_modify
  | |- wp (throw _) _ _ _ => apply wp_throw
  | |- wp (throw_if _ _) _ _ _ => apply wp_throw_if; intros ?
  | |- wp (check _) _ _ _ => apply wp_check; intros ?
  | |- wp (lift _) _ _ _ => apply wp_lift
  | |- wp (attempt _) _ _ _ => apply wp_attempt
  | |- wp (ignore _) _ _ _ => apply wp_ignore
  | |- wp (status _) _ _ _ => apply wp_status
  end.
Ltac wp_go := repeat (wp_step; cbv beta).

(** ** Records

    [setter eta proj v r]: the record [r] with the member [proj] replaced by
    [v], where [eta] rebuilds a record from its members. *)
Ltac setter eta proj v r :=
  let e := eval cbv beta delta [eta] in (eta r) in
  lazymatch eval pattern (proj r) in e with
  | ?F _ => let t := eval cbv beta in (F v) in exact t
  end.
