(* ===== verification/Range.v ===== *)
(** Half-open ranges of stream offsets: [ngtcp2_range.c]. *)

From S2P Require Import Prelude.

Record ngtcp2_range := mk_range { r_begin : Z; r_end : Z }.

#[global] Instance range_eq_dec : EqDecision ngtcp2_range.
Proof. solve_decision. Defined.

Definition ngtcp2_range_init (b e : Z) : ngtcp2_range := mk_range b e.

Definition ngtcp2_range_intersect (a b : ngtcp2_range) : ngtcp2_range :=
  let lo := Z.max (r_begin a) (r_begin b) in
  let hi := Z.min (r_end a) (r_end b) in
  if lo <? hi then ngtcp2_range_init lo hi else mk_range 0 0.

Definition ngtcp2_range_len (r : ngtcp2_range) : Z := u64 (r_end r - r_begin r).

Definition ngtcp2_range_equal (a b : ngtcp2_range) : bool :=
  (r_begin a =? r_begin b) && (r_end a =? r_end b).

(** [left] and [right]; assumes that [b] is included in [a]. *)
Definition ngtcp2_range_cut (a b : ngtcp2_range) : ngtcp2_range * ngtcp2_range :=
  (mk_range (r_begin a) (r_begin b), mk_range (r_end b) (r_end a)).

Definition ngtcp2_range_not_after (a b : ngtcp2_range) : bool := r_end a <=? r_end b.

(** ** Meaning *)

Definition in_range (x : Z) (r : ngtcp2_range) : Prop := r_begin r <= x < r_end r.
#[global] Instance in_range_dec x r : Decision (in_range x r).
Proof. unfold in_range; apply _. Defined.

(** A range of [uint64_t] offsets with [begin <= end]. *)
Definition wf_range (r : ngtcp2_range) : Prop := 0 <= r_begin r <= r_end r /\ r_end r < 2 ^ 64.

Lemma range_len_wf r : wf_range r -> ngtcp2_range_len r = r_end r - r_begin r.
Proof. intros [? ?]. apply u64_small. clia. Qed.

Lemma intersect_wf a b : wf_range a -> wf_range b -> wf_range (ngtcp2_range_intersect a b).
Proof.
  intros [? ?] [? ?]. unfold ngtcp2_range_intersect, wf_range in *.
  destruct (Z.ltb_spec (Z.max (r_begin a) (r_begin b)) (Z.min (r_end a) (r_end b)));
    simpl; lia.
Qed.

(** Intersection and cut as operations on sets of offsets. *)
Lemma intersect_spec x a b :
  in_range x (ngtcp2_range_intersect a b) <-> in_range x a /\ in_range x b.
Proof.
  unfold ngtcp2_range_intersect, in_range.
  destruct (Z.ltb_spec (Z.max (r_begin a) (r_begin b)) (Z.min (r_end a) (r_end b)));
    simpl; lia.
Qed.

Lemma cut_spec x a b :
  r_begin a <= r_begin b <= r_end b -> r_end b <= r_end a ->
  let '(l, r) := ngtcp2_range_cut a b in
  in_range x l \/ in_range x r <-> in_range x a /\ ~ in_range x b.
Proof. unfold in_range; simpl. lia. Qed.

(** ** Lists of gaps

    The gap lists of the trackers are ordered, and their gaps are not empty and
    do not touch each other. *)

Fixpoint wf_gaps (lo : Z) (gs : list ngtcp2_range) : Prop :=
  match gs with
  | [] => True
  | g :: gs =>
      lo <= r_begin g /\ r_begin g < r_end g <= UINT64_MAX /\ wf_gaps (r_end g + 1) gs
  end.

Definition in_gaps (gs : list ngtcp2_range) (x : Z) : Prop := Exists (in_range x) gs.

#[global] Instance in_gaps_dec gs x : Decision (in_gaps gs x).
Proof. unfold in_gaps; apply _. Defined.

Lemma in_gaps_cons g gs x : in_gaps (g :: gs) x <-> in_range x g \/ in_gaps gs x.
Proof. apply Exists_cons. Qed.

Lemma wf_gaps_mono lo lo' gs : lo' <= lo -> wf_gaps lo gs -> wf_gaps lo' gs.
Proof. destruct gs; simpl; intuition lia. Qed.

Lemma wf_gaps_lower lo gs x : wf_gaps lo gs -> in_gaps gs x -> lo <= x.
Proof.
  revert lo; induction gs as [|g gs IH]; intros lo Hwf; [by intros ?%Exists_nil|].
  rewrite in_gaps_cons. destruct Hwf as (? & ? & Hwf). unfold in_range.
  intros [? | Hin%(IH _ Hwf)]; lia.
Qed.
