(* ===== verification/Gaptr.v ===== *)
(** The gap tracker: [ngtcp2_gaptr.c]. It records which offsets of a stream
    have been acknowledged, as the list of the ranges that have not been.
    The linked list of [ngtcp2_gaptr_gap] is a list of ranges. *)

From S2P Require Import Prelude Frame Mem Range.

Record ngtcp2_gaptr := mk_gaptr { gap : list ngtcp2_range }.

(** [gap_new(0, UINT64_MAX)] *)
Definition ngtcp2_gaptr_init (m : mem) : res ngtcp2_gaptr * mem :=
  let '(ok, m) := mem_alloc m in
  if ok then (Ok (mk_gaptr [ngtcp2_range_init 0 UINT64_MAX]), m)
  else (Err NGTCP2_ERR_NOMEM, m).

(** The loop of [ngtcp2_gaptr_push] from the gap [*pg] on: the gaps that are
    left, the return value, and the allocator. *)
Fixpoint gaptr_push_loop (m : mem) (q : ngtcp2_range) (gs : list ngtcp2_range) :
    list ngtcp2_range * Z * mem :=
  match gs with
  | [] => ([], 0, m)
  | g :: gs =>
      let i := ngtcp2_range_intersect q g in
      (* the end of the loop's body: the break, or pg moves to the next gap *)
      let next m g :=
        if ngtcp2_range_not_after q g then (g :: gs, 0, m)
        else let '(gs', rv, m) := gaptr_push_loop m q gs in (g :: gs', rv, m) in
      if negb (ngtcp2_range_len i =? 0) then
        if ngtcp2_range_equal g i then gaptr_push_loop m q gs
        else
          let '(l, r) := ngtcp2_range_cut g i in
          if negb (ngtcp2_range_len l =? 0) then
            if negb (ngtcp2_range_len r =? 0) then
              let '(ok, m) := mem_alloc m in
              if ok then
                let '(gs', rv, m) := next m (ngtcp2_range_init (r_begin r) (r_end r)) in
                (l :: gs', rv, m)
              else (l :: gs, NGTCP2_ERR_NOMEM, m)
            else next m l
          else if negb (ngtcp2_range_len r =? 0) then next m r
          else next m g
      else next m g
  end.

Definition ngtcp2_gaptr_push (m : mem) (gaptr : ngtcp2_gaptr) (offset datalen : Z) :
    ngtcp2_gaptr * Z * mem :=
  let q := mk_range offset (u64 (offset + datalen)) in
  let '(gs, rv, m) := gaptr_push_loop m q (gap gaptr) in
  (mk_gaptr gs, rv, m).

Definition ngtcp2_gaptr_first_gap_offset (gaptr : ngtcp2_gaptr) : Z :=
  match gap gaptr with
  | g :: _ => r_begin g
  | [] => UINT64_MAX
  end.

(** What one iteration does to the gap under [pg]. *)
Lemma push_gap_cases q g :
  wf_range q -> 0 <= r_begin g < r_end g -> r_end g <= UINT64_MAX ->
  let i := ngtcp2_range_intersect q g in
  (ngtcp2_range_len i = 0 /\ (r_end q <= r_begin g \/ r_end g <= r_begin q \/ r_begin q = r_end q)) \/
  (ngtcp2_range_len i <> 0 /\
   r_begin i = Z.max (r_begin q) (r_begin g) /\ r_end i = Z.min (r_end q) (r_end g) /\
   r_begin i < r_end i).
Proof.
  intros [? ?] ? ?. unfold ngtcp2_range_intersect, ngtcp2_range_len, UINT64_MAX in *.
  destruct (Z.ltb_spec (Z.max (r_begin q) (r_begin g)) (Z.min (r_end q) (r_end g))); simpl.
  - right. rewrite u64_small by clia. lia.
  - left. split; [done | lia].
Qed.

(** What pushing [q] must give on a list of gaps that covers [S0]: the set [S]
    when it succeeds. It fails only when the allocator does, and then some
    offsets may be lost, but none are added. *)
Definition push_result (m : mem) (lo : Z) (S0 S : Z -> Prop)
    (r : list ngtcp2_range * Z * mem) : Prop :=
  let '(gs', rv, m') := r in
  (mem_reliable m -> rv = 0 /\ mem_reliable m') /\
  (rv = 0 \/ rv = NGTCP2_ERR_NOMEM) /\
  wf_gaps lo gs' /\
  (rv = 0 -> forall x, in_gaps gs' x <-> S x) /\
  (forall x, in_gaps gs' x -> S0 x).

Lemma push_result_mono m lo lo' S0 S0' S S' r :
  lo' <= lo -> (forall x, S0 x -> S0' x) -> (forall x, S x <-> S' x) ->
  push_result m lo S0 S r -> push_result m lo' S0' S' r.
Proof.
  intros Hlo H0 HS. destruct r as [[gs' rv] m']. intros (H1 & H2 & H3 & H4 & H5).
  split_and!; try done.
  - eapply wf_gaps_mono; done.
  - intros Hrv x. by rewrite <- HS, H4.
  - auto.
Qed.

Lemma push_result_cons m lo g S0 S r :
  lo <= r_begin g -> r_begin g < r_end g <= UINT64_MAX ->
  push_result m (r_end g + 1) S0 S r ->
  push_result m lo (fun x => in_range x g \/ S0 x) (fun x => in_range x g \/ S x)
    (let '(gs', rv, m') := r in (g :: gs', rv, m')).
Proof.
  intros Hlo Hg. destruct r as [[gs' rv] m']. intros (H1 & H2 & H3 & H4 & H5).
  split_and!; try done; try lia.
  - intros Hrv x. by rewrite in_gaps_cons, H4.
  - intros x. rewrite in_gaps_cons. intros [?|?]; auto.
Qed.

(** The end of an iteration, when the gap under [pg] has become [g]. *)
Lemma push_next m q lo hi g gs rec :
  wf_gaps (hi + 1) gs -> lo <= r_begin g -> r_begin g < r_end g <= hi -> hi <= UINT64_MAX ->
  push_result m (hi + 1) (in_gaps gs) (fun x => in_gaps gs x /\ ~ in_range x q) rec ->
  push_result m lo (in_gaps (g :: gs))
    (fun x => in_range x g \/ (in_gaps gs x /\ ~ in_range x q))
    (if ngtcp2_range_not_after q g then (g :: gs, 0, m)
     else let '(gs', rv, m') := rec in (g :: gs', rv, m')).
Proof.
  intros Hgs Hlo Hg Hmax Hrec. unfold ngtcp2_range_not_after.
  destruct (Z.leb_spec (r_end q) (r_end g)).
  - split_and!; try done; [by left | simpl; split_and!; try lia |].
    { eapply wf_gaps_mono; [|done]; lia. }
    intros _ x. rewrite in_gaps_cons. split; [|tauto]. intros [?|Hin]; [by left|]. right.
    pose proof (wf_gaps_lower _ _ _ Hgs Hin). unfold in_range. split; [done|lia].
  - apply (push_result_mono _ lo _ (fun x => in_range x g \/ in_gaps gs x) _
      (fun x => in_range x g \/ (in_gaps gs x /\ ~ in_range x q))); [done | | done |].
    { intros x. by rewrite in_gaps_cons. }
    apply push_result_cons; [done | lia |].
    apply (push_result_mono _ (hi + 1) _ (in_gaps gs) _
      (fun x => in_gaps gs x /\ ~ in_range x q)); [lia | done | done | done].
Qed.

(** The iteration that splits the gap [[b, e)] around [[ib, ie)]. *)
Lemma push_split m q lo b ib ie e gs (next : mem -> list ngtcp2_range * Z * mem) :
  lo <= b -> b < ib < ie -> ie < e <= UINT64_MAX -> wf_gaps (e + 1) gs ->
  (forall m, push_result m (ib + 1) (in_gaps (mk_range ie e :: gs))
    (fun x => in_range x (mk_range ie e) \/ (in_gaps gs x /\ ~ in_range x q)) (next m)) ->
  push_result m lo (in_gaps (mk_range b e :: gs))
    (fun x => in_range x (mk_range b ib) \/ in_range x (mk_range ie e) \/
      (in_gaps gs x /\ ~ in_range x q))
    (let '(ok, m) := mem_alloc m in
     if ok then let '(gs', rv, m) := next m in (mk_range b ib :: gs', rv, m)
     else (mk_range b ib :: gs, NGTCP2_ERR_NOMEM, m)).
Proof.
  intros Hb Hi He Hgs Hnext.
  pose proof (mem_alloc_reliable m) as Hm. destruct (mem_alloc m) as [[] m']; simpl in Hm.
  - assert (H : push_result m (ib + 1) (in_gaps (mk_range ie e :: gs))
      (fun x => in_range x (mk_range ie e) \/ (in_gaps gs x /\ ~ in_range x q)) (next m')).
    { specialize (Hnext m'). destruct (next m') as [[gs' rv] m2].
      destruct Hnext as (H1 & H2). split; [|done]. intros Hrel. apply H1, Hm, Hrel. }
    apply (push_result_mono _ lo _
      (fun x => in_range x (mk_range b ib) \/ in_gaps (mk_range ie e :: gs) x) _
      (fun x => in_range x (mk_range b ib) \/ in_range x (mk_range ie e) \/
        (in_gaps gs x /\ ~ in_range x q))); [done | | done |].
    { intros x. rewrite !in_gaps_cons. unfold in_range. simpl. intuition lia. }
    apply push_result_cons; [done | simpl; lia |]. exact H.
  - split_and!; try done.
    + intros H. by destruct Hm.
    + by right.
    + simpl. split_and!; try lia. eapply wf_gaps_mono; [|done]. lia.
    + intros x. rewrite !in_gaps_cons. unfold in_range. simpl. intuition lia.
Qed.

Lemma push_loop_spec m q lo gs :
  wf_range q -> 0 <= lo -> wf_gaps lo gs ->
  push_result m lo (in_gaps gs) (fun x => in_gaps gs x /\ ~ in_range x q)
    (gaptr_push_loop m q gs).
Proof.
  intros Hq. revert m lo. induction gs as [|g gs IH]; intros m lo Hlo Hwf; cbn [gaptr_push_loop].
  { split_and!; try done; [by left|]. intros _ x. unfold in_gaps. rewrite Exists_nil. tauto. }
  destruct Hwf as (Hb & He & Hgs).
  assert (forall m, push_result m (r_end g + 1) (in_gaps gs)
    (fun x => in_gaps gs x /\ ~ in_range x q) (gaptr_push_loop m q gs)) as IH'
    by (intros; apply IH; [lia | done]). clear IH.
  pose proof (fun m g' lo H1 H2 => push_next m q lo (r_end g) g' gs _ Hgs H1 H2
    ltac:(lia) (IH' m)) as Hnext.
  assert (Hset : forall g', (forall x, in_range x g' <-> in_range x g /\ ~ in_range x q) ->
    forall x, in_range x g' \/ (in_gaps gs x /\ ~ in_range x q) <->
      in_gaps (g :: gs) x /\ ~ in_range x q)
    by (intros g' H x; rewrite in_gaps_cons, H; tauto).
  assert (Hsub : forall g', r_begin g <= r_begin g' -> r_end g' <= r_end g ->
    forall x, in_gaps (g' :: gs) x -> in_gaps (g :: gs) x)
    by (intros g' H1 H2 x; rewrite !in_gaps_cons; unfold in_range; intuition lia).
  destruct Hq as [Hq1 Hq2].
  destruct (push_gap_cases q g) as [(Hz & Hout) | (Hz & Hib & Hie & Hi)]; [done | lia | lia | |].
  - rewrite (proj2 (Z.eqb_eq _ _) Hz). cbn [negb].
    eapply push_result_mono; [done | | | apply Hnext; lia].
    + done.
    + apply Hset. unfold in_range. lia.
  - rewrite (proj2 (Z.eqb_neq _ _) Hz). cbn [negb].
    set (i := ngtcp2_range_intersect q g) in *. clearbody i.
    destruct i as [ib ie]; cbn [r_begin r_end] in *.
    unfold ngtcp2_range_equal, ngtcp2_range_cut. cbn [r_begin r_end].
    destruct (Z.eqb_spec (r_begin g) ib) as [Hl|Hl]; cbn [andb].
    + destruct (Z.eqb_spec (r_end g) ie) as [Hr|Hr].
      * eapply push_result_mono; [| | | apply IH']; [lia | |];
          intros x; rewrite in_gaps_cons; unfold in_range; [tauto | intuition lia].
      * rewrite 2!range_len_wf by (unfold wf_range; simpl; clia). cbn [r_begin r_end].
        rewrite (proj2 (Z.eqb_eq (ib - _) 0)), (proj2 (Z.eqb_neq (r_end g - _) 0)) by lia.
        cbn [negb]. eapply push_result_mono; [done | | | apply Hnext; simpl; lia].
        -- apply Hsub; simpl; lia.
        -- apply Hset. unfold in_range. simpl. lia.
    + rewrite 2!range_len_wf by (unfold wf_range; simpl; clia). cbn [r_begin r_end].
      rewrite (proj2 (Z.eqb_neq (ib - _) 0)) by lia. cbn [negb].
      destruct (Z.eqb_spec (r_end g - ie) 0) as [Hr|Hr]; cbn [negb].
      * eapply push_result_mono; [done | | | apply Hnext; simpl; lia].
        -- apply Hsub; simpl; lia.
        -- apply Hset. unfold in_range. simpl. lia.
      * destruct g as [gb ge]; cbn [r_begin r_end] in *.
        eapply push_result_mono; [apply Z.le_refl | exact (fun _ H => H) | |
          apply (push_split m q lo gb ib ie ge gs (fun m =>
            if ngtcp2_range_not_after q (mk_range ie ge) then (mk_range ie ge :: gs, 0, m)
            else let '(gs', rv, m') := gaptr_push_loop m q gs in
              (mk_range ie ge :: gs', rv, m'))); [done | lia | lia | done |]].
        -- intros x. rewrite in_gaps_cons. unfold in_range. simpl. intuition lia.
        -- intros m'. apply Hnext; simpl; lia.
Qed.

Definition wf_gaptr (gaptr : ngtcp2_gaptr) : Prop := wf_gaps 0 (gap gaptr).

(** The offsets that have not been pushed yet. *)
Definition uncovered (gaptr : ngtcp2_gaptr) (x : Z) : Prop := in_gaps (gap gaptr) x.

Lemma first_gap_spec gaptr :
  wf_gaptr gaptr ->
  (forall x, uncovered gaptr x -> ngtcp2_gaptr_first_gap_offset gaptr <= x) /\
  (gap gaptr <> [] -> uncovered gaptr (ngtcp2_gaptr_first_gap_offset gaptr)).
Proof.
  unfold wf_gaptr, uncovered, ngtcp2_gaptr_first_gap_offset.
  destruct (gap gaptr) as [|g gs]; intros Hwf.
  - split; [by intros x ?%Exists_nil | done].
  - destruct Hwf as (? & ? & Hwf). split; [|intros _].
    + intros x. rewrite in_gaps_cons. unfold in_range.
      intros [? | Hin%(wf_gaps_lower _ _ _ Hwf)]; lia.
    + apply in_gaps_cons. left. unfold in_range. lia.
Qed.

Lemma gaptr_push_spec m gaptr offset datalen :
  wf_gaptr gaptr -> 0 <= offset -> 0 <= datalen -> offset + datalen <= UINT64_MAX ->
  let '(gaptr', rv, m') := ngtcp2_gaptr_push m gaptr offset datalen in
  wf_gaptr gaptr' /\ (rv = 0 \/ rv = NGTCP2_ERR_NOMEM) /\
  (mem_reliable m -> rv = 0 /\ mem_reliable m') /\
  (rv = 0 -> forall x, uncovered gaptr' x <->
    uncovered gaptr x /\ ~ offset <= x < offset + datalen) /\
  (forall x, uncovered gaptr' x -> uncovered gaptr x).
Proof.
  intros Hwf Ho Hd He. unfold ngtcp2_gaptr_push. rewrite u64_small by clia.
  pose proof (push_loop_spec m (mk_range offset (offset + datalen)) 0 (gap gaptr)
    ltac:(unfold wf_range; simpl; clia) ltac:(lia) Hwf) as H.
  destruct (gaptr_push_loop _ _ _) as [[gs rv] m'].
  destruct H as (H1 & H2 & H3 & H4 & H5). split_and!; done.
Qed.

(** The ranges of a sequence of acknowledgements, pushed one after the other. *)
Fixpoint gaptr_pushes (m : mem) (gaptr : ngtcp2_gaptr) (rs : list (Z * Z)) : ngtcp2_gaptr * Z * mem :=
  match rs with
  | [] => (gaptr, 0, m)
  | (offset, datalen) :: rs =>
      let '(gaptr, rv, m) := ngtcp2_gaptr_push m gaptr offset datalen in
      if negb (rv =? 0) then (gaptr, rv, m) else gaptr_pushes m gaptr rs
  end.

Definition wf_push (r : Z * Z) : Prop := 0 <= r.1 /\ 0 <= r.2 /\ r.1 + r.2 <= UINT64_MAX.
Definition pushed (rs : list (Z * Z)) (x : Z) : Prop := Exists (fun r => r.1 <= x < r.1 + r.2) rs.

Lemma gaptr_pushes_spec m gaptr rs :
  wf_gaptr gaptr -> Forall wf_push rs -> mem_reliable m ->
  let '(gaptr', rv, _) := gaptr_pushes m gaptr rs in
  rv = 0 /\ wf_gaptr gaptr' /\ forall x, uncovered gaptr' x <-> uncovered gaptr x /\ ~ pushed rs x.
Proof.
  intros Hwf Hrs. revert m gaptr Hwf.
  induction Hrs as [|[offset datalen] rs (Ho & Hd & He) _ IH]; intros m gaptr Hwf Hm; cbn [gaptr_pushes].
  { split_and!; [done | done |]. intros x. unfold pushed. rewrite Exists_nil. tauto. }
  pose proof (gaptr_push_spec m gaptr offset datalen Hwf Ho Hd He) as H.
  destruct (ngtcp2_gaptr_push m gaptr offset datalen) as [[g rv] m'].
  destruct H as (H1 & _ & H3 & H4 & _). destruct (H3 Hm) as [-> Hm']. cbn [Z.eqb negb].
  specialize (IH m' g H1 Hm'). destruct (gaptr_pushes m' g rs) as [[g' rv] m2].
  destruct IH as (-> & Hwf' & Hx). split_and!; [done | done |]. intros x. rewrite Hx, H4 by done.
  unfold pushed. rewrite Exists_cons. simpl. tauto.
Qed.

(** ** Properties *)

(** C24. Pushing a range removes exactly its offsets from the offsets that are not
    acknowledged, and keeps the gaps ordered, non-empty and apart. It fails only
    when memory cannot be allocated; then offsets may be dropped from the list
    of gaps, but none is added. *)
Theorem gaptr_push_exact m gaptr offset datalen :
  wf_gaptr gaptr -> 0 <= offset -> 0 <= datalen -> offset + datalen <= UINT64_MAX ->
  let '(gaptr', rv, m') := ngtcp2_gaptr_push m gaptr offset datalen in
  wf_gaptr gaptr' /\ (rv = 0 \/ rv = NGTCP2_ERR_NOMEM) /\ (mem_reliable m -> rv = 0) /\
  (rv = 0 -> forall x, uncovered gaptr' x <->
    uncovered gaptr x /\ ~ offset <= x < offset + datalen) /\
  (forall x, uncovered gaptr' x -> uncovered gaptr x).
Proof.
  intros Hwf Ho Hd He. pose proof (gaptr_push_spec m gaptr offset datalen Hwf Ho Hd He) as H.
  destruct (ngtcp2_gaptr_push _ _ _ _) as [[g rv] m'].
  destruct H as (H1 & H2 & H3 & H4 & H5). split_and!; try done. intros Hm. by apply H3.
Qed.

(** A range that splits one gap and covers the start of another. *)
Lemma gaptr_push_exact_witness :
  let g := mk_gaptr [mk_range 0 10; mk_range 20 30] in
  let '(g', rv, _) := ngtcp2_gaptr_push [] g 5 20 in
  rv = 0 -> forall x, uncovered g' x <-> uncovered g x /\ ~ 5 <= x < 5 + 20.
Proof.
  pose proof (gaptr_push_exact [] (mk_gaptr [mk_range 0 10; mk_range 20 30]) 5 20
    ltac:(vm_compute; intuition discriminate) ltac:(lia) ltac:(lia) ltac:(unfold UINT64_MAX; lia)) as H.
  cbv zeta. destruct (ngtcp2_gaptr_push _ _ _ _) as [[g' rv] m']. apply H.
Defined.

(** C25. The offset the sender takes as acknowledged is right: after any sequence
    of acknowledged ranges, in any order and overlapping, from a fresh tracker,
    [ngtcp2_gaptr_first_gap_offset] is the least offset that is in none of
    them. *)
Theorem gaptr_first_gap_least m0 m gaptr rs :
  ngtcp2_gaptr_init m0 = (Ok gaptr, m) -> Forall wf_push rs -> mem_reliable m ->
  let '(gaptr', rv, _) := gaptr_pushes m gaptr rs in
  let first := ngtcp2_gaptr_first_gap_offset gaptr' in
  rv = 0 /\ (forall x, 0 <= x < first -> pushed rs x) /\ ~ pushed rs first.
Proof.
  unfold ngtcp2_gaptr_init. destruct (mem_alloc m0) as [[] m1]; [|done]. intros [= <- ->] Hrs Hm.
  set (g0 := mk_gaptr _).
  assert (Hall : forall x, uncovered g0 x <-> 0 <= x < UINT64_MAX).
  { intros x. unfold uncovered, g0. simpl. rewrite in_gaps_cons. unfold in_gaps. rewrite Exists_nil.
    unfold in_range. simpl. tauto. }
  pose proof (gaptr_pushes_spec m g0 rs ltac:(vm_compute; intuition discriminate) Hrs Hm) as H.
  destruct (gaptr_pushes m g0 rs) as [[g rv] m2]. destruct H as (-> & Hwf & Hx). cbv zeta.
  destruct (first_gap_spec g Hwf) as [Hlow Hin].
  assert (Hfirst : 0 <= ngtcp2_gaptr_first_gap_offset g <= UINT64_MAX).
  { unfold ngtcp2_gaptr_first_gap_offset, wf_gaptr in *. destruct (gap g); simpl in *; clia. }
  split; [done|]. split.
  - intros x Hlt. destruct (decide (Exists (fun r : Z * Z => r.1 <= x < r.1 + r.2) rs)) as [|Hn]; [done|].
    assert (uncovered g x) as Hu%Hlow by (apply Hx; split; [apply Hall; lia | done]). lia.
  - destruct (gap g) eqn:Eg.
    + unfold ngtcp2_gaptr_first_gap_offset. rewrite Eg. intros Hp.
      apply Exists_exists in Hp as (r & Hr & Hlt). rewrite list.Forall_forall in Hrs.
      destruct (Hrs r Hr) as (? & ? & ?). lia.
    + by apply Hx, Hin.
Qed.

Lemma gaptr_first_gap_least_witness :
  let '(g, rv, _) := gaptr_pushes [] (mk_gaptr [mk_range 0 UINT64_MAX]) [(5, 5); (0, 3); (2, 4)] in
  ~ pushed [(5, 5); (0, 3); (2, 4)] (ngtcp2_gaptr_first_gap_offset g).
Proof.
  pose proof (gaptr_first_gap_least [] [] _ [(5, 5); (0, 3); (2, 4)] eq_refl
    ltac:(repeat constructor; vm_compute; discriminate) ltac:(constructor)) as H.
  destruct (gaptr_pushes _ _ _) as [[g rv] m']. apply H.
Defined.
