(* ===== verification/Idtr.v ===== *)
(** The stream ID tracker: [ngtcp2_idtr.c]. It records which stream IDs of one
    type have been opened, as the list of the ranges of IDs that have not. *)

From S2P Require Import Prelude Frame Mem Range.

Record ngtcp2_idtr := mk_idtr { idtr_gap : list ngtcp2_range; idtr_server : bool }.

Definition ngtcp2_idtr_init (m : mem) (server : bool) : res ngtcp2_idtr * mem :=
  let '(ok, m) := mem_alloc m in
  if ok then (Ok (mk_idtr [ngtcp2_range_init 0 UINT64_MAX] server), m)
  else (Err NGTCP2_ERR_NOMEM, m).

Definition id_from_stream_id (stream_id : Z) : Z := stream_id .>> 2.

(** The condition of the [assert]s, with the precedence the source gives it:
    [(server && odd) || ((!server && odd) == 0)]. *)
Definition idtr_assert (server : bool) (stream_id : Z) : bool :=
  let odd := negb (stream_id mod 2 =? 0) in
  (server && odd) || (c_bool (negb server && odd) =? 0).

(** The loop of [ngtcp2_idtr_open]. *)
Fixpoint idtr_open_loop (m : mem) (q : Z) (gs : list ngtcp2_range) :
    list ngtcp2_range * Z * mem :=
  match gs with
  | [] => ([], NGTCP2_ERR_STREAM_IN_USE, m)
  | g :: gs =>
      if q <? r_begin g then (g :: gs, NGTCP2_ERR_STREAM_IN_USE, m)
      else if r_end g <=? q then
        let '(gs', rv, m) := idtr_open_loop m q gs in (g :: gs', rv, m)
      else if q =? r_begin g then
        if ngtcp2_range_len g =? 1 then (gs, 0, m)
        else (mk_range (u64 (r_begin g + 1)) (r_end g) :: gs, 0, m)
      else
        let '(ok, m) := mem_alloc m in
        if ok then
          (ngtcp2_range_init (r_begin g) q :: mk_range (u64 (q + 1)) (r_end g) :: gs, 0, m)
        else (g :: gs, NGTCP2_ERR_NOMEM, m)
  end.

(** [Ub] when the [assert] fails; else the tracker, the return value, the allocator. *)
Definition ngtcp2_idtr_open (m : mem) (idtr : ngtcp2_idtr) (stream_id : Z) :
    res (ngtcp2_idtr * Z * mem) :=
  _ ← c_assert (idtr_assert (idtr_server idtr) stream_id);
  let q := id_from_stream_id stream_id in
  let '(gs, rv, m) := idtr_open_loop m q (idtr_gap idtr) in
  Ok (mk_idtr gs (idtr_server idtr), rv, m).

Fixpoint idtr_is_open_loop (q : Z) (gs : list ngtcp2_range) : Z :=
  match gs with
  | [] => 0
  | g :: gs =>
      if q <? r_begin g then NGTCP2_ERR_STREAM_IN_USE
      else if r_end g <=? q then idtr_is_open_loop q gs
      else 0
  end.

Definition ngtcp2_idtr_is_open (idtr : ngtcp2_idtr) (stream_id : Z) : res Z :=
  _ ← c_assert (idtr_assert (idtr_server idtr) stream_id);
  Ok (idtr_is_open_loop (id_from_stream_id stream_id) (idtr_gap idtr)).

Definition ngtcp2_idtr_first_gap (idtr : ngtcp2_idtr) : Z :=
  match idtr_gap idtr with
  | g :: _ => r_begin g
  | [] => UINT64_MAX
  end.

(** ** Invariant

    The gaps are ordered and do not touch each other. Unlike those of the
    other trackers they may be empty: claiming the last ID of a gap leaves the
    empty gap after it. The last ID the tracker can represent, which no stream
    ID has, is never opened: the list always ends with a gap up to
    [UINT64_MAX]. *)

Fixpoint wf_id_gaps (lo : Z) (gs : list ngtcp2_range) : Prop :=
  match gs with
  | [] => True
  | g :: gs =>
      lo <= r_begin g /\ r_begin g <= r_end g <= UINT64_MAX /\ wf_id_gaps (r_end g + 1) gs
  end.

Lemma wf_id_gaps_mono lo lo' gs : lo' <= lo -> wf_id_gaps lo gs -> wf_id_gaps lo' gs.
Proof. destruct gs; simpl; intuition lia. Qed.

Definition wf_ids (gs : list ngtcp2_range) : Prop :=
  wf_id_gaps 0 gs /\ in_gaps gs (UINT64_MAX - 1).

Definition wf_idtr (idtr : ngtcp2_idtr) : Prop := wf_ids (idtr_gap idtr).

(** The IDs, without the type bits, that have been opened. *)
Definition opened (idtr : ngtcp2_idtr) (q : Z) : Prop := ~ in_gaps (idtr_gap idtr) q.

Lemma opened_below lo gs q : wf_id_gaps lo gs -> q < lo -> ~ in_gaps gs q.
Proof.
  revert lo; induction gs as [|g gs IH]; intros lo Hwf Hq; [by intros ?%Exists_nil|].
  rewrite in_gaps_cons. destruct Hwf as (? & ? & Hwf). unfold in_range.
  intros [? | Hin]; [lia|]. revert Hin. eapply IH; [done | lia].
Qed.

(** [open_result]: what claiming [q] in the gaps [gs] must give. *)
Definition open_result (m : mem) (q lo : Z) (gs : list ngtcp2_range)
    (r : list ngtcp2_range * Z * mem) : Prop :=
  let '(gs', rv, m') := r in
  wf_id_gaps lo gs' /\
  (in_gaps gs q ->
    (rv = 0 /\ forall x, in_gaps gs' x <-> in_gaps gs x /\ x <> q) \/
    (rv = NGTCP2_ERR_NOMEM /\ gs' = gs /\ ~ mem_reliable m)) /\
  (~ in_gaps gs q -> rv = NGTCP2_ERR_STREAM_IN_USE /\ gs' = gs /\ m' = m).

(** An ID that is taken from the gaps. *)
Lemma open_result_taken m m' q lo g gs gs' :
  in_range q g -> wf_id_gaps lo gs' ->
  (forall x, in_gaps gs' x <-> in_gaps (g :: gs) x /\ x <> q) ->
  open_result m q lo (g :: gs) (gs', 0, m').
Proof.
  intros Hin Hwf Hx. split; [done|]. split; [by left|]. intros []. apply in_gaps_cons. by left.
Qed.

Lemma open_loop_spec m q lo gs :
  0 <= q < UINT64_MAX - 1 -> 0 <= lo -> wf_id_gaps lo gs ->
  open_result m q lo gs (idtr_open_loop m q gs).
Proof.
  intros Hq. revert lo. induction gs as [|g gs IH]; intros lo Hlo Hwf; cbn [idtr_open_loop].
  { split; [done|]. split; [by intros ?%Exists_nil | done]. }
  pose proof Hwf as (Hb & He & Hgs). pose proof (opened_below _ _ q Hgs) as Hbelow.
  destruct (Z.ltb_spec q (r_begin g)).
  { split; [done|]. split; [|done]. rewrite in_gaps_cons. unfold in_range.
    intros [?|?]; [lia|]. by destruct Hbelow; [lia|]. }
  destruct (Z.leb_spec (r_end g) q).
  { specialize (IH (r_end g + 1) ltac:(lia) Hgs).
    destruct (idtr_open_loop m q gs) as [[gs' rv] m']. destruct IH as (H1 & H2 & H3).
    split; [done|]. rewrite in_gaps_cons. split.
    - intros [?|Hin]; [unfold in_range in *; lia|].
      destruct (H2 Hin) as [[-> H4]|(-> & -> & H4)]; [left | by right].
      split; [done|]. intros x. rewrite !in_gaps_cons, H4. unfold in_range. intuition lia.
    - intros Hn. destruct H3 as (-> & -> & ->); [tauto | done]. }
  specialize (Hbelow ltac:(lia)).
  assert (in_range q g) as Hin by (unfold in_range; lia).
  assert (forall x, in_gaps gs x -> x <> q) as Hgsq by (intros x Hx ->; done).
  destruct (Z.eqb_spec q (r_begin g)) as [Heq|Hne].
  - rewrite range_len_wf by (unfold wf_range; clia).
    destruct (Z.eqb_spec (r_end g - r_begin g) 1).
    + apply open_result_taken; [done | eapply wf_id_gaps_mono; [|done]; lia |].
      intros x. rewrite in_gaps_cons. specialize (Hgsq x). unfold in_range in *. intuition lia.
    + rewrite u64_small by clia. apply open_result_taken; [done | simpl; split_and!; try lia; done |].
      intros x. rewrite !in_gaps_cons. specialize (Hgsq x). unfold in_range in *. simpl.
      intuition lia.
  - pose proof (mem_alloc_reliable m) as Hm. destruct (mem_alloc m) as [[] m'].
    + rewrite u64_small by clia. apply open_result_taken; [done | simpl; split_and!; try lia; done |].
      intros x. rewrite !in_gaps_cons. specialize (Hgsq x). unfold in_range in *. simpl.
      intuition lia.
    + split; [done|]. split; [|intros []; apply in_gaps_cons; by left]. intros _. right.
      split_and!; [done | done |]. intros Hrel. by destruct (Hm Hrel).
Qed.

Lemma is_open_loop_spec q gs :
  forall lo, wf_id_gaps lo gs -> q < UINT64_MAX - 1 -> in_gaps gs (UINT64_MAX - 1) ->
  (in_gaps gs q -> idtr_is_open_loop q gs = 0) /\
  (~ in_gaps gs q -> idtr_is_open_loop q gs = NGTCP2_ERR_STREAM_IN_USE).
Proof.
  induction gs as [|g gs IH]; intros lo Hwf Hq Hlast; [by apply Exists_nil in Hlast|].
  destruct Hwf as (Hb & He & Hgs). cbn [idtr_is_open_loop]. rewrite in_gaps_cons in *.
  pose proof (opened_below _ _ q Hgs) as Hbelow. unfold in_range in *.
  destruct (Z.ltb_spec q (r_begin g)); [split; [|done]; intros [?|?]; [lia | by destruct Hbelow; [lia|]]|].
  destruct (Z.leb_spec (r_end g) q); [|split; [done | intros []; lia]].
  destruct Hlast as [?|Hlast]; [lia|].
  destruct (IH _ Hgs Hq Hlast) as [IH1 IH2]. split; intros Hx; [apply IH1; intuition lia | apply IH2; tauto].
Qed.

(** Stream IDs are at most 62 bits wide. *)
Lemma id_from_stream_id_range stream_id :
  is_uint 64 stream_id -> 0 <= id_from_stream_id stream_id < UINT64_MAX - 1.
Proof.
  intros H. unfold id_from_stream_id. rewrite Z.shiftr_div_pow2 by lia.
  split; [apply Z.div_pos; clia | apply Z.div_lt_upper_bound; clia].
Qed.

Lemma idtr_assert_server s : idtr_assert true s = true.
Proof. unfold idtr_assert. by rewrite orb_true_r. Qed.

Lemma idtr_assert_client s : idtr_assert false s = (s mod 2 =? 0).
Proof. unfold idtr_assert. simpl. by destruct (s mod 2 =? 0). Qed.

(** Every ID below the first gap has been opened. *)
Lemma first_gap_opened idtr q :
  wf_idtr idtr -> 0 <= q < ngtcp2_idtr_first_gap idtr -> opened idtr q.
Proof.
  unfold wf_idtr, wf_ids, opened, ngtcp2_idtr_first_gap.
  destruct (idtr_gap idtr) as [|g gs]; intros [Hwf _] Hq; [by intros ?%Exists_nil|].
  eapply (opened_below (r_begin g)); [|lia]. destruct Hwf as (? & ? & ?). by split.
Qed.

Lemma idtr_init_wf m server idtr :
  (ngtcp2_idtr_init m server).1 = Ok idtr ->
  wf_idtr idtr /\ (forall q, 0 <= q < UINT64_MAX -> ~ opened idtr q).
Proof.
  unfold ngtcp2_idtr_init. destruct (mem_alloc m) as [[] m']; simpl; intros [= <-].
  unfold wf_idtr, wf_ids, opened. simpl. split; [split; [clia|]|].
  - apply in_gaps_cons. left. unfold in_range. simpl. clia.
  - intros q Hq H. apply H, in_gaps_cons. by left.
Qed.

Lemma idtr_open_spec m idtr stream_id :
  wf_idtr idtr -> is_uint 64 stream_id ->
  idtr_assert (idtr_server idtr) stream_id = true ->
  let q := id_from_stream_id stream_id in
  exists idtr' rv m', ngtcp2_idtr_open m idtr stream_id = Ok (idtr', rv, m') /\
  wf_idtr idtr' /\
  (opened idtr q -> rv = NGTCP2_ERR_STREAM_IN_USE /\ idtr' = idtr) /\
  (~ opened idtr q ->
    (rv = 0 /\ forall x, opened idtr' x <-> opened idtr x \/ x = q) \/
    (rv = NGTCP2_ERR_NOMEM /\ idtr' = idtr /\ ~ mem_reliable m)).
Proof.
  intros [Hwf Hlast] Hid Hass q. pose proof (id_from_stream_id_range _ Hid) as Hq. fold q in Hq.
  unfold ngtcp2_idtr_open. rewrite Hass. cbn [c_assert mbind res_bind]. fold q.
  pose proof (open_loop_spec m q 0 (idtr_gap idtr) Hq ltac:(lia) Hwf) as H.
  destruct (idtr_open_loop m q (idtr_gap idtr)) as [[gs rv] m']. destruct H as (H1 & H2 & H3).
  eexists _, _, _. split; [done|]. unfold wf_idtr, wf_ids, opened. simpl.
  destruct (decide (Exists (in_range q) (idtr_gap idtr))) as [Hin|Hin]; fold (in_gaps (idtr_gap idtr) q) in Hin.
  - destruct (H2 Hin) as [[-> H4]|(-> & -> & H4)].
    + split_and!; [done | apply H4; split; [done | lia] | tauto |]. intros _. left.
      split; [done|]. intros x. rewrite H4. destruct (decide (x = q)); tauto.
    + split_and!; [done | done | tauto |]. intros _. right. by destruct idtr.
  - destruct (H3 Hin) as (-> & -> & ->). split_and!; [done | done | | tauto]. by destruct idtr.
Qed.

Lemma idtr_open_mem m idtr stream_id idtr' rv m' :
  ngtcp2_idtr_open m idtr stream_id = Ok (idtr', rv, m') ->
  idtr_server idtr' = idtr_server idtr /\ (mem_reliable m -> mem_reliable m').
Proof.
  unfold ngtcp2_idtr_open. destruct (c_assert _); [|done|done]. cbn [mbind res_bind].
  set (q := id_from_stream_id stream_id).
  assert (mem_reliable m -> mem_reliable (idtr_open_loop m q (idtr_gap idtr)).2) as Hm.
  { intros Hm. induction (idtr_gap idtr) as [|g gs IH]; simpl; [done|].
    destruct (_ <? _); [done|]. destruct (_ <=? _).
    { by destruct (idtr_open_loop m q gs) as [[] ?]. }
    destruct (_ =? _); [by destruct (_ =? _)|].
    pose proof (mem_alloc_reliable m Hm) as [_ Hm']. by destruct (mem_alloc m) as [[] ?]. }
  destruct (idtr_open_loop m q (idtr_gap idtr)) as [[gs rv1] m1]. intros [= <- <- <-]. done.
Qed.

(** ** Properties *)

(** C37. A stream ID is opened once: the first request for an ID succeeds and
    marks that ID and no other, every later request fails with
    [NGTCP2_ERR_STREAM_IN_USE] and changes nothing, and
    [ngtcp2_idtr_is_open] agrees. Only a lack of memory can make a first
    request fail, and then nothing has changed. *)
Theorem idtr_open_once m idtr stream_id :
  wf_idtr idtr -> is_uint 64 stream_id -> idtr_assert (idtr_server idtr) stream_id = true ->
  let q := id_from_stream_id stream_id in
  (ngtcp2_idtr_is_open idtr stream_id = Ok 0 <-> ~ opened idtr q) /\
  exists idtr' rv m', ngtcp2_idtr_open m idtr stream_id = Ok (idtr', rv, m') /\
  wf_idtr idtr' /\
  (opened idtr q -> rv = NGTCP2_ERR_STREAM_IN_USE /\ idtr' = idtr) /\
  (~ opened idtr q ->
    (rv = 0 /\ forall x, opened idtr' x <-> opened idtr x \/ x = q) \/
    (rv = NGTCP2_ERR_NOMEM /\ idtr' = idtr /\ ~ mem_reliable m)).
Proof.
  intros Hwf Hs Ha q. split; [|by apply idtr_open_spec].
  unfold ngtcp2_idtr_is_open, opened. rewrite Ha. cbn [c_assert mbind res_bind]. fold q.
  pose proof (id_from_stream_id_range stream_id Hs) as Hq. fold q in Hq. destruct Hwf as [Hw Hlast].
  destruct (is_open_loop_spec q (idtr_gap idtr) 0 Hw ltac:(lia) Hlast) as [H1 H2].
  split.
  - intros [= H0] Hn. rewrite (H2 Hn) in H0. done.
  - intros Hn. destruct (decide (in_gaps (idtr_gap idtr) q)) as [Hin|Hin]; [by rewrite H1|done].
Qed.

Lemma idtr_open_once_witness :
  let idtr := mk_idtr [mk_range 2 UINT64_MAX] true in
  exists idtr' rv m', ngtcp2_idtr_open [] idtr 5 = Ok (idtr', rv, m') /\ wf_idtr idtr' /\
    (opened idtr 1 -> rv = NGTCP2_ERR_STREAM_IN_USE /\ idtr' = idtr).
Proof.
  intros idtr.
  destruct (idtr_open_once [] idtr 5) as (_ & idtr' & rv & m' & H1 & H2 & H3 & _).
  - split; [vm_compute; intuition discriminate|]. apply in_gaps_cons. left. by vm_compute.
  - done.
  - done.
  - by exists idtr', rv, m'.
Defined.

(** Every ID below [ngtcp2_idtr_first_gap] has been opened. The ID it returns
    has not, unless the first gap is empty. *)
Theorem idtr_first_gap_bound idtr :
  wf_idtr idtr ->
  (forall q, 0 <= q < ngtcp2_idtr_first_gap idtr -> opened idtr q) /\
  (opened idtr (ngtcp2_idtr_first_gap idtr) ->
    exists g gs, idtr_gap idtr = g :: gs /\ r_begin g = r_end g).
Proof.
  intros Hwf. split; [intros q; by apply first_gap_opened|].
  destruct Hwf as [Hw Hlast]. unfold opened, ngtcp2_idtr_first_gap.
  destruct (idtr_gap idtr) as [|g gs]; [by apply Exists_nil in Hlast|]. intros Hn.
  exists g, gs. split; [done|]. destruct Hw as (_ & Hg & _). rewrite in_gaps_cons in Hn.
  unfold in_range in Hn. destruct (decide (r_begin g = r_end g)); [done|]. destruct Hn. left. lia.
Qed.

(** The IDs 5, 4, 0, 1, 2, 3 opened in this order by the peer of a server. *)
Definition opens (m : mem) (idtr : ngtcp2_idtr) (ids : list Z) : res (ngtcp2_idtr * mem) :=
  foldl (fun r id => '(idtr, m) ← r; '(idtr, _, m) ← ngtcp2_idtr_open m idtr (4 * id + 1); Ok (idtr, m))
    (Ok (idtr, m)) ids.

(** [ngtcp2_idtr_first_gap] can return an ID that has been opened: claiming
    the last ID of a gap leaves an empty gap behind, which becomes the first one
    once the IDs below are open. Here all of 0 to 5 are open, and 5 is returned
    instead of 6. *)
Theorem idtr_first_gap_stale :
  exists idtr m, opens [] (mk_idtr [mk_range 0 UINT64_MAX] true) [5; 4; 0; 1; 2; 3] = Ok (idtr, m) /\
    ngtcp2_idtr_first_gap idtr = 5 /\ opened idtr 5.
Proof.
  do 2 eexists. split; [vm_compute; reflexivity|]. split; [reflexivity|].
  unfold opened. apply (bool_decide_unpack _). by vm_compute.
Qed.

Lemma idtr_first_gap_bound_witness :
  forall q, 0 <= q < 2 -> opened (mk_idtr [mk_range 2 UINT64_MAX] true) q.
Proof.
  apply (idtr_first_gap_bound (mk_idtr [mk_range 2 UINT64_MAX] true)).
  split; [vm_compute; intuition discriminate|]. apply in_gaps_cons. left. by vm_compute.
Defined.
