(* ===== verification/Ringbuf.v ===== *)
(** The ring buffer: [ngtcp2_ringbuf.c]. The buffer is a list of [nmemb] cells;
    an element's address is its cell number, and a cell that has not been
    written since the allocation holds [None]. *)

From S2P Require Import Prelude Frame Mem.

Record ngtcp2_ringbuf (A : Type) := mk_ringbuf {
  rb_buf : list (option A);
  rb_nmemb : Z;
  rb_size : Z;
  rb_first : Z;
  rb_len : Z
}.
Arguments mk_ringbuf {A}.
Arguments rb_buf {A}.
Arguments rb_nmemb {A}.
Arguments rb_size {A}.
Arguments rb_first {A}.
Arguments rb_len {A}.

(** [__builtin_popcount] *)
Fixpoint pos_popcount (p : positive) : Z :=
  match p with
  | xH => 1
  | xO p => pos_popcount p
  | xI p => 1 + pos_popcount p
  end.
Definition popcount (x : Z) : Z := match x with Zpos p => pos_popcount p | _ => 0 end.

Section Ringbuf.
Context {A : Type}.

(** [Ub] when the [assert] fails; [size] is the size of an element. *)
Definition ngtcp2_ringbuf_init (m : mem) (nmemb size : Z) : res (ngtcp2_ringbuf A) * mem :=
  if popcount (u32 nmemb) =? 1 then
    let '(ok, m) := mem_alloc m in
    if ok then
      (Ok (mk_ringbuf (replicate (Z.to_nat nmemb) None) nmemb size (u64 (size - 1)) 0), m)
    else (Err NGTCP2_ERR_NOMEM, m)
  else (Ub, m).

(** The ring buffer, and the cell of the new first element. *)
Definition ngtcp2_ringbuf_push_front (rb : ngtcp2_ringbuf A) : ngtcp2_ringbuf A * Z :=
  let first := u64 (rb_first rb - 1) .& u64 (rb_nmemb rb - 1) in
  let len := Z.min (rb_nmemb rb) (u64 (rb_len rb + 1)) in
  (mk_ringbuf (rb_buf rb) (rb_nmemb rb) (rb_size rb) first len, first).

Definition ngtcp2_ringbuf_resize (rb : ngtcp2_ringbuf A) (len : Z) : res (ngtcp2_ringbuf A) :=
  _ ← c_assert (len <=? rb_nmemb rb);
  Ok (mk_ringbuf (rb_buf rb) (rb_nmemb rb) (rb_size rb) (rb_first rb) len).

(** The cell of the element at [offset]. *)
Definition ngtcp2_ringbuf_get (rb : ngtcp2_ringbuf A) (offset : Z) : res Z :=
  _ ← c_assert (offset <? rb_len rb);
  Ok (u64 (rb_first rb + offset) .& u64 (rb_nmemb rb - 1)).

Definition ngtcp2_ringbuf_len (rb : ngtcp2_ringbuf A) : Z := rb_len rb.

(** Accesses through the returned pointers; reading a cell that is not
    initialised, or outside of the buffer, is undefined. *)
Definition rb_load (rb : ngtcp2_ringbuf A) (cell : Z) : res A :=
  match rb_buf rb !! Z.to_nat cell with
  | Some (Some a) => Ok a
  | _ => Ub
  end.

Definition rb_store (rb : ngtcp2_ringbuf A) (cell : Z) (a : A) : ngtcp2_ringbuf A :=
  mk_ringbuf (<[Z.to_nat cell := Some a]> (rb_buf rb)) (rb_nmemb rb) (rb_size rb)
    (rb_first rb) (rb_len rb).

(** ** Abstraction: the elements from the first to the last *)

(** The cell of the element at [i]. *)
Definition rb_cell (rb : ngtcp2_ringbuf A) (i : Z) : Z := (rb_first rb + i) mod rb_nmemb rb.

Definition rb_repr (rb : ngtcp2_ringbuf A) (l : list A) : Prop :=
  (exists k, 0 <= k < 32 /\ rb_nmemb rb = 2 ^ k) /\
  zlen (rb_buf rb) = rb_nmemb rb /\ is_uint 63 (rb_first rb) /\
  rb_len rb = zlen l /\ zlen l <= rb_nmemb rb /\
  forall i a, l !! i = Some a -> rb_buf rb !! Z.to_nat (rb_cell rb (Z.of_nat i)) = Some (Some a).
End Ringbuf.

Lemma pos_popcount_pos p : 1 <= pos_popcount p.
Proof. induction p; simpl; lia. Qed.

(** What the assertion of [ngtcp2_ringbuf_init] says. *)
Lemma popcount_pow2 x : popcount x = 1 -> exists k, 0 <= k /\ x = 2 ^ k.
Proof.
  destruct x as [|p|]; simpl; [done| |done]. induction p as [p IH|p IH|]; simpl; intros H.
  - pose proof (pos_popcount_pos p). lia.
  - destruct (IH H) as (k & Hk & E). exists (k + 1). split; [lia|].
    rewrite Z.pow_add_r by lia. rewrite <- E. lia.
  - by exists 0.
Qed.

Section Facts.
Context {A : Type}.
Implicit Types (rb : ngtcp2_ringbuf A) (l : list A).

(** The masks of the code are reductions modulo [nmemb]. *)
Lemma land_mask x k : 0 <= k < 32 -> x .& u64 (2 ^ k - 1) = x mod 2 ^ k.
Proof.
  intros Hk. assert (0 < 2 ^ k < 2 ^ 32) by
    (split; [apply Z.pow_pos_nonneg | apply Z.pow_lt_mono_r]; lia).
  rewrite u64_small by clia. replace (2 ^ k - 1) with (Z.ones k).
  2:{ rewrite Z.ones_equiv. lia. }
  apply Z.land_ones. lia.
Qed.

Lemma ringbuf_init_repr m nmemb size rb :
  is_uint 32 nmemb -> 1 <= size < 2 ^ 63 ->
  (ngtcp2_ringbuf_init (A := A) m nmemb size).1 = Ok rb -> rb_repr rb [].
Proof.
  intros Hn Hs. unfold ngtcp2_ringbuf_init. rewrite u32_small by done.
  destruct (Z.eqb_spec (popcount nmemb) 1) as [Hp|]; [|done].
  destruct (mem_alloc m) as [[] m']; simpl; [|done]. intros [= <-].
  destruct (popcount_pow2 _ Hp) as (k & Hk & ->). unfold rb_repr; simpl.
  split_and!; try done.
  - exists k. split; [|done]. split; [done|]. apply (Z.pow_lt_mono_r_iff 2); [lia | lia |].
    apply Hn.
  - rewrite zlen_replicate. clia.
  - rewrite u64_small by clia. clia.
  - rewrite zlen_nil. clia.
Qed.

Lemma cell_mask rb x :
  (exists k, 0 <= k < 32 /\ rb_nmemb rb = 2 ^ k) ->
  x .& u64 (rb_nmemb rb - 1) = x mod rb_nmemb rb /\ 0 <= x mod rb_nmemb rb < rb_nmemb rb /\
  rb_nmemb rb < 2 ^ 32 /\ (rb_nmemb rb | 2 ^ 64).
Proof.
  intros (k & Hk & ->). rewrite land_mask by done. split; [done|]. split_and!.
  - apply Z.mod_pos_bound, Z.pow_pos_nonneg; lia.
  - apply Z.mod_pos_bound, Z.pow_pos_nonneg; lia.
  - apply Z.pow_lt_mono_r; lia.
  - exists (2 ^ (64 - k)). rewrite <- Z.pow_add_r by lia. f_equal. lia.
Qed.

Lemma ringbuf_get_repr rb l i :
  rb_repr rb l -> 0 <= i ->
  ngtcp2_ringbuf_get rb i = if i <? zlen l then Ok (rb_cell rb i) else Ub.
Proof.
  intros (Hk & Hb & Hf & Hl & Hle & _) Hi. unfold ngtcp2_ringbuf_get. rewrite Hl.
  destruct (cell_mask rb (rb_first rb + i) Hk) as (Hm & _ & Hlt & _).
  destruct (Z.ltb_spec i (zlen l)); [|done]. cbn [c_assert mbind res_bind].
  rewrite u64_small by clia. by rewrite Hm.
Qed.

Lemma ringbuf_load_repr rb l i a :
  rb_repr rb l -> l !! i = Some a -> rb_load rb (rb_cell rb (Z.of_nat i)) = Ok a.
Proof. intros H Ha. unfold rb_load. destruct H as (_ & _ & _ & _ & _ & H). by rewrite (H _ _ Ha). Qed.

(** Distinct elements are in distinct cells. *)
Lemma cell_inj n f i j :
  0 < n -> 0 <= i < n -> 0 <= j < n -> (f + i) mod n = (f + j) mod n -> i = j.
Proof.
  intros Hn Hi Hj H.
  pose proof (Z.div_mod (f + i) n ltac:(lia)). pose proof (Z.div_mod (f + j) n ltac:(lia)).
  assert ((f + i) / n = (f + j) / n \/ (f + i) / n < (f + j) / n \/ (f + j) / n < (f + i) / n)
    as [?|[?|?]] by lia; nia.
Qed.

(** Pushing and writing the new first element drops the last one of a full buffer. *)
Lemma ringbuf_push_repr rb l a :
  rb_repr rb l ->
  let '(rb', cell) := ngtcp2_ringbuf_push_front rb in
  rb_repr (rb_store rb' cell a) (take (Z.to_nat (rb_nmemb rb)) (a :: l)).
Proof.
  intros (Hk & Hb & Hf & Hl & Hle & Hbuf). unfold ngtcp2_ringbuf_push_front, rb_repr, rb_store, rb_cell.
  cbn [rb_buf rb_nmemb rb_size rb_first rb_len].
  destruct (cell_mask rb (u64 (rb_first rb - 1)) Hk) as (Hm & Hr & Hlt & Hdiv). rewrite Hm.
  set (n := rb_nmemb rb) in *. set (f' := u64 (rb_first rb - 1) mod n) in *.
  assert (Hf' : (f' + 1) mod n = rb_first rb mod n).
  { unfold f', u64. rewrite Z.mod_mod_divide by done.
    rewrite Z.add_mod_idemp_l by lia. f_equal. lia. }
  split_and!; try done.
  - by rewrite <- Hb; unfold zlen; rewrite length_insert.
  - clia.
  - rewrite zlen_take, zlen_cons, u64_small by (zfacts; clia). lia.
  - rewrite zlen_take. lia.
  - intros [|i] x Hx.
    + rewrite Z.add_0_r, (Z.mod_small f') by lia. rewrite list_lookup_insert_eq; [|unfold zlen in Hb; lia].
      rewrite lookup_take_lt in Hx by lia. by simplify_eq/=.
    + apply lookup_take_Some in Hx as [Hx Hi]. simpl in Hx.
      assert (i < length l)%nat by (by eapply lookup_lt_Some). unfold zlen in Hle.
      assert (E : (f' + Z.of_nat (S i)) mod n = rb_cell rb (Z.of_nat i)).
      { unfold rb_cell. fold n. replace (f' + Z.of_nat (S i)) with (f' + 1 + Z.of_nat i) by lia.
        rewrite <- Z.add_mod_idemp_l, Hf', Z.add_mod_idemp_l by lia. done. }
      rewrite list_lookup_insert_ne; [rewrite E; by apply Hbuf|].
      intros Heq. apply Z2Nat.inj in Heq; [|lia| apply Z.mod_pos_bound; lia].
      assert (Hc : (f' + 0) mod n = (f' + Z.of_nat (S i)) mod n)
        by (rewrite Z.add_0_r, Z.mod_small by lia; done).
      apply cell_inj in Hc; lia.
Qed.

Lemma ringbuf_resize_repr rb l n :
  rb_repr rb l -> 0 <= n <= zlen l ->
  exists rb', ngtcp2_ringbuf_resize rb n = Ok rb' /\ rb_repr rb' (take (Z.to_nat n) l).
Proof.
  intros (Hk & Hb & Hf & Hl & Hle & Hbuf) Hn. unfold ngtcp2_ringbuf_resize.
  rewrite (proj2 (Z.leb_le _ _)) by lia. eexists. split; [done|].
  unfold rb_repr, rb_cell; simpl. split_and!; try done; rewrite ?zlen_take; try lia.
  intros i a [Ha _]%lookup_take_Some. by apply Hbuf.
Qed.
End Facts.

(** ** Properties *)

(** The ring buffer is a bounded list: pushing an element puts it at the
    front, and the last element leaves a full buffer; afterwards every element
    is found at its position, within the buffer and initialised, and any other
    position fails the assertion. *)
Theorem ringbuf_push_front_list {A} (rb : ngtcp2_ringbuf A) l a :
  rb_repr rb l ->
  let '(rb', cell) := ngtcp2_ringbuf_push_front rb in
  let rb'' := rb_store rb' cell a in
  let l' := take (Z.to_nat (rb_nmemb rb)) (a :: l) in
  rb_repr rb'' l' /\ ngtcp2_ringbuf_len rb'' = Z.min (rb_nmemb rb) (zlen l + 1) /\
  forall i, (c ← ngtcp2_ringbuf_get rb'' (Z.of_nat i); rb_load rb'' c) =
    match l' !! i with Some x => Ok x | None => Ub end.
Proof.
  intros Hr. pose proof (ringbuf_push_repr rb l a Hr) as Hp.
  destruct (ngtcp2_ringbuf_push_front rb) as [rb' cell]. cbv zeta. split; [done|].
  pose proof Hp as (_ & _ & _ & Hlen & _). split.
  - unfold ngtcp2_ringbuf_len. rewrite Hlen, zlen_take, zlen_cons.
    destruct Hr as ((k & Hk & Hn) & _). assert (0 < 2 ^ k) by (apply Z.pow_pos_nonneg; lia). lia.
  - intros i. rewrite (ringbuf_get_repr _ _ (Z.of_nat i) Hp) by lia. destruct (take _ _ !! i) eqn:Hi.
    + rewrite (proj2 (Z.ltb_lt _ _)); [|unfold zlen; apply lookup_lt_Some in Hi; lia].
      cbn [mbind res_bind]. by eapply ringbuf_load_repr.
    + rewrite (proj2 (Z.ltb_ge _ _)); [done|]. apply lookup_ge_None in Hi. unfold zlen. lia.
Qed.

(** A full buffer of two elements. *)
Lemma ringbuf_push_front_list_witness :
  let '(rb', cell) := ngtcp2_ringbuf_push_front (mk_ringbuf [Some 8; Some 9] 2 8 0 2) in
  let rb'' := rb_store rb' cell 7 in
  forall i, (c ← ngtcp2_ringbuf_get rb'' (Z.of_nat i); rb_load rb'' c) =
    match [7; 8] !! i with Some x => Ok x | None => Ub end.
Proof.
  refine (proj2 (proj2 (ringbuf_push_front_list (mk_ringbuf [Some 8; Some 9] 2 8 0 2) [8; 9] 7 _))).
  split_and!; try done; [by exists 1|]. intros [|[|i]] x; simpl; intros [= <-]; done.
Defined.
