(* ===== verification/AckScan.v ===== *)
(** The walk over a list of packets for the ranges of an ACK frame, which
    [acktr_on_ack] ([ngtcp2_acktr.c]) and [ngtcp2_rtb_recv_ack]
    ([ngtcp2_rtb.c]) share. Both lists are kept in decreasing order of packet
    numbers, and both functions pass over the list once, moving from one range
    of the frame to the next. What they do to an acknowledged packet is a
    parameter, the visitor. *)

From Stdlib Require Import Sorted.
From S2P Require Import Prelude Frame PktHd.

(** What the loop's body does after it has handled an acknowledged packet:
    [pent = &( *pent)->next], removal of the packet, or [return rv]. *)
Inductive verdict := v_keep | v_remove | v_stop (rv : Z).

Section Scan.
Context {A S : Type} (pn : A -> Z) (visit : S -> A -> S * verdict).

(** The remaining list, the state, and the return value. *)
Definition outcome : Type := list A * S * Z.
Definition keep (e : A) (r : outcome) : outcome := let '(l, s, rv) := r in (e :: l, s, rv).

(** The packet [e] under [pent] is acknowledged; [k] goes on with what follows. *)
Definition scan_visit (k : S -> list A -> outcome) (s : S) (e : A) (l : list A) : outcome :=
  match visit s e with
  | (s, v_remove) => k s l
  | (s, v_keep) => keep e (k s l)
  | (s, v_stop rv) => (e :: l, s, rv)
  end.

(** [for (pent = ...; *pent; ...) if (largest_ack >= pkt_num) break;] and the
    return when the end of the list is reached. *)
Fixpoint scan_skip (largest_ack : Z) (k : S -> list A -> outcome) (s : S) (l : list A) : outcome :=
  match l with
  | [] => ([], s, 0)
  | e :: l' => if pn e <=? largest_ack then k s l else keep e (scan_skip largest_ack k s l')
  end.

(** The loop for the first range of the frame. *)
Fixpoint scan_first (min_ack largest_ack : Z) (k : S -> list A -> outcome) (s : S) (l : list A) :
    outcome :=
  match l with
  | [] => k s []
  | e :: l' =>
      if (min_ack <=? pn e) && (pn e <=? largest_ack) then
        scan_visit (scan_first min_ack largest_ack k) s e l'
      else k s l
  end.

(** The inner loop for one of the other ranges. *)
Fixpoint scan_blk (min_ack largest_ack : Z) (k : S -> list A -> outcome) (s : S) (l : list A) :
    outcome :=
  match l with
  | [] => k s []
  | e :: l' =>
      if largest_ack <? pn e then keep e (scan_blk min_ack largest_ack k s l')
      else if pn e <? min_ack then k s l
      else scan_visit (scan_blk min_ack largest_ack k) s e l'
  end.

(** [for (i = 0; i < fr->num_blks && *pent;)] *)
Fixpoint scan_blks (min_ack : Z) (blks : list ngtcp2_ack_blk) (s : S) (l : list A) : outcome :=
  match blks with
  | [] => (l, s, 0)
  | b :: blks =>
      match l with
      | [] => ([], s, 0)
      | _ :: _ =>
          let largest_ack := u64 (min_ack - blk_gap b - 2) in
          let min_ack := u64 (largest_ack - blk_blklen b) in
          scan_blk min_ack largest_ack (scan_blks min_ack blks) s l
      end
  end.

Definition ack_scan (fr : ngtcp2_ack) (s : S) (l : list A) : outcome :=
  let largest_ack := ack_largest_ack fr in
  scan_skip largest_ack (fun s l =>
    let min_ack := u64 (largest_ack - ack_first_ack_blklen fr) in
    scan_first min_ack largest_ack (scan_blks min_ack (ack_blks fr)) s l) s l.

(** ** Reference: visit every acknowledged packet, in the order of the list *)

Fixpoint visit_acked (acked : Z -> bool) (s : S) (l : list A) : outcome :=
  match l with
  | [] => ([], s, 0)
  | e :: l' =>
      if acked (pn e) then scan_visit (visit_acked acked) s e l'
      else keep e (visit_acked acked s l')
  end.

(** Decreasing order of packet numbers. *)
Definition decreasing (l : list A) : Prop := StronglySorted (fun a b => pn b < pn a) l.
End Scan.
Arguments outcome : clear implicits.

(** [pkt_num] is in one of the ranges of the frame. *)
Definition in_ranges (rs : list (Z * Z)) (x : Z) : bool :=
  existsb (fun r => (fst r <=? x) && (x <=? snd r)) rs.

Definition acked_by (fr : ngtcp2_ack) : Z -> bool := in_ranges (ack_ranges fr).

(** The frame passed [ngtcp2_pkt_validate_ack]. *)
Definition valid_ack (fr : ngtcp2_ack) : Prop :=
  wf_ack fr /\ ngtcp2_pkt_validate_ack fr = Ok tt.

Lemma valid_ack_ranges fr : valid_ack fr -> valid_ranges (ack_ranges fr).
Proof. intros [Hwf Hv]. pose proof (validate_ack_spec fr Hwf) as H. by rewrite Hv in H. Qed.

Lemma in_blk_ranges_above m blks x :
  Forall wf_blk blks -> m - 2 < x -> in_ranges (blk_ranges m blks) x = false.
Proof.
  intros H. revert m. induction H as [|b blks [Hg Hb] _ IH]; intros m Hx; [done|].
  simpl. rewrite IH by clia. rewrite (proj2 (Z.leb_gt x _)) by clia. by rewrite andb_false_r.
Qed.

Section ScanFacts.
Context {A S : Type} (pn : A -> Z) (visit : S -> A -> S * verdict).
Abbreviation decreasing := (decreasing pn).
Abbreviation visit_acked := (visit_acked pn visit).

Lemma decreasing_inv e l : decreasing (e :: l) -> decreasing l /\ Forall (fun a => pn a < pn e) l.
Proof. by intros ?%StronglySorted_inv. Qed.

Lemma scan_visit_ext k k' s e l :
  (forall s, k s l = k' s l) -> scan_visit visit k s e l = scan_visit visit k' s e l.
Proof. intros H. unfold scan_visit. destruct (visit s e) as [? []]; by rewrite ?H. Qed.

(** Nothing is visited beyond the ranges. *)
Lemma visit_acked_none acked s l :
  Forall (fun a => acked (pn a) = false) l -> visit_acked acked s l = (l, s, 0).
Proof. induction 1 as [|e l He _ IH]; simpl; [done|]. by rewrite He, IH. Qed.

Lemma visit_acked_ext acked acked' s l :
  Forall (fun a => acked (pn a) = acked' (pn a)) l ->
  visit_acked acked s l = visit_acked acked' s l.
Proof.
  intros H. revert s. induction H as [|e l He _ IH]; intros s; simpl; [done|].
  rewrite He, IH. destruct (acked' (pn e)); [|done]. by apply scan_visit_ext.
Qed.

Lemma scan_skip_equiv largest k acked s l :
  decreasing l ->
  (forall x, largest < x -> acked x = false) ->
  (forall l s, decreasing l -> Forall (fun a => pn a <= largest) l -> k s l = visit_acked acked s l) ->
  scan_skip pn largest k s l = visit_acked acked s l.
Proof.
  intros Hl Hacked Hk. induction l as [|e l IH]; simpl; [done|].
  pose proof Hl as [Hl' Hlt]%decreasing_inv.
  destruct (Z.leb_spec (pn e) largest) as [Hle|Hgt].
  - rewrite Hk; [done | done |]. constructor; [done|].
    eapply list.Forall_impl; [eassumption|]. simpl. lia.
  - rewrite Hacked by done. f_equal. auto.
Qed.

(** Both loops over one range: they visit the packets of the range, [k] those below. *)
Lemma scan_blk_equiv lo hi k rest s l :
  decreasing l -> lo <= hi ->
  (forall x, lo <= x -> rest x = false) ->
  (forall l s, decreasing l -> Forall (fun a => pn a < lo) l -> k s l = visit_acked rest s l) ->
  scan_blk pn visit lo hi k s l =
    visit_acked (fun x => (lo <=? x) && (x <=? hi) || rest x) s l.
Proof.
  intros Hl Hlohi Hrest Hk. revert s. induction l as [|e l IH]; intros s; simpl; [by rewrite Hk|].
  pose proof Hl as [Hl' Hlt]%decreasing_inv. specialize (IH Hl').
  destruct (Z.ltb_spec hi (pn e)) as [Hgt|Hle].
  { rewrite (proj2 (Z.leb_gt (pn e) hi)), andb_false_r, Hrest by lia. simpl. by rewrite IH. }
  rewrite (proj2 (Z.leb_le (pn e) hi)), andb_true_r by lia.
  destruct (Z.ltb_spec (pn e) lo) as [Hlo|Hlo].
  - assert (Forall (fun a => pn a < lo) (e :: l)) as Hall.
    { constructor; [done|]. eapply list.Forall_impl; [eassumption|]. simpl. lia. }
    rewrite Hk by done.
    rewrite (visit_acked_ext rest (fun x => (lo <=? x) && (x <=? hi) || rest x)).
    { simpl. by rewrite (proj2 (Z.leb_le (pn e) hi)), andb_true_r by lia. }
    eapply list.Forall_impl; [eassumption|]. simpl. intros a Ha.
    by rewrite (proj2 (Z.leb_gt lo _)) by lia.
  - rewrite (proj2 (Z.leb_le lo _)) by lia. simpl. by apply scan_visit_ext.
Qed.

Lemma scan_first_blk lo hi k s l :
  decreasing l -> Forall (fun a => pn a <= hi) l ->
  scan_first pn visit lo hi k s l = scan_blk pn visit lo hi k s l.
Proof.
  intros Hl Hle. revert s. induction Hle as [|e l He Hle IH]; intros s; simpl; [done|].
  apply decreasing_inv in Hl as [Hl _].
  rewrite (proj2 (Z.leb_le (pn e) hi)), andb_true_r, (proj2 (Z.ltb_ge hi (pn e))) by done.
  rewrite Z.leb_antisym. destruct (pn e <? lo); simpl; [done|].
  apply scan_visit_ext. auto.
Qed.

Lemma scan_blks_equiv m blks s l :
  decreasing l -> is_uint 62 m -> Forall wf_blk blks -> valid_ranges (blk_ranges m blks) ->
  scan_blks pn visit m blks s l = visit_acked (in_ranges (blk_ranges m blks)) s l.
Proof.
  intros Hl Hm Hb. revert m Hm s l Hl. induction Hb as [|b blks [Hg Hbl] Hb IH];
    intros m Hm s l Hl Hv.
  { symmetry. apply visit_acked_none. by apply Forall_true. }
  apply list.Forall_cons in Hv as [Hlo Hv]. simpl in Hlo. simpl scan_blks.
  destruct l as [|e l]; [done|]. rewrite (u64_small (m - _ - 2)), u64_small by clia.
  simpl blk_ranges. rewrite (scan_blk_equiv _ _ _ (in_ranges (blk_ranges (m - blk_gap b - 2 - blk_blklen b) blks))).
  - done.
  - done.
  - clia.
  - intros x Hx. apply in_blk_ranges_above; [done | lia].
  - intros l' s' Hl' _. apply IH; [clia | done | done].
Qed.

(** The single pass over the list visits the acknowledged packets, and no other. *)
Lemma ack_scan_equiv fr s l :
  valid_ack fr -> decreasing l ->
  ack_scan pn visit fr s l = visit_acked (acked_by fr) s l.
Proof.
  intros Hv Hl. pose proof (valid_ack_ranges fr Hv) as Hr.
  destruct Hv as [(Hla & Hf & Hb) _]. unfold ack_scan, acked_by, ack_ranges in *.
  apply list.Forall_cons in Hr as [Hlo Hr]; simpl in Hlo.
  set (lo := ack_largest_ack fr - ack_first_ack_blklen fr) in *.
  apply scan_skip_equiv; [done| |].
  - intros x Hx. simpl. rewrite (proj2 (Z.leb_gt x _)), andb_false_r by done. simpl.
    apply in_blk_ranges_above; [done | clia].
  - intros l' s' Hl' Hle. rewrite (u64_small lo) by clia.
    rewrite scan_first_blk by done.
    apply (scan_blk_equiv _ _ _ (in_ranges (blk_ranges lo (ack_blks fr)))); [done| | |].
    + clia.
    + intros x Hx. apply in_blk_ranges_above; [done | lia].
    + intros l2 s2 Hl2 _. apply scan_blks_equiv; [done | clia | done | done].
Qed.
(** ** Lists in any order

    What holds before the walk, and is kept by each visit of an acknowledged
    packet, holds after it; the packets that are not acknowledged stay. *)
Section ScanInv.
Context (P : S -> list A -> Prop) (acked : Z -> bool).
Context (Hvisit : forall s pre e l, acked (pn e) = true -> P s (pre ++ e :: l) ->
  match visit s e with
  | (s, v_remove) => P s (pre ++ l)
  | (s, _) => P s (pre ++ e :: l)
  end).

Definition keeps_at (k : S -> list A -> outcome A S) (l : list A) : Prop :=
  forall s pre, P s (pre ++ l) -> let '(l', s', _) := k s l in P s' (pre ++ l').
Definition keeps (k : S -> list A -> outcome A S) : Prop := forall l, keeps_at k l.

Lemma keeps_keep k e s pre l :
  keeps_at k l -> P s (pre ++ e :: l) -> let '(l', s', _) := keep e (k s l) in P s' (pre ++ l').
Proof.
  intros Hk HP. specialize (Hk s (pre ++ [e])). rewrite <- app_assoc in Hk. specialize (Hk HP).
  unfold keep. destruct (k s l) as [[l' s'] rv]. by rewrite <- app_assoc in Hk.
Qed.

Lemma keeps_visit k e s pre l :
  keeps_at k l -> acked (pn e) = true -> P s (pre ++ e :: l) ->
  let '(l', s', _) := scan_visit visit k s e l in P s' (pre ++ l').
Proof.
  intros Hk Ha HP. unfold scan_visit. pose proof (Hvisit s pre e l Ha HP) as Hv.
  destruct (visit s e) as [s1 []]; [by apply keeps_keep | by apply Hk | done].
Qed.

Lemma keeps_skip largest k : keeps k -> keeps (scan_skip pn largest k).
Proof.
  intros Hk l. induction l as [|e l IH]; intros s pre HP; cbn [scan_skip]; [done|].
  destruct (pn e <=? largest); [by apply Hk|].
  by apply (keeps_keep (scan_skip pn largest k)).
Qed.

Lemma keeps_first lo hi k :
  (forall x, lo <= x <= hi -> acked x = true) -> keeps k -> keeps (scan_first pn visit lo hi k).
Proof.
  intros Hr Hk l. induction l as [|e l IH]; intros s pre HP; cbn [scan_first]; [by apply Hk|].
  destruct (Z.leb_spec lo (pn e)), (Z.leb_spec (pn e) hi); simpl; try by apply Hk.
  apply (keeps_visit (scan_first pn visit lo hi k)); [done | apply Hr; lia | done].
Qed.

Lemma keeps_blk lo hi k :
  (forall x, lo <= x <= hi -> acked x = true) -> keeps k -> keeps (scan_blk pn visit lo hi k).
Proof.
  intros Hr Hk l. induction l as [|e l IH]; intros s pre HP; cbn [scan_blk]; [by apply Hk|].
  destruct (Z.ltb_spec hi (pn e)); [by apply (keeps_keep (scan_blk pn visit lo hi k))|].
  destruct (Z.ltb_spec (pn e) lo); [by apply Hk|].
  apply (keeps_visit (scan_blk pn visit lo hi k)); [done | apply Hr; lia | done].
Qed.

Lemma keeps_blks m blks :
  is_uint 62 m -> Forall wf_blk blks -> valid_ranges (blk_ranges m blks) ->
  (forall x, in_ranges (blk_ranges m blks) x = true -> acked x = true) ->
  keeps (scan_blks pn visit m blks).
Proof.
  intros Hm Hb. revert m Hm. induction Hb as [|b blks [Hg Hbl] Hb IH]; intros m Hm Hv Hacked; [by intros ????|].
  apply list.Forall_cons in Hv as [Hlo Hv]. simpl in Hlo. intros l s pre. cbn [scan_blks].
  destruct l as [|e l]; [done|]. rewrite (u64_small (m - _ - 2)), u64_small by clia.
  intros HP. apply keeps_blk; [| |done].
  - intros x Hx. apply Hacked. simpl. by rewrite !(proj2 (Z.leb_le _ _)) by lia.
  - apply IH; [clia | done |]. intros x Hx. apply Hacked. simpl. by rewrite Hx, orb_true_r.
Qed.
End ScanInv.

Lemma ack_scan_inv (P : S -> list A -> Prop) fr s l :
  valid_ack fr ->
  (forall s pre e l, acked_by fr (pn e) = true -> P s (pre ++ e :: l) ->
    match visit s e with
    | (s, v_remove) => P s (pre ++ l)
    | (s, _) => P s (pre ++ e :: l)
    end) ->
  P s l -> let '(l', s', _) := ack_scan pn visit fr s l in P s' l'.
Proof.
  intros Hv Hvisit. pose proof (valid_ack_ranges fr Hv) as Hr.
  destruct Hv as [(Hla & Hf & Hb) _].
  apply list.Forall_cons in Hr as [Hlo Hr]; simpl in Hlo.
  refine (keeps_skip P _ _ _ l s []).
  intros l1 s1 pre. rewrite (u64_small (_ - _)) by clia.
  refine (keeps_first P (acked_by fr) Hvisit _ _ _ _ _ l1 s1 pre).
  - intros x Hx. unfold acked_by, ack_ranges. simpl. by rewrite !(proj2 (Z.leb_le _ _)) by lia.
  - refine (keeps_blks P (acked_by fr) Hvisit _ _ _ Hb Hr _); [clia|].
    intros x Hx. unfold acked_by, ack_ranges. cbn [in_ranges existsb]. unfold in_ranges in Hx. by rewrite Hx, orb_true_r.
Qed.
End ScanFacts.

Lemma decreasing_take {A} (pn : A -> Z) n l : decreasing pn l -> decreasing pn (take n l).
Proof.
  intros H. revert n. induction H as [|x l Hl IH Hx]; intros [|n]; simpl; try constructor; [apply IH|].
  by apply Forall_take.
Qed.

Lemma decreasing_filter {A} (pn : A -> Z) P `{!forall x, Decision (P x)} l :
  decreasing pn l -> decreasing pn (filter P l).
Proof.
  induction 1 as [|x l Hl IH Hx]; [constructor|]. rewrite filter_cons.
  destruct (decide (P x)); [|done]. constructor; [done|]. 
  rewrite list.Forall_forall in *. intros y Hy. apply Hx. by apply list_elem_of_filter in Hy as [_ ?].
Qed.

(** ** What the loops do to the state *)

Section State.
Context {A S : Type} (pn : A -> Z) (visit : S -> A -> S * verdict) (P : S -> Prop).
Hypothesis Hvisit : forall s e, P s -> P (visit s e).1.
Implicit Types (k : S -> list A -> outcome A S) (l : list A).

(** [k] ends in a state that satisfies [P]. *)
Definition ends_in k : Prop := forall s l, P s -> P (k s l).1.2.

Lemma keep_state e (r : outcome A S) : P r.1.2 -> P (keep e r).1.2.
Proof. by destruct r as [[l s] rv]. Qed.

Lemma scan_visit_state k s e l : ends_in k -> P s -> P (scan_visit visit k s e l).1.2.
Proof.
  intros Hk Hs. unfold scan_visit. pose proof (Hvisit s e Hs) as Hv.
  destruct (visit s e) as [s' []]; [by apply keep_state, Hk | by apply Hk | done].
Qed.

Lemma scan_skip_state largest_ack k : ends_in k -> ends_in (scan_skip pn largest_ack k).
Proof.
  intros Hk s l Hs. induction l as [|e l IH]; simpl; [done|]. destruct (_ <=? _); [by apply Hk | by apply keep_state].
Qed.

Lemma scan_first_state min_ack largest_ack k : ends_in k -> ends_in (scan_first pn visit min_ack largest_ack k).
Proof.
  intros Hk s l. revert s. induction l as [|e l IH]; intros s Hs; simpl; [by apply Hk|].
  destruct (_ && _); [|by apply Hk]. unfold scan_visit. pose proof (Hvisit s e Hs) as Hv.
  destruct (visit s e) as [s' []]; [by apply keep_state, IH | by apply IH | done].
Qed.

Lemma scan_blk_state min_ack largest_ack k : ends_in k -> ends_in (scan_blk pn visit min_ack largest_ack k).
Proof.
  intros Hk s l. revert s. induction l as [|e l IH]; intros s Hs; simpl; [by apply Hk|].
  destruct (_ <? _); [by apply keep_state, IH|]. destruct (_ <? _); [by apply Hk|].
  unfold scan_visit. pose proof (Hvisit s e Hs) as Hv.
  destruct (visit s e) as [s' []]; [by apply keep_state, IH | by apply IH | done].
Qed.

Lemma scan_blks_state min_ack blks : ends_in (scan_blks pn visit min_ack blks).
Proof.
  revert min_ack. induction blks as [|b blks IH]; intros min_ack s l Hs; simpl; [done|].
  destruct l as [|e l]; [done|]. by apply scan_blk_state.
Qed.

Lemma ack_scan_state fr : ends_in (ack_scan pn visit fr).
Proof.
  intros s l Hs. unfold ack_scan. apply scan_skip_state; [|done]. intros s' l' Hs'.
  by apply scan_first_state; [apply scan_blks_state|].
Qed.
End State.

(** ** Properties *)

(** C19. The single pass over a list of packets in decreasing order, which moves
    from one range of the ACK frame to the next, does what the reference does
    that tests every packet against all ranges: whatever is done to an
    acknowledged packet (removing it, keeping it or stopping with an error), the
    same packets are visited in the same order, with the same result. *)
Theorem ack_scan_reference {A S : Type} (pn : A -> Z) (visit : S -> A -> S * verdict)
    (fr : ngtcp2_ack) (s : S) (l : list A) :
  valid_ack fr -> decreasing pn l ->
  ack_scan pn visit fr s l = visit_acked pn visit (acked_by fr) s l.
Proof. apply ack_scan_equiv. Qed.

(** The packets 9 and 8, 5 and 4 are acknowledged; 7 and 6 are not. *)
Lemma ack_scan_reference_witness :
  ack_scan id (fun (s : Z) _ => (s + 1, v_remove)) (mk_ack 9 0 1 [mk_ack_blk 1 1]) 0 [11; 9; 8; 7; 5; 2] =
  ([11; 7; 2], 3, 0).
Proof.
  rewrite (ack_scan_reference id _ (mk_ack 9 0 1 [mk_ack_blk 1 1]) 0 [11; 9; 8; 7; 5; 2]).
  - reflexivity.
  - split; [|reflexivity]. unfold wf_ack. split_and!; try done. repeat constructor; done.
  - repeat constructor; done.
Defined.
