(* ===== verification/Acktr.v ===== *)
(** The tracker of received packets: [ngtcp2_acktr.c]. It keeps the packets
    that must be acknowledged, and the ACK frames that have been sent, so that
    the packets a frame acknowledged are forgotten when the peer acknowledges
    that frame.

    The doubly linked list from [ent] to [tail] is a list; [tail] is its last
    element, and [pprev] the link to an element. Deallocation has no
    counterpart in the model. *)

From Stdlib Require Import Sorted.
From S2P Require Import Prelude Frame PktHd Mem Ringbuf AckScan.

Definition NGTCP2_ACKTR_MAX_ENT : Z := 1024.

Record ngtcp2_acktr_entry := mk_acktr_entry {
  ae_pkt_num : Z;
  ae_tstamp : Z;
  ae_unprotected : bool
}.

Record ngtcp2_acktr_ack_entry := mk_acktr_ack_entry {
  aa_ack : ngtcp2_ack;
  aa_pkt_num : Z;
  aa_unprotected : bool
}.

(** [sizeof(ngtcp2_acktr_ack_entry)]: two 8-byte members and one byte, aligned. *)
Definition sizeof_acktr_ack_entry : Z := 24.

Record ngtcp2_acktr := mk_acktr {
  acks : ngtcp2_ringbuf ngtcp2_acktr_ack_entry;
  ent : list ngtcp2_acktr_entry;
  nack : Z;
  active_ack : bool
}.

Definition ngtcp2_acktr_entry_new (m : mem) (pkt_num tstamp : Z) (unprotected : bool) :
    res ngtcp2_acktr_entry * mem :=
  let '(ok, m) := mem_alloc m in
  if ok then (Ok (mk_acktr_entry pkt_num tstamp unprotected), m)
  else (Err NGTCP2_ERR_NOMEM, m).

Definition ngtcp2_acktr_init (m : mem) : res ngtcp2_acktr * mem :=
  let '(rb, m) := ngtcp2_ringbuf_init m 128 sizeof_acktr_ack_entry in
  (rb ← rb; Ok (mk_acktr rb [] 0 false), m).

(** The search for the position of [e]; [None] for a duplicate packet number. *)
Fixpoint acktr_insert (e : ngtcp2_acktr_entry) (l : list ngtcp2_acktr_entry) :
    option (list ngtcp2_acktr_entry) :=
  match l with
  | [] => Some [e]
  | x :: l' =>
      if ae_pkt_num e <? ae_pkt_num x then cons x <$> acktr_insert e l'
      else if ae_pkt_num x =? ae_pkt_num e then None
      else Some (e :: l)
  end.

Definition ngtcp2_acktr_add (acktr : ngtcp2_acktr) (e : ngtcp2_acktr_entry) (active : bool) :
    ngtcp2_acktr * Z :=
  match acktr_insert e (ent acktr) with
  | None => (acktr, NGTCP2_ERR_PROTO)
  | Some l =>
      let active_ack := if active then true else active_ack acktr in
      let nack := u64 (nack acktr + 1) in
      if NGTCP2_ACKTR_MAX_ENT <? nack then
        (* the tail is removed *)
        (mk_acktr (acks acktr) (take (length l - 1) l) (u64 (nack - 1)) active_ack, 0)
      else (mk_acktr (acks acktr) l nack active_ack, 0)
  end.

(** [ent] is the element at position [i]; each element from there on is freed
    and counted. *)
Definition ngtcp2_acktr_forget (acktr : ngtcp2_acktr) (i : nat) : ngtcp2_acktr :=
  mk_acktr (acks acktr) (take i (ent acktr))
    (fold_left (fun n _ => u64 (n - 1)) (drop i (ent acktr)) (nack acktr)) (active_ack acktr).

(** The packet with the largest number. *)
Definition ngtcp2_acktr_get (acktr : ngtcp2_acktr) : option ngtcp2_acktr_entry := head (ent acktr).

Definition ngtcp2_acktr_pop (acktr : ngtcp2_acktr) : res ngtcp2_acktr :=
  match ent acktr with
  | [] => Ub
  | _ :: l => Ok (mk_acktr (acks acktr) l (u64 (nack acktr - 1)) (active_ack acktr))
  end.

Definition ngtcp2_acktr_add_ack (acktr : ngtcp2_acktr) (pkt_num : Z) (fr : ngtcp2_ack)
    (unprotected : bool) : ngtcp2_acktr :=
  let '(rb, cell) := ngtcp2_ringbuf_push_front (acks acktr) in
  mk_acktr (rb_store rb cell (mk_acktr_ack_entry fr pkt_num unprotected))
    (ent acktr) (nack acktr) (active_ack acktr).

(** [acktr_remove]: the state of the walk is [nack]. *)
Definition acktr_remove (nack : Z) (_ : ngtcp2_acktr_entry) : Z * verdict :=
  (u64 (nack - 1), v_remove).

(** The element [j] of [acks]. *)
Definition ack_at (acktr : ngtcp2_acktr) (j : Z) : res ngtcp2_acktr_ack_entry :=
  cell ← ngtcp2_ringbuf_get (acks acktr) j;
  rb_load (acks acktr) cell.

Definition acktr_on_ack (acktr : ngtcp2_acktr) (ack_ent_offset : Z) : res ngtcp2_acktr :=
  e ← ack_at acktr ack_ent_offset;
  let fr := aa_ack e in
  let '(l, nack, _) := ack_scan ae_pkt_num acktr_remove fr (nack acktr) (ent acktr) in
  rb ← ngtcp2_ringbuf_resize (acks acktr) ack_ent_offset;
  Ok (mk_acktr rb l nack (active_ack acktr)).

(** Where a loop of [ngtcp2_acktr_recv_ack] stops: it has found the element
    [j], has reached the end, or goes on from the element [e] at [j]. *)
Inductive recv_step :=
| rs_found (j : Z)
| rs_end
| rs_next (j : Z) (e : ngtcp2_acktr_ack_entry).

Section Recv.
Context (acktr : ngtcp2_acktr) (unprotected : bool) (nacks : Z).

(** [++j; if (j == nacks) return; ent = ngtcp2_ringbuf_get(&acktr->acks, j);] *)
Definition recv_advance (j : Z) (k : Z -> ngtcp2_acktr_ack_entry -> res recv_step) :
    res recv_step :=
  if j + 1 =? nacks then Ok rs_end
  else e ← ack_at acktr (j + 1); k (j + 1) e.

(** The search for the first element that is not above the frame; the fuel
    bounds the number of elements. *)
Fixpoint recv_skip (fuel : nat) (largest_ack j : Z) : res recv_step :=
  match fuel with
  | O => Ub
  | S fuel =>
      if j <? nacks then
        e ← ack_at acktr j;
        if aa_pkt_num e <=? largest_ack then Ok (rs_next j e)
        else recv_skip fuel largest_ack (j + 1)
      else Ok rs_end
  end.

(** The first range. *)
Fixpoint recv_first (fuel : nat) (min_ack largest_ack j : Z) (e : ngtcp2_acktr_ack_entry) :
    res recv_step :=
  match fuel with
  | O => Ub
  | S fuel =>
      if (min_ack <=? aa_pkt_num e) && (aa_pkt_num e <=? largest_ack) then
        if unprotected && negb (aa_unprotected e) then
          recv_advance j (recv_first fuel min_ack largest_ack)
        else Ok (rs_found j)
      else Ok (rs_next j e)
  end.

(** One of the other ranges. *)
Fixpoint recv_blk (fuel : nat) (min_ack largest_ack j : Z) (e : ngtcp2_acktr_ack_entry) :
    res recv_step :=
  match fuel with
  | O => Ub
  | S fuel =>
      if largest_ack <? aa_pkt_num e then recv_advance j (recv_blk fuel min_ack largest_ack)
      else if aa_pkt_num e <? min_ack then Ok (rs_next j e)
      else if unprotected && negb (aa_unprotected e) then
        recv_advance j (recv_blk fuel min_ack largest_ack)
      else Ok (rs_found j)
  end.

Fixpoint recv_blks (fuel : nat) (min_ack : Z) (blks : list ngtcp2_ack_blk) (j : Z)
    (e : ngtcp2_acktr_ack_entry) : res recv_step :=
  match blks with
  | [] => Ok rs_end
  | b :: blks =>
      if j <? nacks then
        let largest_ack := u64 (min_ack - blk_gap b - 2) in
        let min_ack := u64 (largest_ack - blk_blklen b) in
        r ← recv_blk fuel min_ack largest_ack j e;
        match r with
        | rs_next j e => recv_blks fuel min_ack blks j e
        | r => Ok r
        end
      else Ok rs_end
  end.
End Recv.

Definition ngtcp2_acktr_recv_ack (acktr : ngtcp2_acktr) (fr : ngtcp2_ack) (unprotected : bool) :
    res ngtcp2_acktr :=
  let largest_ack := ack_largest_ack fr in
  let nacks := ngtcp2_ringbuf_len (acks acktr) in
  let fuel := S (Z.to_nat nacks) in
  r ← recv_skip acktr nacks fuel largest_ack 0;
  r ← match r with
      | rs_next j e =>
          let min_ack := u64 (largest_ack - ack_first_ack_blklen fr) in
          r ← recv_first acktr unprotected nacks fuel min_ack largest_ack j e;
          match r with
          | rs_next j e => recv_blks acktr unprotected nacks fuel min_ack (ack_blks fr) j e
          | r => Ok r
          end
      | r => Ok r
      end;
  match r with
  | rs_found j => acktr_on_ack acktr j
  | _ => Ok acktr
  end.

(** ** Invariant

    [al] is the list of the ACK frames that [acks] holds, the latest first. Both
    lists are in decreasing order of packet numbers, the frames are valid, and
    the number of packets is bounded. *)

Definition wf_acktr (acktr : ngtcp2_acktr) (al : list ngtcp2_acktr_ack_entry) : Prop :=
  rb_repr (acks acktr) al /\
  decreasing aa_pkt_num al /\ Forall (fun e => valid_ack (aa_ack e)) al /\
  decreasing ae_pkt_num (ent acktr) /\
  nack acktr = zlen (ent acktr) /\ nack acktr <= NGTCP2_ACKTR_MAX_ENT.

(** ** Insertion *)

Lemma acktr_insert_spec e l :
  decreasing ae_pkt_num l ->
  match acktr_insert e l with
  | None => exists x, x ∈ l /\ ae_pkt_num x = ae_pkt_num e
  | Some l' => decreasing ae_pkt_num l' /\ l' ≡ₚ e :: l /\
      (forall x, x ∈ l -> ae_pkt_num x <> ae_pkt_num e)
  end.
Proof.
  induction l as [|x l IH]; intros Hl; simpl.
  { split; [repeat constructor|]. split; [done|]. intros x ?%elem_of_nil. done. }
  pose proof Hl as [Hl' Hlt]%decreasing_inv. specialize (IH Hl').
  destruct (Z.ltb_spec (ae_pkt_num e) (ae_pkt_num x)) as [Hx|Hx].
  - destruct (acktr_insert e l) as [l'|]; simpl.
    + destruct IH as (H1 & H2 & H3). split_and!.
      * constructor; [done|]. rewrite H2. by constructor.
      * rewrite H2. apply Permutation_swap.
      * intros y [->|?]%elem_of_cons; [lia | auto].
    + destruct IH as (y & ? & ?). exists y. split; [by right | done].
  - destruct (Z.eqb_spec (ae_pkt_num x) (ae_pkt_num e)) as [He|He].
    { exists x. split; [by left | done]. }
    assert (Forall (fun y => ae_pkt_num y < ae_pkt_num e) (x :: l)) as Hall.
    { constructor; [lia|]. eapply list.Forall_impl; [exact Hlt|]. simpl. lia. }
    split_and!; [by constructor | done |].
    intros y Hy. rewrite list.Forall_forall in Hall. specialize (Hall y Hy). lia.
Qed.

Lemma acktr_add_wf acktr al e active :
  wf_acktr acktr al -> wf_acktr (ngtcp2_acktr_add acktr e active).1 al.
Proof.
  intros (Hr & Ha & Hv & Hd & Hn & Hle). unfold ngtcp2_acktr_add.
  pose proof (acktr_insert_spec e (ent acktr) Hd) as H.
  destruct (acktr_insert e (ent acktr)) as [l|]; [|done]. destruct H as (H1 & H2 & H3).
  assert (Hlen : zlen l = zlen (ent acktr) + 1).
  { unfold zlen. rewrite (Permutation_length H2). simpl. lia. }
  unfold NGTCP2_ACKTR_MAX_ENT in *. zfacts. rewrite (u64_small (_ + 1)) by clia.
  destruct (Z.ltb_spec 1024 (nack acktr + 1)); simpl; unfold wf_acktr, NGTCP2_ACKTR_MAX_ENT; simpl.
  - rewrite u64_small by clia. split_and!; try done; [by apply decreasing_take | | lia].
    rewrite zlen_take. unfold zlen in *. lia.
  - split_and!; try done; lia.
Qed.

(** ** Removal *)

Lemma acktr_on_ack_scan acked n l :
  zlen l <= n < 2 ^ 64 ->
  visit_acked ae_pkt_num acktr_remove acked n l =
  (filter (fun e => acked (ae_pkt_num e) = false) l,
   n - (zlen l - zlen (filter (fun e => acked (ae_pkt_num e) = false) l)), 0).
Proof.
  revert n. induction l as [|e l IH]; intros n Hn; simpl.
  { f_equal. f_equal. unfold zlen. simpl. lia. }
  rewrite zlen_cons in Hn. zfacts. unfold scan_visit, acktr_remove at 1.
  destruct (acked (ae_pkt_num e)) eqn:E.
  - rewrite filter_cons_False by (by rewrite E). rewrite u64_small by clia.
    rewrite IH, zlen_cons by lia. f_equal. f_equal. lia.
  - rewrite filter_cons_True by done. rewrite IH by lia. simpl. rewrite !zlen_cons. f_equal. f_equal. lia.
Qed.

Lemma ack_at_repr acktr al j :
  rb_repr (acks acktr) al -> 0 <= j ->
  ack_at acktr j = match al !! Z.to_nat j with Some e => Ok e | None => Ub end.
Proof.
  intros H Hj. unfold ack_at. rewrite (ringbuf_get_repr _ al) by done.
  destruct (al !! Z.to_nat j) as [e|] eqn:E.
  - pose proof (lookup_lt_Some _ _ _ E). unfold zlen. rewrite (proj2 (Z.ltb_lt _ _)) by lia.
    cbn [mbind res_bind]. rewrite <- (ringbuf_load_repr _ al _ _ H E). f_equal. f_equal. lia.
  - apply lookup_ge_None in E. unfold zlen. by rewrite (proj2 (Z.ltb_ge _ _)) by lia.
Qed.

(** The packets the frame [al !! j] acknowledged are removed, and it and the
    older frames are forgotten. *)
Lemma acktr_on_ack_spec acktr al j e :
  wf_acktr acktr al -> al !! j = Some e ->
  exists acktr', acktr_on_ack acktr (Z.of_nat j) = Ok acktr' /\ wf_acktr acktr' (take j al) /\
    ent acktr' = filter (fun x => acked_by (aa_ack e) (ae_pkt_num x) = false) (ent acktr) /\
    active_ack acktr' = active_ack acktr.
Proof.
  intros (Hr & Ha & Hv & Hd & Hn & Hle) He. unfold acktr_on_ack.
  rewrite (ack_at_repr _ al) by (done || lia). rewrite Nat2Z.id, He. cbn [mbind res_bind].
  assert (valid_ack (aa_ack e)).
  { rewrite list.Forall_forall in Hv. apply (Hv e). by eapply list_elem_of_lookup_2. }
  rewrite ack_scan_equiv by done. unfold NGTCP2_ACKTR_MAX_ENT in *. zfacts.
  rewrite acktr_on_ack_scan by clia.
  destruct (ringbuf_resize_repr (acks acktr) al (Z.of_nat j) Hr) as (rb & -> & Hrb).
  { pose proof (lookup_lt_Some _ _ _ He). unfold zlen. lia. }
  rewrite Nat2Z.id in Hrb. eexists. split; [done|]. split; [|done].
  unfold wf_acktr, NGTCP2_ACKTR_MAX_ENT; simpl. split_and!; try done.
  - by apply decreasing_take.
  - by apply Forall_take.
  - by apply decreasing_filter.
  - lia.
  - unfold zlen. pose proof (length_filter (fun x => acked_by (aa_ack e) (ae_pkt_num x) = false) (ent acktr)).
    unfold zlen in *. lia.
Qed.

(** ** The search for the acknowledged ACK frame *)

(** Reference: the first element, from position [j] on, that satisfies [P]. *)
Fixpoint first_from (P : ngtcp2_acktr_ack_entry -> bool) (j : Z) (l : list ngtcp2_acktr_ack_entry) :
    recv_step :=
  match l with
  | [] => rs_end
  | e :: l => if P e then rs_found j else first_from P (j + 1) l
  end.

Lemma first_from_app P j pre l :
  Forall (fun e => P e = false) pre -> first_from P j (pre ++ l) = first_from P (j + zlen pre) l.
Proof.
  intros H. revert j. induction H as [|e pre He _ IH]; intros j; simpl.
  - f_equal. unfold zlen. simpl. lia.
  - rewrite He, IH, zlen_cons. f_equal. lia.
Qed.

Lemma first_from_none P j l : Forall (fun e => P e = false) l -> first_from P j l = rs_end.
Proof. intros H. rewrite <- (app_nil_r l). by rewrite first_from_app. Qed.

Lemma first_from_ext P Q j l :
  Forall (fun e => P e = Q e) l -> first_from P j l = first_from Q j l.
Proof. intros H. revert j. induction H as [|e l He _ IH]; intros j; simpl; [done|]. by rewrite He, IH. Qed.

Lemma lookup_drop_head {A} (l : list A) n e suf :
  drop n l = e :: suf -> l !! n = Some e /\ drop (S n) l = suf.
Proof.
  intros H. split.
  - rewrite <- (Nat.add_0_r n), <- lookup_drop, H. done.
  - replace (S n) with (n + 1)%nat by lia. by rewrite <- drop_drop, H.
Qed.

Section RecvFacts.
Context (acktr : ngtcp2_acktr) (al : list ngtcp2_acktr_ack_entry) (unprotected : bool).
Hypothesis Hrepr : rb_repr (acks acktr) al.
Hypothesis Hdec : decreasing aa_pkt_num al.

(** The frame may be acknowledged by a packet of this protection level. *)
Definition eligible (e : ngtcp2_acktr_ack_entry) : bool :=
  negb (unprotected && negb (aa_unprotected e)).

(** [at_pos j l]: the elements from position [j] on are [l]. *)
Definition at_pos (j : Z) (l : list ngtcp2_acktr_ack_entry) : Prop :=
  0 <= j /\ drop (Z.to_nat j) al = l.

Lemma at_pos_next j e l : at_pos j (e :: l) -> at_pos (j + 1) l.
Proof.
  intros [Hj [_ Hd]%lookup_drop_head]. split; [lia|].
  by replace (Z.to_nat (j + 1)) with (S (Z.to_nat j)) by lia.
Qed.

Lemma at_pos_zlen j l : at_pos j l -> l <> [] -> zlen al = j + zlen l.
Proof.
  intros [Hj <-] Hne. rewrite zlen_drop. destruct (Z.le_gt_cases (zlen al) j); [|lia].
  destruct Hne. apply drop_ge. unfold zlen in *. lia.
Qed.

Lemma at_pos_ack j e l : at_pos j (e :: l) -> ack_at acktr j = Ok e.
Proof.
  intros [Hj [Hl _]%lookup_drop_head]. rewrite (ack_at_repr _ al) by done. by rewrite Hl.
Qed.

Lemma at_pos_app j pre l : at_pos j (pre ++ l) -> at_pos (j + zlen pre) l.
Proof.
  revert j. induction pre as [|e pre IH]; intros j H; simpl in *.
  - unfold zlen. simpl. by rewrite Z.add_0_r.
  - apply at_pos_next, IH in H. rewrite zlen_cons. by replace (j + (1 + _)) with (j + 1 + zlen pre) by lia.
Qed.

Lemma at_pos_decreasing j l : at_pos j l -> decreasing aa_pkt_num l.
Proof.
  intros [_ <-]. clear Hrepr. revert j. induction Hdec as [|e l Hl IH He]; intros j.
  { rewrite drop_nil. constructor. }
  destruct (Z.to_nat j) as [|n] eqn:E; simpl; [by constructor|].
  rewrite <- (Nat2Z.id n). by apply IH.
Qed.

Lemma recv_advance_spec j e l k :
  at_pos j (e :: l) ->
  recv_advance acktr (zlen al) j k =
  match l with [] => Ok rs_end | e' :: _ => k (j + 1) e' end.
Proof.
  intros H. pose proof (at_pos_zlen _ _ H ltac:(done)) as Hz. rewrite zlen_cons in Hz.
  unfold recv_advance. destruct l as [|e' l].
  - rewrite zlen_nil in Hz. by rewrite (proj2 (Z.eqb_eq _ _)) by lia.
  - rewrite zlen_cons in Hz. zfacts. rewrite (proj2 (Z.eqb_neq _ _)) by lia.
    rewrite (at_pos_ack _ _ _ (at_pos_next _ _ _ H)). done.
Qed.

(** Elements a range [lo, hi] leaves behind. *)
Definition passed (lo hi : Z) (e : ngtcp2_acktr_ack_entry) : Prop :=
  lo <= aa_pkt_num e /\ (eligible e = false \/ hi < aa_pkt_num e).

Definition blk_result (lo hi j : Z) (l : list ngtcp2_acktr_ack_entry) (r : recv_step) : Prop :=
  match r with
  | rs_found j' => exists pre e suf, l = pre ++ e :: suf /\ j' = j + zlen pre /\
      Forall (passed lo hi) pre /\ eligible e = true /\ lo <= aa_pkt_num e <= hi
  | rs_end => Forall (passed lo hi) l
  | rs_next j' e => exists pre suf, l = pre ++ e :: suf /\ j' = j + zlen pre /\
      Forall (passed lo hi) pre /\ aa_pkt_num e < lo
  end.

Lemma blk_result_cons lo hi j e l r :
  passed lo hi e -> blk_result lo hi (j + 1) l r -> blk_result lo hi j (e :: l) r.
Proof.
  intros He. destruct r as [j'| |j' e']; simpl.
  - intros (pre & x & suf & -> & -> & ? & ? & ?). exists (e :: pre), x, suf.
    rewrite zlen_cons. split; [done|]. split; [lia|]. split; [by constructor | done].
  - by constructor.
  - intros (pre & suf & -> & -> & ? & ?). exists (e :: pre), suf.
    rewrite zlen_cons. split; [done|]. split; [lia|]. split; [by constructor | done].
Qed.

Lemma recv_blk_spec lo hi fuel j e l :
  lo <= hi + 1 -> at_pos j (e :: l) -> (length (e :: l) <= fuel)%nat ->
  exists r, recv_blk acktr unprotected (zlen al) fuel lo hi j e = Ok r /\
    blk_result lo hi j (e :: l) r.
Proof.
  intros Hlohi. revert j e l. induction fuel as [|fuel IH]; intros j e l Hat Hf; simpl in Hf; [lia|].
  assert (Hadv : passed lo hi e ->
    exists r, recv_advance acktr (zlen al) j (recv_blk acktr unprotected (zlen al) fuel lo hi) = Ok r /\
    blk_result lo hi j (e :: l) r).
  { intros Hp. rewrite (recv_advance_spec _ e l) by done. destruct l as [|e' l].
    - exists rs_end. split; [done|]. by apply list.Forall_singleton.
    - destruct (IH (j + 1) e' l) as (r & Hr & Hres); [by eapply at_pos_next | simpl in *; lia |].
      exists r. split; [done|]. by apply blk_result_cons. }
  simpl. destruct (Z.ltb_spec hi (aa_pkt_num e)) as [Hgt|Hle].
  { apply Hadv. split; [lia | by right]. }
  destruct (Z.ltb_spec (aa_pkt_num e) lo) as [Hlo|Hlo].
  { eexists. split; [done|]. exists [], l. split_and!; try done. unfold zlen; simpl; lia. }
  destruct (unprotected && negb (aa_unprotected e)) eqn:Hel.
  { apply Hadv. split; [done|]. left. unfold eligible. by rewrite Hel. }
  eexists. split; [done|]. exists [], e, l. unfold eligible. rewrite Hel.
  split_and!; try done. unfold zlen; simpl; lia.
Qed.

(** One range, when [k] handles those below it. *)
Lemma recv_range_spec fuel lo hi blks j e l (k : Z -> ngtcp2_acktr_ack_entry -> res recv_step) :
  at_pos j (e :: l) -> (length (e :: l) <= fuel)%nat -> lo <= hi + 1 -> Forall wf_blk blks ->
  (forall j e l, at_pos j (e :: l) -> (length (e :: l) <= fuel)%nat ->
    k j e = Ok (first_from (fun e => in_ranges (blk_ranges lo blks) (aa_pkt_num e) && eligible e)
      j (e :: l))) ->
  (r ← recv_blk acktr unprotected (zlen al) fuel lo hi j e;
   match r with rs_next j e => k j e | r => Ok r end) =
  Ok (first_from (fun e => in_ranges ((lo, hi) :: blk_ranges lo blks) (aa_pkt_num e) && eligible e)
    j (e :: l)).
Proof.
  intros Hat Hf Hlohi Hb Hk.
  destruct (recv_blk_spec lo hi fuel j e l) as (r & -> & Hr); [done | done | done |].
  cbn [mbind res_bind].
  assert (Hpass : forall x, passed lo hi x ->
    in_ranges ((lo, hi) :: blk_ranges lo blks) (aa_pkt_num x) && eligible x = false).
  { intros x [H1 H2]. simpl. rewrite in_blk_ranges_above by (done || lia). rewrite orb_false_r.
    destruct H2 as [->|H2]; [by rewrite andb_false_r|].
    by rewrite (proj2 (Z.leb_gt _ hi)), andb_false_r by lia. }
  destruct r as [j'| |j' e']; simpl in Hr.
  - destruct Hr as (pre & x & suf & -> & -> & Hpre & Hel & Hx). f_equal. symmetry.
    rewrite first_from_app by (by eapply list.Forall_impl). cbn [first_from].
    rewrite Hel. simpl. by rewrite (proj2 (Z.leb_le lo _)), (proj2 (Z.leb_le _ hi)) by lia.
  - f_equal. symmetry. apply first_from_none. by eapply list.Forall_impl.
  - destruct Hr as (pre & suf & E & -> & Hpre & Hx). rewrite E in *.
    rewrite first_from_app by (by eapply list.Forall_impl).
    pose proof (at_pos_app _ _ _ Hat) as Hat'.
    pose proof (at_pos_decreasing _ _ Hat') as [_ Hlt]%decreasing_inv.
    rewrite (Hk _ _ suf); [| done | rewrite length_app in Hf; lia].
    f_equal. apply first_from_ext.
    assert (Forall (fun a => aa_pkt_num a < lo) (e' :: suf)) as Hall.
    { constructor; [done|]. eapply list.Forall_impl; [exact Hlt|]. simpl. lia. }
    eapply list.Forall_impl; [exact Hall|]. simpl. intros x Hlt'.
    by rewrite (proj2 (Z.leb_gt lo _)) by lia.
Qed.

(** The walk over the ranges finds the first eligible frame in one of them. *)
Lemma recv_blks_spec fuel m blks j e l :
  at_pos j (e :: l) -> (length (e :: l) <= fuel)%nat ->
  is_uint 62 m -> Forall wf_blk blks -> valid_ranges (blk_ranges m blks) ->
  recv_blks acktr unprotected (zlen al) fuel m blks j e =
  Ok (first_from (fun e => in_ranges (blk_ranges m blks) (aa_pkt_num e) && eligible e) j (e :: l)).
Proof.
  intros Hat Hf Hm Hb. revert m Hm j e l Hat Hf.
  induction Hb as [|b blks [Hg Hbl] Hb IH]; intros m Hm j e l Hat Hf Hv.
  { simpl recv_blks. rewrite first_from_none; [done|]. by apply Forall_true. }
  apply list.Forall_cons in Hv as [Hlo Hv]. simpl in Hlo. cbn [recv_blks].
  pose proof (at_pos_zlen _ _ Hat ltac:(done)) as Hz. rewrite zlen_cons in Hz. zfacts.
  rewrite (proj2 (Z.ltb_lt j _)) by lia. rewrite (u64_small (m - _ - 2)), u64_small by clia.
  cbn [blk_ranges]. apply recv_range_spec; [done | done | clia | done |].
  intros j' e' l' Hat' Hf'. apply IH; [clia | done | done | done].
Qed.

Lemma recv_first_blk lo hi fuel j e l :
  at_pos j (e :: l) -> aa_pkt_num e <= hi ->
  recv_first acktr unprotected (zlen al) fuel lo hi j e =
  recv_blk acktr unprotected (zlen al) fuel lo hi j e.
Proof.
  revert j e l. induction fuel as [|fuel IH]; intros j e l Hat He; simpl; [done|].
  rewrite (proj2 (Z.leb_le _ hi)), (proj2 (Z.ltb_ge hi _)), andb_true_r by done.
  rewrite Z.leb_antisym. destruct (aa_pkt_num e <? lo); simpl; [done|].
  destruct (unprotected && negb (aa_unprotected e)); [|done].
  rewrite !(recv_advance_spec _ e l) by done. destruct l as [|e' l]; [done|].
  pose proof (at_pos_decreasing _ _ Hat) as [_ Hlt]%decreasing_inv.
  apply list.Forall_cons in Hlt as [Hlt _].
  apply IH with (l := l); [by eapply at_pos_next | lia].
Qed.

(** The elements above the frame are skipped. *)
Lemma recv_skip_spec fuel largest j l :
  at_pos j l -> j <= zlen al -> (length l < fuel)%nat ->
  exists r, recv_skip acktr (zlen al) fuel largest j = Ok r /\
  match r with
  | rs_found _ => False
  | rs_end => Forall (fun e => largest < aa_pkt_num e) l
  | rs_next j' e => exists pre suf, l = pre ++ e :: suf /\ j' = j + zlen pre /\
      Forall (fun e => largest < aa_pkt_num e) pre /\ aa_pkt_num e <= largest
  end.
Proof.
  revert j l. induction fuel as [|fuel IH]; intros j l Hat Hj Hf; [lia|]. simpl.
  destruct l as [|e l].
  { destruct Hat as [? Hd].
    assert (zlen (drop (Z.to_nat j) al) = 0) as Hz by (by rewrite Hd). rewrite zlen_drop in Hz.
    rewrite (proj2 (Z.ltb_ge _ _)) by lia. by exists rs_end. }
  pose proof (at_pos_zlen _ _ Hat ltac:(done)) as Hz. rewrite zlen_cons in Hz. zfacts.
  rewrite (proj2 (Z.ltb_lt _ _)), (at_pos_ack _ _ _ Hat) by lia. cbn [mbind res_bind].
  destruct (Z.leb_spec (aa_pkt_num e) largest) as [Hle|Hgt].
  { eexists. split; [done|]. exists [], l. split; [done|]. split; [unfold zlen; simpl; lia | done]. }
  simpl in Hf. destruct (IH (j + 1) l) as (r & -> & Hr); [by eapply at_pos_next | lia | lia |].
  exists r. split; [done|]. destruct r as [|  |j' e']; [done | by constructor |].
  destruct Hr as (pre & suf & -> & -> & Hpre & He'). exists (e :: pre), suf.
  rewrite zlen_cons. split; [done|]. split; [lia|]. split; [by constructor | done].
Qed.

(** The frame, among those sent, that the incoming frame [fr] acknowledges. *)
Definition acked_frame (fr : ngtcp2_ack) : recv_step :=
  first_from (fun e => acked_by fr (aa_pkt_num e) && eligible e) 0 al.

Lemma recv_ack_equiv fr :
  valid_ack fr ->
  ngtcp2_acktr_recv_ack acktr fr unprotected =
  match acked_frame fr with
  | rs_found j => acktr_on_ack acktr j
  | _ => Ok acktr
  end.
Proof.
  intros Hv. pose proof (valid_ack_ranges fr Hv) as Hr.
  destruct Hv as [(Hla & Hfb & Hb) _].
  unfold ngtcp2_acktr_recv_ack, acked_frame, acked_by, ack_ranges, ngtcp2_ringbuf_len in *.
  assert (rb_len (acks acktr) = zlen al) as -> by (by destruct Hrepr as (_ & _ & _ & ? & _)).
  apply list.Forall_cons in Hr as [Hlo Hr]; simpl in Hlo.
  set (hi := ack_largest_ack fr) in *. set (lo := hi - ack_first_ack_blklen fr) in *.
  set (fuel := S (Z.to_nat (zlen al))).
  assert (Hfuel : (length al < fuel)%nat) by (unfold fuel, zlen; lia).
  assert (Hat : at_pos 0 al) by done. zfacts.
  destruct (recv_skip_spec fuel hi 0 al Hat ltac:(lia) Hfuel) as (r & -> & Hres).
  cbn [mbind res_bind].
  assert (Habove : forall x, hi < aa_pkt_num x ->
    in_ranges ((lo, hi) :: blk_ranges lo (ack_blks fr)) (aa_pkt_num x) && eligible x = false).
  { intros x Hx. simpl. rewrite in_blk_ranges_above by (done || clia).
    by rewrite (proj2 (Z.leb_gt _ hi)), andb_false_r by lia. }
  destruct r as [? | |j e]; [done | |]; cbn [mbind res_bind].
  { rewrite first_from_none; [done|]. by eapply list.Forall_impl. }
  destruct Hres as (pre & suf & E & -> & Hpre & He). rewrite Z.add_0_l in *.
  pose proof Hat as Hat'. rewrite E in Hat'. apply at_pos_app in Hat'. rewrite Z.add_0_l in Hat'.
  rewrite (u64_small lo) by clia.
  rewrite (recv_first_blk _ _ _ _ _ suf) by done.
  assert (Hf' : (length (e :: suf) <= fuel)%nat) by (rewrite E, length_app in Hfuel; lia).
  rewrite (recv_range_spec _ _ _ (ack_blks fr) _ _ suf); [| done | done | clia | done |].
  2:{ intros j' e' l' Hat2 Hf2. apply recv_blks_spec; [done | done | clia | done | done]. }
  cbn [mbind res_bind].
  pose proof (first_from_app (fun e => in_ranges ((lo, hi) :: blk_ranges lo (ack_blks fr))
    (aa_pkt_num e) && eligible e) 0 pre (e :: suf) ltac:(by eapply list.Forall_impl)) as Hff.
  rewrite <- E in Hff. by rewrite Hff.
Qed.
End RecvFacts.

(** ** The other operations keep the invariant *)

Lemma wf_acktr_forget acktr al i : wf_acktr acktr al -> wf_acktr (ngtcp2_acktr_forget acktr i) al.
Proof.
  intros (Hr & Ha & Hv & Hd & Hn & Hmax). unfold ngtcp2_acktr_forget.
  assert (Hf : forall l n, zlen l <= n < 2 ^ 64 ->
    fold_left (fun n (_ : ngtcp2_acktr_entry) => u64 (n - 1)) l n = n - zlen l).
  { induction l as [|x l IH]; intros n Hb; simpl; [rewrite zlen_nil; lia|].
    rewrite zlen_cons in *. rewrite IH, u64_small by (rewrite ?u64_small; zfacts; clia). lia. }
  unfold NGTCP2_ACKTR_MAX_ENT in *. split_and!; simpl; try done.
  - by apply decreasing_take.
  - rewrite Hf; rewrite zlen_drop, ?zlen_take; unfold zlen in *; lia.
  - unfold NGTCP2_ACKTR_MAX_ENT. rewrite Hf; rewrite zlen_drop; unfold zlen in *; lia.
Qed.

Lemma wf_acktr_pop acktr al e l :
  wf_acktr acktr al -> ent acktr = e :: l ->
  exists acktr', ngtcp2_acktr_pop acktr = Ok acktr' /\ wf_acktr acktr' al /\ ent acktr' = l.
Proof.
  intros (Hr & Ha & Hv & Hd & Hn & Hmax) He. unfold ngtcp2_acktr_pop. rewrite He in *.
  rewrite zlen_cons in Hn. eexists. split; [done|]. split; [|done].
  apply decreasing_inv in Hd as [Hd _]. unfold NGTCP2_ACKTR_MAX_ENT in *.
  split_and!; simpl; try done; rewrite u64_small by (zfacts; clia);
    unfold NGTCP2_ACKTR_MAX_ENT; zfacts; lia.
Qed.

(** A frame is recorded when it is sent, so in a packet with a larger number
    than those before; the oldest of 128 frames is dropped. *)
Lemma wf_acktr_add_ack acktr al pkt_num fr unprotected :
  wf_acktr acktr al -> rb_nmemb (acks acktr) = 128 -> valid_ack fr ->
  Forall (fun e => aa_pkt_num e < pkt_num) al ->
  wf_acktr (ngtcp2_acktr_add_ack acktr pkt_num fr unprotected)
    (take 128 (mk_acktr_ack_entry fr pkt_num unprotected :: al)).
Proof.
  intros (Hr & Ha & Hv & Hd & Hn & Hmax) Hnm Hfr Hpn. unfold ngtcp2_acktr_add_ack.
  pose proof (ringbuf_push_repr _ _ (mk_acktr_ack_entry fr pkt_num unprotected) Hr) as Hp.
  rewrite Hnm in Hp. destruct (ngtcp2_ringbuf_push_front (acks acktr)) as [rb cell].
  split_and!; try done.
  - apply decreasing_take. by constructor.
  - apply Forall_take. by constructor.
Qed.

Lemma acktr_init_wf m :
  match ngtcp2_acktr_init m with
  | (Ok acktr, _) => wf_acktr acktr [] /\ rb_nmemb (acks acktr) = 128
  | (Err e, _) => e = NGTCP2_ERR_NOMEM /\ ~ mem_reliable m
  | (Ub, _) => False
  end.
Proof.
  unfold ngtcp2_acktr_init.
  pose proof (ringbuf_init_repr (A := ngtcp2_acktr_ack_entry) m 128 sizeof_acktr_ack_entry) as Hi.
  unfold ngtcp2_ringbuf_init in *. pose proof (mem_alloc_reliable m) as Hm.
  destruct (mem_alloc m) as [[] m']; simpl in *.
  - split; [|done]. split_and!; simpl; try done; [|constructor..]. apply Hi; done.
  - split; [done|]. intros Hr. by destruct (Hm Hr).
Qed.

(** The size of the ring of frames never changes. *)
Lemma on_ack_nmemb acktr j acktr' :
  acktr_on_ack acktr j = Ok acktr' -> rb_nmemb (acks acktr') = rb_nmemb (acks acktr).
Proof.
  unfold acktr_on_ack, ngtcp2_ringbuf_resize. destruct (ack_at acktr j) as [e| |]; [|done..].
  cbn [mbind res_bind]. destruct (ack_scan _ _ _ _ _) as [[l n] rv].
  destruct (j <=? rb_nmemb (acks acktr)); [|done]. by intros [= <-].
Qed.

(** ** The operations as a transition system

    [al] records the ACK frames that were sent and not dropped. An endpoint
    sends valid frames, in packets with increasing numbers. *)

Inductive acktr_step : ngtcp2_acktr * list ngtcp2_acktr_ack_entry ->
    ngtcp2_acktr * list ngtcp2_acktr_ack_entry -> Prop :=
| step_add acktr al e active :
    acktr_step (acktr, al) ((ngtcp2_acktr_add acktr e active).1, al)
| step_forget acktr al i :
    acktr_step (acktr, al) (ngtcp2_acktr_forget acktr i, al)
| step_pop acktr al acktr' :
    ngtcp2_acktr_pop acktr = Ok acktr' -> acktr_step (acktr, al) (acktr', al)
| step_add_ack acktr al pkt_num fr unprotected :
    valid_ack fr -> Forall (fun e => aa_pkt_num e < pkt_num) al ->
    acktr_step (acktr, al) (ngtcp2_acktr_add_ack acktr pkt_num fr unprotected,
      take 128 (mk_acktr_ack_entry fr pkt_num unprotected :: al))
| step_recv_ack acktr al fr unprotected acktr' :
    valid_ack fr -> ngtcp2_acktr_recv_ack acktr fr unprotected = Ok acktr' ->
    acktr_step (acktr, al) (acktr',
      match acked_frame al unprotected fr with rs_found j => take (Z.to_nat j) al | _ => al end).

Definition acktr_inv (s : ngtcp2_acktr * list ngtcp2_acktr_ack_entry) : Prop :=
  wf_acktr s.1 s.2 /\ rb_nmemb (acks s.1) = 128.

Lemma first_from_found P j l i :
  first_from P j l = rs_found i -> exists n e, i = j + Z.of_nat n /\ l !! n = Some e /\ P e = true.
Proof.
  revert j. induction l as [|e l IH]; intros j; simpl; [done|].
  destruct (P e) eqn:HP; [intros [= <-]; exists 0%nat, e; split_and!; [lia | done | done]|].
  intros (n & e' & -> & Hl & He)%IH. exists (S n), e'. split_and!; [lia | done | done].
Qed.

Lemma acktr_step_inv s s' : acktr_inv s -> acktr_step s s' -> acktr_inv s'.
Proof.
  unfold acktr_inv. intros [Hwf Hn] Hs. destruct Hs; cbn [fst snd] in *.
  - split; [by apply acktr_add_wf|]. unfold ngtcp2_acktr_add.
    destruct (acktr_insert _ _); [|done]. by destruct (_ <? _).
  - split; [by apply wf_acktr_forget | done].
  - destruct (ent acktr) as [|e l] eqn:He; [by unfold ngtcp2_acktr_pop in *; rewrite He in *|].
    destruct (wf_acktr_pop _ _ _ _ Hwf He) as (a & Ha & Hwf' & _). assert (a = acktr') as -> by congruence.
    split; [done|]. unfold ngtcp2_acktr_pop in Ha. rewrite He in Ha. injection Ha as <-. done.
  - split; [by apply wf_acktr_add_ack | done].
  - rewrite (recv_ack_equiv _ al) in * by (apply Hwf || done).
    destruct (acked_frame al unprotected fr) as [j| |] eqn:Hf; [|by simplify_eq..].
    apply first_from_found in Hf as (n & e & -> & Hl & _). rewrite Z.add_0_l in *.
    destruct (acktr_on_ack_spec _ _ _ _ Hwf Hl) as (a & Ha & Hwf' & _).
    rewrite Nat2Z.id. assert (a = acktr') as -> by congruence.
    split; [done|]. rewrite <- Hn. by eapply on_ack_nmemb.
Qed.

(** The search in terms of the list of frames. *)
Lemma first_from_find P j l :
  first_from P j l =
  match list_find (fun e => P e = true) l with
  | Some (i, _) => rs_found (j + Z.of_nat i)
  | None => rs_end
  end.
Proof.
  revert j. induction l as [|e l IH]; intros j; [done|]. cbn [first_from list_find].
  destruct (P e) eqn:HP.
  - rewrite decide_True by done. f_equal. lia.
  - rewrite decide_False by congruence. rewrite IH.
    destruct (list_find _ l) as [[i x]|]; simpl; [f_equal; lia | done].
Qed.

(** What adding a packet gives. *)
Lemma acktr_add_result acktr al e active :
  wf_acktr acktr al ->
  let '(acktr', rv) := ngtcp2_acktr_add acktr e active in
  (rv = NGTCP2_ERR_PROTO /\ acktr' = acktr /\ ae_pkt_num e ∈ (ae_pkt_num <$> ent acktr)) \/
  (rv = 0 /\ ae_pkt_num e ∉ (ae_pkt_num <$> ent acktr) /\
   active_ack acktr' = (active || active_ack acktr) /\
   exists l, l ≡ₚ e :: ent acktr /\ decreasing ae_pkt_num l /\
     ent acktr' = take (Z.to_nat NGTCP2_ACKTR_MAX_ENT) l).
Proof.
  intros (_ & _ & _ & Hd & Hn & Hmax). unfold ngtcp2_acktr_add.
  pose proof (acktr_insert_spec e (ent acktr) Hd) as Hi.
  destruct (acktr_insert e (ent acktr)) as [l|].
  - destruct Hi as (Hdl & Hp & Hne). unfold NGTCP2_ACKTR_MAX_ENT in *.
    assert (Hlen : zlen l = nack acktr + 1).
    { unfold zlen in *. rewrite Hp. simpl. lia. }
    rewrite u64_small by (zfacts; clia).
    assert (Hnot : ae_pkt_num e ∉ (ae_pkt_num <$> ent acktr)).
    { intros (x & Hx & Hin)%list_elem_of_fmap. by apply (Hne x). }
    destruct (Z.ltb_spec 1024 (nack acktr + 1)); right; (split; [done|]); (split; [done|]);
      (split; [by destruct active|]); exists l; (split; [done|]); (split; [done|]); simpl.
    + f_equal. unfold zlen in Hlen. lia.
    + rewrite take_ge; [done|]. unfold zlen in Hlen. lia.
  - left. destruct Hi as (x & Hx & Heq). split_and!; [done | done |]. rewrite <- Heq.
    by apply list_elem_of_fmap_2.
Qed.

(** What a received ACK frame removes. *)
Lemma acktr_recv_ack_spec acktr al fr unprotected :
  wf_acktr acktr al -> valid_ack fr ->
  exists acktr', ngtcp2_acktr_recv_ack acktr fr unprotected = Ok acktr' /\
  match list_find (fun e => acked_by fr (aa_pkt_num e) && eligible unprotected e = true) al with
  | Some (j, e) =>
      wf_acktr acktr' (take j al) /\
      ent acktr' = filter (fun x => acked_by (aa_ack e) (ae_pkt_num x) = false) (ent acktr)
  | None => acktr' = acktr
  end.
Proof.
  intros Hwf Hv. rewrite (recv_ack_equiv acktr al) by (apply Hwf || done).
  unfold acked_frame. rewrite first_from_find.
  destruct (list_find _ al) as [[j e]|] eqn:Hf; [|by exists acktr].
  apply list_find_Some in Hf as (Hj & _ & _). rewrite Z.add_0_l.
  destruct (acktr_on_ack_spec _ _ _ _ Hwf Hj) as (a & Ha & Hw & He & _). by exists a.
Qed.

(** ** Properties *)

(** C20. When an ACK frame of the peer arrives, the latest of the sent ACK frames
    it acknowledges (and may acknowledge, by its protection) is found; the packets
    that frame had acknowledged, and no others, need not be acknowledged any
    more, and it and the older frames are dropped. If there is none, nothing
    changes. The search is the one over all sent frames, although the code passes
    over the frames and the ranges together, and it stays within the ring. *)
Theorem acktr_recv_ack_forgets acktr al fr unprotected :
  wf_acktr acktr al -> valid_ack fr ->
  exists acktr', ngtcp2_acktr_recv_ack acktr fr unprotected = Ok acktr' /\
  match list_find (fun e => acked_by fr (aa_pkt_num e) && eligible unprotected e = true) al with
  | Some (j, e) =>
      wf_acktr acktr' (take j al) /\
      ent acktr' = filter (fun x => acked_by (aa_ack e) (ae_pkt_num x) = false) (ent acktr)
  | None => acktr' = acktr
  end.
Proof. apply acktr_recv_ack_spec. Qed.

(** The ACK frame sent in packet 7 covers packets 3 and 2; the peer acknowledges packet 7. *)
Lemma acktr_recv_ack_forgets_witness :
  let sent := mk_acktr_ack_entry (mk_ack 3 0 1 []) 7 false in
  let acktr := mk_acktr (mk_ringbuf (Some sent :: replicate 127 None) 128 24 0 1)
    [mk_acktr_entry 5 0 false; mk_acktr_entry 3 0 false; mk_acktr_entry 2 0 false] 3 true in
  exists acktr', ngtcp2_acktr_recv_ack acktr (mk_ack 7 0 0 []) false = Ok acktr' /\
    ent acktr' = [mk_acktr_entry 5 0 false].
Proof.
  intros sent acktr.
  destruct (acktr_recv_ack_forgets acktr [sent] (mk_ack 7 0 0 []) false) as (acktr' & H1 & H2).
  - unfold wf_acktr. split_and!; try done.
    + unfold rb_repr. split_and!; try done; [by exists 7|].
      intros [|i] x; simpl; [intros [= <-]; reflexivity | done].
    + repeat constructor.
    + repeat constructor; done.
    + repeat constructor; done.
  - split; [|reflexivity]. unfold wf_ack. split_and!; try done.
  - exists acktr'. split; [done|]. apply H2.
Defined.

(** A received packet is recorded once and in order: a packet number that is
    already there is refused with [NGTCP2_ERR_PROTO] and nothing changes,
    otherwise the list holds the packet and those before, in decreasing order of
    their numbers; of more than [NGTCP2_ACKTR_MAX_ENT] packets the one with the
    least number is dropped. *)
Theorem acktr_add_once acktr al e active :
  wf_acktr acktr al ->
  let '(acktr', rv) := ngtcp2_acktr_add acktr e active in
  wf_acktr acktr' al /\
  ((rv = NGTCP2_ERR_PROTO /\ acktr' = acktr /\ ae_pkt_num e ∈ (ae_pkt_num <$> ent acktr)) \/
   (rv = 0 /\ ae_pkt_num e ∉ (ae_pkt_num <$> ent acktr) /\
    active_ack acktr' = (active || active_ack acktr) /\
    exists l, l ≡ₚ e :: ent acktr /\ decreasing ae_pkt_num l /\
      ent acktr' = take (Z.to_nat NGTCP2_ACKTR_MAX_ENT) l)).
Proof.
  intros Hwf. pose proof (acktr_add_wf acktr al e active Hwf) as Hw.
  pose proof (acktr_add_result acktr al e active Hwf) as Hr.
  by destruct (ngtcp2_acktr_add acktr e active) as [acktr' rv].
Qed.

(** C21. The invariant of the tracker holds in every state the operations reach
    from the initial one, in any order: the lists of packets and of sent frames
    are in decreasing order, the ring represents the list of frames, the counter
    is the number of packets, and that number is bounded. *)
Theorem acktr_reachable_wf m acktr0 m' s :
  ngtcp2_acktr_init m = (Ok acktr0, m') -> rtc acktr_step (acktr0, []) s ->
  wf_acktr s.1 s.2 /\ zlen (ent s.1) <= NGTCP2_ACKTR_MAX_ENT.
Proof.
  intros Hi Hs. pose proof (acktr_init_wf m) as H0. rewrite Hi in H0.
  assert (acktr_inv s) as [Hw _].
  { revert H0. change (wf_acktr acktr0 [] /\ rb_nmemb (acks acktr0) = 128)
      with (acktr_inv (acktr0, [])). induction Hs as [s|s1 s2 s3 Hst _ IH]; [done|].
    intros H. by apply IH, (acktr_step_inv s1). }
  split; [done|]. destruct Hw as (_ & _ & _ & _ & <- & Hmax). done.
Qed.

Lemma acktr_reachable_wf_witness :
  let acktr0 := mk_acktr (mk_ringbuf (replicate 128 None) 128 24 23 0) [] 0 false in
  zlen (ent (ngtcp2_acktr_add acktr0 (mk_acktr_entry 4 0 false) true).1) <= NGTCP2_ACKTR_MAX_ENT.
Proof.
  intros acktr0.
  apply (acktr_reachable_wf [] acktr0 []
    ((ngtcp2_acktr_add acktr0 (mk_acktr_entry 4 0 false) true).1, [])); [reflexivity|].
  apply rtc_once. constructor.
Defined.
