(* ===== verification/Pq.v ===== *)
(** The priority queue: [ngtcp2_pq.c], a binary heap of pointers to entries,
    each of which records its own position in the heap.

    [E] is the type of the pointers to entries. The [index] members of the entries are
    a finite map from pointers to positions; the array [q] is the list of its
    first [length] elements. Positions are natural numbers: the array has less
    than 2^61 elements, so the computations on positions do not overflow. *)

From S2P Require Import Prelude Frame Mem.

Record ngtcp2_pq (E : Type) `{Countable E} := mk_pq {
  pq_q : list E;
  pq_capacity : Z;
  pq_index : gmap E nat
}.
Arguments mk_pq {E _ _}.
Arguments pq_q {E _ _}.
Arguments pq_capacity {E _ _}.
Arguments pq_index {E _ _}.

(** [pq->q[i]]; reading beyond the elements is undefined. *)
Definition at_index {E} (q : list E) (i : nat) : res E :=
  match q !! i with Some x => Ok x | None => Ub end.

Section Pq.
Context `{Countable E} (less : E -> E -> bool).
Implicit Types (pq : ngtcp2_pq E).

Definition pq_length pq : nat := length (pq_q pq).

Definition ngtcp2_pq_init : ngtcp2_pq E := mk_pq [] 0 ∅.

Definition swap pq (i j : nat) : res (ngtcp2_pq E) :=
  a ← at_index (pq_q pq) i;
  b ← at_index (pq_q pq) j;
  Ok (mk_pq (<[j := a]> (<[i := b]> (pq_q pq))) (pq_capacity pq)
        (<[a := j]> (<[b := i]> (pq_index pq)))).

(** The fuel bounds the number of iterations; [S index] is enough. *)
Fixpoint bubble_up (fuel : nat) pq (index : nat) : res (ngtcp2_pq E) :=
  match fuel with
  | O => Ub
  | S fuel =>
      if (index =? 0)%nat then Ok pq
      else
        let parent := ((index - 1) / 2)%nat in
        x ← at_index (pq_q pq) index;
        y ← at_index (pq_q pq) parent;
        if negb (less x y) then Ok pq
        else pq ← swap pq parent index; bubble_up fuel pq parent
  end.

(** The growth of the array. *)
Definition pq_reserve (m : mem) pq : res (ngtcp2_pq E) * mem :=
  if pq_capacity pq <=? Z.of_nat (pq_length pq) then
    let '(ok, m) := mem_alloc m in
    if ok then (Ok (mk_pq (pq_q pq) (Z.max 4 (u64 (pq_capacity pq * 2))) (pq_index pq)), m)
    else (Err NGTCP2_ERR_NOMEM, m)
  else (Ok pq, m).

Definition ngtcp2_pq_push (m : mem) pq (item : E) : res (ngtcp2_pq E) * mem :=
  let '(r, m) := pq_reserve m pq in
  (pq ← r;
   let n := pq_length pq in
   let pq := mk_pq (pq_q pq ++ [item]) (pq_capacity pq) (<[item := n]> (pq_index pq)) in
   bubble_up (S n) pq n, m).

Definition ngtcp2_pq_top pq : option E := head (pq_q pq).

(** The inner loop of [bubble_down]: [i] children are left to look at. *)
Fixpoint min_child (i : nat) (q : list E) (j minindex : nat) : res nat :=
  match i with
  | O => Ok minindex
  | S i =>
      if (length q <=? j)%nat then Ok minindex
      else
        x ← at_index q j;
        y ← at_index q minindex;
        min_child i q (S j) (if less x y then j else minindex)
  end.

Fixpoint bubble_down (fuel : nat) pq (index : nat) : res (ngtcp2_pq E) :=
  match fuel with
  | O => Ub
  | S fuel =>
      minindex ← min_child 2 (pq_q pq) (index * 2 + 1) index;
      if (minindex =? index)%nat then Ok pq
      else pq ← swap pq index minindex; bubble_down fuel pq minindex
  end.

(** [q[i] = q[length - 1]; q[i]->index = i; --length;] *)
Definition replace_by_last pq (i : nat) : res (ngtcp2_pq E) :=
  last ← at_index (pq_q pq) (pq_length pq - 1);
  Ok (mk_pq (take (pq_length pq - 1) (<[i := last]> (pq_q pq))) (pq_capacity pq)
        (<[last := i]> (pq_index pq))).

Definition ngtcp2_pq_pop pq : res (ngtcp2_pq E) :=
  if (0 <? pq_length pq)%nat then
    pq ← replace_by_last pq 0;
    bubble_down (S (pq_length pq)) pq 0
  else Ok pq.

Definition ngtcp2_pq_remove pq (item : E) : res (ngtcp2_pq E) :=
  match pq_index pq !! item with
  | None => Ub
  | Some i =>
      x ← at_index (pq_q pq) i;
      _ ← c_assert (bool_decide (x = item));
      if (i =? 0)%nat then ngtcp2_pq_pop pq
      else if (i =? pq_length pq - 1)%nat then
        Ok (mk_pq (take (pq_length pq - 1) (pq_q pq)) (pq_capacity pq) (pq_index pq))
      else
        pq ← replace_by_last pq i;
        y ← at_index (pq_q pq) i;
        if less item y then bubble_down (S (pq_length pq)) pq i
        else bubble_up (S i) pq i
  end.

Definition ngtcp2_pq_empty pq : bool := (pq_length pq =? 0)%nat.
Definition ngtcp2_pq_size pq : nat := pq_length pq.

(** [for (i = length; i > 0; --i) bubble_down(pq, i - 1);] *)
Fixpoint pq_heapify (i : nat) pq : res (ngtcp2_pq E) :=
  match i with
  | O => Ok pq
  | S i => pq ← bubble_down (S (pq_length pq)) pq i; pq_heapify i pq
  end.
End Pq.

(** The callbacks of [ngtcp2_pq_update] and [ngtcp2_pq_each] may change what
    the entries hold, [K], and with it their order. *)
Section Each.
Context `{Countable E} {K : Type} (less : K -> E -> E -> bool) (fun_ : K -> E -> K * Z).

Fixpoint update_loop (k : K) (q : list E) (rv : Z) : K * Z :=
  match q with
  | [] => (k, rv)
  | x :: q => let '(k, r) := fun_ k x in update_loop k q (rv .| r)
  end.

Definition ngtcp2_pq_update (k : K) (pq : ngtcp2_pq E) : res (ngtcp2_pq E) * K :=
  if (pq_length pq =? 0)%nat then (Ok pq, k)
  else
    let '(k, rv) := update_loop k (pq_q pq) 0 in
    if negb (rv =? 0) then (pq_heapify (less k) (pq_length pq) pq, k) else (Ok pq, k).

Fixpoint each_loop (k : K) (q : list E) : Z * K :=
  match q with
  | [] => (0, k)
  | x :: q => let '(k, r) := fun_ k x in if negb (r =? 0) then (1, k) else each_loop k q
  end.

Definition ngtcp2_pq_each (k : K) (pq : ngtcp2_pq E) : Z * K :=
  if (pq_length pq =? 0)%nat then (0, k) else each_loop k (pq_q pq).
End Each.

(** ** Heap order *)

(** What a priority queue asks of its [less] function. *)
Class StrictWeakOrder {E} (less : E -> E -> bool) : Prop := {
  less_asym x y : less x y = true -> less y x = false;
  less_negtrans x y z : less x y = false -> less y z = false -> less x z = false
}.

Definition parent (i : nat) : nat := ((i - 1) / 2)%nat.

Lemma parent_spec i : (0 < i)%nat -> (parent i * 2 + 1 = i \/ parent i * 2 + 2 = i)%nat.
Proof.
  intros Hi. unfold parent. pose proof (Nat.div_mod (i - 1) 2 ltac:(lia)).
  pose proof (Nat.mod_upper_bound (i - 1) 2 ltac:(lia)). lia.
Qed.

Section Heap.
Context `{Countable E} (less : E -> E -> bool) `{!StrictWeakOrder less}.
Implicit Types (pq : ngtcp2_pq E) (q : list E) (i j k : nat).

Lemma less_irrefl x : less x x = false.
Proof. destruct (less x x) eqn:E1; [|done]. by rewrite (less_asym x x E1) in E1. Qed.

(** The element at [i] is not less than the one at [j]. *)
Definition not_less q i j : Prop :=
  forall x y, q !! i = Some x -> q !! j = Some y -> less x y = false.

(** Heap order between the elements whose parent is at [k] or after. *)
Definition heap_from k q : Prop :=
  forall j, (0 < j)%nat -> (k <= parent j)%nat -> not_less q j (parent j).

(** Every entry knows its position. *)
Definition indexed pq : Prop :=
  forall i x, pq_q pq !! i = Some x -> pq_index pq !! x = Some i.

Definition wf_pq pq : Prop := heap_from 0 (pq_q pq) /\ indexed pq.

Lemma not_less_trans q i j k y :
  q !! j = Some y -> not_less q i j -> not_less q j k -> not_less q i k.
Proof. intros Hy H1 H2 x z Hx Hz. eapply less_negtrans; [by eapply H1 | by eapply H2]. Qed.

Lemma indexed_inj pq i j x : indexed pq -> pq_q pq !! i = Some x -> pq_q pq !! j = Some x -> i = j.
Proof. intros Hi H1 H2. pose proof (Hi _ _ H1). pose proof (Hi _ _ H2). by simplify_eq. Qed.

(** *** The result of a swap *)

Lemma swap_spec pq i j :
  indexed pq -> (i < j < pq_length pq)%nat ->
  exists pq', swap pq i j = Ok pq' /\ indexed pq' /\ pq_q pq' ≡ₚ pq_q pq /\
    pq_q pq' !! i = pq_q pq !! j /\ pq_q pq' !! j = pq_q pq !! i /\
    (forall k, k <> i -> k <> j -> pq_q pq' !! k = pq_q pq !! k).
Proof.
  unfold pq_length. intros Hind Hij. unfold swap, at_index.
  destruct (lookup_lt_is_Some_2 (pq_q pq) i ltac:(lia)) as [a Ha].
  destruct (lookup_lt_is_Some_2 (pq_q pq) j ltac:(lia)) as [b Hb].
  rewrite Ha, Hb. cbn [mbind res_bind]. eexists. split; [done|]. simpl.
  assert (Hl : forall k, <[j:=a]> (<[i:=b]> (pq_q pq)) !! k =
    if decide (k = j) then Some a else if decide (k = i) then Some b else pq_q pq !! k).
  { intros k. destruct (decide (k = j)) as [->|].
    - apply list_lookup_insert_eq. rewrite length_insert. lia.
    - rewrite list_lookup_insert_ne by done. destruct (decide (k = i)) as [->|].
      + apply list_lookup_insert_eq. lia.
      + by rewrite list_lookup_insert_ne by done. }
  assert (a <> b) as Hab by (intros ->; pose proof (indexed_inj _ _ _ _ Hind Ha Hb); lia).
  split_and!.
  - intros k x. simpl. rewrite Hl. destruct (decide (k = j)) as [->|].
    { intros [= <-]. by rewrite lookup_insert_eq. }
    destruct (decide (k = i)) as [->|].
    { intros [= <-]. by rewrite lookup_insert_ne, lookup_insert_eq by done. }
    intros Hx. rewrite !lookup_insert_ne; [by apply Hind | |]; intros ->;
      match goal with H1 : pq_q pq !! ?i = Some ?x, H2 : pq_q pq !! ?j = Some ?x |- _ =>
        pose proof (indexed_inj _ _ _ _ Hind H1 H2); lia end.
  - by apply Permutation_insert_swap.
  - rewrite Hl. by rewrite decide_False, decide_True by lia.
  - rewrite Hl. by rewrite decide_True by lia.
  - intros k ? ?. rewrite Hl. by rewrite !decide_False by done.
Qed.

Lemma not_less_eq q q' i i' j j' :
  q' !! i' = q !! i -> q' !! j' = q !! j -> not_less q i j -> not_less q' i' j'.
Proof. intros H1 H2 Hn x y. rewrite H1, H2. apply Hn. Qed.

(** *** Bubbling up *)

(** Heap order but for the element at [i], whose children are in order with
    its parent. *)
Definition up_inv q i : Prop :=
  (forall j, (0 < j)%nat -> j <> i -> not_less q j (parent j)) /\
  (forall j, (0 < j)%nat -> (0 < i)%nat -> parent j = i -> not_less q j (parent i)).

Lemma up_inv_swap q q' i y :
  (0 < i)%nat -> up_inv q i -> not_less q (parent i) i -> q !! parent i = Some y ->
  q' !! parent i = q !! i -> q' !! i = q !! parent i ->
  (forall k, k <> parent i -> k <> i -> q' !! k = q !! k) ->
  up_inv q' (parent i).
Proof.
  intros Hi [Hup1 Hup2] Hyx Hy Hp' Hi' Hk. pose proof (parent_spec i Hi) as Hpi. split.
  - intros j Hj Hjp. pose proof (parent_spec j Hj) as Hpj.
    destruct (decide (j = i)) as [->|Hji]; [by apply (not_less_eq q _ (parent i) _ i)|].
    destruct (decide (parent j = parent i)) as [E0|Hne].
    { rewrite E0. eapply (not_less_eq q); [apply Hk; lia | exact Hp' |].
      eapply not_less_trans; [exact Hy | rewrite <- E0; by apply Hup1 | done]. }
    destruct (decide (parent j = i)) as [E0|Hne'].
    { rewrite E0. eapply (not_less_eq q); [apply Hk; lia | exact Hi' |]. by apply Hup2. }
    eapply (not_less_eq q); [apply Hk; lia | apply Hk; lia |]. by apply Hup1.
  - intros j Hj Hp E0. pose proof (parent_spec j Hj). pose proof (parent_spec (parent i) Hp).
    assert (Hgp : not_less q (parent i) (parent (parent i))) by (apply Hup1; lia).
    destruct (decide (j = i)) as [->|Hji].
    { eapply (not_less_eq q); [exact Hi' | apply Hk; lia | done]. }
    eapply (not_less_eq q); [apply Hk; lia | apply Hk; lia |].
    eapply not_less_trans; [exact Hy | rewrite <- E0; apply Hup1; lia | done].
Qed.

Lemma bubble_up_spec fuel pq i :
  (i < fuel)%nat -> (i < pq_length pq)%nat -> indexed pq -> up_inv (pq_q pq) i ->
  exists pq', bubble_up less fuel pq i = Ok pq' /\ wf_pq pq' /\ pq_q pq' ≡ₚ pq_q pq.
Proof.
  revert pq i. induction fuel as [|fuel IH]; intros pq i Hf Hl Hind Hup; [lia|].
  cbn [bubble_up].
  destruct (Nat.eqb_spec i 0) as [->|Hi].
  { exists pq. split; [done|]. split; [|done]. split; [|done].
    intros j Hj _. apply Hup; lia. }
  fold (parent i). pose proof (parent_spec i ltac:(lia)) as Hpi.
  unfold at_index, pq_length in *.
  destruct (lookup_lt_is_Some_2 (pq_q pq) i Hl) as [x Hx].
  destruct (lookup_lt_is_Some_2 (pq_q pq) (parent i) ltac:(lia)) as [y Hy].
  rewrite Hx, Hy. cbn [mbind res_bind]. destruct (less x y) eqn:Hless; cbn [negb].
  - destruct (swap_spec pq (parent i) i Hind) as (pq' & -> & Hind' & Hperm & H1 & H2 & H3).
    { unfold pq_length; lia. }
    cbn [mbind res_bind]. destruct (IH pq' (parent i)) as (pq2 & -> & Hwf & Hp2).
    + lia.
    + unfold pq_length. rewrite Hperm. lia.
    + done.
    + eapply up_inv_swap; [lia | exact Hup | | exact Hy | done | done | done].
      intros a b ? ?. simplify_eq. by apply less_asym.
    + exists pq2. split; [done|]. split; [done|]. by rewrite Hp2.
  - exists pq. split; [done|]. split; [|done]. split; [|done]. intros j Hj _.
    destruct (decide (j = i)) as [->|]; [|by apply Hup]. intros a b ? ?. by simplify_eq.
Qed.

(** *** Bubbling down *)

(** Heap order from [k] on but between [i] and its children, which are in
    order with the parent of [i]. *)
Definition down_inv k q i : Prop :=
  (forall j, (0 < j)%nat -> (k <= parent j)%nat -> parent j <> i -> not_less q j (parent j)) /\
  (forall j, (0 < j)%nat -> (0 < i)%nat -> (k <= parent i)%nat -> parent j = i ->
    not_less q j (parent i)).

Lemma min_child_spec n q j m :
  (m < length q)%nat ->
  exists m', min_child less n q j m = Ok m' /\ (m' < length q)%nat /\
    (m' = m \/ (j <= m' < j + n)%nat) /\ not_less q m m' /\
    (forall c, (j <= c < j + n)%nat -> not_less q c m').
Proof.
  revert j m. induction n as [|n IH]; intros j m Hm; simpl.
  { exists m. split_and!; try done; [by left | | lia].
    intros x y ? ?. simplify_eq. apply less_irrefl. }
  destruct (Nat.leb_spec (length q) j) as [Hj|Hj].
  { exists m. split_and!; try done; [by left | |].
    - intros x y ? ?. simplify_eq. apply less_irrefl.
    - intros c Hc x y Hx%lookup_lt_Some. lia. }
  destruct (lookup_lt_is_Some_2 q j Hj) as [x Hx]. destruct (lookup_lt_is_Some_2 q m Hm) as [y Hy].
  unfold at_index. rewrite Hx, Hy. cbn [mbind res_bind].
  destruct (IH (S j) (if less x y then j else m)) as (m' & -> & Hlt & Hor & Hm' & Hc).
  { by destruct (less x y). }
  exists m'. split; [done|]. split; [done|].
  assert (Hboth : not_less q m m' /\ not_less q j m').
  { destruct (less x y) eqn:Hless; split; try done.
    - eapply not_less_trans; [exact Hx | | done]. intros a b ? ?. simplify_eq. by apply less_asym.
    - eapply not_less_trans; [exact Hy | | done]. intros a b ? ?. by simplify_eq. }
  split_and!.
  - destruct (less x y); lia.
  - apply Hboth.
  - intros c Hcj. destruct (decide (c = j)) as [->|]; [apply Hboth | apply Hc; lia].
Qed.

Lemma down_inv_swap k q q' i m x :
  (0 < m)%nat -> parent m = i -> down_inv k q i ->
  not_less q i m -> (forall c, (0 < c)%nat -> parent c = i -> not_less q c m) ->
  q !! m = Some x ->
  q' !! i = q !! m -> q' !! m = q !! i ->
  (forall k, k <> i -> k <> m -> q' !! k = q !! k) ->
  down_inv k q' m.
Proof.
  intros Hm Hpm [Hd1 Hd2] Him Hc Hx Hi' Hm' Hk. pose proof (parent_spec m Hm) as Hp. split.
  - intros j Hj Hkj Hne. pose proof (parent_spec j Hj) as Hpj.
    destruct (decide (j = m)) as [->|Hjm].
    { rewrite Hpm. by apply (not_less_eq q _ i _ m). }
    destruct (decide (parent j = i)) as [E0|Hpj'].
    { rewrite E0. eapply (not_less_eq q); [apply Hk; lia | exact Hi' | by apply Hc]. }
    destruct (decide (j = i)) as [->|Hji].
    { eapply (not_less_eq q); [exact Hi' | apply Hk; lia |]. by apply Hd2. }
    eapply (not_less_eq q); [apply Hk; lia | apply Hk; lia |]. by apply Hd1.
  - intros j Hj _ Hkm E0. rewrite Hpm in *. pose proof (parent_spec j Hj) as Hpj.
    eapply (not_less_eq q); [apply Hk; lia | exact Hi' |]. rewrite <- E0. apply Hd1; lia.
Qed.

Lemma bubble_down_spec fuel k pq i :
  (pq_length pq < fuel + i)%nat -> (i < pq_length pq)%nat -> indexed pq ->
  down_inv k (pq_q pq) i ->
  exists pq', bubble_down less fuel pq i = Ok pq' /\ heap_from k (pq_q pq') /\ indexed pq' /\
    pq_q pq' ≡ₚ pq_q pq.
Proof.
  revert pq i. induction fuel as [|fuel IH]; intros pq i Hf Hl Hind Hdown; [lia|].
  cbn [bubble_down].
  destruct (min_child_spec 2 (pq_q pq) (i * 2 + 1) i Hl) as (m & -> & Hm & Hor & Him & Hc).
  cbn [mbind res_bind].
  assert (Hc' : forall c, (0 < c)%nat -> parent c = i -> not_less (pq_q pq) c m).
  { intros c Hc0 E0. pose proof (parent_spec c Hc0). apply Hc. lia. }
  destruct (Nat.eqb_spec m i) as [->|Hmi].
  - exists pq. split_and!; try done. intros j Hj Hk.
    destruct (decide (parent j = i)) as [E0|]; [rewrite E0; by apply Hc' | by apply Hdown].
  - destruct Hor as [?|Hor]; [done|]. assert (Hpm : parent m = i).
    { pose proof (parent_spec m ltac:(lia)). lia. }
    destruct (swap_spec pq i m Hind) as (pq' & -> & Hind' & Hperm & H1 & H2 & H3).
    { unfold pq_length. lia. }
    cbn [mbind res_bind]. assert (pq_length pq' = pq_length pq) by (unfold pq_length; by rewrite Hperm).
    destruct (lookup_lt_is_Some_2 (pq_q pq) m Hm) as [x Hx].
    destruct (IH pq' m) as (pq2 & -> & Hh & Hi2 & Hp2).
    + lia.
    + unfold pq_length in *. lia.
    + done.
    + eapply down_inv_swap; [| exact Hpm | exact Hdown | done | done | exact Hx | done | done | done]. lia.
    + exists pq2. split_and!; try done. by rewrite Hp2.
Qed.

(** ** The operations *)

(** Appending an element can only break the order at its position. *)
Lemma up_inv_app q item : heap_from 0 q -> up_inv (q ++ [item]) (length q).
Proof.
  intros Hh.
  assert (Hlt : forall j x, (q ++ [item]) !! j = Some x -> (j <= length q)%nat).
  { intros j x Hx%lookup_lt_Some. rewrite length_app in Hx. simpl in Hx. lia. }
  split.
  - intros j Hj Hne x y Hx Hy. pose proof (Hlt _ _ Hx). pose proof (parent_spec j Hj).
    rewrite lookup_app_l in Hx by lia. rewrite lookup_app_l in Hy by lia.
    eapply (Hh j); [done | lia | done | done].
  - intros j Hj Hi E0 x y Hx Hy. pose proof (Hlt _ _ Hx). pose proof (parent_spec j Hj). lia.
Qed.

Lemma pq_push_mem m pq item : mem_reliable m -> mem_reliable (ngtcp2_pq_push less m pq item).2.
Proof.
  intros Hm. unfold ngtcp2_pq_push, pq_reserve. destruct (_ <=? _); [|done].
  destruct (mem_alloc_reliable m Hm) as [Ha Hr]. destruct (mem_alloc m) as [ok m']. simpl in *. by subst ok.
Qed.

Lemma pq_push_spec m pq item :
  wf_pq pq -> item ∉ pq_q pq ->
  match ngtcp2_pq_push less m pq item with
  | (Ok pq', m') => wf_pq pq' /\ pq_q pq' ≡ₚ item :: pq_q pq
  | (Err e, _) => e = NGTCP2_ERR_NOMEM /\ ~ mem_reliable m
  | (Ub, _) => False
  end.
Proof.
  intros [Hh Hind] Hnin. unfold ngtcp2_pq_push, pq_reserve.
  pose proof (mem_alloc_reliable m) as Hm.
  assert (Hgo : forall cap, exists pq',
    bubble_up less (S (pq_length pq))
      (mk_pq (pq_q pq ++ [item]) cap (<[item := pq_length pq]> (pq_index pq))) (pq_length pq) = Ok pq' /\
    wf_pq pq' /\ pq_q pq' ≡ₚ item :: pq_q pq).
  { intros cap. edestruct bubble_up_spec as (pq' & Hup & Hwf & Hp); [| | | | exists pq'; split; [exact Hup|]].
    - lia.
    - unfold pq_length. simpl. rewrite length_app. simpl. lia.
    - intros i x. simpl. rewrite lookup_app_Some. intros [Hx|[Hi Hx]].
      + rewrite lookup_insert_ne; [by apply Hind|]. intros ->. by apply Hnin, (list_elem_of_lookup_2 _ i).
      + apply list_lookup_singleton_Some in Hx as [Hi0 <-]. rewrite lookup_insert_eq.
        f_equal. unfold pq_length. lia.
    - simpl. by apply up_inv_app.
    - split; [done|]. rewrite Hp. simpl. by rewrite Permutation_app_comm. }
  destruct (pq_capacity pq <=? Z.of_nat (pq_length pq)).
  - destruct (mem_alloc m) as [[] m']; cbn [mbind res_bind].
    + edestruct Hgo as (pq' & Hup & ?). unfold pq_length in *. cbn [pq_q pq_capacity pq_index].
      by rewrite Hup.
    + split; [done|]. intros Hr. by destruct (Hm Hr).
  - cbn [mbind res_bind]. edestruct Hgo as (pq' & Hup & ?). by rewrite Hup.
Qed.

(** The top is the least element. *)
Lemma heap_top_least q x : heap_from 0 q -> head q = Some x -> forall y, y ∈ q -> less y x = false.
Proof.
  intros Hh Hx y [i Hi]%list_elem_of_lookup. revert y Hi.
  induction (lt_wf i) as [i _ IH]. intros y Hi. destruct (decide (i = 0)%nat) as [->|Hi0].
  { destruct q; simplify_eq/=. apply less_irrefl. }
  pose proof (parent_spec i ltac:(lia)).
  destruct (lookup_lt_is_Some_2 q (parent i)) as [z Hz].
  { apply lookup_lt_Some in Hi. lia. }
  eapply less_negtrans; [eapply (Hh i); [lia | lia | done | done] |].
  by apply (IH (parent i)); [lia|].
Qed.

(** What replacing the element at [i] by the last one gives. *)
Lemma replace_by_last_spec pq i item :
  indexed pq -> pq_q pq !! i = Some item ->
  exists pq' last, replace_by_last pq i = Ok pq' /\ indexed pq' /\
    item :: pq_q pq' ≡ₚ pq_q pq /\ pq_length pq' = (pq_length pq - 1)%nat /\
    pq_q pq !! (pq_length pq - 1)%nat = Some last /\
    ((i < pq_length pq - 1)%nat -> pq_q pq' !! i = Some last) /\
    (forall j, j <> i -> (j < pq_length pq - 1)%nat -> pq_q pq' !! j = pq_q pq !! j).
Proof.
  intros Hind Hi. pose proof (lookup_lt_Some _ _ _ Hi) as Hlt. unfold replace_by_last, at_index.
  set (n := pq_length pq) in *. unfold pq_length in n.
  destruct (lookup_lt_is_Some_2 (pq_q pq) (n - 1) ltac:(lia)) as [last Hlast].
  rewrite Hlast. cbn [mbind res_bind]. eexists _, last. split; [done|]. unfold pq_length. simpl.
  assert (Hl : forall j, (j < n - 1)%nat -> take (n - 1) (<[i:=last]> (pq_q pq)) !! j =
    if decide (j = i) then Some last else pq_q pq !! j).
  { intros j Hj. rewrite lookup_take_lt by done. destruct (decide (j = i)) as [->|].
    - apply list_lookup_insert_eq. lia.
    - by rewrite list_lookup_insert_ne. }
  split_and!.
  - intros j x. simpl. intros Hx. pose proof Hx as [_ Hj]%lookup_take_Some. rewrite Hl in Hx by done.
    destruct (decide (j = i)) as [->|]; simplify_eq; [by rewrite lookup_insert_eq|].
    rewrite lookup_insert_ne; [by apply Hind|]. intros ->.
    pose proof (indexed_inj _ _ _ _ Hind Hx Hlast). lia.
  - rewrite <- (take_insert_ge _ (n - 1) (n - 1) item) by lia.
    rewrite <- (Permutation_insert_swap (pq_q pq) i (n - 1) item last) at 2 by done.
    set (l2 := <[(n - 1)%nat := item]> (<[i := last]> (pq_q pq))).
    assert (Hl2 : l2 !! (n - 1)%nat = Some item)
      by (apply list_lookup_insert_eq; rewrite length_insert; lia).
    rewrite <- (take_drop_middle _ _ _ Hl2) at 2.
    rewrite (drop_ge l2) by (unfold l2; rewrite !length_insert; lia).
    by rewrite Permutation_app_comm.
  - rewrite length_take, length_insert. lia.
  - done.
  - intros Hi'. rewrite Hl by done. by rewrite decide_True.
  - intros j Hj Hjn. rewrite Hl by done. by rewrite decide_False.
Qed.

Lemma pq_pop_spec pq :
  wf_pq pq ->
  exists pq', ngtcp2_pq_pop less pq = Ok pq' /\ wf_pq pq' /\
    match ngtcp2_pq_top pq with
    | None => pq' = pq
    | Some top => top :: pq_q pq' ≡ₚ pq_q pq
    end.
Proof.
  intros [Hh Hind]. unfold ngtcp2_pq_pop, ngtcp2_pq_top.
  destruct (Nat.ltb_spec 0 (pq_length pq)) as [Hl|Hl].
  2:{ exists pq. unfold pq_length in Hl.
      assert (pq_q pq = []) as -> by (apply length_zero_iff_nil; lia). done. }
  destruct (lookup_lt_is_Some_2 (pq_q pq) 0 Hl) as [top Htop].
  destruct (replace_by_last_spec pq 0 top Hind Htop)
    as (pq1 & last & -> & Hind1 & Hp1 & Hl1 & Hlast & H0 & Hj1).
  cbn [mbind res_bind]. rewrite (head_lookup (pq_q pq)), Htop.
  destruct (decide (pq_length pq1 = 0)%nat) as [Hz|Hnz].
  - assert (pq_q pq1 = []) as Hnil by (by apply length_zero_iff_nil).
    cbn [bubble_down]. rewrite Hnil. cbn. exists pq1. split; [done|]. split; [|done].
    split; [|done]. rewrite Hnil. intros j ? ? x y Hx. done.
  - destruct (bubble_down_spec (S (pq_length pq1)) 0 pq1 0) as (pq2 & -> & Hh2 & Hi2 & Hp2).
    + lia.
    + lia.
    + done.
    + split; [|intros; lia]. intros j Hj _ Hpj x y Hx Hy. pose proof (parent_spec j Hj).
      pose proof (lookup_lt_Some _ _ _ Hx). unfold pq_length in *.
      rewrite Hj1 in Hx by lia. rewrite Hj1 in Hy by lia. by eapply (Hh j); [|lia| |].
    + exists pq2. split; [done|]. split; [done|]. by rewrite Hp2.
Qed.

Lemma pq_remove_spec pq item :
  wf_pq pq -> item ∈ pq_q pq ->
  exists pq', ngtcp2_pq_remove less pq item = Ok pq' /\ wf_pq pq' /\ item :: pq_q pq' ≡ₚ pq_q pq.
Proof.
  intros [Hh Hind] [i Hi]%list_elem_of_lookup. unfold ngtcp2_pq_remove, at_index.
  rewrite (Hind _ _ Hi), Hi. cbn [mbind res_bind]. rewrite bool_decide_true by done.
  cbn [c_assert mbind res_bind]. pose proof (lookup_lt_Some _ _ _ Hi) as Hlt.
  destruct (Nat.eqb_spec i 0) as [->|Hi0].
  { destruct (pq_pop_spec pq) as (pq' & -> & Hwf & Hp); [done|].
    unfold ngtcp2_pq_top in Hp. rewrite head_lookup, Hi in Hp. by exists pq'. }
  destruct (Nat.eqb_spec i (pq_length pq - 1)) as [Hil|Hil].
  { eexists. split; [done|]. unfold wf_pq, indexed, heap_from, not_less. simpl. split; [split|].
    - intros j Hj Hp x y [Hx _]%lookup_take_Some [Hy _]%lookup_take_Some. by eapply (Hh j).
    - intros j x [Hx _]%lookup_take_Some. by apply Hind.
    - rewrite <- (take_drop_middle _ _ _ Hi) at 2. unfold pq_length in *.
      rewrite (drop_ge (pq_q pq)), Hil by lia. by rewrite Permutation_app_comm. }
  destruct (replace_by_last_spec pq i item Hind Hi)
    as (pq1 & last & -> & Hind1 & Hp1 & Hl1 & Hlast & H0 & Hj1).
  cbn [mbind res_bind]. unfold pq_length in Hil. specialize (H0 ltac:(unfold pq_length; lia)).
  rewrite H0. cbn [mbind res_bind]. pose proof (parent_spec i ltac:(lia)) as Hpi.
  assert (Hlt1 : forall j x, pq_q pq1 !! j = Some x -> (j < pq_length pq - 1)%nat).
  { intros j x Hx%lookup_lt_Some. unfold pq_length in *. lia. }
  assert (Hgp : forall j, (0 < j)%nat -> parent j = i -> not_less (pq_q pq1) j (parent i)).
  { intros j Hj E0 x y Hx Hy. pose proof (parent_spec j Hj). pose proof (Hlt1 _ _ Hx).
    rewrite Hj1 in Hx by lia. rewrite Hj1 in Hy by lia.
    eapply (not_less_trans (pq_q pq) j i); [exact Hi | rewrite <- E0 | | done | done]; apply Hh; lia. }
  assert (Hsame : forall j, (0 < j)%nat -> j <> i -> parent j <> i -> not_less (pq_q pq1) j (parent j)).
  { intros j Hj Hne Hp x y Hx Hy. pose proof (parent_spec j Hj). pose proof (Hlt1 _ _ Hx).
    rewrite Hj1 in Hx by lia. rewrite Hj1 in Hy by lia. by eapply (Hh j); [|lia| |]. }
  destruct (less item last) eqn:Hless.
  - destruct (bubble_down_spec (S (pq_length pq1)) 0 pq1 i) as (pq2 & -> & Hh2 & Hi2 & Hp2).
    + lia.
    + unfold pq_length in *. lia.
    + done.
    + split; [|intros; by apply Hgp]. intros j Hj _ Hpj.
      destruct (decide (j = i)) as [->|]; [|by apply Hsame].
      intros x y Hx Hy. simplify_eq. rewrite Hj1 in Hy by (unfold pq_length; lia).
      eapply less_negtrans; [by apply less_asym | by eapply (Hh i); [|lia| |]].
    + exists pq2. split; [done|]. split; [done|]. by rewrite Hp2.
  - destruct (bubble_up_spec (S i) pq1 i) as (pq2 & -> & Hwf2 & Hp2).
    + lia.
    + unfold pq_length in *. lia.
    + done.
    + split; [|intros; by apply Hgp]. intros j Hj Hne.
      destruct (decide (parent j = i)) as [E0|]; [|by apply Hsame].
      intros x y Hx Hy. pose proof (parent_spec j Hj). pose proof (Hlt1 _ _ Hx).
      rewrite E0 in Hy. simplify_eq. rewrite Hj1 in Hx by lia.
      eapply less_negtrans; [|exact Hless]. by eapply (Hh j); [|lia| |].
    + exists pq2. split; [done|]. split; [done|]. by rewrite Hp2.
Qed.

Lemma pq_heapify_spec i pq :
  (i <= pq_length pq)%nat -> indexed pq -> heap_from i (pq_q pq) ->
  exists pq', pq_heapify less i pq = Ok pq' /\ wf_pq pq' /\ pq_q pq' ≡ₚ pq_q pq.
Proof.
  revert pq. induction i as [|i IH]; intros pq Hi Hind Hh; cbn [pq_heapify].
  { by exists pq. }
  destruct (bubble_down_spec (S (pq_length pq)) i pq i) as (pq1 & -> & Hh1 & Hi1 & Hp1).
  - lia.
  - lia.
  - done.
  - split.
    + intros j Hj Hk Hne. apply Hh; lia.
    + intros j Hj Hi0 Hk E0. pose proof (parent_spec i Hi0). lia.
  - cbn [mbind res_bind]. destruct (IH pq1) as (pq2 & -> & Hwf & Hp2); [|done|done|].
    + unfold pq_length. rewrite Hp1. unfold pq_length in Hi. lia.
    + exists pq2. split; [done|]. split; [done|]. by rewrite Hp2.
Qed.

Lemma heap_from_length q : heap_from (length q) q.
Proof.
  intros j Hj Hk x y Hx%lookup_lt_Some. pose proof (parent_spec j Hj). lia.
Qed.
End Heap.

(** The order matters only between the elements. *)
Lemma wf_pq_ext `{Countable E} (less less' : E -> E -> bool) (pq : ngtcp2_pq E) :
  (forall x y, x ∈ pq_q pq -> y ∈ pq_q pq -> less x y = less' x y) ->
  wf_pq less pq -> wf_pq less' pq.
Proof.
  intros Heq [Hh Hind]. split; [|done]. intros j Hj Hp x y Hx Hy.
  rewrite <- Heq by (by eapply list_elem_of_lookup_2). by eapply (Hh j).
Qed.

Lemma indexed_NoDup `{Countable E} (pq : ngtcp2_pq E) : indexed pq -> NoDup (pq_q pq).
Proof. intros Hind. apply NoDup_alt. intros i j x. by apply indexed_inj. Qed.

(** The order of numbers, for the examples. *)
#[global] Instance ltb_order : StrictWeakOrder Z.ltb.
Proof.
  split; [intros x y H; apply Z.ltb_lt in H; apply Z.ltb_ge; lia|].
  intros x y z H1 H2. rewrite Z.ltb_ge in *. lia.
Qed.

(** ** Properties *)

Section Properties.
Context `{Countable E} (less : E -> E -> bool) `{!StrictWeakOrder less}.
Implicit Types (pq : ngtcp2_pq E).

(** Pushing an item keeps the heap in order and every entry's recorded
    position right, and adds the item to the others; the only failure is a lack of
    memory when the array has to grow. *)
Theorem pq_push_heap m pq item :
  wf_pq less pq -> item ∉ pq_q pq ->
  match ngtcp2_pq_push less m pq item with
  | (Ok pq', _) => wf_pq less pq' /\ pq_q pq' ≡ₚ item :: pq_q pq
  | (Err e, _) => e = NGTCP2_ERR_NOMEM /\ ~ mem_reliable m
  | (Ub, _) => False
  end.
Proof. apply pq_push_spec. done. Qed.

(** C28. [ngtcp2_pq_pop] removes the top, no item is less than the top, and the
    heap of the others is again in order with right positions: repeated, the
    items come out sorted. An empty queue stays empty. *)
Theorem pq_pop_least pq :
  wf_pq less pq ->
  exists pq', ngtcp2_pq_pop less pq = Ok pq' /\ wf_pq less pq' /\
    match ngtcp2_pq_top pq with
    | None => pq_q pq = [] /\ pq' = pq
    | Some top => top :: pq_q pq' ≡ₚ pq_q pq /\ forall x, x ∈ pq_q pq -> less x top = false
    end.
Proof.
  intros Hwf. destruct (pq_pop_spec less pq Hwf) as (pq' & H1 & H2 & H3).
  exists pq'. split; [done|]. split; [done|]. unfold ngtcp2_pq_top in *.
  destruct (pq_q pq) as [|top q] eqn:Hq; [done|]. simpl in *. split; [done|].
  rewrite <- Hq. apply (heap_top_least less); [apply Hwf | by rewrite Hq].
Qed.

(** [ngtcp2_pq_remove] finds an item by its recorded position, wherever it is
    in the heap, removes it and no other, and restores the order. *)
Theorem pq_remove_item pq item :
  wf_pq less pq -> item ∈ pq_q pq ->
  exists pq', ngtcp2_pq_remove less pq item = Ok pq' /\ wf_pq less pq' /\
    item :: pq_q pq' ≡ₚ pq_q pq.
Proof. apply pq_remove_spec. done. Qed.
End Properties.

(** [ngtcp2_pq_update] restores the heap after its callback has changed the
    keys of any of the items, provided that the callback reports a change when
    it has made one; the items stay the same. *)
Theorem pq_update_heap `{Countable E} {K : Type} (less : K -> E -> E -> bool)
    `{!forall k, StrictWeakOrder (less k)} (fun_ : K -> E -> K * Z) (k : K) (pq : ngtcp2_pq E) :
  wf_pq (less k) pq ->
  ((update_loop fun_ k (pq_q pq) 0).2 = 0 ->
    forall x y, less (update_loop fun_ k (pq_q pq) 0).1 x y = less k x y) ->
  exists pq' k', ngtcp2_pq_update less fun_ k pq = (Ok pq', k') /\ wf_pq (less k') pq' /\
    pq_q pq' ≡ₚ pq_q pq.
Proof.
  intros Hwf Hsame. unfold ngtcp2_pq_update. destruct (Nat.eqb_spec (pq_length pq) 0); [by exists pq, k|].
  destruct (update_loop fun_ k (pq_q pq) 0) as [k' rv]. simpl in Hsame.
  destruct (Z.eqb_spec rv 0) as [Hz|Hz]; cbn [negb].
  - exists pq, k'. split_and!; [done | | done]. eapply wf_pq_ext; [|done]. intros. symmetry. by apply Hsame.
  - destruct (pq_heapify_spec (less k') (pq_length pq) pq) as (pq' & H1 & H2 & H3);
      [done | apply Hwf | apply heap_from_length |]. exists pq', k'. by rewrite H1.
Qed.

Definition example_pq : ngtcp2_pq Z := mk_pq [2; 5; 3; 9] 4 
  {[2 := 0%nat; 5 := 1%nat; 3 := 2%nat; 9 := 3%nat]}.

Lemma example_pq_wf : wf_pq Z.ltb example_pq.
Proof.
  split.
  - intros j Hj _ x y Hx Hy. pose proof (lookup_lt_Some _ _ _ Hx) as Hl. simpl in Hl.
    destruct j as [|[|[|[|j]]]]; [lia| | | |lia]; vm_compute in Hx, Hy; simplify_eq; done.
  - intros i x Hx. pose proof (lookup_lt_Some _ _ _ Hx) as Hl. simpl in Hl.
    destruct i as [|[|[|[|i]]]]; try lia; simplify_eq/=; done.
Qed.

Lemma pq_pop_least_witness :
  exists pq', ngtcp2_pq_pop Z.ltb example_pq = Ok pq' /\ wf_pq Z.ltb pq' /\ 2 :: pq_q pq' ≡ₚ [2; 5; 3; 9].
Proof.
  destruct (pq_pop_least Z.ltb example_pq example_pq_wf) as (pq' & H1 & H2 & H3 & _). by exists pq'.
Defined.

(** The callback reverses the order. *)
Definition example_less (k : bool) (x y : Z) : bool := if k then y <? x else x <? y.

#[global] Instance example_less_order k : StrictWeakOrder (example_less k).
Proof.
  split; unfold example_less; destruct k; intros *; rewrite ?Z.ltb_lt, ?Z.ltb_ge; lia.
Qed.

Lemma pq_update_heap_witness :
  exists pq' k', ngtcp2_pq_update example_less (fun _ _ => (true, 1)) false example_pq = (Ok pq', k') /\
    wf_pq (example_less k') pq' /\ pq_q pq' ≡ₚ pq_q example_pq.
Proof.
  apply (pq_update_heap example_less (fun _ _ => (true, 1)) false example_pq); [apply example_pq_wf|].
  intros Hz. by vm_compute in Hz.
Defined.
