(* ===== verification/Rtb.v ===== *)
(** The retransmission buffer: [ngtcp2_rtb.c]. It keeps the packets that have
    been sent and are not acknowledged, in a list ordered by packet number and
    in a priority queue ordered by expiry.

    A pointer to an [ngtcp2_rtb_entry] is a [handle]; the entries are in a
    store. The [index] members of the entries are in the priority queue, and
    their links [pprev] and [next] are the list [rtb_head]. *)

From Stdlib Require Import Sorted.
From S2P Require Import Prelude Frame PktHd Mem Range Gaptr Pq AckScan.

Definition NGTCP2_INITIAL_EXPIRY : Z := 1000000.
Definition NGTCP2_RTB_FLAG_NONE : Z := 0x00.
Definition NGTCP2_RTB_FLAG_UNPROTECTED : Z := 1.

(** [frc], the chain of the frames in the packet, is a list. *)
Record ngtcp2_rtb_entry := mk_rtb_entry {
  re_hd : ngtcp2_pkt_hd;
  re_frc : list ngtcp2_frame;
  re_expiry : Z;
  re_deadline : Z;
  re_count : Z;
  re_pktlen : Z;
  re_flags : Z
}.

Abbreviation handle := positive.
Abbreviation rtb_store := (gmap positive ngtcp2_rtb_entry).

Record ngtcp2_rtb := mk_rtb {
  rtb_pq : ngtcp2_pq handle;
  rtb_head : list handle;
  rtb_bytes_in_flight : Z;
  rtb_largest_acked : Z
}.

Definition ngtcp2_rtb_entry_new (m : mem) (hd : ngtcp2_pkt_hd) (frc : list ngtcp2_frame)
    (ts deadline pktlen flags : Z) : res ngtcp2_rtb_entry * mem :=
  let '(ok, m) := mem_alloc m in
  if ok then
    (Ok (mk_rtb_entry hd frc (u64 (ts + NGTCP2_INITIAL_EXPIRY)) deadline 0 pktlen flags), m)
  else (Err NGTCP2_ERR_NOMEM, m).

(** A shift by 64 or more is undefined. *)
Definition ngtcp2_rtb_entry_extend_expiry (ent : ngtcp2_rtb_entry) (ts : Z) : res ngtcp2_rtb_entry :=
  let count := u64 (re_count ent + 1) in
  _ ← c_assert (count <? 64);
  Ok (mk_rtb_entry (re_hd ent) (re_frc ent) (u64 (ts + u64 (NGTCP2_INITIAL_EXPIRY .<< count)))
        (re_deadline ent) count (re_pktlen ent) (re_flags ent)).

(** Members of the entry a pointer refers to. *)
Definition expiry_of (st : rtb_store) (h : handle) : Z := from_option re_expiry 0 (st !! h).
Definition pkt_num_of (st : rtb_store) (h : handle) : Z :=
  from_option (fun e => hd_pkt_num (re_hd e)) 0 (st !! h).
Definition pktlen_of (st : rtb_store) (h : handle) : Z := from_option re_pktlen 0 (st !! h).

Definition expiry_less (st : rtb_store) (lhs rhs : handle) : bool :=
  expiry_of st lhs <? expiry_of st rhs.

Definition ngtcp2_rtb_init : ngtcp2_rtb := mk_rtb ngtcp2_pq_init [] 0 0.

Definition ngtcp2_rtb_add (m : mem) (st : rtb_store) (rtb : ngtcp2_rtb) (ent : handle) :
    res ngtcp2_rtb * mem :=
  let '(r, m) := ngtcp2_pq_push (expiry_less st) m (rtb_pq rtb) ent in
  (pq ← r;
   Ok (mk_rtb pq (ent :: rtb_head rtb) (u64 (rtb_bytes_in_flight rtb + pktlen_of st ent))
         (rtb_largest_acked rtb)), m).

Definition ngtcp2_rtb_top (rtb : ngtcp2_rtb) : option handle :=
  if ngtcp2_pq_empty (rtb_pq rtb) then None else ngtcp2_pq_top (rtb_pq rtb).

(** [*pent = ent->next], where [pent] is the link to [ent]. *)
Definition unlink (ent : handle) (l : list handle) : list handle := filter (fun h => h <> ent) l.

Definition ngtcp2_rtb_pop (st : rtb_store) (rtb : ngtcp2_rtb) : res ngtcp2_rtb :=
  if ngtcp2_pq_empty (rtb_pq rtb) then Ok rtb
  else
    match ngtcp2_pq_top (rtb_pq rtb) with
    | None => Ub
    | Some ent =>
        pq ← ngtcp2_pq_pop (expiry_less st) (rtb_pq rtb);
        _ ← c_assert (pktlen_of st ent <=? rtb_bytes_in_flight rtb);
        Ok (mk_rtb pq (unlink ent (rtb_head rtb))
              (u64 (rtb_bytes_in_flight rtb - pktlen_of st ent)) (rtb_largest_acked rtb))
    end.

(** ** Acknowledgement

    The retransmission buffer reaches the streams of the connection through
    these operations of [ngtcp2_conn.c] and of the application; [C] is the
    state of the connection, [ST] the type of pointers to its streams. An error
    code is a value, since the connection may have changed before the error. *)
Class RtbConn (C ST : Type) := {
  (** the allocator *)
  rc_mem : C -> mem;
  rc_set_mem : mem -> C -> C;
  (** [conn && conn->callbacks.acked_stream_data_offset] *)
  rc_has_acked_stream_data_offset : C -> bool;
  (** [ngtcp2_conn_find_stream] *)
  rc_find_stream : C -> Z -> res (option ST);
  (** [strm->acked_tx_offset] *)
  rc_acked_tx_offset : C -> ST -> res ngtcp2_gaptr;
  rc_set_acked_tx_offset : C -> ST -> ngtcp2_gaptr -> res C;
  (** the callback, with its stream, offset and length *)
  rc_acked_stream_data_offset : C -> ST -> Z -> Z -> res (C * Z);
  (** [ngtcp2_conn_close_stream_if_shut_rdwr(conn, strm, NGTCP2_NO_ERROR)] *)
  rc_close_stream_if_shut_rdwr : C -> ST -> res (C * Z)
}.

Section RecvAck.
Context `{RtbConn C ST}.

(** The connection and the return value. *)
Fixpoint call_acked_stream_offset (conn : C) (frc : list ngtcp2_frame) : res (C * Z) :=
  match frc with
  | [] => Ok (conn, 0)
  | fr_stream fr :: frc =>
      strm ← rc_find_stream conn (stream_stream_id fr);
      match strm with
      | None => call_acked_stream_offset conn frc
      | Some strm =>
          gaptr ← rc_acked_tx_offset conn strm;
          let prev_stream_offset := ngtcp2_gaptr_first_gap_offset gaptr in
          let '(gaptr, rv, m) :=
            ngtcp2_gaptr_push (rc_mem conn) gaptr (stream_offset fr) (zlen (stream_data fr)) in
          conn ← rc_set_acked_tx_offset (rc_set_mem m conn) strm gaptr;
          if negb (rv =? 0) then Ok (conn, rv)
          else
            let offset := ngtcp2_gaptr_first_gap_offset gaptr in
            let datalen := u64 (offset - prev_stream_offset) in
            if (datalen =? 0) && (stream_fin fr =? 0) then call_acked_stream_offset conn frc
            else
              '(conn, rv) ← rc_acked_stream_data_offset conn strm prev_stream_offset datalen;
              if negb (rv =? 0) then Ok (conn, NGTCP2_ERR_CALLBACK_FAILURE)
              else
                '(conn, rv) ← rc_close_stream_if_shut_rdwr conn strm;
                if negb (rv =? 0) then Ok (conn, rv)
                else call_acked_stream_offset conn frc
      end
  | _ :: frc => call_acked_stream_offset conn frc
  end.

(** What the walk over the list changes besides the list. *)
Record rtb_walk := mk_walk {
  w_store : rtb_store;
  w_pq : ngtcp2_pq handle;
  w_bytes_in_flight : Z;
  w_largest_acked : Z;
  w_conn : C
}.

(** [rtb_remove], without the unlinking; the entry is freed. *)
Definition rtb_remove (w : rtb_walk) (ent : handle) : res rtb_walk :=
  pq ← ngtcp2_pq_remove (expiry_less (w_store w)) (w_pq w) ent;
  _ ← c_assert (pktlen_of (w_store w) ent <=? w_bytes_in_flight w);
  Ok (mk_walk (delete ent (w_store w)) pq
        (u64 (w_bytes_in_flight w - pktlen_of (w_store w) ent)) (w_largest_acked w) (w_conn w)).

(** The body of the loops for an entry in the range. *)
Definition rtb_on_acked (unprotected : bool) (w : res rtb_walk) (ent : handle) :
    res rtb_walk * verdict :=
  match w with
  | Ok w =>
      match w_store w !! ent with
      | None => (Ub, v_stop 0)
      | Some e =>
          if unprotected && (re_flags e .& NGTCP2_RTB_FLAG_UNPROTECTED =? 0) then (Ok w, v_keep)
          else
            let r :=
              if rc_has_acked_stream_data_offset (w_conn w) then
                call_acked_stream_offset (w_conn w) (re_frc e)
              else Ok (w_conn w, 0) in
            match r with
            | Ok (conn, rv) =>
                if negb (rv =? 0) then
                  (Ok (mk_walk (w_store w) (w_pq w) (w_bytes_in_flight w) (w_largest_acked w) conn), v_stop rv)
                else
                  (rtb_remove (mk_walk (w_store w) (w_pq w) (w_bytes_in_flight w)
                     (Z.max (w_largest_acked w) (hd_pkt_num (re_hd e))) conn) ent, v_remove)
            | _ => (Ub, v_stop 0)
            end
      end
  | r => (r, v_stop 0)
  end.

(** The store, the buffer, the connection and the return value. *)
Definition ngtcp2_rtb_recv_ack (st : rtb_store) (rtb : ngtcp2_rtb) (fr : ngtcp2_ack)
    (unprotected : bool) (conn : C) : res (rtb_store * ngtcp2_rtb * C * Z) :=
  let w := mk_walk st (rtb_pq rtb) (rtb_bytes_in_flight rtb) (rtb_largest_acked rtb) conn in
  let '(l, r, rv) := ack_scan (pkt_num_of st) (rtb_on_acked unprotected) fr (Ok w) (rtb_head rtb) in
  w ← r;
  Ok (w_store w, mk_rtb (w_pq w) l (w_bytes_in_flight w) (w_largest_acked w), w_conn w, rv).
End RecvAck.

(** ** Invariant *)

#[global] Instance expiry_less_order st : StrictWeakOrder (expiry_less st).
Proof.
  split; unfold expiry_less; intros *; rewrite ?Z.ltb_lt, ?Z.ltb_ge; lia.
Qed.

(** The sum of the lengths of the packets. *)
Definition sum_pktlen (st : rtb_store) (l : list handle) : Z :=
  foldr (fun h s => pktlen_of st h + s) 0 l.

#[global] Instance sum_pktlen_perm st : Proper ((≡ₚ) ==> (=)) (sum_pktlen st).
Proof. induction 1; simpl; lia. Qed.

(** A frame that can be acknowledged: the offsets of stream data are in range. *)
Definition ackable (fr : ngtcp2_frame) : Prop :=
  match fr with
  | fr_stream s => 0 <= stream_offset s /\ stream_offset s + zlen (stream_data s) <= UINT64_MAX
  | _ => True
  end.

Definition entry_ok (e : ngtcp2_rtb_entry) : Prop := 0 <= re_pktlen e /\ Forall ackable (re_frc e).

(** Every packet is in the store, with a length that is a [size_t]. *)
Definition in_store (st : rtb_store) (h : handle) : Prop :=
  exists e, st !! h = Some e /\ entry_ok e.

Record wf_rtb (st : rtb_store) (rtb : ngtcp2_rtb) : Prop := {
  wf_rtb_pq : wf_pq (expiry_less st) (rtb_pq rtb);
  wf_rtb_perm : pq_q (rtb_pq rtb) ≡ₚ rtb_head rtb;
  wf_rtb_store : Forall (in_store st) (rtb_head rtb);
  wf_rtb_bytes : rtb_bytes_in_flight rtb = sum_pktlen st (rtb_head rtb);
  wf_rtb_bound : rtb_bytes_in_flight rtb < 2 ^ 64
}.

(** The list is in decreasing order of packet numbers. *)
Definition sorted_rtb (st : rtb_store) (rtb : ngtcp2_rtb) : Prop :=
  decreasing (pkt_num_of st) (rtb_head rtb).

Lemma pktlen_in_store st h : in_store st h -> 0 <= pktlen_of st h.
Proof. intros (e & He & ? & _). unfold pktlen_of. by rewrite He. Qed.

Lemma sum_pktlen_nonneg st l : Forall (in_store st) l -> 0 <= sum_pktlen st l.
Proof. induction 1 as [|h l Hh _ IH]; simpl; [lia|]. pose proof (pktlen_in_store _ _ Hh). lia. Qed.

Lemma rtb_init_wf st : wf_rtb st ngtcp2_rtb_init.
Proof.
  split; simpl; done.
Qed.

Lemma rtb_add_mem m st rtb ent : mem_reliable m -> mem_reliable (ngtcp2_rtb_add m st rtb ent).2.
Proof.
  intros Hm. unfold ngtcp2_rtb_add. pose proof (pq_push_mem (expiry_less st) m (rtb_pq rtb) ent Hm) as H.
  by destruct (ngtcp2_pq_push _ _ _ _).
Qed.

(** A packet is added at the head. *)
Lemma rtb_add_spec m st rtb ent :
  wf_rtb st rtb -> in_store st ent -> ent ∉ rtb_head rtb ->
  rtb_bytes_in_flight rtb + pktlen_of st ent < 2 ^ 64 ->
  match ngtcp2_rtb_add m st rtb ent with
  | (Ok rtb', _) => wf_rtb st rtb' /\ rtb_head rtb' = ent :: rtb_head rtb
  | (Err e, _) => e = NGTCP2_ERR_NOMEM /\ ~ mem_reliable m
  | (Ub, _) => False
  end.
Proof.
  intros [Hpq Hperm Hst Hb Hbound] Hent Hnin Hlen. unfold ngtcp2_rtb_add.
  pose proof (pq_push_spec (expiry_less st) m (rtb_pq rtb) ent Hpq) as Hpush.
  rewrite Hperm in Hpush. specialize (Hpush Hnin).
  destruct (ngtcp2_pq_push _ m (rtb_pq rtb) ent) as [[pq|e|] m']; [|done|done].
  destruct Hpush as [Hwf Hp]. cbn [mbind res_bind]. split; [|done].
  pose proof (pktlen_in_store _ _ Hent). pose proof (sum_pktlen_nonneg _ _ Hst).
  split; simpl; try done.
  - by rewrite Hp, Hperm.
  - by constructor.
  - rewrite u64_small by clia. lia.
  - rewrite u64_small by clia. lia.
Qed.

Lemma rtb_NoDup st rtb : wf_rtb st rtb -> NoDup (rtb_head rtb).
Proof. intros []. rewrite <- wf_rtb_perm0. by apply indexed_NoDup, wf_rtb_pq0. Qed.

Lemma unlink_perm ent l : NoDup l -> ent ∈ l -> ent :: unlink ent l ≡ₚ l.
Proof.
  induction 1 as [|h l Hh Hl IH]; intros Hin; [by apply elem_of_nil in Hin|].
  unfold unlink. apply elem_of_cons in Hin as [->|Hin].
  - rewrite filter_cons_False by naive_solver. f_equiv.
    rewrite filter_all; [done|]. rewrite list.Forall_forall. by intros x Hx ->.
  - rewrite filter_cons_True by (intros ->; done).
    rewrite Permutation_swap. f_equiv. by apply IH.
Qed.

(** The packet with the least expiry leaves the buffer; the caller keeps it. *)
Lemma rtb_pop_spec st rtb :
  wf_rtb st rtb ->
  exists rtb', ngtcp2_rtb_pop st rtb = Ok rtb' /\ wf_rtb st rtb' /\
    rtb_largest_acked rtb' = rtb_largest_acked rtb /\
    match ngtcp2_rtb_top rtb with
    | None => rtb' = rtb /\ rtb_head rtb = []
    | Some ent => ent ∈ rtb_head rtb /\ rtb_head rtb' = unlink ent (rtb_head rtb) /\
        forall h, h ∈ rtb_head rtb -> expiry_of st ent <= expiry_of st h
    end.
Proof.
  intros Hwf. pose proof (rtb_NoDup _ _ Hwf) as Hnd. pose proof Hwf as [Hpq Hperm Hst Hb Hbound].
  unfold ngtcp2_rtb_pop, ngtcp2_rtb_top, ngtcp2_pq_empty, ngtcp2_pq_top, pq_length.
  destruct (pq_pop_spec (expiry_less st) (rtb_pq rtb) Hpq) as (pq' & Hpop & Hwf' & Hp').
  unfold ngtcp2_pq_top in Hp'.
  destruct (pq_q (rtb_pq rtb)) as [|ent q] eqn:E0; simpl in *.
  { exists rtb. symmetry in Hperm. apply Permutation_nil_r in Hperm. done. }
  assert (ent ∈ rtb_head rtb) as Hin by (rewrite <- Hperm; by left).
  pose proof (unlink_perm _ _ Hnd Hin) as Hun.
  pose proof (sum_pktlen_nonneg st (unlink ent (rtb_head rtb)) ltac:(by apply Forall_filter)) as Hsum.
  rewrite <- Hun in Hb. simpl in Hb.
  rewrite list.Forall_forall in Hst. pose proof (pktlen_in_store _ _ (Hst _ Hin)).
  rewrite Hpop. cbn [mbind res_bind]. rewrite (proj2 (Z.leb_le _ _)) by lia.
  cbn [c_assert mbind res_bind]. eexists. split; [done|]. rewrite u64_small by clia.
  split; [|split; [done|]].
  - split; simpl; try done; try lia.
    + apply (Permutation_cons_inv (a := ent)). by rewrite Hp', Hperm, Hun.
    + apply Forall_filter. by rewrite list.Forall_forall.
  - split_and!; [done | done |]. intros h Hh. rewrite <- Hperm, <- E0 in Hh.
    pose proof (heap_top_least (expiry_less st) (pq_q (rtb_pq rtb)) ent ltac:(apply Hpq)
      ltac:(by rewrite E0) h Hh) as Hle.
    unfold expiry_less in Hle. by apply Z.ltb_ge in Hle.
Qed.

(** ** Acknowledgement removes the acknowledged packets *)

Definition flags_of (st : rtb_store) (h : handle) : Z := from_option re_flags 0 (st !! h).

(** The ACK frame may acknowledge the packet: an ACK frame in an unprotected
    packet acknowledges unprotected packets only. *)
Definition removable (unprotected : bool) (st : rtb_store) (h : handle) : bool :=
  negb (unprotected && (flags_of st h .& NGTCP2_RTB_FLAG_UNPROTECTED =? 0)).

Lemma sum_pktlen_ext st st' l :
  (forall h, h ∈ l -> st !! h = st' !! h) -> sum_pktlen st l = sum_pktlen st' l.
Proof.
  induction l as [|h l IH]; intros Heq; simpl; [done|].
  rewrite IH by (intros; apply Heq; by right). unfold pktlen_of. by rewrite Heq by left.
Qed.

Lemma decreasing_ext {A} (pn pn' : A -> Z) l :
  (forall h, h ∈ l -> pn h = pn' h) -> decreasing pn l -> decreasing pn' l.
Proof.
  intros Heq H. induction H as [|h l Hl IH Hh]; [constructor|].
  constructor; [apply IH; intros; apply Heq; by right|].
  rewrite list.Forall_forall in *. intros x Hx.
  rewrite <- !Heq by (by left || by right). by apply Hh.
Qed.

(** The invariant depends only on the entries of the packets in the buffer. *)
Lemma wf_rtb_store_ext st st' rtb :
  (forall h, h ∈ rtb_head rtb -> st !! h = st' !! h) -> wf_rtb st rtb -> wf_rtb st' rtb.
Proof.
  intros Heq [Hpq Hperm Hst Hb Hbound]. split; try done.
  - eapply wf_pq_ext; [|done]. intros x y. rewrite Hperm. intros Hx Hy.
    unfold expiry_less, expiry_of. by rewrite !Heq.
  - rewrite list.Forall_forall in *. intros h Hh. unfold in_store. rewrite <- Heq by done. by apply Hst.
  - by rewrite <- (sum_pktlen_ext st).
Qed.

Lemma decreasing_middle {A} (pn : A -> Z) pre x l : decreasing pn (pre ++ x :: l) -> decreasing pn (pre ++ l).
Proof.
  induction pre as [|y pre IH]; simpl; intros [Hd Hlt]%decreasing_inv; [done|].
  constructor; [by apply IH|]. rewrite Forall_app in *. destruct Hlt as [? Hlt].
  split; [done|]. by apply list.Forall_cons in Hlt as [_ ?].
Qed.

(** What the buffer relies on: from a state that satisfies [inv], with a stream
    pointer that is [live], the operations of the connection run without
    undefined behaviour and lead to such a state. *)
Class RtbConnOk (C ST : Type) `{RtbConn C ST} (inv : C -> Prop) (live : C -> ST -> Prop) : Prop := {
  rc_has_const c c' : rc_has_acked_stream_data_offset c = rc_has_acked_stream_data_offset c';
  rc_find_ok c id : inv c ->
    exists o, rc_find_stream c id = Ok o /\ forall s, o = Some s -> live c s;
  rc_acked_ok c s : inv c -> live c s ->
    exists gaptr, rc_acked_tx_offset c s = Ok gaptr /\ wf_gaptr gaptr;
  rc_set_acked_ok c m s gaptr : inv c -> live c s -> wf_gaptr gaptr ->
    (mem_reliable (rc_mem c) -> mem_reliable m) ->
    exists c', rc_set_acked_tx_offset (rc_set_mem m c) s gaptr = Ok c' /\ inv c' /\ live c' s;
  rc_callback_ok c s offset datalen : inv c -> live c s -> rc_has_acked_stream_data_offset c = true ->
    exists c' rv, rc_acked_stream_data_offset c s offset datalen = Ok (c', rv) /\ inv c' /\ live c' s;
  rc_close_ok c s : inv c -> live c s ->
    exists c' rv, rc_close_stream_if_shut_rdwr c s = Ok (c', rv) /\ inv c'
}.

Section RecvFacts.
Context `{RtbConnOk C ST inv live}.
Implicit Types (w : rtb_walk (C := C)).

Lemma call_acked_spec conn frc :
  inv conn -> rc_has_acked_stream_data_offset conn = true -> Forall ackable frc ->
  exists conn' rv, call_acked_stream_offset conn frc = Ok (conn', rv) /\ inv conn'.
Proof.
  intros Hi Hhas Hf. revert conn Hi Hhas. induction Hf as [|fr frc Hfr _ IH]; intros conn Hi Hhas;
    cbn [call_acked_stream_offset]; [by eexists _, _|].
  destruct fr as [fr| | | | | | | | | | | | | | | |]; try by apply IH.
  destruct (rc_find_ok conn (stream_stream_id fr) Hi) as (o & -> & Hlive). cbn [mbind res_bind].
  destruct o as [strm|]; [|by apply IH]. specialize (Hlive strm eq_refl).
  destruct (rc_acked_ok conn strm Hi Hlive) as (gaptr & -> & Hg). cbn [mbind res_bind].
  destruct Hfr as [Ho He].
  pose proof (gaptr_push_spec (rc_mem conn) gaptr (stream_offset fr) (zlen (stream_data fr)) Hg Ho
    (zlen_nonneg _) He) as Hp.
  destruct (ngtcp2_gaptr_push _ _ _ _) as [[gaptr' rv] m]. destruct Hp as (Hg' & _ & Hm & _).
  destruct (rc_set_acked_ok conn m strm gaptr' Hi Hlive Hg' (fun H => proj2 (Hm H))) as (c1 & -> & Hi1 & Hl1). cbn [mbind res_bind].
  destruct (negb (rv =? 0)); [by eexists _, _|].
  destruct (_ && _); [apply IH; [done | by rewrite <- Hhas; apply rc_has_const]|].
  edestruct (rc_callback_ok c1 strm) as (c2 & rv2 & -> & Hi2 & Hl2);
    [done | done | by rewrite <- Hhas; apply rc_has_const |]. cbn [mbind res_bind].
  destruct (negb (rv2 =? 0)); [by eexists _, _|].
  destruct (rc_close_ok c2 strm Hi2 Hl2) as (c3 & rv3 & -> & Hi3). cbn [mbind res_bind].
  destruct (negb (rv3 =? 0)); [by eexists _, _|].
  apply IH; [done | by rewrite <- Hhas; apply rc_has_const].
Qed.

Definition walk_rtb w (l : list handle) : ngtcp2_rtb :=
  mk_rtb (w_pq w) l (w_bytes_in_flight w) (w_largest_acked w).
Definition walk_ok w (l : list handle) : Prop := wf_rtb (w_store w) (walk_rtb w l) /\ inv (w_conn w).

Lemma rtb_remove_spec w pre ent l :
  walk_ok w (pre ++ ent :: l) ->
  exists w', rtb_remove w ent = Ok w' /\ walk_ok w' (pre ++ l) /\
    w_store w' = delete ent (w_store w) /\ w_largest_acked w' = w_largest_acked w /\
    w_conn w' = w_conn w.
Proof.
  intros [Hok Hinv]. pose proof (rtb_NoDup _ _ Hok) as Hnd. destruct Hok as [Hpq Hperm Hst Hb Hbound].
  simpl in *. unfold rtb_remove.
  destruct (pq_remove_spec (expiry_less (w_store w)) (w_pq w) ent Hpq) as (pq' & -> & Hwf' & Hp').
  { rewrite Hperm. apply elem_of_app. right. by left. }
  cbn [mbind res_bind]. rewrite <- Permutation_middle in Hb, Hperm, Hst, Hnd. simpl in Hb.
  apply list.Forall_cons in Hst as [Hent Hst]. apply NoDup_cons in Hnd as [Hnin Hnd].
  pose proof (pktlen_in_store _ _ Hent). pose proof (sum_pktlen_nonneg _ _ Hst).
  rewrite (proj2 (Z.leb_le _ _)) by lia. cbn [c_assert mbind res_bind].
  eexists. split; [done|]. split; [|done]. split; [|done]. unfold walk_rtb. simpl.
  rewrite u64_small by clia.
  apply (wf_rtb_store_ext (w_store w)).
  - simpl. intros h Hh. rewrite lookup_delete_ne; [done|]. intros ->. done.
  - split; simpl; try done; try lia.
    apply (Permutation_cons_inv (a := ent)). by rewrite Hp', Hperm.
Qed.

(** One acknowledged packet. *)
Lemma rtb_on_acked_spec unprotected w pre ent l :
  walk_ok w (pre ++ ent :: l) ->
  exists w' v, rtb_on_acked unprotected (Ok w) ent = (Ok w', v) /\
  match v with
  | v_keep => w' = w /\ removable unprotected (w_store w) ent = false
  | v_remove => walk_ok w' (pre ++ l) /\ w_store w' = delete ent (w_store w) /\
      removable unprotected (w_store w) ent = true /\
      w_largest_acked w' = Z.max (w_largest_acked w) (pkt_num_of (w_store w) ent)
  | v_stop rv => rv <> 0 /\ walk_ok w' (pre ++ ent :: l) /\ w_store w' = w_store w /\
      w_largest_acked w' = w_largest_acked w
  end.
Proof.
  intros Hok. pose proof Hok as [Hwf Hinv]. unfold rtb_on_acked.
  assert (in_store (w_store w) ent) as (e & He & Hlen & Hfr).
  { pose proof (wf_rtb_store _ _ Hwf) as Hst. simpl in Hst. rewrite list.Forall_forall in Hst.
    apply Hst, elem_of_app. right. by left. }
  rewrite He. unfold removable, flags_of, pkt_num_of. rewrite He. simpl from_option.
  destruct (unprotected && _); [by eexists _, v_keep|].
  assert (exists conn rv, (if rc_has_acked_stream_data_offset (w_conn w) then
    call_acked_stream_offset (w_conn w) (re_frc e) else Ok (w_conn w, 0)) = Ok (conn, rv) /\ inv conn)
    as (conn & rv & -> & Hinv').
  { destruct (rc_has_acked_stream_data_offset (w_conn w)) eqn:Hhas; [by apply call_acked_spec | by eexists _, _]. }
  destruct (Z.eqb_spec rv 0) as [->|Hrv]; cbn [negb].
  - set (w1 := mk_walk _ _ _ _ _).
    destruct (rtb_remove_spec w1 pre ent l) as (w' & -> & Hok' & Hs & Hla & _).
    { destruct Hwf. by split. }
    by eexists _, v_remove.
  - eexists _, (v_stop rv). split; [done|]. split; [done|]. split; [|done].
    destruct Hwf. by split.
Qed.

(** The packets the walk removes when no callback fails. *)
Definition rtb_acked (fr : ngtcp2_ack) (unprotected : bool) (st : rtb_store) (h : handle) : bool :=
  acked_by fr (pkt_num_of st h) && removable unprotected st h.

Lemma foldr_max_comm a x l : foldr Z.max (Z.max a x) l = Z.max x (foldr Z.max a l).
Proof. induction l; simpl; lia. Qed.

Lemma removable_ext unprotected st st' h :
  st !! h = st' !! h -> removable unprotected st h = removable unprotected st' h.
Proof. intros Heq. unfold removable, flags_of. by rewrite Heq. Qed.

Lemma visit_walk_spec fr unprotected st w pre l :
  walk_ok w (pre ++ l) -> (forall h, h ∈ pre ++ l -> w_store w !! h = st !! h) ->
  exists l' w' rv,
    visit_acked (pkt_num_of st) (rtb_on_acked unprotected) (acked_by fr) (Ok w) l = (l', Ok w', rv) /\
    walk_ok w' (pre ++ l') /\ (forall h, h ∈ pre ++ l' -> w_store w' !! h = st !! h) /\
    (rv = 0 -> l' = filter (fun h => rtb_acked fr unprotected st h = false) l /\
      w_largest_acked w' = foldr Z.max (w_largest_acked w)
        (pkt_num_of st <$> filter (fun h => rtb_acked fr unprotected st h = true) l)).
Proof.
  revert w pre. induction l as [|ent l IH]; intros w pre Hok Heq; cbn [visit_acked].
  { by eexists _, _, _. }
  assert (Hent : w_store w !! ent = st !! ent) by (apply Heq, elem_of_app; right; by left).
  assert (Hkeep : rtb_acked fr unprotected st ent = false -> exists l' w' rv,
    keep ent (visit_acked (pkt_num_of st) (rtb_on_acked unprotected) (acked_by fr) (Ok w) l) = (l', Ok w', rv) /\
    walk_ok w' (pre ++ l') /\ (forall h, h ∈ pre ++ l' -> w_store w' !! h = st !! h) /\
    (rv = 0 -> l' = filter (fun h => rtb_acked fr unprotected st h = false) (ent :: l) /\
      w_largest_acked w' = foldr Z.max (w_largest_acked w)
        (pkt_num_of st <$> filter (fun h => rtb_acked fr unprotected st h = true) (ent :: l)))).
  { intros Hf. destruct (IH w (pre ++ [ent])) as (l' & w' & rv & -> & Hok' & Heq' & Hrv);
      [by rewrite <- app_assoc | by rewrite <- app_assoc |].
    rewrite <- app_assoc in Hok', Heq'. eexists _, _, _. split; [done|]. split; [done|]. split; [done|].
    intros Hz. destruct (Hrv Hz) as [-> ->].
    by rewrite filter_cons_True, (filter_cons_False (fun h => _ = true)) by (by rewrite ?Hf). }
  destruct (acked_by fr (pkt_num_of st ent)) eqn:Ha; [|apply Hkeep; unfold rtb_acked; by rewrite Ha].
  unfold scan_visit.
  destruct (rtb_on_acked_spec unprotected w pre ent l Hok) as (w1 & v & -> & Hv).
  pose proof (removable_ext unprotected _ _ _ Hent) as Hr.
  destruct v as [| |rv1].
  - destruct Hv as [-> Hrem]. apply Hkeep. unfold rtb_acked. by rewrite Ha, <- Hr, Hrem.
  - destruct Hv as (Hok1 & Hs1 & Hrem & Hla).
    pose proof (rtb_NoDup _ _ (proj1 Hok)) as Hnd. simpl in Hnd. rewrite <- Permutation_middle in Hnd.
    apply NoDup_cons in Hnd as [Hnin _].
    destruct (IH w1 pre Hok1) as (l' & w' & rv & -> & Hok' & Heq' & Hrv).
    { intros h Hh. rewrite Hs1, lookup_delete_ne by (intros ->; done).
      apply Heq. rewrite <- Permutation_middle. by right. }
    eexists _, _, _. split; [done|]. split; [done|]. split; [done|].
    intros Hz. destruct (Hrv Hz) as [-> ->].
    assert (Ht : rtb_acked fr unprotected st ent = true) by (unfold rtb_acked; by rewrite Ha, <- Hr, Hrem).
    rewrite filter_cons_False, (filter_cons_True (fun h => _ = true)) by (by rewrite ?Ht).
    split; [done|]. rewrite Hla, foldr_max_comm. simpl. unfold pkt_num_of at 1. by rewrite Hent.
  - destruct Hv as (Hrv & Hok1 & Hs1 & _). eexists _, _, _. split; [done|]. split; [done|].
    rewrite Hs1. done.
Qed.

Lemma rtb_recv_ack_spec st rtb fr unprotected (conn : C) :
  wf_rtb st rtb -> sorted_rtb st rtb -> inv conn -> valid_ack fr ->
  exists st' rtb' conn' rv,
    ngtcp2_rtb_recv_ack st rtb fr unprotected conn = Ok (st', rtb', conn', rv) /\
    wf_rtb st' rtb' /\ inv conn' /\ (forall h, h ∈ rtb_head rtb' -> st' !! h = st !! h) /\
    (rv = 0 ->
      rtb_head rtb' = filter (fun h => rtb_acked fr unprotected st h = false) (rtb_head rtb) /\
      rtb_largest_acked rtb' = foldr Z.max (rtb_largest_acked rtb)
        (pkt_num_of st <$> filter (fun h => rtb_acked fr unprotected st h = true) (rtb_head rtb))).
Proof.
  intros Hwf Hdec Hi Hv. unfold ngtcp2_rtb_recv_ack. rewrite ack_scan_equiv by done.
  destruct (visit_walk_spec fr unprotected st
    (mk_walk st (rtb_pq rtb) (rtb_bytes_in_flight rtb) (rtb_largest_acked rtb) conn) [] (rtb_head rtb))
    as (l' & w' & rv & -> & [Hok Hi'] & Heq & Hrv); [by destruct rtb | done |].
  cbn [mbind res_bind]. by eexists _, _, _, _.
Qed.

(** Whatever the order of the list, the walk takes out acknowledged packets
    only, and keeps the invariant. *)
Lemma rtb_recv_ack_safe st rtb fr unprotected (conn : C) :
  wf_rtb st rtb -> inv conn -> valid_ack fr ->
  exists st' rtb' conn' rv,
    ngtcp2_rtb_recv_ack st rtb fr unprotected conn = Ok (st', rtb', conn', rv) /\
    wf_rtb st' rtb' /\ inv conn' /\ rtb_head rtb' `sublist_of` rtb_head rtb /\
    (forall h, h ∈ rtb_head rtb' -> st' !! h = st !! h) /\ st' ⊆ st /\
    (forall h, h ∉ rtb_head rtb -> st' !! h = st !! h) /\
    (forall h, h ∈ rtb_head rtb -> rtb_acked fr unprotected st h = false -> h ∈ rtb_head rtb') /\
    rtb_largest_acked rtb <= rtb_largest_acked rtb'.
Proof.
  intros Hwf Hi Hv. unfold ngtcp2_rtb_recv_ack.
  pose proof (ack_scan_inv (pkt_num_of st) (rtb_on_acked unprotected)
    (fun r l => exists w, r = Ok w /\ walk_ok w l /\ l `sublist_of` rtb_head rtb /\
      (forall h, h ∈ l -> w_store w !! h = st !! h) /\ w_store w ⊆ st /\
      (forall h, h ∉ rtb_head rtb -> w_store w !! h = st !! h) /\
      (forall h, h ∈ rtb_head rtb -> rtb_acked fr unprotected st h = false -> h ∈ l) /\
      rtb_largest_acked rtb <= w_largest_acked w)
    fr (Ok (mk_walk st (rtb_pq rtb) (rtb_bytes_in_flight rtb) (rtb_largest_acked rtb) conn))
    (rtb_head rtb) Hv) as Hscan.
  destruct (ack_scan _ _ _ _ _) as [[l r] rv]. destruct Hscan as (w & -> & [H1 H2] & H3 & H4 & H5 & H5' & H6 & H7).
  - intros r1 pre e l1 Ha (w & -> & Hok & Hsub & Heq & Hst & Hst' & Hkeep & Hla).
    destruct (rtb_on_acked_spec unprotected w pre e l1 Hok) as (w' & v & -> & Hv').
    assert (Hin : e ∈ pre ++ e :: l1) by (apply elem_of_app; right; by left).
    destruct v as [| |rv1].
    + destruct Hv' as [-> _]. exists w. by split_and!.
    + destruct Hv' as (Hok' & Hs & Hrem & Hla'). exists w'.
      pose proof (rtb_NoDup _ _ (proj1 Hok)) as Hnd. simpl in Hnd. rewrite <- Permutation_middle in Hnd.
      apply NoDup_cons in Hnd as [Hnin _]. split_and!; try done.
      * etrans; [|done]. apply sublist_app; [done | by apply sublist_cons].
      * intros h Hh. rewrite Hs, lookup_delete_ne by (intros ->; done).
        apply Heq. rewrite <- Permutation_middle. by right.
      * rewrite Hs. etrans; [apply delete_subseteq | done].
      * intros h Hh. rewrite Hs, lookup_delete_ne; [by apply Hst'|]. intros <-.
        apply Hh. by eapply elem_of_sublist.
      * intros h Hh Hna. specialize (Hkeep h Hh Hna). rewrite <- Permutation_middle in Hkeep.
        apply elem_of_cons in Hkeep as [->|?]; [|done]. unfold rtb_acked in Hna.
        rewrite <- (removable_ext _ _ _ _ (Heq _ Hin)), Hrem, Ha in Hna. done.
      * lia.
    + destruct Hv' as (_ & Hok' & Hs & Hla'). exists w'. rewrite Hs, Hla'. by split_and!.
  - exists (mk_walk st (rtb_pq rtb) (rtb_bytes_in_flight rtb) (rtb_largest_acked rtb) conn).
    destruct rtb. by split_and!.
  - cbn [mbind res_bind]. by eexists _, _, _, _.
Qed.
End RecvFacts.

Lemma extend_expiry_spec ent ts :
  0 <= re_count ent < 42 -> 0 <= ts < 2 ^ 63 ->
  exists ent', ngtcp2_rtb_entry_extend_expiry ent ts = Ok ent' /\
    re_count ent' = re_count ent + 1 /\
    re_expiry ent' = ts + NGTCP2_INITIAL_EXPIRY * 2 ^ (re_count ent + 1) /\
    re_hd ent' = re_hd ent /\ re_frc ent' = re_frc ent /\ re_pktlen ent' = re_pktlen ent.
Proof.
  intros Hc Ht. unfold ngtcp2_rtb_entry_extend_expiry.
  rewrite (u64_small (re_count ent + 1)) by clia. rewrite (proj2 (Z.ltb_lt _ _)) by lia.
  cbn [c_assert mbind res_bind]. rewrite Z.shiftl_mul_pow2 by lia.
  assert (0 <= 2 ^ (re_count ent + 1) <= 2 ^ 42) by
    (split; [apply Z.pow_nonneg | apply Z.pow_le_mono_r]; lia).
  unfold NGTCP2_INITIAL_EXPIRY. eexists. split; [done|]. simpl. split_and!; try done.
  rewrite (u64_small (1000000 * _)), u64_small by clia. done.
Qed.

(** ** Properties *)

(** C16. An ACK frame takes exactly the packets it acknowledges out of the
    retransmission buffer: those in its ranges (if it came unprotected, only the
    unprotected ones), from the list, the heap and the count of bytes in flight
    alike; the largest acknowledged number is updated with theirs. This holds
    whatever the callbacks of the connection do; when one fails, the walk stops
    with the remaining packets in order. No assertion fails. *)
Theorem rtb_recv_ack_removes `{RtbConnOk C ST inv live} st rtb fr unprotected (conn : C) :
  wf_rtb st rtb -> sorted_rtb st rtb -> inv conn -> valid_ack fr ->
  exists st' rtb' conn' rv,
    ngtcp2_rtb_recv_ack st rtb fr unprotected conn = Ok (st', rtb', conn', rv) /\
    wf_rtb st' rtb' /\ inv conn' /\ (forall h, h ∈ rtb_head rtb' -> st' !! h = st !! h) /\
    (rv = 0 ->
      rtb_head rtb' = filter (fun h => rtb_acked fr unprotected st h = false) (rtb_head rtb) /\
      rtb_largest_acked rtb' = foldr Z.max (rtb_largest_acked rtb)
        (pkt_num_of st <$> filter (fun h => rtb_acked fr unprotected st h = true) (rtb_head rtb))).
Proof. apply rtb_recv_ack_spec. Qed.

(** Adding a packet with a number above all others keeps the buffer in order
    and adds its length to the bytes in flight; the only failure is a lack of
    memory. *)
Theorem rtb_add_newest m st rtb ent :
  wf_rtb st rtb -> sorted_rtb st rtb -> in_store st ent -> ent ∉ rtb_head rtb ->
  Forall (fun h => pkt_num_of st h < pkt_num_of st ent) (rtb_head rtb) ->
  rtb_bytes_in_flight rtb + pktlen_of st ent < 2 ^ 64 ->
  match ngtcp2_rtb_add m st rtb ent with
  | (Ok rtb', _) => wf_rtb st rtb' /\ sorted_rtb st rtb' /\ rtb_head rtb' = ent :: rtb_head rtb /\
      rtb_bytes_in_flight rtb' = rtb_bytes_in_flight rtb + pktlen_of st ent
  | (Err e, _) => e = NGTCP2_ERR_NOMEM /\ ~ mem_reliable m
  | (Ub, _) => False
  end.
Proof.
  intros Hwf Hs Hin Hnew Hgt Hb. pose proof (rtb_add_spec m st rtb ent Hwf Hin Hnew Hb) as Ha.
  destruct (ngtcp2_rtb_add m st rtb ent) as [[rtb'|e|] m']; [|done..]. destruct Ha as [Hw Hh].
  unfold sorted_rtb. rewrite Hh. split_and!; [done | by constructor | done |].
  rewrite (wf_rtb_bytes _ _ Hw), Hh, (wf_rtb_bytes _ _ Hwf). simpl. lia.
Qed.

(** [ngtcp2_rtb_top] is a packet whose timer expires first, and
    [ngtcp2_rtb_pop] takes it, and no other packet, out of the buffer; an empty
    buffer stays as it is. *)
Theorem rtb_pop_earliest st rtb :
  wf_rtb st rtb ->
  exists rtb', ngtcp2_rtb_pop st rtb = Ok rtb' /\ wf_rtb st rtb' /\
    (sorted_rtb st rtb -> sorted_rtb st rtb') /\
    match ngtcp2_rtb_top rtb with
    | None => rtb' = rtb /\ rtb_head rtb = []
    | Some ent => ent ∈ rtb_head rtb /\ rtb_head rtb' = unlink ent (rtb_head rtb) /\
        forall h, h ∈ rtb_head rtb -> expiry_of st ent <= expiry_of st h
    end.
Proof.
  intros Hwf. destruct (rtb_pop_spec st rtb Hwf) as (rtb' & H1 & H2 & _ & H3). exists rtb'.
  split_and!; try done. unfold sorted_rtb. destruct (ngtcp2_rtb_top rtb); [|by destruct H3 as [-> _]].
  destruct H3 as (_ & -> & _). by apply decreasing_filter.
Qed.

(** C36. The timer of a packet backs off exponentially: the [n]-th extension sets
    it to [2^n] times the initial timeout from now, as long as neither the count
    nor the time overflows. *)
Theorem extend_expiry_backoff ent ts :
  0 <= re_count ent < 42 -> 0 <= ts < 2 ^ 63 ->
  exists ent', ngtcp2_rtb_entry_extend_expiry ent ts = Ok ent' /\
    re_count ent' = re_count ent + 1 /\
    re_expiry ent' = ts + NGTCP2_INITIAL_EXPIRY * 2 ^ (re_count ent + 1) /\
    re_hd ent' = re_hd ent /\ re_frc ent' = re_frc ent /\ re_pktlen ent' = re_pktlen ent.
Proof. apply extend_expiry_spec. Qed.

(** Two packets in flight; the second one expires first. *)
Definition example_store : rtb_store :=
  {[1%positive := mk_rtb_entry (mk_pkt_hd 0 0x1f 7 10 0) [fr_stream (mk_stream 0 0 4 0 [1; 2])] 500 9000 0 100 0;
    2%positive := mk_rtb_entry (mk_pkt_hd 0 0x1f 7 11 0) [] 400 9000 0 50 0]}.
Definition example_rtb : ngtcp2_rtb :=
  mk_rtb (mk_pq [2%positive; 1%positive] 4 {[2%positive := 0%nat; 1%positive := 1%nat]})
    [2%positive; 1%positive] 150 3.

Lemma example_rtb_wf : wf_rtb example_store example_rtb.
Proof.
  split.
  - split.
    + intros j Hj _ x y Hx Hy. pose proof (lookup_lt_Some _ _ _ Hx) as Hl. simpl in Hl.
      destruct j as [|[|j]]; [lia| |lia]. vm_compute in Hx, Hy. by simplify_eq.
    + intros [|[|i]] x Hx; simplify_eq/=; done.
  - done.
  - repeat constructor; eexists; (split; [reflexivity | by repeat constructor]).
  - reflexivity.
  - done.
Qed.

Lemma example_rtb_sorted : sorted_rtb example_store example_rtb.
Proof. repeat constructor; vm_compute; done. Qed.

(** A connection with one stream, which counts the calls of its callback. *)
Definition example_conn : Type := ngtcp2_gaptr * Z.
#[global] Instance example_rtb_conn : RtbConn example_conn unit := {
  rc_mem _ := [];
  rc_set_mem _ c := c;
  rc_has_acked_stream_data_offset _ := true;
  rc_find_stream _ id := Ok (if id =? 4 then Some tt else None);
  rc_acked_tx_offset c _ := Ok (fst c);
  rc_set_acked_tx_offset c _ gaptr := Ok (gaptr, snd c);
  rc_acked_stream_data_offset c _ _ _ := Ok ((fst c, snd c + 1), 0);
  rc_close_stream_if_shut_rdwr c _ := Ok (c, 0)
}.

#[global] Instance example_rtb_conn_ok :
  RtbConnOk example_conn unit (fun c => wf_gaptr (fst c)) (fun _ _ => True).
Proof.
  split; intros; simpl; try by eauto.
Qed.

Lemma rtb_recv_ack_removes_witness :
  exists st' rtb' conn' rv,
    ngtcp2_rtb_recv_ack example_store example_rtb (mk_ack 10 0 0 []) false
      ((mk_gaptr [mk_range 0 UINT64_MAX], 0) : example_conn) = Ok (st', rtb', conn', rv) /\
    wf_rtb st' rtb' /\ wf_gaptr (fst conn') /\
    (rv = 0 -> rtb_head rtb' = [2%positive] /\ rtb_largest_acked rtb' = 10).
Proof.
  destruct (rtb_recv_ack_removes example_store example_rtb (mk_ack 10 0 0 []) false
    ((mk_gaptr [mk_range 0 UINT64_MAX], 0) : example_conn))
    as (st' & rtb' & conn' & rv & H1 & H2 & H3 & _ & H4).
  - apply example_rtb_wf.
  - apply example_rtb_sorted.
  - split_and!; done.
  - split; [|reflexivity]. unfold wf_frame. by split_and!.
  - by exists st', rtb', conn', rv.
Defined.

Lemma rtb_add_newest_witness :
  let st := <[3%positive := mk_rtb_entry (mk_pkt_hd 0 0x1f 7 12 0) [] 300 9000 0 20 0]> example_store in
  match ngtcp2_rtb_add [] st ngtcp2_rtb_init 3%positive with
  | (Ok rtb', _) => rtb_head rtb' = [3%positive] /\ rtb_bytes_in_flight rtb' = 20
  | _ => True
  end.
Proof.
  intros st. pose proof (rtb_add_newest [] st ngtcp2_rtb_init 3%positive (rtb_init_wf st)
    ltac:(constructor) ltac:(eexists; split; [reflexivity | by repeat constructor]) (not_elem_of_nil _) ltac:(constructor) ltac:(by vm_compute)) as H.
  destruct (ngtcp2_rtb_add _ _ _ _) as [[rtb'|e|] m']; [|done..]. apply H.
Defined.

Lemma extend_expiry_backoff_witness :
  exists ent', ngtcp2_rtb_entry_extend_expiry
    (mk_rtb_entry (mk_pkt_hd 0 0x1f 7 10 0) [] 500 9000 2 100 0) 7 = Ok ent' /\
    re_expiry ent' = 7 + 8000000.
Proof.
  destruct (extend_expiry_backoff (mk_rtb_entry (mk_pkt_hd 0 0x1f 7 10 0) [] 500 9000 2 100 0) 7)
    as (ent' & H1 & _ & H2 & _); [simpl; lia | lia | by exists ent'].
Defined.
