(* ===== verification/Map.v ===== *)
(** The hash table: [ngtcp2_map.c], with chaining and FNV-1a hashing of 64-bit
    keys. An [ngtcp2_map_entry] is embedded in an object; [V] stands for the
    object. A bucket is the list of the entries of its chain. *)

From S2P Require Import Prelude Conv Frame Mem.

Definition INITIAL_TABLE_LENGTH : Z := 256.

Record ngtcp2_map_entry (V : Type) := mk_map_entry { me_key : Z; me_val : V }.
Arguments mk_map_entry {V}.
Arguments me_key {V}.
Arguments me_val {V}.

Abbreviation chain V := (list (ngtcp2_map_entry V)).

Record ngtcp2_map (V : Type) := mk_map {
  map_table : list (chain V);
  map_size : Z;
  map_tablelen : Z
}.
Arguments mk_map {V}.
Arguments map_table {V}.
Arguments map_size {V}.
Arguments map_tablelen {V}.

(** One step of FNV-1a. *)
Definition fnv1a_step (h b : Z) : Z := u32 (Z.lxor h b * 0x01000193).

(** [p] runs over the bytes of [bswap64(key)] in memory. *)
Definition hash (key md : Z) : Z :=
  fold_left fnv1a_step (le_store 8 (bswap64 key)) 0x811C9DC5 .& u32 (md - 1).

Section Map.
Context {V : Type}.
Implicit Types (map : ngtcp2_map V) (entry : ngtcp2_map_entry V).

Definition ngtcp2_map_init (m : mem) : res (ngtcp2_map V) * mem :=
  let '(ok, m) := mem_alloc m in
  if ok then
    (Ok (mk_map (replicate (Z.to_nat INITIAL_TABLE_LENGTH) []) 0 INITIAL_TABLE_LENGTH), m)
  else (Err NGTCP2_ERR_NOMEM, m).

(** The entry, and the chain its [next] points to. *)
Definition ngtcp2_map_entry_init (key : Z) (v : V) : ngtcp2_map_entry V * chain V :=
  (mk_map_entry key v, []).

Definition has_key (key : Z) (c : chain V) : bool := existsb (fun p => me_key p =? key) c.

(** [next] is the chain at [entry->next]: an empty bucket takes the entry as
    it is, with whatever follows it. *)
Definition insert (table : list (chain V)) (tablelen : Z) entry (next : chain V) :
    res (list (chain V)) :=
  let h := Z.to_nat (hash (me_key entry) tablelen) in
  match table !! h with
  | None => Ub
  | Some [] => Ok (<[h := entry :: next]> table)
  | Some c =>
      if has_key (me_key entry) c then Err NGTCP2_ERR_INVALID_ARGUMENT
      else Ok (<[h := entry :: c]> table)
  end.

(** The inner loop of [resize] moves the entries of one bucket; the result of
    [insert] is ignored. *)
Fixpoint move_chain (new_table : list (chain V)) (new_tablelen : Z) (c : chain V) :
    res (list (chain V)) :=
  match c with
  | [] => Ok new_table
  | entry :: c =>
      match insert new_table new_tablelen entry [] with
      | Ok t => move_chain t new_tablelen c
      | Err _ => move_chain new_table new_tablelen c
      | Ub => Ub
      end
  end.

Fixpoint move_table (new_table : list (chain V)) (new_tablelen : Z) (table : list (chain V)) :
    res (list (chain V)) :=
  match table with
  | [] => Ok new_table
  | c :: table => t ← move_chain new_table new_tablelen c; move_table t new_tablelen table
  end.

Definition resize (m : mem) map (new_tablelen : Z) : res (ngtcp2_map V) * mem :=
  let '(ok, m) := mem_alloc m in
  if ok then
    (t ← move_table (replicate (Z.to_nat new_tablelen) []) new_tablelen (map_table map);
     Ok (mk_map t (map_size map) new_tablelen), m)
  else (Err NGTCP2_ERR_NOMEM, m).

(** The map, the return value and the allocator; a failed insertion may have
    resized the table. *)
Definition ngtcp2_map_insert (m : mem) map entry (next : chain V) :
    res (ngtcp2_map V * Z) * mem :=
  let '(r, m) :=
    if u32 (map_tablelen map * 3) <? u64 (u64 (map_size map + 1) * 4) then
      match resize m map (u32 (map_tablelen map * 2)) with
      | (Ok map, m) => (Ok (map, 0), m)
      | (Err e, m) => (Ok (map, e), m)
      | (Ub, m) => (Ub, m)
      end
    else (Ok (map, 0), m) in
  ('(map, rv) ← r;
   if negb (rv =? 0) then Ok (map, rv)
   else
     match insert (map_table map) (map_tablelen map) entry next with
     | Ok t => Ok (mk_map t (u64 (map_size map + 1)) (map_tablelen map), 0)
     | Err e => Ok (map, e)
     | Ub => Ub
     end, m).

Fixpoint chain_find (key : Z) (c : chain V) : option (ngtcp2_map_entry V) :=
  match c with
  | [] => None
  | entry :: c => if me_key entry =? key then Some entry else chain_find key c
  end.

Definition ngtcp2_map_find map (key : Z) : res (option (ngtcp2_map_entry V)) :=
  match map_table map !! Z.to_nat (hash key (map_tablelen map)) with
  | None => Ub
  | Some c => Ok (chain_find key c)
  end.

Fixpoint chain_remove (key : Z) (c : chain V) : option (chain V) :=
  match c with
  | [] => None
  | entry :: c => if negb (me_key entry =? key) then cons entry <$> chain_remove key c else Some c
  end.

Definition ngtcp2_map_remove map (key : Z) : res (ngtcp2_map V * Z) :=
  let h := Z.to_nat (hash key (map_tablelen map)) in
  match map_table map !! h with
  | None => Ub
  | Some c =>
      match chain_remove key c with
      | Some c => Ok (mk_map (<[h := c]> (map_table map)) (u64 (map_size map - 1)) (map_tablelen map), 0)
      | None => Ok (map, NGTCP2_ERR_INVALID_ARGUMENT)
      end
  end.

Definition ngtcp2_map_size map : Z := map_size map.

(** [func] is called with each entry, until it fails; [S] is the state it changes. *)
Fixpoint each_entry {S} (func : S -> ngtcp2_map_entry V -> S * Z) (s : S) (c : chain V) : S * Z :=
  match c with
  | [] => (s, 0)
  | entry :: c => let '(s, rv) := func s entry in if negb (rv =? 0) then (s, rv) else each_entry func s c
  end.

Definition ngtcp2_map_each {S} (func : S -> ngtcp2_map_entry V -> S * Z) (s : S) map : S * Z :=
  fold_left (fun '(s, rv) c => if negb (rv =? 0) then (s, rv) else each_entry func s c)
    (map_table map) (s, 0).

Definition ngtcp2_map_each_free {S} (func : S -> ngtcp2_map_entry V -> S) (s : S) map :
    S * ngtcp2_map V :=
  (fold_left (fun s c => fold_left func c s) (map_table map) s,
   mk_map (replicate (length (map_table map)) []) (map_size map) (map_tablelen map)).
End Map.

(** ** Refinement of finite maps *)

Lemma hash_range key k : 0 <= k < 32 -> 0 <= hash key (2 ^ k) < 2 ^ k.
Proof.
  intros Hk. assert (0 < 2 ^ k < 2 ^ 32) by
    (split; [apply Z.pow_pos_nonneg | apply Z.pow_lt_mono_r]; lia).
  unfold hash. rewrite u32_small by clia.
  replace (2 ^ k - 1) with (Z.ones k) by (rewrite Z.ones_equiv; lia).
  rewrite Z.land_ones by lia. apply Z.mod_pos_bound. lia.
Qed.

Section Refinement.
Context {V : Type}.
Abbreviation entry := (ngtcp2_map_entry V).
Implicit Types (map : ngtcp2_map V) (e : entry) (c : chain V) (M : gmap Z entry)
  (table : list (chain V)).

(** [table] is a hash table of [2 ^ k] buckets for the entries of [M]. *)
Record table_repr (k : Z) table M : Prop := {
  repr_k : 0 <= k < 32;
  repr_length : zlen table = 2 ^ k;
  repr_key : forall key e, M !! key = Some e -> me_key e = key;
  repr_nodup : forall h c, table !! h = Some c -> NoDup (me_key <$> c);
  repr_elem : forall h c e, table !! h = Some c ->
    e ∈ c <-> M !! me_key e = Some e /\ hash (me_key e) (2 ^ k) = Z.of_nat h
}.

Definition map_repr map M : Prop :=
  (exists k, map_tablelen map = 2 ^ k /\ table_repr k (map_table map) M) /\
  map_size map = Z.of_nat (size M).

Lemma chain_find_Some key c e : chain_find key c = Some e -> e ∈ c /\ me_key e = key.
Proof.
  induction c as [|x c IH]; simpl; [done|]. destruct (Z.eqb_spec (me_key x) key).
  - intros [= <-]. split; [by left | done].
  - intros [? ?]%IH. split; [by right | done].
Qed.

Lemma chain_find_None key c : chain_find key c = None -> key ∉ me_key <$> c.
Proof.
  induction c as [|x c IH]; simpl; [intros _ ?%elem_of_nil; done|].
  destruct (Z.eqb_spec (me_key x) key); [done|].
  intros Hn [->|?]%elem_of_cons; [done | by apply IH].
Qed.

Lemma has_key_find key c : has_key key c = match chain_find key c with Some _ => true | None => false end.
Proof. induction c as [|x c IH]; simpl; [done|]. by destruct (me_key x =? key). Qed.

Lemma table_bucket k table M key :
  table_repr k table M ->
  exists c, table !! Z.to_nat (hash key (2 ^ k)) = Some c /\
    chain_find key c = M !! key /\ NoDup (me_key <$> c).
Proof.
  intros [Hk Hl Hkey Hnd Hel]. pose proof (hash_range key k Hk) as Hr.
  destruct (lookup_lt_is_Some_2 table (Z.to_nat (hash key (2 ^ k)))) as [c Hc].
  { unfold zlen in Hl. lia. }
  exists c. split; [done|]. split; [|by eapply Hnd].
  destruct (chain_find key c) as [e|] eqn:Hf.
  - apply chain_find_Some in Hf as [Hin <-]. by apply (Hel _ _ _ Hc) in Hin as [-> _].
  - destruct (M !! key) as [e|] eqn:HM; [|done]. apply chain_find_None in Hf. destruct Hf.
    rewrite <- (Hkey _ _ HM). apply list_elem_of_fmap_2. apply (Hel _ _ _ Hc).
    rewrite (Hkey _ _ HM). split; [done|]. lia.
Qed.

Lemma insert_repr k table M e :
  table_repr k table M ->
  match M !! me_key e with
  | Some _ => insert table (2 ^ k) e [] = Err NGTCP2_ERR_INVALID_ARGUMENT
  | None => exists table', insert table (2 ^ k) e [] = Ok table' /\
      table_repr k table' (<[me_key e := e]> M)
  end.
Proof.
  intros Ht. destruct (table_bucket _ _ _ (me_key e) Ht) as (c & Hc & Hf & Hnd).
  unfold insert. rewrite Hc, <- Hf. set (h := Z.to_nat _) in *.
  destruct Ht as [Hk Hl Hkey Hndt Hel].
  destruct (chain_find (me_key e) c) as [e'|] eqn:Hfe.
  { pose proof (has_key_find (me_key e) c) as Hh. rewrite Hfe in Hh. destruct c; [done|]. by rewrite Hh. }
  exists (<[h := e :: c]> table). split.
  { pose proof (has_key_find (me_key e) c) as Hh. rewrite Hfe in Hh. destruct c; [done|]. by rewrite Hh. }
  apply chain_find_None in Hfe. pose proof (lookup_lt_Some _ _ _ Hc) as Hlt.
  assert (Hhh : hash (me_key e) (2 ^ k) = Z.of_nat h).
  { pose proof (hash_range (me_key e) k Hk). unfold h. lia. }
  split; [done | unfold zlen in *; by rewrite length_insert | | |].
  - intros key x. destruct (decide (key = me_key e)) as [->|]; [rewrite lookup_insert_eq; by intros [= <-]|].
    rewrite lookup_insert_ne by done. apply Hkey.
  - intros h' c'. destruct (decide (h' = h)) as [->|].
    + rewrite list_lookup_insert_eq by done. intros [= <-]. simpl. by constructor.
    + rewrite list_lookup_insert_ne by done. apply Hndt.
  - intros h' c' x. destruct (decide (h' = h)) as [->|].
    + rewrite list_lookup_insert_eq by done. intros [= <-]. rewrite elem_of_cons, (Hel _ _ _ Hc).
      destruct (decide (me_key x = me_key e)) as [Hke|Hke].
      * rewrite Hke, lookup_insert_eq, <- Hf. split; [by intros [->|[? _]]|].
        intros [[= ->] _]. by left.
      * rewrite lookup_insert_ne by done. split; [|tauto]. intros [->|?]; [done|tauto].
    + rewrite list_lookup_insert_ne by done. intros Hc'. rewrite (Hel _ _ _ Hc').
      destruct (decide (me_key x = me_key e)) as [Hke|Hke].
      * rewrite Hke, lookup_insert_eq, <- Hf. split; [by intros [? _]|]. intros [_ ?]. lia.
      * by rewrite lookup_insert_ne by done.
Qed.

(** *** Resizing *)

Lemma empty_repr k : 0 <= k < 32 -> table_repr k (replicate (Z.to_nat (2 ^ k)) []) ∅.
Proof.
  intros Hk. assert (0 < 2 ^ k) by (apply Z.pow_pos_nonneg; lia). split.
  - done.
  - rewrite zlen_replicate. lia.
  - intros key e He. by rewrite lookup_empty in He.
  - intros h c [-> _]%lookup_replicate_1. constructor.
  - intros h c e [-> _]%lookup_replicate_1. rewrite elem_of_nil, lookup_empty.
    split; [done | by intros [? _]].
Qed.

(** Moving entries with new keys adds them. *)
Lemma move_chain_repr k table M c :
  table_repr k table M -> NoDup (me_key <$> c) -> Forall (fun e => M !! me_key e = None) c ->
  exists table' M', move_chain table (2 ^ k) c = Ok table' /\ table_repr k table' M' /\
    forall key, M' !! key = match chain_find key c with Some e => Some e | None => M !! key end.
Proof.
  revert table M. induction c as [|e c IH]; intros table M Ht Hnd Hnew; simpl.
  { by exists table, M. }
  apply NoDup_cons in Hnd as [Hnin Hnd]. apply list.Forall_cons in Hnew as [He Hnew].
  pose proof (insert_repr k table M e Ht) as Hins. rewrite He in Hins.
  destruct Hins as (t1 & -> & Ht1).
  destruct (IH t1 _ Ht1 Hnd) as (t2 & M2 & Hmv & Ht2 & Hlook).
  { rewrite list.Forall_forall in *. intros x Hx. rewrite lookup_insert_ne; [by apply Hnew|].
    intros E0. apply Hnin. rewrite E0. by apply list_elem_of_fmap_2. }
  exists t2, M2. split; [done|]. split; [done|]. intros key. rewrite Hlook.
  destruct (Z.eqb_spec (me_key e) key) as [<-|Hne].
  - destruct (chain_find (me_key e) c) as [x|] eqn:Hf; [|by rewrite lookup_insert_eq].
    apply chain_find_Some in Hf as [Hin Hk]. destruct Hnin. rewrite <- Hk.
    by apply list_elem_of_fmap_2.
  - by rewrite lookup_insert_ne.
Qed.

(** Moving the buckets from [h] on, when those before have been moved. *)
Lemma move_table_repr k k' table0 M0 table h new M :
  table_repr k table0 M0 -> drop h table0 = table ->
  table_repr k' new M ->
  (forall key, M !! key = if decide (hash key (2 ^ k) < Z.of_nat h) then M0 !! key else None) ->
  exists new', move_table new (2 ^ k') table = Ok new' /\ table_repr k' new' M0.
Proof.
  intros H0. revert h new M. induction table as [|c table IH]; intros h new M Hd Hnew HM; simpl.
  { exists new. split; [done|]. replace M0 with M; [done|]. apply map_eq. intros key.
    rewrite HM. pose proof (hash_range key k (repr_k _ _ _ H0)) as Hr.
    rewrite decide_True; [done|]. pose proof (repr_length _ _ _ H0) as Hl.
    apply (f_equal length) in Hd. rewrite length_drop in Hd. simpl in Hd. unfold zlen in Hl. lia. }
  assert (table0 !! h = Some c /\ drop (S h) table0 = table) as [Hc Hd'].
  { split; [by rewrite <- (Nat.add_0_r h), <- lookup_drop, Hd|].
    replace (S h) with (h + 1)%nat by lia. by rewrite <- drop_drop, Hd. }
  destruct (move_chain_repr k' new M c Hnew) as (t1 & M1 & -> & Ht1 & Hl1).
  - exact (repr_nodup _ _ _ H0 _ _ Hc).
  - rewrite list.Forall_forall. intros e [_ He]%(repr_elem _ _ _ H0 _ _ _ Hc).
    rewrite HM, decide_False; [done|]. lia.
  - cbn [mbind res_bind]. apply (IH (S h) t1 M1 Hd' Ht1). intros key. rewrite Hl1, HM.
    destruct (chain_find key c) as [e|] eqn:Hf.
    + apply chain_find_Some in Hf as [Hin <-]. apply (repr_elem _ _ _ H0 _ _ _ Hc) in Hin as [HMe Hh].
      rewrite decide_True by lia. done.
    + apply chain_find_None in Hf. destruct (decide (hash key (2 ^ k) = Z.of_nat h)) as [Hh|Hh].
      * rewrite decide_False, decide_True by lia. symmetry. destruct (M0 !! key) as [e|] eqn:He; [|done].
        destruct Hf. pose proof (repr_key _ _ _ H0 _ _ He) as Hk. rewrite <- Hk.
        apply list_elem_of_fmap_2, (repr_elem _ _ _ H0 _ _ _ Hc). by rewrite Hk.
      * destruct (decide (hash key (2 ^ k) < Z.of_nat h)); [by rewrite decide_True by lia|].
        by rewrite decide_False by lia.
Qed.

Lemma resize_repr m map M k :
  map_tablelen map = 2 ^ k -> table_repr k (map_table map) M ->
  map_size map = Z.of_nat (size M) -> k + 1 < 32 ->
  match resize m map (2 ^ (k + 1)) with
  | (Ok map', _) => map_repr map' M /\ map_tablelen map' = 2 ^ (k + 1)
  | (Err e, _) => e = NGTCP2_ERR_NOMEM /\ ~ mem_reliable m
  | (Ub, _) => False
  end.
Proof.
  intros Hlen Ht Hs Hk. unfold resize. pose proof (mem_alloc_reliable m) as Hm.
  pose proof (repr_k _ _ _ Ht) as Hk0.
  destruct (mem_alloc m) as [[] m'].
  - destruct (move_table_repr k (k + 1) (map_table map) M (map_table map) 0
      (replicate (Z.to_nat (2 ^ (k + 1))) []) ∅ Ht) as (new & -> & Hnew); [done | | |].
    + apply empty_repr. lia.
    + intros key. rewrite decide_False; [done|]. pose proof (hash_range key k Hk0). lia.
    + cbn [mbind res_bind]. split; [|done]. split; [|done]. by exists (k + 1).
  - split; [done|]. intros Hr. by destruct (Hm Hr).
Qed.

(** ** The operations *)

Lemma map_init_repr m :
  match ngtcp2_map_init (V := V) m with
  | (Ok map, _) => map_repr map ∅
  | (Err e, _) => e = NGTCP2_ERR_NOMEM /\ ~ mem_reliable m
  | (Ub, _) => False
  end.
Proof.
  unfold ngtcp2_map_init. pose proof (mem_alloc_reliable m) as Hm.
  destruct (mem_alloc m) as [[] m'].
  - split; [|done]. exists 8. split; [done|]. by apply (empty_repr 8).
  - split; [done|]. intros Hr. by destruct (Hm Hr).
Qed.

Lemma map_find_repr map M key :
  map_repr map M -> ngtcp2_map_find map key = Ok (M !! key).
Proof.
  intros [(k & Hlen & Ht) _]. unfold ngtcp2_map_find. rewrite Hlen.
  by destruct (table_bucket _ _ _ key Ht) as (c & -> & -> & _).
Qed.

Lemma map_insert_entry map M e :
  map_repr map M -> Z.of_nat (size M) < 2 ^ 62 - 1 ->
  match M !! me_key e with
  | Some _ => insert (map_table map) (map_tablelen map) e [] = Err NGTCP2_ERR_INVALID_ARGUMENT
  | None => exists t, insert (map_table map) (map_tablelen map) e [] = Ok t /\
      map_repr (mk_map t (u64 (map_size map + 1)) (map_tablelen map)) (<[me_key e := e]> M)
  end.
Proof.
  intros [(k & Hlen & Ht) Hs] Hle. rewrite Hlen. pose proof (insert_repr k _ M e Ht) as Hi.
  destruct (M !! me_key e) as [x|] eqn:He; [done|]. destruct Hi as (t & Hi & Ht').
  exists t. split; [done|]. split; [by exists k|]. simpl.
  rewrite map_size_insert_None by done. rewrite u64_small by clia. lia.
Qed.

(** Below 2^30 buckets the length of the table does not overflow. *)
Lemma map_insert_repr m map M e :
  map_repr map M -> map_tablelen map <= 2 ^ 30 -> Z.of_nat (size M) < 2 ^ 62 - 1 ->
  exists map' rv m', ngtcp2_map_insert m map e [] = (Ok (map', rv), m') /\
  ((rv = 0 /\ M !! me_key e = None /\ map_repr map' (<[me_key e := e]> M)) \/
   (rv = NGTCP2_ERR_INVALID_ARGUMENT /\ is_Some (M !! me_key e) /\ map_repr map' M) \/
   (rv = NGTCP2_ERR_NOMEM /\ map' = map /\ ~ mem_reliable m)).
Proof.
  intros Hr Hle Hs62. pose proof Hr as [(k & Hlen & Ht) Hs]. unfold ngtcp2_map_insert.
  pose proof (repr_k _ _ _ Ht) as Hk.
  assert (Hgo : forall map1 m1, map_repr map1 M -> exists map' rv m',
    (match insert (map_table map1) (map_tablelen map1) e [] with
     | Ok t => Ok (mk_map t (u64 (map_size map1 + 1)) (map_tablelen map1), 0)
     | Err x => Ok (map1, x)
     | Ub => Ub
     end, m1 : mem) = (Ok (map', rv), m') /\
    ((rv = 0 /\ M !! me_key e = None /\ map_repr map' (<[me_key e := e]> M)) \/
     (rv = NGTCP2_ERR_INVALID_ARGUMENT /\ is_Some (M !! me_key e) /\ map_repr map' M) \/
     (rv = NGTCP2_ERR_NOMEM /\ map' = map /\ ~ mem_reliable m))).
  { intros map1 m1 Hr1. pose proof (map_insert_entry map1 M e Hr1 Hs62) as Hi.
    destruct (M !! me_key e) as [x|] eqn:He.
    - rewrite Hi. eexists _, _, _. split; [done|]. right. left. eauto.
    - destruct Hi as (t & -> & Hr'). eexists _, _, _. split; [done|]. by left. }
  destruct (_ <? _).
  - assert (k <= 30) by (apply (Z.pow_le_mono_r_iff 2); lia).
    assert (2 ^ (k + 1) = 2 ^ k * 2) as Hp by (rewrite Z.pow_add_r; lia).
    rewrite Hlen, u32_small, <- Hp by (rewrite <- Hlen; clia).
    pose proof (resize_repr m map M k Hlen Ht Hs ltac:(lia)) as Hres.
    destruct (resize m map (2 ^ (k + 1))) as [[map1|x|] m1]; [| |done]; cbn [mbind res_bind].
    + apply Hgo, Hres.
    + destruct Hres as [-> Hm]. eexists _, _, _. split; [done|]. right. by right.
  - cbn [mbind res_bind]. by apply Hgo.
Qed.

(** The table is not resized before it is filled to three quarters: with at most
    2^28 entries it never has more than 2^30 buckets. *)
Lemma map_insert_bounds m map M e map' rv m' :
  map_repr map M -> map_tablelen map <= 2 ^ 30 -> Z.of_nat (size M) <= 2 ^ 28 ->
  ngtcp2_map_insert m map e [] = (Ok (map', rv), m') ->
  map_tablelen map' <= 2 ^ 30 /\ (mem_reliable m -> mem_reliable m').
Proof.
  intros [(k & Hlen & Ht) Hs] Hle Hsize. unfold ngtcp2_map_insert.
  pose proof (repr_k _ _ _ Ht) as Hk. pose proof (Z.pow_pos_nonneg 2 k ltac:(lia) ltac:(lia)).
  rewrite (u32_small (_ * 3)), (u64_small (map_size map + 1)), u64_small by clia.
  destruct (Z.ltb_spec (map_tablelen map * 3) ((map_size map + 1) * 4)).
  - rewrite u32_small by clia. unfold resize. pose proof (mem_alloc_reliable m).
    destruct (mem_alloc m) as [[] m1]; [|intros [= <- _ <-]; simpl in *; tauto].
    destruct (move_table _ _ _) as [t|x|]; cbn [mbind res_bind]; [| |done].
    + destruct (insert _ _ _ _); intros [= <- _ <-]; simpl in *; (split; [lia | tauto]).
    + destruct (negb _); [intros [= <- _ <-]; simpl in *; tauto|].
      destruct (insert _ _ _ _); intros [= <- _ <-]; simpl in *; (split; [lia | tauto]).
  - cbn [mbind res_bind]. destruct (insert _ _ _ _); intros [= <- _ <-]; done.
Qed.

Lemma chain_remove_Some key c c' :
  NoDup (me_key <$> c) -> chain_remove key c = Some c' ->
  NoDup (me_key <$> c') /\ (forall e, e ∈ c' <-> e ∈ c /\ me_key e <> key) /\ key ∈ me_key <$> c.
Proof.
  revert c'. induction c as [|x c IH]; intros c' Hnd; simpl; [done|].
  apply NoDup_cons in Hnd as [Hnin Hnd]. destruct (Z.eqb_spec (me_key x) key) as [<-|Hne]; simpl.
  - intros [= <-]. split; [done|]. split; [|by left]. intros e. rewrite elem_of_cons. split.
    + intros He. split; [by right|]. intros E0. apply Hnin. rewrite <- E0. by apply list_elem_of_fmap_2.
    + by intros [[->|?] ?].
  - destruct (chain_remove key c) as [c1|]; simpl; [|done]. intros [= <-].
    destruct (IH c1 Hnd eq_refl) as (H1 & H2 & H3). split_and!.
    + simpl. constructor; [|done]. intros (e & Hk & He)%list_elem_of_fmap_1. apply Hnin. rewrite Hk.
      apply list_elem_of_fmap_2, H2, He.
    + intros e. rewrite !elem_of_cons, H2. split; [|tauto]. intros [->|?]; tauto.
    + by right.
Qed.

Lemma chain_remove_None key c : chain_remove key c = None -> key ∉ me_key <$> c.
Proof.
  induction c as [|x c IH]; simpl; [intros _ ?%elem_of_nil; done|].
  destruct (Z.eqb_spec (me_key x) key) as [|Hne]; simpl; [done|].
  destruct (chain_remove key c); simpl; [done|]. intros _ [->|?]%elem_of_cons; [done | by apply IH].
Qed.

Lemma map_remove_tablelen map key :
  match ngtcp2_map_remove map key with Ok (map', _) => map_tablelen map' = map_tablelen map | _ => True end.
Proof.
  unfold ngtcp2_map_remove. destruct (map_table map !! _) as [c|]; [|exact I].
  destruct (chain_remove key c); reflexivity.
Qed.

Lemma map_remove_repr map M key :
  map_repr map M -> Z.of_nat (size M) < 2 ^ 64 ->
  exists map' rv, ngtcp2_map_remove map key = Ok (map', rv) /\
  ((rv = 0 /\ is_Some (M !! key) /\ map_repr map' (delete key M)) \/
   (rv = NGTCP2_ERR_INVALID_ARGUMENT /\ M !! key = None /\ map' = map)).
Proof.
  intros [(k & Hlen & Ht) Hs] Hsz. unfold ngtcp2_map_remove. rewrite Hlen.
  destruct (table_bucket _ _ _ key Ht) as (c & Hc & Hf & Hnd). rewrite Hc.
  set (h := Z.to_nat (hash key (2 ^ k))) in *.
  assert (Hmem : key ∈ me_key <$> c -> exists e, M !! key = Some e).
  { intros Hin. destruct (chain_find key c) eqn:Hcf; [by eexists|].
    by apply chain_find_None in Hcf. }
  destruct (chain_remove key c) as [c'|] eqn:Hrem.
  - destruct (chain_remove_Some _ _ _ Hnd Hrem) as (Hnd' & Hel' & Hin).
    destruct (Hmem Hin) as [e He].
    eexists _, _. split; [done|]. left. split; [done|]. split; [by eexists|].
    pose proof (map_size_delete_Some key M ltac:(by eexists)) as Hsd.
    assert (size M <> 0)%nat. { intros E0. apply map_size_empty_inv in E0. by rewrite E0, lookup_empty in He. }
    split; cbn [map_table map_size map_tablelen]; [|rewrite Hs, Hsd, u64_small by clia; lia].
    exists k. split; [done|].
    destruct Ht as [Hk Hl Hkey Hndt Hel]. pose proof (lookup_lt_Some _ _ _ Hc) as Hlt.
    split; [done | unfold zlen in *; by rewrite length_insert | | |].
    + intros key' x [_ Hx]%lookup_delete_Some. by apply Hkey.
    + intros h' c2. destruct (decide (h' = h)) as [->|].
      * rewrite list_lookup_insert_eq by done. by intros [= <-].
      * rewrite list_lookup_insert_ne by done. apply Hndt.
    + intros h' c2 x. rewrite lookup_delete_Some. destruct (decide (h' = h)) as [->|Hne].
      * rewrite list_lookup_insert_eq by done. intros [= <-]. rewrite Hel', (Hel _ _ _ Hc).
        split; intros [[? ?] ?]; split_and!; congruence.
      * rewrite list_lookup_insert_ne by done. intros Hc2. rewrite (Hel _ _ _ Hc2).
        split; [|tauto]. intros [HM Hh]. split; [|done]. split; [|done]. intros Hkx.
        pose proof (hash_range key k Hk). unfold h in Hne. rewrite <- Hkx in Hh. lia.
  - apply chain_remove_None in Hrem. eexists _, _. split; [done|]. right. split; [done|].
    split; [|done]. destruct (M !! key) as [e|] eqn:He; [|done].
    apply chain_find_Some in Hf as [Hin <-]. destruct Hrem. by apply list_elem_of_fmap_2.
Qed.

(** *** Releasing the entries *)

Lemma fold_left_concat {S X} (f : S -> X -> S) (ls : list (list X)) s :
  fold_left (fun s l => fold_left f l s) ls s = fold_left f (concat ls) s.
Proof. revert s. induction ls as [|l ls IH]; intros s; simpl; [done|]. by rewrite IH, fold_left_app. Qed.

Lemma concat_nodup {X} (ls : list (list X)) :
  (forall i l, ls !! i = Some l -> NoDup l) ->
  (forall i j l1 l2 x, ls !! i = Some l1 -> ls !! j = Some l2 -> x ∈ l1 -> x ∈ l2 -> i = j) ->
  NoDup (concat ls).
Proof.
  induction ls as [|l ls IH]; intros Hnd Hdis; simpl; [constructor|]. apply NoDup_app. split_and!.
  - by apply (Hnd 0%nat).
  - intros x Hx Hin. apply list_elem_of_In, in_concat in Hin as (l' & Hl' & Hx').
    apply list_elem_of_In, list_elem_of_lookup in Hl' as [i Hi]. apply list_elem_of_In in Hx'.
    by specialize (Hdis 0%nat (S i) l l' x eq_refl Hi Hx Hx').
  - apply IH; [intros i l' Hi; by apply (Hnd (S i))|].
    intros i j l1 l2 x Hi Hj H1 H2. by specialize (Hdis (S i) (S j) l1 l2 x Hi Hj H1 H2) as [= ->].
Qed.

(** [func] is called once with every entry. *)
Lemma map_each_free_spec map M :
  map_repr map M ->
  exists es, NoDup es /\ (forall e, e ∈ es <-> M !! me_key e = Some e) /\
    forall S (func : S -> entry -> S) s, (ngtcp2_map_each_free func s map).1 = fold_left func es s.
Proof.
  intros [(k & Hlen & [Hk Hl Hkey Hnd Hel]) _]. exists (concat (map_table map)). split_and!.
  - apply concat_nodup.
    + intros i l Hi. by eapply NoDup_fmap_1, Hnd.
    + intros i j l1 l2 x Hi Hj Hx1 Hx2. apply (Hel _ _ _ Hi) in Hx1 as [_ H1].
      apply (Hel _ _ _ Hj) in Hx2 as [_ H2]. lia.
  - intros e. rewrite list_elem_of_In, in_concat. split.
    + intros (l & Hin & He). apply list_elem_of_In, list_elem_of_lookup in Hin as [i Hi].
      apply list_elem_of_In in He. by apply (Hel _ _ _ Hi) in He as [? _].
    + intros He. pose proof (hash_range (me_key e) k Hk) as Hr.
      destruct (lookup_lt_is_Some_2 (map_table map) (Z.to_nat (hash (me_key e) (2 ^ k)))) as [l Hi].
      { unfold zlen in Hl. lia. }
      exists l. split; [by eapply list_elem_of_In, list_elem_of_lookup_2|].
      apply list_elem_of_In, (Hel _ _ _ Hi). split; [done|]. lia.
  - intros S func s. apply fold_left_concat.
Qed.

End Refinement.

(** ** Properties *)

(** C26. Insertion refines insertion into a finite map: a new key is added, a key
    that is there is refused with [NGTCP2_ERR_INVALID_ARGUMENT] and keeps its
    entry, and a failed allocation changes nothing. This includes the insertions
    that double the table and move every entry to a new bucket. *)
Theorem map_insert_refines {V} m (map : ngtcp2_map V) M e :
  map_repr map M -> map_tablelen map <= 2 ^ 30 -> Z.of_nat (size M) < 2 ^ 62 - 1 ->
  exists map' rv m', ngtcp2_map_insert m map e [] = (Ok (map', rv), m') /\
  ((rv = 0 /\ M !! me_key e = None /\ map_repr map' (<[me_key e := e]> M)) \/
   (rv = NGTCP2_ERR_INVALID_ARGUMENT /\ is_Some (M !! me_key e) /\ map_repr map' M) \/
   (rv = NGTCP2_ERR_NOMEM /\ map' = map /\ ~ mem_reliable m)).
Proof. apply map_insert_repr. Qed.

(** C27. Lookup, removal and size refine those of the finite map: a lookup finds
    the entry of the key if there is one, a removal deletes it or reports
    [NGTCP2_ERR_INVALID_ARGUMENT] when there is none, and the size is the number
    of entries. *)
Theorem map_find_remove_refines {V} (map : ngtcp2_map V) M key :
  map_repr map M -> Z.of_nat (size M) < 2 ^ 64 ->
  ngtcp2_map_find map key = Ok (M !! key) /\ ngtcp2_map_size map = Z.of_nat (size M) /\
  exists map' rv, ngtcp2_map_remove map key = Ok (map', rv) /\
  ((rv = 0 /\ is_Some (M !! key) /\ map_repr map' (delete key M)) \/
   (rv = NGTCP2_ERR_INVALID_ARGUMENT /\ M !! key = None /\ map' = map)).
Proof.
  intros Hr Hs. split; [by apply map_find_repr|]. split; [apply Hr|]. by apply map_remove_repr.
Qed.

Lemma map_init_ok {V} : map_repr (mk_map (V := V) (replicate 256 []) 0 256) ∅.
Proof. exact (map_init_repr (V := V) []). Qed.

Lemma map_insert_refines_witness :
  exists map' rv m', ngtcp2_map_insert [] (mk_map (replicate 256 []) 0 256) (mk_map_entry 77 true) [] =
    (Ok (map', rv), m') /\
  ((rv = 0 /\ map_repr map' {[77 := mk_map_entry 77 true]}) \/ rv <> 0).
Proof.
  destruct (map_insert_refines [] (mk_map (replicate 256 []) 0 256) ∅ (mk_map_entry 77 true))
    as (map' & rv & m' & H1 & H2); [apply map_init_ok | done | done |].
  exists map', rv, m'. split; [done|]. destruct H2 as [(? & _ & ?)|[(-> & _)|(-> & _)]];
    [by left | by right | by right].
Defined.

Lemma map_find_remove_refines_witness :
  ngtcp2_map_find (mk_map (V := bool) (replicate 256 []) 0 256) 5 = Ok None.
Proof.
  destruct (map_find_remove_refines (mk_map (V := bool) (replicate 256 []) 0 256) ∅ 5 map_init_ok)
    as [H _]; [done|]. rewrite H. reflexivity.
Defined.
