(* ===== verification/Rob.v ===== *)
(** The reorder buffer: [ngtcp2_rob.c]. It holds the data of a stream that
    arrived out of order: the gaps, the ranges of offsets that have not been
    received, and the data, in chunks of a fixed size.

    The linked lists of gaps and chunks are lists. A byte of a chunk that has
    not been written is [None]. *)

From S2P Require Import Prelude Frame Mem Range Gaptr.

Record ngtcp2_rob_data := mk_rob_data { rd_offset : Z; rd_buf : list (option Z) }.

Record ngtcp2_rob := mk_rob {
  rob_gap : list ngtcp2_range;
  rob_data : list ngtcp2_rob_data;
  rob_chunk : Z
}.

Definition ngtcp2_rob_data_new (m : mem) (offset chunk : Z) : res ngtcp2_rob_data * mem :=
  let '(ok, m) := mem_alloc m in
  if ok then (Ok (mk_rob_data offset (replicate (Z.to_nat chunk) None)), m)
  else (Err NGTCP2_ERR_NOMEM, m).

Definition ngtcp2_rob_init (m : mem) (chunk : Z) : res ngtcp2_rob * mem :=
  let '(ok, m) := mem_alloc m in
  if ok then (Ok (mk_rob [ngtcp2_range_init 0 UINT64_MAX] [] chunk), m)
  else (Err NGTCP2_ERR_NOMEM, m).

(** [memcpy(d->begin + pos, data, n)] *)
Definition chunk_write (d : ngtcp2_rob_data) (pos : Z) (data : bytes) : res ngtcp2_rob_data :=
  if (0 <=? pos) && (pos + zlen data <=? zlen (rd_buf d)) then
    Ok (mk_rob_data (rd_offset d)
          (take (Z.to_nat pos) (rd_buf d) ++ (Some <$> data) ++
           drop (Z.to_nat (pos + zlen data)) (rd_buf d)))
  else Ub.

(** The loop of [rob_write_data] from the chunk under [pd] on: the chunks, the
    return value and the allocator. Every iteration leaves a chunk behind or
    writes at least a byte, so [length ds + length data] iterations suffice. *)
Fixpoint rob_write_loop (fuel : nat) (m : mem) (chunk : Z) (ds : list ngtcp2_rob_data)
    (offset : Z) (data : bytes) : res (list ngtcp2_rob_data * Z * mem) :=
  match fuel with
  | O => Ub
  | S fuel =>
      (* the write to the chunk under pd, and the next iteration *)
      let write m d ds :=
        let n := Z.min (zlen data) (u64 (u64 (rd_offset d + chunk) - offset)) in
        d ← chunk_write d (u64 (offset - rd_offset d)) (take (Z.to_nat n) data);
        if zlen data - n =? 0 then Ok (d :: ds, 0, m)
        else
          '(ds, rv, m) ← rob_write_loop fuel m chunk ds (u64 (offset + n)) (drop (Z.to_nat n) data);
          Ok (d :: ds, rv, m) in
      let new :=
        match ngtcp2_rob_data_new m (u64 (offset / chunk * chunk)) chunk with
        | (Ok nd, m) => write m nd ds
        | (Err e, m) => Ok (ds, e, m)
        | (Ub, _) => Ub
        end in
      match ds with
      | [] => new
      | d :: ds' =>
          if offset <? rd_offset d then new
          else if u64 (rd_offset d + chunk) <? offset then
            '(ds, rv, m) ← rob_write_loop fuel m chunk ds' offset data;
            Ok (d :: ds, rv, m)
          else write m d ds'
      end
  end.

Definition rob_write_data (m : mem) (chunk : Z) (ds : list ngtcp2_rob_data) (offset : Z)
    (data : bytes) : res (list ngtcp2_rob_data * Z * mem) :=
  rob_write_loop (S (length ds + length data)) m chunk ds offset data.

Section Push.
Context (chunk : Z) (q : ngtcp2_range) (data : bytes).

(** [rob_write_data(rob, pd, m.begin, data + (m.begin - offset), len(m))], and
    the return of [gs] when it fails. *)
Definition rob_put (m : mem) (ds : list ngtcp2_rob_data) (i : ngtcp2_range)
    (gs : list ngtcp2_range)
    (k : mem -> list ngtcp2_rob_data -> res (list ngtcp2_range * list ngtcp2_rob_data * Z * mem)) :
    res (list ngtcp2_range * list ngtcp2_rob_data * Z * mem) :=
  '(ds, rv, m) ← rob_write_data m chunk ds (r_begin i)
    (take (Z.to_nat (ngtcp2_range_len i)) (drop (Z.to_nat (u64 (r_begin i - r_begin q))) data));
  if negb (rv =? 0) then Ok (gs, ds, rv, m) else k m ds.

Fixpoint rob_push_loop (m : mem) (ds : list ngtcp2_rob_data) (gs : list ngtcp2_range) :
    res (list ngtcp2_range * list ngtcp2_rob_data * Z * mem) :=
  match gs with
  | [] => Ok ([], ds, 0, m)
  | g :: gs =>
      let i := ngtcp2_range_intersect q g in
      (* the end of the loop's body: the break, or pg moves to the next gap *)
      let next g m ds :=
        if ngtcp2_range_not_after q g then Ok (g :: gs, ds, 0, m)
        else '(gs', ds, rv, m) ← rob_push_loop m ds gs; Ok (g :: gs', ds, rv, m) in
      if negb (ngtcp2_range_len i =? 0) then
        if ngtcp2_range_equal g i then rob_put m ds i gs (fun m ds => rob_push_loop m ds gs)
        else
          let '(l, r) := ngtcp2_range_cut g i in
          if negb (ngtcp2_range_len l =? 0) then
            if negb (ngtcp2_range_len r =? 0) then
              let '(ok, m) := mem_alloc m in
              if ok then
                rob_put m ds i (l :: r :: gs) (fun m ds =>
                  '(gs', ds, rv, m) ← next r m ds; Ok (l :: gs', ds, rv, m))
              else Ok (l :: gs, ds, NGTCP2_ERR_NOMEM, m)
            else rob_put m ds i (l :: gs) (next l)
          else if negb (ngtcp2_range_len r =? 0) then rob_put m ds i (r :: gs) (next r)
          else rob_put m ds i (g :: gs) (next g)
      else next g m ds
  end.
End Push.

Definition ngtcp2_rob_push (m : mem) (rob : ngtcp2_rob) (offset : Z) (data : bytes) :
    res (ngtcp2_rob * Z * mem) :=
  let q := mk_range offset (u64 (offset + zlen data)) in
  '(gs, ds, rv, m) ← rob_push_loop (rob_chunk rob) q data m (rob_data rob) (rob_gap rob);
  Ok (mk_rob gs ds (rob_chunk rob), rv, m).

Fixpoint remove_prefix_gaps (offset : Z) (gs : list ngtcp2_range) : list ngtcp2_range :=
  match gs with
  | [] => []
  | g :: gs' =>
      if offset <=? r_begin g then gs
      else if offset <? r_end g then mk_range offset (r_end g) :: gs'
      else remove_prefix_gaps offset gs'
  end.

Fixpoint remove_prefix_data (chunk offset : Z) (ds : list ngtcp2_rob_data) : list ngtcp2_rob_data :=
  match ds with
  | [] => []
  | d :: ds' =>
      if offset <=? rd_offset d then ds
      else if offset <? u64 (rd_offset d + chunk) then ds
      else remove_prefix_data chunk offset ds'
  end.

Definition ngtcp2_rob_remove_prefix (rob : ngtcp2_rob) (offset : Z) : ngtcp2_rob :=
  mk_rob (remove_prefix_gaps offset (rob_gap rob))
    (remove_prefix_data (rob_chunk rob) offset (rob_data rob)) (rob_chunk rob).

(** The length, and the bytes at [*pdest]. *)
Definition ngtcp2_rob_data_at (rob : ngtcp2_rob) (offset : Z) : res (Z * list (option Z)) :=
  match rob_gap rob with
  | [] => Ub
  | g :: _ =>
      if r_begin g <=? offset then Ok (0, [])
      else
        match rob_data rob with
        | [] => Ub
        | d :: _ =>
            _ ← c_assert (rd_offset d <=? offset);
            _ ← c_assert (offset <? u64 (rd_offset d + rob_chunk rob));
            let n := u64 (Z.min (r_begin g) (u64 (rd_offset d + rob_chunk rob)) - offset) in
            Ok (n, take (Z.to_nat n) (drop (Z.to_nat (offset - rd_offset d)) (rd_buf d)))
        end
  end.

Definition ngtcp2_rob_pop (rob : ngtcp2_rob) (offset len : Z) : res ngtcp2_rob :=
  match rob_data rob with
  | [] => Ub
  | d :: ds =>
      if u64 (offset + len) <? u64 (rd_offset d + rob_chunk rob) then Ok rob
      else Ok (mk_rob (rob_gap rob) ds (rob_chunk rob))
  end.

Definition ngtcp2_rob_first_gap_offset (rob : ngtcp2_rob) : Z :=
  match rob_gap rob with
  | g :: _ => r_begin g
  | [] => UINT64_MAX
  end.

(** ** The bytes of the buffer *)

(** The byte the chunks hold for the offset [x]. *)
Definition in_chunk (d : ngtcp2_rob_data) (x : Z) : Prop :=
  rd_offset d <= x < rd_offset d + zlen (rd_buf d).
#[global] Instance in_chunk_dec d x : Decision (in_chunk d x).
Proof. unfold in_chunk; apply _. Defined.

Definition chunk_byte (d : ngtcp2_rob_data) (x : Z) : option Z :=
  mjoin (rd_buf d !! Z.to_nat (x - rd_offset d)).

Fixpoint rob_byte (ds : list ngtcp2_rob_data) (x : Z) : option Z :=
  match ds with
  | [] => None
  | d :: ds => if decide (in_chunk d x) then chunk_byte d x else rob_byte ds x
  end.

(** Sizes for which no computation on offsets overflows. *)
Definition wf_chunk (chunk : Z) : Prop := 0 < chunk < 2 ^ 32.

(** The chunks are ordered, aligned, and of the same size. *)
Fixpoint wf_data (chunk lo : Z) (ds : list ngtcp2_rob_data) : Prop :=
  match ds with
  | [] => True
  | d :: ds =>
      lo <= rd_offset d < 2 ^ 63 /\ (chunk | rd_offset d) /\ zlen (rd_buf d) = chunk /\
      wf_data chunk (rd_offset d + chunk) ds
  end.

Lemma wf_data_mono chunk lo lo' ds : lo' <= lo -> wf_data chunk lo ds -> wf_data chunk lo' ds.
Proof. destruct ds; simpl; [done|]. intros ? (? & ?). split; [lia | done]. Qed.

Lemma rob_byte_below chunk lo ds x : wf_data chunk lo ds -> 0 < chunk -> x < lo -> rob_byte ds x = None.
Proof.
  revert lo. induction ds as [|d ds IH]; intros lo Hwf Hc Hx; [done|].
  destruct Hwf as (Hlo & _ & Hl & Hwf). simpl. rewrite decide_False by (unfold in_chunk; lia).
  eapply IH; [done | done | lia].
Qed.

Lemma chunk_write_spec d pos data :
  0 <= pos -> pos + zlen data <= zlen (rd_buf d) ->
  exists d', chunk_write d pos data = Ok d' /\ rd_offset d' = rd_offset d /\
    zlen (rd_buf d') = zlen (rd_buf d) /\
    forall x, in_chunk d x -> chunk_byte d' x =
      if decide (rd_offset d + pos <= x < rd_offset d + pos + zlen data)
      then data !! Z.to_nat (x - (rd_offset d + pos)) else chunk_byte d x.
Proof.
  intros Hp Hl. unfold chunk_write. zfacts.
  rewrite (proj2 (Z.leb_le 0 _)), (proj2 (Z.leb_le (pos + _) _)) by lia. simpl.
  eexists. split; [done|]. split; [done|]. simpl. split.
  { rewrite !zlen_app, zlen_take, zlen_drop. unfold zlen in *. rewrite length_fmap. lia. }
  intros x [Hx1 Hx2]. unfold chunk_byte. simpl. unfold zlen in *.
  destruct (decide _) as [[H1 H2]|Hn].
  - rewrite lookup_app_r by (rewrite length_take; lia). rewrite length_take.
    rewrite lookup_app_l by (rewrite length_fmap; lia). rewrite list_lookup_fmap.
    replace (Z.to_nat (x - rd_offset d) - _)%nat with (Z.to_nat (x - (rd_offset d + pos))) by lia.
    destruct (lookup_lt_is_Some_2 data (Z.to_nat (x - (rd_offset d + pos)))) as [b ->]; [lia | done].
  - f_equal. destruct (decide (x < rd_offset d + pos)).
    + rewrite lookup_app_l by (rewrite length_take; lia). apply lookup_take_lt. lia.
    + rewrite lookup_app_r by (rewrite length_take; lia). rewrite length_take.
      rewrite lookup_app_r by (rewrite length_fmap; lia). rewrite length_fmap, lookup_drop. f_equal. lia.
Qed.

Section Write.
Context (chunk : Z) (Hchunk : wf_chunk chunk).

(** What writing [data] at [offset] must give. *)
Definition write_result (m : mem) (lo : Z) (ds : list ngtcp2_rob_data) (offset : Z) (data : bytes)
    (r : list ngtcp2_rob_data * Z * mem) : Prop :=
  let '(ds', rv, m') := r in
  wf_data chunk lo ds' /\ (rv = 0 \/ rv = NGTCP2_ERR_NOMEM) /\
  (mem_reliable m -> rv = 0 /\ mem_reliable m') /\
  (rv = 0 -> forall x, rob_byte ds' x =
    if decide (offset <= x < offset + zlen data) then data !! Z.to_nat (x - offset)
    else rob_byte ds x).

(** One iteration that writes to the chunk [d]. *)
Lemma write_step m rec d ds lo offset data :
  wf_data chunk lo (d :: ds) -> rd_offset d <= offset <= rd_offset d + chunk -> 0 <= lo ->
  0 < zlen data -> offset + zlen data < 2 ^ 63 ->
  let n := rd_offset d + chunk - offset in
  (n < zlen data -> exists r,
    rec ds (rd_offset d + chunk) (drop (Z.to_nat n) data) = Ok r /\
    write_result m (rd_offset d + chunk) ds (rd_offset d + chunk) (drop (Z.to_nat n) data) r) ->
  exists r,
    (let n := Z.min (zlen data) (u64 (u64 (rd_offset d + chunk) - offset)) in
     d ← chunk_write d (u64 (offset - rd_offset d)) (take (Z.to_nat n) data);
     if zlen data - n =? 0 then Ok (d :: ds, 0, m)
     else
       '(ds, rv, m) ← rec ds (u64 (offset + n)) (drop (Z.to_nat n) data);
       Ok (d :: ds, rv, m)) = Ok r /\
    write_result m lo (d :: ds) offset data r.
Proof.
  intros (Hlo & Hdiv & Hlen & Hwf) Hoff Hlo0 Hdata Hmax n Hrec. unfold wf_chunk in Hchunk.
  rewrite (u64_small (rd_offset d + chunk)), (u64_small (_ + _ - _)), (u64_small (offset - _)) by clia.
  fold n. cbv zeta. set (n' := Z.min (zlen data) n).
  destruct (chunk_write_spec d (offset - rd_offset d) (take (Z.to_nat n') data))
    as (d' & -> & Ho & Hl & Hb); [lia | rewrite zlen_take; lia |].
  rewrite zlen_take in Hb. replace (Z.min (Z.of_nat (Z.to_nat n')) (zlen data)) with n' in Hb by lia.
  replace (rd_offset d + (offset - rd_offset d)) with offset in Hb by lia.
  cbn [mbind res_bind].
  assert (Hin : forall x, in_chunk d' x <-> in_chunk d x) by (intros x; unfold in_chunk; by rewrite Ho, Hl).
  assert (Hbyte : forall x, in_chunk d x -> chunk_byte d' x =
    if decide (offset <= x < offset + zlen data) then data !! Z.to_nat (x - offset) else chunk_byte d x).
  { intros x Hx. rewrite Hb by done. unfold in_chunk in Hx. destruct (decide (offset <= x < offset + n')).
    - rewrite decide_True by lia. apply lookup_take_lt. lia.
    - rewrite decide_False by lia. done. }
  destruct (Z.eqb_spec (zlen data - n') 0) as [Hz|Hz].
  - eexists. split; [done|]. split_and!; [| by left | done |].
    + cbn [wf_data]. rewrite Ho, Hl. tauto.
    + intros _ x. simpl. destruct (decide (in_chunk d x)) as [Hx|Hx].
      * rewrite decide_True by (by apply Hin). by apply Hbyte.
      * rewrite (decide_False (P := in_chunk d' x)) by (by rewrite Hin).
        rewrite decide_False; [done|]. unfold in_chunk in Hx. lia.
  - destruct Hrec as (r & Hrec & Hres); [lia|].
    rewrite (u64_small (offset + n')) by clia.
    replace (offset + n') with (rd_offset d + chunk) by lia. replace n' with n by lia.
    rewrite Hrec. destruct r as [[ds' rv] m']. destruct Hres as (Hwf' & Hrv & Hm & Hx').
    cbn [mbind res_bind]. eexists. split; [done|]. split_and!; [| done | done |].
    + cbn [wf_data]. rewrite Ho, Hl. tauto.
    + intros Hr x. simpl. destruct (decide (in_chunk d x)) as [Hx|Hx].
      * rewrite decide_True by (by apply Hin). by apply Hbyte.
      * rewrite (decide_False (P := in_chunk d' x)) by (by rewrite Hin).
        rewrite Hx' by done. rewrite zlen_drop. unfold in_chunk in Hx.
        destruct (decide (offset <= x < offset + zlen data)).
        -- rewrite decide_True by lia. rewrite lookup_drop. f_equal. lia.
        -- by rewrite decide_False by lia.
Qed.

Lemma aligned_lt a b : (chunk | a) -> (chunk | b) -> a < b -> a + chunk <= b.
Proof. 
  intros [x ->] [y ->] Hlt. unfold wf_chunk in Hchunk.
  assert (x < y) by (apply (Z.mul_lt_mono_pos_r chunk); lia).
  replace (x * chunk + chunk) with ((x + 1) * chunk) by ring.
  apply Z.mul_le_mono_nonneg_r; lia.
Qed.

Lemma rob_write_loop_spec fuel m lo ds offset data :
  (length ds + length data < fuel)%nat -> wf_data chunk lo ds -> (chunk | lo) -> 0 <= lo <= offset ->
  0 < zlen data -> offset + zlen data < 2 ^ 63 ->
  exists r, rob_write_loop fuel m chunk ds offset data = Ok r /\ write_result m lo ds offset data r.
Proof.
  revert m lo ds offset data. induction fuel as [|fuel IH];
    intros m lo ds offset data Hf Hwf Hdiv Hlo Hdata Hmax; [lia|].
  pose proof Hchunk as Hc. unfold wf_chunk in Hc. cbn [rob_write_loop].
  assert (Hal : offset / chunk * chunk <= offset < offset / chunk * chunk + chunk).
  { pose proof (Z.div_mod offset chunk ltac:(lia)). pose proof (Z.mod_pos_bound offset chunk ltac:(lia)). lia. }
  assert (0 <= offset / chunk * chunk) by (apply Z.mul_nonneg_nonneg; [apply Z.div_pos; lia | lia]).
  assert (Hnew : wf_data chunk (offset / chunk * chunk + chunk) ds -> exists r,
    match ngtcp2_rob_data_new m (u64 (offset / chunk * chunk)) chunk with
    | (Ok nd, m) =>
        let n := Z.min (zlen data) (u64 (u64 (rd_offset nd + chunk) - offset)) in
        d ← chunk_write nd (u64 (offset - rd_offset nd)) (take (Z.to_nat n) data);
        if zlen data - n =? 0 then Ok (d :: ds, 0, m)
        else
          '(ds, rv, m) ← rob_write_loop fuel m chunk ds (u64 (offset + n)) (drop (Z.to_nat n) data);
          Ok (d :: ds, rv, m)
    | (Err e, m) => Ok (ds, e, m)
    | (Ub, _) => Ub
    end = Ok r /\ write_result m lo ds offset data r).
  { intros Hwf'. unfold ngtcp2_rob_data_new. rewrite u64_small by clia.
    pose proof (mem_alloc_reliable m) as Hm. destruct (mem_alloc m) as [[] m'].
    2:{ eexists. split; [done|]. split_and!; [done | by right | | done]. intros Hr. by destruct (Hm Hr). }
    set (nd := mk_rob_data _ _).
    assert (Hlnd : zlen (rd_buf nd) = chunk) by (unfold nd; simpl; rewrite zlen_replicate; lia).
    destruct (write_step m' (rob_write_loop fuel m' chunk) nd ds lo offset data) as (r & Hr & Hres).
    - split_and!; [simpl | simpl; lia | simpl | done | done].
      + destruct Hdiv as [z ->]. apply Z.mul_le_mono_nonneg_r; [lia|].
        apply Z.div_le_lower_bound; lia.
      + by exists (offset / chunk).
    - simpl. lia.
    - lia.
    - done.
    - done.
    - intros Hn. simpl in *. apply IH; rewrite ?zlen_drop; try (unfold zlen in *; lia).
      + rewrite length_drop. unfold zlen in *. lia.
      + done.
      + exists (offset / chunk + 1). lia.
    - exists r. split; [exact Hr|]. destruct r as [[ds' rv] m2].
      destruct Hres as (H1 & H2 & H3 & H4). split_and!; [done | done | |].
      + intros Hrel. apply H3, Hm, Hrel.
      + intros Hrv x. rewrite H4 by done. destruct (decide (offset <= x < _)); [done|].
        cbn [rob_byte]. destruct (decide (in_chunk nd x)) as [Hx|Hx]; [|done].
        assert (chunk_byte nd x = None) as ->.
        { unfold chunk_byte. destruct (rd_buf nd !! _) as [b|] eqn:Hb; [|done].
          apply lookup_replicate in Hb as [-> _]. done. }
        symmetry. eapply rob_byte_below; [done | lia |].
        unfold in_chunk in Hx. rewrite Hlnd in Hx. simpl in Hx. lia. }
  destruct ds as [|d ds']; [by apply Hnew|].
  destruct Hwf as (Hd & Hdd & Hdl & Hwf).
  destruct (Z.ltb_spec offset (rd_offset d)).
  { apply Hnew. cbn [wf_data]. split; [|done]. split; [|lia].
    apply aligned_lt; [by exists (offset / chunk) | done | lia]. }
  pose proof (u64_small (rd_offset d + chunk) ltac:(clia)) as Hu.
  destruct (Z.ltb_spec (u64 (rd_offset d + chunk)) offset) as [Hskip|Hskip]; rewrite Hu in Hskip.
  - destruct (IH m (rd_offset d + chunk) ds' offset data) as (r & -> & Hres);
      [simpl in Hf; lia | done | | lia | done | done |].
    { destruct Hdd as [z ->]. exists (z + 1). lia. }
    destruct r as [[ds2 rv] m2]. destruct Hres as (H1 & H2 & H3 & H4). cbn [mbind res_bind].
    eexists. split; [done|]. split_and!; [| done | done |].
    + cbn [wf_data]. tauto.
    + intros Hrv x. simpl. rewrite H4 by done.
      destruct (decide (in_chunk d x)) as [Hx|]; [|done].
      rewrite decide_False; [done|]. unfold in_chunk in Hx. lia.
  - apply (write_step m (rob_write_loop fuel m chunk) d ds' lo).
    + cbn [wf_data]. tauto.
    + lia.
    + lia.
    + done.
    + done.
    + intros Hn. apply IH; rewrite ?zlen_drop; try (unfold zlen in *; lia).
      * rewrite length_drop. simpl in Hf. unfold zlen in *. lia.
      * done.
      * destruct Hdd as [z ->]. exists (z + 1). lia.
Qed.
End Write.

(** ** Pushing *)

Section PushFacts.
Context (chunk : Z) (Hchunk : wf_chunk chunk) (q : ngtcp2_range) (data : bytes).
Context (base : Z) (Hbase : (chunk | base)) (Hb0 : 0 <= base).
Context (Hq0 : 0 <= r_begin q) (Hqe : r_end q = r_begin q + zlen data) (Hqm : r_end q < 2 ^ 63).

(** What a step from the chunks [ds] must give: the gaps [G], and the bytes of
    [data] at the offsets in [T]. *)
Definition push_ok (m : mem) (ds : list ngtcp2_rob_data) (T : Z -> bool) (G : list ngtcp2_range)
    (r : list ngtcp2_range * list ngtcp2_rob_data * Z * mem) : Prop :=
  let '(gs', ds', rv, m') := r in
  wf_data chunk base ds' /\ (rv = 0 \/ rv = NGTCP2_ERR_NOMEM) /\
  (mem_reliable m -> rv = 0 /\ mem_reliable m') /\
  (rv = 0 -> gs' = G /\ forall x, rob_byte ds' x =
    if T x then data !! Z.to_nat (x - r_begin q) else rob_byte ds x).

Definition push_spec (m : mem) (ds : list ngtcp2_rob_data) (T : Z -> bool) (G : list ngtcp2_range)
    (r : res (list ngtcp2_range * list ngtcp2_rob_data * Z * mem)) : Prop :=
  exists r', r = Ok r' /\ push_ok m ds T G r'.

Lemma push_spec_ext m ds T T' G r : (forall x, T x = T' x) -> push_spec m ds T G r -> push_spec m ds T' G r.
Proof.
  intros HT (r' & -> & Hr). exists r'. split; [done|]. destruct r' as [[[gs' ds'] rv] m'].
  destruct Hr as (H1 & H2 & H3 & H4). split_and!; try done. intros Hrv. destruct (H4 Hrv) as [-> H5].
  split; [done|]. intros x. by rewrite <- HT.
Qed.

Lemma push_spec_cons m ds T G l r :
  push_spec m ds T G r ->
  push_spec m ds T (l :: G) ('(gs', ds, rv, m) ← r; Ok (l :: gs', ds, rv, m)).
Proof.
  intros (r' & -> & Hr). destruct r' as [[[gs' ds'] rv] m']. destruct Hr as (H1 & H2 & H3 & H4).
  eexists. split; [done|]. split_and!; try done. intros Hrv. by destruct (H4 Hrv) as [-> H5].
Qed.

Lemma rob_put_spec m ds i egs k T G :
  wf_data chunk base ds -> base <= r_begin i -> r_begin q <= r_begin i < r_end i -> r_end i <= r_end q ->
  (forall m ds, wf_data chunk base ds -> push_spec m ds T G (k m ds)) ->
  push_spec m ds (fun x => bool_decide (in_range x i) || T x) G (rob_put chunk q data m ds i egs k).
Proof.
  intros Hds Hbi Hi He Hk. unfold rob_put.
  rewrite range_len_wf by (unfold wf_range; clia). rewrite u64_small by clia.
  set (bs := take _ _). assert (Hbs : zlen bs = r_end i - r_begin i).
  { unfold bs. rewrite zlen_take, zlen_drop. lia. }
  destruct (rob_write_loop_spec chunk Hchunk (S (length ds + length bs)) m base ds (r_begin i) bs)
    as ([[ds' rv] m'] & Hw & H1 & H2 & H3 & H4).
  1-6: done || lia.
  unfold rob_write_data. rewrite Hw. cbn [mbind res_bind].
  destruct (Z.eqb_spec rv 0) as [->|Hrv]; cbn [negb].
  - destruct (Hk m' ds' H1) as (r & -> & Hr). destruct r as [[[gs2 ds2] rv2] m2].
    destruct Hr as (K1 & K2 & K3 & K4). eexists. split; [done|]. split_and!; try done.
    + intros Hrel. apply K3, H3, Hrel.
    + intros Hrv2. destruct (K4 Hrv2) as [-> K5]. split; [done|]. intros x. rewrite K5.
      destruct (T x); [by rewrite orb_true_r|]. rewrite orb_false_r, H4, Hbs by done.
      replace (r_begin i + (r_end i - r_begin i)) with (r_end i) by lia.
      unfold in_range. destruct (decide (r_begin i <= x < r_end i)).
      * rewrite bool_decide_true by done. unfold bs. rewrite lookup_take_lt by lia.
        rewrite lookup_drop. f_equal. lia.
      * by rewrite bool_decide_false by done.
  - eexists. split; [done|]. by split_and!.
Qed.

(** The end of an iteration, when the gap under [pg] has become [g]. *)
Lemma push_next_spec hi g gs m ds :
  wf_gaps (hi + 1) gs -> r_end g <= hi -> wf_data chunk base ds ->
  (forall m ds, wf_data chunk base ds ->
    push_spec m ds (fun x => bool_decide (in_range x q /\ in_gaps gs x))
      (gaptr_push_loop [] q gs).1.1 (rob_push_loop chunk q data m ds gs)) ->
  push_spec m ds (fun x => bool_decide (in_range x q /\ in_gaps gs x))
    (if ngtcp2_range_not_after q g then (g :: gs, 0, [])
     else let '(gs', rv, m) := gaptr_push_loop [] q gs in (g :: gs', rv, m)).1.1
    (if ngtcp2_range_not_after q g then Ok (g :: gs, ds, 0, m)
     else '(gs', ds, rv, m) ← rob_push_loop chunk q data m ds gs; Ok (g :: gs', ds, rv, m)).
Proof.
  intros Hgs Hg Hds Hrec. unfold ngtcp2_range_not_after.
  destruct (Z.leb_spec (r_end q) (r_end g)).
  - eexists. split; [done|]. split_and!; [done | by left | done |]. intros _. split; [done|].
    intros x. rewrite bool_decide_false; [done|]. unfold in_range.
    intros [? Hin%(wf_gaps_lower _ _ _ Hgs)]. lia.
  - pose proof (push_spec_cons _ _ _ _ g _ (Hrec m ds Hds)) as Hc.
    by destruct (gaptr_push_loop [] q gs) as [[gs' rv'] m''].
Qed.

Lemma rob_push_loop_spec m ds lo gs :
  base <= lo -> wf_gaps lo gs -> wf_data chunk base ds ->
  push_spec m ds (fun x => bool_decide (in_range x q /\ in_gaps gs x))
    (gaptr_push_loop [] q gs).1.1 (rob_push_loop chunk q data m ds gs).
Proof.
  revert m ds lo. induction gs as [|g gs IH]; intros m ds lo Hlo Hwf Hds;
    cbn [rob_push_loop gaptr_push_loop].
  { eexists. split; [done|]. split_and!; [done | by left | done |]. intros _. split; [done|].
    intros x. rewrite bool_decide_false; [done|]. by intros [_ ?%Exists_nil]. }
  destruct Hwf as (Hb & He & Hgs).
  assert (IH' : forall m ds, wf_data chunk base ds ->
    push_spec m ds (fun x => bool_decide (in_range x q /\ in_gaps gs x))
      (gaptr_push_loop [] q gs).1.1 (rob_push_loop chunk q data m ds gs))
    by (intros; eapply IH; [|done|done]; lia). clear IH.
  pose proof (fun g' m ds H1 H2 => push_next_spec (r_end g) g' gs m ds Hgs H1 H2 IH') as Hnext.
  assert (HT : forall x, bool_decide (in_range x (ngtcp2_range_intersect q g)) ||
    bool_decide (in_range x q /\ in_gaps gs x) = bool_decide (in_range x q /\ in_gaps (g :: gs) x)).
  { intros x. apply eq_true_iff_eq. rewrite orb_true_iff, !bool_decide_eq_true, intersect_spec, in_gaps_cons.
    tauto. }
  assert (wf_range q) as Hwq by (unfold wf_range; zfacts; clia).
  destruct (push_gap_cases q g) as [(Hz & Hout) | (Hz & Hib & Hie & Hi)]; [done | lia | lia | |].
  - rewrite (proj2 (Z.eqb_eq _ _) Hz). cbn [negb].
    eapply push_spec_ext; [|apply Hnext; [lia | done]]. intros x. rewrite <- HT.
    rewrite (bool_decide_false (in_range x (ngtcp2_range_intersect q g))); [done|].
    rewrite intersect_spec. unfold in_range. lia.
  - rewrite (proj2 (Z.eqb_neq _ _) Hz). cbn [negb].
    assert (Hput : forall m k egs G,
      (forall m ds, wf_data chunk base ds ->
        push_spec m ds (fun x => bool_decide (in_range x q /\ in_gaps gs x)) G (k m ds)) ->
      push_spec m ds (fun x => bool_decide (in_range x q /\ in_gaps (g :: gs) x)) G
        (rob_put chunk q data m ds (ngtcp2_range_intersect q g) egs k)).
    { intros m' k egs G Hk. eapply push_spec_ext; [exact HT|].
      by apply rob_put_spec; [done | lia | lia | lia |]. }
    set (i := ngtcp2_range_intersect q g) in *. clearbody i.
    destruct (ngtcp2_range_equal g i); [by apply Hput|].
    destruct i as [ib ie], g as [gb ge]; cbn [r_begin r_end] in *. unfold ngtcp2_range_cut, ngtcp2_range_init.
    cbn [r_begin r_end].
    destruct (_ =? 0); cbn [negb].
    + destruct (_ =? 0); cbn [negb]; apply Hput; intros; apply Hnext; simpl; try done; lia.
    + destruct (_ =? 0); cbn [negb]; [apply Hput; intros; apply Hnext; simpl; try done; lia|].
      pose proof (mem_alloc_reliable m) as Hm. destruct (mem_alloc m) as [[] m']; cbn [mem_alloc].
      * destruct (Hput m' (fun m ds => '(gs', ds, rv, m) ←
          (if ngtcp2_range_not_after q (mk_range ie ge) then Ok (mk_range ie ge :: gs, ds, 0, m)
           else '(gs', ds, rv, m) ← rob_push_loop chunk q data m ds gs;
             Ok (mk_range ie ge :: gs', ds, rv, m)); Ok (mk_range gb ib :: gs', ds, rv, m))
          (mk_range gb ib :: mk_range ie ge :: gs) _
          (fun m ds Hds => push_spec_cons _ _ _ _ _ _
            (Hnext (mk_range ie ge) m ds ltac:(simpl; lia) Hds))) as (r & Hr & Hok).
        exists r. split; [exact Hr|]. destruct r as [[[gs' ds'] rv] m2].
        destruct Hok as (H1 & H2 & H3 & H4). split_and!; [done | done | |].
        -- intros Hrel. apply H3, Hm, Hrel.
        -- intros Hrv. destruct (H4 Hrv) as [-> H5]. split; [|done].
           destruct (ngtcp2_range_not_after q (mk_range ie ge)); [done|].
           by destruct (gaptr_push_loop [] q gs) as [[? ?] ?].
      * eexists. split; [done|]. split_and!; [done | by right | | done].
        intros Hrel. by destruct (Hm Hrel).
Qed.
End PushFacts.

(** ** Reading in order

    [reader_at pos rob]: the reader has taken the data before [pos]. Every
    offset before [pos] has been received, and the data received from [pos] on
    is in the chunks, the first of which is not before the chunk of [pos]. *)

Definition chunk_base (chunk pos : Z) : Z := pos / chunk * chunk.

Record reader_at (pos : Z) (rob : ngtcp2_rob) : Prop := {
  reader_pos : 0 <= pos < 2 ^ 63;
  reader_chunk : wf_chunk (rob_chunk rob);
  reader_gaps : wf_gaps pos (rob_gap rob);
  reader_last : in_gaps (rob_gap rob) (UINT64_MAX - 1);
  reader_data : wf_data (rob_chunk rob) (chunk_base (rob_chunk rob) pos) (rob_data rob);
  reader_avail : forall x, pos <= x < UINT64_MAX -> ~ in_gaps (rob_gap rob) x ->
    is_Some (rob_byte (rob_data rob) x)
}.

Lemma chunk_base_spec chunk pos :
  0 < chunk -> chunk_base chunk pos <= pos < chunk_base chunk pos + chunk.
Proof.
  intros Hc. unfold chunk_base. pose proof (Z.div_mod pos chunk ltac:(lia)).
  pose proof (Z.mod_pos_bound pos chunk Hc). lia.
Qed.

Lemma chunk_base_nonneg chunk pos : 0 < chunk -> 0 <= pos -> 0 <= chunk_base chunk pos.
Proof. intros. apply Z.mul_nonneg_nonneg; [apply Z.div_pos|]; lia. Qed.

Lemma rob_init_reader m chunk rob :
  wf_chunk chunk -> (ngtcp2_rob_init m chunk).1 = Ok rob -> reader_at 0 rob.
Proof.
  intros Hc. unfold ngtcp2_rob_init. destruct (mem_alloc m) as [[] m']; simpl; intros [= <-].
  split; simpl; try done; try (unfold UINT64_MAX; lia).
  - apply in_gaps_cons. left. unfold in_range. simpl. clia.
  - intros x Hx Hn. destruct Hn. apply in_gaps_cons. by left.
Qed.

Lemma rob_push_spec m rob pos offset data :
  reader_at pos rob -> 0 <= offset -> offset + zlen data < 2 ^ 63 ->
  exists rob' rv m', ngtcp2_rob_push m rob offset data = Ok (rob', rv, m') /\
    (rv = 0 \/ rv = NGTCP2_ERR_NOMEM) /\ (mem_reliable m -> rv = 0 /\ mem_reliable m') /\
    (rv = 0 -> reader_at pos rob' /\
      (forall x, in_gaps (rob_gap rob') x <->
        in_gaps (rob_gap rob) x /\ ~ offset <= x < offset + zlen data) /\
      (forall x, rob_byte (rob_data rob') x =
        if decide (in_gaps (rob_gap rob) x /\ offset <= x < offset + zlen data)
        then data !! Z.to_nat (x - offset) else rob_byte (rob_data rob) x)).
Proof.
  intros [Hpos Hc Hg Hlast Hd Hav] Ho Hmax. unfold ngtcp2_rob_push. zfacts.
  rewrite u64_small by clia. set (q := mk_range offset (offset + zlen data)).
  pose proof (chunk_base_spec (rob_chunk rob) pos ltac:(unfold wf_chunk in Hc; lia)) as Hb.
  pose proof (chunk_base_nonneg (rob_chunk rob) pos ltac:(unfold wf_chunk in Hc; lia) ltac:(lia)) as Hb0.
  destruct (rob_push_loop_spec (rob_chunk rob) Hc q data (chunk_base (rob_chunk rob) pos)
    ltac:(by eexists) Hb0 Ho eq_refl Hmax m (rob_data rob) pos (rob_gap rob) ltac:(lia) Hg Hd)
    as ([[[gs ds] rv] m'] & -> & H1 & H2 & H3 & H4).
  cbn [mbind res_bind]. eexists _, _, _. split; [done|]. split; [done|]. split; [done|].
  intros Hrv. destruct (H4 Hrv) as [-> H5].
  pose proof (push_loop_spec [] q pos (rob_gap rob) ltac:(unfold wf_range; simpl; clia) ltac:(lia) Hg) as Hp.
  destruct (gaptr_push_loop [] q (rob_gap rob)) as [[gs' rv'] m2].
  destruct Hp as (P1 & _ & P3 & P4 & _). destruct P1 as [-> _]; [constructor|].
  specialize (P4 eq_refl). cbn [fst rob_gap rob_data].
  assert (Hbytes : forall x, rob_byte ds x =
    if decide (in_gaps (rob_gap rob) x /\ offset <= x < offset + zlen data)
    then data !! Z.to_nat (x - offset) else rob_byte (rob_data rob) x).
  { intros x. rewrite H5. unfold in_range, q. simpl. destruct (decide _) as [[? ?]|Hn].
    - by rewrite bool_decide_true.
    - rewrite bool_decide_false; [done|]. intros [? ?]. by apply Hn. }
  split; [|split; [exact P4 | exact Hbytes]].
  split; simpl; try done.
  - apply P4. split; [done|]. unfold in_range, q; simpl. clia.
  - intros x Hx Hn. rewrite Hbytes. destruct (decide _) as [[? ?]|Hn'].
    + apply lookup_lt_is_Some_2. unfold zlen in *. lia.
    + apply Hav; [done|]. intros Hin. destruct Hn. apply P4. split; [done|]. intros Hr. by apply Hn'.
Qed.

(** The first chunk is the one of [pos] when [pos] has been received. *)
Lemma reader_first_chunk pos rob g gs :
  reader_at pos rob -> rob_gap rob = g :: gs -> pos < r_begin g ->
  exists d ds, rob_data rob = d :: ds /\ in_chunk d pos.
Proof.
  intros [Hpos Hc Hg Hlast Hd Hav] Hgap Hlt. unfold wf_chunk in Hc. rewrite Hgap in *.
  assert (Hnot : ~ in_gaps (g :: gs) pos).
  { intros Hin. destruct Hg as (? & ? & Hg). apply in_gaps_cons in Hin as [Hin|Hin%(wf_gaps_lower _ _ _ Hg)];
      unfold in_range in *; lia. }
  destruct (Hav pos) as [b Hb]; [clia | done |].
  pose proof (chunk_base_spec (rob_chunk rob) pos ltac:(lia)) as Hbase.
  destruct (rob_data rob) as [|d ds]; [done|]. exists d, ds. split; [done|].
  destruct Hd as (Hlo & _ & Hl & Hd). simpl in Hb. destruct (decide (in_chunk d pos)); [done|].
  rewrite (rob_byte_below (rob_chunk rob) (rd_offset d + rob_chunk rob)) in Hb; [done | done | lia | lia].
Qed.

(** The reader gets the received bytes, as many as its first chunk and the
    first gap allow. *)
Lemma rob_data_at_spec pos rob :
  reader_at pos rob ->
  exists n bs, ngtcp2_rob_data_at rob pos = Ok (n, bs) /\ zlen bs = n /\
    0 <= n <= ngtcp2_rob_first_gap_offset rob - pos /\
    (n = 0 -> ngtcp2_rob_first_gap_offset rob = pos) /\
    (forall i, 0 <= i < n -> exists b, bs !! Z.to_nat i = Some (Some b) /\
      rob_byte (rob_data rob) (pos + i) = Some b).
Proof.
  intros Hr. pose proof Hr as [Hpos Hc Hg Hlast Hd Hav]. unfold wf_chunk in Hc.
  unfold ngtcp2_rob_data_at, ngtcp2_rob_first_gap_offset.
  destruct (rob_gap rob) as [|g gs] eqn:Hgap; [by apply Exists_nil in Hlast|].
  pose proof Hg as (Hb & He & Hg').
  destruct (Z.leb_spec (r_begin g) pos).
  { eexists _, _. split; [done|]. split_and!; [done | lia | lia | lia | intros; lia]. }
  destruct (reader_first_chunk pos rob g gs Hr Hgap ltac:(done)) as (d & ds & Hds & Hin).
  rewrite Hds in *. destruct Hd as (Hlo & _ & Hl & Hd). unfold in_chunk in Hin. rewrite Hl in Hin.
  rewrite (u64_small (rd_offset d + _)) by clia.
  rewrite (proj2 (Z.leb_le _ _)), (proj2 (Z.ltb_lt _ _)) by lia. cbn [c_assert mbind res_bind].
  rewrite u64_small by clia. set (n := Z.min _ _ - pos).
  eexists n, _. split; [done|].
  assert (Hz : zlen (take (Z.to_nat n) (drop (Z.to_nat (pos - rd_offset d)) (rd_buf d))) = n).
  { rewrite zlen_take, zlen_drop. lia. }
  split_and!; [done | lia | lia | lia |]. intros i Hi.
  assert (Hx : rob_byte (d :: ds) (pos + i) = chunk_byte d (pos + i)).
  { simpl. rewrite decide_True; [done|]. unfold in_chunk. lia. }
  destruct (Hav (pos + i)) as [b Hbyte]; [clia | |].
  { intros Hgin. apply in_gaps_cons in Hgin as [Hgin|Hgin%(wf_gaps_lower _ _ _ Hg')]; unfold in_range in *; lia. }
  exists b. split; [|done]. rewrite Hx in Hbyte. unfold chunk_byte in Hbyte.
  rewrite lookup_take_lt, lookup_drop by lia.
  replace (Z.to_nat (pos - rd_offset d) + Z.to_nat i)%nat with (Z.to_nat (pos + i - rd_offset d)) by lia.
  by destruct (rd_buf d !! _) as [[]|]; simplify_eq/=.
Qed.

Lemma chunk_base_aligned chunk pos o : 0 < chunk -> (chunk | o) -> o <= pos < o + chunk -> chunk_base chunk pos = o.
Proof.
  intros Hc [z ->] Hp. unfold chunk_base. f_equal. symmetry. apply Z.div_unique with (pos - z * chunk); lia.
Qed.

(** The reader moves on by what it was given. *)
Lemma rob_pop_spec pos rob n bs :
  reader_at pos rob -> ngtcp2_rob_data_at rob pos = Ok (n, bs) -> 0 < n -> pos + n < 2 ^ 63 ->
  exists rob', ngtcp2_rob_pop rob pos n = Ok rob' /\ reader_at (pos + n) rob' /\
    rob_gap rob' = rob_gap rob /\
    (forall x, pos + n <= x -> rob_byte (rob_data rob') x = rob_byte (rob_data rob) x) /\
    (S (length (rob_data rob')) = length (rob_data rob) \/ pos + n = ngtcp2_rob_first_gap_offset rob).
Proof.
  intros Hr Hat Hn Hmax. pose proof Hr as [Hpos Hc Hg Hlast Hd Hav]. unfold wf_chunk in Hc.
  destruct (rob_data_at_spec _ _ Hr) as (n' & bs' & Hat' & _ & Hle & Hz & _).
  rewrite Hat in Hat'. injection Hat' as <- <-.
  unfold ngtcp2_rob_data_at, ngtcp2_rob_first_gap_offset in *. unfold ngtcp2_rob_pop.
  destruct (rob_gap rob) as [|g gs] eqn:Hgap; [done|]. pose proof Hg as (Hb & He & Hg').
  destruct (Z.leb_spec (r_begin g) pos); [simplify_eq; lia|].
  destruct (reader_first_chunk pos rob g gs Hr Hgap ltac:(done)) as (d & ds & Hds & Hin).
  rewrite Hds in *. destruct Hd as (Hlo & Hal & Hl & Hd). unfold in_chunk in Hin. rewrite Hl in Hin.
  rewrite (u64_small (rd_offset d + _)) in * by clia. rewrite (u64_small (pos + n)) by clia.
  rewrite (proj2 (Z.leb_le _ _)), (proj2 (Z.ltb_lt _ _)) in Hat by lia. cbn [c_assert mbind res_bind] in Hat.
  injection Hat as Hnn _. rewrite u64_small in Hnn by clia.
  destruct (Z.ltb_spec (pos + n) (rd_offset d + rob_chunk rob)) as [Hlt|Hge].
  - exists rob. split; [done|]. split; [|rewrite Hds, Hgap; split_and!; [done | done | right; lia]].
    split; rewrite ?Hgap, ?Hds; try done; try lia.
    + simpl. split_and!; try lia. done.
    + rewrite (chunk_base_aligned _ _ (rd_offset d)) by (done || lia). cbn [wf_data].
      split_and!; [lia | lia | done | done | done].
    + intros x Hx Hnx. apply Hav; [lia | done].
  - assert (Heq : pos + n = rd_offset d + rob_chunk rob) by lia.
    assert (Hbyte : forall x, pos + n <= x -> rob_byte ds x = rob_byte (d :: ds) x).
    { intros x Hx. simpl. rewrite decide_False; [done|]. unfold in_chunk. lia. }
    eexists. split; [done|]. split; [|split_and!; [done | done | by left]].
    split; simpl; rewrite ?Hgap; try done; try lia.
    + simpl. split_and!; try lia. done.
    + rewrite Heq. destruct Hal as [z Hz']. rewrite (chunk_base_aligned _ _ (rd_offset d + rob_chunk rob)); [done | lia | | lia].
      exists (z + 1). lia.
    + intros x Hx Hnx. rewrite Hbyte by lia. apply Hav; [lia | done].
Qed.

(** ** Dropping a prefix that was received in order *)

Lemma remove_prefix_gaps_spec offset lo gs :
  wf_gaps lo gs ->
  wf_gaps offset (remove_prefix_gaps offset gs) /\
  (forall x, in_gaps (remove_prefix_gaps offset gs) x <-> in_gaps gs x /\ offset <= x).
Proof.
  revert lo. induction gs as [|g gs IH]; intros lo Hwf; cbn [remove_prefix_gaps].
  { split; [done|]. intros x. unfold in_gaps. rewrite Exists_nil. tauto. }
  destruct Hwf as (Hb & He & Hwf).
  destruct (Z.leb_spec offset (r_begin g)).
  { split; [done|]. intros x. rewrite in_gaps_cons. split; [|tauto]. intros Hx. split; [done|].
    destruct Hx as [Hx|Hx%(wf_gaps_lower _ _ _ Hwf)]; unfold in_range in *; lia. }
  destruct (Z.ltb_spec offset (r_end g)).
  { split; [simpl; split_and!; try lia; done|]. intros x. rewrite !in_gaps_cons. unfold in_range. simpl.
    split; [|intuition lia]. intros [?|Hx]; [lia|]. pose proof (wf_gaps_lower _ _ _ Hwf Hx).
    split; [by right | lia]. }
  destruct (IH _ Hwf) as [H1 H2]. split; [done|]. intros x. rewrite H2, in_gaps_cons.
  unfold in_range. intuition lia.
Qed.

Lemma remove_prefix_data_spec chunk offset lo ds :
  wf_chunk chunk -> 0 <= lo -> 0 <= offset -> wf_data chunk lo ds ->
  wf_data chunk (chunk_base chunk offset) (remove_prefix_data chunk offset ds) /\
  (forall x, offset <= x -> rob_byte (remove_prefix_data chunk offset ds) x = rob_byte ds x).
Proof.
  intros Hc Hlo Ho. unfold wf_chunk in Hc. pose proof (chunk_base_spec chunk offset ltac:(lia)) as Hbase.
  revert lo Hlo. induction ds as [|d ds IH]; intros lo Hlo Hwf; cbn [remove_prefix_data]; [done|].
  destruct Hwf as (Hd & Hal & Hl & Hwf).
  destruct (Z.leb_spec offset (rd_offset d)).
  { split; [|done]. cbn [wf_data]. split_and!; [lia | lia | done | done | done]. }
  rewrite u64_small by clia. destruct (Z.ltb_spec offset (rd_offset d + chunk)).
  { split; [|done]. rewrite (chunk_base_aligned _ _ (rd_offset d)) by (done || lia).
    cbn [wf_data]. split_and!; [lia | lia | done | done | done]. }
  destruct (IH (rd_offset d + chunk) ltac:(lia) Hwf) as [H1 H2]. split; [done|]. intros x Hx.
  rewrite H2 by done. simpl. rewrite decide_False; [done|]. unfold in_chunk. lia.
Qed.

Lemma rob_remove_prefix_spec pos rob offset :
  reader_at pos rob -> pos <= offset < 2 ^ 63 ->
  reader_at offset (ngtcp2_rob_remove_prefix rob offset) /\
  (forall x, in_gaps (rob_gap (ngtcp2_rob_remove_prefix rob offset)) x <->
    in_gaps (rob_gap rob) x /\ offset <= x) /\
  (forall x, offset <= x ->
    rob_byte (rob_data (ngtcp2_rob_remove_prefix rob offset)) x = rob_byte (rob_data rob) x).
Proof.
  intros [Hpos Hc Hg Hlast Hd Hav] Hoff. pose proof Hc as Hc'. unfold wf_chunk in Hc'.
  destruct (remove_prefix_gaps_spec offset _ _ Hg) as [G1 G2].
  destruct (remove_prefix_data_spec (rob_chunk rob) offset _ _ Hc
    (chunk_base_nonneg (rob_chunk rob) pos ltac:(lia) ltac:(lia)) ltac:(lia) Hd) as [D1 D2].
  split; [|done]. split; simpl; try done; try lia.
  - apply G2. split; [done | clia].
  - intros x Hx Hn. rewrite D2 by lia. apply Hav; [lia|]. intros Hin. apply Hn, G2. split; [done | lia].
Qed.

Lemma rob_first_gap_spec pos rob :
  reader_at pos rob ->
  (forall x, in_gaps (rob_gap rob) x -> ngtcp2_rob_first_gap_offset rob <= x) /\
  in_gaps (rob_gap rob) (ngtcp2_rob_first_gap_offset rob).
Proof.
  intros Hr. unfold ngtcp2_rob_first_gap_offset. pose proof (reader_gaps _ _ Hr) as Hg.
  pose proof (reader_last _ _ Hr) as Hlast.
  destruct (rob_gap rob) as [|g gs]; [by apply Exists_nil in Hlast|].
  destruct Hg as (Hb & He & Hg). split.
  - intros x Hx. apply in_gaps_cons in Hx as [Hx|Hx%(wf_gaps_lower _ _ _ Hg)]; unfold in_range in *; lia.
  - apply in_gaps_cons. left. unfold in_range. lia.
Qed.

(** ** The size of the chunks *)

(** No chunk is larger than [n]. *)
Definition chunks_within (n : Z) (ds : list ngtcp2_rob_data) : Prop := Forall (fun d => zlen (rd_buf d) <= n) ds.

Lemma chunk_write_len d pos data d' : chunk_write d pos data = Ok d' -> zlen (rd_buf d') = zlen (rd_buf d).
Proof.
  unfold chunk_write. destruct ((0 <=? pos) && (pos + zlen data <=? zlen (rd_buf d))) eqn:E; [|done].
  apply andb_true_iff in E as [H1%Z.leb_le H2%Z.leb_le]. intros [= <-]. simpl.
  unfold zlen in *. rewrite !length_app, length_take, length_drop, length_fmap. lia.
Qed.

Lemma write_chunks chunk (rec : Z -> bytes -> res (list ngtcp2_rob_data * Z * mem)) m d ds offset data r :
  zlen (rd_buf d) <= chunk -> chunks_within chunk ds ->
  (forall offset data r, rec offset data = Ok r -> chunks_within chunk r.1.1) ->
  (let n := Z.min (zlen data) (u64 (u64 (rd_offset d + chunk) - offset)) in
   d ← chunk_write d (u64 (offset - rd_offset d)) (take (Z.to_nat n) data);
   if zlen data - n =? 0 then Ok (d :: ds, 0, m)
   else
     '(ds, rv, m) ← rec (u64 (offset + n)) (drop (Z.to_nat n) data);
     Ok (d :: ds, rv, m)) = Ok r -> chunks_within chunk r.1.1.
Proof.
  intros Hd Hds Hrec (d' & Hd' & H)%res_bind_ok. apply chunk_write_len in Hd'.
  destruct (_ =? 0); [injection H as <-; constructor; [by rewrite Hd' | done]|].
  apply res_bind_ok in H as ([[ds3 rv3] m3] & H & [= <-]). constructor; [by rewrite Hd' | by apply Hrec in H].
Qed.

Lemma rob_write_loop_chunks fuel chunk m ds offset data r :
  0 <= chunk -> chunks_within chunk ds -> rob_write_loop fuel m chunk ds offset data = Ok r ->
  chunks_within chunk r.1.1.
Proof.
  intros Hc. revert m ds offset data r. induction fuel as [|fuel IH]; intros m ds offset data r Hds;
    cbn [rob_write_loop]; [done|].
  assert (Hnew : forall ds2, chunks_within chunk ds2 ->
    match ngtcp2_rob_data_new m (u64 (offset / chunk * chunk)) chunk with
    | (Ok nd, m) =>
        let n := Z.min (zlen data) (u64 (u64 (rd_offset nd + chunk) - offset)) in
        d ← chunk_write nd (u64 (offset - rd_offset nd)) (take (Z.to_nat n) data);
        if zlen data - n =? 0 then Ok (d :: ds2, 0, m)
        else
          '(ds, rv, m) ← rob_write_loop fuel m chunk ds2 (u64 (offset + n)) (drop (Z.to_nat n) data);
          Ok (d :: ds, rv, m)
    | (Err e, m) => Ok (ds2, e, m)
    | (Ub, _) => Ub
    end = Ok r -> chunks_within chunk r.1.1).
  { intros ds2 Hds2. unfold ngtcp2_rob_data_new. destruct (mem_alloc m) as [[] m1].
    - apply (write_chunks chunk (rob_write_loop fuel m1 chunk ds2));
        [simpl; rewrite zlen_replicate; lia | done | intros; by eapply IH].
    - by intros [= <-]. }
  destruct ds as [|d ds]; [by apply Hnew|]. pose proof Hds as [Hd Hds2]%list.Forall_cons.
  destruct (_ <? _); [by apply Hnew|]. destruct (_ <? _).
  - intros ([[ds3 rv3] m3] & Hrec & [= <-])%res_bind_ok. constructor; [done | by apply IH in Hrec].
  - apply (write_chunks chunk (rob_write_loop fuel m chunk ds)); [done | done | intros; by eapply IH].
Qed.

Lemma rob_put_chunks chunk q data m ds i gs k r :
  0 <= chunk -> chunks_within chunk ds ->
  (forall m ds, chunks_within chunk ds -> k m ds = Ok r -> chunks_within chunk r.1.1.2) ->
  rob_put chunk q data m ds i gs k = Ok r -> chunks_within chunk r.1.1.2.
Proof.
  intros Hc Hds Hk ([[ds2 rv] m2] & Hw & H)%res_bind_ok. apply rob_write_loop_chunks in Hw; [|done..]. simpl in Hw.
  destruct (negb _); [by injection H as <- | by eapply Hk].
Qed.

Lemma rob_push_loop_chunks chunk q data gs : 0 <= chunk -> forall m ds r,
  chunks_within chunk ds -> rob_push_loop chunk q data m ds gs = Ok r -> chunks_within chunk r.1.1.2.
Proof.
  intros Hc. induction gs as [|g gs IH]; intros m ds r Hds; cbn [rob_push_loop]; [by intros [= <-]|].
  assert (Hnext : forall g m ds r, chunks_within chunk ds ->
    (if ngtcp2_range_not_after q g then Ok (g :: gs, ds, 0, m)
     else '(gs', ds, rv, m) ← rob_push_loop chunk q data m ds gs; Ok (g :: gs', ds, rv, m)) = Ok r ->
    chunks_within chunk r.1.1.2).
  { clear m ds Hds r. intros g' m ds r Hds. destruct (ngtcp2_range_not_after q g'); [by intros [= <-]|].
    intros ([[[gs2 ds2] rv2] m2] & Hrec & [= <-])%res_bind_ok. by eapply (IH m ds (gs2, ds2, rv2, m2)). }
  cbv zeta. destruct (negb _); [|by apply Hnext].
  destruct (ngtcp2_range_equal _ _); [apply rob_put_chunks; [done | done|]; intros; by eapply IH|].
  destruct (ngtcp2_range_cut _ _) as [l rr]. destruct (negb _).
  - destruct (negb _); [|apply rob_put_chunks; [done | done | intros m2 ds2; apply Hnext]].
    destruct (mem_alloc m) as [[] m1]; [|by intros [= <-]]. apply rob_put_chunks; [done | done|].
    intros m2 ds2 Hds2 ([[[gs3 ds3] rv3] m3] & Hrec & [= <-])%res_bind_ok. by eapply (Hnext _ _ _ (gs3, ds3, rv3, m3)).
  - destruct (negb _); (apply rob_put_chunks; [done | done | intros m2 ds2; apply Hnext]).
Qed.

(** The buffer has chunks of at most [n] bytes. *)
Definition small_chunks (n : Z) (rob : ngtcp2_rob) : Prop :=
  0 <= rob_chunk rob <= n /\ chunks_within (rob_chunk rob) (rob_data rob).

Lemma rob_push_chunks n m rob offset data rob' rv m' :
  small_chunks n rob -> ngtcp2_rob_push m rob offset data = Ok (rob', rv, m') -> small_chunks n rob'.
Proof.
  intros [Hc Hds] ([[[gs ds] rv2] m2] & Hrec & [= <- _ _])%res_bind_ok. split; [done|].
  exact (rob_push_loop_chunks _ _ _ _ (proj1 Hc) _ _ _ Hds Hrec).
Qed.

Lemma rob_pop_chunks n rob offset len rob' : small_chunks n rob -> ngtcp2_rob_pop rob offset len = Ok rob' -> small_chunks n rob'.
Proof.
  intros [Hc Hds]. unfold ngtcp2_rob_pop. destruct (rob_data rob) as [|d ds] eqn:E; [done|].
  destruct (_ <? _); intros [= <-]; (split; [done|]); [by rewrite E | by apply list.Forall_cons in Hds as [_ ?]].
Qed.

Lemma rob_remove_prefix_chunks n rob offset : small_chunks n rob -> small_chunks n (ngtcp2_rob_remove_prefix rob offset).
Proof.
  intros [Hc Hds]. split; [done|]. simpl. induction (rob_data rob) as [|d ds IH]; simpl; [done|].
  destruct (_ <=? _); [done|]. destruct (_ <? _); [done|]. apply IH. by apply list.Forall_cons in Hds as [_ ?].
Qed.

Lemma rob_init_chunks n m chunk rob m' : 0 <= chunk <= n -> ngtcp2_rob_init m chunk = (Ok rob, m') -> small_chunks n rob.
Proof.
  intros Hc. unfold ngtcp2_rob_init. destruct (mem_alloc m) as [[] m1]; intros [= <- _]. split; [done | constructor].
Qed.

Lemma rob_data_at_len n rob offset len bs : small_chunks n rob -> ngtcp2_rob_data_at rob offset = Ok (len, bs) -> zlen bs <= n.
Proof.
  intros [Hc Hds]. unfold ngtcp2_rob_data_at. destruct (rob_gap rob) as [|g gs]; [done|].
  destruct (_ <=? _); [intros [= _ <-]; unfold zlen; simpl; lia|].
  destruct (rob_data rob) as [|d ds]; [done|]. intros (_ & _ & (_ & _ & [= _ <-])%res_bind_ok)%res_bind_ok.
  apply list.Forall_cons in Hds as [Hd _]. unfold zlen in *. rewrite length_take, length_drop. lia.
Qed.

(** ** Properties *)

(** C22. Pushing data into the reorder buffer stores exactly the bytes that were
    missing: every offset of the data that was in a gap gets its byte and leaves
    the gaps, an offset that had been received keeps its first byte, and nothing
    else changes. The reader's position stays valid. No write is outside of a
    chunk; the only failure is a lack of memory. *)
Theorem rob_push_stores m rob pos offset data :
  reader_at pos rob -> 0 <= offset -> offset + zlen data < 2 ^ 63 ->
  exists rob' rv m', ngtcp2_rob_push m rob offset data = Ok (rob', rv, m') /\
    (rv = 0 \/ rv = NGTCP2_ERR_NOMEM) /\ (mem_reliable m -> rv = 0) /\
    (rv = 0 -> reader_at pos rob' /\
      (forall x, in_gaps (rob_gap rob') x <->
        in_gaps (rob_gap rob) x /\ ~ offset <= x < offset + zlen data) /\
      (forall x, rob_byte (rob_data rob') x =
        if decide (in_gaps (rob_gap rob) x /\ offset <= x < offset + zlen data)
        then data !! Z.to_nat (x - offset) else rob_byte (rob_data rob) x)).
Proof.
  intros Hr Ho Hm. destruct (rob_push_spec m rob pos offset data Hr Ho Hm)
    as (rob' & rv & m' & H1 & H2 & H3 & H4).
  exists rob', rv, m'. split_and!; try done. intros Hrel. by apply H3.
Qed.

(** C23. Reading from the buffer: [ngtcp2_rob_data_at] offers the stored bytes from
    the reader's position on, all of them initialised, up to the first gap or the
    end of a chunk, and nothing exactly when the position is a gap;
    [ngtcp2_rob_pop] moves the reader past them and keeps all later bytes. No
    assertion fails. *)
Theorem rob_read_next pos rob :
  reader_at pos rob -> ngtcp2_rob_first_gap_offset rob < 2 ^ 63 ->
  exists n bs, ngtcp2_rob_data_at rob pos = Ok (n, bs) /\ zlen bs = n /\
    0 <= n <= ngtcp2_rob_first_gap_offset rob - pos /\
    (n = 0 <-> ngtcp2_rob_first_gap_offset rob = pos) /\
    (forall i, 0 <= i < n -> exists b, bs !! Z.to_nat i = Some (Some b) /\
      rob_byte (rob_data rob) (pos + i) = Some b) /\
    (0 < n -> exists rob', ngtcp2_rob_pop rob pos n = Ok rob' /\ reader_at (pos + n) rob' /\
      rob_gap rob' = rob_gap rob /\
      (forall x, pos + n <= x -> rob_byte (rob_data rob') x = rob_byte (rob_data rob) x)).
Proof.
  intros Hr Hf. destruct (rob_data_at_spec pos rob Hr) as (n & bs & H1 & H2 & H3 & H4 & H5).
  exists n, bs. split_and!; try done; try lia.
  intros Hn. destruct (rob_pop_spec pos rob n bs Hr H1 Hn ltac:(lia)) as (rob' & K1 & K2 & K3 & K4 & _).
  by exists rob'.
Qed.

(** When data arrives in order, [ngtcp2_rob_remove_prefix] moves the reader
    to its end: the gaps and the chunks below are dropped, and neither the later
    gaps nor the later bytes change. *)
Theorem rob_remove_prefix_moves pos rob offset :
  reader_at pos rob -> pos <= offset < 2 ^ 63 ->
  reader_at offset (ngtcp2_rob_remove_prefix rob offset) /\
  (forall x, in_gaps (rob_gap (ngtcp2_rob_remove_prefix rob offset)) x <->
    in_gaps (rob_gap rob) x /\ offset <= x) /\
  (forall x, offset <= x ->
    rob_byte (rob_data (ngtcp2_rob_remove_prefix rob offset)) x = rob_byte (rob_data rob) x).
Proof. apply rob_remove_prefix_spec. Qed.

(** A buffer with chunks of four bytes that has the bytes 2 to 6 of a stream. *)
Definition example_rob : ngtcp2_rob :=
  mk_rob [mk_range 0 2; mk_range 7 UINT64_MAX]
    [mk_rob_data 0 [None; None; Some 12; Some 13]; mk_rob_data 4 [Some 14; Some 15; Some 16; None]] 4.

Lemma example_rob_reader : reader_at 0 example_rob.
Proof.
  split; try done.
  - apply in_gaps_cons. right. apply in_gaps_cons. left. by vm_compute.
  - cbn [example_rob rob_data rob_chunk wf_data rd_offset rd_buf].
    split_and!; try done. by exists 0.
  - intros x Hx Hn. cbn [example_rob rob_gap rob_data] in *.
    rewrite !in_gaps_cons in Hn. unfold in_range in Hn. simpl in Hn.
    assert (x = 2 \/ x = 3 \/ x = 4 \/ x = 5 \/ x = 6) as [-> | [-> | [-> | [-> | ->]]]] by lia;
      by eexists.
Qed.

Lemma rob_push_stores_witness :
  exists rob' rv m', ngtcp2_rob_push [] example_rob 1 [21; 22; 23] = Ok (rob', rv, m') /\
    (rv = 0 -> rob_byte (rob_data rob') 1 = Some 21 /\ rob_byte (rob_data rob') 2 = Some 12).
Proof.
  destruct (rob_push_stores [] example_rob 0 1 [21; 22; 23]) as (rob' & rv & m' & H1 & _ & _ & H2);
    [apply example_rob_reader | lia | done |].
  exists rob', rv, m'. split; [done|]. intros Hrv. destruct (H2 Hrv) as (_ & _ & Hb).
  rewrite !Hb. split; vm_compute; reflexivity.
Defined.

Lemma rob_read_next_witness :
  exists n bs, ngtcp2_rob_data_at example_rob 0 = Ok (n, bs) /\
    (n = 0 <-> ngtcp2_rob_first_gap_offset example_rob = 0).
Proof.
  destruct (rob_read_next 0 example_rob example_rob_reader) as (n & bs & H1 & _ & _ & H2 & _); [done|].
  by exists n, bs.
Defined.

Lemma rob_remove_prefix_moves_witness :
  reader_at 3 (ngtcp2_rob_remove_prefix example_rob 3) /\
  rob_byte (rob_data (ngtcp2_rob_remove_prefix example_rob 3)) 5 = Some 15.
Proof.
  destruct (rob_remove_prefix_moves 0 example_rob 3 example_rob_reader) as (H1 & _ & H3); [lia|].
  split; [done|]. rewrite H3 by lia. vm_compute. reflexivity.
Defined.
