(* ===== verification/Crypto.v ===== *)
(** Packet protection material and transport parameters: [ngtcp2_crypto.c]. *)

From S2P Require Import Prelude Conv Frame PktDecode PktEncode Mem.

(** ** Keys and nonces *)

Record ngtcp2_crypto_km := mk_crypto_km { km_key : bytes; km_iv : bytes }.

Definition ngtcp2_crypto_km_new (m : mem) (key iv : bytes) : res ngtcp2_crypto_km * mem :=
  let '(ok, m) := mem_alloc m in
  if ok then (Ok (mk_crypto_km key iv), m) else (Err NGTCP2_ERR_NOMEM, m).

(** [for (i = 0; i < 8; ++i) dest[ivlen - 8 + i] ^= ((uint8_t * )&pkt_num)[i];] from
    index [i] on. *)
Fixpoint xor_at (dest : bytes) (i : nat) (bs : bytes) : res bytes :=
  match bs with
  | [] => Ok dest
  | b :: bs =>
      match dest !! i with
      | None => Ub
      | Some d => xor_at (<[i := Z.lxor d b]> dest) (S i) bs
      end
  end.

(** The nonce stored at [dest]; the index [ivlen - 8] wraps around below 8 bytes. *)
Definition ngtcp2_crypto_create_nonce (iv : bytes) (pkt_num : Z) : res bytes :=
  xor_at iv (Z.to_nat (u64 (zlen iv - 8))) (le_store 8 (bswap64 pkt_num)).

(** ** Transport parameters *)

Definition NGTCP2_TRANSPORT_PARAM_INITIAL_MAX_STREAM_DATA : Z := 0.
Definition NGTCP2_TRANSPORT_PARAM_INITIAL_MAX_DATA : Z := 1.
Definition NGTCP2_TRANSPORT_PARAM_INITIAL_MAX_STREAM_ID_BIDI : Z := 2.
Definition NGTCP2_TRANSPORT_PARAM_IDLE_TIMEOUT : Z := 3.
Definition NGTCP2_TRANSPORT_PARAM_OMIT_CONNECTION_ID : Z := 4.
Definition NGTCP2_TRANSPORT_PARAM_MAX_PACKET_SIZE : Z := 5.
Definition NGTCP2_TRANSPORT_PARAM_STATELESS_RESET_TOKEN : Z := 6.
Definition NGTCP2_TRANSPORT_PARAM_ACK_DELAY_EXPONENT : Z := 7.
Definition NGTCP2_TRANSPORT_PARAM_INITIAL_MAX_STREAM_ID_UNI : Z := 8.
Definition NGTCP2_TRANSPORT_PARAM_SERVER_UNICAST_IP : Z := 9.

Definition NGTCP2_TRANSPORT_PARAMS_TYPE_CLIENT_HELLO : Z := 0.
Definition NGTCP2_TRANSPORT_PARAMS_TYPE_ENCRYPTED_EXTENSIONS : Z := 1.
Definition NGTCP2_TRANSPORT_PARAMS_TYPE_NEW_SESSION_TICKET : Z := 2.

Definition NGTCP2_MAX_PKT_SIZE : Z := 65527.
Definition NGTCP2_DEFAULT_ACK_DELAY_EXPONENT : Z := 3.

(** The union [v]; both members start with a version. *)
Inductive params_v :=
| v_ch (initial_version : Z)
| v_ee (negotiated_version : Z) (supported_versions : list Z).

Definition v_version (v : params_v) : Z :=
  match v with v_ch x => x | v_ee x _ => x end.

Record ngtcp2_transport_params := mk_params {
  tp_v : params_v;
  tp_initial_max_stream_data : Z;
  tp_initial_max_data : Z;
  tp_initial_max_stream_id_bidi : Z;
  tp_initial_max_stream_id_uni : Z;
  tp_idle_timeout : Z;
  tp_omit_connection_id : Z;
  tp_max_packet_size : Z;
  tp_stateless_reset_token : bytes;
  tp_ip0 : Z;
  tp_ip1 : Z;
  tp_ip2 : Z;
  tp_ip3 : Z;
  tp_ack_delay_exponent : Z
}.

(** *** Encoding *)

Definition nonzero (x : Z) : bool := negb (x =? 0).

Definition has_unicast_ip (params : ngtcp2_transport_params) : bool :=
  nonzero (tp_ip0 params) || nonzero (tp_ip1 params) || nonzero (tp_ip2 params) ||
  nonzero (tp_ip3 params).

(** [if (b) { len += n; }] *)
Definition add_if (b : bool) (n len : Z) : Z := if b then len + n else len.

(** A 16-bit parameter ID and a 16-bit length. *)
Definition put_param (destlen : Z) (w : bytes) (id len : Z) : res bytes :=
  w ← wr destlen w (ngtcp2_put_uint16be id);
  wr destlen w (ngtcp2_put_uint16be len).

(** Parameters with a 32-bit and with a 16-bit value. *)
Definition put_param32 (destlen : Z) (w : bytes) (id v : Z) : res bytes :=
  w ← put_param destlen w id 4;
  wr destlen w (ngtcp2_put_uint32be v).
Definition put_param16 (destlen : Z) (w : bytes) (id v : Z) : res bytes :=
  w ← put_param destlen w id 2;
  wr destlen w (ngtcp2_put_uint16be v).

Fixpoint put_versions (destlen : Z) (w : bytes) (vs : list Z) : res bytes :=
  match vs with
  | [] => Ok w
  | v :: vs => w ← wr destlen w (ngtcp2_put_uint32be v); put_versions destlen w vs
  end.

(** [switch (exttype)] for [vlen], and what it adds to [len]. *)
Definition params_vlen (exttype : Z) (params : ngtcp2_transport_params) : res (Z * Z) :=
  if exttype =? NGTCP2_TRANSPORT_PARAMS_TYPE_CLIENT_HELLO then Ok (4, 0)
  else if exttype =? NGTCP2_TRANSPORT_PARAMS_TYPE_ENCRYPTED_EXTENSIONS then
    match tp_v params with
    | v_ee _ vs => Ok (4 + 1 + zlen vs * 4, 20)
    | v_ch _ => Ub
    end
  else Ok (0, 20).

(** The version part. *)
Definition put_v (destlen exttype : Z) (params : ngtcp2_transport_params) : res bytes :=
  if exttype =? NGTCP2_TRANSPORT_PARAMS_TYPE_CLIENT_HELLO then
    wr destlen [] (ngtcp2_put_uint32be (v_version (tp_v params)))
  else if exttype =? NGTCP2_TRANSPORT_PARAMS_TYPE_ENCRYPTED_EXTENSIONS then
    match tp_v params with
    | v_ee negotiated vs =>
        w ← wr destlen [] (ngtcp2_put_uint32be negotiated);
        w ← wr destlen w [u8 (zlen vs * 4)];
        put_versions destlen w vs
    | v_ch _ => Ub
    end
  else Ok [].

Definition sends_token (exttype : Z) : bool :=
  (exttype =? NGTCP2_TRANSPORT_PARAMS_TYPE_ENCRYPTED_EXTENSIONS) ||
  (exttype =? NGTCP2_TRANSPORT_PARAMS_TYPE_NEW_SESSION_TICKET).

Definition ngtcp2_encode_transport_params (destlen exttype : Z) (params : ngtcp2_transport_params) :
    res (bytes * Z) :=
  let len := 2 + 8 + 8 + 6 in
  '(vlen, n) ← params_vlen exttype params;
  let len := len + n + vlen in
  let len := add_if (nonzero (tp_initial_max_stream_id_bidi params)) 8 len in
  let len := add_if (nonzero (tp_initial_max_stream_id_uni params)) 8 len in
  let len := add_if (nonzero (tp_omit_connection_id params)) 4 len in
  let len := add_if (negb (tp_max_packet_size params =? NGTCP2_MAX_PKT_SIZE)) 6 len in
  let len := add_if (negb (tp_ack_delay_exponent params =? NGTCP2_DEFAULT_ACK_DELAY_EXPONENT)) 5 len in
  let len := add_if (has_unicast_ip params) 20 len in
  check_out destlen len;;
  w ← put_v destlen exttype params;
  w ← wr destlen w (ngtcp2_put_uint16be (u16 (len - vlen - 2)));
  w ← put_param32 destlen w NGTCP2_TRANSPORT_PARAM_INITIAL_MAX_STREAM_DATA
        (tp_initial_max_stream_data params);
  w ← put_param32 destlen w NGTCP2_TRANSPORT_PARAM_INITIAL_MAX_DATA (tp_initial_max_data params);
  w ← put_param16 destlen w NGTCP2_TRANSPORT_PARAM_IDLE_TIMEOUT (tp_idle_timeout params);
  w ← (if sends_token exttype then
         w ← put_param destlen w NGTCP2_TRANSPORT_PARAM_STATELESS_RESET_TOKEN
               NGTCP2_STATELESS_RESET_TOKENLEN;
         wr destlen w (tp_stateless_reset_token params)
       else Ok w);
  w ← (if nonzero (tp_initial_max_stream_id_bidi params) then
         put_param32 destlen w NGTCP2_TRANSPORT_PARAM_INITIAL_MAX_STREAM_ID_BIDI
           (tp_initial_max_stream_id_bidi params)
       else Ok w);
  w ← (if nonzero (tp_initial_max_stream_id_uni params) then
         put_param32 destlen w NGTCP2_TRANSPORT_PARAM_INITIAL_MAX_STREAM_ID_UNI
           (tp_initial_max_stream_id_uni params)
       else Ok w);
  w ← (if nonzero (tp_omit_connection_id params) then
         put_param destlen w NGTCP2_TRANSPORT_PARAM_OMIT_CONNECTION_ID 0
       else Ok w);
  w ← (if negb (tp_max_packet_size params =? NGTCP2_MAX_PKT_SIZE) then
         put_param16 destlen w NGTCP2_TRANSPORT_PARAM_MAX_PACKET_SIZE (tp_max_packet_size params)
       else Ok w);
  w ← (if has_unicast_ip params then
         w ← put_param destlen w NGTCP2_TRANSPORT_PARAM_SERVER_UNICAST_IP 16;
         w ← wr destlen w (ngtcp2_put_uint32be (tp_ip0 params));
         w ← wr destlen w (ngtcp2_put_uint32be (tp_ip1 params));
         w ← wr destlen w (ngtcp2_put_uint32be (tp_ip2 params));
         wr destlen w (ngtcp2_put_uint32be (tp_ip3 params))
       else Ok w);
  w ← (if negb (tp_ack_delay_exponent params =? NGTCP2_DEFAULT_ACK_DELAY_EXPONENT) then
         w ← put_param destlen w NGTCP2_TRANSPORT_PARAM_ACK_DELAY_EXPONENT 1;
         wr destlen w [tp_ack_delay_exponent params]
       else Ok w);
  finish w len.

(** *** Decoding *)

(** Assignments to the members of [params]. *)
Definition set_v v (t : ngtcp2_transport_params) : ngtcp2_transport_params :=
  let '(mk_params _ a b c d e f g h i j k l m) := t in mk_params v a b c d e f g h i j k l m.
Definition set_initial_max_stream_data x t :=
  let '(mk_params v _ b c d e f g h i j k l m) := t in mk_params v x b c d e f g h i j k l m.
Definition set_initial_max_data x t :=
  let '(mk_params v a _ c d e f g h i j k l m) := t in mk_params v a x c d e f g h i j k l m.
Definition set_initial_max_stream_id_bidi x t :=
  let '(mk_params v a b _ d e f g h i j k l m) := t in mk_params v a b x d e f g h i j k l m.
Definition set_initial_max_stream_id_uni x t :=
  let '(mk_params v a b c _ e f g h i j k l m) := t in mk_params v a b c x e f g h i j k l m.
Definition set_idle_timeout x t :=
  let '(mk_params v a b c d _ f g h i j k l m) := t in mk_params v a b c d x f g h i j k l m.
Definition set_omit_connection_id x t :=
  let '(mk_params v a b c d e _ g h i j k l m) := t in mk_params v a b c d e x g h i j k l m.
Definition set_max_packet_size x t :=
  let '(mk_params v a b c d e f _ h i j k l m) := t in mk_params v a b c d e f x h i j k l m.
Definition set_stateless_reset_token x t :=
  let '(mk_params v a b c d e f g _ i j k l m) := t in mk_params v a b c d e f g x i j k l m.
Definition set_server_unicast_ip x0 x1 x2 x3 t :=
  let '(mk_params v a b c d e f g h _ _ _ _ m) := t in mk_params v a b c d e f g h x0 x1 x2 x3 m.
Definition set_ack_delay_exponent x t :=
  let '(mk_params v a b c d e f g h i j k l _) := t in mk_params v a b c d e f g h i j k l x.

Definition malformed (b : bool) : res unit := fail_if b NGTCP2_ERR_MALFORMED_TRANSPORT_PARAM.

Definition valid_stream_id_bidi (n exttype : Z) : res bool :=
  if exttype =? NGTCP2_TRANSPORT_PARAMS_TYPE_CLIENT_HELLO then Ok (n .& 3 =? 1)
  else if sends_token exttype then Ok (n .& 3 =? 0)
  else Ub.

Definition valid_stream_id_uni (n exttype : Z) : res bool :=
  if exttype =? NGTCP2_TRANSPORT_PARAMS_TYPE_CLIENT_HELLO then Ok (n .& 3 =? 3)
  else if sends_token exttype then Ok (n .& 3 =? 2)
  else Ub.

(** The length of a value: it must be [n], and that many bytes must be left. The
    pointer to the value. *)
Definition get_valuelen (n : Z) (p : bytes) : res bytes :=
  len ← ngtcp2_get_uint16 p;
  malformed (negb (len =? n));;
  p ← adv 2 p;
  malformed (zlen p <? n);;
  mret p.

(** The body of the loop after the parameter ID has been read. *)
Definition decode_param (exttype param_type flags : Z) (params : ngtcp2_transport_params) (p : bytes) :
    res (Z * ngtcp2_transport_params * bytes) :=
  let flags' := flags .| (1 .<< param_type) in
  if (param_type =? NGTCP2_TRANSPORT_PARAM_INITIAL_MAX_STREAM_DATA) ||
     (param_type =? NGTCP2_TRANSPORT_PARAM_INITIAL_MAX_DATA) ||
     (param_type =? NGTCP2_TRANSPORT_PARAM_INITIAL_MAX_STREAM_ID_BIDI) ||
     (param_type =? NGTCP2_TRANSPORT_PARAM_INITIAL_MAX_STREAM_ID_UNI) then
    p ← get_valuelen 4 p;
    val ← ngtcp2_get_uint32 p;
    params ←
      (if param_type =? NGTCP2_TRANSPORT_PARAM_INITIAL_MAX_STREAM_DATA then
         mret (set_initial_max_stream_data val params)
       else if param_type =? NGTCP2_TRANSPORT_PARAM_INITIAL_MAX_DATA then
         mret (set_initial_max_data val params)
       else if param_type =? NGTCP2_TRANSPORT_PARAM_INITIAL_MAX_STREAM_ID_BIDI then
         ok ← valid_stream_id_bidi val exttype;
         malformed (negb ok);;
         mret (set_initial_max_stream_id_bidi val params)
       else
         ok ← valid_stream_id_uni val exttype;
         malformed (negb ok);;
         mret (set_initial_max_stream_id_uni val params));
    p ← adv 4 p;
    mret (flags', params, p)
  else if param_type =? NGTCP2_TRANSPORT_PARAM_IDLE_TIMEOUT then
    p ← get_valuelen 2 p;
    val ← ngtcp2_get_uint16 p;
    p ← adv 2 p;
    mret (flags', set_idle_timeout val params, p)
  else if param_type =? NGTCP2_TRANSPORT_PARAM_OMIT_CONNECTION_ID then
    p ← get_valuelen 0 p;
    mret (flags', set_omit_connection_id 1 params, p)
  else if param_type =? NGTCP2_TRANSPORT_PARAM_MAX_PACKET_SIZE then
    p ← get_valuelen 2 p;
    val ← ngtcp2_get_uint16 p;
    p ← adv 2 p;
    mret (flags', set_max_packet_size val params, p)
  else if param_type =? NGTCP2_TRANSPORT_PARAM_STATELESS_RESET_TOKEN then
    malformed (negb (sends_token exttype));;
    p ← get_valuelen NGTCP2_STATELESS_RESET_TOKENLEN p;
    token ← rdn NGTCP2_STATELESS_RESET_TOKENLEN p;
    p ← adv NGTCP2_STATELESS_RESET_TOKENLEN p;
    mret (flags', set_stateless_reset_token token params, p)
  else if param_type =? NGTCP2_TRANSPORT_PARAM_SERVER_UNICAST_IP then
    p ← get_valuelen 16 p;
    x0 ← ngtcp2_get_uint32 p;
    p ← adv 4 p;
    x1 ← ngtcp2_get_uint32 p;
    p ← adv 4 p;
    x2 ← ngtcp2_get_uint32 p;
    p ← adv 4 p;
    x3 ← ngtcp2_get_uint32 p;
    p ← adv 4 p;
    mret (flags', set_server_unicast_ip x0 x1 x2 x3 params, p)
  else if param_type =? NGTCP2_TRANSPORT_PARAM_ACK_DELAY_EXPONENT then
    p ← get_valuelen 1 p;
    b ← rd p;
    malformed (20 <? b);;
    p ← adv 1 p;
    mret (flags', set_ack_delay_exponent b params, p)
  else
    (* unknown parameters are ignored *)
    valuelen ← ngtcp2_get_uint16 p;
    p ← adv 2 p;
    malformed (zlen p <? valuelen);;
    p ← adv valuelen p;
    mret (flags, params, p).

(** [for (; (size_t)(end - p) >= sizeof(uint16_t) * 2;)]; every iteration reads
    at least 4 bytes. *)
Fixpoint decode_params_loop (fuel : nat) (exttype flags : Z) (params : ngtcp2_transport_params)
    (p : bytes) : res (Z * ngtcp2_transport_params * bytes) :=
  match fuel with
  | O => Ub
  | S fuel =>
      if 4 <=? zlen p then
        param_type ← ngtcp2_get_uint16 p;
        p ← adv 2 p;
        '(flags, params, p) ← decode_param exttype param_type flags params p;
        decode_params_loop fuel exttype flags params p
      else mret (flags, params, p)
  end.

(** The loop over [supported_versions]; [n] versions are left. *)
Fixpoint get_versions (n : nat) (p : bytes) : res (list Z * bytes) :=
  match n with
  | O => mret ([], p)
  | S n =>
      v ← ngtcp2_get_uint32 p;
      p ← adv 4 p;
      '(vs, p) ← get_versions n p;
      mret (v :: vs, p)
  end.

(** The version part: the parameters, the rest of the data and [vlen]. *)
Definition get_v (exttype : Z) (params : ngtcp2_transport_params) (p : bytes) :
    res (ngtcp2_transport_params * bytes * Z) :=
  if exttype =? NGTCP2_TRANSPORT_PARAMS_TYPE_CLIENT_HELLO then
    malformed (zlen p <? 4);;
    ver ← ngtcp2_get_uint32 p;
    p ← adv 4 p;
    mret (set_v (v_ch ver) params, p, 4)
  else if exttype =? NGTCP2_TRANSPORT_PARAMS_TYPE_ENCRYPTED_EXTENSIONS then
    malformed (zlen p <? 4 + 1);;
    ver ← ngtcp2_get_uint32 p;
    p ← adv 4 p;
    supported_versionslen ← rd p;
    p ← adv 1 p;
    malformed ((zlen p <? supported_versionslen) || negb (supported_versionslen mod 4 =? 0));;
    '(vs, p) ← get_versions (Z.to_nat (supported_versionslen / 4)) p;
    mret (set_v (v_ee ver vs) params, p, 4 + 1 + supported_versionslen)
  else mret (params, p, 0).

Definition param_bit (id : Z) : Z := 1 .<< id.
Definition has_param (flags id : Z) : bool := negb (flags .& param_bit id =? 0).

Definition NGTCP2_REQUIRED_TRANSPORT_PARAMS : Z :=
  param_bit NGTCP2_TRANSPORT_PARAM_INITIAL_MAX_STREAM_DATA .|
  param_bit NGTCP2_TRANSPORT_PARAM_INITIAL_MAX_DATA .|
  param_bit NGTCP2_TRANSPORT_PARAM_IDLE_TIMEOUT.

(** [if (!(flags & bit)) { params->... = ...; }] *)
Definition default_param (flags id : Z)
    (f : ngtcp2_transport_params -> ngtcp2_transport_params) (params : ngtcp2_transport_params) :=
  if has_param flags id then params else f params.

Definition default_params (flags : Z) (params : ngtcp2_transport_params) : ngtcp2_transport_params :=
  default_param flags NGTCP2_TRANSPORT_PARAM_ACK_DELAY_EXPONENT
    (set_ack_delay_exponent NGTCP2_DEFAULT_ACK_DELAY_EXPONENT)
  (default_param flags NGTCP2_TRANSPORT_PARAM_MAX_PACKET_SIZE (set_max_packet_size NGTCP2_MAX_PKT_SIZE)
  (default_param flags NGTCP2_TRANSPORT_PARAM_OMIT_CONNECTION_ID (set_omit_connection_id 0)
  (default_param flags NGTCP2_TRANSPORT_PARAM_INITIAL_MAX_STREAM_ID_UNI (set_initial_max_stream_id_uni 0)
  (default_param flags NGTCP2_TRANSPORT_PARAM_INITIAL_MAX_STREAM_ID_BIDI
    (set_initial_max_stream_id_bidi 0) params)))).

(** [params] holds the values of the members before the call. *)
Definition ngtcp2_decode_transport_params (params : ngtcp2_transport_params) (exttype : Z)
    (data : bytes) : res ngtcp2_transport_params :=
  '(params, p, vlen) ← get_v exttype params data;
  malformed (zlen p <? 2);;
  len ← ngtcp2_get_uint16 p;
  malformed (negb (vlen + 2 + len =? zlen data));;
  p ← adv 2 p;
  '(flags, params, p) ← decode_params_loop (S (length data)) exttype 0 params p;
  malformed (negb (zlen p =? 0));;
  fail_if (negb (flags .& NGTCP2_REQUIRED_TRANSPORT_PARAMS =? NGTCP2_REQUIRED_TRANSPORT_PARAMS))
    NGTCP2_ERR_REQUIRED_TRANSPORT_PARAM;;
  fail_if (sends_token exttype && negb (has_param flags NGTCP2_TRANSPORT_PARAM_STATELESS_RESET_TOKEN))
    NGTCP2_ERR_REQUIRED_TRANSPORT_PARAM;;
  mret (default_params flags params).

(** ** Nonces *)

Lemma xor_at_spec dest i bs :
  (i + length bs <= length dest)%nat ->
  exists d, xor_at dest i bs = Ok d /\ length d = length dest /\
    forall j, d !! j = if decide (i <= j < i + length bs)%nat
      then match dest !! j, bs !! (j - i)%nat with
           | Some x, Some y => Some (Z.lxor x y)
           | _, _ => None
           end
      else dest !! j.
Proof.
  revert dest i. induction bs as [|b bs IH]; intros dest i Hl; simpl in *.
  { exists dest. split; [done|]. split; [done|]. intros j. rewrite decide_False by lia. done. }
  destruct (lookup_lt_is_Some_2 dest i ltac:(lia)) as [x Hx]. rewrite Hx.
  destruct (IH (<[i := Z.lxor x b]> dest) (S i)) as (d & -> & Hld & Hd); [rewrite length_insert; lia|].
  exists d. split; [done|]. rewrite length_insert in Hld. split; [done|]. intros j. rewrite Hd.
  destruct (decide (j = i)) as [->|Hne].
  - rewrite decide_False by lia. rewrite decide_True by lia. rewrite Nat.sub_diag, Hx.
    apply list_lookup_insert_eq. lia.
  - rewrite list_lookup_insert_ne by done. destruct (decide (S i <= j < S i + length bs)%nat).
    + rewrite decide_True by lia. by replace (j - i)%nat with (S (j - S i)) by lia.
    + by rewrite decide_False by lia.
Qed.

(** The last 8 bytes of the IV are combined with the packet number in network
    byte order. *)
Lemma create_nonce_spec iv pkt_num :
  8 <= zlen iv < 2 ^ 64 -> is_uint 64 pkt_num ->
  exists nonce, ngtcp2_crypto_create_nonce iv pkt_num = Ok nonce /\ zlen nonce = zlen iv /\
    take (length iv - 8) nonce = take (length iv - 8) iv /\
    drop (length iv - 8) nonce =
      zip_with Z.lxor (drop (length iv - 8) iv) (be_store 8 pkt_num).
Proof.
  intros Hiv Hp. unfold ngtcp2_crypto_create_nonce. rewrite u64_small by clia. unfold zlen in *.
  replace (Z.to_nat (Z.of_nat (length iv) - 8)) with (length iv - 8)%nat by lia.
  assert (Hbs : le_store 8 (bswap64 pkt_num) = be_store 8 pkt_num) by 
    (rewrite bswap64_spec by done; apply (le_store_load (be_store 8 pkt_num)), be_store_bytes).
  rewrite Hbs.
  assert (length (be_store 8 pkt_num) = 8%nat) as Hlen
    by (unfold be_store; rewrite length_reverse; apply length_le_store).
  destruct (xor_at_spec iv (length iv - 8) (be_store 8 pkt_num) ltac:(lia)) as (d & -> & Hl & Hd).
  exists d. split; [done|]. split; [lia|]. split; apply list_eq; intros j.
  - destruct (decide (j < length iv - 8)%nat).
    + rewrite !lookup_take_lt by lia. by rewrite Hd, decide_False by lia.
    + by rewrite !lookup_take_ge by lia.
  - rewrite lookup_drop, Hd, lookup_zip_with, lookup_drop.
    destruct (decide (j < 8)%nat).
    + rewrite decide_True by lia. replace (length iv - 8 + j - (length iv - 8))%nat with j by lia.
      by destruct (iv !! _), (be_store 8 pkt_num !! j).
    + rewrite decide_False by lia. rewrite lookup_ge_None_2 by lia. done.
Qed.

(** ** Safety of transport parameter decoding *)

Definition params_err (e : Z) : Prop :=
  e = NGTCP2_ERR_MALFORMED_TRANSPORT_PARAM \/ e = NGTCP2_ERR_REQUIRED_TRANSPORT_PARAM.

(** The types of handshake messages that carry parameters. *)
Definition wf_exttype (exttype : Z) : Prop := 0 <= exttype <= 2.

Lemma has_param_testbit flags id : 0 <= id -> has_param flags id = Z.testbit flags id.
Proof.
  intros Hid. unfold has_param, param_bit. rewrite Z.shiftl_1_l.
  destruct (Z.testbit flags id) eqn:Hb.
  - apply negb_true_iff, Z.eqb_neq. intros H0.
    assert (Z.testbit (Z.land flags (2 ^ id)) id = false) as Hf by (by rewrite H0, Z.bits_0).
    by rewrite Z.land_spec, Hb, Z.pow2_bits_true in Hf by done.
  - apply negb_false_iff, Z.eqb_eq. apply Z.bits_inj'. intros k Hk.
    rewrite Z.land_spec, Z.bits_0. destruct (decide (k = id)) as [->|]; [by rewrite Hb|].
    by rewrite Z.pow2_bits_false, andb_false_r by congruence.
Qed.

Lemma has_param_set flags t id :
  0 <= t -> 0 <= id -> has_param (flags .| (1 .<< t)) id = has_param flags id || (t =? id).
Proof.
  intros Ht Hid. rewrite !has_param_testbit by done. rewrite Z.lor_spec, Z.shiftl_1_l. f_equal.
  destruct (Z.eqb_spec t id) as [->|]; [by apply Z.pow2_bits_true | by apply Z.pow2_bits_false].
Qed.

(** A stream ID the peer may send for its parameters. *)
Definition ok_stream_id (valid : Z -> Z -> res bool) (exttype n : Z) : Prop := valid n exttype = Ok true.

(** The array of [supported_versions] has 63 elements. *)
Definition v_ok (v : params_v) : Prop :=
  match v with v_ch _ => True | v_ee _ vs => (length vs <= 63)%nat end.

(** What the parameters read so far satisfy. *)
Definition params_inv (exttype flags : Z) (t : ngtcp2_transport_params) : Prop :=
  v_ok (tp_v t) /\
  (has_param flags NGTCP2_TRANSPORT_PARAM_INITIAL_MAX_STREAM_ID_BIDI = true ->
    ok_stream_id valid_stream_id_bidi exttype (tp_initial_max_stream_id_bidi t)) /\
  (has_param flags NGTCP2_TRANSPORT_PARAM_INITIAL_MAX_STREAM_ID_UNI = true ->
    ok_stream_id valid_stream_id_uni exttype (tp_initial_max_stream_id_uni t)) /\
  (has_param flags NGTCP2_TRANSPORT_PARAM_ACK_DELAY_EXPONENT = true -> 0 <= tp_ack_delay_exponent t <= 20).

Lemma wpe_malformed b (Q : unit -> Prop) : (b = false -> Q tt) -> wpe (malformed b) Q params_err.
Proof. intros H. apply wpe_fail_if; [by left | done]. Qed.

Lemma wpe_get_valuelen n p (Q : bytes -> Prop) :
  all_bytes p -> 2 <= zlen p -> 0 <= n ->
  (forall p', all_bytes p' -> zlen p' = zlen p - 2 -> n <= zlen p' -> Q p') ->
  wpe (get_valuelen n p) Q params_err.
Proof.
  intros Hp Hl Hn HQ. unfold get_valuelen. wstep. wstep.
  apply wpe_bind, wpe_malformed. intros _. wstep. wstep.
  apply wpe_bind, wpe_malformed. intros Hlt%Z.ltb_ge. apply wpe_ret. by apply HQ.
Qed.

(** The fields the invariant is about. *)
Definition inv_fields (t : ngtcp2_transport_params) : params_v * Z * Z * Z :=
  (tp_v t, tp_initial_max_stream_id_bidi t, tp_initial_max_stream_id_uni t, tp_ack_delay_exponent t).

(** Reading another parameter keeps the invariant. *)
Lemma params_inv_other exttype flags t t' id :
  inv_fields t' = inv_fields t -> 0 <= id ->
  id <> NGTCP2_TRANSPORT_PARAM_INITIAL_MAX_STREAM_ID_BIDI ->
  id <> NGTCP2_TRANSPORT_PARAM_INITIAL_MAX_STREAM_ID_UNI ->
  id <> NGTCP2_TRANSPORT_PARAM_ACK_DELAY_EXPONENT ->
  params_inv exttype flags t -> params_inv exttype (flags .| (1 .<< id)) t'.
Proof.
  intros [= E0 E1 E2 E3] Hid N1 N2 N3 (H0 & H1 & H2 & H3). unfold params_inv. rewrite E0, E1, E2, E3.
  rewrite !has_param_set by done.
  rewrite !(proj2 (Z.eqb_neq id _)) by done. by rewrite !orb_false_r.
Qed.

Lemma valid_stream_id_total valid exttype n :
  valid = valid_stream_id_bidi \/ valid = valid_stream_id_uni -> wf_exttype exttype ->
  exists b, valid n exttype = Ok b.
Proof.
  intros Hv [? ?]. assert (exttype = 0 \/ exttype = 1 \/ exttype = 2) as He by lia.
  destruct Hv as [-> | ->], He as [-> | [-> | ->]]; by eexists.
Qed.

(** [decoded p]: what one parameter leaves. *)
Definition decoded (exttype : Z) (p : bytes) (r : Z * ngtcp2_transport_params * bytes) : Prop :=
  let '(flags, t, p') := r in
  params_inv exttype flags t /\ all_bytes p' /\ zlen p' <= zlen p - 2.

Ltac pstep :=
  first [ apply wpe_bind, wpe_get_valuelen; [assumption | clia | clia |]; intros ? ? ? ?
        | apply wpe_bind, wpe_malformed; let Hm := fresh "Hm" in intros Hm;
          first [apply Z.ltb_ge in Hm | idtac]
        | wstep ].
Ltac pfinish :=
  lazymatch goal with |- wpe _ _ _ => apply wpe_ret | _ => idtac end; unfold decoded; split; [|split; [assumption | clia]].

Lemma decode_param_safe exttype param_type flags t p :
  wf_exttype exttype -> all_bytes p -> 2 <= zlen p -> 0 <= param_type ->
  params_inv exttype flags t ->
  wpe (decode_param exttype param_type flags t p) (decoded exttype p) params_err.
Proof.
  intros He Hp Hl Ht Hinv. unfold decode_param, NGTCP2_STATELESS_RESET_TOKENLEN.
  assert (Hother : forall t', inv_fields t' = inv_fields t ->
    param_type <> NGTCP2_TRANSPORT_PARAM_INITIAL_MAX_STREAM_ID_BIDI ->
    param_type <> NGTCP2_TRANSPORT_PARAM_INITIAL_MAX_STREAM_ID_UNI ->
    param_type <> NGTCP2_TRANSPORT_PARAM_ACK_DELAY_EXPONENT ->
    params_inv exttype (flags .| (1 .<< param_type)) t')
    by (intros; by apply (params_inv_other _ _ t)).
  destruct (_ || _ || _ || _) eqn:H4.
  { pstep. do 2 wstep.
    apply wpe_bind, wpe_mono with (Q := params_inv exttype (flags .| (1 .<< param_type))) (E := params_err);
      [| intros t' Ht'; do 2 pstep; by pfinish | done].
    destruct (Z.eqb_spec param_type NGTCP2_TRANSPORT_PARAM_INITIAL_MAX_STREAM_DATA) as [->|].
    { apply wpe_ret, Hother; [by destruct t | done..]. }
    destruct (Z.eqb_spec param_type NGTCP2_TRANSPORT_PARAM_INITIAL_MAX_DATA) as [->|].
    { apply wpe_ret, Hother; [by destruct t | done..]. }
    destruct Hinv as (I0 & I1 & I2 & I3).
    destruct (Z.eqb_spec param_type NGTCP2_TRANSPORT_PARAM_INITIAL_MAX_STREAM_ID_BIDI) as [->|].
    { edestruct (valid_stream_id_total valid_stream_id_bidi exttype) as [b Hb]; [by left | done |].
      rewrite Hb. cbn [mbind res_bind]. pstep. apply negb_false_iff in Hm as ->. apply wpe_ret.
      unfold params_inv. rewrite !has_param_set by done. rewrite !orb_false_r.
      destruct t. by split_and!. }
    destruct (Z.eqb_spec param_type NGTCP2_TRANSPORT_PARAM_INITIAL_MAX_STREAM_ID_UNI) as [->|]; [|done].
    edestruct (valid_stream_id_total valid_stream_id_uni exttype) as [b Hb]; [by right | done |].
    rewrite Hb. cbn [mbind res_bind]. pstep. apply negb_false_iff in Hm as ->. apply wpe_ret.
    unfold params_inv. rewrite !has_param_set by done. rewrite !orb_false_r.
    destruct t. by split_and!. }
  repeat (apply orb_false_iff in H4 as [H4 ?%Z.eqb_neq]).
  destruct (Z.eqb_spec param_type NGTCP2_TRANSPORT_PARAM_IDLE_TIMEOUT) as [->|].
  { repeat pstep. pfinish. apply Hother; [by destruct t | done..]. }
  destruct (Z.eqb_spec param_type NGTCP2_TRANSPORT_PARAM_OMIT_CONNECTION_ID) as [->|].
  { repeat pstep. pfinish. apply Hother; [by destruct t | done..]. }
  destruct (Z.eqb_spec param_type NGTCP2_TRANSPORT_PARAM_MAX_PACKET_SIZE) as [->|].
  { repeat pstep. pfinish. apply Hother; [by destruct t | done..]. }
  destruct (Z.eqb_spec param_type NGTCP2_TRANSPORT_PARAM_STATELESS_RESET_TOKEN) as [->|].
  { repeat pstep. pfinish. apply Hother; [by destruct t | done..]. }
  destruct (Z.eqb_spec param_type NGTCP2_TRANSPORT_PARAM_SERVER_UNICAST_IP) as [->|].
  { repeat pstep. pfinish. apply Hother; [by destruct t | done..]. }
  destruct (Z.eqb_spec param_type NGTCP2_TRANSPORT_PARAM_ACK_DELAY_EXPONENT) as [->|].
  { repeat pstep. pfinish. destruct Hinv as (I0 & I1 & I2 & I3).
    unfold params_inv. rewrite !has_param_set by done. rewrite !orb_false_r.
    destruct t. simpl. split_and!; try done. intros _. clia. }
  repeat pstep. by pfinish.
Qed.

Lemma decode_params_loop_safe fuel exttype flags t p :
  (length p < fuel)%nat -> wf_exttype exttype -> all_bytes p -> params_inv exttype flags t ->
  wpe (decode_params_loop fuel exttype flags t p)
    (fun '(flags, t, p') => params_inv exttype flags t /\ all_bytes p') params_err.
Proof.
  revert flags t p. induction fuel as [|fuel IH]; intros flags t p Hf He Hp Hinv; [lia|].
  cbn [decode_params_loop]. destruct (Z.leb_spec 4 (zlen p)); [|by apply wpe_ret].
  do 4 wstep. apply wpe_bind.
  eapply wpe_mono; [apply decode_param_safe; try done; clia | | done].
  intros [[flags' t'] p'] (Hinv' & Hp' & Hl'). apply IH; try done. unfold zlen in *. lia.
Qed.

(** What a successful decoding promises. *)
Definition params_ok (exttype : Z) (t : ngtcp2_transport_params) : Prop :=
  v_ok (tp_v t) /\
  (tp_initial_max_stream_id_bidi t = 0 \/
    ok_stream_id valid_stream_id_bidi exttype (tp_initial_max_stream_id_bidi t)) /\
  (tp_initial_max_stream_id_uni t = 0 \/
    ok_stream_id valid_stream_id_uni exttype (tp_initial_max_stream_id_uni t)) /\
  0 <= tp_ack_delay_exponent t <= 20.

Lemma default_params_ok exttype flags t : params_inv exttype flags t -> params_ok exttype (default_params flags t).
Proof.
  intros (H0 & H1 & H2 & H3). unfold default_params, default_param, params_ok, NGTCP2_DEFAULT_ACK_DELAY_EXPONENT.
  destruct t. simpl in *.
  destruct (has_param flags NGTCP2_TRANSPORT_PARAM_INITIAL_MAX_STREAM_ID_BIDI),
    (has_param flags NGTCP2_TRANSPORT_PARAM_INITIAL_MAX_STREAM_ID_UNI),
    (has_param flags NGTCP2_TRANSPORT_PARAM_OMIT_CONNECTION_ID),
    (has_param flags NGTCP2_TRANSPORT_PARAM_MAX_PACKET_SIZE),
    (has_param flags NGTCP2_TRANSPORT_PARAM_ACK_DELAY_EXPONENT); simpl; split_and!; auto; lia.
Qed.

Lemma get_versions_safe n p :
  all_bytes p -> 4 * Z.of_nat n <= zlen p ->
  wpe (get_versions n p) (fun '(vs, p') => length vs = n /\ all_bytes p' /\ zlen p' <= zlen p) params_err.
Proof.
  revert p. induction n as [|n IH]; intros p Hp Hl; cbn [get_versions]; [by apply wpe_ret|].
  do 4 wstep. apply wpe_bind. eapply wpe_mono; [apply IH; [done | clia] | | done].
  intros [vs p'] (Hlen & Hp' & Hl'). apply wpe_ret. split; [simpl; lia | split; [done | lia]].
Qed.

Lemma get_v_safe exttype t p :
  all_bytes p -> v_ok (tp_v t) ->
  wpe (get_v exttype t p)
    (fun '(t', p', _) => v_ok (tp_v t') /\ all_bytes p' /\ zlen p' <= zlen p)
    params_err.
Proof.
  intros Hp Hv. unfold get_v. destruct (_ =? _).
  { repeat pstep. split_and!; try (by destruct t); lia. }
  destruct (_ =? _); [|by apply wpe_ret].
  do 10 pstep. apply orb_false_iff in Hm0 as [Hlt%Z.ltb_ge Hmod%negb_false_iff%Z.eqb_eq].
  pose proof (Z.div_mod b 4 ltac:(lia)) as Hb. rewrite Hmod in Hb. apply wpe_bind.
  eapply wpe_mono; [apply get_versions_safe; [done | clia] | | done].
  intros [vs p'] (Hlen & Hp' & Hl'). apply wpe_ret. destruct t. simpl.
  split_and!; try done; [clia | lia].
Qed.

Lemma params_inv_nil exttype t : v_ok (tp_v t) -> params_inv exttype 0 t.
Proof. intros Hv. split_and!; [done|..]; rewrite has_param_testbit by done; done. Qed.

(** Decoding reads only the data it is given, and its result is well-formed. *)
Lemma decode_params_safe t exttype data :
  wf_exttype exttype -> all_bytes data -> v_ok (tp_v t) ->
  wpe (ngtcp2_decode_transport_params t exttype data) (params_ok exttype) params_err.
Proof.
  intros He Hd Hv. unfold ngtcp2_decode_transport_params.
  apply wpe_bind. eapply wpe_mono; [by apply get_v_safe | | done].
  intros [[t' p] vlen] (Hv' & Hp & Hl). do 6 pstep.
  apply wpe_bind. eapply wpe_mono; [apply decode_params_loop_safe; [|done|done|by apply params_inv_nil] | | done].
  - unfold zlen in *. lia.
  - intros [[flags t2] p2] (Hinv & Hp2). pstep.
    apply wpe_bind, wpe_fail_if; [by right|]. intros _.
    apply wpe_bind, wpe_fail_if; [by right|]. intros _. apply wpe_ret. by apply default_params_ok.
Qed.

(** ** Round trip of transport parameters *)

(** A part of the message that is sent under a condition. *)
Definition opt (c : bool) (bs : bytes) : bytes := if c then bs else [].

Definition blk_hd (id len : Z) : bytes := ngtcp2_put_uint16be id ++ ngtcp2_put_uint16be len.
Definition blk32 (id v : Z) : bytes := blk_hd id 4 ++ ngtcp2_put_uint32be v.
Definition blk16 (id v : Z) : bytes := blk_hd id 2 ++ ngtcp2_put_uint16be v.
Fixpoint versions (vs : list Z) : bytes :=
  match vs with [] => [] | v :: vs => ngtcp2_put_uint32be v ++ versions vs end.

Definition has_max_packet_size t : bool := negb (tp_max_packet_size t =? NGTCP2_MAX_PKT_SIZE).
Definition has_ack_delay_exponent t : bool :=
  negb (tp_ack_delay_exponent t =? NGTCP2_DEFAULT_ACK_DELAY_EXPONENT).

Definition token_blk t : bytes :=
  blk_hd NGTCP2_TRANSPORT_PARAM_STATELESS_RESET_TOKEN NGTCP2_STATELESS_RESET_TOKENLEN ++
  tp_stateless_reset_token t.
Definition ip_blk t : bytes :=
  blk_hd NGTCP2_TRANSPORT_PARAM_SERVER_UNICAST_IP 16 ++
  ngtcp2_put_uint32be (tp_ip0 t) ++ ngtcp2_put_uint32be (tp_ip1 t) ++
  ngtcp2_put_uint32be (tp_ip2 t) ++ ngtcp2_put_uint32be (tp_ip3 t).
Definition ack_blk t : bytes :=
  blk_hd NGTCP2_TRANSPORT_PARAM_ACK_DELAY_EXPONENT 1 ++ [tp_ack_delay_exponent t].

Definition v_bytes (exttype : Z) (t : ngtcp2_transport_params) : bytes :=
  if exttype =? NGTCP2_TRANSPORT_PARAMS_TYPE_CLIENT_HELLO then
    ngtcp2_put_uint32be (v_version (tp_v t))
  else if exttype =? NGTCP2_TRANSPORT_PARAMS_TYPE_ENCRYPTED_EXTENSIONS then
    match tp_v t with
    | v_ee negotiated vs => ngtcp2_put_uint32be negotiated ++ zlen vs * 4 :: versions vs
    | v_ch _ => []
    end
  else [].

(** The parameters in the order in which they are sent. *)
Definition params_body (exttype : Z) (t : ngtcp2_transport_params) : bytes :=
  blk32 NGTCP2_TRANSPORT_PARAM_INITIAL_MAX_STREAM_DATA (tp_initial_max_stream_data t) ++
  blk32 NGTCP2_TRANSPORT_PARAM_INITIAL_MAX_DATA (tp_initial_max_data t) ++
  blk16 NGTCP2_TRANSPORT_PARAM_IDLE_TIMEOUT (tp_idle_timeout t) ++
  opt (sends_token exttype) (token_blk t) ++
  opt (nonzero (tp_initial_max_stream_id_bidi t))
    (blk32 NGTCP2_TRANSPORT_PARAM_INITIAL_MAX_STREAM_ID_BIDI (tp_initial_max_stream_id_bidi t)) ++
  opt (nonzero (tp_initial_max_stream_id_uni t))
    (blk32 NGTCP2_TRANSPORT_PARAM_INITIAL_MAX_STREAM_ID_UNI (tp_initial_max_stream_id_uni t)) ++
  opt (nonzero (tp_omit_connection_id t)) (blk_hd NGTCP2_TRANSPORT_PARAM_OMIT_CONNECTION_ID 0) ++
  opt (has_max_packet_size t)
    (blk16 NGTCP2_TRANSPORT_PARAM_MAX_PACKET_SIZE (tp_max_packet_size t)) ++
  opt (has_unicast_ip t) (ip_blk t) ++
  opt (has_ack_delay_exponent t) (ack_blk t).

Definition params_bytes (exttype : Z) (t : ngtcp2_transport_params) : bytes :=
  v_bytes exttype t ++ ngtcp2_put_uint16be (zlen (params_body exttype t)) ++ params_body exttype t.

(** The parameters an endpoint may send in a message of type [exttype]. *)
Definition wf_v (exttype : Z) (v : params_v) : Prop :=
  match v with
  | v_ch x => exttype <> NGTCP2_TRANSPORT_PARAMS_TYPE_ENCRYPTED_EXTENSIONS /\ is_uint 32 x
  | v_ee x vs => exttype <> NGTCP2_TRANSPORT_PARAMS_TYPE_CLIENT_HELLO /\ is_uint 32 x /\
      Forall (is_uint 32) vs /\ zlen vs <= 63
  end.

Record wf_params (exttype : Z) (t : ngtcp2_transport_params) : Prop := {
  wf_tp_v : wf_v exttype (tp_v t);
  wf_tp_stream_data : is_uint 32 (tp_initial_max_stream_data t);
  wf_tp_data : is_uint 32 (tp_initial_max_data t);
  wf_tp_bidi : is_uint 32 (tp_initial_max_stream_id_bidi t);
  wf_tp_uni : is_uint 32 (tp_initial_max_stream_id_uni t);
  wf_tp_bidi_ok : tp_initial_max_stream_id_bidi t = 0 \/
    ok_stream_id valid_stream_id_bidi exttype (tp_initial_max_stream_id_bidi t);
  wf_tp_uni_ok : tp_initial_max_stream_id_uni t = 0 \/
    ok_stream_id valid_stream_id_uni exttype (tp_initial_max_stream_id_uni t);
  wf_tp_idle : is_uint 16 (tp_idle_timeout t);
  wf_tp_mps : is_uint 16 (tp_max_packet_size t);
  wf_tp_token : zlen (tp_stateless_reset_token t) = NGTCP2_STATELESS_RESET_TOKENLEN;
  wf_tp_ip0 : is_uint 32 (tp_ip0 t);
  wf_tp_ip1 : is_uint 32 (tp_ip1 t);
  wf_tp_ip2 : is_uint 32 (tp_ip2 t);
  wf_tp_ip3 : is_uint 32 (tp_ip3 t);
  wf_tp_ack : 0 <= tp_ack_delay_exponent t <= 20
}.

(** What the receiver, whose structure held [t0], gets. *)
Definition received_params (exttype : Z) (t0 t : ngtcp2_transport_params) : ngtcp2_transport_params :=
  let ip := has_unicast_ip t in
  mk_params
    (if exttype =? NGTCP2_TRANSPORT_PARAMS_TYPE_NEW_SESSION_TICKET then tp_v t0 else tp_v t)
    (tp_initial_max_stream_data t) (tp_initial_max_data t) (tp_initial_max_stream_id_bidi t)
    (tp_initial_max_stream_id_uni t) (tp_idle_timeout t)
    (if nonzero (tp_omit_connection_id t) then 1 else 0) (tp_max_packet_size t)
    (if sends_token exttype then tp_stateless_reset_token t else tp_stateless_reset_token t0)
    (if ip then tp_ip0 t else tp_ip0 t0) (if ip then tp_ip1 t else tp_ip1 t0)
    (if ip then tp_ip2 t else tp_ip2 t0) (if ip then tp_ip3 t else tp_ip3 t0)
    (tp_ack_delay_exponent t).

(** *** Encoding *)

Lemma zlen_opt c bs : zlen (opt c bs) = if c then zlen bs else 0.
Proof. by destruct c. Qed.

Lemma add_if_opt c n len bs : zlen bs = n -> add_if c n len = len + zlen (opt c bs).
Proof. intros <-. rewrite zlen_opt. unfold add_if. destruct c; lia. Qed.

Lemma wr_opt (c : bool) w bs cap (m : res bytes) :
  zlen w + zlen (opt c bs) <= cap -> (zlen w + zlen bs <= cap -> m = Ok (w ++ bs)) ->
  (if c then m else Ok w) = Ok (w ++ opt c bs).
Proof. rewrite zlen_opt. destruct c; simpl; [auto|]. intros _ _. by rewrite app_nil_r. Qed.

Lemma zlen_blk_hd id len : zlen (blk_hd id len) = 4.
Proof. unfold blk_hd. zlia. Qed.
Lemma zlen_blk32 id v : zlen (blk32 id v) = 8.
Proof. unfold blk32. rewrite zlen_app, zlen_blk_hd. zlia. Qed.
Lemma zlen_blk16 id v : zlen (blk16 id v) = 6.
Proof. unfold blk16. rewrite zlen_app, zlen_blk_hd. zlia. Qed.
#[local] Hint Rewrite zlen_blk_hd zlen_blk32 zlen_blk16 : zlen.

Lemma put_param_ok cap w id len :
  zlen w + 4 <= cap -> put_param cap w id len = Ok (w ++ blk_hd id len).
Proof.
  intros H. unfold put_param, blk_hd. rewrite wr_ok by zlia. cbn [mbind res_bind].
  rewrite wr_ok by zlia. by rewrite <- app_assoc.
Qed.

Lemma put_param32_ok cap w id v : zlen w + 8 <= cap -> put_param32 cap w id v = Ok (w ++ blk32 id v).
Proof.
  intros H. unfold put_param32, blk32. rewrite put_param_ok by lia. cbn [mbind res_bind].
  rewrite wr_ok by zlia. by rewrite <- app_assoc.
Qed.

Lemma put_param16_ok cap w id v : zlen w + 6 <= cap -> put_param16 cap w id v = Ok (w ++ blk16 id v).
Proof.
  intros H. unfold put_param16, blk16. rewrite put_param_ok by lia. cbn [mbind res_bind].
  rewrite wr_ok by zlia. by rewrite <- app_assoc.
Qed.

Lemma zlen_versions vs : zlen (versions vs) = zlen vs * 4.
Proof.
  induction vs as [|v vs IH]; [done|]. cbn [versions]. rewrite zlen_app, IH, zlen_cons. zlia.
Qed.
#[local] Hint Rewrite zlen_versions : zlen.

Lemma put_versions_ok cap w vs :
  zlen w + zlen vs * 4 <= cap -> put_versions cap w vs = Ok (w ++ versions vs).
Proof.
  revert w. induction vs as [|v vs IH]; intros w H; cbn [put_versions].
  { by rewrite app_nil_r. }
  rewrite zlen_cons in H. zfacts. rewrite wr_ok by zlia. cbn [mbind res_bind].
  rewrite IH by zlia. by rewrite <- app_assoc.
Qed.

Lemma zlen_token_blk exttype t : wf_params exttype t -> zlen (token_blk t) = 20.
Proof.
  intros Hw. pose proof (wf_tp_token _ _ Hw) as Ht. unfold token_blk, NGTCP2_STATELESS_RESET_TOKENLEN in *.
  rewrite zlen_app, Ht. zlia.
Qed.
Lemma zlen_ip_blk t : zlen (ip_blk t) = 20.
Proof. unfold ip_blk. zlia. Qed.
Lemma zlen_ack_blk t : zlen (ack_blk t) = 5.
Proof. unfold ack_blk. zlia. Qed.

(** The lengths the encoder computes are those of the parts. *)
Lemma params_vlen_ok exttype t :
  wf_exttype exttype -> wf_params exttype t ->
  params_vlen exttype t = Ok (zlen (v_bytes exttype t), zlen (opt (sends_token exttype) (token_blk t))).
Proof.
  intros He Hw. rewrite zlen_opt, (zlen_token_blk _ _ Hw). pose proof (wf_tp_v _ _ Hw) as Hv.
  unfold params_vlen, v_bytes, wf_exttype in *.
  assert (exttype = 0 \/ exttype = 1 \/ exttype = 2) as [-> | [-> | ->]] by lia; dispatch.
  - f_equal; f_equal; zlia.
  - destruct (tp_v t) as [x|x vs]; [by destruct Hv|]. f_equal; f_equal; zlia.
  - done.
Qed.

Lemma put_v_ok cap exttype t :
  wf_exttype exttype -> wf_params exttype t -> zlen (v_bytes exttype t) <= cap ->
  put_v cap exttype t = Ok (v_bytes exttype t).
Proof.
  intros He Hw Hl. pose proof (wf_tp_v _ _ Hw) as Hv. unfold put_v, v_bytes, wf_exttype in *.
  assert (exttype = 0 \/ exttype = 1 \/ exttype = 2) as [-> | [-> | ->]] by lia; revert Hl; dispatch; intros Hl.
  - by rewrite wr_ok by zlia.
  - destruct (tp_v t) as [x|x vs]; [by destruct Hv|]. destruct Hv as (_ & _ & _ & Hvs).
    rewrite zlen_app, zlen_cons, zlen_versions in Hl. zfacts.
    rewrite wr_ok by zlia. cbn [mbind res_bind]. rewrite wr_ok by zlia. cbn [mbind res_bind].
    rewrite put_versions_ok by zlia. rewrite u8_small by clia. simpl. by rewrite <- app_assoc.
  - done.
Qed.

Lemma opt_bound c bs : zlen (opt c bs) <= zlen bs.
Proof. rewrite zlen_opt. zfacts. destruct c; lia. Qed.

Lemma params_body_bound exttype t : wf_params exttype t -> zlen (params_body exttype t) <= 100.
Proof.
  intros Hw. unfold params_body. rewrite !zlen_app.
  repeat match goal with |- context [opt ?c ?bs] => 
    pose proof (opt_bound c bs); generalize dependent (opt c bs); intros end.
  pose proof (zlen_token_blk _ _ Hw). pose proof (zlen_ip_blk t). pose proof (zlen_ack_blk t). zlia.
Qed.

Ltac put_step :=
  first
    [ rewrite wr_ok by zlia
    | rewrite put_param32_ok by zlia
    | rewrite put_param16_ok by zlia
    | rewrite put_param_ok by zlia ]; cbn [mbind res_bind].

Lemma put_token_ok cap w t :
  zlen w + zlen (token_blk t) <= cap ->
  (w ← put_param cap w NGTCP2_TRANSPORT_PARAM_STATELESS_RESET_TOKEN NGTCP2_STATELESS_RESET_TOKENLEN;
   wr cap w (tp_stateless_reset_token t)) = Ok (w ++ token_blk t).
Proof.
  unfold token_blk. rewrite zlen_app. intros H. zfacts. do 2 put_step. by rewrite <- app_assoc.
Qed.

Lemma put_ip_ok cap w t :
  zlen w + zlen (ip_blk t) <= cap ->
  (w ← put_param cap w NGTCP2_TRANSPORT_PARAM_SERVER_UNICAST_IP 16;
   w ← wr cap w (ngtcp2_put_uint32be (tp_ip0 t));
   w ← wr cap w (ngtcp2_put_uint32be (tp_ip1 t));
   w ← wr cap w (ngtcp2_put_uint32be (tp_ip2 t));
   wr cap w (ngtcp2_put_uint32be (tp_ip3 t))) = Ok (w ++ ip_blk t).
Proof. rewrite zlen_ip_blk. intros H. do 5 put_step. unfold ip_blk. by rewrite <- !app_assoc. Qed.

Lemma put_ack_ok cap w t :
  zlen w + zlen (ack_blk t) <= cap ->
  (w ← put_param cap w NGTCP2_TRANSPORT_PARAM_ACK_DELAY_EXPONENT 1;
   wr cap w [tp_ack_delay_exponent t]) = Ok (w ++ ack_blk t).
Proof. rewrite zlen_ack_blk. intros H. do 2 put_step. unfold ack_blk. by rewrite <- app_assoc. Qed.

Lemma encode_params_spec destlen exttype t :
  wf_exttype exttype -> wf_params exttype t ->
  encodes_as (ngtcp2_encode_transport_params destlen exttype t) destlen (params_bytes exttype t).
Proof.
  intros He Hw. unfold encodes_as, ngtcp2_encode_transport_params.
  rewrite (params_vlen_ok exttype) by done. cbn [mbind res_bind].
  fold (has_max_packet_size t) (has_ack_delay_exponent t).
  rewrite (add_if_opt (has_unicast_ip t) 20 _ (ip_blk t)) by apply zlen_ip_blk.
  rewrite (add_if_opt (has_ack_delay_exponent t) 5 _ (ack_blk t)) by apply zlen_ack_blk.
  rewrite (add_if_opt (has_max_packet_size t) 6 _
    (blk16 NGTCP2_TRANSPORT_PARAM_MAX_PACKET_SIZE (tp_max_packet_size t))) by apply zlen_blk16.
  rewrite (add_if_opt (nonzero (tp_omit_connection_id t)) 4 _
    (blk_hd NGTCP2_TRANSPORT_PARAM_OMIT_CONNECTION_ID 0)) by apply zlen_blk_hd.
  rewrite (add_if_opt (nonzero (tp_initial_max_stream_id_uni t)) 8 _
    (blk32 NGTCP2_TRANSPORT_PARAM_INITIAL_MAX_STREAM_ID_UNI (tp_initial_max_stream_id_uni t)))
    by apply zlen_blk32.
  rewrite (add_if_opt (nonzero (tp_initial_max_stream_id_bidi t)) 8 _
    (blk32 NGTCP2_TRANSPORT_PARAM_INITIAL_MAX_STREAM_ID_BIDI (tp_initial_max_stream_id_bidi t)))
    by apply zlen_blk32.
  pose proof (zlen_token_blk _ _ Hw) as Htok.
  pose proof (zlen_nonneg (v_bytes exttype t)) as Hv0.
  match goal with |- context [check_out _ ?l] =>
    replace l with (zlen (params_bytes exttype t))
      by (unfold params_bytes, params_body; zlia) end.
  apply check_out_bind. intros Hl.
  assert (Hbody : zlen (params_bytes exttype t) - zlen (v_bytes exttype t) - 2 = zlen (params_body exttype t))
    by (unfold params_bytes; zlia).
  rewrite Hbody, u16_small by (pose proof (params_body_bound exttype t Hw); zfacts; clia).
  unfold params_bytes in Hl. unfold params_body in Hl at 2. rewrite !zlen_app in Hl.
  rewrite put_v_ok by (try done; zlia). cbn [mbind res_bind].
  do 4 put_step.
  rewrite (wr_opt (sends_token exttype) _ (token_blk t) destlen) by (zlia || apply put_token_ok).
  cbn [mbind res_bind].
  rewrite (wr_opt (nonzero (tp_initial_max_stream_id_bidi t)) _ (blk32
    NGTCP2_TRANSPORT_PARAM_INITIAL_MAX_STREAM_ID_BIDI (tp_initial_max_stream_id_bidi t)) destlen)
    by (zlia || (intros; apply put_param32_ok; zlia)).
  cbn [mbind res_bind].
  rewrite (wr_opt (nonzero (tp_initial_max_stream_id_uni t)) _ (blk32
    NGTCP2_TRANSPORT_PARAM_INITIAL_MAX_STREAM_ID_UNI (tp_initial_max_stream_id_uni t)) destlen)
    by (zlia || (intros; apply put_param32_ok; zlia)).
  cbn [mbind res_bind].
  rewrite (wr_opt (nonzero (tp_omit_connection_id t)) _
    (blk_hd NGTCP2_TRANSPORT_PARAM_OMIT_CONNECTION_ID 0) destlen)
    by (zlia || (intros; apply put_param_ok; zlia)).
  cbn [mbind res_bind].
  rewrite (wr_opt (has_max_packet_size t) _
    (blk16 NGTCP2_TRANSPORT_PARAM_MAX_PACKET_SIZE (tp_max_packet_size t)) destlen)
    by (zlia || (intros; apply put_param16_ok; zlia)).
  cbn [mbind res_bind].
  rewrite (wr_opt (has_unicast_ip t) _ (ip_blk t) destlen) by (zlia || apply put_ip_ok).
  cbn [mbind res_bind].
  rewrite (wr_opt (has_ack_delay_exponent t) _ (ack_blk t) destlen) by (zlia || apply put_ack_ok).
  cbn [mbind res_bind]. rewrite <- !app_assoc. apply finish_ok.
  unfold params_bytes, params_body. by rewrite <- ?app_assoc.
Qed.

(** *** Decoding *)

(** [steps s s']: the loop goes from [s] to [s'], where it has enough fuel left. *)
Definition loop_state : Type := Z * ngtcp2_transport_params * bytes.
Definition steps (exttype : Z) (s s' : loop_state) : Prop :=
  let '(flags, t, p) := s in
  let '(flags', t', p') := s' in
  forall fuel, (length p < fuel)%nat -> exists fuel', (length p' < fuel')%nat /\
    decode_params_loop fuel exttype flags t p = decode_params_loop fuel' exttype flags' t' p'.

Lemma steps_trans exttype s1 s2 s3 : steps exttype s1 s2 -> steps exttype s2 s3 -> steps exttype s1 s3.
Proof.
  destruct s1 as [[f1 t1] p1], s2 as [[f2 t2] p2], s3 as [[f3 t3] p3]. intros H12 H23 fuel Hf.
  destruct (H12 fuel Hf) as (fuel2 & Hf2 & ->). by apply H23.
Qed.

Lemma steps_opt exttype (c : bool) flags t bs rest flags' t' :
  (c = true -> steps exttype (flags, t, bs ++ rest) (flags', t', rest)) ->
  steps exttype (flags, t, opt c bs ++ rest) (if c then flags' else flags, if c then t' else t, rest).
Proof. destruct c; [auto|]. intros _ fuel Hf. by exists fuel. Qed.

Lemma get_valuelen_ok n p :
  is_uint 16 n -> n <= zlen p -> get_valuelen n (ngtcp2_put_uint16be n ++ p) = Ok p.
Proof.
  intros Hn Hl. unfold get_valuelen. rewrite get_put_uint16 by done. res_simpl.
  rewrite Z.eqb_refl. cbn [negb malformed fail_if mbind res_bind].
  rewrite adv_app by zlia. cbn [mbind res_bind]. unfold malformed, fail_if.
  by rewrite (proj2 (Z.ltb_ge _ _)) by lia.
Qed.

(** One iteration of the loop on a parameter. *)
Lemma step_param exttype flags t id len v rest flags' t' :
  is_uint 16 id ->
  decode_param exttype id flags t (ngtcp2_put_uint16be len ++ v ++ rest) = Ok (flags', t', rest) ->
  steps exttype (flags, t, (blk_hd id len ++ v) ++ rest) (flags', t', rest).
Proof.
  intros Hid Hd fuel Hf. destruct fuel as [|fuel]; [lia|]. exists fuel.
  assert (Hlen : zlen ((blk_hd id len ++ v) ++ rest) = 4 + zlen v + zlen rest) by zlia.
  split; [unfold zlen in *; lia|].
  cbn [decode_params_loop]. rewrite (proj2 (Z.leb_le 4 _)) by zlia.
  unfold blk_hd. rewrite <- !app_assoc. rewrite get_put_uint16 by done. cbn [mbind res_bind].
  rewrite adv_app by zlia. cbn [mbind res_bind]. by rewrite Hd.
Qed.

Ltac dparam :=
  rewrite ?app_assoc; rewrite <- ?app_assoc; unfold decode_param; dispatch;
  repeat first
    [ progress res_simpl
    | rewrite get_valuelen_ok by (first [done | zlia])
    | rewrite get_put_uint32 by done
    | rewrite get_put_uint16 by done
    | rewrite adv_app by zlia
    | rewrite rdn_app by zlia
    | rewrite adv_app2 by zlia ].

Section Decode.
Context (exttype : Z) (He : wf_exttype exttype) (flags : Z) (t0 : ngtcp2_transport_params) (rest : bytes).

Lemma step_stream_data v : is_uint 32 v ->
  steps exttype (flags, t0, blk32 NGTCP2_TRANSPORT_PARAM_INITIAL_MAX_STREAM_DATA v ++ rest)
    (flags .| 1, set_initial_max_stream_data v t0, rest).
Proof. intros Hv. apply step_param; [done|]. dparam. done. Qed.

Lemma step_data v : is_uint 32 v ->
  steps exttype (flags, t0, blk32 NGTCP2_TRANSPORT_PARAM_INITIAL_MAX_DATA v ++ rest)
    (flags .| 2, set_initial_max_data v t0, rest).
Proof. intros Hv. apply step_param; [done|]. dparam. done. Qed.

Lemma step_bidi v : is_uint 32 v -> ok_stream_id valid_stream_id_bidi exttype v ->
  steps exttype (flags, t0, blk32 NGTCP2_TRANSPORT_PARAM_INITIAL_MAX_STREAM_ID_BIDI v ++ rest)
    (flags .| 4, set_initial_max_stream_id_bidi v t0, rest).
Proof. intros Hv Hok. apply step_param; [done|]. dparam. rewrite Hok. dparam. done. Qed.

Lemma step_uni v : is_uint 32 v -> ok_stream_id valid_stream_id_uni exttype v ->
  steps exttype (flags, t0, blk32 NGTCP2_TRANSPORT_PARAM_INITIAL_MAX_STREAM_ID_UNI v ++ rest)
    (flags .| 256, set_initial_max_stream_id_uni v t0, rest).
Proof. intros Hv Hok. apply step_param; [done|]. dparam. rewrite Hok. dparam. done. Qed.

Lemma step_idle v : is_uint 16 v ->
  steps exttype (flags, t0, blk16 NGTCP2_TRANSPORT_PARAM_IDLE_TIMEOUT v ++ rest)
    (flags .| 8, set_idle_timeout v t0, rest).
Proof. intros Hv. apply step_param; [done|]. dparam. done. Qed.

Lemma step_omit :
  steps exttype (flags, t0, blk_hd NGTCP2_TRANSPORT_PARAM_OMIT_CONNECTION_ID 0 ++ rest)
    (flags .| 16, set_omit_connection_id 1 t0, rest).
Proof.
  rewrite <- (app_nil_r (blk_hd _ _)). apply step_param; [done|]. dparam. done.
Qed.

Lemma step_mps v : is_uint 16 v ->
  steps exttype (flags, t0, blk16 NGTCP2_TRANSPORT_PARAM_MAX_PACKET_SIZE v ++ rest)
    (flags .| 32, set_max_packet_size v t0, rest).
Proof. intros Hv. apply step_param; [done|]. dparam. done. Qed.

Lemma step_token t : zlen (tp_stateless_reset_token t) = NGTCP2_STATELESS_RESET_TOKENLEN ->
  sends_token exttype = true ->
  steps exttype (flags, t0, token_blk t ++ rest)
    (flags .| 64, set_stateless_reset_token (tp_stateless_reset_token t) t0, rest).
Proof.
  intros Hl Hs. apply step_param; [done|]. unfold NGTCP2_STATELESS_RESET_TOKENLEN in *.
  dparam. rewrite Hs. cbn [negb malformed fail_if mbind res_bind].
  unfold NGTCP2_STATELESS_RESET_TOKENLEN. dparam. done.
Qed.

Lemma step_ip t : is_uint 32 (tp_ip0 t) -> is_uint 32 (tp_ip1 t) -> is_uint 32 (tp_ip2 t) ->
  is_uint 32 (tp_ip3 t) ->
  steps exttype (flags, t0, ip_blk t ++ rest)
    (flags .| 512, set_server_unicast_ip (tp_ip0 t) (tp_ip1 t) (tp_ip2 t) (tp_ip3 t) t0, rest).
Proof. intros H0 H1 H2 H3. apply step_param; [done|]. dparam. done. Qed.

Lemma step_ack t : 0 <= tp_ack_delay_exponent t <= 20 ->
  steps exttype (flags, t0, ack_blk t ++ rest)
    (flags .| 128, set_ack_delay_exponent (tp_ack_delay_exponent t) t0, rest).
Proof.
  intros Ha. apply step_param; [done|]. unfold decode_param; dispatch. res_simpl.
  rewrite get_valuelen_ok by (first [done | zlia]). cbn [mbind res_bind rd app].
  unfold malformed, fail_if. rewrite (proj2 (Z.ltb_ge _ _)) by lia. cbn [mbind res_bind].
  rewrite adv_1. done.
Qed.
End Decode.

Lemma get_versions_ok vs p :
  Forall (is_uint 32) vs -> get_versions (length vs) (versions vs ++ p) = Ok (vs, p).
Proof.
  induction 1 as [|v vs Hv _ IH]; [done|]. cbn [length get_versions versions].
  rewrite <- app_assoc, get_put_uint32 by done. cbn [mbind res_bind].
  rewrite adv_app by zlia. cbn [mbind res_bind]. by rewrite IH.
Qed.

Lemma get_v_ok exttype t0 t p :
  wf_exttype exttype -> wf_v exttype (tp_v t) ->
  get_v exttype t0 (v_bytes exttype t ++ p) =
  Ok (if exttype =? NGTCP2_TRANSPORT_PARAMS_TYPE_NEW_SESSION_TICKET then t0 else set_v (tp_v t) t0,
      p, zlen (v_bytes exttype t)).
Proof.
  intros He Hv. unfold get_v, v_bytes, wf_exttype in *.
  assert (exttype = 0 \/ exttype = 1 \/ exttype = 2) as [-> | [-> | ->]] by lia; dispatch; [| |done].
  - destruct (tp_v t) as [x|x vs]; [|by destruct Hv]. destruct Hv as [_ Hx].
    unfold malformed, fail_if. rewrite (proj2 (Z.ltb_ge _ _)) by zlia. cbn [mbind res_bind v_version].
    rewrite get_put_uint32 by done. cbn [mbind res_bind]. rewrite adv_app by zlia.
    cbn [mbind res_bind]. res_simpl. f_equal; f_equal; zlia.
  - destruct (tp_v t) as [x|x vs]; [by destruct Hv|]. destruct Hv as (_ & Hx & Hvs & Hl). zfacts.
    rewrite <- app_assoc, <- app_comm_cons. unfold malformed, fail_if.
    rewrite (proj2 (Z.ltb_ge _ (4 + 1))) by zlia. cbn [mbind res_bind].
    rewrite get_put_uint32 by done. cbn [mbind res_bind]. rewrite adv_app by zlia.
    cbn [mbind res_bind rd]. rewrite adv_1. cbn [mbind res_bind].
    rewrite (proj2 (Z.ltb_ge _ (zlen vs * 4))), Z.mod_mul, Z.div_mul by zlia.
    cbn [orb negb Z.eqb mbind res_bind]. 
    replace (Z.to_nat (zlen vs)) with (length vs) by (unfold zlen; lia).
    rewrite get_versions_ok by done.
    cbn [mbind res_bind]. res_simpl. f_equal; f_equal; zlia.
Qed.

Lemma v_bytes_bound exttype t : wf_params exttype t -> zlen (v_bytes exttype t) <= 300.
Proof.
  intros Hw. pose proof (wf_tp_v _ _ Hw) as Hv. unfold v_bytes.
  destruct (_ =? _); [zlia|]. destruct (_ =? _); [|unfold zlen; simpl; lia].
  destruct (tp_v t) as [x|x vs]; [unfold zlen; simpl; lia|]. destruct Hv as (_ & _ & _ & Hvs). zlia.
Qed.

(** The flags and the parameters after the loop. *)
Definition sent_flags (exttype : Z) (t : ngtcp2_transport_params) : Z :=
  let set (c : bool) bit f := if c then f .| bit else f in
  set (has_ack_delay_exponent t) 128 (set (has_unicast_ip t) 512 (set (has_max_packet_size t) 32
    (set (nonzero (tp_omit_connection_id t)) 16 (set (nonzero (tp_initial_max_stream_id_uni t)) 256
    (set (nonzero (tp_initial_max_stream_id_bidi t)) 4 (set (sends_token exttype) 64
    (0 .| 1 .| 2 .| 8))))))).

Definition sent_params (exttype : Z) (t0 t : ngtcp2_transport_params) : ngtcp2_transport_params :=
  let set (c : bool) (f : ngtcp2_transport_params -> ngtcp2_transport_params) x := if c then f x else x in
  set (has_ack_delay_exponent t) (set_ack_delay_exponent (tp_ack_delay_exponent t))
  (set (has_unicast_ip t) (set_server_unicast_ip (tp_ip0 t) (tp_ip1 t) (tp_ip2 t) (tp_ip3 t))
  (set (has_max_packet_size t) (set_max_packet_size (tp_max_packet_size t))
  (set (nonzero (tp_omit_connection_id t)) (set_omit_connection_id 1)
  (set (nonzero (tp_initial_max_stream_id_uni t))
    (set_initial_max_stream_id_uni (tp_initial_max_stream_id_uni t))
  (set (nonzero (tp_initial_max_stream_id_bidi t))
    (set_initial_max_stream_id_bidi (tp_initial_max_stream_id_bidi t))
  (set (sends_token exttype) (set_stateless_reset_token (tp_stateless_reset_token t))
  (set_idle_timeout (tp_idle_timeout t) (set_initial_max_data (tp_initial_max_data t)
    (set_initial_max_stream_data (tp_initial_max_stream_data t) t0))))))))).

Lemma steps_body exttype t0 t :
  wf_exttype exttype -> wf_params exttype t ->
  steps exttype (0, t0, params_body exttype t) (sent_flags exttype t, sent_params exttype t0 t, []).
Proof.
  intros He [].
  assert (Hid : forall x, x = 0 \/ ok_stream_id valid_stream_id_bidi exttype x -> nonzero x = true ->
    ok_stream_id valid_stream_id_bidi exttype x) by (intros x [-> | ?]; done).
  assert (Hiu : forall x, x = 0 \/ ok_stream_id valid_stream_id_uni exttype x -> nonzero x = true ->
    ok_stream_id valid_stream_id_uni exttype x) by (intros x [-> | ?]; done).
  unfold params_body, sent_flags, sent_params.
  eapply steps_trans; [by apply step_stream_data|].
  eapply steps_trans; [by apply step_data|].
  eapply steps_trans; [by apply step_idle|].
  eapply steps_trans; [apply steps_opt; intros Hc; by apply step_token|].
  eapply steps_trans; [apply steps_opt; intros Hc; apply step_bidi; auto|].
  eapply steps_trans; [apply steps_opt; intros Hc; apply step_uni; auto|].
  eapply steps_trans; [apply steps_opt; intros Hc; apply step_omit|].
  eapply steps_trans; [apply steps_opt; intros Hc; by apply step_mps|].
  eapply steps_trans; [apply steps_opt; intros Hc; by apply step_ip|].
  rewrite <- (app_nil_r (opt _ (ack_blk t))).
  eapply steps_trans; [apply steps_opt; intros Hc; by apply step_ack|].
  intros fuel Hf. by exists fuel.
Qed.

Lemma sent_required exttype t :
  sent_flags exttype t .& NGTCP2_REQUIRED_TRANSPORT_PARAMS = NGTCP2_REQUIRED_TRANSPORT_PARAMS /\
  (sends_token exttype = true ->
    has_param (sent_flags exttype t) NGTCP2_TRANSPORT_PARAM_STATELESS_RESET_TOKEN = true).
Proof.
  unfold sent_flags.
  destruct (has_ack_delay_exponent t), (has_unicast_ip t), (has_max_packet_size t),
    (nonzero (tp_omit_connection_id t)), (nonzero (tp_initial_max_stream_id_uni t)),
    (nonzero (tp_initial_max_stream_id_bidi t)), (sends_token exttype); done.
Qed.

Lemma default_sent exttype t0 t :
  default_params (sent_flags exttype t)
    (sent_params exttype
      (if exttype =? NGTCP2_TRANSPORT_PARAMS_TYPE_NEW_SESSION_TICKET then t0 else set_v (tp_v t) t0) t) =
  received_params exttype t0 t.
Proof.
  unfold received_params.
  assert (Hm : has_max_packet_size t = false -> tp_max_packet_size t = NGTCP2_MAX_PKT_SIZE)
    by (by intros ?%negb_false_iff%Z.eqb_eq).
  assert (Ha : has_ack_delay_exponent t = false ->
    tp_ack_delay_exponent t = NGTCP2_DEFAULT_ACK_DELAY_EXPONENT) by (by intros ?%negb_false_iff%Z.eqb_eq).
  assert (Hu : nonzero (tp_initial_max_stream_id_uni t) = false -> tp_initial_max_stream_id_uni t = 0)
    by (by intros ?%negb_false_iff%Z.eqb_eq).
  assert (Hb : nonzero (tp_initial_max_stream_id_bidi t) = false -> tp_initial_max_stream_id_bidi t = 0)
    by (by intros ?%negb_false_iff%Z.eqb_eq).
  set (ns := exttype =? NGTCP2_TRANSPORT_PARAMS_TYPE_NEW_SESSION_TICKET).
  unfold sent_flags, sent_params.
  destruct (has_ack_delay_exponent t), (has_unicast_ip t), (has_max_packet_size t),
    (nonzero (tp_omit_connection_id t)), (nonzero (tp_initial_max_stream_id_uni t)),
    (nonzero (tp_initial_max_stream_id_bidi t)), (sends_token exttype), ns; destruct t0;
    rewrite ?Hm, ?Ha, ?Hu, ?Hb by done; reflexivity.
Qed.

Lemma malformed_ok b : b = false -> malformed b = Ok tt.
Proof. by intros ->. Qed.

Lemma decode_params_roundtrip exttype t0 t :
  wf_exttype exttype -> wf_params exttype t ->
  ngtcp2_decode_transport_params t0 exttype (params_bytes exttype t) = Ok (received_params exttype t0 t).
Proof.
  intros He Hw. unfold ngtcp2_decode_transport_params, params_bytes.
  rewrite (get_v_ok exttype t0 t) by (try done; apply Hw). cbn [mbind res_bind].
  pose proof (params_body_bound _ _ Hw). zfacts.
  rewrite malformed_ok by (apply Z.ltb_ge; zlia). cbn [mbind res_bind].
  rewrite get_put_uint16 by clia. cbn [mbind res_bind].
  rewrite malformed_ok by (apply negb_false_iff, Z.eqb_eq; zlia). cbn [mbind res_bind].
  rewrite adv_app by zlia. cbn [mbind res_bind].
  set (t1 := if _ =? _ then t0 else _).
  destruct (steps_body exttype t1 t He Hw (S (length (v_bytes exttype t ++
    ngtcp2_put_uint16be (zlen (params_body exttype t)) ++ params_body exttype t)))) as (fuel' & Hf & ->).
  { rewrite !length_app. lia. }
  destruct fuel' as [|fuel']; [simpl in Hf; lia|].
  change (decode_params_loop (S fuel') exttype (sent_flags exttype t) (sent_params exttype t1 t) [])
    with (Ok (A := Z * ngtcp2_transport_params * bytes) (sent_flags exttype t, sent_params exttype t1 t, [])).
  cbn [mbind res_bind]. rewrite malformed_ok by done. cbn [mbind res_bind].
  destruct (sent_required exttype t) as [Hreq Htok].
  rewrite Hreq, Z.eqb_refl. cbn [fail_if negb mbind res_bind].
  replace (sends_token exttype && _) with false by (destruct (sends_token exttype); [by rewrite Htok | done]).
  cbn [fail_if mbind res_bind]. res_simpl. f_equal. apply default_sent.
Qed.

Lemma lxor_cancel_l a x y : Z.lxor a x = Z.lxor a y -> x = y.
Proof.
  intros H. rewrite <- (Z.lxor_0_l x), <- (Z.lxor_0_l y), <- (Z.lxor_nilpotent a), !Z.lxor_assoc.
  by rewrite H.
Qed.

Lemma zip_lxor_inj l x y :
  length x = length l -> length y = length l -> zip_with Z.lxor l x = zip_with Z.lxor l y -> x = y.
Proof.
  revert x y. induction l as [|a l IH]; intros [|b x] [|c y]; try done.
  simpl. intros [= Hx] [= Hy] [= Heq%lxor_cancel_l Htl]. subst. f_equal. by apply IH.
Qed.

(** A nonce under an IV gives back the number it was made from. *)
Lemma create_nonce_inj iv pn1 pn2 nonce :
  8 <= zlen iv < 2 ^ 64 -> is_uint 64 pn1 -> is_uint 64 pn2 ->
  ngtcp2_crypto_create_nonce iv pn1 = Ok nonce -> ngtcp2_crypto_create_nonce iv pn2 = Ok nonce -> pn1 = pn2.
Proof.
  intros Hiv H1 H2 E1 E2.
  destruct (create_nonce_spec iv pn1 Hiv H1) as (n1 & E1' & _ & _ & D1).
  destruct (create_nonce_spec iv pn2 Hiv H2) as (n2 & E2' & _ & _ & D2).
  assert (Hz : zip_with Z.lxor (drop (length iv - 8) iv) (be_store 8 pn1) =
    zip_with Z.lxor (drop (length iv - 8) iv) (be_store 8 pn2)) by congruence.
  assert (Hl : forall pn, length (be_store 8 pn) = length (drop (length iv - 8) iv)).
  { intros pn. pose proof (zlen_be_store 8 pn). rewrite length_drop. unfold zlen in *. lia. }
  apply zip_lxor_inj in Hz; [|done..].
  apply (f_equal be_load) in Hz. rewrite !be_load_store in Hz.
  rewrite !Z.mod_small in Hz by clia. done.
Qed.

(** There is no nonce under an IV that is too short. *)
Lemma xor_at_room dest i b bs d : xor_at dest i (b :: bs) = Ok d -> (i + length (b :: bs) <= length dest)%nat.
Proof.
  revert dest i b. induction bs as [|b' bs IH]; intros dest i b; cbn [xor_at];
    (destruct (dest !! i) as [x|] eqn:E; [|done]); pose proof (lookup_lt_Some _ _ _ E).
  - simpl. lia.
  - intros H'. apply IH in H'. rewrite length_insert in H'. simpl in *. lia.
Qed.

Lemma create_nonce_iv iv pn nonce :
  zlen iv < 2 ^ 64 -> ngtcp2_crypto_create_nonce iv pn = Ok nonce -> 8 <= zlen iv.
Proof.
  intros Hiv. unfold ngtcp2_crypto_create_nonce. pose proof (length_le_store 8 (bswap64 pn)) as Hl.
  destruct (le_store 8 _) as [|b bs]; [done|]. intros H%xor_at_room. rewrite Hl in H.
  zfacts. destruct (Z.ltb_spec (zlen iv) 8) as [Hs|]; [|done]. unfold zlen in *.
  assert (u64 (Z.of_nat (length iv) - 8) = Z.of_nat (length iv) - 8 + 2 ^ 64) as Hw
    by (unfold u64; rewrite <- (Z.mod_add _ 1), Z.mod_small by lia; lia).
  rewrite Hw in H. lia.
Qed.

(** ** Properties *)

(** C31. No nonce is used twice with one key: under an IV of at least 8 bytes,
    different packet numbers give different nonces, as long as the IV. *)
Theorem nonce_unique iv pn1 pn2 :
  8 <= zlen iv < 2 ^ 64 -> is_uint 64 pn1 -> is_uint 64 pn2 -> pn1 <> pn2 ->
  exists n1 n2, ngtcp2_crypto_create_nonce iv pn1 = Ok n1 /\
    ngtcp2_crypto_create_nonce iv pn2 = Ok n2 /\
    zlen n1 = zlen iv /\ zlen n2 = zlen iv /\ n1 <> n2.
Proof.
  intros Hiv H1 H2 Hne.
  destruct (create_nonce_spec iv pn1 Hiv H1) as (n1 & E1 & L1 & _).
  destruct (create_nonce_spec iv pn2 Hiv H2) as (n2 & E2 & L2 & _).
  exists n1, n2. split_and!; try done. intros ->. apply Hne. by apply (create_nonce_inj iv pn1 pn2 n2).
Qed.

Lemma nonce_unique_witness :
  exists n1 n2, ngtcp2_crypto_create_nonce (seqZ 0 12) 1 = Ok n1 /\
    ngtcp2_crypto_create_nonce (seqZ 0 12) 2 = Ok n2 /\
    zlen n1 = zlen (seqZ 0 12) /\ zlen n2 = zlen (seqZ 0 12) /\ n1 <> n2.
Proof. apply (nonce_unique (seqZ 0 12) 1 2); done. Defined.

(** C30. Decoding transport parameters never reads outside of the data, for any
    bytes a peer sends: the result is one of the two documented errors, or
    parameters within their limits (stream IDs of the right type, an ACK delay
    exponent of at most 20, at most 63 versions). *)
Theorem params_decoder_safe t exttype data :
  wf_exttype exttype -> all_bytes data -> v_ok (tp_v t) ->
  match ngtcp2_decode_transport_params t exttype data with
  | Ok t' => params_ok exttype t'
  | Err e => e = NGTCP2_ERR_MALFORMED_TRANSPORT_PARAM \/ e = NGTCP2_ERR_REQUIRED_TRANSPORT_PARAM
  | Ub => False
  end.
Proof.
  intros He Hd Hv. pose proof (decode_params_safe t exttype data He Hd Hv) as H.
  by destruct (ngtcp2_decode_transport_params t exttype data).
Qed.

(** C29. Transport parameters that are encoded fill exactly the length computed
    up front, and are decoded to the same values: those left out because they
    have the default are restored, [omit_connection_id] is normalised. A buffer
    that is too small gives [NGTCP2_ERR_NOBUF]. (A [server_unicast_ip] that is not
    sent leaves the receiver's member as it was.) *)
Theorem params_roundtrip destlen exttype t0 t :
  wf_exttype exttype -> wf_params exttype t ->
  match ngtcp2_encode_transport_params destlen exttype t with
  | Ok (w, n) => zlen w = n /\ n <= destlen /\
      ngtcp2_decode_transport_params t0 exttype w = Ok (received_params exttype t0 t)
  | Err e => e = NGTCP2_ERR_NOBUF /\ destlen < zlen (params_bytes exttype t)
  | Ub => False
  end.
Proof.
  intros He Hwf. rewrite (encode_params_spec destlen exttype t He Hwf).
  destruct (Z.ltb_spec destlen (zlen (params_bytes exttype t))); [done|].
  split_and!; [done | done | by apply decode_params_roundtrip].
Qed.

Definition example_params : ngtcp2_transport_params :=
  mk_params (v_ee 0xff000008 [1; 0xff000008]) 65536 131072 4 0 30 1 1200 (replicate 16 0xab) 0 0 0 0 3.

Lemma params_decoder_safe_witness :
  match ngtcp2_decode_transport_params example_params 1 [0; 0; 0; 1; 9] with
  | Ok t' => params_ok 1 t'
  | Err e => e = NGTCP2_ERR_MALFORMED_TRANSPORT_PARAM \/ e = NGTCP2_ERR_REQUIRED_TRANSPORT_PARAM
  | Ub => False
  end.
Proof.
  apply params_decoder_safe; [done | repeat constructor; done | simpl; lia].
Defined.

Lemma params_roundtrip_witness :
  match ngtcp2_encode_transport_params 200 1 example_params with
  | Ok (w, n) => zlen w = n /\ n <= 200 /\
      ngtcp2_decode_transport_params example_params 1 w = Ok (received_params 1 example_params example_params)
  | Err e => e = NGTCP2_ERR_NOBUF /\ 200 < zlen (params_bytes 1 example_params)
  | Ub => False
  end.
Proof.
  apply params_roundtrip; [done|].
  split; try done; try (by left); try (by right).
  split_and!; try done. repeat constructor; done.
Defined.
