(* ===== verification/Ppe.v ===== *)
(** The packet encoder: [ngtcp2_ppe.c] and the buffer it writes to,
    [ngtcp2_buf.c]. A packet is built from a header and frames, and then
    protected with the AEAD the application provides. *)

From S2P Require Import Prelude Conv Frame PktDecode PktEncode PktHd Mem Crypto.

(** ** Buffers

    [b_bytes] are the bytes from [begin] to [last], [b_pos] is [pos - begin] and
    [b_cap] is [end - begin]. *)
Record ngtcp2_buf := mk_buf { b_cap : Z; b_pos : Z; b_bytes : bytes }.

Definition ngtcp2_buf_init (len : Z) : ngtcp2_buf := mk_buf len 0 [].
Definition ngtcp2_buf_left (buf : ngtcp2_buf) : Z := u64 (b_cap buf - zlen (b_bytes buf)).
Definition ngtcp2_buf_len (buf : ngtcp2_buf) : Z := u64 (zlen (b_bytes buf) - b_pos buf).

(** [buf->last += rv] after [rv] bytes have been stored at [buf->last]. *)
Definition buf_append (buf : ngtcp2_buf) (bs : bytes) : ngtcp2_buf :=
  mk_buf (b_cap buf) (b_pos buf) (b_bytes buf ++ bs).

(** ** Packet protection

    [encrypt] is the callback of the application: the space for the ciphertext,
    the plaintext, the key, the nonce and the associated data; [None] is a
    negative return value. *)
Record ngtcp2_crypto_ctx := mk_crypto_ctx {
  ctx_ckm : ngtcp2_crypto_km;
  ctx_aead_overhead : Z;
  ctx_encrypt : Z -> bytes -> bytes -> bytes -> bytes -> option bytes
}.

Record ngtcp2_ppe := mk_ppe {
  ppe_buf : ngtcp2_buf;
  ppe_ctx : ngtcp2_crypto_ctx;
  ppe_hdlen : Z;
  ppe_pkt_num : Z
}.

Definition ngtcp2_ppe_init (outlen : Z) (cctx : ngtcp2_crypto_ctx) : ngtcp2_ppe :=
  mk_ppe (ngtcp2_buf_init outlen) cctx 0 0.

Definition ngtcp2_ppe_encode_hd (ppe : ngtcp2_ppe) (hd : ngtcp2_pkt_hd) : res ngtcp2_ppe :=
  let buf := ppe_buf ppe in
  let overhead := ctx_aead_overhead (ppe_ctx ppe) in
  fail_if (ngtcp2_buf_left buf <? overhead) NGTCP2_ERR_NOBUF;;
  let outlen := u64 (ngtcp2_buf_left buf - overhead) in
  '(w, rv) ←
    (if has_bit (hd_flags hd) NGTCP2_PKT_FLAG_LONG_FORM then ngtcp2_pkt_encode_hd_long outlen hd
     else ngtcp2_pkt_encode_hd_short outlen hd);
  mret (mk_ppe (buf_append buf w) (ppe_ctx ppe) rv (hd_pkt_num hd)).

(** The encoder and the frame, which [ngtcp2_pkt_encode_frame] may update. *)
Definition ngtcp2_ppe_encode_frame (ppe : ngtcp2_ppe) (fr : ngtcp2_frame) :
    res (ngtcp2_ppe * ngtcp2_frame) :=
  let buf := ppe_buf ppe in
  let overhead := ctx_aead_overhead (ppe_ctx ppe) in
  fail_if (ngtcp2_buf_left buf <? overhead) NGTCP2_ERR_NOBUF;;
  '(w, _, fr) ← ngtcp2_pkt_encode_frame (u64 (ngtcp2_buf_left buf - overhead)) fr;
  mret (mk_ppe (buf_append buf w) (ppe_ctx ppe) (ppe_hdlen ppe) (ppe_pkt_num ppe), fr).

(** The packet and its length. The member [nonce] has 32 bytes; a callback that
    returns more than the space it was given has overrun the buffer. *)
Definition ngtcp2_ppe_final (ppe : ngtcp2_ppe) : res (bytes * Z) :=
  let buf := ppe_buf ppe in
  let ctx := ppe_ctx ppe in
  let hdlen := ppe_hdlen ppe in
  payload ← adv hdlen (b_bytes buf);
  hd ← rdn hdlen (b_bytes buf);
  let destlen := u64 (b_cap buf - hdlen) in
  c_assert (zlen (km_iv (ctx_ckm ctx)) <=? 32);;
  nonce ← ngtcp2_crypto_create_nonce (km_iv (ctx_ckm ctx)) (ppe_pkt_num ppe);
  match ctx_encrypt ctx destlen payload (km_key (ctx_ckm ctx)) nonce hd with
  | None => Err NGTCP2_ERR_CALLBACK_FAILURE
  | Some c =>
      c_assert (zlen c <=? destlen);;
      let buf := mk_buf (b_cap buf) (b_pos buf) (hd ++ c) in
      mret (b_bytes buf, ngtcp2_buf_len buf)
  end.

Definition ngtcp2_ppe_left (ppe : ngtcp2_ppe) : Z :=
  let left := ngtcp2_buf_left (ppe_buf ppe) in
  let overhead := ctx_aead_overhead (ppe_ctx ppe) in
  if left <? overhead then 0 else u64 (left - overhead).

Definition ngtcp2_ppe_padding (ppe : ngtcp2_ppe) : res (ngtcp2_ppe * Z) :=
  let left := ngtcp2_buf_left (ppe_buf ppe) in
  let overhead := ctx_aead_overhead (ppe_ctx ppe) in
  c_assert (overhead <=? left);;
  let len := u64 (left - overhead) in
  mret (mk_ppe (buf_append (ppe_buf ppe) (replicate (Z.to_nat len) 0)) (ppe_ctx ppe)
          (ppe_hdlen ppe) (ppe_pkt_num ppe), len).

(** ** Invariant

    The header is at the start of the buffer, and there is always room for the
    authentication tag. *)
Record wf_ppe (ppe : ngtcp2_ppe) : Prop := {
  wf_ppe_pos : b_pos (ppe_buf ppe) = 0;
  wf_ppe_cap : b_cap (ppe_buf ppe) < 2 ^ 62;
  wf_ppe_overhead : 0 <= ctx_aead_overhead (ppe_ctx ppe);
  wf_ppe_room : zlen (b_bytes (ppe_buf ppe)) + ctx_aead_overhead (ppe_ctx ppe) <= b_cap (ppe_buf ppe);
  wf_ppe_hdlen : 0 <= ppe_hdlen ppe <= zlen (b_bytes (ppe_buf ppe))
}.

(** Without room for the tag nothing can be written. *)
Lemma ppe_init_wf outlen ctx :
  0 <= ctx_aead_overhead ctx <= outlen -> outlen < 2 ^ 62 -> wf_ppe (ngtcp2_ppe_init outlen ctx).
Proof. intros H1 H2. split; simpl; rewrite ?zlen_nil; try lia; done. Qed.

Lemma ppe_space ppe :
  wf_ppe ppe ->
  let n := b_cap (ppe_buf ppe) - zlen (b_bytes (ppe_buf ppe)) - ctx_aead_overhead (ppe_ctx ppe) in
  0 <= n < 2 ^ 62 /\
  (ngtcp2_buf_left (ppe_buf ppe) <? ctx_aead_overhead (ppe_ctx ppe)) = false /\
  u64 (ngtcp2_buf_left (ppe_buf ppe) - ctx_aead_overhead (ppe_ctx ppe)) = n.
Proof.
  intros []. zfacts. unfold ngtcp2_buf_left. rewrite (u64_small (b_cap _ - _)) by clia.
  split; [clia|]. split; [apply Z.ltb_ge; lia|]. apply u64_small. clia.
Qed.

Lemma wf_ppe_append ppe w hdlen pkt_num :
  wf_ppe ppe ->
  zlen w <= b_cap (ppe_buf ppe) - zlen (b_bytes (ppe_buf ppe)) - ctx_aead_overhead (ppe_ctx ppe) ->
  0 <= hdlen <= zlen (b_bytes (ppe_buf ppe)) + zlen w ->
  wf_ppe (mk_ppe (buf_append (ppe_buf ppe) w) (ppe_ctx ppe) hdlen pkt_num).
Proof. intros [] Hw Hh. split; simpl; rewrite ?zlen_app; try done; lia. Qed.

(** A header is written in full, or the buffer is too small. *)
Definition hd_bytes (hd : ngtcp2_pkt_hd) : bytes :=
  if has_bit (hd_flags hd) NGTCP2_PKT_FLAG_LONG_FORM then
    u8 (NGTCP2_HEADER_FORM_BIT .| hd_type hd) :: ngtcp2_put_uint64be (hd_conn_id hd) ++
    ngtcp2_put_uint32be (hd_version hd) ++ ngtcp2_put_uint32be (u32 (hd_pkt_num hd))
  else short_layout hd.

Definition wf_hd_out (hd : ngtcp2_pkt_hd) : Prop := long_hd hd \/ short_hd hd.

Lemma encode_hd_bytes outlen hd :
  wf_hd_out hd ->
  (if has_bit (hd_flags hd) NGTCP2_PKT_FLAG_LONG_FORM then ngtcp2_pkt_encode_hd_long outlen hd
   else ngtcp2_pkt_encode_hd_short outlen hd) =
  if outlen <? zlen (hd_bytes hd) then Err NGTCP2_ERR_NOBUF else Ok (hd_bytes hd, zlen (hd_bytes hd)).
Proof.
  intros [Hl|Hs]; unfold hd_bytes.
  - destruct Hl as (-> & _). change (has_bit NGTCP2_PKT_FLAG_LONG_FORM NGTCP2_PKT_FLAG_LONG_FORM) with true.
    cbv iota. rewrite encode_hd_long_spec.
    assert (zlen (u8 (NGTCP2_HEADER_FORM_BIT .| hd_type hd) :: ngtcp2_put_uint64be (hd_conn_id hd) ++
      ngtcp2_put_uint32be (hd_version hd) ++ ngtcp2_put_uint32be (u32 (hd_pkt_num hd))) = NGTCP2_LONG_HEADERLEN)
      as -> by (unfold NGTCP2_LONG_HEADERLEN; zlia). done.
  - pose proof (encode_hd_short_spec outlen hd Hs) as He. destruct Hs as (Hf & _).
    assert (has_bit (hd_flags hd) NGTCP2_PKT_FLAG_LONG_FORM = false) as -> by
      (by destruct Hf as [-> | [-> | [-> | ->]]]). exact He.
Qed.

Lemma ppe_encode_hd_spec ppe hd :
  wf_ppe ppe -> wf_hd_out hd ->
  match ngtcp2_ppe_encode_hd ppe hd with
  | Ok ppe' => wf_ppe ppe' /\ b_bytes (ppe_buf ppe') = b_bytes (ppe_buf ppe) ++ hd_bytes hd /\
      b_cap (ppe_buf ppe') = b_cap (ppe_buf ppe) /\
      ppe_ctx ppe' = ppe_ctx ppe /\ ppe_hdlen ppe' = zlen (hd_bytes hd) /\ ppe_pkt_num ppe' = hd_pkt_num hd
  | Err e => e = NGTCP2_ERR_NOBUF /\ ngtcp2_ppe_left ppe < zlen (hd_bytes hd)
  | Ub => False
  end.
Proof.
  intros Hw Hh. destruct (ppe_space ppe Hw) as (Hn & Hlt & Hu).
  unfold ngtcp2_ppe_encode_hd, ngtcp2_ppe_left. rewrite Hlt. cbn [fail_if mbind res_bind]. rewrite Hu.
  rewrite encode_hd_bytes by done. set (n := _ - _ - _) in *.
  destruct (Z.ltb_spec n (zlen (hd_bytes hd))); res_simpl; [done|].
  split; [|done]. apply wf_ppe_append; [done | subst n; lia | zfacts; lia].
Qed.

Lemma ppe_encode_frame_spec ppe fr :
  wf_ppe ppe -> encodable fr ->
  match ngtcp2_ppe_encode_frame ppe fr with
  | Ok (ppe', fr') => wf_ppe ppe' /\ fr' = encoded_frame fr /\
      b_bytes (ppe_buf ppe') = b_bytes (ppe_buf ppe) ++ layout fr /\
      b_cap (ppe_buf ppe') = b_cap (ppe_buf ppe) /\
      ppe_ctx ppe' = ppe_ctx ppe /\ ppe_hdlen ppe' = ppe_hdlen ppe /\ ppe_pkt_num ppe' = ppe_pkt_num ppe
  | Err e => e = NGTCP2_ERR_NOBUF /\ ngtcp2_ppe_left ppe < zlen (layout fr)
  | Ub => False
  end.
Proof.
  intros Hw Hf. destruct (ppe_space ppe Hw) as (Hn & Hlt & Hu).
  unfold ngtcp2_ppe_encode_frame, ngtcp2_ppe_left. rewrite Hlt. cbn [fail_if mbind res_bind]. rewrite Hu.
  rewrite encode_frame_spec by done. set (n := _ - _ - _) in *.
  destruct (Z.ltb_spec n (zlen (layout fr))); res_simpl; [done|].
  split; [|done]. pose proof (wf_ppe_hdlen _ Hw). apply wf_ppe_append; [done | subst n; lia | zfacts; lia].
Qed.

Lemma ppe_padding_spec ppe :
  wf_ppe ppe ->
  exists ppe', ngtcp2_ppe_padding ppe = Ok (ppe', ngtcp2_ppe_left ppe) /\ wf_ppe ppe' /\
    b_bytes (ppe_buf ppe') = b_bytes (ppe_buf ppe) ++ replicate (Z.to_nat (ngtcp2_ppe_left ppe)) 0 /\
    ngtcp2_ppe_left ppe' = 0.
Proof.
  intros Hw. destruct (ppe_space ppe Hw) as (Hn & Hlt & Hu).
  unfold ngtcp2_ppe_padding. unfold ngtcp2_ppe_left at 1 2. rewrite Hlt, Hu.
  apply Z.ltb_ge in Hlt. rewrite (proj2 (Z.leb_le _ _)) by lia. cbn [c_assert mbind res_bind].
  set (n := _ - _ - _) in *. eexists. split; [done|].
  set (ppe' := mk_ppe _ _ _ _).
  assert (Hw' : wf_ppe ppe').
  { pose proof (wf_ppe_hdlen _ Hw). apply wf_ppe_append; [done | |]; rewrite zlen_replicate; subst n; lia. }
  split; [done|]. split; [done|].
  destruct (ppe_space ppe' Hw') as (Hn' & Hlt' & Hu'). unfold ngtcp2_ppe_left. rewrite Hlt', Hu'.
  unfold ppe'. simpl. rewrite zlen_app, zlen_replicate. subst n. lia.
Qed.

(** ** From the sender to the receiver *)

(** [encode_frames ppe frs] writes frames one after the other. *)
Fixpoint encode_frames (ppe : ngtcp2_ppe) (frs : list ngtcp2_frame) : res ngtcp2_ppe :=
  match frs with
  | [] => Ok ppe
  | fr :: frs => '(ppe, _) ← ngtcp2_ppe_encode_frame ppe fr; encode_frames ppe frs
  end.

(** The frames of a payload, as the receiver reads them. *)
Fixpoint decode_frames (fuel : nat) (payload : bytes) : res (list ngtcp2_frame) :=
  match fuel with
  | O => Ub
  | S fuel =>
      '(fr, n) ← ngtcp2_pkt_decode_frame payload;
      match fr with
      | None => Ok []
      | Some fr => p ← adv n payload; frs ← decode_frames fuel p; Ok (fr :: frs)
      end
  end.

Definition frames_bytes (frs : list ngtcp2_frame) : bytes := foldr (fun fr bs => layout fr ++ bs) [] frs.

(** The frames can be told apart: a run of PADDING is not followed by another one. *)
Fixpoint wf_frames (frs : list ngtcp2_frame) : Prop :=
  match frs with
  | [] => True
  | fr :: frs => wf_frame fr /\ frame_follows fr (frames_bytes frs) /\ wf_frames frs
  end.

Lemma encode_frames_spec ppe frs ppe' :
  wf_ppe ppe -> wf_frames frs -> encode_frames ppe frs = Ok ppe' ->
  wf_ppe ppe' /\ b_bytes (ppe_buf ppe') = b_bytes (ppe_buf ppe) ++ frames_bytes frs /\
  b_cap (ppe_buf ppe') = b_cap (ppe_buf ppe) /\
  ppe_ctx ppe' = ppe_ctx ppe /\ ppe_hdlen ppe' = ppe_hdlen ppe /\ ppe_pkt_num ppe' = ppe_pkt_num ppe.
Proof.
  revert ppe. induction frs as [|fr frs IH]; intros ppe Hw Hf; cbn [encode_frames frames_bytes foldr].
  { intros [= <-]. rewrite app_nil_r. done. }
  destruct Hf as (Hfr & _ & Hf). pose proof (ppe_encode_frame_spec ppe fr Hw (wf_encodable _ Hfr)) as He.
  destruct (ngtcp2_ppe_encode_frame ppe fr) as [[ppe1 fr1]| |]; [|done|done].
  destruct He as (Hw1 & _ & Hb & Hc & Hx & Hh & Hn). cbn [mbind res_bind]. intros H.
  destruct (IH ppe1 Hw1 Hf H) as (K1 & K2 & K3 & K4 & K5 & K6).
  fold (frames_bytes frs). rewrite K2, Hb, <- app_assoc. split_and!; congruence.
Qed.

Lemma decode_frames_bytes fuel frs :
  (length (frames_bytes frs) < fuel)%nat -> wf_frames frs ->
  decode_frames fuel (frames_bytes frs) = Ok (received_frame <$> frs).
Proof.
  revert fuel. induction frs as [|fr frs IH]; intros fuel Hf Hw; (destruct fuel as [|fuel]; [lia|]);
    cbn [decode_frames frames_bytes foldr]; [done|].
  fold (frames_bytes frs). destruct Hw as (Hfr & Hfo & Hw). rewrite decode_layout by done.
  cbn [mbind res_bind]. rewrite adv_app by done. cbn [mbind res_bind]. rewrite IH; [done | | done].
  destruct (layout_cons fr Hfr) as (b & bs & El). cbn [frames_bytes foldr] in Hf. fold (frames_bytes frs) in Hf.
  rewrite El, length_app in Hf. simpl in Hf. lia.
Qed.

(** What the documentation of an AEAD promises: decryption undoes encryption, which
    adds at most [overhead] bytes. *)
Record aead (overhead : Z) (encrypt : Z -> bytes -> bytes -> bytes -> bytes -> option bytes)
    (decrypt : bytes -> bytes -> bytes -> bytes -> option bytes) : Prop := {
  aead_ok : forall destlen p key nonce ad c,
    encrypt destlen p key nonce ad = Some c -> decrypt c key nonce ad = Some p;
  aead_len : forall destlen p key nonce ad c,
    encrypt destlen p key nonce ad = Some c -> zlen c <= zlen p + overhead
}.

Lemma decode_hd_bytes hd rest :
  wf_hd_out hd -> ngtcp2_pkt_decode_hd (hd_bytes hd ++ rest) = Ok (received_hd hd, zlen (hd_bytes hd)).
Proof.
  intros [Hl|Hs].
  - pose proof (encode_hd_bytes (zlen (hd_bytes hd)) hd (or_introl Hl)) as He.
    pose proof Hl as (Hf & _). rewrite Hf, Z.ltb_irrefl in He.
    by destruct (hd_long_roundtrip _ _ _ _ rest Hl He) as (_ & _ & ?).
  - unfold hd_bytes. pose proof Hs as (Hf & _).
    assert (has_bit (hd_flags hd) NGTCP2_PKT_FLAG_LONG_FORM = false) as -> by
      (by destruct Hf as [-> | [-> | [-> | ->]]]). by apply hd_short_roundtrip.
Qed.

(** The packet is the header followed by the protected payload, and fits the buffer. *)
Lemma ppe_final_spec decrypt ppe :
  wf_ppe ppe -> aead (ctx_aead_overhead (ppe_ctx ppe)) (ctx_encrypt (ppe_ctx ppe)) decrypt ->
  8 <= zlen (km_iv (ctx_ckm (ppe_ctx ppe))) <= 32 -> is_uint 64 (ppe_pkt_num ppe) ->
  let km := ctx_ckm (ppe_ctx ppe) in
  let hd := take (Z.to_nat (ppe_hdlen ppe)) (b_bytes (ppe_buf ppe)) in
  let payload := drop (Z.to_nat (ppe_hdlen ppe)) (b_bytes (ppe_buf ppe)) in
  exists nonce, ngtcp2_crypto_create_nonce (km_iv km) (ppe_pkt_num ppe) = Ok nonce /\
  match ngtcp2_ppe_final ppe with
  | Ok (pkt, n) => n = zlen pkt /\ n <= b_cap (ppe_buf ppe) /\
      exists c, pkt = hd ++ c /\ decrypt c (km_key km) nonce hd = Some payload
  | Err e => e = NGTCP2_ERR_CALLBACK_FAILURE
  | Ub => False
  end.
Proof.
  intros [Hpos Hcap Hov Hroom Hhl] [Hok Hlen] Hiv Hpn km hd payload.
  destruct (create_nonce_spec (km_iv km) (ppe_pkt_num ppe)) as (nonce & Hnonce & _); [unfold km; lia | done |].
  exists nonce. split; [done|]. unfold ngtcp2_ppe_final, adv. rewrite rdn_le by done.
  rewrite (proj2 (Z.leb_le 0 _)), (proj2 (Z.leb_le _ (zlen _))) by lia. cbn [andb mbind res_bind].
  fold hd payload km. rewrite (proj2 (Z.leb_le _ 32)) by (unfold km; lia). cbn [c_assert mbind res_bind].
  rewrite Hnonce. cbn [mbind res_bind]. zfacts. rewrite (u64_small (_ - _)) by clia.
  destruct (ctx_encrypt _ _ payload (km_key km) nonce hd) as [c|] eqn:He; [|done].
  pose proof (Hlen _ _ _ _ _ _ He) as Hc. apply Hok in He.
  assert (Hp : zlen payload = zlen (b_bytes (ppe_buf ppe)) - ppe_hdlen ppe)
    by (unfold payload; rewrite zlen_drop; lia).
  assert (Hh : zlen hd = ppe_hdlen ppe) by (unfold hd; rewrite zlen_take; lia).
  rewrite (proj2 (Z.leb_le (zlen c) _)) by lia. cbn [c_assert mbind res_bind]. res_simpl.
  unfold ngtcp2_buf_len. cbn [b_bytes b_pos]. rewrite Hpos. zfacts.
  rewrite u64_small by (rewrite zlen_app; clia).
  split; [lia|]. split; [rewrite zlen_app; lia|]. by exists c.
Qed.

(** ** Properties *)

(** C1. A packet arrives as it was sent: a header and any sequence of frames that
    the encoder accepts, protected with the keys of the connection, make a packet
    that fits the buffer, and the receiver, with the same keys, decodes the
    header, computes the same nonce, decrypts the payload with the header as
    associated data, and decodes the same frames in the same order. *)
Theorem packet_roundtrip decrypt outlen ctx hd frs ppe1 ppe2 pkt n :
  aead (ctx_aead_overhead ctx) (ctx_encrypt ctx) decrypt ->
  0 <= ctx_aead_overhead ctx <= outlen -> outlen < 2 ^ 62 -> 8 <= zlen (km_iv (ctx_ckm ctx)) <= 32 ->
  wf_hd_out hd -> wf_frames frs ->
  ngtcp2_ppe_encode_hd (ngtcp2_ppe_init outlen ctx) hd = Ok ppe1 ->
  encode_frames ppe1 frs = Ok ppe2 ->
  ngtcp2_ppe_final ppe2 = Ok (pkt, n) ->
  n = zlen pkt /\ n <= outlen /\
  exists hdlen nonce payload,
    ngtcp2_pkt_decode_hd pkt = Ok (received_hd hd, hdlen) /\
    ngtcp2_crypto_create_nonce (km_iv (ctx_ckm ctx)) (hd_pkt_num hd) = Ok nonce /\
    decrypt (drop (Z.to_nat hdlen) pkt) (km_key (ctx_ckm ctx)) nonce (take (Z.to_nat hdlen) pkt) = Some payload /\
    decode_frames (S (length payload)) payload = Ok (received_frame <$> frs).
Proof.
  intros Ha Hov Hout Hiv Hhd Hfrs H1 H2 H3.
  pose proof (ppe_encode_hd_spec _ hd (ppe_init_wf _ _ Hov Hout) Hhd) as E1. rewrite H1 in E1.
  destruct E1 as (W1 & B1 & C1 & X1 & L1 & N1). simpl in B1, C1, X1.
  destruct (encode_frames_spec _ _ _ W1 Hfrs H2) as (W2 & B2 & C2 & X2 & L2 & N2).
  assert (Hctx : ppe_ctx ppe2 = ctx) by congruence.
  assert (is_uint 64 (hd_pkt_num hd)) as Hpn by (destruct Hhd as [(_ & _ & _ & ? & _)|(_ & _ & _ & ?)]; done).
  destruct (ppe_final_spec decrypt ppe2 W2) as (nonce & Hnonce & Hfin); rewrite ?Hctx, ?N2, ?N1 in *; try done.
  rewrite H3 in Hfin. destruct Hfin as (-> & Hle & c & -> & Hdec).
  assert (Hb : b_bytes (ppe_buf ppe2) = hd_bytes hd ++ frames_bytes frs) by congruence.
  assert (Hl : Z.to_nat (ppe_hdlen ppe2) = length (hd_bytes hd)) by (rewrite L2, L1; unfold zlen; lia).
  rewrite Hl, Hb, take_app_length, drop_app_length in *.
  split; [done|]. split; [rewrite <- C1, <- C2; done|].
  exists (zlen (hd_bytes hd)), nonce, (frames_bytes frs).
  split; [by apply decode_hd_bytes|]. split; [done|].
  split; [|apply decode_frames_bytes; [lia | done]].
  unfold zlen. rewrite Nat2Z.id, take_app_length, drop_app_length. done.
Qed.

(** An AEAD for the examples: the plaintext, and a tag of 16 bytes. *)
Definition example_encrypt (destlen : Z) (p key nonce ad : bytes) : option bytes :=
  if zlen p + 16 <=? destlen then Some (p ++ replicate 16 0) else None.
Definition example_decrypt (c key nonce ad : bytes) : option bytes :=
  if 16 <=? zlen c then Some (take (length c - 16) c) else None.
Definition example_ctx : ngtcp2_crypto_ctx :=
  mk_crypto_ctx (mk_crypto_km (seqZ 0 16) (seqZ 0 12)) 16 example_encrypt.

Lemma example_aead : aead 16 example_encrypt example_decrypt.
Proof.
  unfold example_encrypt, example_decrypt.
  set (tag := replicate 16 0). assert (Ht : zlen tag = 16) by done.
  split; intros destlen p key nonce ad c; destruct (_ <=? destlen); intros [= <-];
    rewrite zlen_app, Ht; [|lia].
  rewrite (proj2 (Z.leb_le _ _)) by (zfacts; lia). rewrite length_app.
  replace (length p + length tag - 16)%nat with (length p) by (unfold zlen in Ht; lia). by rewrite take_app_length.
Qed.

Lemma packet_roundtrip_witness :
  let hd := mk_pkt_hd 0 NGTCP2_PKT_02 0xbeef 0x12345 0 in
  let frs := [fr_max_data 70000; fr_stream (mk_stream 0 1 4 0 [1; 2; 3]); fr_padding 5] in
  exists ppe1 ppe2 pkt n,
    ngtcp2_ppe_encode_hd (ngtcp2_ppe_init 1200 example_ctx) hd = Ok ppe1 /\
    encode_frames ppe1 frs = Ok ppe2 /\ ngtcp2_ppe_final ppe2 = Ok (pkt, n) /\ n = zlen pkt.
Proof.
  intros hd frs. do 4 eexists. split; [reflexivity|]. split; [reflexivity|]. split; [reflexivity|].
  refine (proj1 (packet_roundtrip example_decrypt 1200 example_ctx hd frs _ _ _ _
    example_aead _ _ _ _ _ eq_refl eq_refl eq_refl)); try done.
  - right. unfold short_hd. split_and!; try done; [by left | right; by left].
  - unfold wf_frames, wf_frame. cbn [frames_bytes foldr frame_follows]. split_and!; try done.
    repeat constructor; done.
Defined.

(** Adding a frame to a packet under construction appends its encoding when
    there is room for it and the authentication tag, and otherwise returns
    [NGTCP2_ERR_NOBUF] exactly when [ngtcp2_ppe_left] is too small. The encoder's
    invariant, that there is always room for the tag, is kept. *)
Theorem ppe_frame_appended ppe fr :
  wf_ppe ppe -> wf_frame fr ->
  match ngtcp2_ppe_encode_frame ppe fr with
  | Ok (ppe', _) => wf_ppe ppe' /\ zlen (layout fr) <= ngtcp2_ppe_left ppe /\
      b_bytes (ppe_buf ppe') = b_bytes (ppe_buf ppe) ++ layout fr /\
      ngtcp2_ppe_left ppe' = ngtcp2_ppe_left ppe - zlen (layout fr)
  | Err e => e = NGTCP2_ERR_NOBUF /\ ngtcp2_ppe_left ppe < zlen (layout fr)
  | Ub => False
  end.
Proof.
  intros Hw Hf. pose proof (ppe_encode_frame_spec ppe fr Hw (wf_encodable _ Hf)) as H.
  destruct (ngtcp2_ppe_encode_frame ppe fr) as [[ppe' fr']|e|]; [|done..].
  destruct H as (Hw' & _ & Hb & Hc & Hx & _).
  destruct (ppe_space ppe Hw) as (S1 & S2 & S3). destruct (ppe_space ppe' Hw') as (T1 & T2 & T3).
  unfold ngtcp2_ppe_left. rewrite S2, S3, T2, T3, Hb, Hc, Hx in *. rewrite zlen_app in *. zfacts.
  split_and!; try done; lia.
Qed.

Lemma ppe_frame_appended_witness :
  match ngtcp2_ppe_encode_frame (ngtcp2_ppe_init 20 example_ctx) (fr_max_data 5) with
  | Ok (ppe', _) => ngtcp2_ppe_left ppe' = 2
  | _ => True
  end.
Proof.
  pose proof (ppe_frame_appended (ngtcp2_ppe_init 20 example_ctx) (fr_max_data 5)
    ltac:(apply ppe_init_wf; done) ltac:(done)) as H.
  destruct (ngtcp2_ppe_encode_frame _ _) as [[ppe' fr']|e|]; [|done..].
  destruct H as (_ & _ & _ & ->). reflexivity.
Defined.
