(* ===== verification/Strm.v ===== *)
(** Streams: [ngtcp2_strm.c], and what the reorder buffer of a stream holds with
    respect to the content the peer sent. *)

From S2P Require Import Prelude Frame PktDecode Mem Monad Range Gaptr Rob Ppe.

(** ** Streams *)

Definition NGTCP2_STRM_FLAG_NONE : Z := 0.
Definition NGTCP2_STRM_FLAG_SHUT_RD : Z := 0x01.
Definition NGTCP2_STRM_FLAG_SHUT_WR : Z := 0x02.
Definition NGTCP2_STRM_FLAG_SHUT_RDWR : Z := NGTCP2_STRM_FLAG_SHUT_RD .| NGTCP2_STRM_FLAG_SHUT_WR.
Definition NGTCP2_STRM_FLAG_SENT_RST : Z := 0x04.
Definition NGTCP2_STRM_FLAG_RECV_RST : Z := 0x08.
Definition NGTCP2_STRM_FLAG_STOP_SENDING : Z := 0x10.

(** [me] is the key of the map entry; the links of the flow control list,
    which the connection owns, are not part of the record. [U] is the type of
    [stream_user_data]. *)
Record ngtcp2_strm (U : Type) := mk_strm {
  strm_me : Z;
  strm_tx_offset : Z;
  strm_acked_tx_offset : ngtcp2_gaptr;
  strm_max_tx_offset : Z;
  strm_last_rx_offset : Z;
  strm_rob : ngtcp2_rob;
  strm_max_rx_offset : Z;
  strm_unsent_max_rx_offset : Z;
  strm_nbuffered : Z;
  strm_tx_buf : ngtcp2_buf;
  strm_stream_id : Z;
  strm_stream_user_data : U;
  strm_flags : Z;
  strm_app_error_code : Z
}.
Arguments mk_strm {U}.
Arguments strm_me {U}.
Arguments strm_tx_offset {U}.
Arguments strm_acked_tx_offset {U}.
Arguments strm_max_tx_offset {U}.
Arguments strm_last_rx_offset {U}.
Arguments strm_rob {U}.
Arguments strm_max_rx_offset {U}.
Arguments strm_unsent_max_rx_offset {U}.
Arguments strm_nbuffered {U}.
Arguments strm_tx_buf {U}.
Arguments strm_stream_id {U}.
Arguments strm_stream_user_data {U}.
Arguments strm_flags {U}.
Arguments strm_app_error_code {U}.

Section Strm.
Context {U : Type}.
Implicit Types (strm : ngtcp2_strm U).

Definition strm_eta strm : ngtcp2_strm U :=
  mk_strm (strm_me strm) (strm_tx_offset strm) (strm_acked_tx_offset strm)
    (strm_max_tx_offset strm) (strm_last_rx_offset strm) (strm_rob strm)
    (strm_max_rx_offset strm) (strm_unsent_max_rx_offset strm) (strm_nbuffered strm)
    (strm_tx_buf strm) (strm_stream_id strm) (strm_stream_user_data strm) (strm_flags strm)
    (strm_app_error_code strm).

Definition set_tx_offset strm (v : Z) : ngtcp2_strm U :=
  ltac:(setter strm_eta (@strm_tx_offset U) v strm).
Definition set_acked_tx_offset strm (v : ngtcp2_gaptr) : ngtcp2_strm U :=
  ltac:(setter strm_eta (@strm_acked_tx_offset U) v strm).
Definition set_max_tx_offset strm (v : Z) : ngtcp2_strm U :=
  ltac:(setter strm_eta (@strm_max_tx_offset U) v strm).
Definition set_last_rx_offset strm (v : Z) : ngtcp2_strm U :=
  ltac:(setter strm_eta (@strm_last_rx_offset U) v strm).
Definition set_rob strm (v : ngtcp2_rob) : ngtcp2_strm U :=
  ltac:(setter strm_eta (@strm_rob U) v strm).
Definition set_max_rx_offset strm (v : Z) : ngtcp2_strm U :=
  ltac:(setter strm_eta (@strm_max_rx_offset U) v strm).
Definition set_unsent_max_rx_offset strm (v : Z) : ngtcp2_strm U :=
  ltac:(setter strm_eta (@strm_unsent_max_rx_offset U) v strm).
Definition set_tx_buf strm (v : ngtcp2_buf) : ngtcp2_strm U :=
  ltac:(setter strm_eta (@strm_tx_buf U) v strm).
Definition set_flags strm (v : Z) : ngtcp2_strm U :=
  ltac:(setter strm_eta (@strm_flags U) v strm).
Definition set_app_error_code strm (v : Z) : ngtcp2_strm U :=
  ltac:(setter strm_eta (@strm_app_error_code U) v strm).

Definition ngtcp2_strm_init (m : mem) (stream_id flags max_rx_offset max_tx_offset : Z)
    (stream_user_data : U) : res (ngtcp2_strm U) * mem :=
  match ngtcp2_gaptr_init m with
  | (Ok acked_tx_offset, m) =>
      match ngtcp2_rob_init m (8 * 1024) with
      | (Ok rob, m) =>
          (Ok (mk_strm stream_id 0 acked_tx_offset max_tx_offset 0 rob max_rx_offset
                 max_rx_offset 0 (mk_buf 0 0 []) stream_id stream_user_data flags 0), m)
      | (Err rv, m) => (Err rv, m)
      | (Ub, m) => (Ub, m)
      end
  | (Err rv, m) => (Err rv, m)
  | (Ub, m) => (Ub, m)
  end.

Definition ngtcp2_strm_rx_offset strm : Z := ngtcp2_rob_first_gap_offset (strm_rob strm).

(** The stream, the return value and the allocator. *)
Definition ngtcp2_strm_recv_reordering (m : mem) strm (fr : ngtcp2_stream) :
    res (ngtcp2_strm U * Z * mem) :=
  '(rob, rv, m) ← ngtcp2_rob_push m (strm_rob strm) (stream_offset fr) (stream_data fr);
  Ok (set_rob strm rob, rv, m).

Definition ngtcp2_strm_shutdown strm (flags : Z) : ngtcp2_strm U :=
  set_flags strm (strm_flags strm .| (flags .& NGTCP2_STRM_FLAG_SHUT_RDWR)).

(** [data], [datalen] as the callback reads them. *)
Definition load_bytes (bs : list (option Z)) : res bytes :=
  match mapM id bs with Some data => Ok data | None => Ub end.

(** The [fin] argument of the callback when the data ends at [rx_offset]. *)
Definition strm_fin strm (rx_offset : Z) : bool :=
  has_bit (strm_flags strm) NGTCP2_STRM_FLAG_SHUT_RD && (rx_offset =? strm_last_rx_offset strm).

End Strm.

(** ** Pending data

    [content x] is the byte the peer sent at the offset [x]. *)

Section InOrder.
Context {U : Type} (content : Z -> Z).
Implicit Types (strm : ngtcp2_strm U) (out : bytes) (fr : ngtcp2_stream).

(** The content of the stream from [x], [n] bytes long. *)
Definition stretch (x n : Z) : bytes := content <$> seqZ x n.

(** [fr] carries a piece of the stream. *)
Definition carries fr : Prop :=
  0 <= stream_offset fr /\ stream_offset fr + zlen (stream_data fr) < 2 ^ 62 /\
  stream_data fr = stretch (stream_offset fr) (zlen (stream_data fr)).

(** The offset [x] is in one of the frames. *)
Definition carried (frs : list ngtcp2_stream) (x : Z) : Prop :=
  Exists (fun fr => stream_offset fr <= x < stream_offset fr + zlen (stream_data fr)) frs.

(** The application has got [out], the content of the stream so far, and the
    buffer holds the bytes that come after it. *)
Record pending strm out : Prop := {
  pending_reader : reader_at (zlen out) (strm_rob strm);
  pending_out : out = stretch 0 (zlen out);
  pending_limit : in_gaps (rob_gap (strm_rob strm)) (2 ^ 62);
  pending_bytes : forall x, zlen out <= x < UINT64_MAX -> ~ in_gaps (rob_gap (strm_rob strm)) x ->
    rob_byte (rob_data (strm_rob strm)) x = Some (content x)
}.

Lemma stretch_app x n k : 0 <= n -> 0 <= k -> stretch x n ++ stretch (x + n) k = stretch x (n + k).
Proof. intros. unfold stretch. by rewrite <- fmap_app, <- seqZ_app. Qed.

Lemma zlen_stretch x n : 0 <= n -> zlen (stretch x n) = n.
Proof. intros. unfold stretch, zlen. rewrite length_fmap, length_seqZ. lia. Qed.

Lemma lookup_stretch x n i : 0 <= i < n -> stretch x n !! Z.to_nat i = Some (content (x + i)).
Proof.
  intros. unfold stretch. rewrite list_lookup_fmap, lookup_seqZ_lt by lia. simpl. f_equal. f_equal. lia.
Qed.

Lemma load_bytes_Some l : load_bytes (Some <$> l) = Ok l.
Proof.
  unfold load_bytes. assert (mapM id (Some <$> l) = Some l) as ->; [|done].
  induction l as [|x l IH]; [done|]. cbn. by rewrite IH.
Qed.

(** What the buffer offers is the content of the stream. *)
Lemma pending_data_at strm out :
  pending strm out ->
  exists n, ngtcp2_rob_data_at (strm_rob strm) (zlen out) = Ok (n, Some <$> stretch (zlen out) n) /\
    0 <= n <= ngtcp2_strm_rx_offset strm - zlen out /\ ngtcp2_strm_rx_offset strm <= 2 ^ 62 /\
    (n = 0 -> ngtcp2_strm_rx_offset strm = zlen out).
Proof.
  intros [Hr Hout Hlim Hbytes]. unfold ngtcp2_strm_rx_offset.
  destruct (rob_first_gap_spec _ _ Hr) as [Hgap _].
  destruct (rob_data_at_spec _ _ Hr) as (n & bs & Hat & Hlen & Hn & Hz & Hbs).
  exists n. split; [|pose proof (Hgap _ Hlim); split_and!; try lia; done].
  rewrite Hat. do 2 f_equal. apply list_eq. intros i.
  destruct (decide (Z.of_nat i < n)) as [Hi|Hi].
  - destruct (Hbs (Z.of_nat i) ltac:(lia)) as (b & Hb & Hbyte). rewrite Nat2Z.id in Hb. rewrite Hb.
    rewrite list_lookup_fmap. rewrite <- (Nat2Z.id i), lookup_stretch by lia. simpl. do 2 f_equal.
    rewrite Hbytes in Hbyte; [congruence | pose proof (Hgap _ Hlim); zfacts; clia |].
    intros Hin%Hgap. lia.
  - rewrite !lookup_ge_None_2; [done | | unfold zlen in Hlen; lia].
    rewrite length_fmap. pose proof (zlen_stretch (zlen out) n ltac:(lia)) as Hs. unfold zlen in *. lia.
Qed.
(** Handing out the next bytes. *)
Lemma pending_pop strm out n :
  pending strm out ->
  ngtcp2_rob_data_at (strm_rob strm) (zlen out) = Ok (n, Some <$> stretch (zlen out) n) ->
  0 < n -> zlen out + n <= 2 ^ 62 ->
  exists rob, ngtcp2_rob_pop (strm_rob strm) (zlen out) n = Ok rob /\
    pending (set_rob strm rob) (out ++ stretch (zlen out) n) /\
    rob_gap rob = rob_gap (strm_rob strm) /\
    (S (length (rob_data rob)) = length (rob_data (strm_rob strm)) \/
     zlen out + n = ngtcp2_strm_rx_offset strm).
Proof.
  intros [Hr Hout Hlim Hbytes] Hat Hn Hmax.
  destruct (rob_pop_spec _ _ _ _ Hr Hat Hn ltac:(lia)) as (rob & Hpop & Hr' & Hg & Hb & Hprog).
  exists rob. split; [done|]. split; [|done].
  assert (Hl : zlen (out ++ stretch (zlen out) n) = zlen out + n)
    by (rewrite zlen_app, zlen_stretch by lia; done).
  split; rewrite ?Hl; cbn [strm_rob set_rob]; rewrite ?Hg; try done.
  - rewrite Hout at 1. rewrite (stretch_app 0 (zlen out)) by (zfacts; lia). done.
  - intros x Hx Hnx. rewrite Hb by lia. apply Hbytes; [lia | done].
Qed.

(** The state between two frames: all that could be delivered has been. *)
Record delivered strm out (frs : list ngtcp2_stream) : Prop := {
  delivered_pending : pending strm out;
  delivered_rx : ngtcp2_strm_rx_offset strm = zlen out;
  delivered_gaps : forall x, in_gaps (rob_gap (strm_rob strm)) x <->
    0 <= x < UINT64_MAX /\ ~ carried frs x
}.

Lemma carried_cons fr frs x :
  carried (fr :: frs) x <->
  stream_offset fr <= x < stream_offset fr + zlen (stream_data fr) \/ carried frs x.
Proof. apply Exists_cons. Qed.

Lemma carried_below strm out frs x :
  delivered strm out frs -> 0 <= x < zlen out -> carried frs x.
Proof.
  intros [Hp Hrx Hg] Hx. destruct (rob_first_gap_spec _ _ (pending_reader _ _ Hp)) as [Hlow _].
  assert (~ in_gaps (rob_gap (strm_rob strm)) x) as Hn.
  { intros Hin%Hlow. unfold ngtcp2_strm_rx_offset in Hrx. lia. }
  pose proof (reader_pos _ _ (pending_reader _ _ Hp)).
  rewrite Hg in Hn. destruct (decide (Exists (fun fr => stream_offset fr <= x <
    stream_offset fr + zlen (stream_data fr)) frs)) as [|Hnc]; [done|].
  destruct Hn. split; [clia | done].
Qed.

(** A frame whose data has all been delivered already. *)
Lemma delivered_old strm out frs fr :
  delivered strm out frs -> 0 <= stream_offset fr ->
  stream_offset fr + zlen (stream_data fr) <= zlen out -> delivered strm out (fr :: frs).
Proof.
  intros Hd Ho He. pose proof Hd as [Hp Hrx Hg]. split; [done | done |]. intros x. rewrite Hg, carried_cons.
  split; [|tauto]. intros [Hx Hn]. split; [done|]. intros [Hin|Hc]; [|done].
  apply Hn, (carried_below _ _ _ _ Hd). lia.
Qed.

(** The state once the new data of a frame that extends what was delivered has
    been handed out. *)
Lemma pending_extend strm out frs fr :
  delivered strm out frs -> carries fr ->
  stream_offset fr <= zlen out < stream_offset fr + zlen (stream_data fr) ->
  let fr_end := stream_offset fr + zlen (stream_data fr) in
  let strm' := set_rob strm (ngtcp2_rob_remove_prefix (strm_rob strm) fr_end) in
  pending strm' (out ++ drop (Z.to_nat (zlen out - stream_offset fr)) (stream_data fr)) /\
  zlen (out ++ drop (Z.to_nat (zlen out - stream_offset fr)) (stream_data fr)) = fr_end /\
  (forall x, in_gaps (rob_gap (strm_rob strm')) x <-> 0 <= x < UINT64_MAX /\ ~ carried (fr :: frs) x).
Proof.
  intros Hd (Ho & Hmax & Hdata) Hin fr_end strm'. pose proof Hd as [[Hr Hout Hlim Hbytes] Hrx Hg].
  destruct (rob_remove_prefix_spec _ _ fr_end Hr ltac:(unfold fr_end; lia)) as (Hr' & Hg' & Hb').
  assert (Hdrop : drop (Z.to_nat (zlen out - stream_offset fr)) (stream_data fr) =
    stretch (zlen out) (fr_end - zlen out)).
  { rewrite Hdata. pose proof (stretch_app (stream_offset fr) (zlen out - stream_offset fr)
      (fr_end - zlen out) ltac:(lia) ltac:(unfold fr_end; lia)) as Hs.
    replace (zlen out - stream_offset fr + (fr_end - zlen out)) with (zlen (stream_data fr)) in Hs
      by (unfold fr_end; lia). rewrite <- Hs.
    replace (stream_offset fr + (zlen out - stream_offset fr)) with (zlen out) by lia.
    rewrite drop_app_length'; [done|]. pose proof (zlen_stretch (stream_offset fr)
      (zlen out - stream_offset fr) ltac:(lia)) as Hz. unfold zlen in Hz at 1. lia. }
  assert (Hl : zlen (out ++ stretch (zlen out) (fr_end - zlen out)) = fr_end)
    by (rewrite zlen_app, zlen_stretch by (unfold fr_end; lia); lia).
  rewrite Hdrop, Hl. split; [|split; [done|]].
  - split; rewrite ?Hl; cbn [strm' strm_rob set_rob]; try done.
    + rewrite Hout at 1. rewrite (stretch_app 0 (zlen out)) by (zfacts; unfold fr_end; lia).
      f_equal. lia.
    + apply Hg'. split; [done | unfold fr_end; lia].
    + intros x Hx Hn. rewrite Hb' by lia. apply Hbytes; [unfold fr_end in *; lia|].
      intros Hi. apply Hn, Hg'. split; [done | lia].
  - intros x. cbn [strm' strm_rob set_rob]. rewrite Hg', Hg, carried_cons. fold fr_end.
    split; [intros ((Hx & Hn) & He); split; [done|]; intros [?|?]; [lia | done]|].
    intros (Hx & Hn). split; [split; [done | tauto]|].
    destruct (decide (fr_end <= x)); [done|]. destruct Hn.
    destruct (decide (stream_offset fr <= x)); [left; lia|]. right.
    apply (carried_below _ _ _ _ Hd). lia.
Qed.

(** A frame that does not extend what was delivered goes to the buffer. *)
Lemma delivered_reorder m strm out frs fr :
  delivered strm out frs -> carries fr -> zlen out < stream_offset fr ->
  exists rob rv m', ngtcp2_strm_recv_reordering m strm fr = Ok (set_rob strm rob, rv, m') /\
    (rv = 0 \/ rv = NGTCP2_ERR_NOMEM) /\ (mem_reliable m -> rv = 0 /\ mem_reliable m') /\
    (rv = 0 -> delivered (set_rob strm rob) out (fr :: frs)).
Proof.
  intros Hd (Ho & Hmax & Hdata) Hin. pose proof Hd as [[Hr Hout Hlim Hbytes] Hrx Hg].
  unfold ngtcp2_strm_recv_reordering.
  destruct (rob_push_spec m _ _ (stream_offset fr) (stream_data fr) Hr Ho ltac:(lia))
    as (rob & rv & m' & -> & Hrv & Hm & Hok). cbn [mbind res_bind].
  exists rob, rv, m'. split; [done|]. split; [done|]. split; [done|]. intros H0.
  destruct (Hok H0) as (Hr' & Hg' & Hb').
  assert (Hpos : in_gaps (rob_gap (strm_rob strm)) (zlen out)).
  { rewrite <- Hrx. by apply (rob_first_gap_spec _ _ Hr). }
  split.
  - split; cbn [strm_rob set_rob]; try done.
    + apply Hg'. split; [done | lia].
    + intros x Hx Hn. rewrite Hb'. destruct (decide _) as [[Hi Hrange]|Hnot].
      * rewrite Hdata. rewrite lookup_stretch by lia. do 2 f_equal. lia.
      * apply Hbytes; [done|]. intros Hi. apply Hn, Hg'. tauto.
  - unfold ngtcp2_strm_rx_offset. cbn [strm_rob set_rob].
    destruct (rob_first_gap_spec _ _ Hr') as [Hlow Hfst].
    pose proof (wf_gaps_lower _ _ _ (reader_gaps _ _ Hr') Hfst).
    assert (in_gaps (rob_gap rob) (zlen out)) as Hz%Hlow by (apply Hg'; split; [done | lia]). lia.
  - intros x. cbn [strm_rob set_rob]. rewrite Hg', Hg, carried_cons. tauto.
Qed.

Lemma strm_init_delivered m stream_id flags max_rx max_tx (user_data : U) :
  match ngtcp2_strm_init m stream_id flags max_rx max_tx user_data with
  | (Ok strm, m') => delivered strm [] [] /\ wf_gaptr (strm_acked_tx_offset strm) /\
      strm_flags strm = flags /\ strm_stream_id strm = stream_id /\ strm_me strm = stream_id /\
      strm_last_rx_offset strm = 0 /\ (mem_reliable m -> mem_reliable m')
  | (Err e, _) => e = NGTCP2_ERR_NOMEM /\ ~ mem_reliable m
  | (Ub, _) => False
  end.
Proof.
  unfold ngtcp2_strm_init, ngtcp2_gaptr_init. pose proof (mem_alloc_reliable m) as Hm.
  destruct (mem_alloc m) as [[] m1]; [|split; [done|]; intros Hr; by destruct (Hm Hr)].
  pose proof (rob_init_reader m1 (8 * 1024)) as Hinit. unfold ngtcp2_rob_init in *.
  pose proof (mem_alloc_reliable m1) as Hm1.
  destruct (mem_alloc m1) as [[] m2].
  2:{ split; [done|]. intros Hr. apply Hm in Hr as [_ Hr]. by destruct (Hm1 Hr). }
  assert (Hall : forall x, in_gaps [ngtcp2_range_init 0 UINT64_MAX] x <-> 0 <= x < UINT64_MAX).
  { intros x. rewrite in_gaps_cons. unfold in_gaps. rewrite Exists_nil. unfold in_range. simpl. tauto. }
  split; [|split_and!; try done; intros Hr; by apply Hm1, Hm].
  split; [|done|].
  - split; cbn [strm_rob].
    + apply Hinit; [split; lia | done].
    + done.
    + apply Hall. clia.
    + intros x Hx Hn. destruct Hn. apply Hall. done.
  - intros x. cbn [strm_rob rob_gap]. rewrite Hall. unfold carried. rewrite Exists_nil. tauto.
Qed.
End InOrder.

(** ** Properties *)

(** Shutting a stream down sets the requested ones of the two directions and
    changes no other flag: a shutdown is never undone. *)
Theorem strm_shutdown_bits {U} (strm : ngtcp2_strm U) flags i :
  0 <= i ->
  Z.testbit (strm_flags (ngtcp2_strm_shutdown strm flags)) i =
  Z.testbit (strm_flags strm) i || (Z.testbit flags i && (i <? 2)) /\
  strm_rob (ngtcp2_strm_shutdown strm flags) = strm_rob strm.
Proof.
  intros Hi. split; [|done]. unfold ngtcp2_strm_shutdown. cbn [strm_flags set_flags].
  rewrite Z.lor_spec, Z.land_spec. f_equal. f_equal.
  change NGTCP2_STRM_FLAG_SHUT_RDWR with (Z.ones 2).
  destruct (Z.ltb_spec i 2); [apply Z.ones_spec_low | apply Z.ones_spec_high]; lia.
Qed.

Lemma strm_shutdown_bits_witness :
  Z.testbit (strm_flags (ngtcp2_strm_shutdown (mk_strm 4 0 (mk_gaptr []) 9 0 (mk_rob [] [] 8192) 9 9 0
    (mk_buf 0 0 []) 4 tt 0x10 0) 0x07)) 2 = false.
Proof.
  destruct (strm_shutdown_bits (mk_strm 4 0 (mk_gaptr []) 9 0 (mk_rob [] [] 8192) 9 9 0
    (mk_buf 0 0 []) 4 tt 0x10 0) 0x07 2) as [H _]; [lia|]. rewrite H. reflexivity.
Defined.
