(* ===== verification/Err.v ===== *)
(** Error codes: [ngtcp2_err.c]. The descriptions of the codes, which of them
    are fatal, and the transport error a code is reported to the peer as. *)

From Stdlib Require Import String.
From S2P Require Import Prelude Frame.
#[local] Open Scope Z_scope.

(** ** Transport errors: [ngtcp2_transport_error] *)

Definition NGTCP2_NO_ERROR : Z := 0x0.
Definition NGTCP2_INTERNAL_ERROR : Z := 0x1.
Definition NGTCP2_FLOW_CONTROL_ERROR : Z := 0x3.
Definition NGTCP2_STREAM_ID_ERROR : Z := 0x4.
Definition NGTCP2_STREAM_STATE_ERROR : Z := 0x5.
Definition NGTCP2_FINAL_OFFSET_ERROR : Z := 0x6.
Definition NGTCP2_FRAME_FORMAT_ERROR : Z := 0x7.
Definition NGTCP2_TRANSPORT_PARAMETER_ERROR : Z := 0x8.
Definition NGTCP2_VERSION_NEGOTIATION_ERROR : Z := 0x9.
Definition NGTCP2_PROTOCOL_VIOLATION : Z := 0xa.
Definition NGTCP2_TLS_HANDSHAKE_FAILED : Z := 0x201.
Definition NGTCP2_TLS_FATAL_ALERT_GENERATED : Z := 0x202.
Definition NGTCP2_TLS_FATAL_ALERT_RECEIVED : Z := 0x203.

(** ** The operations *)

(** The cases of the [switch] of [ngtcp2_strerror]. *)
Definition strerror_cases : list (Z * string) :=
  [(0, "NO_ERROR");
   (NGTCP2_ERR_INVALID_ARGUMENT, "ERR_INVALID_ARGUMENT");
   (NGTCP2_ERR_UNKNOWN_PKT_TYPE, "ERR_UNKNOWN_PKT_TYPE");
   (NGTCP2_ERR_NOBUF, "ERR_NOBUF");
   (NGTCP2_ERR_BAD_PKT_HASH, "ERR_BAD_PKT_HASH");
   (NGTCP2_ERR_PROTO, "ERR_PROTO");
   (NGTCP2_ERR_INVALID_STATE, "ERR_INVALID_STATE");
   (NGTCP2_ERR_ACK_FRAME, "ERR_ACK_FRAME");
   (NGTCP2_ERR_STREAM_ID_BLOCKED, "ERR_STREAM_ID_BLOCKED");
   (NGTCP2_ERR_STREAM_IN_USE, "ERR_STREAM_IN_USE");
   (NGTCP2_ERR_STREAM_DATA_BLOCKED, "ERR_STREAM_DATA_BLOCKED");
   (NGTCP2_ERR_FLOW_CONTROL, "ERR_FLOW_CONTROL");
   (NGTCP2_ERR_PKT_TIMEOUT, "ERR_PKT_TIMEOUT");
   (NGTCP2_ERR_STREAM_ID, "ERR_STREAM_ID");
   (NGTCP2_ERR_FINAL_OFFSET, "ERR_FINAL_OFFSET");
   (NGTCP2_ERR_PKT_NUM_EXHAUSTED, "ERR_PKT_NUM_EXHAUSTED");
   (NGTCP2_ERR_NOMEM, "ERR_NOMEM");
   (NGTCP2_ERR_TLS_HANDSHAKE, "ERR_TLS_HANDSHAKE");
   (NGTCP2_ERR_REQUIRED_TRANSPORT_PARAM, "ERR_REQUIRED_TRANSPORT_PARAM");
   (NGTCP2_ERR_MALFORMED_TRANSPORT_PARAM, "ERR_MALFORMED_TRANSPORT_PARAM");
   (NGTCP2_ERR_FRAME_FORMAT, "ERR_FRAME_FORMAT");
   (NGTCP2_ERR_TLS_DECRYPT, "ERR_TLS_DECRYPT");
   (NGTCP2_ERR_STREAM_SHUT_WR, "ERR_STREAM_SHUT_WR");
   (NGTCP2_ERR_STREAM_NOT_FOUND, "ERR_STREAM_NOT_FOUND");
   (NGTCP2_ERR_VERSION_NEGOTIATION, "ERR_VERSION_NEGOTIATION");
   (NGTCP2_ERR_TLS_FATAL_ALERT_GENERATED, "ERR_TLS_FATAL_ALERT_GENERATED");
   (NGTCP2_ERR_TLS_FATAL_ALERT_RECEIVED, "ERR_TLS_FATAL_ALERT_RECEIVED");
   (NGTCP2_ERR_STREAM_STATE, "ERR_STREAM_STATE");
   (NGTCP2_ERR_NOKEY, "ERR_NOKEY");
   (NGTCP2_ERR_EARLY_DATA_REJECTED, "ERR_EARLY_DATA_REJECTED");
   (NGTCP2_ERR_CALLBACK_FAILURE, "ERR_CALLBACK_FAILURE");
   (NGTCP2_ERR_INTERNAL, "ERR_INTERNAL")]%string.

Fixpoint switch {A} (default : A) (cases : list (Z * A)) (x : Z) : A :=
  match cases with
  | [] => default
  | (c, a) :: cases => if x =? c then a else switch default cases x
  end.

Definition ngtcp2_strerror (liberr : Z) : string := switch "UNKNOWN"%string strerror_cases liberr.

Definition ngtcp2_err_fatal (liberr : Z) : Z := c_bool (NGTCP2_ERR_FATAL <=? liberr).

Definition ngtcp2_err_infer_quic_transport_error_code (liberr : Z) : Z :=
  switch NGTCP2_PROTOCOL_VIOLATION
    [(0, NGTCP2_NO_ERROR);
     (NGTCP2_ERR_ACK_FRAME, NGTCP2_FRAME_FORMAT_ERROR);
     (NGTCP2_ERR_FRAME_FORMAT, NGTCP2_FRAME_FORMAT_ERROR);
     (NGTCP2_ERR_FLOW_CONTROL, NGTCP2_FLOW_CONTROL_ERROR);
     (NGTCP2_ERR_STREAM_ID, NGTCP2_STREAM_ID_ERROR);
     (NGTCP2_ERR_FINAL_OFFSET, NGTCP2_FINAL_OFFSET_ERROR);
     (NGTCP2_ERR_REQUIRED_TRANSPORT_PARAM, NGTCP2_TRANSPORT_PARAMETER_ERROR);
     (NGTCP2_ERR_INVALID_ARGUMENT, NGTCP2_INTERNAL_ERROR);
     (NGTCP2_ERR_TLS_HANDSHAKE, NGTCP2_TLS_HANDSHAKE_FAILED);
     (NGTCP2_ERR_TLS_FATAL_ALERT_GENERATED, NGTCP2_TLS_FATAL_ALERT_GENERATED);
     (NGTCP2_ERR_TLS_FATAL_ALERT_RECEIVED, NGTCP2_TLS_FATAL_ALERT_RECEIVED);
     (NGTCP2_ERR_STREAM_STATE, NGTCP2_STREAM_STATE_ERROR);
     (NGTCP2_ERR_VERSION_NEGOTIATION, NGTCP2_VERSION_NEGOTIATION_ERROR)] liberr.

(** ** Facts *)

(** The values of [ngtcp2_lib_error] before and after the mark [NGTCP2_ERR_FATAL]. *)
Definition nonfatal_errors : list Z := seqZ NGTCP2_ERR_EARLY_DATA_REJECTED 28.
Definition fatal_errors : list Z :=
  [NGTCP2_ERR_NOMEM; NGTCP2_ERR_CALLBACK_FAILURE; NGTCP2_ERR_INTERNAL].
Definition lib_errors : list Z := 0 :: nonfatal_errors ++ fatal_errors.

(** A [switch] takes the value of one of its cases, or the default. *)
Lemma switch_Forall {A} (P : A -> Prop) d cases x :
  P d -> Forall (fun c => P c.2) cases -> P (switch d cases x).
Proof.
  intros Hd. induction 1 as [|[c a] cases Ha _ IH]; simpl; [done|]. by destruct (x =? c).
Qed.

Lemma switch_default {A} (d : A) cases x :
  Forall (fun c => c.2 <> d) cases -> switch d cases x = d <-> x ∉ cases.*1.
Proof.
  induction 1 as [|[c a] cases Ha _ IH]; simpl; [split; [by intros _ ?%elem_of_nil|done]|].
  rewrite elem_of_cons. destruct (Z.eqb_spec x c) as [->|]; [split; [done | intros Hn; destruct Hn; by left]|].
  rewrite IH. tauto.
Qed.

(** ** Properties *)

(** [ngtcp2_strerror] tells all codes of the library apart: every code has
    a description of its own, and only numbers that are not codes are "UNKNOWN". *)
Theorem strerror_distinct :
  NoDup (ngtcp2_strerror <$> lib_errors) /\
  forall liberr, ngtcp2_strerror liberr = "UNKNOWN"%string <-> liberr ∉ lib_errors.
Proof.
  split; [by refine (bool_decide_unpack _ _); vm_compute|]. intros liberr.
  unfold ngtcp2_strerror. rewrite switch_default by (repeat constructor; done).
  apply not_iff_compat. rewrite !list_elem_of_In. vm_compute. tauto.
Qed.

(** C40. [ngtcp2_err_fatal] reports as fatal exactly the codes that are not:
    success and every error before the mark [NGTCP2_ERR_FATAL], and none of
    [NGTCP2_ERR_NOMEM], [NGTCP2_ERR_CALLBACK_FAILURE] and [NGTCP2_ERR_INTERNAL]. *)
Theorem err_fatal_inverted liberr :
  liberr ∈ lib_errors -> ngtcp2_err_fatal liberr = 0 <-> liberr ∈ fatal_errors.
Proof.
  intros H. set (f x := eqb (ngtcp2_err_fatal x =? 0) (bool_decide (x ∈ fatal_errors))).
  assert (Hf : forallb f lib_errors = true) by (by vm_compute).
  rewrite forallb_forall in Hf. apply list_elem_of_In, Hf in H. unfold f in H.
  apply eqb_prop in H. rewrite <- (bool_decide_eq_true (_ ∈ _)), <- H. by rewrite Z.eqb_eq.
Qed.

Lemma err_fatal_inverted_witness :
  ngtcp2_err_fatal NGTCP2_ERR_NOMEM = 0 <-> NGTCP2_ERR_NOMEM ∈ fatal_errors.
Proof. apply (err_fatal_inverted NGTCP2_ERR_NOMEM). by refine (bool_decide_unpack _ _); vm_compute. Defined.

(** The transport error sent to the peer is a 16-bit code; it is
    [NGTCP2_NO_ERROR] only when there is no error. *)
Theorem infer_transport_error liberr :
  is_uint 16 (ngtcp2_err_infer_quic_transport_error_code liberr) /\
  (ngtcp2_err_infer_quic_transport_error_code liberr = NGTCP2_NO_ERROR <-> liberr = 0).
Proof.
  split; [apply (switch_Forall (is_uint 16)); [done | by repeat constructor]|].
  unfold ngtcp2_err_infer_quic_transport_error_code. cbn [switch]. by bdestr; split.
Qed.
