(* ===== verification/Conn.v ===== *)
(** The connection: the state of [ngtcp2_conn.h], and the functions of
    [ngtcp2_conn.c] that call neither the application nor the packet encoder.

    The streams and the packets of the retransmission buffer are objects on a
    heap: a pointer is an address ([positive]), an access to an object that has
    been freed is undefined behaviour, and addresses are not reused. The list
    [fc_strms], linked through [fc_next] and [fc_pprev] of the streams, is the
    list of their addresses; [fc_pprev] is not NULL for the streams in it. The
    chains of frames and of buffered packets are lists. The allocator is the
    member [mem]; there is never memory for more than [MAX_STREAMS] streams, which
    keeps the hash table of streams within the 32 bits of its length. The member
    [user_data] is the state of the application, of type [A].
    A [void *stream_user_data] is an integer. *)

From S2P Require Import Prelude Conv Frame PktDecode PktHd Mem Monad Range Gaptr Idtr Ringbuf Acktr.
From S2P Require Import Pq Rtb Map Rob Crypto Ppe Strm.

(** ** Constants *)

Inductive ngtcp2_conn_state :=
| NGTCP2_CS_CLIENT_INITIAL
| NGTCP2_CS_CLIENT_WAIT_HANDSHAKE
| NGTCP2_CS_CLIENT_HANDSHAKE_ALMOST_FINISHED
| NGTCP2_CS_CLIENT_TLS_HANDSHAKE_FAILED
| NGTCP2_CS_SERVER_INITIAL
| NGTCP2_CS_SERVER_WAIT_HANDSHAKE
| NGTCP2_CS_SERVER_TLS_HANDSHAKE_FAILED
| NGTCP2_CS_POST_HANDSHAKE
| NGTCP2_CS_CLOSING
| NGTCP2_CS_DRAINING.

#[global] Instance conn_state_eq_dec : EqDecision ngtcp2_conn_state.
Proof. solve_decision. Defined.

Definition NGTCP2_CONN_FLAG_NONE : Z := 0x00.
Definition NGTCP2_CONN_FLAG_HANDSHAKE_COMPLETED : Z := 0x01.
Definition NGTCP2_CONN_FLAG_CONN_ID_NEGOTIATED : Z := 0x02.
Definition NGTCP2_CONN_FLAG_TRANSPORT_PARAM_RECVED : Z := 0x04.
Definition NGTCP2_CONN_FLAG_RECV_PROTECTED_PKT : Z := 0x08.
Definition NGTCP2_CONN_FLAG_STATELESS_RETRY : Z := 0x10.
Definition NGTCP2_CONN_FLAG_EARLY_DATA_REJECTED : Z := 0x20.

Definition NGTCP2_PKT_DEADLINE_PERIOD : Z := 5000000.
Definition NGTCP2_DELAYED_ACK_TIMEOUT : Z := 25000.
Definition NGTCP2_MAX_NUM_BUFFED_RX_PPKTS : Z := 16.
Definition NGTCP2_STRM0_MAX_STREAM_DATA : Z := 65535.
Definition NGTCP2_HANDSHAKE_AEAD_OVERHEAD : Z := 16.
Definition NGTCP2_STREAM_OVERHEAD : Z := 15.
Definition NGTCP2_MAX_VARINT : Z := 2 ^ 62 - 1.
Definition NGTCP2_PROTO_VER_D8 : Z := 0xff000008.
Definition NGTCP2_NO_ERROR : Z := 0.
Definition NGTCP2_STOPPING : Z := 0.
Definition NGTCP2_TLS_HANDSHAKE_FAILED : Z := 0x201.

(** ** State *)

Record ngtcp2_settings := mk_settings {
  s_max_stream_data : Z;
  s_max_data : Z;
  s_max_stream_id_bidi : Z;
  s_max_stream_id_uni : Z;
  s_idle_timeout : Z;
  s_omit_connection_id : Z;
  s_max_packet_size : Z;
  s_stateless_reset_token : bytes;
  s_ip0 : Z;
  s_ip1 : Z;
  s_ip2 : Z;
  s_ip3 : Z;
  s_ack_delay_exponent : Z
}.

(** [calloc] *)
Definition zero_settings : ngtcp2_settings := mk_settings 0 0 0 0 0 0 0 (replicate 16 0) 0 0 0 0 0.

Record ngtcp2_conn (A : Type) := mk_conn {
  conn_state : ngtcp2_conn_state;
  conn_strm0 : positive;
  conn_strms : ngtcp2_map positive;
  conn_fc_strms : list positive;
  conn_remote_bidi_idtr : ngtcp2_idtr;
  conn_remote_uni_idtr : ngtcp2_idtr;
  conn_conn_id : Z;
  conn_client_conn_id : Z;
  conn_last_tx_pkt_num : Z;
  conn_max_rx_pkt_num : Z;
  conn_unsent_max_remote_stream_id_bidi : Z;
  conn_max_remote_stream_id_bidi : Z;
  conn_remote_stream_id_bidi_window_start : Z;
  conn_max_local_stream_id_bidi : Z;
  conn_next_local_stream_id_bidi : Z;
  conn_unsent_max_remote_stream_id_uni : Z;
  conn_max_remote_stream_id_uni : Z;
  conn_remote_stream_id_uni_window_start : Z;
  conn_max_local_stream_id_uni : Z;
  conn_next_local_stream_id_uni : Z;
  conn_unsent_max_rx_offset : Z;
  conn_max_rx_offset : Z;
  conn_rx_offset : Z;
  conn_tx_offset : Z;
  conn_max_tx_offset : Z;
  conn_frq : list ngtcp2_frame;
  conn_mem : mem;
  conn_user_data : A;
  conn_acktr : ngtcp2_acktr;
  conn_rtb : ngtcp2_rtb;
  conn_version : Z;
  conn_flags : Z;
  conn_server : bool;
  conn_hs_tx_ckm : option ngtcp2_crypto_km;
  conn_hs_rx_ckm : option ngtcp2_crypto_km;
  conn_early_ckm : option ngtcp2_crypto_km;
  conn_tx_ckm : option ngtcp2_crypto_km;
  conn_rx_ckm : option ngtcp2_crypto_km;
  conn_aead_overhead : Z;
  conn_buffed_rx_ppkts : list (bytes * Z);
  conn_early_rtb : list positive;
  conn_local_settings : ngtcp2_settings;
  conn_remote_settings : ngtcp2_settings;
  conn_next_ack_expiry : Z;
  conn_immediate_ack : bool;
  conn_decrypt_buf_len : Z;
  conn_strm_heap : gmap positive (ngtcp2_strm Z);
  conn_rtb_heap : rtb_store;
  conn_next : positive
}.
Arguments mk_conn {A}.
Arguments conn_state {A}.
Arguments conn_strm0 {A}.
Arguments conn_strms {A}.
Arguments conn_fc_strms {A}.
Arguments conn_remote_bidi_idtr {A}.
Arguments conn_remote_uni_idtr {A}.
Arguments conn_conn_id {A}.
Arguments conn_client_conn_id {A}.
Arguments conn_last_tx_pkt_num {A}.
Arguments conn_max_rx_pkt_num {A}.
Arguments conn_unsent_max_remote_stream_id_bidi {A}.
Arguments conn_max_remote_stream_id_bidi {A}.
Arguments conn_remote_stream_id_bidi_window_start {A}.
Arguments conn_max_local_stream_id_bidi {A}.
Arguments conn_next_local_stream_id_bidi {A}.
Arguments conn_unsent_max_remote_stream_id_uni {A}.
Arguments conn_max_remote_stream_id_uni {A}.
Arguments conn_remote_stream_id_uni_window_start {A}.
Arguments conn_max_local_stream_id_uni {A}.
Arguments conn_next_local_stream_id_uni {A}.
Arguments conn_unsent_max_rx_offset {A}.
Arguments conn_max_rx_offset {A}.
Arguments conn_rx_offset {A}.
Arguments conn_tx_offset {A}.
Arguments conn_max_tx_offset {A}.
Arguments conn_frq {A}.
Arguments conn_mem {A}.
Arguments conn_user_data {A}.
Arguments conn_acktr {A}.
Arguments conn_rtb {A}.
Arguments conn_version {A}.
Arguments conn_flags {A}.
Arguments conn_server {A}.
Arguments conn_hs_tx_ckm {A}.
Arguments conn_hs_rx_ckm {A}.
Arguments conn_early_ckm {A}.
Arguments conn_tx_ckm {A}.
Arguments conn_rx_ckm {A}.
Arguments conn_aead_overhead {A}.
Arguments conn_buffed_rx_ppkts {A}.
Arguments conn_early_rtb {A}.
Arguments conn_local_settings {A}.
Arguments conn_remote_settings {A}.
Arguments conn_next_ack_expiry {A}.
Arguments conn_immediate_ack {A}.
Arguments conn_decrypt_buf_len {A}.
Arguments conn_strm_heap {A}.
Arguments conn_rtb_heap {A}.
Arguments conn_next {A}.

Section Conn.
Context {A : Type}.
Abbreviation conn := (ngtcp2_conn A).
Abbreviation M := (M (ngtcp2_conn A)).

Definition conn_eta (c : ngtcp2_conn A) : ngtcp2_conn A :=
  mk_conn (conn_state c) (conn_strm0 c) (conn_strms c) (conn_fc_strms c)
    (conn_remote_bidi_idtr c) (conn_remote_uni_idtr c) (conn_conn_id c) (conn_client_conn_id c)
    (conn_last_tx_pkt_num c) (conn_max_rx_pkt_num c) (conn_unsent_max_remote_stream_id_bidi c)
    (conn_max_remote_stream_id_bidi c) (conn_remote_stream_id_bidi_window_start c)
    (conn_max_local_stream_id_bidi c) (conn_next_local_stream_id_bidi c)
    (conn_unsent_max_remote_stream_id_uni c) (conn_max_remote_stream_id_uni c)
    (conn_remote_stream_id_uni_window_start c) (conn_max_local_stream_id_uni c)
    (conn_next_local_stream_id_uni c) (conn_unsent_max_rx_offset c) (conn_max_rx_offset c)
    (conn_rx_offset c) (conn_tx_offset c) (conn_max_tx_offset c) (conn_frq c) (conn_mem c)
    (conn_user_data c) (conn_acktr c) (conn_rtb c) (conn_version c) (conn_flags c)
    (conn_server c) (conn_hs_tx_ckm c) (conn_hs_rx_ckm c) (conn_early_ckm c) (conn_tx_ckm c)
    (conn_rx_ckm c) (conn_aead_overhead c) (conn_buffed_rx_ppkts c) (conn_early_rtb c)
    (conn_local_settings c) (conn_remote_settings c) (conn_next_ack_expiry c)
    (conn_immediate_ack c) (conn_decrypt_buf_len c) (conn_strm_heap c) (conn_rtb_heap c)
    (conn_next c).

Definition set_conn_state (v : ngtcp2_conn_state) (c : ngtcp2_conn A) : ngtcp2_conn A :=
  ltac:(setter conn_eta (@conn_state A) v c).
Definition set_conn_strm0 (v : positive) (c : ngtcp2_conn A) : ngtcp2_conn A :=
  ltac:(setter conn_eta (@conn_strm0 A) v c).
Definition set_conn_strms (v : ngtcp2_map positive) (c : ngtcp2_conn A) : ngtcp2_conn A :=
  ltac:(setter conn_eta (@conn_strms A) v c).
Definition set_conn_fc_strms (v : list positive) (c : ngtcp2_conn A) : ngtcp2_conn A :=
  ltac:(setter conn_eta (@conn_fc_strms A) v c).
Definition set_conn_remote_bidi_idtr (v : ngtcp2_idtr) (c : ngtcp2_conn A) : ngtcp2_conn A :=
  ltac:(setter conn_eta (@conn_remote_bidi_idtr A) v c).
Definition set_conn_remote_uni_idtr (v : ngtcp2_idtr) (c : ngtcp2_conn A) : ngtcp2_conn A :=
  ltac:(setter conn_eta (@conn_remote_uni_idtr A) v c).
Definition set_conn_conn_id (v : Z) (c : ngtcp2_conn A) : ngtcp2_conn A :=
  ltac:(setter conn_eta (@conn_conn_id A) v c).
Definition set_conn_client_conn_id (v : Z) (c : ngtcp2_conn A) : ngtcp2_conn A :=
  ltac:(setter conn_eta (@conn_client_conn_id A) v c).
Definition set_conn_last_tx_pkt_num (v : Z) (c : ngtcp2_conn A) : ngtcp2_conn A :=
  ltac:(setter conn_eta (@conn_last_tx_pkt_num A) v c).
Definition set_conn_max_rx_pkt_num (v : Z) (c : ngtcp2_conn A) : ngtcp2_conn A :=
  ltac:(setter conn_eta (@conn_max_rx_pkt_num A) v c).
Definition set_conn_unsent_max_remote_stream_id_bidi (v : Z) (c : ngtcp2_conn A) : ngtcp2_conn A :=
  ltac:(setter conn_eta (@conn_unsent_max_remote_stream_id_bidi A) v c).
Definition set_conn_max_remote_stream_id_bidi (v : Z) (c : ngtcp2_conn A) : ngtcp2_conn A :=
  ltac:(setter conn_eta (@conn_max_remote_stream_id_bidi A) v c).
Definition set_conn_max_local_stream_id_bidi (v : Z) (c : ngtcp2_conn A) : ngtcp2_conn A :=
  ltac:(setter conn_eta (@conn_max_local_stream_id_bidi A) v c).
Definition set_conn_next_local_stream_id_bidi (v : Z) (c : ngtcp2_conn A) : ngtcp2_conn A :=
  ltac:(setter conn_eta (@conn_next_local_stream_id_bidi A) v c).
Definition set_conn_unsent_max_remote_stream_id_uni (v : Z) (c : ngtcp2_conn A) : ngtcp2_conn A :=
  ltac:(setter conn_eta (@conn_unsent_max_remote_stream_id_uni A) v c).
Definition set_conn_max_remote_stream_id_uni (v : Z) (c : ngtcp2_conn A) : ngtcp2_conn A :=
  ltac:(setter conn_eta (@conn_max_remote_stream_id_uni A) v c).
Definition set_conn_max_local_stream_id_uni (v : Z) (c : ngtcp2_conn A) : ngtcp2_conn A :=
  ltac:(setter conn_eta (@conn_max_local_stream_id_uni A) v c).
Definition set_conn_next_local_stream_id_uni (v : Z) (c : ngtcp2_conn A) : ngtcp2_conn A :=
  ltac:(setter conn_eta (@conn_next_local_stream_id_uni A) v c).
Definition set_conn_unsent_max_rx_offset (v : Z) (c : ngtcp2_conn A) : ngtcp2_conn A :=
  ltac:(setter conn_eta (@conn_unsent_max_rx_offset A) v c).
Definition set_conn_max_rx_offset (v : Z) (c : ngtcp2_conn A) : ngtcp2_conn A :=
  ltac:(setter conn_eta (@conn_max_rx_offset A) v c).
Definition set_conn_rx_offset (v : Z) (c : ngtcp2_conn A) : ngtcp2_conn A :=
  ltac:(setter conn_eta (@conn_rx_offset A) v c).
Definition set_conn_tx_offset (v : Z) (c : ngtcp2_conn A) : ngtcp2_conn A :=
  ltac:(setter conn_eta (@conn_tx_offset A) v c).
Definition set_conn_max_tx_offset (v : Z) (c : ngtcp2_conn A) : ngtcp2_conn A :=
  ltac:(setter conn_eta (@conn_max_tx_offset A) v c).
Definition set_conn_frq (v : list ngtcp2_frame) (c : ngtcp2_conn A) : ngtcp2_conn A :=
  ltac:(setter conn_eta (@conn_frq A) v c).
Definition set_conn_mem (v : mem) (c : ngtcp2_conn A) : ngtcp2_conn A :=
  ltac:(setter conn_eta (@conn_mem A) v c).
Definition set_conn_user_data (v : A) (c : ngtcp2_conn A) : ngtcp2_conn A :=
  ltac:(setter conn_eta (@conn_user_data A) v c).
Definition set_conn_acktr (v : ngtcp2_acktr) (c : ngtcp2_conn A) : ngtcp2_conn A :=
  ltac:(setter conn_eta (@conn_acktr A) v c).
Definition set_conn_rtb (v : ngtcp2_rtb) (c : ngtcp2_conn A) : ngtcp2_conn A :=
  ltac:(setter conn_eta (@conn_rtb A) v c).
Definition set_conn_flags (v : Z) (c : ngtcp2_conn A) : ngtcp2_conn A :=
  ltac:(setter conn_eta (@conn_flags A) v c).
Definition set_conn_hs_tx_ckm (v : option ngtcp2_crypto_km) (c : ngtcp2_conn A) : ngtcp2_conn A :=
  ltac:(setter conn_eta (@conn_hs_tx_ckm A) v c).
Definition set_conn_hs_rx_ckm (v : option ngtcp2_crypto_km) (c : ngtcp2_conn A) : ngtcp2_conn A :=
  ltac:(setter conn_eta (@conn_hs_rx_ckm A) v c).
Definition set_conn_early_ckm (v : option ngtcp2_crypto_km) (c : ngtcp2_conn A) : ngtcp2_conn A :=
  ltac:(setter conn_eta (@conn_early_ckm A) v c).
Definition set_conn_tx_ckm (v : option ngtcp2_crypto_km) (c : ngtcp2_conn A) : ngtcp2_conn A :=
  ltac:(setter conn_eta (@conn_tx_ckm A) v c).
Definition set_conn_rx_ckm (v : option ngtcp2_crypto_km) (c : ngtcp2_conn A) : ngtcp2_conn A :=
  ltac:(setter conn_eta (@conn_rx_ckm A) v c).
Definition set_conn_aead_overhead (v : Z) (c : ngtcp2_conn A) : ngtcp2_conn A :=
  ltac:(setter conn_eta (@conn_aead_overhead A) v c).
Definition set_conn_buffed_rx_ppkts (v : list (bytes * Z)) (c : ngtcp2_conn A) : ngtcp2_conn A :=
  ltac:(setter conn_eta (@conn_buffed_rx_ppkts A) v c).
Definition set_conn_early_rtb (v : list positive) (c : ngtcp2_conn A) : ngtcp2_conn A :=
  ltac:(setter conn_eta (@conn_early_rtb A) v c).
Definition set_conn_local_settings (v : ngtcp2_settings) (c : ngtcp2_conn A) : ngtcp2_conn A :=
  ltac:(setter conn_eta (@conn_local_settings A) v c).
Definition set_conn_remote_settings (v : ngtcp2_settings) (c : ngtcp2_conn A) : ngtcp2_conn A :=
  ltac:(setter conn_eta (@conn_remote_settings A) v c).
Definition set_conn_next_ack_expiry (v : Z) (c : ngtcp2_conn A) : ngtcp2_conn A :=
  ltac:(setter conn_eta (@conn_next_ack_expiry A) v c).
Definition set_conn_immediate_ack (v : bool) (c : ngtcp2_conn A) : ngtcp2_conn A :=
  ltac:(setter conn_eta (@conn_immediate_ack A) v c).
Definition set_conn_decrypt_buf_len (v : Z) (c : ngtcp2_conn A) : ngtcp2_conn A :=
  ltac:(setter conn_eta (@conn_decrypt_buf_len A) v c).
Definition set_conn_strm_heap (v : gmap positive (ngtcp2_strm Z)) (c : ngtcp2_conn A) : ngtcp2_conn A :=
  ltac:(setter conn_eta (@conn_strm_heap A) v c).
Definition set_conn_rtb_heap (v : rtb_store) (c : ngtcp2_conn A) : ngtcp2_conn A :=
  ltac:(setter conn_eta (@conn_rtb_heap A) v c).
Definition set_conn_next (v : positive) (c : ngtcp2_conn A) : ngtcp2_conn A :=
  ltac:(setter conn_eta (@conn_next A) v c).

(** ** Heap *)

(** A function that allocates. *)
Definition with_mem {B} (f : mem -> res B * mem) : M B := fun c =>
  let '(r, m) := f (conn_mem c) in lift r (set_conn_mem m c).

Definition malloc : M unit :=
  with_mem (fun m => let '(ok, m) := mem_alloc m in (if ok then Ok tt else Err NGTCP2_ERR_NOMEM, m)).

(** There is memory for this many streams at a time. *)
Definition MAX_STREAMS : Z := 2 ^ 28.

(** The address of a new stream; what it holds is stored by its initialisation. *)
Definition new_address : M positive :=
  malloc;;
  c ← get;
  throw_if (MAX_STREAMS <=? Z.of_nat (size (conn_strm_heap c))) NGTCP2_ERR_NOMEM;;
  p ← gets conn_next;
  modify (set_conn_next (Pos.succ p));;
  mret p.

(** [*strm] *)
Definition load_strm (p : positive) : M (ngtcp2_strm Z) := fun c =>
  match conn_strm_heap c !! p with Some strm => ret strm c | None => undef end.

Definition store_strm (p : positive) (strm : ngtcp2_strm Z) : M unit :=
  load_strm p;; modify (fun c => set_conn_strm_heap (<[p := strm]> (conn_strm_heap c)) c).

Definition update_strm (p : positive) (f : ngtcp2_strm Z -> ngtcp2_strm Z) : M unit :=
  strm ← load_strm p; store_strm p (f strm).

(** [ngtcp2_strm_free(strm); ngtcp2_mem_free(mem, strm);] *)
Definition free_strm (p : positive) : M unit :=
  load_strm p;; modify (fun c => set_conn_strm_heap (delete p (conn_strm_heap c)) c).

(** Packets of the retransmission buffer. *)
Definition load_ent (p : positive) : M ngtcp2_rtb_entry := fun c =>
  match conn_rtb_heap c !! p with Some ent => ret ent c | None => undef end.

Definition store_ent (p : positive) (ent : ngtcp2_rtb_entry) : M unit :=
  load_ent p;; modify (fun c => set_conn_rtb_heap (<[p := ent]> (conn_rtb_heap c)) c).

Definition ngtcp2_rtb_entry_del (p : positive) : M unit :=
  load_ent p;; modify (fun c => set_conn_rtb_heap (delete p (conn_rtb_heap c)) c).

(** The loops that delete a list of entries. *)
Fixpoint delete_rtb_entries (l : list positive) : M unit :=
  match l with
  | [] => mret tt
  | p :: l => ngtcp2_rtb_entry_del p;; delete_rtb_entries l
  end.

(** The array of the priority queue, which is freed too, is not reset. *)
Definition ngtcp2_rtb_free : M unit :=
  c ← get;
  delete_rtb_entries (rtb_head (conn_rtb c)).

(** [ngtcp2_rtb_entry_new(&ent, ...)] *)
Definition new_rtb_entry (hd : ngtcp2_pkt_hd) (frc : list ngtcp2_frame) (ts deadline pktlen flags : Z) :
    M positive :=
  ent ← with_mem (fun m => ngtcp2_rtb_entry_new m hd frc ts deadline pktlen flags);
  p ← gets conn_next;
  modify (set_conn_next (Pos.succ p));;
  modify (fun c => set_conn_rtb_heap (<[p := ent]> (conn_rtb_heap c)) c);;
  mret p.

(** [ngtcp2_rtb_add(&conn->rtb, ent)] *)
Definition conn_rtb_add (p : positive) : M unit :=
  load_ent p;;
  c ← get;
  rtb ← with_mem (fun m => ngtcp2_rtb_add m (conn_rtb_heap c) (conn_rtb c) p);
  modify (set_conn_rtb rtb).

(** [ngtcp2_frame_chain_new]: the frame is stored by the caller. *)
Definition ngtcp2_frame_chain_new : M unit := malloc.

(** ** Stream IDs *)

Definition conn_local_stream (c : conn) (stream_id : Z) : bool :=
  if conn_server c then negb (stream_id mod 2 =? 0) else stream_id mod 2 =? 0.

Definition bidi_stream (stream_id : Z) : bool := (stream_id .& 0x2) =? 0.

Definition conn_idtr (bidi : bool) (c : conn) : ngtcp2_idtr :=
  if bidi then conn_remote_bidi_idtr c else conn_remote_uni_idtr c.
Definition set_conn_idtr (bidi : bool) (idtr : ngtcp2_idtr) : conn -> conn :=
  if bidi then set_conn_remote_bidi_idtr idtr else set_conn_remote_uni_idtr idtr.

(** [rv = ngtcp2_idtr_open(idtr, stream_id)], where [idtr] is the tracker of the
    remote streams of the kind of [stream_id]. *)
Definition conn_idtr_open (stream_id : Z) : M Z :=
  let bidi := bidi_stream stream_id in
  c ← get;
  '(idtr, rv, m) ← lift (ngtcp2_idtr_open (conn_mem c) (conn_idtr bidi c) stream_id);
  modify (fun c => set_conn_mem m (set_conn_idtr bidi idtr c));;
  mret rv.

Definition conn_idtr_is_open (stream_id : Z) : M bool :=
  c ← get;
  rv ← lift (ngtcp2_idtr_is_open (conn_idtr (bidi_stream stream_id) c) stream_id);
  mret (negb (rv =? 0)).

(** The checks of the stream ID the frame handlers begin with: a local stream
    must have been opened, a remote one must be within the limit. *)
Definition conn_check_stream_id (stream_id : Z) : M unit :=
  c ← get;
  if bidi_stream stream_id then
    if conn_local_stream c stream_id then
      throw_if (conn_next_local_stream_id_bidi c <=? stream_id) NGTCP2_ERR_STREAM_STATE
    else throw_if (conn_max_remote_stream_id_bidi c <? stream_id) NGTCP2_ERR_STREAM_ID
  else
    if conn_local_stream c stream_id then
      throw_if (conn_next_local_stream_id_uni c <=? stream_id) NGTCP2_ERR_STREAM_STATE
    else throw_if (conn_max_remote_stream_id_uni c <? stream_id) NGTCP2_ERR_STREAM_ID.

(** ** Streams *)

Definition ngtcp2_conn_find_stream (stream_id : Z) : M (option positive) :=
  c ← get;
  me ← lift (ngtcp2_map_find (conn_strms c) stream_id);
  mret (me_val <$> me).

(** [ngtcp2_map_insert(&conn->strms, &strm->me)] *)
Definition conn_strms_insert (p : positive) : M unit :=
  strm ← load_strm p;
  c ← get;
  '(map, rv) ← with_mem (fun m => ngtcp2_map_insert m (conn_strms c) (mk_map_entry (strm_me strm) p) []);
  modify (set_conn_strms map);;
  check rv.

(** [ngtcp2_map_remove(&conn->strms, key)] *)
Definition conn_strms_remove (key : Z) : M unit :=
  c ← get;
  '(map, rv) ← lift (ngtcp2_map_remove (conn_strms c) key);
  modify (set_conn_strms map);;
  check rv.

(** [ngtcp2_strm_init(strm, ...)] for the new object at [p]. *)
Definition conn_strm_init (p : positive) (stream_id max_rx_offset max_tx_offset stream_user_data : Z) :
    M unit :=
  strm ← with_mem (fun m => ngtcp2_strm_init m stream_id NGTCP2_STRM_FLAG_NONE max_rx_offset
                              max_tx_offset stream_user_data);
  modify (fun c => set_conn_strm_heap (<[p := strm]> (conn_strm_heap c)) c).

Definition ngtcp2_conn_init_stream (p : positive) (stream_id stream_user_data : Z) : M unit :=
  c ← get;
  conn_strm_init p stream_id (s_max_stream_data (conn_local_settings c))
    (s_max_stream_data (conn_remote_settings c)) stream_user_data;;
  rv ← status (conn_strms_insert p);
  if negb (rv =? 0) then
    assert_ (negb (rv =? NGTCP2_ERR_INVALID_ARGUMENT));;
    free_strm p;;
    throw rv
  else mret tt.

Definition ngtcp2_conn_open_bidi_stream (stream_user_data : Z) : M Z :=
  c ← get;
  throw_if (conn_max_local_stream_id_bidi c <? conn_next_local_stream_id_bidi c)
    NGTCP2_ERR_STREAM_ID_BLOCKED;;
  p ← new_address;
  ngtcp2_conn_init_stream p (conn_next_local_stream_id_bidi c) stream_user_data;;
  modify (fun c => set_conn_next_local_stream_id_bidi (u64 (conn_next_local_stream_id_bidi c + 4)) c);;
  mret (conn_next_local_stream_id_bidi c).

Definition ngtcp2_conn_open_uni_stream (stream_user_data : Z) : M Z :=
  c ← get;
  throw_if (conn_max_local_stream_id_uni c <? conn_next_local_stream_id_uni c)
    NGTCP2_ERR_STREAM_ID_BLOCKED;;
  p ← new_address;
  ngtcp2_conn_init_stream p (conn_next_local_stream_id_uni c) stream_user_data;;
  update_strm p (fun strm => ngtcp2_strm_shutdown strm NGTCP2_STRM_FLAG_SHUT_RD);;
  modify (fun c => set_conn_next_local_stream_id_uni (u64 (conn_next_local_stream_id_uni c + 4)) c);;
  mret (conn_next_local_stream_id_uni c).

(** ** ACK timer *)

Definition conn_set_next_ack_expiry (ts : Z) : M unit :=
  modify (fun c => set_conn_immediate_ack false
                     (set_conn_next_ack_expiry (u64 (ts + NGTCP2_DELAYED_ACK_TIMEOUT)) c)).

Definition conn_invalidate_next_ack_expiry : M unit :=
  modify (fun c => set_conn_immediate_ack false (set_conn_next_ack_expiry 0 c)).

Definition conn_immediate_ack_ : M unit := modify (set_conn_immediate_ack true).

Definition conn_next_ack_expired (c : conn) (ts : Z) : bool :=
  conn_immediate_ack c || (negb (conn_next_ack_expiry c =? 0) && (conn_next_ack_expiry c <=? ts)).

Definition conn_commit_tx_ack : M unit :=
  conn_invalidate_next_ack_expiry;;
  modify (fun c => let t := conn_acktr c in set_conn_acktr (mk_acktr (acks t) (ent t) (nack t) false) c).

Definition ngtcp2_conn_sched_ack (pkt_num : Z) (active : bool) (ts : Z) (unprotected : bool) : M unit :=
  rpkt ← with_mem (fun m => ngtcp2_acktr_entry_new m pkt_num ts unprotected);
  c ← get;
  let '(acktr, rv) := ngtcp2_acktr_add (conn_acktr c) rpkt active in
  modify (set_conn_acktr acktr);;
  check rv;;
  if negb (conn_immediate_ack c) && (conn_next_ack_expiry c =? 0) && active_ack acktr then
    conn_set_next_ack_expiry ts
  else mret tt.

(** [ngtcp2_acktr_add_ack(&conn->acktr, pkt_num, &fr->ack, unprotected)] *)
Definition conn_add_ack (pkt_num : Z) (fr : ngtcp2_ack) (unprotected : bool) : M unit :=
  modify (fun c => set_conn_acktr (ngtcp2_acktr_add_ack (conn_acktr c) pkt_num fr unprotected) c).

(** ** Shutting streams down *)

(** [frc->next = conn->frq; conn->frq = frc;] *)
Definition conn_frq_push (fr : ngtcp2_frame) : M unit :=
  modify (fun c => set_conn_frq (fr :: conn_frq c) c).

(** The list pointers in the streams [l] are written to: the streams must not have
    been freed. *)
Definition access_strms (l : list positive) : M unit :=
  c ← get;
  assert_ (forallb (fun p => bool_decide (is_Some (conn_strm_heap c !! p))) l).

(** The streams before and after [p] in a list. *)
Fixpoint fc_neighbours (p : positive) (l : list positive) : list positive :=
  match l with
  | q :: (r :: _) as l' =>
      (if bool_decide (q = p) then [r] else []) ++ (if bool_decide (r = p) then [q] else []) ++ fc_neighbours p l'
  | _ => []
  end.

(** [strm] is taken out of [fc_strms]: [*strm->fc_pprev] and [strm->fc_next->fc_pprev]
    are set. The code does nothing when it is not in the list. *)
Definition conn_fc_unlink (p : positive) : M unit :=
  fc_strms ← gets conn_fc_strms;
  access_strms (fc_neighbours p fc_strms);;
  modify (fun c => set_conn_fc_strms (filter (fun q => q <> p) (conn_fc_strms c)) c).

Definition conn_rst_stream (p : positive) (app_error_code : Z) : M unit :=
  ngtcp2_frame_chain_new;;
  strm ← load_strm p;
  conn_frq_push (fr_rst_stream (mk_rst_stream (strm_stream_id strm) app_error_code (strm_tx_offset strm))).

Definition conn_stop_sending (p : positive) (app_error_code : Z) : M unit :=
  ngtcp2_frame_chain_new;;
  strm ← load_strm p;
  conn_frq_push (fr_stop_sending (strm_stream_id strm) app_error_code);;
  conn_fc_unlink p.

Definition conn_shutdown_stream_write (p : positive) (app_error_code : Z) : M unit :=
  strm ← load_strm p;
  if has_bit (strm_flags strm) NGTCP2_STRM_FLAG_SENT_RST then mret tt
  else
    store_strm p (set_app_error_code
      (set_flags strm (strm_flags strm .| (NGTCP2_STRM_FLAG_SHUT_WR .| NGTCP2_STRM_FLAG_SENT_RST)))
      app_error_code);;
    conn_rst_stream p app_error_code.

Definition conn_shutdown_stream_read (p : positive) (app_error_code : Z) : M unit :=
  strm ← load_strm p;
  if has_bit (strm_flags strm) NGTCP2_STRM_FLAG_STOP_SENDING then mret tt
  else
    store_strm p (set_app_error_code
      (set_flags strm (strm_flags strm .| NGTCP2_STRM_FLAG_STOP_SENDING)) app_error_code);;
    conn_stop_sending p app_error_code.

(** [strm] for [stream_id], or [NGTCP2_ERR_STREAM_NOT_FOUND]. *)
Definition conn_get_stream (stream_id : Z) : M positive :=
  strm ← ngtcp2_conn_find_stream stream_id;
  match strm with None => throw NGTCP2_ERR_STREAM_NOT_FOUND | Some p => mret p end.

Definition ngtcp2_conn_shutdown_stream (stream_id app_error_code : Z) : M unit :=
  throw_if ((stream_id =? 0) || (app_error_code =? NGTCP2_STOPPING)) NGTCP2_ERR_INVALID_ARGUMENT;;
  p ← conn_get_stream stream_id;
  conn_shutdown_stream_read p app_error_code;;
  conn_shutdown_stream_write p app_error_code.

Definition ngtcp2_conn_shutdown_stream_write (stream_id app_error_code : Z) : M unit :=
  throw_if ((stream_id =? 0) || (app_error_code =? NGTCP2_STOPPING)) NGTCP2_ERR_INVALID_ARGUMENT;;
  p ← conn_get_stream stream_id;
  conn_shutdown_stream_write p app_error_code.

Definition ngtcp2_conn_shutdown_stream_read (stream_id app_error_code : Z) : M unit :=
  throw_if ((stream_id =? 0) || (app_error_code =? NGTCP2_STOPPING)) NGTCP2_ERR_INVALID_ARGUMENT;;
  p ← conn_get_stream stream_id;
  conn_shutdown_stream_read p app_error_code.

(** ** Flow control *)

Definition conn_should_send_max_stream_data (c : conn) (strm : ngtcp2_strm Z) : bool :=
  s_max_stream_data (conn_local_settings c) / 2 <?
  u64 (strm_unsent_max_rx_offset strm - strm_max_rx_offset strm).

Definition conn_should_send_max_data (c : conn) : bool :=
  s_max_data (conn_local_settings c) / 2 <? u64 (conn_unsent_max_rx_offset c - conn_max_rx_offset c).

Definition conn_max_data_violated (c : conn) (datalen : Z) : bool :=
  u64 (conn_max_rx_offset c - conn_rx_offset c) <? datalen.

Definition conn_extend_max_stream_offset (p : positive) (datalen : Z) : M unit :=
  strm ← load_strm p;
  let strm :=
    if strm_unsent_max_rx_offset strm <=? u64 (NGTCP2_MAX_VARINT - datalen)
    then set_unsent_max_rx_offset strm (u64 (strm_unsent_max_rx_offset strm + datalen)) else strm in
  store_strm p strm;;
  c ← get;
  if (strm_flags strm .& (NGTCP2_STRM_FLAG_SHUT_RD .| NGTCP2_STRM_FLAG_STOP_SENDING) =? 0) &&
     bool_decide (p ∉ conn_fc_strms c) && conn_should_send_max_stream_data c strm
  then
    (* [conn->fc_strms->fc_pprev = &strm->fc_next;] *)
    access_strms (take 1 (conn_fc_strms c));;
    modify (set_conn_fc_strms (p :: conn_fc_strms c))
  else mret tt.

Definition ngtcp2_conn_extend_max_stream_offset (stream_id datalen : Z) : M unit :=
  p ← conn_get_stream stream_id;
  conn_extend_max_stream_offset p datalen.

Definition ngtcp2_conn_extend_max_offset (datalen : Z) : M unit :=
  modify (fun c =>
    if (NGTCP2_MAX_VARINT <? datalen) || (u64 (NGTCP2_MAX_VARINT - datalen) <? conn_unsent_max_rx_offset c)
    then set_conn_unsent_max_rx_offset NGTCP2_MAX_VARINT c
    else set_conn_unsent_max_rx_offset (u64 (conn_unsent_max_rx_offset c + datalen)) c).

Definition conn_recv_max_data (max_data : Z) : M unit :=
  modify (fun c => set_conn_max_tx_offset (Z.max (conn_max_tx_offset c) max_data) c).

(** A stream the peer opens: the object, its initialisation, and its shutdown
    for writing when it is unidirectional. *)
Definition conn_new_remote_stream (stream_id : Z) : M positive :=
  p ← new_address;
  ngtcp2_conn_init_stream p stream_id 0;;
  (if bidi_stream stream_id then mret tt
   else update_strm p (fun strm => ngtcp2_strm_shutdown strm NGTCP2_STRM_FLAG_SHUT_WR));;
  mret p.

Definition conn_recv_max_stream_data (stream_id max_stream_data : Z) : M unit :=
  conn_check_stream_id stream_id;;
  c ← get;
  let extend p :=
    update_strm p (fun strm => set_max_tx_offset strm (Z.max (strm_max_tx_offset strm) max_stream_data)) in
  strm ← ngtcp2_conn_find_stream stream_id;
  match strm with
  | Some p => extend p
  | None =>
      if conn_local_stream c stream_id then mret tt
      else
        rv ← conn_idtr_open stream_id;
        if rv =? NGTCP2_ERR_STREAM_IN_USE then mret tt
        else p ← conn_new_remote_stream stream_id; extend p
  end.

(** ** Other frames *)

Definition conn_recv_connection_close : M unit := modify (set_conn_state NGTCP2_CS_DRAINING).

Definition conn_recv_pong (data : bytes) : M unit :=
  throw_if (zlen data =? 0) NGTCP2_ERR_FRAME_FORMAT.

Definition conn_recv_ping (data : bytes) : M unit :=
  if zlen data =? 0 then mret tt
  else malloc;; conn_frq_push (fr_pong data).

(** ** Buffers *)

Definition conn_buffer_protected_pkt (pkt : bytes) (ts : Z) : M unit :=
  c ← get;
  if NGTCP2_MAX_NUM_BUFFED_RX_PPKTS <=? zlen (conn_buffed_rx_ppkts c) then mret tt
  else
    malloc;;
    modify (fun c => set_conn_buffed_rx_ppkts (conn_buffed_rx_ppkts c ++ [(pkt, ts)]) c).

(** [for (; len < n; len *= 2);]: after 64 steps [len] is 0, and the loop never ends. *)
Fixpoint grow_len (fuel : nat) (len n : Z) : res Z :=
  match fuel with
  | O => Ub
  | S fuel => if len <? n then grow_len fuel (u64 (len * 2)) n else Ok len
  end.

Definition conn_ensure_decrypt_buffer (n : Z) : M unit :=
  c ← get;
  if n <=? conn_decrypt_buf_len c then mret tt
  else
    len ← lift (grow_len 65 (if conn_decrypt_buf_len c =? 0 then 2048
                             else u64 (conn_decrypt_buf_len c * 2)) n);
    malloc;;
    modify (set_conn_decrypt_buf_len len).

(** ** Packet numbers *)

Definition conn_select_pkt_type (c : conn) (pkt_num : Z) : Z :=
  let n := u64 (pkt_num - rtb_largest_acked (conn_rtb c)) in
  if UINT64_MAX / 2 <=? pkt_num then NGTCP2_PKT_03
  else
    let n := u64 (n * 2 + 1) in
    if 0xffff <? n then NGTCP2_PKT_03
    else if 0xff <? n then NGTCP2_PKT_02
    else NGTCP2_PKT_01.

(** ** Keys *)

Definition set_keys (ckm : conn -> option ngtcp2_crypto_km)
    (set : option ngtcp2_crypto_km -> conn -> conn) (key iv : bytes) : M unit :=
  c ← get;
  match ckm c with
  | Some _ => throw NGTCP2_ERR_INVALID_STATE
  | None =>
      km ← with_mem (fun m => ngtcp2_crypto_km_new m key iv);
      modify (set (Some km))
  end.

Definition ngtcp2_conn_set_handshake_tx_keys := set_keys conn_hs_tx_ckm set_conn_hs_tx_ckm.
Definition ngtcp2_conn_set_handshake_rx_keys := set_keys conn_hs_rx_ckm set_conn_hs_rx_ckm.
Definition ngtcp2_conn_update_early_keys := set_keys conn_early_ckm set_conn_early_ckm.
Definition ngtcp2_conn_update_tx_keys := set_keys conn_tx_ckm set_conn_tx_ckm.
Definition ngtcp2_conn_update_rx_keys := set_keys conn_rx_ckm set_conn_rx_ckm.

Definition ngtcp2_conn_set_aead_overhead (aead_overhead : Z) : M unit :=
  modify (set_conn_aead_overhead aead_overhead).

Definition conn_set_flag (flag : Z) : M unit :=
  modify (fun c => set_conn_flags (conn_flags c .| flag) c).

Definition ngtcp2_conn_handshake_completed : M unit :=
  conn_set_flag NGTCP2_CONN_FLAG_HANDSHAKE_COMPLETED.

Definition ngtcp2_conn_early_data_rejected : M unit :=
  conn_set_flag NGTCP2_CONN_FLAG_EARLY_DATA_REJECTED.

(** ** Transport parameters *)

Definition settings_copy_from_transport_params (dest : ngtcp2_settings) (src : ngtcp2_transport_params) :
    ngtcp2_settings :=
  mk_settings (tp_initial_max_stream_data src) (tp_initial_max_data src)
    (tp_initial_max_stream_id_bidi src) (tp_initial_max_stream_id_uni src) (tp_idle_timeout src)
    (tp_omit_connection_id src) (tp_max_packet_size src) (tp_stateless_reset_token src)
    (s_ip0 dest) (s_ip1 dest) (s_ip2 dest) (s_ip3 dest) (tp_ack_delay_exponent src).

(** The parameters, and the settings, whose address is cleared. *)
Definition transport_params_copy_from_settings (v : params_v) (src : ngtcp2_settings) :
    ngtcp2_transport_params * ngtcp2_settings :=
  (mk_params v (s_max_stream_data src) (s_max_data src) (s_max_stream_id_bidi src)
     (s_max_stream_id_uni src) (s_idle_timeout src) (s_omit_connection_id src)
     (s_max_packet_size src) (s_stateless_reset_token src)
     (s_ip0 src) (s_ip1 src) (s_ip2 src) (s_ip3 src) (s_ack_delay_exponent src),
   mk_settings (s_max_stream_data src) (s_max_data src) (s_max_stream_id_bidi src)
     (s_max_stream_id_uni src) (s_idle_timeout src) (s_omit_connection_id src)
     (s_max_packet_size src) (s_stateless_reset_token src) 0 0 0 0 (s_ack_delay_exponent src)).

Definition conn_client_validate_transport_params (c : conn) (params : ngtcp2_transport_params) : res unit :=
  match tp_v params with
  | v_ee negotiated_version supported_versions =>
      if negb (negotiated_version =? conn_version c) then Err NGTCP2_ERR_VERSION_NEGOTIATION
      else if existsb (fun v => v =? conn_version c) supported_versions then Ok tt
      else Err NGTCP2_ERR_VERSION_NEGOTIATION
  | v_ch _ => Ub
  end.

(** The limits the peer announced. *)
Definition conn_apply_remote_params (params : ngtcp2_transport_params) : M unit :=
  modify (fun c =>
    let s := settings_copy_from_transport_params (conn_remote_settings c) params in
    set_conn_max_tx_offset (s_max_data s)
      (set_conn_max_local_stream_id_uni (s_max_stream_id_uni s)
        (set_conn_max_local_stream_id_bidi (s_max_stream_id_bidi s)
          (set_conn_remote_settings s c)))).

Definition ngtcp2_conn_set_remote_transport_params (exttype : Z) (params : ngtcp2_transport_params) :
    M unit :=
  c ← get;
  (if exttype =? NGTCP2_TRANSPORT_PARAMS_TYPE_CLIENT_HELLO then
     throw_if (negb (conn_server c)) NGTCP2_ERR_INVALID_ARGUMENT
   else if exttype =? NGTCP2_TRANSPORT_PARAMS_TYPE_ENCRYPTED_EXTENSIONS then
     throw_if (conn_server c) NGTCP2_ERR_INVALID_ARGUMENT;;
     lift (conn_client_validate_transport_params c params)
   else if exttype =? NGTCP2_TRANSPORT_PARAMS_TYPE_NEW_SESSION_TICKET then
     throw_if (conn_server c) NGTCP2_ERR_INVALID_ARGUMENT
   else throw NGTCP2_ERR_INVALID_ARGUMENT);;
  conn_apply_remote_params params;;
  c ← get;
  update_strm (conn_strm0 c) (fun strm =>
    set_max_tx_offset strm (s_max_stream_data (conn_remote_settings c)));;
  conn_set_flag NGTCP2_CONN_FLAG_TRANSPORT_PARAM_RECVED.

Definition ngtcp2_conn_set_early_remote_transport_params (params : ngtcp2_transport_params) : M unit :=
  c ← get;
  throw_if (conn_server c) NGTCP2_ERR_INVALID_STATE;;
  conn_apply_remote_params params.

(** [v] is the version part of [*params] before the call. *)
Definition ngtcp2_conn_get_local_transport_params (v : params_v) (exttype : Z) :
    M ngtcp2_transport_params :=
  c ← get;
  v ←
    (if exttype =? NGTCP2_TRANSPORT_PARAMS_TYPE_CLIENT_HELLO then
       throw_if (conn_server c) NGTCP2_ERR_INVALID_ARGUMENT;; mret (v_ch (conn_version c))
     else if exttype =? NGTCP2_TRANSPORT_PARAMS_TYPE_ENCRYPTED_EXTENSIONS then
       throw_if (negb (conn_server c)) NGTCP2_ERR_INVALID_ARGUMENT;;
       mret (v_ee (conn_version c) [conn_version c])
     else if exttype =? NGTCP2_TRANSPORT_PARAMS_TYPE_NEW_SESSION_TICKET then
       throw_if (negb (conn_server c)) NGTCP2_ERR_INVALID_ARGUMENT;; mret v
     else throw NGTCP2_ERR_INVALID_ARGUMENT);
  let '(params, settings) := transport_params_copy_from_settings v (conn_local_settings c) in
  modify (set_conn_local_settings settings);;
  mret params.

(** ** Queries *)

Definition ngtcp2_conn_get_handshake_completed (c : conn) : bool :=
  0 <? conn_flags c .& NGTCP2_CONN_FLAG_HANDSHAKE_COMPLETED.
Definition ngtcp2_conn_in_closing_period (c : conn) : bool :=
  bool_decide (conn_state c = NGTCP2_CS_CLOSING).
Definition ngtcp2_conn_in_draining_period (c : conn) : bool :=
  bool_decide (conn_state c = NGTCP2_CS_DRAINING).
Definition ngtcp2_conn_bytes_in_flight (c : conn) : Z := rtb_bytes_in_flight (conn_rtb c).
Definition ngtcp2_conn_negotiated_conn_id (c : conn) : Z := conn_conn_id c.
Definition ngtcp2_conn_negotiated_version (c : conn) : Z := conn_version c.

Definition ngtcp2_conn_earliest_expiry (c : conn) : Z :=
  match ngtcp2_rtb_top (conn_rtb c) with
  | None => conn_next_ack_expiry c
  | Some ent =>
      if 0 <? conn_next_ack_expiry c then Z.min (conn_next_ack_expiry c) (expiry_of (conn_rtb_heap c) ent)
      else expiry_of (conn_rtb_heap c) ent
  end.

(** ** Creation *)

(** [calloc]; the role, the version, the allocator and [user_data] are stored
    once and for all. *)
Definition zero_conn (m : mem) (version : Z) (user_data : A) (server : bool) : conn :=
  mk_conn NGTCP2_CS_CLIENT_INITIAL 1 (mk_map [] 0 0) [] (mk_idtr [] false) (mk_idtr [] false)
    0 0 0 0 0 0 0 0 0 0 0 0 0 0 0 0 0 0 0 [] m user_data
    (mk_acktr (mk_ringbuf [] 0 0 0 0) [] 0 false) (mk_rtb ngtcp2_pq_init [] 0 0) version 0 server
    None None None None None 0 [] [] zero_settings zero_settings 0 false 0 ∅ ∅ 1.

Definition conn_new (conn_id : Z) (settings : ngtcp2_settings) (server : bool) : M unit :=
  malloc;;
  strm0 ← new_address;
  modify (set_conn_strm0 strm0);;
  conn_strm_init strm0 0 (s_max_stream_data settings) NGTCP2_STRM0_MAX_STREAM_DATA 0;;
  strms ← with_mem ngtcp2_map_init;
  modify (set_conn_strms strms);;
  conn_strms_insert strm0;;
  idtr ← with_mem (fun m => ngtcp2_idtr_init m (negb server));
  modify (set_conn_remote_bidi_idtr idtr);;
  idtr ← with_mem (fun m => ngtcp2_idtr_init m (negb server));
  modify (set_conn_remote_uni_idtr idtr);;
  acktr ← with_mem ngtcp2_acktr_init;
  modify (set_conn_acktr acktr);;
  modify (set_conn_rtb ngtcp2_rtb_init);;
  modify (set_conn_conn_id conn_id);;
  modify (set_conn_local_settings settings);;
  modify (fun c => set_conn_unsent_max_remote_stream_id_bidi (s_max_stream_id_bidi settings)
                     (set_conn_max_remote_stream_id_bidi (s_max_stream_id_bidi settings) c));;
  modify (fun c => set_conn_unsent_max_remote_stream_id_uni (s_max_stream_id_uni settings)
                     (set_conn_max_remote_stream_id_uni (s_max_stream_id_uni settings) c));;
  modify (fun c => set_conn_unsent_max_rx_offset (s_max_data settings)
                     (set_conn_max_rx_offset (s_max_data settings) c));;
  modify (set_conn_state (if server then NGTCP2_CS_SERVER_INITIAL else NGTCP2_CS_CLIENT_INITIAL)).

Definition ngtcp2_conn_client_new (m : mem) (conn_id version : Z) (settings : ngtcp2_settings)
    (user_data : A) : out conn unit :=
  (conn_new conn_id settings false;;
   modify (set_conn_client_conn_id conn_id);;
   modify (set_conn_next_local_stream_id_bidi 4);;
   modify (set_conn_next_local_stream_id_uni 2)) (zero_conn m version user_data false).

Definition ngtcp2_conn_server_new (m : mem) (conn_id version : Z) (settings : ngtcp2_settings)
    (user_data : A) : out conn unit :=
  (conn_new conn_id settings true;;
   conn_idtr_open 0;;
   modify (set_conn_next_local_stream_id_bidi 1);;
   modify (set_conn_next_local_stream_id_uni 3)) (zero_conn m version user_data true).
End Conn.

(** The header, when the packet is acceptable or asks for Version Negotiation. *)
Definition ngtcp2_accept (pkt : bytes) : res (option ngtcp2_pkt_hd * Z) :=
  if zlen pkt =? 0 then Ok (None, -1)
  else
    b ← rd pkt;
    if b .& NGTCP2_HEADER_FORM_BIT =? 0 then Ok (None, -1)
    else
      match ngtcp2_pkt_decode_hd_long pkt with
      | Ok (hd, _) =>
          if (hd_type hd =? NGTCP2_PKT_INITIAL) || (hd_type hd =? NGTCP2_PKT_0RTT_PROTECTED) then
            if hd_version hd =? NGTCP2_PROTO_VER_D8 then Ok (Some hd, 0) else Ok (Some hd, 1)
          else Ok (None, -1)
      | Err _ => Ok (None, -1)
      | Ub => Ub
      end.
