(* ===== verification/ConnAck.v ===== *)
(** The ACK frames of [ngtcp2_conn.c]: [conn_create_ack_frame] turns the packets
    of the tracker into the ranges of a frame. *)

From S2P Require Import Prelude Conv Frame PktDecode PktHd Mem Monad Range Gaptr Idtr Ringbuf AckScan.
From S2P Require Import Acktr Pq Rtb Map Rob Crypto Ppe Strm Conn.

(** The variables of the loop: the current range, from [last_pkt_num] to
    [first_pkt_num]; [gap], which is [None] as long as [initial] is set; the frame
    built so far, and the number of blocks there is memory for. *)
Record ack_build := mk_build {
  ab_first_pkt_num : Z;
  ab_last_pkt_num : Z;
  ab_gap : option Z;
  ab_first_ack_blklen : Z;
  ab_blks : list ngtcp2_ack_blk;
  ab_num_blks_max : Z
}.

Section Ack.
Context {A : Type}.
Abbreviation M := (M (ngtcp2_conn A)).

(** The new [num_blks_max]. *)
Definition conn_ensure_ack_blks (num_blks_max n : Z) : M Z :=
  if n <=? num_blks_max then mret num_blks_max
  else malloc;; mret (u64 (num_blks_max * 2)).

(** The current range becomes the first block, or the next one. *)
Definition ack_flush (b : ack_build) : M ack_build :=
  let blklen := u64 (ab_first_pkt_num b - ab_last_pkt_num b) in
  match ab_gap b with
  | None => mret (mk_build (ab_first_pkt_num b) (ab_last_pkt_num b) None blklen (ab_blks b) (ab_num_blks_max b))
  | Some gap =>
      let num_blks := zlen (ab_blks b) + 1 in
      num_blks_max ← conn_ensure_ack_blks (ab_num_blks_max b) num_blks;
      assert_ (num_blks <=? num_blks_max);;
      mret (mk_build (ab_first_pkt_num b) (ab_last_pkt_num b) (Some gap) (ab_first_ack_blklen b)
              (ab_blks b ++ [mk_ack_blk gap blklen]) num_blks_max)
  end.

(** The loop from the packet at position [i]; the position where it stops early. *)
Fixpoint ack_loop (unprotected : bool) (l : list ngtcp2_acktr_entry) (i : nat) (b : ack_build) :
    M (ack_build * option nat) :=
  match l with
  | [] => mret (b, None)
  | rpkt :: l =>
      let pkt_num := ae_pkt_num rpkt in
      if unprotected && negb (ae_unprotected rpkt) then ack_loop unprotected l (S i) b
      else if u64 (pkt_num + 1) =? ab_last_pkt_num b then
        ack_loop unprotected l (S i)
          (mk_build (ab_first_pkt_num b) pkt_num (ab_gap b) (ab_first_ack_blklen b) (ab_blks b)
             (ab_num_blks_max b))
      else
        b ← ack_flush b;
        let b := mk_build pkt_num pkt_num (Some (u64 (ab_last_pkt_num b - pkt_num - 2)))
                   (ab_first_ack_blklen b) (ab_blks b) (ab_num_blks_max b) in
        if zlen (ab_blks b) =? NGTCP2_MAX_ACK_BLKS then mret (b, Some i)
        else ack_loop unprotected l (S i) b
  end.

(** [for (; *prpkt && !( *prpkt)->unprotected; prpkt = &( *prpkt)->next);]: the
    position reached, and the list from there. *)
Fixpoint skip_protected (l : list ngtcp2_acktr_entry) (i : nat) : nat * list ngtcp2_acktr_entry :=
  match l with
  | [] => (i, [])
  | rpkt :: l' => if ae_unprotected rpkt then (i, l) else skip_protected l' (S i)
  end.

Definition conn_create_ack_frame (ts : Z) (unprotected : bool) : M (option ngtcp2_ack) :=
  c ← get;
  if negb (active_ack (conn_acktr c)) then conn_invalidate_next_ack_expiry;; mret None
  else
    let '(i, l) := if unprotected then skip_protected (ent (conn_acktr c)) 0 else (0%nat, ent (conn_acktr c)) in
    match l with
    | [] => conn_invalidate_next_ack_expiry;; mret None
    | rpkt :: l =>
        malloc;;
        let pkt_num := ae_pkt_num rpkt in
        let ack_delay := u64 (ts - ae_tstamp rpkt) .>> s_ack_delay_exponent (conn_local_settings c) in
        '(b, stop) ← ack_loop unprotected l (S i) (mk_build pkt_num pkt_num None 0 [] 8);
        b ← ack_flush b;
        (match stop with
         | None => mret tt
         | Some j => modify (fun c => set_conn_acktr (ngtcp2_acktr_forget (conn_acktr c) j) c)
         end);;
        mret (Some (mk_ack pkt_num ack_delay (ab_first_ack_blklen b) (ab_blks b)))
    end.
End Ack.

(** ** The ranges of the frame *)

(** Only the allocator differs. *)
Definition mem_only {A} (c c' : ngtcp2_conn A) : Prop :=
  exists m, c' = set_conn_mem m c /\ (mem_reliable (conn_mem c) -> mem_reliable m).

(** A call that has failed for lack of memory. *)
Definition no_memory {A} (c : ngtcp2_conn A) (e : Z) (c' : ngtcp2_conn A) : Prop :=
  e = NGTCP2_ERR_NOMEM /\ ~ mem_reliable (conn_mem c) /\ mem_only c c'.

#[export] Instance mem_only_po {A} : PreOrder (@mem_only A).
Proof.
  split.
  - intros c. exists (conn_mem c). split; [by destruct c | done].
  - intros c1 c2 c3 (m & -> & H1) (m' & -> & H2). exists m'. split; [done|]. simpl in H2. auto.
Qed.

Lemma no_memory_after {A} (c c1 : ngtcp2_conn A) e c' : mem_only c c1 -> no_memory c1 e c' -> no_memory c e c'.
Proof.
  intros Hm (He & Hn & Hm'). split; [done|]. split; [|by etrans]. destruct Hm as (m & -> & H). intros Hr. apply Hn. by apply H.
Qed.

Lemma wp_malloc {A} (Q : unit -> ngtcp2_conn A -> Prop) E c :
  (forall c', mem_only c c' -> Q tt c') -> (forall c', no_memory c NGTCP2_ERR_NOMEM c' -> E NGTCP2_ERR_NOMEM c') ->
  wp malloc Q E c.
Proof.
  intros HQ HE. unfold wp, malloc, with_mem. pose proof (mem_alloc_reliable (conn_mem c)) as Hm.
  destruct (mem_alloc (conn_mem c)) as [[] m]; simpl in *.
  - apply HQ. exists m. split; [done|]. intros Hr. by apply Hm.
  - apply HE. split; [done|]. split; [intros Hr; by destruct (Hm Hr)|]. exists m. split; [done|]. intros Hr. by apply Hm.
Qed.

(** The least packet number below the blocks [blks], the first of which is below [lo]. *)
Definition ack_low (lo : Z) (blks : list ngtcp2_ack_blk) : Z :=
  foldl (fun lo b => lo - blk_gap b - 2 - blk_blklen b) lo blks.

Lemma blk_ranges_app lo k l : blk_ranges lo (k ++ l) = blk_ranges lo k ++ blk_ranges (ack_low lo k) l.
Proof. revert lo. induction k as [|b k IH]; intros lo; simpl; [done|]. by rewrite IH. Qed.
Lemma ack_low_app lo k l : ack_low lo (k ++ l) = ack_low (ack_low lo k) l.
Proof. apply foldl_app. Qed.
Lemma in_ranges_app k l x : in_ranges (k ++ l) x = in_ranges k x || in_ranges l x.
Proof. apply existsb_app. Qed.

Section Ranges.
Context (largest_ack : Z).

(** The ranges before the current one. *)
Definition closed_ranges (b : ack_build) : list (Z * Z) :=
  match ab_gap b with
  | None => []
  | Some _ => let lo := largest_ack - ab_first_ack_blklen b in (lo, largest_ack) :: blk_ranges lo (ab_blks b)
  end.

(** The frame for the ranges closed so far and the current one. *)
Definition finished (ack_delay : Z) (b : ack_build) : ngtcp2_ack :=
  let blklen := ab_first_pkt_num b - ab_last_pkt_num b in
  match ab_gap b with
  | None => mk_ack largest_ack ack_delay blklen (ab_blks b)
  | Some gap => mk_ack largest_ack ack_delay (ab_first_ack_blklen b) (ab_blks b ++ [mk_ack_blk gap blklen])
  end.

(** [b] stands for the packets [nums], the last of which is the least. *)
Record build_ok (b : ack_build) (nums : list Z) : Prop := {
  bo_members : forall x, x ∈ nums <->
    in_ranges (closed_ranges b) x = true \/ ab_last_pkt_num b <= x <= ab_first_pkt_num b;
  bo_gap : match ab_gap b with
    | None => ab_first_pkt_num b = largest_ack /\ ab_blks b = []
    | Some gap => 0 <= gap /\
        ab_first_pkt_num b = ack_low (largest_ack - ab_first_ack_blklen b) (ab_blks b) - gap - 2 /\
        0 <= ab_first_ack_blklen b <= largest_ack
    end;
  bo_order : 0 <= ab_last_pkt_num b <= ab_first_pkt_num b /\ ab_first_pkt_num b <= largest_ack < 2 ^ 62;
  bo_gap_max : forall gap, ab_gap b = Some gap -> gap < 2 ^ 62;
  bo_valid : valid_ranges (closed_ranges b);
  bo_blks : Forall wf_blk (ab_blks b);
  bo_room : zlen (ab_blks b) <= ab_num_blks_max b /\ 8 <= ab_num_blks_max b
}.

Lemma finished_ranges ack_delay b nums :
  build_ok b nums ->
  ack_ranges (finished ack_delay b) = closed_ranges b ++ [(ab_last_pkt_num b, ab_first_pkt_num b)].
Proof.
  intros []. unfold ack_ranges, finished, closed_ranges. destruct (ab_gap b) as [gap|].
  - destruct bo_gap0 as (_ & Hf & _). cbn [ack_largest_ack ack_first_ack_blklen ack_blks].
    rewrite blk_ranges_app. simpl. do 4 f_equal; lia.
  - destruct bo_gap0 as [-> ->]. simpl. do 2 f_equal; lia.
Qed.

Lemma finished_valid ack_delay b nums : build_ok b nums -> valid_ack (finished ack_delay b).
Proof.
  intros Hb. pose proof (finished_ranges ack_delay _ _ Hb) as Hr. destruct Hb.
  assert (Hwf : wf_ack (finished ack_delay b)).
  { unfold wf_ack, finished. destruct (ab_gap b) as [gap|]; simpl.
    - specialize (bo_gap_max0 gap eq_refl). split_and!; [clia | clia |]. apply Forall_app. split; [done|].
      constructor; [split; simpl; clia | constructor].
    - split_and!; [clia | clia | done]. }
  split; [done|]. pose proof (validate_ack_spec _ Hwf) as Hv. rewrite Hr in Hv.
  assert (valid_ranges (closed_ranges b ++ [(ab_last_pkt_num b, ab_first_pkt_num b)])).
  { apply Forall_app. split; [done|]. constructor; [simpl; lia | constructor]. }
  destruct (ngtcp2_pkt_validate_ack _) as [[]|e|]; [done | tauto | done].
Qed.

Lemma finished_members ack_delay b nums x :
  build_ok b nums -> acked_by (finished ack_delay b) x = true <-> x ∈ nums.
Proof.
  intros Hb. unfold acked_by. rewrite (finished_ranges _ _ _ Hb), in_ranges_app, (bo_members _ _ Hb), orb_true_iff.
  simpl. rewrite orb_false_r, andb_true_iff, !Z.leb_le. done.
Qed.

(** The frame for one packet. *)
Lemma build_init : is_uint 62 largest_ack ->
  build_ok (mk_build largest_ack largest_ack None 0 [] 8) [largest_ack].
Proof.
  intros Hn. split; simpl; try done; [| clia | constructor].
  intros x. rewrite list_elem_of_singleton. split; [intros ->; right; lia|]. intros [?|?]; [done | lia].
Qed.
End Ranges.

(** ** The loop *)

Section Loop.
Context {A : Type} (largest_ack : Z) (unprotected : bool).
Implicit Types (c : ngtcp2_conn A).
Abbreviation build_ok := (build_ok largest_ack).

(** The frame reports [e]. *)
Definition reported (e : ngtcp2_acktr_entry) : bool := negb unprotected || ae_unprotected e.

(** The packet numbers the frame reports, of the packets in [l]. *)
Definition reported_nums (l : list ngtcp2_acktr_entry) : list Z :=
  ae_pkt_num <$> filter (fun e => reported e = true) l.

Lemma ensure_ack_blks_spec num_blks_max n c (Q : Z -> ngtcp2_conn A -> Prop) E :
  8 <= num_blks_max -> n <= num_blks_max + 1 -> n <= 512 ->
  (forall n' c', mem_only c c' -> n <= n' -> 8 <= n' -> Q n' c') ->
  (forall e c', no_memory c e c' -> E e c') ->
  wp (conn_ensure_ack_blks num_blks_max n) Q E c.
Proof.
  intros H8 Hn H512 HQ HE. unfold conn_ensure_ack_blks. destruct (Z.leb_spec n num_blks_max).
  - wp_go. apply HQ; [done | lia | lia].
  - wp_go. apply wp_malloc; intros c' Hc'; [|by apply HE].
    wp_go. rewrite u64_small by clia. apply HQ; [done | lia | lia].
Qed.

(** Closing the current range; afterwards the members of the frame are those of
    [finished]. *)
Lemma ack_flush_spec ack_delay b nums c (Q : ack_build -> ngtcp2_conn A -> Prop) E :
  build_ok b nums -> zlen (ab_blks b) <= 255 ->
  (forall num_blks_max c',
    let fr := finished largest_ack ack_delay b in
    mem_only c c' -> zlen (ack_blks fr) <= num_blks_max -> 8 <= num_blks_max ->
    Q (mk_build (ab_first_pkt_num b) (ab_last_pkt_num b) (ab_gap b) (ack_first_ack_blklen fr)
         (ack_blks fr) num_blks_max) c') ->
  (forall e c', no_memory c e c' -> E e c') ->
  wp (ack_flush b) Q E c.
Proof.
  intros Hb Hmax HQ HE. destruct Hb. unfold ack_flush, finished in *.
  rewrite u64_small by clia. destruct (ab_gap b) as [gap|].
  - wp_go. apply ensure_ack_blks_spec; [lia | lia | lia | | done].
    intros n' c' Hc' Hn' H8. wp_go. apply wp_assert; [apply Z.leb_le; lia|]. wp_go.
    apply HQ; [done | | done]. cbn [ack_blks]. zlia.
  - destruct bo_gap0 as [_ Hnil]. wp_go. apply (HQ _ c); [done | | ]; simpl; lia.
Qed.

(** The packet next to the current range joins it. *)
Lemma build_extend b nums :
  build_ok b nums -> 1 <= ab_last_pkt_num b ->
  build_ok (mk_build (ab_first_pkt_num b) (ab_last_pkt_num b - 1) (ab_gap b) (ab_first_ack_blklen b)
    (ab_blks b) (ab_num_blks_max b)) (nums ++ [ab_last_pkt_num b - 1]).
Proof.
  intros [] Hl. split; simpl; try done; [|lia].
  intros x. rewrite elem_of_app, list_elem_of_singleton, bo_members0.
  change (closed_ranges _ (mk_build _ _ _ _ _ _)) with (closed_ranges largest_ack b).
  split; [intros [[?|?]|?]; auto; right; lia|]. intros [?|?]; [by left; left|].
  destruct (decide (x = ab_last_pkt_num b - 1)); [by right | left; right; lia].
Qed.

(** A packet further below opens a new range. *)
Lemma build_open ack_delay b nums n num_blks_max :
  build_ok b nums -> 0 <= n < ab_last_pkt_num b - 1 ->
  let fr := finished largest_ack ack_delay b in
  zlen (ack_blks fr) <= num_blks_max -> 8 <= num_blks_max ->
  build_ok (mk_build n n (Some (ab_last_pkt_num b - n - 2)) (ack_first_ack_blklen fr) (ack_blks fr)
    num_blks_max) (nums ++ [n]).
Proof.
  intros Hb Hn fr Hroom H8. pose proof (finished_ranges _ ack_delay _ _ Hb) as Hr.
  pose proof (finished_valid _ ack_delay _ _ Hb) as Hv. fold fr in Hr, Hv.
  pose proof (valid_ack_ranges _ Hv) as Hvr. destruct Hv as [(_ & _ & Hwf) _].
  assert (Hlow : ack_low (largest_ack - ack_first_ack_blklen fr) (ack_blks fr) = ab_last_pkt_num b).
  { destruct Hb. unfold fr, finished. destruct (ab_gap b); cbn [ack_first_ack_blklen ack_blks].
    - rewrite ack_low_app. simpl. lia.
    - destruct bo_gap0 as [? ->]. simpl. lia. }
  assert (Hclosed : closed_ranges largest_ack (mk_build n n (Some (ab_last_pkt_num b - n - 2))
    (ack_first_ack_blklen fr) (ack_blks fr) num_blks_max) = ack_ranges fr).
  { unfold closed_ranges, ack_ranges. cbn [ab_gap ab_first_ack_blklen ab_blks].
    assert (ack_largest_ack fr = largest_ack) as -> by (unfold fr, finished; by destruct (ab_gap b)). done. }
  pose proof Hb as Hb'. destruct Hb'. split; rewrite ?Hclosed; simpl; try done.
  - intros x. rewrite elem_of_app, list_elem_of_singleton, <- (finished_members _ ack_delay _ _ _ Hb).
    unfold acked_by. fold fr. split; intros []; auto; right; lia.
  - rewrite Hlow. split_and!; [lia | lia | |]; unfold fr, finished; destruct (ab_gap b); simpl; lia.
  - lia.
  - intros gap [= <-]. clia.
Qed.

(** The packets of [l], which starts at position [i], have been added to [nums] up
    to the point where the loop ended. *)
Definition loop_done (nums : list Z) (l : list ngtcp2_acktr_entry) (i : nat)
    (r : ack_build * option nat) : Prop :=
  zlen (ab_blks r.1) <= NGTCP2_MAX_ACK_BLKS /\
  match r.2 with
  | None => build_ok r.1 (nums ++ reported_nums l)
  | Some j => zlen (ab_blks r.1) = NGTCP2_MAX_ACK_BLKS /\ ab_gap r.1 <> None /\
      exists l1 e l2, l = l1 ++ e :: l2 /\ j = (i + length l1)%nat /\
        build_ok r.1 (nums ++ reported_nums (l1 ++ [e]))
  end.

Lemma reported_nums_app k l : reported_nums (k ++ l) = reported_nums k ++ reported_nums l.
Proof. unfold reported_nums. by rewrite <- fmap_app, <- filter_app. Qed.
Lemma reported_nums_cons e l : reported_nums (e :: l) = reported_nums [e] ++ reported_nums l.
Proof. apply (reported_nums_app [e]). Qed.

Lemma loop_done_cons nums e l i r :
  loop_done (nums ++ reported_nums [e]) l (S i) r -> loop_done nums (e :: l) i r.
Proof.
  destruct r as [b [j|]]; intros [Hz H]; (split; [done|]); simpl in *.
  - destruct H as (Heq & Hgap & l1 & e' & l2 & -> & -> & H). split_and!; try done.
    exists (e :: l1), e', l2. rewrite <- app_assoc, <- reported_nums_cons in H.
    simpl. split_and!; [done | lia | done].
  - by rewrite <- app_assoc, <- reported_nums_cons in H.
Qed.

Lemma ack_loop_spec l i b nums c0 c :
  mem_only c0 c ->
  build_ok b nums -> zlen (ab_blks b) < NGTCP2_MAX_ACK_BLKS -> decreasing ae_pkt_num l ->
  Forall (fun e => 0 <= ae_pkt_num e < ab_last_pkt_num b) l ->
  wp (ack_loop unprotected l i b) (fun r c' => mem_only c0 c' /\ loop_done nums l i r)
    (no_memory c0) c.
Proof.
  unfold NGTCP2_MAX_ACK_BLKS. revert i b nums c.
  induction l as [|e l IH]; intros i b nums c Hc Hb Hblks Hd Hl; simpl.
  { wp_go. unfold loop_done, NGTCP2_MAX_ACK_BLKS. simpl. rewrite app_nil_r. split_and!; [done | lia | done]. }
  apply decreasing_inv in Hd as [Hd Hlt]. apply list.Forall_cons in Hl as [He Hl].
  pose proof (bo_order _ _ _ Hb) as Hord.
  (* the rest of the loop, for a packet that is skipped or joins the frame *)
  assert (Hgo : forall b' c1, mem_only c0 c1 -> build_ok b' (nums ++ reported_nums [e]) ->
    zlen (ab_blks b') < 255 -> ae_pkt_num e <= ab_last_pkt_num b' ->
    wp (ack_loop unprotected l (S i) b') (fun r c' => mem_only c0 c' /\ loop_done nums (e :: l) i r)
      (no_memory c0) c1).
  { intros b' c1 Hc1 Hb' Hz Hle. eapply wp_mono; [apply (IH (S i) b' _ c1 Hc1 Hb' Hz Hd) | | done].
    - rewrite Forall_forall in Hl, Hlt |- *. intros x Hx. specialize (Hl x Hx). specialize (Hlt x Hx). lia.
    - intros r c' [Hm H]. split; [done | by apply loop_done_cons]. }
  assert (Hone : reported_nums [e] = if reported e then [ae_pkt_num e] else []).
  { unfold reported_nums. simpl. rewrite filter_cons. by destruct (reported e). }
  destruct (unprotected && negb (ae_unprotected e)) eqn:Hskip.
  { apply Hgo; [done | | done | lia]. rewrite Hone. unfold reported.
    destruct unprotected, (ae_unprotected e); try done. simpl. by rewrite app_nil_r. }
  assert (reported e = true) as Hrep by (unfold reported; destruct unprotected, (ae_unprotected e); done).
  rewrite Hrep in Hone. rewrite Hone in Hgo.
  rewrite u64_small by clia. destruct (Z.eqb_spec (ae_pkt_num e + 1) (ab_last_pkt_num b)) as [Heq|Hne].
  { apply Hgo; [done | | simpl; lia | simpl; lia].
    replace (ae_pkt_num e) with (ab_last_pkt_num b - 1) by lia. apply build_extend; [done | lia]. }
  wp_go. apply (ack_flush_spec 0 b nums); [done | lia | | eauto using no_memory_after].
  intros max c1 fr Hc1 Hroom H8. cbn [ab_last_pkt_num ab_first_ack_blklen ab_blks ab_num_blks_max].
  assert (mem_only c0 c1) as Hc01 by (by etrans).
  rewrite u64_small by clia.
  pose proof (build_open 0 b nums (ae_pkt_num e) max Hb ltac:(lia) Hroom H8) as Hopen. fold fr in Hopen.
  assert (Hfr : zlen (ack_blks fr) <= 255) by (unfold fr, finished; destruct (ab_gap b); simpl; zlia).
  change NGTCP2_MAX_ACK_BLKS with 255.
  destruct (Z.eqb_spec (zlen (ack_blks fr)) 255); [|apply Hgo; simpl; done || lia].
  wp_go. split; [done|]. unfold loop_done, NGTCP2_MAX_ACK_BLKS. simpl. split_and!; try done.
  exists [], e, l. simpl. rewrite Hone. split_and!; done || lia.
Qed.
End Loop.

Lemma skip_protected_spec l i :
  exists l1 l2, l = l1 ++ l2 /\ skip_protected l i = ((i + length l1)%nat, l2) /\
    Forall (fun e => ae_unprotected e = false) l1 /\
    match l2 with [] => True | e :: _ => ae_unprotected e = true end.
Proof.
  revert i. induction l as [|e l IH]; intros i; simpl.
  { exists [], []. simpl. by rewrite Nat.add_0_r. }
  destruct (ae_unprotected e) eqn:He.
  { exists [], (e :: l). simpl. by rewrite Nat.add_0_r. }
  destruct (IH (S i)) as (l1 & l2 & -> & -> & H1 & H2). exists (e :: l1), l2.
  simpl. rewrite <- Nat.add_succ_r. auto.
Qed.

(** The first packet of the frame, and the packets before it, which are not reported. *)
Lemma first_reported unprotected l :
  let '(i, l') := if (unprotected : bool) then skip_protected l 0 else (0%nat, l) in
  exists l1, l = l1 ++ l' /\ i = length l1 /\ reported_nums unprotected l1 = [] /\
    match l' with [] => True | e :: _ => reported unprotected e = true end.
Proof.
  destruct unprotected; [|exists []; by destruct l].
  destruct (skip_protected_spec l 0) as (l1 & l2 & -> & -> & H1 & H2). exists l1. split_and!; try done.
  unfold reported_nums. induction H1 as [|e l1 He _ IH]; [done|].
  rewrite filter_cons_False; [apply IH|]. unfold reported. by rewrite He.
Qed.

Lemma decreasing_app_r {B} (pn : B -> Z) k l : decreasing pn (k ++ l) -> decreasing pn l.
Proof. induction k as [|e k IH]; [done|]. intros [H _]%decreasing_inv. auto. Qed.

(** What an ACK frame reports, and what stays in the tracker: [acked] is the part
    of the packets the frame covers. *)
Definition ack_frame_of {A} (unprotected : bool) (c c' : ngtcp2_conn A) (fr : ngtcp2_ack) : Prop :=
  valid_ack fr /\ zlen (ack_blks fr) <= NGTCP2_MAX_ACK_BLKS + 1 /\
  exists acked rest, ent (conn_acktr c) = acked ++ rest /\
    (forall x, acked_by fr x = true <-> exists e, e ∈ acked /\ reported unprotected e = true /\ ae_pkt_num e = x) /\
    (rest = [] /\ conn_acktr c' = conn_acktr c \/
     zlen (ack_blks fr) = NGTCP2_MAX_ACK_BLKS + 1 /\
     exists k e, acked = k ++ [e] /\ conn_acktr c' = ngtcp2_acktr_forget (conn_acktr c) (length k)).

Lemma elem_of_reported unprotected l x :
  x ∈ reported_nums unprotected l <-> exists e, e ∈ l /\ reported unprotected e = true /\ ae_pkt_num e = x.
Proof.
  unfold reported_nums. rewrite list_elem_of_fmap. setoid_rewrite list_elem_of_filter. naive_solver.
Qed.

(** The frame the loop has built, from the packet [e] on. *)
Lemma loop_frame {A} unprotected (c c' : ngtcp2_conn A) delay l1 e l b stop :
  ent (conn_acktr c) = l1 ++ e :: l ->
  reported_nums unprotected l1 = [] -> reported_nums unprotected [e] = [ae_pkt_num e] ->
  loop_done (ae_pkt_num e) unprotected [ae_pkt_num e] l (S (length l1)) (b, stop) ->
  conn_acktr c' = match stop with
                  | None => conn_acktr c
                  | Some j => ngtcp2_acktr_forget (conn_acktr c) j
                  end ->
  ack_frame_of unprotected c c' (finished (ae_pkt_num e) delay b).
Proof.
  intros Hent Hnone Hone [Hz H] Hc'. set (fr := finished _ _ _). simpl in Hz.
  assert (Hfr : zlen (ack_blks fr) <= NGTCP2_MAX_ACK_BLKS + 1 /\
    (ab_gap b <> None -> zlen (ack_blks fr) = zlen (ab_blks b) + 1))
    by (unfold fr, finished; destruct (ab_gap b); simpl; zfacts;
        rewrite ?zlen_app, ?zlen_cons, ?zlen_nil; naive_solver lia).
  assert (Hmem : forall k nums x, build_ok (ae_pkt_num e) b ([ae_pkt_num e] ++ reported_nums unprotected k) ->
    nums = l1 ++ e :: k ->
    acked_by fr x = true <-> exists e, e ∈ nums /\ reported unprotected e = true /\ ae_pkt_num e = x).
  { intros k nums x Hb ->. unfold fr. rewrite (finished_members _ _ _ _ x Hb), <- elem_of_reported.
    by rewrite (reported_nums_app _ l1), Hnone, (reported_nums_cons _ e), Hone. }
  destruct stop as [j|]; simpl in H.
  - destruct H as (Hz255 & Hgap & k & e' & k2 & -> & -> & Hb).
    split; [by eapply finished_valid|]. split; [apply Hfr|].
    exists (l1 ++ e :: k ++ [e']), k2. split; [|split; [intros x; exact (Hmem _ _ x Hb eq_refl)|]].
    + rewrite Hent, <- app_assoc. simpl. by rewrite <- app_assoc.
    + right. split; [rewrite (proj2 Hfr Hgap); lia|]. exists (l1 ++ e :: k), e'. split.
      * by rewrite <- app_assoc.
      * rewrite Hc', length_app. simpl. by rewrite <- Nat.add_succ_comm.
  - split; [by eapply finished_valid|]. split; [apply Hfr|]. exists (l1 ++ e :: l), [].
    split; [by rewrite Hent, app_nil_r|]. split; [intros x; exact (Hmem _ _ x H eq_refl) | by left].
Qed.

Lemma create_ack_frame_spec {A} (c : ngtcp2_conn A) al ts unprotected :
  wf_acktr (conn_acktr c) al -> Forall (fun e => is_uint 62 (ae_pkt_num e)) (ent (conn_acktr c)) ->
  wp (conn_create_ack_frame ts unprotected)
    (fun r c' => match r with
      | None => conn_acktr c' = conn_acktr c /\
          (active_ack (conn_acktr c) = false \/ reported_nums unprotected (ent (conn_acktr c)) = [])
      | Some fr => active_ack (conn_acktr c) = true /\ ack_frame_of unprotected c c' fr /\
          (exists e, e ∈ ent (conn_acktr c) /\
            ack_ack_delay fr = u64 (ts - ae_tstamp e) .>> s_ack_delay_exponent (conn_local_settings c)) /\
          exists c1, mem_only c c1 /\ c' = set_conn_acktr (conn_acktr c') c1
      end)
    (no_memory c) c.
Proof.
  intros (_ & _ & _ & Hd & _) Hnum. unfold conn_create_ack_frame. wp_go.
  destruct (active_ack (conn_acktr c)) eqn:Hact; simpl; [|unfold conn_invalidate_next_ack_expiry; wp_go; simpl; auto].
  pose proof (first_reported unprotected (ent (conn_acktr c))) as Hfirst.
  destruct (if unprotected then _ else _) as [i l'] in Hfirst |- *.
  destruct Hfirst as (l1 & Hent & -> & Hnone & Hrep). rewrite Hent in Hd, Hnum.
  apply decreasing_app_r in Hd. apply Forall_app in Hnum as [_ Hnum].
  destruct l' as [|e l].
  { wp_go. split; [done|]. right. by rewrite Hent, app_nil_r. }
  apply decreasing_inv in Hd as [Hd Hlt]. apply list.Forall_cons in Hnum as [He Hnum].
  wp_go. apply wp_malloc; intros c0 Hc0; [|done]. wp_go.
  assert (reported_nums unprotected [e] = [ae_pkt_num e]) as Hone.
  { unfold reported_nums. rewrite filter_cons_True by done. done. }
  eapply wp_mono; [apply (ack_loop_spec (ae_pkt_num e) unprotected l (S (length l1)) _ [ae_pkt_num e] c);
    [done | | done | done |] | |eauto using no_memory_after].
  { by apply build_init. }
  { rewrite Forall_forall in Hnum, Hlt |- *. intros x Hx. specialize (Hnum x Hx). specialize (Hlt x Hx).
    simpl in *. clia. }
  intros [b stop] c1 [Hc1 Hdone]. wp_go.
  assert (exists nums, build_ok (ae_pkt_num e) b nums) as [nums Hb] by (destruct Hdone as [_ H]; destruct stop; naive_solver).
  set (delay := Z.shiftr _ _).
  apply (ack_flush_spec (ae_pkt_num e) delay b nums);
    [done | destruct Hdone as [Hz _]; unfold NGTCP2_MAX_ACK_BLKS in Hz; simpl in Hz; lia |
     | eauto using no_memory_after].
  intros max c2 fr Hc2 _ _. cbn [ab_first_ack_blklen ab_blks].
  assert (Hmem : mem_only c c2) by (by etrans). destruct Hmem as (m & -> & Hm).
  assert (mk_ack (ae_pkt_num e) delay (ack_first_ack_blklen fr) (ack_blks fr) = fr) as ->
    by (unfold fr, finished; by destruct (ab_gap b)).
  assert (Hin : e ∈ ent (conn_acktr c)) by (rewrite Hent; apply elem_of_app; right; by left).
  assert (Hdelay : ack_ack_delay fr = delay) by (unfold fr, finished; by destruct (ab_gap b)).
  destruct stop as [j|]; wp_go; (split; [done|]); (split; [by eapply loop_frame|]);
    (split; [by exists e|]); exists (set_conn_mem m c); (split; [by exists m | done]).
Qed.

(** ** Properties *)

(** C13. The ACK frame built for a connection passes the validation of a receiver,
    and acknowledges exactly the packets of the tracker it has looked at, the
    protected ones apart when it goes into an unprotected packet. These are all
    tracked packets, unless the frame is full: then the packets not looked at, and
    the last one reported, are forgotten. No frame is built exactly when no
    acknowledgement is due or there is no packet to report; a failed allocation
    leaves the tracker alone. *)
Theorem ack_frame_exact {A} (c : ngtcp2_conn A) al ts unprotected :
  wf_acktr (conn_acktr c) al -> Forall (fun e => is_uint 62 (ae_pkt_num e)) (ent (conn_acktr c)) ->
  wp (conn_create_ack_frame ts unprotected)
    (fun r c' => match r with
      | None => conn_acktr c' = conn_acktr c /\
          (active_ack (conn_acktr c) = false \/ reported_nums unprotected (ent (conn_acktr c)) = [])
      | Some fr => active_ack (conn_acktr c) = true /\ ack_frame_of unprotected c c' fr
      end)
    (fun e c' => e = NGTCP2_ERR_NOMEM /\ conn_acktr c' = conn_acktr c) c.
Proof.
  intros Hwf Hnum. eapply wp_mono; [by eapply create_ack_frame_spec | |].
  - intros [fr|] c'; tauto.
  - intros e c' (-> & _ & m & -> & _). done.
Qed.

(** A server that has received the packets 9, 8 and 5. *)
Definition example_ack_conn : ngtcp2_conn unit :=
  set_conn_acktr
    (mk_acktr (mk_ringbuf (replicate 128 None) 128 24 0 0)
       [mk_acktr_entry 9 7 false; mk_acktr_entry 8 6 true; mk_acktr_entry 5 3 false] 3 true)
    (zero_conn [] NGTCP2_PROTO_VER_D8 tt true).

Lemma ack_frame_exact_witness :
  exists c', conn_create_ack_frame 10 false example_ack_conn =
      ret (Some (mk_ack 9 3 1 [mk_ack_blk 1 0])) c' /\
    ack_frame_of false example_ack_conn c' (mk_ack 9 3 1 [mk_ack_blk 1 0]).
Proof.
  eexists. split; [reflexivity|]. refine (proj2 (ack_frame_exact example_ack_conn [] 10 false _ _)).
  - unfold wf_acktr, decreasing. split_and!; try done; [|constructor|repeat constructor; done].
    unfold rb_repr. split_and!; try done. by exists 7.
  - repeat constructor; done.
Defined.
