(* ===== verification/ConnApp.v ===== *)
(** The application: the callbacks of [ngtcp2_conn_callbacks] and the functions
    of [ngtcp2_conn.c] that call them.

    A callback may call back into the connection. What it does is a program of
    calls of the API that are not themselves driven by the callbacks: setting
    keys and parameters, opening and shutting streams, extending flow control.
    After each call it sees the return value and the connection. Writing and
    receiving packets from within a callback is not part of the model. *)

From S2P Require Import Prelude Conv Frame PktDecode PktHd Mem Monad Range Gaptr Idtr Acktr Pq.
From S2P Require Import Rtb Map Rob Crypto Ppe Strm Conn.

(** ** Programs of API calls *)

Inductive api_call :=
| api_handshake_completed
| api_early_data_rejected
| api_set_aead_overhead (aead_overhead : Z)
| api_set_handshake_tx_keys (key iv : bytes)
| api_set_handshake_rx_keys (key iv : bytes)
| api_update_early_keys (key iv : bytes)
| api_update_tx_keys (key iv : bytes)
| api_update_rx_keys (key iv : bytes)
| api_set_remote_transport_params (exttype : Z) (params : ngtcp2_transport_params)
| api_set_early_remote_transport_params (params : ngtcp2_transport_params)
| api_get_local_transport_params (v : params_v) (exttype : Z)
| api_open_bidi_stream (stream_user_data : Z)
| api_open_uni_stream (stream_user_data : Z)
| api_shutdown_stream (stream_id app_error_code : Z)
| api_shutdown_stream_write (stream_id app_error_code : Z)
| api_shutdown_stream_read (stream_id app_error_code : Z)
| api_extend_max_stream_offset (stream_id datalen : Z)
| api_extend_max_offset (datalen : Z).

(** The program ends with [r], or makes a call and goes on with its return
    value and the connection after it. *)
Inductive prog (A R : Type) :=
| p_ret (r : R)
| p_call (call : api_call) (k : Z -> ngtcp2_conn A -> prog A R).
Arguments p_ret {A R}.
Arguments p_call {A R}.

(** ** Callbacks

    Those the library tests for NULL are optional. [pkt_num] and [payload] of the
    handshake callbacks are what they store through their pointers; a payload
    [None] is a negative return value. The AEAD is a function of its input:
    [encrypt] as in the packet encoder, [decrypt] with the space for the
    plaintext, the ciphertext, the key, the nonce and the associated data, and a
    negative return value as [inr]. An [ngtcp2_pkt_stateless_reset] is [rand] and
    the token. *)
Record ngtcp2_conn_callbacks (A : Type) := mk_callbacks {
  cb_send_client_initial : ngtcp2_conn A -> bool -> prog A (A * Z * option bytes);
  cb_send_client_handshake : ngtcp2_conn A -> prog A (A * option bytes);
  cb_recv_client_initial : option (ngtcp2_conn A -> Z -> prog A (A * Z));
  cb_send_server_handshake : ngtcp2_conn A -> bool -> prog A (A * Z * option bytes);
  cb_recv_stream0_data : ngtcp2_conn A -> bytes -> prog A (A * Z);
  cb_send_pkt : option (ngtcp2_conn A -> ngtcp2_pkt_hd -> prog A (A * Z));
  cb_send_frame : option (ngtcp2_conn A -> ngtcp2_pkt_hd * ngtcp2_frame -> prog A (A * Z));
  cb_recv_pkt : option (ngtcp2_conn A -> ngtcp2_pkt_hd -> prog A (A * Z));
  cb_recv_frame : option (ngtcp2_conn A -> ngtcp2_pkt_hd * ngtcp2_frame -> prog A (A * Z));
  cb_handshake_completed : option (ngtcp2_conn A -> unit -> prog A (A * Z));
  cb_recv_version_negotiation : option (ngtcp2_conn A -> ngtcp2_pkt_hd * list Z -> prog A (A * Z));
  cb_hs_encrypt : Z -> bytes -> bytes -> bytes -> bytes -> option bytes;
  cb_hs_decrypt : Z -> bytes -> bytes -> bytes -> bytes -> bytes + Z;
  cb_encrypt : Z -> bytes -> bytes -> bytes -> bytes -> option bytes;
  cb_decrypt : Z -> bytes -> bytes -> bytes -> bytes -> bytes + Z;
  cb_recv_stream_data : option (ngtcp2_conn A -> Z * bool * bytes * Z -> prog A (A * Z));
  cb_acked_stream_data_offset : option (ngtcp2_conn A -> Z * Z * Z * Z -> prog A (A * Z));
  cb_stream_close : option (ngtcp2_conn A -> Z * Z * Z -> prog A (A * Z));
  cb_recv_stateless_reset : option (ngtcp2_conn A -> ngtcp2_pkt_hd * (bytes * bytes) -> prog A (A * Z));
  cb_recv_server_stateless_retry : option (ngtcp2_conn A -> unit -> prog A (A * Z));
  cb_extend_max_stream_id : option (ngtcp2_conn A -> Z -> prog A (A * Z))
}.
Arguments mk_callbacks {A}.
Arguments cb_send_client_initial {A}.
Arguments cb_send_client_handshake {A}.
Arguments cb_recv_client_initial {A}.
Arguments cb_send_server_handshake {A}.
Arguments cb_recv_stream0_data {A}.
Arguments cb_send_pkt {A}.
Arguments cb_send_frame {A}.
Arguments cb_recv_pkt {A}.
Arguments cb_recv_frame {A}.
Arguments cb_handshake_completed {A}.
Arguments cb_recv_version_negotiation {A}.
Arguments cb_hs_encrypt {A}.
Arguments cb_hs_decrypt {A}.
Arguments cb_encrypt {A}.
Arguments cb_decrypt {A}.
Arguments cb_recv_stream_data {A}.
Arguments cb_acked_stream_data_offset {A}.
Arguments cb_stream_close {A}.
Arguments cb_recv_stateless_reset {A}.
Arguments cb_recv_server_stateless_retry {A}.
Arguments cb_extend_max_stream_id {A}.

Section Api.
Context {A : Type}.
Abbreviation conn := (ngtcp2_conn A).
Abbreviation M := (M (ngtcp2_conn A)).

(** The arguments are converted to the types of the parameters. *)
Definition run_call (call : api_call) : M unit :=
  match call with
  | api_handshake_completed => ngtcp2_conn_handshake_completed
  | api_early_data_rejected => ngtcp2_conn_early_data_rejected
  | api_set_aead_overhead n => ngtcp2_conn_set_aead_overhead (u64 n)
  | api_set_handshake_tx_keys key iv => ngtcp2_conn_set_handshake_tx_keys key iv
  | api_set_handshake_rx_keys key iv => ngtcp2_conn_set_handshake_rx_keys key iv
  | api_update_early_keys key iv => ngtcp2_conn_update_early_keys key iv
  | api_update_tx_keys key iv => ngtcp2_conn_update_tx_keys key iv
  | api_update_rx_keys key iv => ngtcp2_conn_update_rx_keys key iv
  | api_set_remote_transport_params exttype params => ngtcp2_conn_set_remote_transport_params exttype params
  | api_set_early_remote_transport_params params => ngtcp2_conn_set_early_remote_transport_params params
  | api_get_local_transport_params v exttype => ngtcp2_conn_get_local_transport_params v exttype;; mret tt
  | api_open_bidi_stream ud => ngtcp2_conn_open_bidi_stream ud;; mret tt
  | api_open_uni_stream ud => ngtcp2_conn_open_uni_stream ud;; mret tt
  | api_shutdown_stream id code => ngtcp2_conn_shutdown_stream (u64 id) (u16 code)
  | api_shutdown_stream_write id code => ngtcp2_conn_shutdown_stream_write (u64 id) (u16 code)
  | api_shutdown_stream_read id code => ngtcp2_conn_shutdown_stream_read (u64 id) (u16 code)
  | api_extend_max_stream_offset id n => ngtcp2_conn_extend_max_stream_offset (u64 id) (u64 n)
  | api_extend_max_offset n => ngtcp2_conn_extend_max_offset (u64 n)
  end.

Fixpoint run_prog {R} (p : prog A R) : M R :=
  match p with
  | p_ret r => mret r
  | p_call call k => rv ← status (run_call call); c ← get; run_prog (k rv c)
  end.

(** A callback that returns an [int]. *)
Definition invoke {X} (cb : conn -> X -> prog A (A * Z)) (x : X) : M Z :=
  c ← get;
  '(user_data, rv) ← run_prog (cb c x);
  modify (set_conn_user_data user_data);;
  mret rv.

(** An optional callback, any nonzero result of which is a failure. *)
Definition conn_call {X} (cb : option (conn -> X -> prog A (A * Z))) (x : X) : M unit :=
  match cb with
  | None => mret tt
  | Some cb => rv ← invoke cb x; throw_if (negb (rv =? 0)) NGTCP2_ERR_CALLBACK_FAILURE
  end.
End Api.

Section Callbacks.
Context {A : Type} (cb : ngtcp2_conn_callbacks A).
Abbreviation conn := (ngtcp2_conn A).
Abbreviation M := (M (ngtcp2_conn A)).

Definition conn_call_recv_client_initial : M unit :=
  assert_ (bool_decide (is_Some (cb_recv_client_initial cb)));;
  c ← get;
  conn_call (cb_recv_client_initial cb) (conn_client_conn_id c).

Definition conn_call_recv_pkt (hd : ngtcp2_pkt_hd) : M unit := conn_call (cb_recv_pkt cb) hd.
Definition conn_call_recv_frame (hd : ngtcp2_pkt_hd) (fr : ngtcp2_frame) : M unit :=
  conn_call (cb_recv_frame cb) (hd, fr).
Definition conn_call_send_pkt (hd : ngtcp2_pkt_hd) : M unit := conn_call (cb_send_pkt cb) hd.
Definition conn_call_send_frame (hd : ngtcp2_pkt_hd) (fr : ngtcp2_frame) : M unit :=
  conn_call (cb_send_frame cb) (hd, fr).
Definition conn_call_handshake_completed : M unit := conn_call (cb_handshake_completed cb) tt.

Definition conn_call_recv_stream_data (p : positive) (fin : bool) (data : bytes) : M unit :=
  strm ← load_strm p;
  conn_call (cb_recv_stream_data cb) (strm_stream_id strm, fin, data, strm_stream_user_data strm).

Definition conn_call_recv_stream0_data (data : bytes) : M unit :=
  rv ← invoke (cb_recv_stream0_data cb) data;
  if (rv =? 0) || (rv =? NGTCP2_ERR_TLS_HANDSHAKE) || (rv =? NGTCP2_ERR_TLS_FATAL_ALERT_GENERATED) ||
     (rv =? NGTCP2_ERR_TLS_FATAL_ALERT_RECEIVED) || (rv =? NGTCP2_ERR_CALLBACK_FAILURE)
  then check rv
  else throw NGTCP2_ERR_CALLBACK_FAILURE.

Definition conn_call_stream_close (p : positive) (app_error_code : Z) : M unit :=
  strm ← load_strm p;
  conn_call (cb_stream_close cb) (strm_stream_id strm, app_error_code, strm_stream_user_data strm).

Definition conn_call_extend_max_stream_id (max_stream_id : Z) : M unit :=
  conn_call (cb_extend_max_stream_id cb) max_stream_id.

(** ** Closing streams *)

(** The condition; the window start, whose pointer the code increments, stays. *)
Definition handle_remote_stream_id_extension (unsent_max_remote_stream_id window_start : Z)
    (idtr : ngtcp2_idtr) : Z :=
  if (unsent_max_remote_stream_id <=? NGTCP2_MAX_VARINT - 4) && (window_start <? ngtcp2_idtr_first_gap idtr)
  then u64 (unsent_max_remote_stream_id + 4) else unsent_max_remote_stream_id.

Definition conn_extend_remote_stream_id (stream_id : Z) : M unit :=
  c ← get;
  if conn_local_stream c stream_id then mret tt
  else if bidi_stream stream_id then
    modify (set_conn_unsent_max_remote_stream_id_bidi
      (handle_remote_stream_id_extension (conn_unsent_max_remote_stream_id_bidi c)
         (conn_remote_stream_id_bidi_window_start c) (conn_remote_bidi_idtr c)))
  else
    modify (set_conn_unsent_max_remote_stream_id_uni
      (handle_remote_stream_id_extension (conn_unsent_max_remote_stream_id_uni c)
         (conn_remote_stream_id_uni_window_start c) (conn_remote_uni_idtr c))).

Definition ngtcp2_conn_close_stream (p : positive) (app_error_code : Z) : M unit :=
  strm ← load_strm p;
  let app_error_code :=
    if strm_app_error_code strm =? 0 then strm_app_error_code strm else app_error_code in
  conn_strms_remove (strm_me strm);;
  conn_call_stream_close p app_error_code;;
  strm ← load_strm p;
  conn_extend_remote_stream_id (strm_stream_id strm);;
  conn_fc_unlink p;;
  free_strm p;;
  conn_immediate_ack_.

(** Both directions are shut; all data has been delivered or the stream was
    reset by the peer; all data has been acknowledged or the stream was reset. *)
Definition strm_finished (strm : ngtcp2_strm Z) : bool :=
  (strm_flags strm .& NGTCP2_STRM_FLAG_SHUT_RDWR =? NGTCP2_STRM_FLAG_SHUT_RDWR) &&
  (has_bit (strm_flags strm) NGTCP2_STRM_FLAG_RECV_RST ||
   (ngtcp2_rob_first_gap_offset (strm_rob strm) =? strm_last_rx_offset strm)) &&
  (has_bit (strm_flags strm) NGTCP2_STRM_FLAG_SENT_RST ||
   (ngtcp2_gaptr_first_gap_offset (strm_acked_tx_offset strm) =? strm_tx_offset strm)).

Definition ngtcp2_conn_close_stream_if_shut_rdwr (p : positive) (app_error_code : Z) : M unit :=
  strm ← load_strm p;
  if strm_finished strm then ngtcp2_conn_close_stream p app_error_code else mret tt.

(** ** Received stream data *)

(** The loops end when no data is left before the first gap. Every iteration
    but the last two empties a chunk, so one more than the number of chunks
    suffices. *)
Fixpoint emit_loop (fuel : nat) (p : positive) (rx_offset : Z) : M unit :=
  match fuel with
  | O => undefined
  | S fuel =>
      strm ← load_strm p;
      '(datalen, bs) ← lift (ngtcp2_rob_data_at (strm_rob strm) rx_offset);
      if datalen =? 0 then assert_ (rx_offset =? ngtcp2_strm_rx_offset strm)
      else
        let rx_offset := u64 (rx_offset + datalen) in
        data ← lift (load_bytes bs);
        conn_call_recv_stream_data p (strm_fin strm rx_offset) data;;
        strm ← load_strm p;
        rob ← lift (ngtcp2_rob_pop (strm_rob strm) (u64 (rx_offset - datalen)) datalen);
        store_strm p (set_rob strm rob);;
        emit_loop fuel p rx_offset
  end.

Definition conn_emit_pending_stream_data (p : positive) (rx_offset : Z) : M unit :=
  strm ← load_strm p;
  emit_loop (S (length (rob_data (strm_rob strm)))) p rx_offset.

Fixpoint emit0_loop (fuel : nat) (p : positive) (rx_offset : Z) : M unit :=
  match fuel with
  | O => undefined
  | S fuel =>
      strm ← load_strm p;
      '(datalen, bs) ← lift (ngtcp2_rob_data_at (strm_rob strm) rx_offset);
      if datalen =? 0 then assert_ (rx_offset =? ngtcp2_strm_rx_offset strm)
      else
        let rx_offset := u64 (rx_offset + datalen) in
        data ← lift (load_bytes bs);
        conn_call_recv_stream0_data data;;
        update_strm p (fun strm =>
          set_unsent_max_rx_offset strm (u64 (strm_unsent_max_rx_offset strm + datalen)));;
        conn_extend_max_stream_offset p datalen;;
        strm ← load_strm p;
        rob ← lift (ngtcp2_rob_pop (strm_rob strm) (u64 (rx_offset - datalen)) datalen);
        store_strm p (set_rob strm rob);;
        emit0_loop fuel p rx_offset
  end.

Definition conn_emit_pending_stream0_data (p : positive) (rx_offset : Z) : M unit :=
  strm ← load_strm p;
  emit0_loop (S (length (rob_data (strm_rob strm)))) p rx_offset.

(** [rv = ngtcp2_strm_recv_reordering(strm, fr); if (rv != 0) return rv;] *)
Definition conn_recv_reordering (p : positive) (fr : ngtcp2_stream) : M unit :=
  strm ← load_strm p;
  c ← get;
  '(strm, rv, m) ← lift (ngtcp2_strm_recv_reordering (conn_mem c) strm fr);
  modify (set_conn_mem m);;
  store_strm p strm;;
  check rv.

(** The new data of a frame that starts at or before [rx_offset]: the bytes, and
    the offset after them; the prefix of the buffer they replace is dropped. *)
Definition conn_cut_frame (p : positive) (fr : ngtcp2_stream) (rx_offset : Z) : M (bytes * Z) :=
  let ncut := u64 (rx_offset - stream_offset fr) in
  data ← lift (adv ncut (stream_data fr));
  let datalen := u64 (zlen (stream_data fr) - ncut) in
  let rx_offset := u64 (rx_offset + datalen) in
  update_strm p (fun strm => set_rob strm (ngtcp2_rob_remove_prefix (strm_rob strm) rx_offset));;
  mret (data, rx_offset).

(** The last part of [conn_recv_stream]: the frame has new data. *)
Definition conn_recv_stream_data (p : positive) (fr : ngtcp2_stream) (rx_offset : Z) : M unit :=
  (if stream_offset fr <=? rx_offset then
     '(data, rx_offset) ← conn_cut_frame p fr rx_offset;
     strm ← load_strm p;
     if strm_stream_id strm =? 0 then
       conn_call_recv_stream0_data data;;
       c ← get;
       conn_emit_pending_stream0_data (conn_strm0 c) rx_offset
     else
       conn_call_recv_stream_data p (strm_fin strm rx_offset) data;;
       conn_emit_pending_stream_data p rx_offset
   else conn_recv_reordering p fr);;
  ngtcp2_conn_close_stream_if_shut_rdwr p NGTCP2_NO_ERROR.

(** [strm] for [fr->stream_id]; [None] when the stream has been closed. *)
Definition conn_stream_for_frame (stream_id : Z) : M (option positive) :=
  strm ← ngtcp2_conn_find_stream stream_id;
  match strm with
  | Some p => mret (Some p)
  | None =>
      c ← get;
      if conn_local_stream c stream_id then mret None
      else
        rv ← conn_idtr_open stream_id;
        if rv =? NGTCP2_ERR_STREAM_IN_USE then mret None
        else assert_ (rv =? 0);; Some <$> conn_new_remote_stream stream_id
  end.

(** Stream and connection flow control. *)
Definition conn_recv_stream_fc (p : positive) (fr_end_offset : Z) : M unit :=
  strm ← load_strm p;
  throw_if (strm_max_rx_offset strm <? fr_end_offset) NGTCP2_ERR_FLOW_CONTROL;;
  if (strm_last_rx_offset strm <? fr_end_offset) && negb (strm_stream_id strm =? 0) then
    let datalen := u64 (fr_end_offset - strm_last_rx_offset strm) in
    c ← get;
    throw_if (conn_max_data_violated c datalen) NGTCP2_ERR_FLOW_CONTROL;;
    modify (set_conn_rx_offset (u64 (conn_rx_offset c + datalen)))
  else mret tt.

(** The part of [conn_recv_stream] for a frame with FIN, once the stream [strm] at
    [p] has been loaded. *)
Definition conn_recv_stream_fin (p : positive) (fr : ngtcp2_stream) (fr_end_offset : Z)
    (strm : ngtcp2_strm Z) : M unit :=
  if has_bit (strm_flags strm) NGTCP2_STRM_FLAG_SHUT_RD then
    throw_if (negb (strm_last_rx_offset strm =? fr_end_offset)) NGTCP2_ERR_FINAL_OFFSET
  else
    throw_if (fr_end_offset <? strm_last_rx_offset strm) NGTCP2_ERR_FINAL_OFFSET;;
    let strm := ngtcp2_strm_shutdown (set_last_rx_offset strm fr_end_offset) NGTCP2_STRM_FLAG_SHUT_RD in
    store_strm p strm;;
    if has_bit (strm_flags strm) NGTCP2_STRM_FLAG_STOP_SENDING then
      ngtcp2_conn_close_stream_if_shut_rdwr p (strm_app_error_code strm)
    else
      conn_fc_unlink p;;
      let rx_offset := ngtcp2_strm_rx_offset strm in
      if fr_end_offset =? rx_offset then
        conn_call_recv_stream_data p true [];;
        ngtcp2_conn_close_stream_if_shut_rdwr p NGTCP2_NO_ERROR
      else conn_recv_stream_data p fr rx_offset.

(** The part for a frame without FIN. *)
Definition conn_recv_stream_nofin (p : positive) (fr : ngtcp2_stream) (fr_end_offset : Z)
    (strm : ngtcp2_strm Z) : M unit :=
  throw_if (has_bit (strm_flags strm) NGTCP2_STRM_FLAG_SHUT_RD &&
            (strm_last_rx_offset strm <? fr_end_offset)) NGTCP2_ERR_FINAL_OFFSET;;
  store_strm p (set_last_rx_offset strm (Z.max (strm_last_rx_offset strm) fr_end_offset));;
  let rx_offset := ngtcp2_strm_rx_offset strm in
  if fr_end_offset <=? rx_offset then mret tt
  else if has_bit (strm_flags strm) NGTCP2_STRM_FLAG_STOP_SENDING then mret tt
  else conn_recv_stream_data p fr rx_offset.

Definition conn_recv_stream (fr : ngtcp2_stream) : M unit :=
  let stream_id := stream_stream_id fr in
  let datalen := zlen (stream_data fr) in
  let fin := negb (stream_fin fr =? 0) in
  throw_if ((stream_id =? 0) && fin) NGTCP2_ERR_PROTO;;
  throw_if (negb fin && (datalen =? 0)) NGTCP2_ERR_FRAME_FORMAT;;
  conn_check_stream_id stream_id;;
  c ← get;
  throw_if (negb (bidi_stream stream_id) && conn_local_stream c stream_id &&
            negb (u64 (stream_offset fr + datalen) =? 0)) NGTCP2_ERR_FINAL_OFFSET;;
  throw_if (u64 (NGTCP2_MAX_VARINT - datalen) <? stream_offset fr) NGTCP2_ERR_PROTO;;
  strm ← conn_stream_for_frame stream_id;
  match strm with
  | None => mret tt
  | Some p =>
      let fr_end_offset := u64 (stream_offset fr + datalen) in
      conn_recv_stream_fc p fr_end_offset;;
      strm ← load_strm p;
      if fin then conn_recv_stream_fin p fr fr_end_offset strm
      else conn_recv_stream_nofin p fr fr_end_offset strm
  end.

(** ** Other frames *)

Definition conn_recv_rst_stream (fr : ngtcp2_rst_stream) : M unit :=
  let stream_id := rst_stream_id fr in
  let final_offset := rst_final_offset fr in
  throw_if (stream_id =? 0) NGTCP2_ERR_PROTO;;
  conn_check_stream_id stream_id;;
  c ← get;
  strm ← ngtcp2_conn_find_stream stream_id;
  match strm with
  | None =>
      if conn_local_stream c stream_id then
        throw_if (negb (bidi_stream stream_id) && negb (final_offset =? 0)) NGTCP2_ERR_FINAL_OFFSET
      else
        is_open ← conn_idtr_is_open stream_id;
        if (is_open : bool) then mret tt
        else
          throw_if ((s_max_stream_data (conn_local_settings c) <? final_offset) ||
                    conn_max_data_violated c final_offset) NGTCP2_ERR_FLOW_CONTROL;;
          conn_idtr_open stream_id;;
          modify (fun c => set_conn_rx_offset (u64 (conn_rx_offset c + final_offset)) c)
  | Some p =>
      strm ← load_strm p;
      (if has_bit (strm_flags strm) NGTCP2_STRM_FLAG_SHUT_RD then
         throw_if (negb (strm_last_rx_offset strm =? final_offset)) NGTCP2_ERR_FINAL_OFFSET
       else throw_if (final_offset <? strm_last_rx_offset strm) NGTCP2_ERR_FINAL_OFFSET);;
      let datalen := u64 (final_offset - strm_last_rx_offset strm) in
      throw_if ((strm_max_rx_offset strm <? final_offset) || conn_max_data_violated c datalen)
        NGTCP2_ERR_FLOW_CONTROL;;
      modify (fun c => set_conn_rx_offset (u64 (conn_rx_offset c + datalen)) c);;
      store_strm p (set_flags strm
        (strm_flags strm .| (NGTCP2_STRM_FLAG_SHUT_RD .| NGTCP2_STRM_FLAG_RECV_RST)));;
      ngtcp2_conn_close_stream_if_shut_rdwr p (rst_app_error_code fr)
  end.

Definition conn_recv_stop_sending (stream_id app_error_code : Z) : M unit :=
  throw_if (stream_id =? 0) NGTCP2_ERR_PROTO;;
  conn_check_stream_id stream_id;;
  c ← get;
  strm ← ngtcp2_conn_find_stream stream_id;
  match strm with
  | None =>
      if conn_local_stream c stream_id then mret tt
      else
        is_open ← conn_idtr_is_open stream_id;
        if (is_open : bool) then mret tt else conn_idtr_open stream_id;; mret tt
  | Some p =>
      conn_rst_stream p NGTCP2_STOPPING;;
      update_strm p (fun strm => set_flags strm
        (strm_flags strm .| (NGTCP2_STRM_FLAG_SHUT_WR .| NGTCP2_STRM_FLAG_SENT_RST)));;
      ngtcp2_conn_close_stream_if_shut_rdwr p app_error_code
  end.

Definition conn_recv_max_stream_id (max_stream_id : Z) : M unit :=
  (if bidi_stream max_stream_id then
     modify (fun c => set_conn_max_local_stream_id_bidi
                        (Z.max (conn_max_local_stream_id_bidi c) max_stream_id) c)
   else
     modify (fun c => set_conn_max_local_stream_id_uni
                        (Z.max (conn_max_local_stream_id_uni c) max_stream_id) c));;
  conn_call_extend_max_stream_id max_stream_id.

(** ** Acknowledgements *)

(** The connection and the return value of a call. *)
Definition run_rv {B} (m : M B) (c : conn) : res (conn * Z) :=
  match m c with
  | ret _ c => Ok (c, 0)
  | fail e c => Ok (c, e)
  | undef => Ub
  end.

Definition eval {B} (m : M B) (c : conn) : res B :=
  match m c with
  | ret b _ => Ok b
  | fail e _ => Err e
  | undef => Ub
  end.

(** What the retransmission buffer uses of the connection. *)
Definition conn_rtb_conn : RtbConn conn positive := {|
  rc_mem := conn_mem;
  rc_set_mem := set_conn_mem;
  rc_has_acked_stream_data_offset _ := bool_decide (is_Some (cb_acked_stream_data_offset cb));
  rc_find_stream c stream_id := eval (ngtcp2_conn_find_stream stream_id) c;
  rc_acked_tx_offset c p := eval (strm_acked_tx_offset <$> load_strm p) c;
  rc_set_acked_tx_offset c p gaptr :=
    fst <$> run_rv (update_strm p (fun strm => set_acked_tx_offset strm gaptr)) c;
  rc_acked_stream_data_offset c p offset datalen :=
    match cb_acked_stream_data_offset cb with
    | None => Ub
    | Some f =>
        run_rv (strm ← load_strm p;
                rv ← invoke f (strm_stream_id strm, offset, datalen, strm_stream_user_data strm);
                check rv) c
    end;
  rc_close_stream_if_shut_rdwr c p :=
    run_rv (ngtcp2_conn_close_stream_if_shut_rdwr p NGTCP2_NO_ERROR) c
|}.

(** [ngtcp2_rtb_recv_ack(&conn->rtb, fr, unprotected, conn)]: during the walk the
    callbacks do not change the buffer. *)
Definition conn_rtb_recv_ack (fr : ngtcp2_ack) (unprotected : bool) : M unit := fun c =>
  match ngtcp2_rtb_recv_ack (H := conn_rtb_conn) (conn_rtb_heap c) (conn_rtb c) fr unprotected c with
  | Ok (heap, rtb, c, rv) => check rv (set_conn_rtb rtb (set_conn_rtb_heap heap c))
  | Err e => fail e c
  | Ub => undef
  end.

Definition conn_recv_ack (fr : ngtcp2_ack) (unprotected : bool) : M unit :=
  lift (ngtcp2_pkt_validate_ack fr);;
  c ← get;
  acktr ← lift (ngtcp2_acktr_recv_ack (conn_acktr c) fr unprotected);
  modify (set_conn_acktr acktr);;
  conn_rtb_recv_ack fr unprotected.

(** ** Special packets *)

(** The callback is given the array [sv] of 16 versions even when the versions
    have been stored elsewhere, and reads past its end. *)
Definition conn_on_version_negotiation (hd : ngtcp2_pkt_hd) (payload : bytes) : M unit :=
  throw_if (negb (zlen payload mod 4 =? 0)) NGTCP2_ERR_PROTO;;
  match cb_recv_version_negotiation cb with
  | None => mret tt
  | Some _ =>
      (if 64 <? zlen payload then malloc else mret tt);;
      '(sv, _) ← lift (ngtcp2_pkt_decode_version_negotiation payload);
      assert_ (zlen payload <=? 64);;
      conn_call (cb_recv_version_negotiation cb) (hd, sv)
  end.

(** The object at [strm0] is freed without being taken out of [fc_strms]. *)
Definition conn_recv_server_stateless_retry : M unit :=
  conn_set_flag NGTCP2_CONN_FLAG_STATELESS_RETRY;;
  conn_call (cb_recv_server_stateless_retry cb) tt;;
  strm0 ← new_address;
  c ← get;
  conn_strm_init strm0 0 (s_max_stream_data (conn_local_settings c)) NGTCP2_STRM0_MAX_STREAM_DATA 0;;
  modify (set_conn_last_tx_pkt_num 0);;
  modify (set_conn_max_rx_pkt_num 0);;
  ngtcp2_rtb_free;;
  ignore (conn_strms_remove 0);;
  c ← get;
  free_strm (conn_strm0 c);;
  modify (set_conn_strm0 strm0);;
  (* a failure, which goes unnoticed, leaves the tracker freed *)
  acktr ← attempt (with_mem ngtcp2_acktr_init);
  (match acktr with
   | inl acktr => modify (set_conn_acktr acktr)
   | inr _ => undefined
   end : M unit);;
  modify (set_conn_rtb ngtcp2_rtb_init);;
  ignore (conn_strms_insert strm0);;
  modify (fun c => set_conn_flags
    (conn_flags c .& u8 (Z.lnot NGTCP2_CONN_FLAG_CONN_ID_NEGOTIATED)) c);;
  modify (set_conn_state NGTCP2_CS_CLIENT_INITIAL).

(** [NULL] dereferenced, when there is no key. The plaintext has at most
    [destlen] bytes; the callback overruns the buffer otherwise. *)
Definition conn_decrypt_pkt (destlen : Z) (payload ad : bytes) (pkt_num : Z)
    (ckm : option ngtcp2_crypto_km) (decrypt : Z -> bytes -> bytes -> bytes -> bytes -> bytes + Z) :
    M bytes :=
  match ckm with
  | None => undefined
  | Some ckm =>
      assert_ (zlen (km_iv ckm) <=? 64);;
      nonce ← lift (ngtcp2_crypto_create_nonce (km_iv ckm) pkt_num);
      match decrypt destlen payload (km_key ckm) nonce ad with
      | inl plaintext => assert_ (zlen plaintext <=? destlen);; mret plaintext
      | inr nwrite =>
          if nwrite =? NGTCP2_ERR_TLS_DECRYPT then throw nwrite else throw NGTCP2_ERR_CALLBACK_FAILURE
      end
  end.

(** [rv |= token[i] ^ sr.stateless_reset_token[i]] *)
Fixpoint token_diff (n : nat) (token1 token2 : bytes) : res Z :=
  match n with
  | O => Ok 0
  | S n =>
      match token1, token2 with
      | x :: token1, y :: token2 => rv ← token_diff n token1 token2; Ok ((x .^ y) .| rv)
      | _, _ => Ub
      end
  end.

Definition conn_on_stateless_reset (hd : ngtcp2_pkt_hd) (payload : bytes) : M unit :=
  '(rand, sr_token) ← lift (ngtcp2_pkt_decode_stateless_reset payload);
  c ← get;
  let token := s_stateless_reset_token
    (if conn_server c then conn_local_settings c else conn_remote_settings c) in
  rv ← lift (token_diff (Z.to_nat NGTCP2_STATELESS_RESET_TOKENLEN) token sr_token);
  throw_if (negb (rv =? 0)) NGTCP2_ERR_INVALID_ARGUMENT;;
  modify (set_conn_state NGTCP2_CS_DRAINING);;
  conn_call (cb_recv_stateless_reset cb) (hd, (rand, sr_token)).

Definition conn_handshake_completed : M unit :=
  conn_call_handshake_completed;;
  c ← get;
  (if 0 <? conn_max_local_stream_id_bidi c then
     conn_call_extend_max_stream_id (conn_max_local_stream_id_bidi c) else mret tt);;
  c ← get;
  (if 0 <? conn_max_local_stream_id_uni c then
     conn_call_extend_max_stream_id (conn_max_local_stream_id_uni c) else mret tt).
End Callbacks.
