(* ===== verification/ConnInv.v ===== *)
(** The invariant of a connection: the heap of streams, the table of stream IDs,
    the list of streams to send credit for and the trackers of stream IDs fit
    together, and what the application has got of each stream is a prefix of what
    the peer sent. It is kept by every function of the API that a callback may
    call. *)

From S2P Require Import Prelude Conv Frame PktDecode PktHd Mem Monad Range Gaptr Idtr Ringbuf AckScan.
From S2P Require Import Acktr Pq Rtb Map Rob Crypto Ppe Strm Conn ConnAck ConnApp.

(** ** Application

    [log a id] is what the application in the state [a] has got of the stream [id],
    and [content id] what the peer sent on it. *)
Record app_view (A : Type) := mk_app_view {
  av_log : A -> Z -> bytes;
  av_content : Z -> Z -> Z
}.
Arguments mk_app_view {A}.
Arguments av_log {A}.
Arguments av_content {A}.

(** The end of a program satisfies [P] whatever the calls return. *)
Fixpoint prog_ends {A R} (P : R -> Prop) (p : prog A R) : Prop :=
  match p with
  | p_ret r => P r
  | p_call _ k => forall rv c, prog_ends P (k rv c)
  end.

(** The nonces made from it fit the buffers for them. *)
Definition iv_ok (iv : bytes) : Prop := 8 <= zlen iv <= 64.

Definition params_ok (params : ngtcp2_transport_params) : Prop :=
  is_uint 62 (tp_initial_max_stream_id_bidi params) /\
  is_uint 62 (tp_initial_max_stream_id_uni params) /\
  zlen (tp_stateless_reset_token params) = NGTCP2_STATELESS_RESET_TOKENLEN.

(** The arguments of the calls have the types of the parameters; the parameters
    of Encrypted Extensions have the members for it. *)
Definition call_ok (call : api_call) : Prop :=
  match call with
  | api_set_handshake_tx_keys _ iv | api_set_handshake_rx_keys _ iv | api_update_early_keys _ iv
  | api_update_tx_keys _ iv | api_update_rx_keys _ iv => iv_ok iv
  | api_set_remote_transport_params exttype params => params_ok params /\
      (exttype = NGTCP2_TRANSPORT_PARAMS_TYPE_ENCRYPTED_EXTENSIONS -> exists v vs, tp_v params = v_ee v vs)
  | api_set_early_remote_transport_params params => params_ok params
  | _ => True
  end.

Fixpoint prog_ok {A R} (p : prog A R) : Prop :=
  match p with
  | p_ret _ => True
  | p_call call k => call_ok call /\ forall rv c, prog_ok (k rv c)
  end.

Section Inv.
Context {A : Type} (av : app_view A).
Implicit Types (c : ngtcp2_conn A) (strm : ngtcp2_strm Z).
Abbreviation log := (av_log av).
Abbreviation content := (av_content av).

(** The ID has been taken by a stream, or by a frame that refers to it. *)
Definition id_opened c (id : Z) : Prop :=
  if conn_local_stream c id then
    id < (if bidi_stream id then conn_next_local_stream_id_bidi c else conn_next_local_stream_id_uni c)
  else opened (conn_idtr (bidi_stream id) c) (id_from_stream_id id).

(** A stream, apart from the data received on it. *)
Record strm_ok strm : Prop := {
  so_me : strm_me strm = strm_stream_id strm;
  so_id : is_uint 62 (strm_stream_id strm);
  so_acked : wf_gaptr (strm_acked_tx_offset strm)
}.

(** No frame reaches beyond [last_rx_offset]. *)
Definition within (frs : list ngtcp2_stream) strm : Prop :=
  0 <= strm_last_rx_offset strm < 2 ^ 62 /\
  Forall (fun fr => stream_offset fr + zlen (stream_data fr) <= strm_last_rx_offset strm) frs.

(** All data received in order has been delivered, and nothing else. *)
Definition strm_delivered (a : A) strm : Prop :=
  exists frs, delivered (content (strm_stream_id strm)) strm (log a (strm_stream_id strm)) frs /\
    within frs strm.

(** The streams. The stream [x], if any, is being delivered. *)
Record streams_ok (x : option positive) c (M : gmap Z (ngtcp2_map_entry positive)) : Prop := {
  st_heap : forall p strm, conn_strm_heap c !! p = Some strm ->
    strm_ok strm /\ (p < conn_next c)%positive /\ id_opened c (strm_stream_id strm) /\
    (x <> Some p -> strm_delivered (conn_user_data c) strm);
  st_unique : forall p q s t, conn_strm_heap c !! p = Some s -> conn_strm_heap c !! q = Some t ->
    strm_stream_id s = strm_stream_id t -> p = q;
  st_size : Z.of_nat (size (conn_strm_heap c)) <= MAX_STREAMS;
  st_map : map_repr (conn_strms c) M;
  st_table : map_tablelen (conn_strms c) <= 2 ^ 30;
  st_map_heap : forall id e, M !! id = Some e -> me_key e = id /\
    exists strm, conn_strm_heap c !! me_val e = Some strm /\ strm_stream_id strm = id;
  st_fc : Forall (fun p => is_Some (conn_strm_heap c !! p)) (conn_fc_strms c);
  st_zero : exists strm, conn_strm_heap c !! conn_strm0 c = Some strm /\ strm_stream_id strm = 0 /\
    has_bit (strm_flags strm) NGTCP2_STRM_FLAG_SHUT_RD = false;
  st_zero_map : forall e, M !! 0 = Some e -> me_val e = conn_strm0 c
}.

(** The stream IDs. *)
Record ids_ok c : Prop := {
  id_idtr : forall bidi, wf_idtr (conn_idtr bidi c) /\ idtr_server (conn_idtr bidi c) = negb (conn_server c);
  id_next : exists k, 0 <= k /\ conn_next_local_stream_id_bidi c = 4 * k + (if conn_server c then 1 else 0);
  id_next_uni : exists k, 0 <= k /\ conn_next_local_stream_id_uni c = 4 * k + (if conn_server c then 3 else 2);
  id_max : conn_next_local_stream_id_bidi c < 2 ^ 62 + 4 /\ conn_next_local_stream_id_uni c < 2 ^ 62 + 4 /\
    conn_max_local_stream_id_bidi c < 2 ^ 62 /\ conn_max_local_stream_id_uni c < 2 ^ 62;
  id_fresh : forall id, is_uint 62 id -> ~ id_opened c id -> log (conn_user_data c) id = []
}.

(** The keys that have been set. *)
Definition ckm_ok (ckm : option ngtcp2_crypto_km) : Prop := forall km, ckm = Some km -> iv_ok (km_iv km).
Definition conn_keys c : list (option ngtcp2_crypto_km) :=
  [conn_hs_tx_ckm c; conn_hs_rx_ckm c; conn_early_ckm c; conn_tx_ckm c; conn_rx_ckm c].
Definition keys_ok c : Prop := Forall ckm_ok (conn_keys c).

(** [reliable]: the allocator does not fail. *)
Record conn_ok (reliable : bool) (x : option positive) c : Prop := {
  co_streams : exists M, streams_ok x c M;
  co_ids : ids_ok c;
  co_acktr : exists al, wf_acktr (conn_acktr c) al /\ rb_nmemb (acks (conn_acktr c)) = 128;
  co_rtb : wf_rtb (conn_rtb_heap c) (conn_rtb c);
  co_rtb_fresh : forall p, is_Some (conn_rtb_heap c !! p) -> (p < conn_next c)%positive;
  co_mem : reliable = true -> mem_reliable (conn_mem c);
  co_keys : keys_ok c;
  co_buf : 0 <= conn_decrypt_buf_len c < 2 ^ 63;
  co_token : zlen (s_stateless_reset_token (conn_local_settings c)) = NGTCP2_STATELESS_RESET_TOKENLEN /\
    zlen (s_stateless_reset_token (conn_remote_settings c)) = NGTCP2_STATELESS_RESET_TOKENLEN
}.

(** ** What a call leaves alone *)

(** The data received on a stream, and whether it is shut for reading. *)
Record strm_frame strm strm' : Prop := {
  sf_id : strm_stream_id strm' = strm_stream_id strm;
  sf_me : strm_me strm' = strm_me strm;
  sf_rob : strm_rob strm' = strm_rob strm;
  sf_last : strm_last_rx_offset strm' = strm_last_rx_offset strm;
  sf_tx : strm_tx_offset strm' = strm_tx_offset strm;
  sf_shut : has_bit (strm_flags strm') NGTCP2_STRM_FLAG_SHUT_RD =
    has_bit (strm_flags strm) NGTCP2_STRM_FLAG_SHUT_RD
}.

(** No stream has the ID. *)
Definition unmapped c (id : Z) : Prop := ngtcp2_map_find (conn_strms c) id = Ok None.
Definition mapped c (id : Z) (e : ngtcp2_map_entry positive) : Prop := ngtcp2_map_find (conn_strms c) id = Ok (Some e).

(** Streams stay, and so does what only packets change; an ID is not used again. *)
Record conn_frame c c' : Prop := {
  af_heap : forall p strm, conn_strm_heap c !! p = Some strm ->
    exists strm', conn_strm_heap c' !! p = Some strm' /\ strm_frame strm strm';
  af_rtb : conn_rtb c' = conn_rtb c /\ conn_rtb_heap c' = conn_rtb_heap c;
  af_acktr : conn_acktr c' = conn_acktr c;
  af_tx_offset : conn_tx_offset c' = conn_tx_offset c;
  af_server : conn_server c' = conn_server c;
  af_strm0 : conn_strm0 c' = conn_strm0 c;
  af_state : conn_state c' = conn_state c;
  af_rx_offset : conn_rx_offset c' = conn_rx_offset c /\ conn_max_rx_offset c' = conn_max_rx_offset c;
  af_keys : (is_Some (conn_hs_rx_ckm c) -> is_Some (conn_hs_rx_ckm c')) /\
    (is_Some (conn_rx_ckm c) -> is_Some (conn_rx_ckm c'));
  af_opened : forall id, id_opened c id -> id_opened c' id;
  af_unmapped : forall id, id_opened c id -> unmapped c id -> unmapped c' id;
  af_mapped : forall id e, mapped c id e -> mapped c' id e
}.

(** Nor has the application got any data. *)
Definition api_frame c c' : Prop :=
  conn_frame c c' /\ forall id, log (conn_user_data c') id = log (conn_user_data c) id.

#[export] Instance strm_frame_po : PreOrder strm_frame.
Proof. split; [done | intros ? ? ? [] []; split; congruence]. Qed.

#[export] Instance conn_frame_po : PreOrder conn_frame.
Proof.
  split.
  - intros c. split; try done. intros p strm H. by exists strm.
  - intros c1 c2 c3 [Ha [? ?] ? ? ? ? ? [? ?] [? ?] ? ? ?] [Hb [? ?] ? ? ? ? ? [? ?] [? ?] ? ? ?].
    split; try (split; congruence); try congruence; [|auto..].
    intros p strm (s2 & Hs2 & ?)%Ha. destruct (Hb _ _ Hs2) as (s3 & ? & ?). exists s3. split; [done | by etrans].
Qed.

#[export] Instance api_frame_po : PreOrder api_frame.
Proof.
  split; [by split|]. intros c1 c2 c3 [? H1] [? H2]. split; [by etrans|]. intros id. by rewrite H2.
Qed.

Definition api_post (reliable : bool) (x : option positive) c c' : Prop :=
  conn_ok reliable x c' /\ api_frame c c'.

Lemma api_post_trans reliable x c1 c2 c3 :
  api_frame c1 c2 -> api_post reliable x c2 c3 -> api_post reliable x c1 c3.
Proof. intros H1 [H2 H3]. split; [done | by etrans]. Qed.

(** [m] keeps the invariant, on errors too. *)
Definition api_ok {B} (m : M (ngtcp2_conn A) B) : Prop :=
  forall reliable x c, conn_ok reliable x c ->
    wp m (fun _ => api_post reliable x c) (fun _ => api_post reliable x c) c.
End Inv.

(** [keep_ok H]: the invariant [H] speaks of nothing that has changed. *)
Ltac keep_ok H :=
  let M := fresh "M" in
  destruct H as [[M []] [] ? ? ? ? ? ? ?]; split; [exists M; split | split | ..]; assumption.
Ltac keep_frame := split; [split; try done|done]; let p := fresh in let s := fresh in let E := fresh in
  intros p s E; exists s; split; [exact E | reflexivity].

Section Prims.
Context {A : Type} (av : app_view A).
Implicit Types (c : ngtcp2_conn A) (strm : ngtcp2_strm Z).
Abbreviation conn_ok := (conn_ok av).
Abbreviation api_post := (api_post av).

Lemma wp_load_strm p strm (Q : ngtcp2_strm Z -> ngtcp2_conn A -> Prop) E c :
  conn_strm_heap c !! p = Some strm -> Q strm c -> wp (load_strm p) Q E c.
Proof. intros H HQ. unfold wp, load_strm. by rewrite H. Qed.

Lemma wp_store_strm p strm strm0 (Q : unit -> ngtcp2_conn A -> Prop) E c :
  conn_strm_heap c !! p = Some strm0 ->
  Q tt (set_conn_strm_heap (<[p := strm]> (conn_strm_heap c)) c) -> wp (store_strm p strm) Q E c.
Proof. intros H HQ. unfold store_strm. wp_step. by eapply wp_load_strm. Qed.

Lemma wp_update_strm p f strm (Q : unit -> ngtcp2_conn A -> Prop) E c :
  conn_strm_heap c !! p = Some strm ->
  Q tt (set_conn_strm_heap (<[p := f strm]> (conn_strm_heap c)) c) -> wp (update_strm p f) Q E c.
Proof. intros H HQ. unfold update_strm. wp_step. eapply wp_load_strm; [done|]. by eapply wp_store_strm. Qed.

Lemma wp_free_strm p strm (Q : unit -> ngtcp2_conn A -> Prop) E c :
  conn_strm_heap c !! p = Some strm ->
  Q tt (set_conn_strm_heap (delete p (conn_strm_heap c)) c) -> wp (free_strm p) Q E c.
Proof. intros H HQ. unfold free_strm. wp_step. by eapply wp_load_strm. Qed.

Lemma delivered_rob content strm strm' out frs :
  strm_rob strm' = strm_rob strm -> delivered content strm out frs -> delivered content strm' out frs.
Proof.
  intros H [[] ? ?]. unfold ngtcp2_strm_rx_offset in *.
  split; [split|..]; unfold ngtcp2_strm_rx_offset; rewrite ?H; assumption.
Qed.

Lemma within_mono frs strm strm' :
  strm_last_rx_offset strm' = strm_last_rx_offset strm \/
    strm_last_rx_offset strm <= strm_last_rx_offset strm' < 2 ^ 62 ->
  within frs strm -> within frs strm'.
Proof.
  intros Hle [? Hf]. split; [lia|]. eapply Forall_impl; [done|]. simpl. intros fr ?. lia.
Qed.

(** A change of a stream that keeps its ID. *)
Lemma store_strm_gen reliable x c p strm strm' :
  conn_ok reliable x c -> conn_strm_heap c !! p = Some strm ->
  strm_stream_id strm' = strm_stream_id strm -> strm_me strm' = strm_me strm ->
  wf_gaptr (strm_acked_tx_offset strm') ->
  (strm_stream_id strm = 0 -> has_bit (strm_flags strm') NGTCP2_STRM_FLAG_SHUT_RD =
    has_bit (strm_flags strm) NGTCP2_STRM_FLAG_SHUT_RD) ->
  (x <> Some p -> strm_rob strm' = strm_rob strm /\ (strm_last_rx_offset strm' = strm_last_rx_offset strm \/
    strm_last_rx_offset strm <= strm_last_rx_offset strm' < 2 ^ 62)) ->
  conn_ok reliable x (set_conn_strm_heap (<[p := strm']> (conn_strm_heap c)) c).
Proof.
  intros Hok Hp Hid Hme Hg Hfl Hrob.
  assert (Hlook : forall q s, conn_strm_heap c !! q = Some s ->
    exists s', <[p := strm']> (conn_strm_heap c) !! q = Some s' /\ strm_stream_id s' = strm_stream_id s /\
      (strm_stream_id s = 0 -> has_bit (strm_flags s') NGTCP2_STRM_FLAG_SHUT_RD =
        has_bit (strm_flags s) NGTCP2_STRM_FLAG_SHUT_RD)).
  { intros q s Hq. destruct (decide (q = p)) as [->|Hne].
    - rewrite lookup_insert_eq. exists strm'. rewrite Hp in Hq. injection Hq as <-. auto.
    - rewrite lookup_insert_ne by done. exists s. auto. }
  destruct Hok as [[M []] [] ? ? ? ? ? ? ?]. split; [exists M; split | split | ..]; try assumption;
    cbn [conn_strm_heap set_conn_strm_heap conn_next conn_user_data conn_strms conn_fc_strms conn_strm0].
  - intros q s [[<- <-]|[_ Hq]]%lookup_insert_Some; [|by apply st_heap0].
    destruct (st_heap0 _ _ Hp) as ([] & ? & ? & Hd). split; [split; congruence|]. split; [done|].
    rewrite Hid. split; [done|]. intros Hx. destruct (Hd Hx) as (frs & Hfrs & Hin), (Hrob Hx). exists frs.
    rewrite Hid. split; [by eapply delivered_rob | by eapply within_mono].
  - assert (Hback : forall q s', <[p := strm']> (conn_strm_heap c) !! q = Some s' ->
      exists s, conn_strm_heap c !! q = Some s /\ strm_stream_id s' = strm_stream_id s).
    { intros q s' [[<- <-]|[_ ?]]%lookup_insert_Some; [by exists strm | by exists s']. }
    intros q r s t (s' & Hq & ->)%Hback (t' & Hr & ->)%Hback. by apply st_unique0.
  - rewrite map_size_insert_Some by done. done.
  - intros id e He. destruct (st_map_heap0 _ _ He) as (? & s & Hs & <-).
    destruct (Hlook _ _ Hs) as (s' & ? & ? & _). eauto.
  - eapply Forall_impl; [done|]. intros q [s Hs]. destruct (Hlook _ _ Hs) as (s' & ? & ?). by exists s'.
  - destruct st_zero0 as (s & Hs & Hs0 & ?). destruct (Hlook _ _ Hs) as (s' & ? & Hs' & Hfl').
    exists s'. rewrite Hs', Hfl' by done. done.
Qed.

(** A change of the members of a stream that do not matter to the receiver. *)
Lemma store_strm_ok reliable x c p strm strm' :
  conn_ok reliable x c -> conn_strm_heap c !! p = Some strm -> strm_frame strm strm' ->
  wf_gaptr (strm_acked_tx_offset strm') ->
  api_post reliable x c (set_conn_strm_heap (<[p := strm']> (conn_strm_heap c)) c).
Proof.
  intros Hok Hp Hf Hg. split; [eapply store_strm_gen; try done; [apply Hf.. | intros _; apply Hf | intros _; split; [|left]; apply Hf]|].
  split; [split; try done | done]. intros q s Hq. simpl. destruct (decide (q = p)) as [->|Hne].
  - rewrite lookup_insert_eq. exists strm'. split; [done|]. congruence.
  - rewrite lookup_insert_ne by done. by exists s.
Qed.

(** ** Lookup *)

Lemma streams_size x c M : streams_ok av x c M -> Z.of_nat (size M) <= MAX_STREAMS.
Proof.
  intros []. etrans; [|apply st_size0]. apply inj_le.
  rewrite <- (size_dom (conn_strm_heap c)).
  set (l := (fun e => me_val (snd e)) <$> map_to_list M).
  assert (Hnd : NoDup l).
  { unfold l. apply NoDup_fmap_2_strong; [|apply NoDup_map_to_list].
    intros [i e] [j f] Hi%elem_of_map_to_list Hj%elem_of_map_to_list Heq. simpl in Heq.
    destruct (st_map_heap0 _ _ Hi) as (_ & s & Hs & Hsi), (st_map_heap0 _ _ Hj) as (_ & t & Ht & Htj).
    rewrite Heq, Ht in Hs. assert (i = j) as -> by congruence. congruence. }
  assert (size M = length l) as -> by (unfold l; by rewrite length_fmap, length_map_to_list).
  rewrite <- (size_list_to_set (C := gset positive) l Hnd). apply subseteq_size.
  intros q [[i e] [-> Hi%elem_of_map_to_list]]%elem_of_list_to_set%list_elem_of_fmap_1.
  destruct (st_map_heap0 _ _ Hi) as (_ & t & Ht & _). apply elem_of_dom. by exists t.
Qed.

Lemma wp_find_stream x c M id (Q : option positive -> ngtcp2_conn A -> Prop) E :
  streams_ok av x c M -> Q (me_val <$> M !! id) c -> wp (ngtcp2_conn_find_stream id) Q E c.
Proof.
  intros Hs HQ. unfold ngtcp2_conn_find_stream. wp_go.
  rewrite (map_find_repr _ _ _ (st_map _ _ _ _ Hs)). simpl. by wp_go.
Qed.

(** The stream found is live, and has the ID looked for. *)
Lemma wp_find_live reliable x c id (Q : option positive -> ngtcp2_conn A -> Prop) E :
  conn_ok reliable x c -> Q None c ->
  (forall p strm, conn_strm_heap c !! p = Some strm -> strm_stream_id strm = id ->
    (id = 0 -> p = conn_strm0 c) -> Q (Some p) c) ->
  wp (ngtcp2_conn_find_stream id) Q E c.
Proof.
  intros [[M Hs] _ _ _ _ _ _ _ _] HN HS. apply (wp_find_stream x _ M); [done|].
  destruct (M !! id) as [e|] eqn:He; [|done].
  destruct (st_map_heap _ _ _ _ Hs _ _ He) as (_ & strm & Hp & Hid). simpl.
  apply (HS _ strm); [done | done|]. intros ->. by apply (st_zero_map _ _ _ _ Hs).
Qed.

(** ** Credit *)

Lemma fc_push_ok reliable x c p strm :
  conn_ok reliable x c -> conn_strm_heap c !! p = Some strm ->
  api_post reliable x c (set_conn_fc_strms (p :: conn_fc_strms c) c).
Proof.
  intros [[M []] [] ? ? ? ? ? ? ?] Hp. split; [|keep_frame].
  split; [exists M; split | split | ..]; try assumption. by constructor.
Qed.

Lemma fc_unlink_ok reliable x c p :
  conn_ok reliable x c ->
  api_post reliable x c (set_conn_fc_strms (filter (fun q => q <> p) (conn_fc_strms c)) c).
Proof.
  intros [[M []] [] ? ? ? ? ? ? ?]. split; [|keep_frame].
  split; [exists M; split | split | ..]; try assumption. by apply Forall_filter.
Qed.

(** The streams of the list are live. *)
Lemma fc_neighbours_in p l : fc_neighbours p l ⊆ l.
Proof.
  induction l as [|q l IH]; [by apply list_subseteq_nil|]. destruct l as [|r l]; [apply list_subseteq_nil|]. cbn [fc_neighbours] in *.
  destruct (bool_decide (q = p)), (bool_decide (r = p)); simpl; set_solver.
Qed.

Lemma wp_access_strms reliable x c l (Q : unit -> ngtcp2_conn A -> Prop) E :
  conn_ok reliable x c -> l ⊆ conn_fc_strms c -> Q tt c -> wp (access_strms l) Q E c.
Proof.
  intros Hok Hl HQ. unfold access_strms. wp_step. wp_step.
  rewrite (proj2 (forallb_forall _ _)); [exact HQ|]. intros p Hp%list_elem_of_In. apply bool_decide_eq_true.
  destruct (co_streams _ _ _ _ Hok) as [M Hs]. pose proof (st_fc _ _ _ _ Hs) as Hfc. rewrite Forall_forall in Hfc. by apply Hfc, Hl.
Qed.

Lemma wp_fc_unlink reliable x c p (Q : unit -> ngtcp2_conn A -> Prop) E :
  conn_ok reliable x c -> Q tt (set_conn_fc_strms (filter (fun q => q <> p) (conn_fc_strms c)) c) ->
  wp (conn_fc_unlink p) Q E c.
Proof.
  intros Hok HQ. unfold conn_fc_unlink. wp_step. wp_step. wp_step.
  apply (wp_access_strms reliable x); [done | apply fc_neighbours_in | exact HQ].
Qed.

(** ** New streams *)

(** A change of the allocator and of the next address. *)
Lemma alloc_ok reliable x c m n :
  conn_ok reliable x c -> (reliable = true -> mem_reliable m) -> (conn_next c <= n)%positive ->
  api_post reliable x c (set_conn_next n (set_conn_mem m c)).
Proof.
  intros [[M []] [] ? ? ? ? ? ? ?] Hm Hn. split; [|keep_frame].
  split; [exists M; split | split | ..]; try assumption.
  - intros p strm Hp. destruct (st_heap0 p strm Hp) as (? & ? & ? & ?). split_and!; [done | simpl; lia | done..].
  - intros p Hp. specialize (co_rtb_fresh0 p Hp). simpl. lia.
Qed.

Lemma mem_ok reliable x c m :
  conn_ok reliable x c -> (reliable = true -> mem_reliable m) -> api_post reliable x c (set_conn_mem m c).
Proof. intros Hok Hm. split; [keep_ok Hok | keep_frame]. Qed.

Lemma malloc_ok reliable x c (Q : unit -> ngtcp2_conn A -> Prop) E :
  conn_ok reliable x c ->
  (forall m, api_post reliable x c (set_conn_mem m c) -> Q tt (set_conn_mem m c)) ->
  (forall m, reliable = false -> api_post reliable x c (set_conn_mem m c) -> E NGTCP2_ERR_NOMEM (set_conn_mem m c)) ->
  wp malloc Q E c.
Proof.
  intros Hok HQ HE. unfold wp, malloc, with_mem.
  pose proof (fun H => mem_alloc_reliable _ (co_mem _ _ _ _ Hok H)) as Hm.
  assert (api_post reliable x c (set_conn_mem (mem_alloc (conn_mem c)).2 c)) as Hp
    by (apply mem_ok; [done | naive_solver]).
  destruct (mem_alloc (conn_mem c)) as [[] m]; simpl in *; [by apply HQ|].
  apply HE; [|done]. destruct reliable; naive_solver.
Qed.

Lemma wp_new_address reliable x c (Q : positive -> ngtcp2_conn A -> Prop) E :
  conn_ok reliable x c ->
  (forall m, let c' := set_conn_next (Pos.succ (conn_next c)) (set_conn_mem m c) in
    api_post reliable x c c' -> Z.of_nat (size (conn_strm_heap c)) < MAX_STREAMS -> Q (conn_next c) c') ->
  (forall c', api_post reliable x c c' -> E NGTCP2_ERR_NOMEM c') ->
  wp new_address Q E c.
Proof.
  intros Hok HQ HE. unfold new_address. wp_step. apply (malloc_ok reliable x); [done | | auto].
  intros m Hm. wp_step. wp_step. wp_step. wp_step; [by apply HE|].
  rewrite Z.leb_gt in *. wp_go. apply HQ; [|done].
  apply alloc_ok; [done | | simpl; lia]. intros Hr. exact (co_mem _ _ _ _ (proj1 Hm) Hr).
Qed.

(** What [ngtcp2_strm_init] makes of a stream. *)
Record fresh_strm (id : Z) strm : Prop := {
  fs_id : strm_stream_id strm = id;
  fs_me : strm_me strm = id;
  fs_delivered : forall content, delivered content strm [] [];
  fs_acked : wf_gaptr (strm_acked_tx_offset strm);
  fs_last : strm_last_rx_offset strm = 0;
  fs_flags : strm_flags strm = NGTCP2_STRM_FLAG_NONE
}.

Lemma wp_strm_init p id max_rx max_tx ud c (Q : unit -> ngtcp2_conn A -> Prop) E :
  (forall strm m, fresh_strm id strm -> (mem_reliable (conn_mem c) -> mem_reliable m) ->
    Q tt (set_conn_strm_heap (<[p := strm]> (conn_strm_heap c)) (set_conn_mem m c))) ->
  (forall m, ~ mem_reliable (conn_mem c) -> E NGTCP2_ERR_NOMEM (set_conn_mem m c)) ->
  wp (conn_strm_init p id max_rx max_tx ud) Q E c.
Proof.
  intros HQ HE. unfold conn_strm_init. wp_step. unfold with_mem, wp at 1.
  pose proof (fun content => strm_init_delivered content (conn_mem c) id NGTCP2_STRM_FLAG_NONE max_rx max_tx ud) as H.
  destruct (ngtcp2_strm_init _ _ _ _ _ _) as [[strm|e|] m]; simpl.
  - apply HQ; [|apply (H (fun _ => 0))].
    destruct (H (fun _ => 0)) as (_ & ? & ? & ? & ? & ? & _). split; try done. intros content. apply (H content).
  - destruct (H (fun _ => 0)) as [-> ?]. by apply HE.
  - exact (H (fun _ => 0)).
Qed.

(** The stream is in the table, or there was no memory and it is gone. *)
Lemma wp_init_stream reliable c M p id ud (Q : unit -> ngtcp2_conn A -> Prop) E :
  map_repr (conn_strms c) M -> map_tablelen (conn_strms c) <= 2 ^ 30 -> Z.of_nat (size M) <= MAX_STREAMS ->
  (reliable = true -> mem_reliable (conn_mem c)) ->
  conn_strm_heap c !! p = None -> M !! id = None ->
  (forall strm map m, fresh_strm id strm -> (reliable = true -> mem_reliable m) ->
    map_repr map (<[id := mk_map_entry id p]> M) -> map_tablelen map <= 2 ^ 30 ->
    Q tt (set_conn_strms map (set_conn_mem m
      (set_conn_strm_heap (<[p := strm]> (conn_strm_heap c)) c)))) ->
  (forall m, (reliable = true -> mem_reliable m) -> E NGTCP2_ERR_NOMEM (set_conn_mem m c)) ->
  wp (ngtcp2_conn_init_stream p id ud) Q E c.
Proof.
  intros Hrepr Htable Hsize Hm Hp HM HQ HE. unfold MAX_STREAMS in *.
  unfold ngtcp2_conn_init_stream. wp_step. wp_step. wp_step. apply wp_strm_init.
  2:{ intros m Hn. apply HE. intros Hr. by destruct Hn; apply Hm. }
  intros strm m Hf Hm'. wp_step. wp_step. unfold conn_strms_insert. wp_step.
  eapply wp_load_strm; [apply lookup_insert_eq|]. wp_step. wp_step. wp_step. unfold with_mem, wp at 1. simpl.
  rewrite (fs_me _ _ Hf).
  destruct (map_insert_repr m (conn_strms c) M (mk_map_entry id p)) as (map & rv & m' & Heq & H);
    [done | done | lia |].
  destruct (map_insert_bounds _ _ _ _ _ _ _ Hrepr Htable Hsize Heq) as [Ht Hm2].
  rewrite Heq. simpl in H |- *. destruct H as [(-> & _ & Hr)|[(-> & [y Hy] & _)|(-> & -> & Hn)]].
  - wp_go; [done|]. simpl. wp_go. apply HQ; [done | naive_solver | done | done].
  - congruence.
  - wp_go; [|done]. simpl. wp_go. eapply wp_free_strm; [apply lookup_insert_eq|]. wp_go.
    match goal with |- E _ ?c' => assert (c' = set_conn_mem m' c) as -> end.
    { destruct c. unfold set_conn_strm_heap. simpl in *. by rewrite delete_insert_id. }
    apply HE. naive_solver.
Qed.

Lemma not_opened_not_found x c M id :
  streams_ok av x c M -> ~ id_opened c id -> M !! id = None.
Proof.
  intros [] Hn. destruct (M !! id) as [e|] eqn:He; [|done]. destruct Hn.
  destruct (st_map_heap0 _ _ He) as (_ & strm & Hp & <-). by destruct (st_heap0 _ _ Hp) as (_ & _ & ? & _).
Qed.

(** The state [c'] has one stream more than [c]. *)
Record added_strm c c' (M : gmap Z (ngtcp2_map_entry positive)) (id : Z) strm : Prop := {
  as_heap : conn_strm_heap c' = <[conn_next c := strm]> (conn_strm_heap c);
  as_next : conn_next c' = Pos.succ (conn_next c);
  as_map : map_repr (conn_strms c') (<[id := mk_map_entry id (conn_next c)]> M);
  as_table : map_tablelen (conn_strms c') <= 2 ^ 30;
  as_fc : conn_fc_strms c' = conn_fc_strms c;
  as_strm0 : conn_strm0 c' = conn_strm0 c;
  as_user_data : conn_user_data c' = conn_user_data c;
  as_acktr : conn_acktr c' = conn_acktr c;
  as_tx_offset : conn_tx_offset c' = conn_tx_offset c;
  as_rtb : conn_rtb c' = conn_rtb c /\ conn_rtb_heap c' = conn_rtb_heap c;
  as_keys : conn_keys c' = conn_keys c /\ conn_decrypt_buf_len c' = conn_decrypt_buf_len c;
  as_settings : conn_local_settings c' = conn_local_settings c /\ conn_remote_settings c' = conn_remote_settings c;
  as_opened : forall id, id_opened c id -> id_opened c' id
}.

Lemma added_unmapped x c c' M id strm i :
  streams_ok av x c M -> added_strm c c' M id strm -> ~ id_opened c id ->
  id_opened c i -> unmapped c i -> unmapped c' i.
Proof.
  intros [] [] Hno Hi. unfold unmapped. rewrite (map_find_repr _ _ _ st_map0), (map_find_repr _ _ _ as_map0).
  intros [= Heq]. rewrite lookup_insert_ne; [by rewrite Heq|]. congruence.
Qed.

Lemma added_mapped x c c' M id strm i e :
  streams_ok av x c M -> added_strm c c' M id strm -> ~ id_opened c id -> mapped c i e -> mapped c' i e.
Proof.
  intros Hs [] Hno. pose proof (not_opened_not_found _ _ _ _ Hs Hno) as HM. destruct Hs. unfold mapped.
  rewrite (map_find_repr _ _ _ st_map0), (map_find_repr _ _ _ as_map0).
  intros [= He]. rewrite lookup_insert_ne; [by rewrite He|]. congruence.
Qed.

Lemma add_stream_ok reliable x c c' M id strm :
  conn_ok reliable x c -> streams_ok av x c M -> added_strm c c' M id strm ->
  Z.of_nat (size (conn_strm_heap c)) < MAX_STREAMS -> is_uint 62 id -> ~ id_opened c id -> id_opened c' id ->
  strm_ok strm -> strm_stream_id strm = id -> delivered (av_content av id) strm [] [] ->
  strm_last_rx_offset strm = 0 ->
  ids_ok av c' -> (reliable = true -> mem_reliable (conn_mem c')) ->
  conn_ok reliable x c'.
Proof.
  intros Hok Hs [] Hsize Hid Hno Hop Hstrm Hsid Hdel Hlast Hids Hmem.
  pose proof (id_fresh _ _ (co_ids _ _ _ _ Hok) id Hid Hno) as Hlog.
  pose proof (st_zero _ _ _ _ Hs) as (s0 & Hs0 & Hs0id & Hs0f).
  assert (Hne0 : id <> 0).
  { intros ->. apply Hno. rewrite <- Hs0id. by apply (st_heap _ _ _ _ Hs (conn_strm0 c)). }
  assert (Hnew : conn_strm_heap c !! conn_next c = None).
  { destruct (conn_strm_heap c !! conn_next c) as [s|] eqn:E; [|done].
    destruct (st_heap _ _ _ _ Hs _ _ E) as (_ & ? & _). lia. }
  assert (Hold : forall p s, conn_strm_heap c !! p = Some s -> conn_strm_heap c' !! p = Some s).
  { intros p s Hp. rewrite as_heap0, lookup_insert_ne; [done|]. congruence. }
  destruct Hok as [_ _ Ha Hr Hrf _ Hk Hb Htok], as_rtb0 as [Hr1 Hr2], as_keys0 as [Hk' Hb'],
    as_settings0 as [Hse1 Hse2]. destruct Hs.
  split; [exists (<[id := mk_map_entry id (conn_next c)]> M); split | done | ..]; try done.
  - intros p s. rewrite as_heap0. intros [[<- <-]|[Hne Hp]]%lookup_insert_Some.
    + split_and!; [done | lia | by rewrite Hsid |]. intros _. exists [].
      rewrite Hsid, as_user_data0, Hlog. split; [done|]. split; [lia | constructor].
    + destruct (st_heap0 p s Hp) as (? & ? & ? & ?). rewrite as_user_data0. split_and!; auto. lia.
  - assert (Hdiff : forall q t, conn_strm_heap c !! q = Some t -> strm_stream_id t <> strm_stream_id strm).
    { intros q t Ht Heq. apply Hno. rewrite <- Hsid, <- Heq. by apply (st_heap0 q). }
    rewrite as_heap0. intros p q s t [[<- <-]|[_ Hp]]%lookup_insert_Some [[<- <-]|[_ Hq]]%lookup_insert_Some Heq;
      [done | by destruct (Hdiff q t) | by destruct (Hdiff p s) | by apply (st_unique0 p q s t)].
  - rewrite as_heap0, map_size_insert_None by done. lia.
  - intros i e [[<- <-]|[Hne He]]%lookup_insert_Some.
    + split; [done|]. exists strm. simpl. by rewrite as_heap0, lookup_insert_eq.
    + destruct (st_map_heap0 i e He) as (? & s & ? & ?). split; [done|]. exists s. auto.
  - rewrite as_fc0. eapply Forall_impl; [done|]. intros p [s Hp]. exists s. auto.
  - rewrite as_strm1. exists s0. auto.
  - rewrite as_strm1, lookup_insert_ne by done. done.
  - by rewrite as_acktr0.
  - by rewrite Hr1, Hr2.
  - rewrite Hr2. intros p Hp. specialize (Hrf p Hp). lia.
  - unfold keys_ok. by rewrite Hk'.
  - by rewrite Hb'.
  - by rewrite Hse1, Hse2.
Qed.

Lemma add_stream_post reliable x c c' M id strm :
  conn_ok reliable x c -> streams_ok av x c M -> added_strm c c' M id strm ->
  Z.of_nat (size (conn_strm_heap c)) < MAX_STREAMS -> is_uint 62 id -> ~ id_opened c id -> id_opened c' id ->
  strm_ok strm -> strm_stream_id strm = id -> delivered (av_content av id) strm [] [] ->
  strm_last_rx_offset strm = 0 ->
  ids_ok av c' -> (reliable = true -> mem_reliable (conn_mem c')) ->
  conn_server c' = conn_server c -> conn_state c' = conn_state c ->
  conn_rx_offset c' = conn_rx_offset c /\ conn_max_rx_offset c' = conn_max_rx_offset c ->
  api_post reliable x c c'.
Proof.
  intros Hok Hs Has. intros. split; [by eapply add_stream_ok|]. pose proof Has as [].
  split; [|by rewrite as_user_data0]. split; try done.
  - intros p s Hp. exists s. split; [|done]. rewrite as_heap0, lookup_insert_ne; [done|].
    destruct (st_heap _ _ _ _ Hs _ _ Hp) as (_ & ? & _). lia.
  - destruct as_keys0 as [[= _ -> _ _ ->] _]. done.
  - intros i. by eapply added_unmapped.
  - intros i e. by eapply added_mapped.
Qed.

(** ** Stream IDs *)

Lemma bidi_stream_mod k r : 0 <= r < 4 -> bidi_stream (4 * k + r) = (r <? 2).
Proof.
  intros Hr. unfold bidi_stream. change 2 with (Z.ones 2 .& 2) at 1.
  rewrite Z.land_assoc, Z.land_ones by lia. change (2 ^ 2) with 4.
  rewrite (Z.add_comm (4 * k)), (Z.mul_comm 4), Z.mod_add, Z.mod_small by lia.
  assert (r = 0 \/ r = 1 \/ r = 2 \/ r = 3) as [->|[->|[->| ->]]] by lia; done.
Qed.

Lemma local_stream_mod c k r : 0 <= r < 4 -> conn_local_stream c (4 * k + r) = Bool.eqb (conn_server c) (Z.odd r).
Proof.
  intros Hr. unfold conn_local_stream. replace (4 * k + r) with (r + 2 * k * 2) by lia. rewrite Z.mod_add by lia.
  assert (r = 0 \/ r = 1 \/ r = 2 \/ r = 3) as [->|[->|[->| ->]]] by lia; by destruct (conn_server c).
Qed.
End Prims.

(** ** The functions of the API *)

Section Api.
Context {A : Type} (av : app_view A).
Implicit Types (c : ngtcp2_conn A) (strm : ngtcp2_strm Z).
Abbreviation conn_ok := (conn_ok av).
Abbreviation api_post := (api_post av).
Abbreviation api_ok := (api_ok av).

Lemma api_post_refl reliable x c : conn_ok reliable x c -> api_post reliable x c c.
Proof. by split. Qed.

Lemma wp_api {B} (m : M (ngtcp2_conn A) B) reliable x c0 c (Q : B -> ngtcp2_conn A -> Prop) E :
  api_ok m -> api_post reliable x c0 c ->
  (forall b c', api_post reliable x c c' -> api_post reliable x c0 c' -> Q b c') ->
  (forall e c', api_post reliable x c c' -> api_post reliable x c0 c' -> E e c') ->
  wp m Q E c.
Proof.
  intros Hm [Hok Hf] HQ HE. eapply wp_mono; [by apply Hm | |]; intros ? ? [? ?];
    [apply HQ | apply HE]; split; try done; by etrans.
Qed.

Lemma api_bind {B C} (m : M (ngtcp2_conn A) B) (k : B -> M (ngtcp2_conn A) C) :
  api_ok m -> (forall b, api_ok (k b)) -> api_ok (m ≫= k).
Proof.
  intros Hm Hk reliable x c Hok. wp_step. eapply wp_api; [done | by apply api_post_refl | |auto].
  intros b c' _ Hp. eapply wp_api; [apply Hk | done | auto..].
Qed.

Lemma api_ret {B} (b : B) : api_ok (mret b).
Proof. intros reliable x c Hok. wp_go. by apply api_post_refl. Qed.

Lemma api_modify f :
  (forall reliable x c, conn_ok reliable x c -> api_post reliable x c (f c)) -> api_ok (modify f).
Proof. intros H reliable x c Hok. wp_go. by apply H. Qed.

Lemma api_throw_if b e : api_ok (throw_if b e).
Proof. intros reliable x c Hok. wp_go; by apply api_post_refl. Qed.

(** The next stream ID after a stream has been opened. *)
Lemma next_local_ok c c' : ids_ok av c -> conn_server c' = conn_server c ->
  conn_user_data c' = conn_user_data c ->
  (forall bidi, conn_idtr bidi c' = conn_idtr bidi c) ->
  conn_max_local_stream_id_bidi c' = conn_max_local_stream_id_bidi c ->
  conn_max_local_stream_id_uni c' = conn_max_local_stream_id_uni c ->
  (exists n, 0 <= n /\ conn_next_local_stream_id_bidi c' = conn_next_local_stream_id_bidi c + 4 * n /\
    (conn_next_local_stream_id_bidi c <= conn_max_local_stream_id_bidi c /\ n <= 1 \/ n = 0)) ->
  (exists n, 0 <= n /\ conn_next_local_stream_id_uni c' = conn_next_local_stream_id_uni c + 4 * n /\
    (conn_next_local_stream_id_uni c <= conn_max_local_stream_id_uni c /\ n <= 1 \/ n = 0)) ->
  ids_ok av c' /\ (forall id, id_opened c id -> id_opened c' id).
Proof.
  intros [] Hsv Hud Hidtr Hmb Hmu (n & Hn & Hb & Hn1) (n' & Hn' & Hu & Hn2).
  assert (Hmono : forall id, id_opened c id -> id_opened c' id).
  { intros id. unfold id_opened. assert (conn_local_stream c' id = conn_local_stream c id) as ->
      by (unfold conn_local_stream; by rewrite Hsv).
    destruct (conn_local_stream c id); [|by rewrite Hidtr]. destruct (bidi_stream id); lia. }
  split; [|done]. split.
  - intros bidi. by rewrite Hidtr, Hsv.
  - destruct id_next0 as (k & ? & ?). exists (k + n). rewrite Hsv. lia.
  - destruct id_next_uni0 as (k & ? & ?). exists (k + n'). rewrite Hsv. lia.
  - rewrite Hmb, Hmu. lia.
  - intros id Hid Hno. rewrite Hud. auto.
Qed.

(** A new stream, up to what follows the initialisation. *)
Lemma wp_open_stream {B} reliable x c M id ud (k : positive -> Monad.M (ngtcp2_conn A) B) Q E :
  conn_ok reliable x c -> streams_ok av x c M -> M !! id = None ->
  (forall strm map m, Z.of_nat (size (conn_strm_heap c)) < MAX_STREAMS ->
    fresh_strm id strm -> (reliable = true -> mem_reliable m) ->
    map_repr map (<[id := mk_map_entry id (conn_next c)]> M) -> map_tablelen map <= 2 ^ 30 ->
    wp (k (conn_next c)) Q E (set_conn_strms map (set_conn_mem m
      (set_conn_strm_heap (<[conn_next c := strm]> (conn_strm_heap c))
        (set_conn_next (Pos.succ (conn_next c)) c))))) ->
  (forall c', api_post reliable x c c' -> E NGTCP2_ERR_NOMEM c') ->
  wp (p ← new_address; ngtcp2_conn_init_stream p id ud;; k p) Q E c.
Proof.
  intros Hok Hs Hno HQ HE. wp_step. apply (wp_new_address av reliable x); [done | |auto].
  intros m c1 [Hok1 Hf1] Hsize. wp_step.
  apply (wp_init_stream reliable _ M);
    [apply Hs | apply Hs | by eapply streams_size | apply Hok1 | | done | |].
  - destruct (conn_strm_heap c1 !! conn_next c) as [s|] eqn:Es; [|done].
    destruct (st_heap _ _ _ _ Hs _ _ Es) as (_ & ? & _). lia.
  - intros strm map m' Hf Hm' Hrepr Ht. by apply HQ.
  - intros m' Hm'. apply HE. eapply (api_post_trans av); [exact Hf1 | by apply mem_ok].
Qed.

Lemma fresh_strm_ok id strm : is_uint 62 id -> fresh_strm id strm -> strm_ok strm.
Proof. intros Hid []. split; congruence. Qed.

Lemma open_bidi_ok ud : api_ok (ngtcp2_conn_open_bidi_stream ud).
Proof.
  intros reliable x c Hok. unfold ngtcp2_conn_open_bidi_stream. wp_step. wp_step. wp_step. wp_step;
    [by apply api_post_refl|]. rewrite Z.ltb_ge in *.
  destruct (co_streams _ _ _ _ Hok) as [M Hs]. pose proof (co_ids _ _ _ _ Hok) as Hids.
  pose proof (id_next _ _ Hids) as (k & Hk & Hnext). pose proof (id_max _ _ Hids) as Hmax.
  assert (Hid : is_uint 62 (conn_next_local_stream_id_bidi c)) by (destruct (conn_server c); clia).
  assert (Hlocal : conn_local_stream c (conn_next_local_stream_id_bidi c) = true /\
    bidi_stream (conn_next_local_stream_id_bidi c) = true).
  { rewrite Hnext, local_stream_mod, bidi_stream_mod by (destruct (conn_server c); lia).
    by destruct (conn_server c). }
  assert (Hno : ~ id_opened c (conn_next_local_stream_id_bidi c))
    by (unfold id_opened; destruct Hlocal as [-> ->]; lia).
  apply (wp_open_stream reliable x c M); [done | done | by eapply not_opened_not_found | |auto].
  intros strm map m Hsize Hf Hm Hrepr Ht. wp_go. cbn [conn_next_local_stream_id_bidi set_conn_strms
    set_conn_mem set_conn_strm_heap set_conn_next]. rewrite u64_small by clia.
  set (c' := set_conn_next_local_stream_id_bidi _ _).
  destruct (next_local_ok c c') as [Hids' Hmono]; try done; [exists 1; simpl; lia | exists 0; simpl; lia |].
  eapply (add_stream_post av reliable x c c' M _ strm); try done.
  - unfold id_opened. change (conn_local_stream c' (conn_next_local_stream_id_bidi c))
      with (conn_local_stream c (conn_next_local_stream_id_bidi c)). destruct Hlocal as [-> ->]. simpl. lia.
  - by eapply fresh_strm_ok.
  - apply Hf.
  - apply Hf.
  - apply Hf.
Qed.

Lemma open_uni_ok ud : api_ok (ngtcp2_conn_open_uni_stream ud).
Proof.
  intros reliable x c Hok. unfold ngtcp2_conn_open_uni_stream. wp_step. wp_step. wp_step. wp_step;
    [by apply api_post_refl|]. rewrite Z.ltb_ge in *.
  destruct (co_streams _ _ _ _ Hok) as [M Hs]. pose proof (co_ids _ _ _ _ Hok) as Hids.
  pose proof (id_next_uni _ _ Hids) as (k & Hk & Hnext). pose proof (id_max _ _ Hids) as Hmax.
  assert (Hid : is_uint 62 (conn_next_local_stream_id_uni c)) by (destruct (conn_server c); clia).
  assert (Hlocal : conn_local_stream c (conn_next_local_stream_id_uni c) = true /\
    bidi_stream (conn_next_local_stream_id_uni c) = false).
  { rewrite Hnext, local_stream_mod, bidi_stream_mod by (destruct (conn_server c); lia).
    by destruct (conn_server c). }
  assert (Hno : ~ id_opened c (conn_next_local_stream_id_uni c))
    by (unfold id_opened; destruct Hlocal as [-> ->]; lia).
  apply (wp_open_stream reliable x c M); [done | done | by eapply not_opened_not_found | |auto].
  intros strm map m Hsize Hf Hm Hrepr Ht. wp_go. eapply wp_update_strm; [apply lookup_insert_eq|].
  wp_go. cbn [conn_next_local_stream_id_uni set_conn_strms
    set_conn_mem set_conn_strm_heap set_conn_next conn_strm_heap]. rewrite u64_small by clia.
  rewrite insert_insert_eq. set (strm' := ngtcp2_strm_shutdown _ _).
  set (c' := set_conn_next_local_stream_id_uni _ _).
  destruct (next_local_ok c c') as [Hids' Hmono]; try done; [exists 0; simpl; lia | exists 1; simpl; lia |].
  eapply (add_stream_post av reliable x c c' M _ strm'); try done.
  - unfold id_opened. change (conn_local_stream c' (conn_next_local_stream_id_uni c))
      with (conn_local_stream c (conn_next_local_stream_id_uni c)). destruct Hlocal as [-> ->]. simpl. lia.
  - by destruct (fresh_strm_ok _ _ Hid Hf); split.
  - apply Hf.
  - eapply delivered_rob, Hf. done.
  - apply Hf.
Qed.

(** A change of members the invariant does not speak of. *)
Ltac api_other := let r := fresh in let x := fresh in let c := fresh in let H := fresh in
  apply api_modify; intros r x c H; split; [keep_ok H | keep_frame].

Lemma set_flag_ok flag : api_ok (conn_set_flag flag).
Proof. api_other. Qed.

Lemma frq_push_ok fr : api_ok (conn_frq_push fr).
Proof. api_other. Qed.

Lemma chain_new_ok : api_ok ngtcp2_frame_chain_new.
Proof. intros reliable x c Hok. by apply (malloc_ok av reliable x). Qed.

Lemma set_keys_ok ckm set key iv :
  (forall km, km_iv km = iv -> api_ok (modify (set (Some km)))) -> api_ok (set_keys ckm set key iv).
Proof.
  intros Hset reliable x c Hok. unfold set_keys. wp_step. wp_step.
  destruct (ckm c); [wp_go; by apply api_post_refl|]. wp_step. unfold with_mem, wp at 1, ngtcp2_crypto_km_new.
  pose proof (fun H => mem_alloc_reliable _ (co_mem _ _ _ _ Hok H)) as Hm.
  assert (api_post reliable x c (set_conn_mem (mem_alloc (conn_mem c)).2 c)) as Hp
    by (apply mem_ok; [done | naive_solver]).
  destruct (mem_alloc (conn_mem c)) as [[] m]; simpl in *; [|done].
  eapply wp_api; [by apply Hset | done | auto..].
Qed.

Lemma set_keys_api key iv : iv_ok iv ->
  api_ok (ngtcp2_conn_set_handshake_tx_keys key iv) /\ api_ok (ngtcp2_conn_set_handshake_rx_keys key iv) /\
  api_ok (ngtcp2_conn_update_early_keys key iv) /\ api_ok (ngtcp2_conn_update_tx_keys key iv) /\
  api_ok (ngtcp2_conn_update_rx_keys key iv).
Proof.
  intros Hiv. split_and!; apply set_keys_ok; intros km Hkm; apply api_modify; intros reliable x c Hok;
    (split; [|keep_frame]); assert (ckm_ok (Some km)) by (intros ? [= <-]; by rewrite Hkm);
    destruct Hok as [[M []] [] ? ? ? ? Hk ? ?];
    unfold keys_ok, conn_keys in Hk; rewrite !Forall_cons in Hk; destruct Hk as (? & ? & ? & ? & ? & _); 
    (split; [exists M; split | split | ..]; try assumption); repeat (apply Forall_cons_2; [assumption|]); apply Forall_nil_2.
Qed.

(** The limits of stream IDs that the peer announces. *)
Lemma apply_remote_params_ok params :
  params_ok params -> api_ok (conn_apply_remote_params params).
Proof.
  intros (Hb & Hu & Ht). apply api_modify. intros reliable x c [[M []] [] ? ? ? ? ? ? ?]. split; [|keep_frame].
  split; [exists M; split | split | ..]; try assumption; [simpl; clia|].
  split; [apply co_token0 | done].
Qed.

Lemma set_remote_params_ok exttype params :
  call_ok (api_set_remote_transport_params exttype params) ->
  api_ok (ngtcp2_conn_set_remote_transport_params exttype params).
Proof.
  intros (Hpar & Hee) reliable x c Hok. unfold ngtcp2_conn_set_remote_transport_params. wp_step. wp_step.
  wp_step.
  assert (Hrest : wp (conn_apply_remote_params params;;
      c ← get;
      update_strm (conn_strm0 c) (fun strm => set_max_tx_offset strm (s_max_stream_data (conn_remote_settings c)));;
      conn_set_flag NGTCP2_CONN_FLAG_TRANSPORT_PARAM_RECVED)
    (fun _ => api_post reliable x c) (fun _ => api_post reliable x c) c).
  { wp_step. eapply wp_api; [by apply apply_remote_params_ok | by apply api_post_refl | |auto].
    intros _ c1 _ [Hok1 Hf1]. wp_step. wp_step. wp_step.
    destruct (co_streams _ _ _ _ Hok1) as [M Hs]. destruct (st_zero _ _ _ _ Hs) as (s0 & Hs0 & Hid0 & Hfl0).
    eapply wp_update_strm; [done|]. apply (wp_api _ reliable x c); [apply set_flag_ok | | auto..].
    eapply (api_post_trans av); [done|]. apply (store_strm_ok av _ _ _ _ s0); [done | done | by split |].
    by destruct (st_heap _ _ _ _ Hs _ _ Hs0) as ([] & _). }
  destruct (_ =? _); [apply wp_throw_if; intros _; [by apply api_post_refl | exact Hrest]|].
  destruct (Z.eqb_spec exttype NGTCP2_TRANSPORT_PARAMS_TYPE_ENCRYPTED_EXTENSIONS) as [->|].
  - wp_step. wp_step; [by apply api_post_refl|]. wp_step. destruct (Hee eq_refl) as (v & vs & Hv).
    unfold conn_client_validate_transport_params. rewrite Hv.
    destruct (negb _); [by apply api_post_refl|]. destruct (existsb _ _); [exact Hrest | by apply api_post_refl].
  - destruct (_ =? _); [apply wp_throw_if; intros _; [by apply api_post_refl | exact Hrest]|]. wp_go. by apply api_post_refl.
Qed.

Lemma set_early_params_ok params :
  call_ok (api_set_early_remote_transport_params params) ->
  api_ok (ngtcp2_conn_set_early_remote_transport_params params).
Proof.
  intros Hpar reliable x c Hok. unfold ngtcp2_conn_set_early_remote_transport_params.
  wp_step. wp_step. wp_step. wp_step; [by apply api_post_refl|]. by apply apply_remote_params_ok.
Qed.

Lemma get_local_params_ok v exttype : api_ok (ngtcp2_conn_get_local_transport_params v exttype).
Proof.
  intros reliable x c Hok. unfold ngtcp2_conn_get_local_transport_params. wp_step. wp_step. wp_step.
  pose proof (api_post_refl _ _ _ Hok) as Hrefl.
  assert (Hrest : forall v, wp (let '(params, settings) :=
      transport_params_copy_from_settings v (conn_local_settings c) in
      modify (set_conn_local_settings settings);; mret params)
    (fun _ => api_post reliable x c) (fun _ => api_post reliable x c) c).
  { intros v'. simpl. wp_go. split; [keep_ok Hok | keep_frame]. }
  repeat (destruct (_ =? _); [wp_go; [exact Hrefl | apply Hrest]|]). by wp_go.
Qed.

(** ** Shutting streams down *)

Lemma has_bit_lor b m n : m .& n = 0 -> has_bit (b .| m) n = has_bit b n.
Proof. intros H. unfold has_bit. by rewrite Z.land_lor_distr_l, H, Z.lor_0_r. Qed.

(** The function is called with a pointer to a live stream. *)
Definition strm_api_ok {B} (m : positive -> Monad.M (ngtcp2_conn A) B) : Prop :=
  forall reliable x c p strm, conn_ok reliable x c -> conn_strm_heap c !! p = Some strm ->
    wp (m p) (fun _ => api_post reliable x c) (fun _ => api_post reliable x c) c.

(** A live stream stays live during a call of the API. *)
Lemma api_live reliable x c c' p strm :
  api_post reliable x c c' -> conn_strm_heap c !! p = Some strm ->
  exists strm', conn_strm_heap c' !! p = Some strm' /\ strm_frame strm strm'.
Proof. intros [_ Hf] Hp. by apply (af_heap _ _ (proj1 Hf)). Qed.

Lemma strm_ok_at reliable x c p strm : conn_ok reliable x c -> conn_strm_heap c !! p = Some strm -> strm_ok strm.
Proof. intros [[M Hs] _ _ _ _ _ _ _ _] Hp. by destruct (st_heap _ _ _ _ Hs _ _ Hp) as (? & _). Qed.

(** A change of the members of a stream the receiver does not look at. *)
Lemma wp_set_strm reliable x c p strm strm' (Q : unit -> ngtcp2_conn A -> Prop) E :
  conn_ok reliable x c -> conn_strm_heap c !! p = Some strm -> strm_frame strm strm' ->
  strm_acked_tx_offset strm' = strm_acked_tx_offset strm ->
  (forall c', conn_strm_heap c' !! p = Some strm' -> api_post reliable x c c' -> Q tt c') ->
  wp (store_strm p strm') Q E c.
Proof.
  intros Hok Hp Hf Hg HQ. eapply wp_store_strm; [done|]. apply HQ.
  - simpl. by rewrite lookup_insert_eq.
  - apply (store_strm_ok av _ _ _ _ strm); try done. rewrite Hg. by destruct (strm_ok_at _ _ _ _ _ Hok Hp).
Qed.

(** Two calls, one after the other. *)
Lemma wp_api_then {B C} (m : Monad.M (ngtcp2_conn A) B) (k : B -> Monad.M (ngtcp2_conn A) C) reliable x c0 c :
  api_ok m -> api_post reliable x c0 c ->
  (forall b c', api_post reliable x c c' -> api_post reliable x c0 c' ->
    wp (k b) (fun _ => api_post reliable x c0) (fun _ => api_post reliable x c0) c') ->
  wp (m ≫= k) (fun _ => api_post reliable x c0) (fun _ => api_post reliable x c0) c.
Proof. intros Hm Hp Hk. wp_step. eapply wp_api; [done | done | auto..]. Qed.

Lemma rst_stream_ok code : strm_api_ok (fun p => conn_rst_stream p code).
Proof.
  intros reliable x c p strm Hok Hp. unfold conn_rst_stream.
  apply (wp_api_then _ _ reliable x c c); [apply chain_new_ok | by apply api_post_refl|].
  intros ? c1 H1 _. destruct (api_live _ _ _ _ _ _ H1 Hp) as (s1 & Hp1 & _). wp_step.
  eapply wp_load_strm; [done|]. eapply wp_api; [apply frq_push_ok | exact H1 | auto..].
Qed.

Lemma stop_sending_ok code : strm_api_ok (fun p => conn_stop_sending p code).
Proof.
  intros reliable x c p strm Hok Hp. unfold conn_stop_sending.
  apply (wp_api_then _ _ reliable x c c); [apply chain_new_ok | by apply api_post_refl|].
  intros ? c1 H1 _. destruct (api_live _ _ _ _ _ _ H1 Hp) as (s1 & Hp1 & _). wp_step.
  eapply wp_load_strm; [done|]. apply (wp_api_then _ _ reliable x c c1); [apply frq_push_ok | done|].
  intros _ c2 _ H2. eapply wp_api; [|exact H2|auto..]. intros reliable' x' c' Hok'. apply (wp_fc_unlink av reliable' x'); [done | by apply fc_unlink_ok].
Qed.

Lemma shutdown_write_ok code : strm_api_ok (fun p => conn_shutdown_stream_write p code).
Proof.
  intros reliable x c p strm Hok Hp. unfold conn_shutdown_stream_write. wp_step. eapply wp_load_strm; [done|].
  destruct (has_bit _ _); [wp_go; by apply api_post_refl|]. wp_step.
  apply (wp_set_strm reliable x c p strm); [done | done | split; try done; by apply has_bit_lor | done|].
  intros c1 Hp1 H1. eapply wp_mono; [by apply (rst_stream_ok code reliable x c1 p _ (proj1 H1) Hp1) | |];
    intros ? ? H; (eapply (api_post_trans av); [apply H1 | exact H]).
Qed.

Lemma shutdown_read_ok code : strm_api_ok (fun p => conn_shutdown_stream_read p code).
Proof.
  intros reliable x c p strm Hok Hp. unfold conn_shutdown_stream_read. wp_step. eapply wp_load_strm; [done|].
  destruct (has_bit _ _); [wp_go; by apply api_post_refl|]. wp_step.
  apply (wp_set_strm reliable x c p strm); [done | done | split; try done; by apply has_bit_lor | done|].
  intros c1 Hp1 H1. eapply wp_mono; [by apply (stop_sending_ok code reliable x c1 p _ (proj1 H1) Hp1) | |];
    intros ? ? H; (eapply (api_post_trans av); [apply H1 | exact H]).
Qed.

(** The functions that look the stream up. *)
Lemma get_stream_ok {B} id (k : positive -> Monad.M (ngtcp2_conn A) B) :
  strm_api_ok k -> api_ok (p ← conn_get_stream id; k p).
Proof.
  intros Hk reliable x c Hok. wp_step. unfold conn_get_stream. wp_step.
  apply (wp_find_live av reliable x); [done | wp_go; by apply api_post_refl|].
  intros p strm Hp _ _. wp_go. by apply (Hk _ _ _ _ strm).
Qed.

Lemma throw_if_ok {B} b e (m : Monad.M (ngtcp2_conn A) B) : api_ok m -> api_ok (throw_if b e;; m).
Proof. intros Hm. apply api_bind; [apply api_throw_if | done]. Qed.

Lemma shutdown_stream_ok id code : api_ok (ngtcp2_conn_shutdown_stream id code).
Proof.
  apply throw_if_ok, get_stream_ok. intros reliable x c p strm Hok Hp. wp_step.
  eapply wp_mono; [by apply (shutdown_read_ok code reliable x c p strm) | |auto].
  intros ? c1 H1. destruct (api_live _ _ _ _ _ _ H1 Hp) as (s1 & Hp1 & _).
  eapply wp_mono; [by apply (shutdown_write_ok code reliable x c1 p _ (proj1 H1) Hp1) | |];
    intros ? ? H; (eapply (api_post_trans av); [apply H1 | exact H]).
Qed.

Lemma extend_strm_ok datalen : strm_api_ok (fun p => conn_extend_max_stream_offset p datalen).
Proof.
  intros reliable x c p strm Hok Hp. unfold conn_extend_max_stream_offset. wp_step.
  eapply wp_load_strm; [done|]. wp_step.
  apply (wp_set_strm reliable x c p strm); [done | done | by destruct (_ <=? _) | by destruct (_ <=? _)|].
  intros c1 Hp1 H1. wp_step. wp_step. destruct (_ && _); [|wp_go; exact H1]. wp_step.
  apply (wp_access_strms av reliable x); [apply H1 | apply subseteq_take |].
  eapply (api_post_trans av); [apply H1|]. by eapply fc_push_ok; [apply H1|].
Qed.

(** ** Programs *)

Lemma run_call_ok call : call_ok call -> api_ok (run_call call).
Proof.
  intros Hc. destruct call; cbn [run_call].
  - apply set_flag_ok.
  - apply set_flag_ok.
  - unfold ngtcp2_conn_set_aead_overhead. api_other.
  - by apply set_keys_api.
  - by apply set_keys_api.
  - by apply set_keys_api.
  - by apply set_keys_api.
  - by apply set_keys_api.
  - by apply set_remote_params_ok.
  - by apply set_early_params_ok.
  - apply api_bind; [apply get_local_params_ok | intros; apply api_ret].
  - apply api_bind; [apply open_bidi_ok | intros; apply api_ret].
  - apply api_bind; [apply open_uni_ok | intros; apply api_ret].
  - apply shutdown_stream_ok.
  - apply throw_if_ok, get_stream_ok, shutdown_write_ok.
  - apply throw_if_ok, get_stream_ok, shutdown_read_ok.
  - apply get_stream_ok, extend_strm_ok.
  - apply api_modify. intros reliable x c Hok. destruct (_ || _); (split; [keep_ok Hok | keep_frame]).
Qed.

Lemma run_prog_ok {R} (p : prog A R) : prog_ok p ->
  forall reliable x c0 c, api_post reliable x c0 c ->
  wp (run_prog p) (fun _ => api_post reliable x c0) (fun _ _ => False) c.
Proof.
  induction p as [r|call k IH]; intros Hp reliable x c0 c H; simpl; [by wp_go|].
  destruct Hp as [Hc Hk]. wp_step. wp_step.
  eapply wp_api; [by apply run_call_ok | exact H | |]; intros ? c1 _ H1; wp_step; wp_step; by apply IH.
Qed.

Lemma run_prog_ends {R} (P : R -> Prop) (p : prog A R) c (Q : R -> ngtcp2_conn A -> Prop) E :
  prog_ends P p -> wp (run_prog p) Q E c -> wp (run_prog p) (fun r c' => P r /\ Q r c') E c.
Proof.
  revert c. induction p as [r|call k IH]; intros c Hp H; [exact (conj Hp H)|].
  assert (Heq : forall Q', wp (run_prog (p_call call k)) Q' E c =
    match run_call call c with
    | ret _ c1 => wp (run_prog (k 0 c1)) Q' E c1
    | fail e c1 => wp (run_prog (k e c1)) Q' E c1
    | undef => False
    end).
  { intros Q'. unfold wp. simpl. unfold mbind, M_bind, status, attempt, get, mbind, M_bind. by destruct (run_call call c). }
  rewrite Heq in *. destruct (run_call call c); [apply IH; [apply Hp | done].. | done].
Qed.

(** ** Callbacks *)

Lemma conn_frame_user_data c a : conn_frame c (set_conn_user_data a c).
Proof. split; try done. intros p strm Hp. by exists strm. Qed.

Lemma user_data_ok reliable x c a :
  conn_ok reliable x c -> (forall id, av_log av a id = av_log av (conn_user_data c) id) ->
  api_post reliable x c (set_conn_user_data a c).
Proof.
  intros [[M []] [] ? ? ? ? ? ? ?] Hlog. split; [|split; [by apply conn_frame_user_data | apply Hlog]].
  split; [exists M; split | split | ..]; try assumption.
  - intros p strm Hp. destruct (st_heap0 p strm Hp) as (? & ? & ? & Hd). split_and!; try done.
    intros Hx. destruct (Hd Hx) as (frs & H' & ?). exists frs. simpl. by rewrite Hlog.
  - intros id Hid Hno. simpl. rewrite Hlog. by apply id_fresh0.
Qed.

(** A callback that does not change what has been received. *)
Definition quiet {X} (f : ngtcp2_conn A -> X -> prog A (A * Z)) : Prop := forall c y,
  prog_ok (f c y) /\
  prog_ends (fun r => forall id, av_log av r.1 id = av_log av (conn_user_data c) id) (f c y).

(** The callback for the data of the stream [id y]: unless it fails, the
    application has got [data y]. *)
Definition receiver {X} (id : X -> Z) (data : X -> bytes) (f : ngtcp2_conn A -> X -> prog A (A * Z)) : Prop :=
  forall c y, prog_ok (f c y) /\
  prog_ends (fun r => r.2 = 0 -> forall i, av_log av r.1 i =
    if decide (i = id y) then av_log av (conn_user_data c) i ++ data y
    else av_log av (conn_user_data c) i) (f c y).

Lemma invoke_quiet {X} (f : ngtcp2_conn A -> X -> prog A (A * Z)) y reliable x c0 c
    (Q : Z -> ngtcp2_conn A -> Prop) E :
  quiet f -> api_post reliable x c0 c ->
  (forall rv c', api_post reliable x c c' -> api_post reliable x c0 c' -> Q rv c') ->
  wp (invoke f y) Q E c.
Proof.
  intros Hf [Hok Hfr] HQ. destruct (Hf c y) as [Hp He]. unfold invoke. wp_step. wp_step. wp_step.
  eapply wp_mono; [exact (run_prog_ends _ _ _ _ _ He (run_prog_ok _ Hp reliable x c c (api_post_refl _ _ _ Hok))) | | done].
  intros [a rv] c1 [Hlog [Hok1 Hf1]]. wp_go. simpl in Hlog.
  destruct (user_data_ok reliable x c1 a Hok1) as [Hok2 Hf2].
  { intros id. rewrite Hlog. symmetry. apply Hf1. }
  assert (api_frame av c (set_conn_user_data a c1)) by (by etrans).
  apply HQ; split; try done. by etrans.
Qed.

Definition quiet_opt {X} (f : option (ngtcp2_conn A -> X -> prog A (A * Z))) : Prop :=
  match f with None => True | Some f => quiet f end.

Lemma conn_call_post {X} (f : option (ngtcp2_conn A -> X -> prog A (A * Z))) y reliable x c :
  quiet_opt f -> conn_ok reliable x c ->
  wp (conn_call f y) (fun _ => api_post reliable x c)
    (fun e c' => e = NGTCP2_ERR_CALLBACK_FAILURE /\ api_post reliable x c c') c.
Proof.
  destruct f as [f|]; intros Hf Hok; simpl; [|wp_go; by apply api_post_refl].
  wp_step. apply (invoke_quiet _ _ reliable x c); [done | by apply api_post_refl|].
  intros rv c' _ H. by wp_go.
Qed.

Lemma conn_call_quiet {X} (f : option (ngtcp2_conn A -> X -> prog A (A * Z))) y :
  quiet_opt f -> api_ok (conn_call f y).
Proof.
  intros Hf reliable x c Hok. eapply wp_mono; [by apply conn_call_post | done | by intros e c' []].
Qed.
End Api.
