(* ===== verification/ConnStream.v ===== *)
(** The handlers of frames that concern streams: delivery of stream data to the
    application, flow control, and closing. Whatever the callbacks do with the
    API, the invariant of the connection is kept, no handler accesses a stream
    that has been freed, and no assertion fails. *)

From S2P Require Import Prelude Conv Frame PktDecode PktHd Mem Monad Range Gaptr Idtr Ringbuf AckScan.
From S2P Require Import Acktr Pq Rtb Map Rob Crypto Ppe Strm Conn ConnAck ConnApp ConnInv.

(** The application takes note of the data it gets, and the other callbacks leave
    what it has got alone. *)
Record callbacks_ok {A} (av : app_view A) (cb : ngtcp2_conn_callbacks A) : Prop := {
  cbo_recv_stream_data : exists f, cb_recv_stream_data cb = Some f /\
    receiver av (fun y => y.1.1.1) (fun y => y.1.2) f;
  cbo_recv_stream0_data : receiver av (fun _ => 0) id (cb_recv_stream0_data cb);
  cbo_stream_close : quiet_opt av (cb_stream_close cb);
  cbo_extend_max_stream_id : quiet_opt av (cb_extend_max_stream_id cb);
  cbo_acked_stream_data_offset : quiet_opt av (cb_acked_stream_data_offset cb);
  cbo_recv_pkt : quiet_opt av (cb_recv_pkt cb);
  cbo_recv_frame : quiet_opt av (cb_recv_frame cb);
  cbo_recv_stateless_reset : quiet_opt av (cb_recv_stateless_reset cb)
}.

Section Streams.
Context {A : Type} (av : app_view A) (cb : ngtcp2_conn_callbacks A) (Hcb : callbacks_ok av cb).
Implicit Types (c : ngtcp2_conn A) (strm : ngtcp2_strm Z).
Abbreviation conn_ok := (conn_ok av).
Abbreviation api_post := (api_post av).
Abbreviation log c := (av_log av (conn_user_data c)).
Abbreviation content := (av_content av).

(** ** Data for the application *)

(** The state after a callback has taken [data] of the stream at [p]. *)
Record got reliable c (p : positive) strm (data : bytes) c' : Prop := {
  got_ok : conn_ok reliable (Some p) c';
  got_frame : conn_frame c c';
  got_log : log c' (strm_stream_id strm) = log c (strm_stream_id strm) ++ data
}.

Lemma got_data_ok reliable c p strm a data :
  conn_ok reliable (Some p) c -> conn_strm_heap c !! p = Some strm ->
  (forall i, av_log av a i = if decide (i = strm_stream_id strm) then log c i ++ data else log c i) ->
  got reliable c p strm data (set_conn_user_data a c).
Proof.
  intros [[M []] [] ? ? ? ? ? ? ?] Hp Hlog. split; [|by apply conn_frame_user_data | by rewrite Hlog, decide_True].
  split; [exists M; split | split | ..]; try assumption.
  - intros q s Hq. destruct (st_heap q s Hq) as (? & ? & ? & Hd). split_and!; try done.
    intros Hne. destruct (Hd Hne) as (frs & H' & ?). exists frs. simpl. rewrite Hlog, decide_False; [done|].
    intros Heq. apply Hne. f_equal. by apply (st_unique p q strm s).
  - intros id Hid Hno. simpl. rewrite Hlog. destruct (decide _) as [->|]; [|by apply id_fresh].
    destruct Hno. by apply (st_heap p).
Qed.

Lemma invoke_receiver {X} (id : X -> Z) (data : X -> bytes) f y reliable c p strm
    (Q : Z -> ngtcp2_conn A -> Prop) E :
  receiver av id data f -> conn_ok reliable (Some p) c -> conn_strm_heap c !! p = Some strm ->
  id y = strm_stream_id strm ->
  (forall rv c', (rv = 0 -> got reliable c p strm (data y) c') -> Q rv c') ->
  wp (invoke f y) Q E c.
Proof.
  intros Hf Hok Hp Hid HQ. destruct (Hf c y) as [Hprog He]. unfold invoke. wp_step. wp_step. wp_step.
  eapply wp_mono; [exact (run_prog_ends _ _ _ _ _ He (run_prog_ok av _ Hprog reliable (Some p) c c
    (api_post_refl av _ _ _ Hok))) | | done].
  intros [a rv] c1 [Hlog [Hok1 [Hf1 Hlog1]]]. wp_go. simpl in Hlog. apply HQ. intros ->.
  destruct (af_heap _ _ Hf1 _ _ Hp) as (s1 & Hp1 & Hs1). destruct Hs1.
  destruct (got_data_ok reliable c1 p s1 a (data y) Hok1 Hp1) as [Hok2 Hf2 Hlog2].
  { intros i. rewrite Hlog by done. rewrite Hlog1, Hid, sf_id. done. }
  split; [done | by etrans|]. by rewrite <- sf_id, Hlog2, Hlog1.
Qed.

Lemma recv_stream_data_cb reliable c p strm fin data (Q : unit -> ngtcp2_conn A -> Prop) (E : Z -> ngtcp2_conn A -> Prop) :
  conn_ok reliable (Some p) c -> conn_strm_heap c !! p = Some strm ->
  (forall c', got reliable c p strm data c' -> Q tt c') -> (forall c', E NGTCP2_ERR_CALLBACK_FAILURE c') ->
  wp (conn_call_recv_stream_data cb p fin data) Q E c.
Proof.
  intros Hok Hp HQ HE. destruct (cbo_recv_stream_data _ _ Hcb) as (f & Hf & Hr).
  unfold conn_call_recv_stream_data, conn_call. rewrite Hf. wp_step. eapply wp_load_strm; [done|]. wp_step.
  eapply invoke_receiver; [done | done | done | done|]. intros rv c' H. wp_go; [apply HE|].
  apply HQ, H. destruct (Z.eqb_spec rv 0); done.
Qed.

Lemma recv_stream0_data_cb reliable c p strm data (Q : unit -> ngtcp2_conn A -> Prop) (E : Z -> ngtcp2_conn A -> Prop) :
  conn_ok reliable (Some p) c -> conn_strm_heap c !! p = Some strm -> strm_stream_id strm = 0 ->
  (forall c', got reliable c p strm data c' -> Q tt c') -> (forall e c', E e c') ->
  wp (conn_call_recv_stream0_data cb data) Q E c.
Proof.
  intros Hok Hp H0 HQ HE. unfold conn_call_recv_stream0_data. wp_step.
  eapply invoke_receiver; [apply Hcb | done | done | by rewrite H0|]. intros rv c' H.
  destruct (_ || _); wp_go; try apply HE. by apply HQ, H.
Qed.

(** ** Emission *)

(** What delivery leaves alone: the streams in the table, and the packets to
    acknowledge. *)
Record stays c0 c : Prop := {
  sy_mapped : forall id e, mapped c0 id e -> mapped c id e;
  sy_acktr : conn_acktr c = conn_acktr c0
}.

Lemma stays_refl c : stays c c.
Proof. done. Qed.

Lemma stays_frame c0 c c' : stays c0 c -> conn_frame c c' -> stays c0 c'.
Proof. intros [Hm Ha] []. split; [auto | congruence]. Qed.

(** The same for parts of the state that have nothing to do with either. *)
Lemma stays_same c0 c c' : stays c0 c -> conn_strms c' = conn_strms c -> conn_acktr c' = conn_acktr c -> stays c0 c'.
Proof. intros [Hm Ha] Hs Hac. split; [unfold mapped; by rewrite Hs | congruence]. Qed.

Section Delivery.
Context (c0 : ngtcp2_conn A).

(** What goes wrong when there is memory, and the data is that of a stream, other
    than stream 0, that was in the table: a callback fails. *)
Definition only_cb reliable (id : Z) (e : Z) c : Prop :=
  reliable = true -> id <> 0 -> (exists m, mapped c0 id m) -> e = NGTCP2_ERR_CALLBACK_FAILURE.

Lemma only_cb_failure reliable id c : only_cb reliable id NGTCP2_ERR_CALLBACK_FAILURE c.
Proof. done. Qed.

Lemma only_cb_zero reliable e c : only_cb reliable 0 e c.
Proof. by intros _ []. Qed.
Hint Resolve only_cb_failure only_cb_zero : core.

Lemma exempt reliable c p : conn_ok reliable None c -> conn_ok reliable (Some p) c.
Proof.
  intros [[M []] ? ? ? ? ? ? ? ?]. split; try assumption. exists M. split; try assumption.
  intros q s Hq. destruct (st_heap q s Hq) as (? & ? & ? & Hd). split_and!; try done. intros _. by apply Hd.
Qed.

(** The stream at [p] is back in order: of the frames [frs], all that could be
    delivered has been. *)
Record emitted reliable (p : positive) (id : Z) (frs : list ngtcp2_stream) c : Prop := {
  em_ok : conn_ok reliable None c;
  em_stays : stays c0 c;
  em_strm : exists strm, conn_strm_heap c !! p = Some strm /\ strm_stream_id strm = id /\
    delivered (content id) strm (log c id) frs /\ within frs strm
}.

Lemma emitted_intro reliable c p strm frs :
  conn_ok reliable (Some p) c -> stays c0 c -> conn_strm_heap c !! p = Some strm ->
  delivered (content (strm_stream_id strm)) strm (log c (strm_stream_id strm)) frs -> within frs strm ->
  emitted reliable p (strm_stream_id strm) frs c.
Proof.
  intros [[M []] ? ? ? ? ? ? ? ?] Hst Hp Hd Hin. split; [|done|by exists strm]. split; try assumption. exists M.
  split; try assumption. intros q s Hq. destruct (st_heap q s Hq) as (? & ? & ? & Hd'). split_and!; try done.
  intros _. destruct (decide (q = p)) as [->|Hne]; [|apply Hd'; congruence].
  exists frs. rewrite Hp in Hq. injection Hq as <-. done.
Qed.

(** The offsets the buffer still waits for. *)
Definition waits_for strm (frs : list ngtcp2_stream) : Prop :=
  (forall x, in_gaps (rob_gap (strm_rob strm)) x <-> 0 <= x < UINT64_MAX /\ ~ carried frs x) /\
  within frs strm.

Lemma pending_rob content strm strm' out :
  strm_rob strm' = strm_rob strm -> pending content strm out -> pending content strm' out.
Proof. intros H []. split; rewrite ?H; assumption. Qed.

(** The number of rounds the loop needs. *)
Definition enough_fuel (fuel : nat) strm (out : bytes) : Prop :=
  (length (rob_data (strm_rob strm)) < fuel)%nat \/
  (ngtcp2_strm_rx_offset strm = zlen out /\ (0 < fuel)%nat).

Lemma data_at_chunk rob offset n bs :
  ngtcp2_rob_data_at rob offset = Ok (n, bs) -> n <> 0 -> (0 < length (rob_data rob))%nat.
Proof.
  unfold ngtcp2_rob_data_at. destruct (rob_gap rob); [done|]. destruct (_ <=? _); [by intros [= <- _]|].
  destruct (rob_data rob); [done|]. simpl. lia.
Qed.

(** One round: nothing is left, or the next stretch of data goes to the
    application and leaves the buffer. *)
Lemma next_stretch reliable c p strm :
  conn_ok reliable (Some p) c -> conn_strm_heap c !! p = Some strm ->
  pending (content (strm_stream_id strm)) strm (log c (strm_stream_id strm)) ->
  exists n data, let id := strm_stream_id strm in
    ngtcp2_rob_data_at (strm_rob strm) (zlen (log c id)) = Ok (n, Some <$> data) /\
    zlen data = n /\ zlen (log c id) + n <= ngtcp2_strm_rx_offset strm <= 2 ^ 62 /\
    (n = 0 -> ngtcp2_strm_rx_offset strm = zlen (log c id)) /\
    (n <> 0 -> exists rob, ngtcp2_rob_pop (strm_rob strm) (zlen (log c id)) n = Ok rob /\
      rob_gap rob = rob_gap (strm_rob strm) /\
      pending (content id) (set_rob strm rob) (log c id ++ data) /\
      (S (length (rob_data rob)) = length (rob_data (strm_rob strm)) \/
       zlen (log c id) + n = ngtcp2_strm_rx_offset strm)).
Proof.
  intros Hok Hp Hpd. destruct (pending_data_at _ _ _ Hpd) as (n & Hat & Hn & Hmax & Hz).
  exists n, (stretch (content (strm_stream_id strm)) (zlen (log c (strm_stream_id strm))) n).
  split_and!; [done | by apply zlen_stretch; lia | lia | lia | done|]. intros Hne.
  destruct (pending_pop _ _ _ _ Hpd Hat ltac:(lia) ltac:(lia)) as (rob & ? & ? & ? & ?). by exists rob.
Qed.

Lemma got_api reliable c p strm data c1 c2 :
  got reliable c p strm data c1 -> api_post reliable (Some p) c1 c2 -> got reliable c p strm data c2.
Proof. intros [H1 H2 H3] [H4 [H5 H6]]. split; [done | by etrans | by rewrite H6]. Qed.

(** What remains of a round once the application has the stretch. *)
Lemma pop_stretch reliable frs c p strm data rob fuel c1 (k : M (ngtcp2_conn A) unit) Q E :
  let id := strm_stream_id strm in
  let n := zlen data in
  got reliable c p strm data c1 -> stays c0 c1 -> conn_strm_heap c !! p = Some strm -> waits_for strm frs ->
  zlen (log c id) + n <= ngtcp2_strm_rx_offset strm <= 2 ^ 62 -> n <> 0 ->
  enough_fuel (S fuel) strm (log c id) -> (0 < length (rob_data (strm_rob strm)))%nat ->
  ngtcp2_rob_pop (strm_rob strm) (zlen (log c id)) n = Ok rob ->
  rob_gap rob = rob_gap (strm_rob strm) ->
  pending (content id) (set_rob strm rob) (log c id ++ data) ->
  (S (length (rob_data rob)) = length (rob_data (strm_rob strm)) \/
   zlen (log c id) + n = ngtcp2_strm_rx_offset strm) ->
  (forall strm2 c2, conn_ok reliable (Some p) c2 -> stays c0 c2 -> conn_strm_heap c2 !! p = Some strm2 ->
    strm_stream_id strm2 = id -> zlen (log c id) + n = zlen (log c2 id) ->
    pending (content id) strm2 (log c2 id) -> waits_for strm2 frs -> enough_fuel fuel strm2 (log c2 id) ->
    wp k Q E c2) ->
  wp (strm ← load_strm p;
      rob ← lift (ngtcp2_rob_pop (strm_rob strm) (u64 (zlen (log c id) + n - n)) n);
      store_strm p (set_rob strm rob);; k) Q E c1.
Proof.
  intros id n Hgot Hst Hp Hw Hmax Hne Hfuel Hchunk Hrob Hgap Hpd Hdec Hk. zfacts. pose proof (zlen_nonneg data). fold n in H.
  destruct (af_heap _ _ (got_frame _ _ _ _ _ _ Hgot) _ _ Hp) as (strm1 & Hp1 & []).
  wp_step. eapply wp_load_strm; [done|]. wp_step. wp_step. rewrite u64_small by clia.
  replace (zlen (log c id) + n - n) with (zlen (log c id)) by lia. rewrite sf_rob, Hrob. simpl. wp_step.
  eapply wp_store_strm; [done|]. destruct Hgot as [Hok1 _ Hlog]. fold id in Hlog.
  assert (Hlen : zlen (log c1 id) = zlen (log c id) + n) by (by rewrite Hlog, zlen_app).
  apply (Hk (set_rob strm1 rob)); cbn [conn_user_data set_conn_strm_heap].
  - eapply store_strm_gen; try done. by destruct (strm_ok_at av _ _ _ _ _ Hok1 Hp1).
  - by eapply stays_same.
  - apply lookup_insert_eq.
  - done.
  - done.
  - rewrite Hlog. by eapply pending_rob; [|exact Hpd].
  - split; [simpl; rewrite Hgap; apply Hw | eapply within_mono; [by left | apply Hw]].
  - destruct Hfuel as [Hf|[Hf ?]]; [|lia].
    destruct Hdec as [Hd|Hd]; [left; simpl; lia|]. right. split; [|lia]. rewrite Hlen, Hd.
    unfold ngtcp2_strm_rx_offset, ngtcp2_rob_first_gap_offset. simpl. by rewrite Hgap.
Qed.

Lemma emit_loop_ok reliable frs id fuel : forall c p strm,
  conn_ok reliable (Some p) c -> stays c0 c -> conn_strm_heap c !! p = Some strm -> strm_stream_id strm = id ->
  pending (content id) strm (log c id) -> waits_for strm frs -> enough_fuel fuel strm (log c id) ->
  wp (emit_loop cb fuel p (zlen (log c id))) (fun _ => emitted reliable p id frs) (only_cb reliable id) c.
Proof.
  induction fuel as [|fuel IH]; intros c p strm Hok Hst Hp Hid Hpd Hw Hfuel; [destruct Hfuel; lia|]. simpl.
  subst id. destruct (next_stretch _ _ _ _ Hok Hp Hpd) as (n & data & Hat & <- & Hmax & Hz & Hpop).
  wp_step. eapply wp_load_strm; [done|]. wp_step. wp_step. rewrite Hat. simpl. zfacts.
  destruct (Z.eqb_spec (zlen data) 0) as [E0|Hne].
  { apply wp_assert; [rewrite Hz by done; apply Z.eqb_refl|]. apply emitted_intro; [done | done | done | | apply Hw].
    split; [done | by apply Hz | apply Hw]. }
  destruct (Hpop Hne) as (rob & Hrob & Hgap & Hpd' & Hdec).
  rewrite (u64_small (_ + _)) by clia. wp_step. wp_step. rewrite load_bytes_Some. simpl. wp_step.
  apply (recv_stream_data_cb reliable c p strm); [done | done | | done]. intros c1 Hgot.
  eapply (pop_stretch reliable frs c p strm); try done;
    [by eapply stays_frame, got_frame | by eapply data_at_chunk|].
  intros strm2 c2 Hok2 Hst2 Hp2 Hid2 Hlen Hpd2 Hw2 Hf2. rewrite Hlen. by eapply IH.
Qed.

Lemma emit0_loop_ok reliable frs id fuel : id = 0 -> forall c p strm,
  conn_ok reliable (Some p) c -> stays c0 c -> conn_strm_heap c !! p = Some strm -> strm_stream_id strm = id ->
  pending (content id) strm (log c id) -> waits_for strm frs -> enough_fuel fuel strm (log c id) ->
  wp (emit0_loop cb fuel p (zlen (log c id))) (fun _ => emitted reliable p id frs) (only_cb reliable id) c.
Proof.
  intros Hid0. assert (HE : forall e c, only_cb reliable id e c) by (intros; subst id; apply only_cb_zero).
  induction fuel as [|fuel IH]; intros c p strm Hok Hst Hp Hid Hpd Hw Hfuel; [destruct Hfuel; lia|].
  simpl. destruct Hid. destruct (next_stretch _ _ _ _ Hok Hp Hpd) as (n & data & Hat & <- & Hmax & Hz & Hpop).
  wp_step. eapply wp_load_strm; [done|]. wp_step. wp_step. rewrite Hat. simpl. zfacts.
  destruct (Z.eqb_spec (zlen data) 0) as [E0|Hne].
  { apply wp_assert; [rewrite Hz by done; apply Z.eqb_refl|]. apply emitted_intro; [done | done | done | | apply Hw].
    split; [done | by apply Hz | apply Hw]. }
  destruct (Hpop Hne) as (rob & Hrob & Hgap & Hpd' & Hdec).
  rewrite (u64_small (_ + _)) by clia. wp_step. wp_step. rewrite load_bytes_Some. simpl. wp_step.
  apply (recv_stream0_data_cb reliable c p strm); [done | done | done | | auto]. intros c1 Hgot.
  destruct (af_heap _ _ (got_frame _ _ _ _ _ _ Hgot) _ _ Hp) as (strm1 & Hp1 & Hs1).
  wp_step. eapply wp_update_strm; [done|].
  set (c2 := set_conn_strm_heap _ c1).
  assert (api_post reliable (Some p) c1 c2) as H2.
  { pose proof (got_ok _ _ _ _ _ _ Hgot) as Hok1. apply (store_strm_ok av _ _ _ _ strm1); [done | done | done|].
    by destruct (strm_ok_at av _ _ _ _ _ Hok1 Hp1). }
  wp_step. eapply wp_mono; [eapply (extend_strm_ok av (zlen data) reliable (Some p) c2 p);
    [apply H2 | apply lookup_insert_eq] | | auto].
  intros ? c3 H3. assert (got reliable c p strm data c3) as Hgot3 by (by eapply got_api; [eapply got_api|]).
  eapply (pop_stretch reliable frs c p strm); try done; [by eapply stays_frame, got_frame | by eapply data_at_chunk|].
  intros strm2 c4 Hok4 Hst4 Hp4 Hid4 Hlen Hpd4 Hw4 Hf4. rewrite Hlen. by eapply IH.
Qed.

(** ** Closing *)

(** What closing a stream leaves alone. *)
Definition kept c c' : Prop := conn_rtb_heap c' = conn_rtb_heap c /\ conn_acktr c' = conn_acktr c /\
  forall id, log c' id = log c id.

Lemma wp_strms_remove reliable x c id (Q : unit -> ngtcp2_conn A -> Prop) E :
  conn_ok reliable x c ->
  (forall map, let c' := set_conn_strms map c in conn_ok reliable x c' -> unmapped c' id -> Q tt c') ->
  (forall e c', conn_ok reliable x c' -> kept c c' -> unmapped c id -> E e c') ->
  wp (conn_strms_remove id) Q E c.
Proof.
  intros Hok HQ HE. destruct (co_streams _ _ _ _ Hok) as [M Hs]. pose proof (streams_size _ _ _ _ Hs) as Hsize.
  unfold conn_strms_remove. wp_step. wp_step. wp_step. wp_step.
  destruct (map_remove_repr (conn_strms c) M id (st_map _ _ _ _ Hs)) as (map & rv & Hrm & H);
    [unfold MAX_STREAMS in *; lia|]. pose proof (map_remove_tablelen (conn_strms c) id) as Htl.
  rewrite Hrm in Htl |- *. simpl.
  destruct H as [(-> & _ & Hr)|(-> & Hno & ->)]; wp_go; try done.
  - apply HQ; [|unfold unmapped; by rewrite (map_find_repr _ _ _ Hr), lookup_delete_eq].
    destruct Hok as [_ [] ? ? ? ? ? ? ?], Hs. split; [exists (delete id M); split | split | ..]; try assumption.
    + simpl. lia.
    + intros i e [? He]%lookup_delete_Some. by apply st_map_heap.
    + intros e [? He]%lookup_delete_Some. by apply st_zero_map.
  - apply HE; [keep_ok Hok | done | unfold unmapped; by rewrite (map_find_repr _ _ _ (st_map _ _ _ _ Hs)), Hno].
Qed.

(** A stream nothing refers to any more is freed. *)
Lemma free_strm_ok reliable c p strm :
  conn_ok reliable None c -> conn_strm_heap c !! p = Some strm -> unmapped c (strm_stream_id strm) ->
  p ∉ conn_fc_strms c -> strm_stream_id strm <> 0 ->
  conn_ok reliable None (set_conn_strm_heap (delete p (conn_strm_heap c)) c).
Proof.
  intros [[M []] [] ? ? ? ? ? ? ?] Hp Hun Hfc Hne.
  assert (HM : M !! strm_stream_id strm = None)
    by (unfold unmapped in Hun; rewrite (map_find_repr _ _ _ st_map) in Hun; by injection Hun).
  split; [exists M; split | split | ..]; try assumption; cbn [conn_strm_heap set_conn_strm_heap conn_fc_strms conn_strm0].
  - intros q s [_ Hq]%lookup_delete_Some. by apply st_heap.
  - intros q r s t [_ Hq]%lookup_delete_Some [_ Hr]%lookup_delete_Some. by apply st_unique.
  - rewrite map_size_delete_Some by done. lia.
  - intros i e He. destruct (st_map_heap i e He) as (? & s & Hs & Hi). split; [done|]. exists s.
    split; [|done]. rewrite lookup_delete_ne; [done|]. intros ->. congruence.
  - rewrite Forall_forall in *. intros q Hq. rewrite lookup_delete_ne by (intros ->; done). by apply st_fc.
  - destruct st_zero as (s & Hs & Hs0 & ?). exists s. split; [|done]. rewrite lookup_delete_ne; [done|]. congruence.
Qed.

Lemma extend_remote_id_ok id reliable x c : conn_ok reliable x c ->
  wp (conn_extend_remote_stream_id (A := A) id) (fun _ => api_post reliable x c) (fun _ _ => False) c.
Proof.
  intros Hok. unfold conn_extend_remote_stream_id. wp_step. wp_step.
  destruct (conn_local_stream c id); [wp_go; by apply api_post_refl|].
  destruct (bidi_stream id); wp_go; (split; [keep_ok Hok | keep_frame]).
Qed.

Lemma close_stream_ok reliable c p strm code (Q : unit -> ngtcp2_conn A -> Prop) E :
  conn_ok reliable None c -> conn_strm_heap c !! p = Some strm -> strm_stream_id strm <> 0 ->
  (forall c', conn_ok reliable None c' -> kept c c' -> conn_strm_heap c' !! p = None -> Q tt c') ->
  (forall e c', conn_ok reliable None c' -> kept c c' ->
    e = NGTCP2_ERR_CALLBACK_FAILURE \/ unmapped c (strm_stream_id strm) -> E e c') ->
  wp (ngtcp2_conn_close_stream cb p code) Q E c.
Proof.
  intros Hok Hp Hne HQ HE. unfold ngtcp2_conn_close_stream. wp_step. eapply wp_load_strm; [done|].
  destruct (strm_ok_at av _ _ _ _ _ Hok Hp) as [Hme _ _]. rewrite Hme. wp_step.
  apply (wp_strms_remove reliable None); [done | | auto]. intros map c1 Hok1 Hun1.
  assert (Hsame : forall c', api_frame av c1 c' -> kept c c')
    by (intros c' [Hf Hl]; split_and!; [apply Hf.. | exact Hl]). wp_step.
  unfold conn_call_stream_close. wp_step. eapply wp_load_strm; [done|].
  eapply wp_mono; [apply (conn_call_post av _ _ reliable None c1 (cbo_stream_close _ _ Hcb) Hok1) | |
    intros ? ? (? & ? & ?); apply HE; auto].
  intros ? c2 [Hok2 Hfr2]. pose proof (proj1 Hfr2) as Hf2. destruct (af_heap _ _ Hf2 p strm Hp) as (s2 & Hp2 & Hs2).
  assert (Hun2 : unmapped c2 (strm_stream_id s2)).
  { rewrite (sf_id _ _ Hs2). apply (af_unmapped _ _ Hf2); [|done]. destruct (co_streams _ _ _ _ Hok1) as [M Hs].
    by apply (st_heap _ _ _ _ Hs p). }
  wp_step. eapply wp_load_strm; [done|]. wp_step.
  eapply wp_mono; [apply (extend_remote_id_ok _ reliable None c2 Hok2) | | done].
  intros ? c3 [Hok3 Hfr3]. pose proof (proj1 Hfr3) as Hf3. destruct (af_heap _ _ Hf3 p s2 Hp2) as (s3 & Hp3 & Hs3).
  wp_step. apply (wp_fc_unlink av reliable None); [done|]. pose proof (fc_unlink_ok av reliable None c3 p Hok3) as [Hok4 _].
  set (c4 := set_conn_fc_strms _ c3) in *. wp_step. eapply wp_free_strm; [done|]. unfold conn_immediate_ack_. wp_step.
  assert (Hok5 : conn_ok reliable None (set_conn_strm_heap (delete p (conn_strm_heap c4)) c4)).
  { apply (free_strm_ok reliable c4 p s3); [done | done | | |].
    - rewrite (sf_id _ _ Hs3). apply (af_unmapped _ _ Hf3); [|done]. destruct (co_streams _ _ _ _ Hok2) as [M Hs].
      by apply (st_heap _ _ _ _ Hs p).
    - simpl. rewrite list_elem_of_filter. tauto.
    - rewrite (sf_id _ _ Hs3), (sf_id _ _ Hs2). done. }
  apply HQ; [keep_ok Hok5 | apply (Hsame c3); by etrans | simpl; apply lookup_delete_eq].
Qed.

(** Stream 0 is never finished. *)
Lemma finished_not_zero reliable x c p strm :
  conn_ok reliable x c -> conn_strm_heap c !! p = Some strm -> strm_finished strm = true ->
  strm_stream_id strm <> 0.
Proof.
  intros [[M []] _ _ _ _ _ _ _ _] Hp Hf H0. destruct st_zero as (s & Hs & Hs0 & Hsh).
  assert (p = conn_strm0 c) as -> by (apply (st_unique _ _ _ _ Hp Hs); congruence).
  assert (s = strm) as -> by congruence. unfold strm_finished in Hf. rewrite !andb_true_iff in Hf.
  destruct Hf as [[Hb%Z.eqb_eq _] _]. unfold has_bit in Hsh. apply negb_false_iff, Z.eqb_eq in Hsh.
  change NGTCP2_STRM_FLAG_SHUT_RD with (NGTCP2_STRM_FLAG_SHUT_RDWR .& NGTCP2_STRM_FLAG_SHUT_RD) in Hsh.
  rewrite Z.land_assoc, Hb in Hsh. discriminate.
Qed.

Lemma close_if_ok reliable c p strm code (Q : unit -> ngtcp2_conn A -> Prop) E :
  conn_ok reliable None c -> conn_strm_heap c !! p = Some strm ->
  (forall c', conn_ok reliable None c' -> kept c c' ->
    (conn_strm_heap c' !! p = None /\ strm_finished strm = true) \/ c' = c -> Q tt c') ->
  (forall e c', conn_ok reliable None c' -> kept c c' ->
    e = NGTCP2_ERR_CALLBACK_FAILURE \/ unmapped c (strm_stream_id strm) -> E e c') ->
  wp (ngtcp2_conn_close_stream_if_shut_rdwr cb p code) Q E c.
Proof.
  intros Hok Hp HQ HE. unfold ngtcp2_conn_close_stream_if_shut_rdwr. wp_step. eapply wp_load_strm; [done|].
  destruct (strm_finished strm) eqn:Hf; [|wp_go; by apply HQ; [| |right]].
  eapply close_stream_ok; [done | done | by eapply finished_not_zero | | done]. auto.
Qed.

(** ** A frame with new data *)

(** The state of the stream at [p], of which the frames [frs] have been received. *)
Definition received c (p : positive) (id : Z) (frs : list ngtcp2_stream) : Prop :=
  exists strm, conn_strm_heap c !! p = Some strm /\ strm_stream_id strm = id /\
    delivered (content id) strm (log c id) frs /\ within frs strm.

(** The stream that was at [p] has been closed after the frames [frs] of it had been
    received, when it was finished. *)
Definition closed_after c (p : positive) (id : Z) (frs : list ngtcp2_stream) : Prop :=
  conn_strm_heap c !! p = None /\ exists strm, strm_finished strm = true /\ strm_stream_id strm = id /\
    delivered (content id) strm (log c id) frs /\ within frs strm.

Definition counted c (p : positive) (id : Z) (frs : list ngtcp2_stream) : Prop :=
  closed_after c p id frs \/ received c p id frs.

(** A stream that has received [frs], after the attempt to close it. *)
Lemma counted_closed c c' p id strm frs :
  conn_strm_heap c !! p = Some strm -> strm_stream_id strm = id -> delivered (content id) strm (log c id) frs ->
  within frs strm -> (forall i, log c' i = log c i) ->
  (conn_strm_heap c' !! p = None /\ strm_finished strm = true) \/ c' = c -> counted c' p id frs.
Proof.
  intros Hp Hid Hd Hw Hl [[Hn Hf] | ->]; [left | right; by exists strm]. split; [done|]. exists strm. by rewrite Hl.
Qed.

Lemma emit_pending_ok reliable frs c p strm c1 data (Hr : got reliable c1 p strm data c) :
  let id := strm_stream_id strm in
  conn_strm_heap c1 !! p = Some strm -> pending (content id) strm (log c1 id ++ data) -> waits_for strm frs -> stays c0 c ->
  wp (conn_emit_pending_stream_data cb p (zlen (log c1 id ++ data)))
    (fun _ => emitted reliable p id frs) (only_cb reliable id) c.
Proof.
  intros id Hp Hpd Hw Hst. destruct (af_heap _ _ (got_frame _ _ _ _ _ _ Hr) _ _ Hp) as (s1 & Hp1 & []).
  destruct Hr as [Hok _ Hlog]. fold id in Hlog. rewrite <- Hlog in *.
  unfold conn_emit_pending_stream_data. wp_step. eapply wp_load_strm; [done|].
  eapply (emit_loop_ok reliable frs id _ c p s1); [done | done | done | done | by eapply pending_rob | | left; lia].
  split; [rewrite sf_rob; apply Hw | eapply within_mono; [by left | apply Hw]].
Qed.

Lemma emit_pending0_ok reliable frs c p strm c1 data (Hr : got reliable c1 p strm data c) :
  let id := strm_stream_id strm in
  id = 0 -> conn_strm_heap c1 !! p = Some strm -> pending (content id) strm (log c1 id ++ data) ->
  waits_for strm frs -> stays c0 c ->
  wp (conn_emit_pending_stream0_data cb p (zlen (log c1 id ++ data)))
    (fun _ => emitted reliable p id frs) (only_cb reliable id) c.
Proof.
  intros id Hid Hp Hpd Hw Hst. destruct (af_heap _ _ (got_frame _ _ _ _ _ _ Hr) _ _ Hp) as (s1 & Hp1 & []).
  destruct Hr as [Hok _ Hlog]. fold id in Hlog. rewrite <- Hlog in *.
  unfold conn_emit_pending_stream0_data. wp_step. eapply wp_load_strm; [done|].
  eapply (emit0_loop_ok reliable frs id _ Hid c p s1); [done | done | done | done | by eapply pending_rob | | left; lia].
  split; [rewrite sf_rob; apply Hw | eapply within_mono; [by left | apply Hw]].
Qed.

(** The frame starts within what has been delivered, and extends it. *)
Lemma deliver_frame_ok reliable frs c p strm fr :
  let id := strm_stream_id strm in
  let rx_offset := zlen (log c id) in
  conn_ok reliable None c -> stays c0 c -> conn_strm_heap c !! p = Some strm ->
  delivered (content id) strm (log c id) frs -> carries (content id) fr -> within (fr :: frs) strm ->
  stream_offset fr <= rx_offset < stream_offset fr + zlen (stream_data fr) ->
  wp ('(data, rx_offset) ← conn_cut_frame p fr rx_offset;
      strm ← load_strm p;
      if strm_stream_id strm =? 0 then
        conn_call_recv_stream0_data cb data;;
        c ← get;
        conn_emit_pending_stream0_data cb (conn_strm0 c) rx_offset
      else
        conn_call_recv_stream_data cb p (strm_fin strm rx_offset) data;;
        conn_emit_pending_stream_data cb p rx_offset)
    (fun _ => emitted reliable p id (fr :: frs)) (only_cb reliable id) c.
Proof.
  intros id rx_offset Hok Hst Hp Hd Hc Hwi Hin. pose proof Hc as (Ho & Hmax & _). zfacts.
  destruct (pending_extend _ _ _ _ _ Hd Hc Hin) as (Hpd & Hlen & Hw). fold rx_offset in Hpd, Hlen.
  wp_step. unfold conn_cut_frame. wp_step. wp_step. unfold adv, rx_offset.
  rewrite u64_small by clia. fold rx_offset.
  rewrite (proj2 (Z.leb_le 0 _)), (proj2 (Z.leb_le _ (zlen _))) by lia. simpl.
  rewrite (u64_small (zlen (stream_data fr) - _)), (u64_small (rx_offset + _)) by clia.
  replace (rx_offset + (zlen (stream_data fr) - (rx_offset - stream_offset fr)))
    with (stream_offset fr + zlen (stream_data fr)) by lia.
  wp_step. eapply wp_update_strm; [done|]. wp_step.
  set (strm' := set_rob strm _) in *. set (data := drop _ _) in *. set (c1 := set_conn_strm_heap _ c).
  assert (Hok1 : conn_ok reliable (Some p) c1).
  { eapply store_strm_gen; try done; [by apply exempt|]. by destruct (strm_ok_at av _ _ _ _ _ Hok Hp). }
  assert (Hst1 : stays c0 c1) by (by eapply stays_same).
  assert (Hp1 : conn_strm_heap c1 !! p = Some strm') by apply lookup_insert_eq.
  change (log c id) with (log c1 (strm_stream_id strm')) in Hpd, Hlen.
  assert (Hw' : waits_for strm' (fr :: frs)) by (split; [exact Hw | eapply within_mono; [by left | done]]).
  wp_step. eapply wp_load_strm; [done|]. rewrite <- Hlen.
  destruct (Z.eqb_spec (strm_stream_id strm') 0) as [H0|Hne].
  - wp_step. eapply recv_stream0_data_cb; [done | done | done | | intros; unfold id; change (strm_stream_id strm = 0) in H0; rewrite H0; apply only_cb_zero].
    intros c2 Hg2. wp_step. wp_step.
    assert (conn_strm0 c2 = p) as ->.
    { rewrite (af_strm0 _ _ (got_frame _ _ _ _ _ _ Hg2)). destruct (co_streams _ _ _ _ Hok) as [M []].
      destruct st_zero as (s & Hs & Hs0 & _). apply (st_unique _ _ _ _ Hs Hp). by rewrite Hs0. }
    eapply emit_pending0_ok; try done. by eapply stays_frame, got_frame.
  - wp_step. eapply recv_stream_data_cb; [done | done | | done]. intros c2 Hg2.
    eapply emit_pending_ok; try done. by eapply stays_frame, got_frame.
Qed.

Lemma reordering_ok reliable frs c p strm fr :
  let id := strm_stream_id strm in
  conn_ok reliable None c -> stays c0 c -> conn_strm_heap c !! p = Some strm ->
  delivered (content id) strm (log c id) frs -> carries (content id) fr -> within (fr :: frs) strm ->
  zlen (log c id) < stream_offset fr ->
  wp (conn_recv_reordering p fr) (fun _ => emitted reliable p id (fr :: frs)) (only_cb reliable id) c.
Proof.
  intros id Hok Hst Hp Hd Hc Hwi Hlt. unfold conn_recv_reordering. wp_step. eapply wp_load_strm; [done|].
  wp_step. wp_step. wp_step. wp_step.
  destruct (delivered_reorder _ (conn_mem c) _ _ _ _ Hd Hc Hlt) as (rob & rv & m & -> & _ & Hm & Hd'). simpl.
  wp_step. wp_step. wp_step. eapply wp_store_strm; [done|].
  wp_step; [by intros Hr; destruct (Hm (co_mem _ _ _ _ Hok Hr))|].
  set (c1 := set_conn_strm_heap _ _).
  change id with (strm_stream_id (set_rob strm rob)). apply emitted_intro;
    [| by eapply stays_same | apply lookup_insert_eq | by apply Hd' | eapply within_mono; [by left | done]].
  eapply (store_strm_gen av reliable (Some p) (set_conn_mem m c)); try done.
  - apply exempt. apply mem_ok; [done|]. intros Hr. apply Hm, (co_mem _ _ _ _ Hok Hr).
  - by destruct (strm_ok_at av _ _ _ _ _ Hok Hp).
Qed.

(** What a frame with new data leaves behind: the stream, which has received the
    frame, or nothing, when that was all of it. *)
Definition accepted reliable p id frs c' : Prop :=
  conn_ok reliable None c' /\ conn_acktr c' = conn_acktr c0 /\ counted c' p id frs.

(** Closing a stream of the table fails because of a callback only. *)
Lemma closed_only_cb reliable c c' id e :
  stays c0 c -> e = NGTCP2_ERR_CALLBACK_FAILURE \/ unmapped c id -> only_cb reliable id e c'.
Proof.
  intros [Hm _] [->|Hu]; [done|]. intros _ _ [m Hid%Hm]. unfold mapped, unmapped in *. congruence.
Qed.

Lemma recv_stream_data_ok reliable frs c p strm fr id :
  strm_stream_id strm = id -> conn_ok reliable None c -> stays c0 c -> conn_strm_heap c !! p = Some strm ->
  delivered (content id) strm (log c id) frs -> carries (content id) fr -> within (fr :: frs) strm ->
  zlen (log c id) < stream_offset fr + zlen (stream_data fr) ->
  wp (conn_recv_stream_data cb p fr (zlen (log c id)))
    (fun _ => accepted reliable p id (fr :: frs)) (only_cb reliable id) c.
Proof.
  intros <- Hok Hst Hp Hd Hc Hwi Hend. unfold conn_recv_stream_data. wp_step.
  eapply (wp_mono _ (fun _ => emitted reliable p (strm_stream_id strm) (fr :: frs)) _
    (only_cb reliable (strm_stream_id strm))); [| | done].
  - destruct (Z.leb_spec (stream_offset fr) (zlen (log c (strm_stream_id strm)))).
    + by apply deliver_frame_ok.
    + by apply reordering_ok.
  - intros ? c' [Hok' Hst' (s & Hs & Hid & Hd')]. eapply close_if_ok; [done | done | |].
    + intros c2 Hok2 (_ & Hk & Hl) Hc2. destruct Hd' as [Hd' Hw'].
      split_and!; [done | by rewrite Hk; apply Hst' | by eapply counted_closed].
    + intros e c2 _ _ He. rewrite Hid in He. by eapply closed_only_cb.
Qed.

End Delivery.

(** ** Opening *)

Lemma idtr_assert_remote c id :
  ids_ok av c -> conn_local_stream c id = false ->
  idtr_assert (idtr_server (conn_idtr (bidi_stream id) c)) id = true.
Proof.
  intros [] Hl. destruct (id_idtr (bidi_stream id)) as [_ ->]. unfold conn_local_stream in Hl.
  destruct (conn_server c); simpl; [|apply idtr_assert_server]. rewrite idtr_assert_client.
  by apply negb_false_iff in Hl.
Qed.

Lemma conn_idtr_set b b' idtr c :
  conn_idtr b (set_conn_idtr b' idtr c) = if Bool.eqb b b' then idtr else conn_idtr b c.
Proof. by destruct b, b'. Qed.

Lemma set_idtr_local b idtr m c id :
  conn_local_stream (set_conn_mem m (set_conn_idtr b idtr c)) id = conn_local_stream c id.
Proof. by destruct b. Qed.

Lemma id_opened_set b idtr m c id :
  (forall q, opened (conn_idtr b c) q -> opened idtr q) ->
  id_opened c id -> id_opened (set_conn_mem m (set_conn_idtr b idtr c)) id.
Proof.
  intros Hq. unfold id_opened. rewrite set_idtr_local.
  destruct (conn_local_stream c id); [by destruct b, (bidi_stream id)|].
  change (conn_idtr _ (set_conn_mem m ?c')) with (conn_idtr (bidi_stream id) c'). rewrite conn_idtr_set.
  destruct (bidi_stream id), b; simpl; auto.
Qed.

(** A tracker with more IDs. *)
Lemma set_idtr_ok reliable x c b idtr m :
  conn_ok reliable x c -> wf_idtr idtr -> idtr_server idtr = idtr_server (conn_idtr b c) ->
  (forall q, opened (conn_idtr b c) q -> opened idtr q) -> (reliable = true -> mem_reliable m) ->
  conn_ok reliable x (set_conn_mem m (set_conn_idtr b idtr c)).
Proof.
  intros Hok Hwf Hsv Hq Hm. pose proof (fun id => id_opened_set b idtr m c id Hq) as Hmono.
  destruct Hok as [[M []] [] ? ? ? ? ? ? ?].
  split; [exists M; split | split | ..]; try (by destruct b); try assumption.
  - intros p s Hp. assert (conn_strm_heap c !! p = Some s) as Hp' by (by destruct b).
    destruct (st_heap p s Hp') as (? & ? & ? & ?).
    split_and!; [done | by destruct b | by apply Hmono | by destruct b].
  - intros b'. change (conn_idtr b' (set_conn_mem m ?c')) with (conn_idtr b' c'). rewrite conn_idtr_set.
    destruct (id_idtr b) as [_ Hs1], (id_idtr b') as [? Hs2].
    destruct (Bool.eqb_spec b' b) as [->|]; (split; [done|]); [rewrite Hsv|]; by destruct b.
  - intros id Hid Hno. assert (~ id_opened c id) as Hno' by (intros H; by apply Hno, Hmono).
    specialize (id_fresh id Hid Hno'). by destruct b.
Qed.

Lemma wp_idtr_open reliable x c id (Q : Z -> ngtcp2_conn A -> Prop) E :
  conn_ok reliable x c -> is_uint 62 id -> conn_local_stream c id = false ->
  (forall c', conn_ok reliable x c' -> id_opened c id -> Q NGTCP2_ERR_STREAM_IN_USE c') ->
  (forall idtr m, let c' := set_conn_mem m (set_conn_idtr (bidi_stream id) idtr c) in
    conn_ok reliable x c' -> ~ id_opened c id -> id_opened c' id ->
    (forall i, id_opened c i -> id_opened c' i) -> Q 0 c') ->
  (forall c', reliable = false -> conn_ok reliable x c' -> ~ id_opened c id -> Q NGTCP2_ERR_NOMEM c') ->
  wp (conn_idtr_open id) Q E c.
Proof.
  intros Hok Hid Hl Huse Hnew Hnomem. pose proof (co_ids _ _ _ _ Hok) as Hids.
  unfold conn_idtr_open. wp_step. wp_step. wp_step. wp_step.
  destruct (id_idtr _ _ Hids (bidi_stream id)) as [Hwf _].
  destruct (idtr_open_spec (conn_mem c) (conn_idtr (bidi_stream id) c) id Hwf ltac:(clia)
    (idtr_assert_remote _ _ Hids Hl)) as (idtr & rv & m & Heq & Hwf' & Hused & Hfresh).
  destruct (idtr_open_mem _ _ _ _ _ _ Heq) as [Hsv Hm]. rewrite Heq. simpl. wp_go.
  assert (Hop : id_opened c id <-> opened (conn_idtr (bidi_stream id) c) (id_from_stream_id id))
    by (unfold id_opened; by rewrite Hl).
  assert (Hm' : reliable = true -> mem_reliable m) by (intros Hr; apply Hm, (co_mem _ _ _ _ Hok Hr)).
  destruct (decide (in_gaps (idtr_gap (conn_idtr (bidi_stream id) c)) (id_from_stream_id id))) as [Hgap|Hgap].
  - assert (~ id_opened c id) as Hno by (rewrite Hop; unfold opened; tauto). rewrite Hop in Hno.
    destruct (Hfresh Hno) as [[-> Hx]|(-> & -> & Hn)].
    + assert (forall q, opened (conn_idtr (bidi_stream id) c) q -> opened idtr q) as Hq by (intros q ?; apply Hx; auto).
      apply Hnew; [by apply set_idtr_ok | by rewrite Hop | | intros i; by apply id_opened_set].
      unfold id_opened. rewrite set_idtr_local, Hl.
      change (conn_idtr _ (set_conn_mem m ?c')) with (conn_idtr (bidi_stream id) c').
      rewrite conn_idtr_set, Bool.eqb_reflx. apply Hx. by right.
    + apply Hnomem; [|by apply set_idtr_ok | by rewrite Hop].
      destruct reliable; [|done]. by destruct Hn; apply (co_mem _ _ _ _ Hok).
  - destruct (Hused Hgap) as [-> ->]. apply Huse; [by apply set_idtr_ok | by apply Hop].
Qed.

Lemma new_remote_ok reliable c id idtr m (Q : positive -> ngtcp2_conn A -> Prop) (E : Z -> ngtcp2_conn A -> Prop) :
  let c1 := set_conn_mem m (set_conn_idtr (bidi_stream id) idtr c) in
  conn_ok reliable None c -> conn_ok reliable None c1 -> is_uint 62 id ->
  ~ id_opened c id -> id_opened c1 id -> (forall i, id_opened c i -> id_opened c1 i) ->
  (forall c', conn_ok reliable None c' -> received c' (conn_next c) id [] -> log c' id = [] ->
    Q (conn_next c) c') ->
  (forall e c', E e c') ->
  wp (conn_new_remote_stream id) Q E c1.
Proof.
  intros c1 Hok Hok1 Hid Hno Hop Hmono HQ HE. destruct (co_streams _ _ _ _ Hok) as [M Hs].
  pose proof (id_fresh _ _ (co_ids _ _ _ _ Hok) id Hid Hno) as Hlog.
  assert (Hs1 : streams_ok av None c1 M).
  { destruct (co_streams _ _ _ _ Hok1) as [M1 []], Hs. unfold c1 in *. destruct (bidi_stream id); by split. }
  assert (Hnext : conn_next c1 = conn_next c) by (unfold c1; by destruct (bidi_stream id)).
  unfold conn_new_remote_stream. apply (wp_open_stream av reliable None c1 M);
    [done | done | by apply (not_opened_not_found av None c) | |done].
  intros strm map m' Hsize Hf Hm' Hrepr Ht. rewrite Hnext in *.
  set (c2 := set_conn_strms _ _).
  (* the final state differs from [c2] at most in the flags of the new stream *)
  assert (Hfin : forall strm' c', c' = set_conn_strm_heap (<[conn_next c := strm']> (conn_strm_heap c)) c2 ->
    strm_rob strm' = strm_rob strm -> strm_stream_id strm' = id -> strm_me strm' = id ->
    strm_acked_tx_offset strm' = strm_acked_tx_offset strm ->
    strm_last_rx_offset strm' = 0 -> Q (conn_next c) c').
  { intros strm' c' -> Hrob Hsid Hme Hack Hlast. pose proof (fs_delivered _ _ Hf (content id)) as Hd.
    apply (delivered_rob _ _ strm' _ _ Hrob) in Hd.
    apply HQ; [|exists strm'; split_and!; [apply lookup_insert_eq | done | | split; [lia | constructor]] |].
    - apply (add_stream_ok av reliable None c _ M id strm'); try done.
      + unfold c2, c1. destruct (bidi_stream id); by split.
      + unfold c1 in Hsize. by destruct (bidi_stream id).
      + split; [congruence | by rewrite Hsid | rewrite Hack; apply Hf].
      + destruct (co_ids _ _ _ _ Hok1). unfold c2, c1 in *. destruct (bidi_stream id); by split.
    - assert (log (set_conn_strm_heap (<[conn_next c:=strm']> (conn_strm_heap c)) c2) id = []) as ->; [|done].
      unfold c2, c1. by destruct (bidi_stream id).
    - unfold c2, c1. by destruct (bidi_stream id). }
  assert (Hheap : conn_strm_heap c2 = <[conn_next c := strm]> (conn_strm_heap c))
    by (unfold c2, c1; by destruct (bidi_stream id)).
  wp_step. destruct (bidi_stream id) eqn:Hb.
  - wp_go. apply (Hfin strm); try apply Hf; try done.
  - eapply wp_update_strm; [rewrite Hheap; apply lookup_insert_eq|]. wp_go.
    apply (Hfin (ngtcp2_strm_shutdown strm NGTCP2_STRM_FLAG_SHUT_WR)); try apply Hf; try done.
    by rewrite Hheap, insert_insert_eq.
Qed.

(** The stream of a frame: known, new, or closed long ago. *)
Lemma stream_for_frame_ok c id (Q : option positive -> ngtcp2_conn A -> Prop) (E : Z -> ngtcp2_conn A -> Prop) :
  conn_ok true None c -> is_uint 62 id ->
  (forall c', conn_ok true None c' -> Q None c') ->
  (forall p frs, received c p id frs -> Q (Some p) c) ->
  (forall p c', conn_ok true None c' -> received c' p id [] -> log c' id = [] -> ~ id_opened c id -> Q (Some p) c') ->
  (forall e c', E e c') ->
  wp (conn_stream_for_frame id) Q E c.
Proof.
  intros Hok Hid HN HS Hnew HE. unfold conn_stream_for_frame. wp_step.
  apply (wp_find_live av true None); [done | |].
  - wp_step. wp_step. destruct (conn_local_stream c id) eqn:Hl; [wp_go; by apply HN|]. wp_step.
    apply (wp_idtr_open true None); [done | done | done | | |done].
    + intros c' Hok' _. simpl. wp_go. by apply HN.
    + intros idtr m c1 Hok1 Hno Hop Hmono. simpl. wp_step. wp_step. unfold fmap, M_fmap. wp_step.
      apply (new_remote_ok true c); try done. intros c' Hok' Hr Hlog. wp_go. by apply Hnew.
  - intros p strm Hp Hsid _. wp_go. destruct (co_streams _ _ _ _ Hok) as [M []].
    destruct (st_heap p strm Hp) as (_ & _ & _ & Hd). destruct (Hd ltac:(done)) as (frs & Hfrs & ?).
    apply (HS p frs). exists strm. rewrite Hsid in Hfrs. done.
Qed.

(** ** STREAM frames *)

(** The frame carries the bytes the peer sent at these offsets. *)
Definition authentic (fr : ngtcp2_stream) : Prop :=
  stream_data fr = stretch (content (stream_stream_id fr)) (stream_offset fr) (zlen (stream_data fr)).

Lemma rx_offset_ok reliable x c n : conn_ok reliable x c -> conn_ok reliable x (set_conn_rx_offset n c).
Proof. intros H. keep_ok H. Qed.

Lemma check_stream_id_ok id c (Q : unit -> ngtcp2_conn A -> Prop) (E : Z -> ngtcp2_conn A -> Prop) :
  Q tt c -> (forall e, conn_check_stream_id id c = fail e c -> E e c) -> wp (conn_check_stream_id id) Q E c.
Proof.
  intros HQ HE. enough (conn_check_stream_id id c = ret tt c \/ exists e, conn_check_stream_id id c = fail e c) as [H|[e H]]
    by (unfold wp; rewrite H; auto).
  unfold conn_check_stream_id, get, mbind, M_bind, throw_if.
  destruct (bidi_stream id), (conn_local_stream c id); destruct (_ : bool); eauto.
Qed.

(** The limits of the stream and of the connection allow data up to [fr_end]. *)
Definition within_credit c strm (fr_end : Z) : Prop :=
  fr_end <= strm_max_rx_offset strm /\
  (strm_stream_id strm <> 0 -> 0 <= conn_rx_offset c /\ conn_max_rx_offset c < 2 ^ 64 /\
    conn_rx_offset c + Z.max 0 (fr_end - strm_last_rx_offset strm) <= conn_max_rx_offset c).

(** Flow control changes nothing but the count of bytes received. *)
Lemma recv_stream_fc_ok reliable c p strm fr_end (Q : unit -> ngtcp2_conn A -> Prop) (E : Z -> ngtcp2_conn A -> Prop) :
  conn_ok reliable None c -> conn_strm_heap c !! p = Some strm ->
  0 <= fr_end < 2 ^ 64 -> 0 <= strm_last_rx_offset strm ->
  (forall n, conn_ok reliable None (set_conn_rx_offset n c) -> Q tt (set_conn_rx_offset n c)) ->
  (forall e c', ~ within_credit c strm fr_end -> E e c') ->
  wp (conn_recv_stream_fc p fr_end) Q E c.
Proof.
  intros Hok Hp Hend Hlast HQ HE. unfold conn_recv_stream_fc. wp_step. eapply wp_load_strm; [done|]. wp_step.
  wp_step; [apply HE; intros [Hm _]; apply Z.ltb_lt in H; lia|].
  destruct (_ && _) eqn:Hnew.
  - apply andb_true_iff in Hnew as [Hnew%Z.ltb_lt Hid%negb_true_iff%Z.eqb_neq].
    wp_step. wp_step. wp_step. wp_step; [|wp_go; apply HQ; by apply rx_offset_ok].
    apply HE. intros [_ Hm]. destruct (Hm Hid) as (Hm1 & Hm2 & Hm3).
    unfold conn_max_data_violated in *. rewrite !u64_small in * by clia. apply Z.ltb_lt in H0. lia.
  - wp_go. specialize (HQ (conn_rx_offset c)). assert (set_conn_rx_offset (conn_rx_offset c) c = c) as Heq
      by (by destruct c). rewrite Heq in HQ. auto.
Qed.

(** The frame is neither cut off by a final offset nor unwanted. *)
Definition wanted (fr : ngtcp2_stream) strm : Prop :=
  (stream_fin fr = 0 \/ has_bit (strm_flags strm) NGTCP2_STRM_FLAG_SHUT_RD = false) /\
  has_bit (strm_flags strm) NGTCP2_STRM_FLAG_STOP_SENDING = false.

(** The frame agrees with the final size of the stream, where one is known. *)
Definition final_ok (fr : ngtcp2_stream) strm : Prop :=
  let fr_end := stream_offset fr + zlen (stream_data fr) in
  (has_bit (strm_flags strm) NGTCP2_STRM_FLAG_SHUT_RD = true ->
    fr_end <= strm_last_rx_offset strm /\ (stream_fin fr <> 0 -> fr_end = strm_last_rx_offset strm)) /\
  (stream_fin fr <> 0 -> strm_last_rx_offset strm <= fr_end).

(** What has been delivered lies within what has been announced. *)
Lemma delivered_within content strm out frs :
  delivered content strm out frs -> within frs strm -> zlen out <= strm_last_rx_offset strm.
Proof.
  intros [[Hr _ _ _] Hrx Hg] [Hl Hw]. destruct (rob_first_gap_spec _ _ Hr) as [Hlow _].
  unfold ngtcp2_strm_rx_offset in Hrx. rewrite <- Hrx. apply Hlow, Hg. split; [clia|].
  unfold carried. rewrite Exists_exists. intros (fr & Hfr & ?). rewrite Forall_forall in Hw.
  specialize (Hw fr Hfr). simpl in Hw. lia.
Qed.

(** A stream with other flags or a larger [last_rx_offset]. *)
Lemma store_received_ok reliable c p id strm strm' frs :
  conn_ok reliable None c -> conn_strm_heap c !! p = Some strm ->
  delivered (content id) strm (log c id) frs -> strm_stream_id strm = id -> id <> 0 \/ strm_flags strm' = strm_flags strm ->
  strm_rob strm' = strm_rob strm -> strm_stream_id strm' = id -> strm_me strm' = strm_me strm ->
  strm_acked_tx_offset strm' = strm_acked_tx_offset strm ->
  strm_last_rx_offset strm <= strm_last_rx_offset strm' < 2 ^ 62 ->
  let c' := set_conn_strm_heap (<[p := strm']> (conn_strm_heap c)) c in
  conn_ok reliable None c' /\ conn_strm_heap c' !! p = Some strm' /\ delivered (content id) strm' (log c' id) frs.
Proof.
  intros Hok Hp Hd Hid Hfl Hrob Hid' Hme Hack Hlast c'. split_and!.
  - eapply store_strm_gen; try done;
      [congruence | rewrite Hack; by destruct (strm_ok_at av _ _ _ _ _ Hok Hp) | | auto].
    intros H0. destruct Hfl as [?|Hf]; [congruence | by rewrite Hf].
  - apply lookup_insert_eq.
  - by eapply delivered_rob.
Qed.

Section OneFrame.
Context (c0 c : ngtcp2_conn A) (p : positive) (strm : ngtcp2_strm Z) (frs : list ngtcp2_stream) (fr : ngtcp2_stream).
Abbreviation id := (stream_stream_id fr).
Abbreviation fr_end := (stream_offset fr + zlen (stream_data fr)).
Context (Hok : conn_ok true None c) (Hst : stays c0 c) (Hp : conn_strm_heap c !! p = Some strm)
  (Hid : strm_stream_id strm = id) (Hd : delivered (content id) strm (log c id) frs)
  (Hwi : within frs strm) (Hc : carries (content id) fr).

(** The invariant is kept, and a frame that is wanted has been received. *)
Definition frame_taken c' : Prop :=
  conn_ok true None c' /\ conn_acktr c' = conn_acktr c0 /\
  (wanted fr strm -> counted c' p id (fr :: frs)).

Lemma accepted_taken c' : accepted c0 true p id (fr :: frs) c' -> frame_taken c'.
Proof. intros (? & ? & ?). by split_and!. Qed.

(** The handler fails because a callback does, or the frame does not agree with the
    final size. *)
Definition frame_refused (e : Z) c' : Prop := final_ok fr strm -> only_cb c0 true id e c'.

(** The stream once [last_rx_offset] covers the frame. *)
Lemma within_frame strm' :
  strm_last_rx_offset strm <= strm_last_rx_offset strm' < 2 ^ 62 -> fr_end <= strm_last_rx_offset strm' ->
  within (fr :: frs) strm'.
Proof. intros H1 H2. destruct (within_mono frs strm strm' ltac:(auto) Hwi). split; [done | by constructor]. Qed.

Lemma recv_stream_nofin_ok :
  wp (conn_recv_stream_nofin cb p fr fr_end strm) (fun _ => frame_taken) frame_refused c.
Proof.
  pose proof Hc as (Ho & Hmax & _). pose proof Hwi as [Hl _].
  unfold conn_recv_stream_nofin. wp_step. wp_step.
  { intros [Hs _]. apply andb_true_iff in H as [Hsh H%Z.ltb_lt]. destruct (Hs Hsh). lia. }
  wp_step. eapply wp_store_strm; [done|].
  set (strm' := set_last_rx_offset strm _).
  assert (Hl' : strm_last_rx_offset strm <= strm_last_rx_offset strm' < 2 ^ 62) by (simpl; lia).
  destruct (store_received_ok true c p id strm strm' frs) as (Hok' & Hp' & Hd'); auto.
  set (c' := set_conn_strm_heap _ c) in *.
  pose proof (within_frame strm' Hl' ltac:(simpl; lia)) as Hw'.
  assert (Hrx : ngtcp2_strm_rx_offset strm = zlen (log c' id)) by apply Hd. rewrite Hrx.
  destruct (Z.leb_spec fr_end (zlen (log c' id))).
  { wp_go. split_and!; [done | apply Hst|]. intros _. right. exists strm'. split_and!; [done | done | | done].
    apply delivered_old; [done | lia | done]. }
  destruct (has_bit (strm_flags strm) NGTCP2_STRM_FLAG_STOP_SENDING) eqn:Hss.
  { wp_go. split_and!; [done | apply Hst|]. intros [_ Hw]. congruence. }
  eapply wp_mono; [eapply (recv_stream_data_ok c0 true frs c' p strm' fr id); try done; by eapply stays_same | |].
  - intros ? c2. apply accepted_taken.
  - intros e c2 He _. exact He.
Qed.

(** The end of the stream is reported on its own. *)
Lemma fin_delivered_ok c2 c3 strm' :
  got true c2 p strm' [] c3 -> stays c0 c2 -> conn_strm_heap c2 !! p = Some strm' -> strm_stream_id strm' = id ->
  delivered (content id) strm' (log c2 id) frs -> within (fr :: frs) strm' -> fr_end = zlen (log c2 id) ->
  wp (ngtcp2_conn_close_stream_if_shut_rdwr cb p NGTCP2_NO_ERROR) (fun _ => frame_taken) frame_refused c3.
Proof.
  intros [Hok3 Hf3 Hlog3] Hst2 Hp2 Hid2 Hd2 Hw2 Heq. destruct (af_heap _ _ Hf3 p strm' Hp2) as (s3 & Hp3 & []).
  rewrite app_nil_r, Hid2 in Hlog3. rewrite Hid2 in sf_id.
  assert (Hd3 : delivered (content id) s3 (log c3 id) (fr :: frs)).
  { rewrite Hlog3. eapply delivered_rob; [done|]. apply delivered_old; [done | apply Hc | lia]. }
  assert (Hw3 : within (fr :: frs) s3) by (eapply within_mono; [by left | done]).
  rewrite <- sf_id in Hd3. pose proof (stays_frame _ _ _ Hst2 Hf3) as Hst3.
  destruct (emitted_intro _ _ _ _ _ _ Hok3 Hst3 Hp3 Hd3 Hw3) as [Hok4 _ _].
  eapply close_if_ok; [done | done | |].
  2:{ intros e c4 _ _ He _. rewrite sf_id in He. by eapply closed_only_cb. }
  intros c4 Hok5 (_ & Hk & Hl) Hc4. split_and!; [done | by rewrite Hk; apply Hst3|]. intros _.
  rewrite sf_id in Hd3. by eapply counted_closed.
Qed.

Lemma recv_stream_fin_ok : id <> 0 -> stream_fin fr <> 0 ->
  wp (conn_recv_stream_fin cb p fr fr_end strm) (fun _ => frame_taken) frame_refused c.
Proof.
  intros H0 Hfin. pose proof Hc as (Ho & Hmax & _). unfold conn_recv_stream_fin.
  destruct (has_bit (strm_flags strm) NGTCP2_STRM_FLAG_SHUT_RD) eqn:Hshut.
  { wp_go.
    - intros [Hs _]. apply negb_true_iff, Z.eqb_neq in H. destruct (Hs Hshut) as [_ Heq]. destruct H. symmetry. auto.
    - split_and!; [done | apply Hst|]. intros [[?|?] _]; congruence. }
  wp_step. wp_step; [intros [_ Hf]; apply Z.ltb_lt in H; specialize (Hf Hfin); lia|].
  wp_step. eapply wp_store_strm; [done|]. rewrite Z.ltb_ge in *.
  set (strm' := ngtcp2_strm_shutdown _ _).
  assert (Hl' : strm_last_rx_offset strm <= strm_last_rx_offset strm' < 2 ^ 62) by (simpl; lia).
  destruct (store_received_ok true c p id strm strm' frs) as (Hok' & Hp' & Hd'); auto.
  set (c' := set_conn_strm_heap _ c) in *. assert (Hst1 : stays c0 c') by (by eapply stays_same).
  pose proof (within_frame strm' Hl' ltac:(simpl; lia)) as Hw'.
  pose proof (delivered_within _ _ _ _ Hd' (within_mono _ _ _ (or_intror Hl') Hwi)) as Hle.
  assert (Hss : has_bit (strm_flags strm') NGTCP2_STRM_FLAG_STOP_SENDING =
    has_bit (strm_flags strm) NGTCP2_STRM_FLAG_STOP_SENDING) by (by apply has_bit_lor).
  rewrite Hss. destruct (has_bit (strm_flags strm) NGTCP2_STRM_FLAG_STOP_SENDING) eqn:Hss'.
  { eapply close_if_ok; [done | done | |].
    - intros c2 Hok2 (_ & Hk & _) _. split_and!; [done | by rewrite Hk; apply Hst1|]. intros [_ ?]. congruence.
    - intros e c2 _ _ He _. change (strm_stream_id strm') with (strm_stream_id strm) in He. rewrite Hid in He.
      by eapply closed_only_cb. }
  wp_step. apply (wp_fc_unlink av true None); [done|].
  destruct (fc_unlink_ok av true None c' p Hok') as [Hok2 _]. set (c2 := set_conn_fc_strms _ c') in *.
  assert (Hst2 : stays c0 c2) by (by eapply stays_same).
  assert (Hrx : ngtcp2_strm_rx_offset strm' = zlen (log c2 id)) by apply Hd'. rewrite Hrx.
  change (log c' id) with (log c2 id) in Hle, Hd'. change (conn_strm_heap c') with (conn_strm_heap c2) in Hp'.
  destruct (Z.eqb_spec fr_end (zlen (log c2 id))) as [Heq|Hne].
  - wp_step. eapply recv_stream_data_cb; [by apply exempt | exact Hp' | | done]. intros c3 Hg3.
    eapply (fin_delivered_ok c2 c3 strm'); try done.
  - eapply wp_mono; [eapply (recv_stream_data_ok c0 true frs c2 p strm' fr id); try done; simpl in *; lia | |].
    + intros ? c3. apply accepted_taken.
    + intros e c3 He _. exact He.
Qed.
End OneFrame.

(** The bounds the checks of [conn_recv_stream] establish. *)
Lemma checked_carries fr :
  wf_frame (fr_stream fr) -> authentic fr ->
  (u64 (NGTCP2_MAX_VARINT - zlen (stream_data fr)) <? stream_offset fr) = false ->
  carries (content (stream_stream_id fr)) fr /\
  u64 (stream_offset fr + zlen (stream_data fr)) = stream_offset fr + zlen (stream_data fr).
Proof.
  intros (Hid & Ho & _ & Hl) Ha Hlt. unfold NGTCP2_MAX_VARINT in Hlt. zfacts.
  rewrite u64_small in Hlt by clia. apply Z.ltb_ge in Hlt. split; [|apply u64_small; clia].
  split_and!; [clia | clia | done].
Qed.

(** The part of [conn_recv_stream] after the lookup of the stream. *)
Lemma recv_on_stream_ok c p frs fr :
  let fr_end := stream_offset fr + zlen (stream_data fr) in
  conn_ok true None c -> received c p (stream_stream_id fr) frs -> carries (content (stream_stream_id fr)) fr ->
  (stream_stream_id fr =? 0) && negb (stream_fin fr =? 0) = false ->
  wp (conn_recv_stream_fc p fr_end;;
      strm ← load_strm p;
      if negb (stream_fin fr =? 0) then conn_recv_stream_fin cb p fr fr_end strm
      else conn_recv_stream_nofin cb p fr fr_end strm)
    (fun _ c' => conn_ok true None c' /\ conn_acktr c' = conn_acktr c /\
      forall strm, conn_strm_heap c !! p = Some strm -> wanted fr strm ->
        counted c' p (stream_stream_id fr) (fr :: frs))
    (fun e c' => forall strm, conn_strm_heap c !! p = Some strm -> within_credit c strm fr_end -> final_ok fr strm ->
      only_cb c true (stream_stream_id fr) e c') c.
Proof.
  intros fr_end Hok (strm & Hp & Hid & Hd & Hwi) Hc Hfin. wp_step.
  pose proof Hc as (Ho & Hmax & _). pose proof Hwi as [Hl _]. zfacts.
  apply (recv_stream_fc_ok true c p strm); [done | done | unfold fr_end; clia | lia | |].
  2:{ intros e c' Hno s Hs. rewrite Hp in Hs. by injection Hs as <-. }
  intros n Hok1. assert (Hst : stays c (set_conn_rx_offset n c)) by done.
  wp_step. eapply wp_load_strm; [done|].
  assert (Hfinal : forall c', frame_taken c p strm frs fr c' -> conn_ok true None c' /\ conn_acktr c' = conn_acktr c /\
    forall strm, conn_strm_heap c !! p = Some strm -> wanted fr strm ->
      counted c' p (stream_stream_id fr) (fr :: frs)).
  { intros c' (? & ? & Ht). split_and!; [done..|]. intros s Hs. rewrite Hp in Hs. injection Hs as <-. done. }
  assert (Hrefused : forall e c', frame_refused c strm fr e c' -> forall s, conn_strm_heap c !! p = Some s ->
    within_credit c s fr_end -> final_ok fr s -> only_cb c true (stream_stream_id fr) e c').
  { intros e c' Hr s Hs _. rewrite Hp in Hs. injection Hs as <-. exact Hr. }
  destruct (Z.eqb_spec (stream_fin fr) 0); simpl; (eapply wp_mono; [|intros ?; apply Hfinal | apply Hrefused]).
  - by apply (recv_stream_nofin_ok _ _ p strm frs).
  - apply (recv_stream_fin_ok _ _ p strm frs); try done. rewrite andb_true_r in Hfin. by apply Z.eqb_neq.
Qed.

Lemma recv_stream_ok c fr :
  conn_ok true None c -> wf_frame (fr_stream fr) -> authentic fr ->
  wp (conn_recv_stream cb fr) (fun _ => conn_ok true None) (fun _ _ => True) c.
Proof.
  intros Hok Hwf Ha. unfold conn_recv_stream. wp_step. wp_step; [done|]. wp_step. wp_step; [done|].
  wp_step. apply check_stream_id_ok; [|done]. wp_step. wp_step. wp_step. wp_step; [done|]. wp_step. wp_step; [done|].
  destruct (checked_carries fr Hwf Ha ltac:(done)) as [Hc Hu].
  assert (Hgo : forall p frs c', conn_ok true None c' -> received c' p (stream_stream_id fr) frs ->
    wp (conn_recv_stream_fc p (u64 (stream_offset fr + zlen (stream_data fr)));;
      strm ← load_strm p;
      if negb (stream_fin fr =? 0)
      then conn_recv_stream_fin cb p fr (u64 (stream_offset fr + zlen (stream_data fr))) strm
      else conn_recv_stream_nofin cb p fr (u64 (stream_offset fr + zlen (stream_data fr))) strm)
    (fun _ => conn_ok true None) (fun _ _ => True) c').
  { intros p frs c' Hok' Hr. rewrite Hu. eapply wp_mono; [by apply (recv_on_stream_ok c' p frs) | | done].
    by intros ? ? [? _]. }
  wp_step. apply stream_for_frame_ok; [done | apply Hwf | | | | done].
  - intros c' Hok'. by wp_go.
  - intros p frs Hr. by eapply Hgo.
  - intros p c' Hok' Hr _ _. by eapply Hgo.
Qed.

(** The connection has no reason to refuse the frame, for its stream [strm]. *)
Record acceptable c strm (fr : ngtcp2_stream) : Prop := {
  ac_data : stream_fin fr = 0 -> stream_data fr <> [];
  ac_id : conn_check_stream_id (stream_stream_id fr) c = ret tt c;
  ac_dir : bidi_stream (stream_stream_id fr) = true \/ conn_local_stream c (stream_stream_id fr) = false;
  ac_offset : stream_offset fr + zlen (stream_data fr) < 2 ^ 62;
  ac_credit : within_credit c strm (stream_offset fr + zlen (stream_data fr));
  ac_final : final_ok fr strm
}.

(** The same for a stream that is known. *)
Lemma recv_known_stream_ok c fr p strm frs :
  conn_ok true None c -> wf_frame (fr_stream fr) -> authentic fr ->
  ngtcp2_conn_find_stream (stream_stream_id fr) c = ret (Some p) c -> conn_strm_heap c !! p = Some strm ->
  received c p (stream_stream_id fr) frs -> wanted fr strm ->
  wp (conn_recv_stream cb fr)
    (fun _ c' => (conn_ok true None c' /\ conn_acktr c' = conn_acktr c) /\
      (counted c' p (stream_stream_id fr) (fr :: frs)))
    (fun e _ => stream_stream_id fr <> 0 -> acceptable c strm fr -> e = NGTCP2_ERR_CALLBACK_FAILURE) c.
Proof.
  intros Hok Hwf Ha Hfind Hp Hr Hw. unfold conn_recv_stream.
  wp_step. wp_step; [intros Hne; by destruct (Z.eqb_spec (stream_stream_id fr) 0)|].
  wp_step. wp_step.
  { intros _ Hac. apply andb_true_iff in H0 as [Hf He]. rewrite negb_involutive in Hf. apply Z.eqb_eq in Hf, He.
    destruct (ac_data _ _ _ Hac Hf). by apply length_zero_iff_nil; unfold zlen in He; lia. }
  wp_step. apply check_stream_id_ok; [|intros e He _ Hac; by rewrite (ac_id _ _ _ Hac) in He].
  wp_step. wp_step. wp_step. wp_step.
  { intros _ Hac. apply andb_true_iff in H1 as [H1 _]. apply andb_true_iff in H1 as [H1%negb_true_iff H1'].
    destruct (ac_dir _ _ _ Hac); congruence. }
  wp_step. wp_step.
  { intros _ Hac. pose proof (ac_offset _ _ _ Hac). unfold NGTCP2_MAX_VARINT in *. apply Z.ltb_lt in H2.
    destruct Hwf as (_ & ? & _). pose proof (zlen_nonneg (stream_data fr)). rewrite u64_small in H2 by clia. clia. }
  destruct (checked_carries fr Hwf Ha ltac:(done)) as [Hc Hu].
  assert (Hlook : conn_stream_for_frame (stream_stream_id fr) c = ret (Some p) c)
    by (unfold conn_stream_for_frame, mbind, M_bind; by rewrite Hfind).
  wp_step. unfold wp at 1. rewrite Hlook, Hu.
  assert (exists m, mapped c (stream_stream_id fr) m) as Hmap.
  { unfold ngtcp2_conn_find_stream, mapped, get, lift, mbind, M_bind in *.
    destruct (ngtcp2_map_find _ _) as [[m|]| |]; simplify_eq; by eexists. }
  eapply wp_mono; [by apply (recv_on_stream_ok c p frs) | |].
  - intros ? c' (? & ? & H'). split; [done | by eapply H'].
  - intros e c' He Hne Hac. apply (He strm); try done; apply Hac.
Qed.

(** What the application has got of each stream is the stream up to the first
    offset that is missing. *)
Definition in_order c : Prop := forall p strm, conn_strm_heap c !! p = Some strm ->
  log c (strm_stream_id strm) = stretch (content (strm_stream_id strm)) 0 (ngtcp2_strm_rx_offset strm).

Lemma conn_ok_in_order reliable c : conn_ok reliable None c -> in_order c.
Proof.
  intros [[M []] _ _ _ _ _ _ _ _] p strm Hp. destruct (st_heap p strm Hp) as (_ & _ & _ & Hd).
  destruct (Hd ltac:(done)) as (frs & [[] Hrx _] & _). by rewrite Hrx.
Qed.
End Streams.
