(* ===== verification/ConnRecv.v ===== *)
(** The receive path of [ngtcp2_conn.c]: from a datagram to the frame handlers,
    and the handshake state machine. *)

From S2P Require Import Prelude Conv Frame PktDecode PktHd Mem Monad Range Gaptr Idtr Acktr Pq.
From S2P Require Import Rtb Map Rob Crypto Ppe Strm Conn ConnApp.

Section Recv.
Context {A : Type} (cb : ngtcp2_conn_callbacks A).
Abbreviation conn := (ngtcp2_conn A).
Abbreviation M := (M (ngtcp2_conn A)).

(** [conn_ensure_decrypt_buffer], [conn_decrypt_pkt] into the buffer: the
    plaintext. *)
Definition conn_open_pkt (payload ad : bytes) (pkt_num : Z) (ckm : conn -> option ngtcp2_crypto_km)
    (decrypt : Z -> bytes -> bytes -> bytes -> bytes -> bytes + Z) : M bytes :=
  conn_ensure_decrypt_buffer (zlen payload);;
  c ← get;
  conn_decrypt_pkt (zlen payload) payload ad pkt_num (ckm c) decrypt.

(** [nread = ngtcp2_pkt_decode_frame(fr, payload, payloadlen); payload += nread;]
    of a payload that is not empty. *)
Definition next_frame (payload : bytes) : M (ngtcp2_frame * bytes) :=
  '(fr, nread) ← lift (ngtcp2_pkt_decode_frame payload);
  payload ← lift (adv nread payload);
  match fr with
  | Some fr => mret (fr, payload)
  | None => undefined
  end.

(** ** Packets of the handshake *)

(** A STREAM frame on stream 0; the result is [handshake_failed]. *)
Definition conn_recv_hs_stream (hd : ngtcp2_pkt_hd) (fr : ngtcp2_stream) (handshake_failed : bool) :
    M bool :=
  throw_if (zlen (stream_data fr) =? 0) NGTCP2_ERR_FRAME_FORMAT;;
  throw_if ((hd_type hd =? NGTCP2_PKT_INITIAL) && negb (stream_offset fr =? 0)) NGTCP2_ERR_PROTO;;
  throw_if (negb (stream_fin fr =? 0)) NGTCP2_ERR_PROTO;;
  let fr_end_offset := u64 (stream_offset fr + zlen (stream_data fr)) in
  c ← get;
  let p := conn_strm0 c in
  strm0 ← load_strm p;
  let rx_offset := ngtcp2_strm_rx_offset strm0 in
  if fr_end_offset <=? rx_offset then mret handshake_failed
  else
    store_strm p (set_last_rx_offset strm0 (Z.max (strm_last_rx_offset strm0) fr_end_offset));;
    throw_if (strm_max_rx_offset strm0 <? fr_end_offset) NGTCP2_ERR_FLOW_CONTROL;;
    if stream_offset fr <=? rx_offset then
      '(data, rx_offset) ← conn_cut_frame p fr rx_offset;
      rv ← status (conn_call_recv_stream0_data cb data);
      handshake_failed ←
        (if rv =? 0 then mret handshake_failed
         else if rv =? NGTCP2_ERR_TLS_HANDSHAKE then mret true
         else throw rv);
      update_strm p (fun strm =>
        set_unsent_max_rx_offset strm (u64 (strm_unsent_max_rx_offset strm + zlen data)));;
      (if (handshake_failed : bool) then mret tt else conn_emit_pending_stream0_data cb p rx_offset);;
      mret handshake_failed
    else
      (if handshake_failed then mret tt else conn_recv_reordering p fr);;
      mret handshake_failed.

(** The loop over the frames: [require_ack] and [handshake_failed]. Every frame
    takes at least a byte. *)
Fixpoint conn_recv_hs_frames (fuel : nat) (hd : ngtcp2_pkt_hd) (payload : bytes)
    (require_ack handshake_failed : bool) : M (bool * bool) :=
  match fuel with
  | O => undefined
  | S fuel =>
      if zlen payload =? 0 then mret (require_ack, handshake_failed)
      else
        '(fr, payload) ← next_frame payload;
        conn_call_recv_frame cb hd fr;;
        match fr with
        | fr_ack ack =>
            throw_if ((hd_type hd =? NGTCP2_PKT_INITIAL) || (hd_type hd =? NGTCP2_PKT_RETRY)) NGTCP2_ERR_PROTO;;
            conn_recv_ack cb ack true;;
            conn_recv_hs_frames fuel hd payload require_ack handshake_failed
        | fr_padding _ =>
            throw_if (hd_type hd =? NGTCP2_PKT_RETRY) NGTCP2_ERR_PROTO;;
            conn_recv_hs_frames fuel hd payload require_ack handshake_failed
        | fr_stream fr =>
            handshake_failed ←
              (if stream_stream_id fr =? 0 then conn_recv_hs_stream hd fr handshake_failed
               else mret handshake_failed);
            conn_recv_hs_frames fuel hd payload true handshake_failed
        | fr_connection_close _ =>
            throw_if (negb (hd_type hd =? NGTCP2_PKT_HANDSHAKE)) NGTCP2_ERR_PROTO;;
            conn_recv_connection_close;;
            conn_recv_hs_frames fuel hd payload true handshake_failed
        | _ => throw NGTCP2_ERR_PROTO
        end
  end.

(** The [switch] on the packet type: whether the packet is processed further. *)
Definition conn_accept_hs_pkt (hd : ngtcp2_pkt_hd) (pkt payload : bytes) (ts : Z) : M bool :=
  c ← get;
  let negotiated := has_bit (conn_flags c) NGTCP2_CONN_FLAG_CONN_ID_NEGOTIATED in
  if conn_server c then
    if hd_type hd =? NGTCP2_PKT_INITIAL then
      if negotiated then mret true
      else
        conn_set_flag NGTCP2_CONN_FLAG_CONN_ID_NEGOTIATED;;
        modify (set_conn_client_conn_id (hd_conn_id hd));;
        conn_call_recv_client_initial cb;;
        mret true
    else if hd_type hd =? NGTCP2_PKT_HANDSHAKE then mret (conn_conn_id c =? hd_conn_id hd)
    else if hd_type hd =? NGTCP2_PKT_0RTT_PROTECTED then
      (if negotiated then mret tt else conn_buffer_protected_pkt pkt ts);;
      mret false
    else throw NGTCP2_ERR_PROTO
  else
    if hd_type hd =? NGTCP2_PKT_HANDSHAKE then
      if negotiated then mret (conn_conn_id c =? hd_conn_id hd)
      else
        conn_set_flag NGTCP2_CONN_FLAG_CONN_ID_NEGOTIATED;;
        modify (set_conn_conn_id (hd_conn_id hd));;
        mret true
    else if hd_type hd =? NGTCP2_PKT_RETRY then
      strm0 ← load_strm (conn_strm0 c);
      throw_if (negb (strm_last_rx_offset strm0 =? 0)) NGTCP2_ERR_PROTO;;
      mret (conn_conn_id c =? hd_conn_id hd)
    else if hd_type hd =? NGTCP2_PKT_VERSION_NEGOTIATION then
      if negb (conn_client_conn_id c =? hd_conn_id hd) then mret false
      else conn_on_version_negotiation cb hd payload;; throw NGTCP2_ERR_VERSION_NEGOTIATION
    else throw NGTCP2_ERR_PROTO.

(** What follows the loop over the frames. *)
Definition conn_finish_hs_pkt (hd : ngtcp2_pkt_hd) (require_ack handshake_failed : bool) (ts : Z) :
    M unit :=
  c ← get;
  strm0 ← load_strm (conn_strm0 c);
  throw_if (((hd_type hd =? NGTCP2_PKT_INITIAL) || (hd_type hd =? NGTCP2_PKT_RETRY)) &&
            (ngtcp2_rob_first_gap_offset (strm_rob strm0) =? 0)) NGTCP2_ERR_PROTO;;
  modify (fun c => set_conn_max_rx_pkt_num (Z.max (conn_max_rx_pkt_num c) (hd_pkt_num hd)) c);;
  if hd_type hd =? NGTCP2_PKT_RETRY then
    throw_if handshake_failed NGTCP2_ERR_PROTO;;
    conn_recv_server_stateless_retry cb
  else
    ngtcp2_conn_sched_ack (hd_pkt_num hd) require_ack ts true;;
    throw_if handshake_failed NGTCP2_ERR_TLS_HANDSHAKE.

(** ** Protected packets *)

(** The loop of [conn_recv_delayed_handshake_pkt]; its result is [require_ack].
    The frame is decoded into an [ngtcp2_frame], which has room for one block of
    an ACK frame. *)
Fixpoint conn_recv_delayed_frames (fuel : nat) (hd : ngtcp2_pkt_hd) (payload : bytes)
    (require_ack : bool) : M bool :=
  match fuel with
  | O => undefined
  | S fuel =>
      if zlen payload =? 0 then mret require_ack
      else
        '(fr, payload) ← next_frame payload;
        assert_ (match fr with fr_ack ack => zlen (ack_blks ack) <=? 1 | _ => true end);;
        conn_call_recv_frame cb hd fr;;
        match fr with
        | fr_ack ack =>
            throw_if (hd_type hd =? NGTCP2_PKT_INITIAL) NGTCP2_ERR_PROTO;;
            conn_recv_ack cb ack true;;
            conn_recv_delayed_frames fuel hd payload require_ack
        | fr_padding _ => conn_recv_delayed_frames fuel hd payload require_ack
        | fr_stream fr =>
            conn_recv_stream cb fr;;
            conn_recv_delayed_frames fuel hd payload true
        | _ => throw NGTCP2_ERR_PROTO
        end
  end.

Definition conn_recv_delayed_handshake_pkt (hd : ngtcp2_pkt_hd) (payload ad : bytes) (ts : Z) : M unit :=
  c ← get;
  if (if hd_type hd =? NGTCP2_PKT_INITIAL
      then negb (conn_server c) || negb (conn_client_conn_id c =? hd_conn_id hd)
      else negb (conn_conn_id c =? hd_conn_id hd))
  then mret tt
  else
    plaintext ← conn_open_pkt payload ad (hd_pkt_num hd) conn_hs_rx_ckm (cb_hs_decrypt cb);
    require_ack ← conn_recv_delayed_frames (S (length plaintext)) hd plaintext false;
    modify (fun c => set_conn_max_rx_pkt_num (Z.max (conn_max_rx_pkt_num c) (hd_pkt_num hd)) c);;
    ngtcp2_conn_sched_ack (hd_pkt_num hd) require_ack ts true.

(** The first [switch]: whether the frame asks for an acknowledgement. *)
Definition ack_eliciting (fr : ngtcp2_frame) : bool :=
  match fr with fr_ack _ | fr_padding _ | fr_connection_close _ => false | _ => true end.

(** The second [switch]. *)
Definition conn_recv_frame (hd : ngtcp2_pkt_hd) (fr : ngtcp2_frame) : M unit :=
  match fr with
  | fr_ack ack => conn_recv_ack cb ack false
  | fr_stream fr =>
      throw_if ((stream_stream_id fr =? 0) && has_bit (hd_flags hd) NGTCP2_PKT_FLAG_LONG_FORM)
        NGTCP2_ERR_PROTO;;
      conn_recv_stream cb fr
  | fr_rst_stream fr => conn_recv_rst_stream cb fr
  | fr_stop_sending stream_id app_error_code => conn_recv_stop_sending cb stream_id app_error_code
  | fr_max_stream_data stream_id max_stream_data => conn_recv_max_stream_data stream_id max_stream_data
  | fr_max_data max_data => conn_recv_max_data max_data
  | fr_max_stream_id max_stream_id => conn_recv_max_stream_id cb max_stream_id
  | fr_ping data => conn_recv_ping data
  | fr_pong data => conn_recv_pong data
  | fr_connection_close _ | fr_application_close _ => conn_recv_connection_close
  | _ => mret tt
  end.

Fixpoint conn_recv_frames (fuel : nat) (hd : ngtcp2_pkt_hd) (payload : bytes) (require_ack : bool) :
    M bool :=
  match fuel with
  | O => undefined
  | S fuel =>
      if zlen payload =? 0 then mret require_ack
      else
        '(fr, payload) ← next_frame payload;
        conn_call_recv_frame cb hd fr;;
        conn_recv_frame hd fr;;
        conn_recv_frames fuel hd payload (require_ack || ack_eliciting fr)
  end.

(** Decryption, and the Stateless Reset a packet that cannot be decrypted may
    be. [None]: the connection is being drained. *)
Definition conn_open_protected_pkt (hd : ngtcp2_pkt_hd) (payload ad : bytes) : M (option bytes) :=
  let long := has_bit (hd_flags hd) NGTCP2_PKT_FLAG_LONG_FORM in
  r ← attempt (conn_open_pkt payload ad (hd_pkt_num hd)
                 (if long then conn_early_ckm else conn_rx_ckm) (cb_decrypt cb));
  match r with
  | inl plaintext => mret (Some plaintext)
  | inr nwrite =>
      throw_if (negb (nwrite =? NGTCP2_ERR_TLS_DECRYPT) || long) nwrite;;
      rv ← status (conn_on_stateless_reset cb hd payload);
      if rv =? 0 then mret None else throw nwrite
  end.

(** The frames of a packet, once its header has been accepted. *)
Definition conn_recv_protected_payload (hd : ngtcp2_pkt_hd) (payload ad : bytes) (ts : Z) : M unit :=
  r ← conn_open_protected_pkt hd payload ad;
  match r with
  | None => mret tt
  | Some plaintext =>
      let long := has_bit (hd_flags hd) NGTCP2_PKT_FLAG_LONG_FORM in
      (if long then mret tt else conn_set_flag NGTCP2_CONN_FLAG_RECV_PROTECTED_PKT);;
      c ← get;
      if negb long && negb (has_bit (hd_flags hd) NGTCP2_PKT_FLAG_OMIT_CONN_ID) &&
         negb (conn_conn_id c =? hd_conn_id hd)
      then mret tt
      else
        require_ack ← conn_recv_frames (S (length plaintext)) hd plaintext false;
        modify (fun c => set_conn_max_rx_pkt_num (Z.max (conn_max_rx_pkt_num c) (hd_pkt_num hd)) c);;
        ngtcp2_conn_sched_ack (hd_pkt_num hd) require_ack ts false
  end.

(** [pkt_num_bits] *)
Definition short_pkt_num_bits (type : Z) : res Z :=
  if type =? NGTCP2_PKT_01 then Ok 8
  else if type =? NGTCP2_PKT_02 then Ok 16
  else if type =? NGTCP2_PKT_03 then Ok 32
  else Ub.

Definition set_hd_pkt_num (hd : ngtcp2_pkt_hd) (pkt_num : Z) : ngtcp2_pkt_hd :=
  mk_pkt_hd (hd_flags hd) (hd_type hd) (hd_conn_id hd) pkt_num (hd_version hd).

(** [hd.type = NGTCP2_PKT_VERSION_NEGOTIATION; hd.pkt_num = 0;] *)
Definition version_negotiation_hd (hd : ngtcp2_pkt_hd) : ngtcp2_pkt_hd :=
  mk_pkt_hd (hd_flags hd) NGTCP2_PKT_VERSION_NEGOTIATION (hd_conn_id hd) 0 (hd_version hd).

(** The part of [conn_recv_pkt] after the header has been decoded to [hd], in
    [nread] bytes. *)
Definition conn_recv_pkt_hd (hd : ngtcp2_pkt_hd) (nread : Z) (pkt : bytes) (ts : Z) : M unit :=
  let long := has_bit (hd_flags hd) NGTCP2_PKT_FLAG_LONG_FORM in
  ad ← lift (rdn nread pkt);
  payload ← lift (adv nread pkt);
  bits ← lift (if long then Ok 32 else short_pkt_num_bits (hd_type hd));
  c ← get;
  let hd := set_hd_pkt_num hd (ngtcp2_pkt_adjust_pkt_num (conn_max_rx_pkt_num c) (hd_pkt_num hd) bits) in
  conn_call_recv_pkt cb hd;;
  c ← get;
  if long then
    if (hd_type hd =? NGTCP2_PKT_INITIAL) || (hd_type hd =? NGTCP2_PKT_HANDSHAKE) then
      conn_recv_delayed_handshake_pkt hd payload ad ts
    else if hd_type hd =? NGTCP2_PKT_0RTT_PROTECTED then
      if negb (conn_server c) || negb (conn_client_conn_id c =? hd_conn_id hd) ||
         negb (conn_version c =? hd_version hd)
      then mret tt
      else if bool_decide (conn_early_ckm c = None) then mret tt
      else conn_recv_protected_payload hd payload ad ts
    else mret tt
  else conn_recv_protected_payload hd payload ad ts.

Definition conn_recv_pkt (pkt : bytes) (ts : Z) : M unit :=
  b ← lift (rd pkt);
  c ← get;
  if has_bit b NGTCP2_HEADER_FORM_BIT then
    '(hd, nread) ← lift (ngtcp2_pkt_decode_hd_long pkt);
    if hd_version hd =? 0 then
      if conn_server c || negb (conn_client_conn_id c =? hd_conn_id hd) then mret tt
      else conn_call_recv_pkt cb (version_negotiation_hd hd)
    else if negb (conn_version c =? hd_version hd) then mret tt
    else conn_recv_pkt_hd hd nread pkt ts
  else
    '(hd, nread) ← lift (ngtcp2_pkt_decode_hd_short pkt);
    throw_if ((s_omit_connection_id (conn_local_settings c) =? 0) &&
              has_bit (hd_flags hd) NGTCP2_PKT_FLAG_OMIT_CONN_ID) NGTCP2_ERR_PROTO;;
    conn_recv_pkt_hd hd nread pkt ts.

(** ** Packets received during the handshake *)

(** The part of [conn_recv_handshake_pkt] after the header has been decoded. *)
Definition conn_recv_handshake_pkt_hd (hd : ngtcp2_pkt_hd) (hdpktlen : Z) (pkt : bytes) (ts : Z) :
    M unit :=
  ad ← lift (rdn hdpktlen pkt);
  payload ← lift (adv hdpktlen pkt);
  conn_call_recv_pkt cb hd;;
  accepted ← conn_accept_hs_pkt hd pkt payload ts;
  if (accepted : bool) then
    plaintext ← conn_open_pkt payload ad (hd_pkt_num hd) conn_hs_rx_ckm (cb_hs_decrypt cb);
    '(require_ack, handshake_failed) ←
      conn_recv_hs_frames (S (length plaintext)) hd plaintext false false;
    conn_finish_hs_pkt hd require_ack handshake_failed ts
  else mret tt.

Definition conn_recv_handshake_pkt (pkt : bytes) (ts : Z) : M unit :=
  b ← lift (rd pkt);
  c ← get;
  if negb (has_bit b NGTCP2_HEADER_FORM_BIT) then
    if bool_decide (conn_state c = NGTCP2_CS_SERVER_INITIAL) then mret tt
    else conn_buffer_protected_pkt pkt ts
  else
    '(hd, nread) ← lift (ngtcp2_pkt_decode_hd_long pkt);
    if conn_server c && bool_decide (conn_early_ckm c <> None) &&
       (conn_client_conn_id c =? hd_conn_id hd) && (hd_type hd =? NGTCP2_PKT_0RTT_PROTECTED)
    then conn_recv_pkt pkt ts
    else if hd_version hd =? 0 then
      conn_recv_handshake_pkt_hd (version_negotiation_hd hd) (nread - 4) pkt ts
    else if negb (conn_version c =? hd_version hd) then mret tt
    else
      conn_recv_handshake_pkt_hd
        (set_hd_pkt_num hd (ngtcp2_pkt_adjust_pkt_num (conn_max_rx_pkt_num c) (hd_pkt_num hd) 32))
        nread pkt ts.

(** ** Buffered packets *)

(** [for (; pc; pc = pc->next)] from the packet at position [i]; the list, to which
    a call may append, has at most [NGTCP2_MAX_NUM_BUFFED_RX_PPKTS] packets. *)
Fixpoint recv_each (fuel : nat) (recv : bytes -> Z -> M unit) (i : nat) (ts : Z) : M unit :=
  match fuel with
  | O => undefined
  | S fuel =>
      c ← get;
      match conn_buffed_rx_ppkts c !! i with
      | None => mret tt
      | Some (pkt, _) => recv pkt ts;; recv_each fuel recv (S i) ts
      end
  end.

Definition conn_process_buffered_protected_pkt (ts : Z) : M unit :=
  recv_each 17 conn_recv_pkt 0 ts;;
  modify (set_conn_buffed_rx_ppkts []).

Definition conn_process_buffered_0rtt_pkt (ts : Z) : M unit :=
  recv_each 17 conn_recv_handshake_pkt 0 ts;;
  modify (set_conn_buffed_rx_ppkts []).

(** ** The state machine *)

(** [rv = conn_recv_handshake_pkt(...)], where a failed handshake leads to the
    state [failed]; whether the handshake goes on. *)
Definition conn_recv_handshake (failed : ngtcp2_conn_state) (pkt : bytes) (ts : Z) : M bool :=
  rv ← status (conn_recv_handshake_pkt pkt ts);
  if rv <? 0 then
    if rv =? NGTCP2_ERR_TLS_HANDSHAKE then modify (set_conn_state failed);; mret false
    else throw rv
  else mret true.

Definition ngtcp2_conn_recv (pkt : bytes) (ts : Z) : M unit :=
  throw_if (zlen pkt =? 0) NGTCP2_ERR_INVALID_ARGUMENT;;
  c ← get;
  match conn_state c with
  | NGTCP2_CS_CLIENT_WAIT_HANDSHAKE =>
      go ← conn_recv_handshake NGTCP2_CS_CLIENT_TLS_HANDSHAKE_FAILED pkt ts;
      c ← get;
      if (go : bool) && has_bit (conn_flags c) NGTCP2_CONN_FLAG_HANDSHAKE_COMPLETED then
        conn_handshake_completed cb;;
        modify (set_conn_state NGTCP2_CS_CLIENT_HANDSHAKE_ALMOST_FINISHED);;
        conn_process_buffered_protected_pkt ts
      else mret tt
  | NGTCP2_CS_SERVER_INITIAL | NGTCP2_CS_SERVER_WAIT_HANDSHAKE =>
      go ← conn_recv_handshake NGTCP2_CS_SERVER_TLS_HANDSHAKE_FAILED pkt ts;
      c ← get;
      if negb (go : bool) then mret tt
      else if bool_decide (conn_state c = NGTCP2_CS_SERVER_INITIAL) &&
              has_bit (conn_flags c) NGTCP2_CONN_FLAG_CONN_ID_NEGOTIATED then
        conn_process_buffered_0rtt_pkt ts
      else if has_bit (conn_flags c) NGTCP2_CONN_FLAG_HANDSHAKE_COMPLETED then
        conn_handshake_completed cb;;
        modify (set_conn_state NGTCP2_CS_POST_HANDSHAKE);;
        c ← get;
        throw_if (negb (has_bit (conn_flags c) NGTCP2_CONN_FLAG_TRANSPORT_PARAM_RECVED))
          NGTCP2_ERR_REQUIRED_TRANSPORT_PARAM;;
        conn_process_buffered_protected_pkt ts
      else mret tt
  | NGTCP2_CS_CLIENT_TLS_HANDSHAKE_FAILED | NGTCP2_CS_SERVER_TLS_HANDSHAKE_FAILED =>
      conn_recv_handshake_pkt pkt ts
  | NGTCP2_CS_CLIENT_HANDSHAKE_ALMOST_FINISHED | NGTCP2_CS_POST_HANDSHAKE => conn_recv_pkt pkt ts
  | NGTCP2_CS_CLIENT_INITIAL | NGTCP2_CS_CLOSING | NGTCP2_CS_DRAINING => mret tt
  end.
End Recv.
