(* ===== verification/ConnSend.v ===== *)
(** The send path of [ngtcp2_conn.c]: retransmission, handshake packets, protected
    packets and stream data.

    A function that writes a packet returns its bytes; no bytes stand for the
    return value 0. A frame chain that a loop walks with [pfrc] is split into
    the frames that have been written, and those from [*pfrc] on. *)

From S2P Require Import Prelude Conv Frame PktDecode PktEncode PktHd Mem Monad Range Gaptr Idtr Ringbuf.
From S2P Require Import AckScan Acktr Pq Rtb Map Rob Crypto Ppe Strm Err Conn ConnApp.
From S2P Require Import ConnAck.

Section Send.
Context {A : Type} (cb : ngtcp2_conn_callbacks A).
Abbreviation conn := (ngtcp2_conn A).
Abbreviation M := (M (ngtcp2_conn A)).

(** ** Packets under construction *)

(** The crypto contexts; [NULL] is dereferenced when there is no key. *)
Definition hs_ctx (c : conn) : M ngtcp2_crypto_ctx :=
  match conn_hs_tx_ckm c with
  | None => undefined
  | Some ckm => mret (mk_crypto_ctx ckm NGTCP2_HANDSHAKE_AEAD_OVERHEAD (cb_hs_encrypt cb))
  end.
Definition tx_ctx (c : conn) : M ngtcp2_crypto_ctx :=
  match conn_tx_ckm c with
  | None => undefined
  | Some ckm => mret (mk_crypto_ctx ckm (conn_aead_overhead c) (cb_encrypt cb))
  end.

(** [ngtcp2_ppe_init(&ppe, dest, destlen, &ctx); ngtcp2_ppe_encode_hd(&ppe, &hd)] *)
Definition start_pkt (destlen : Z) (ctx : ngtcp2_crypto_ctx) (hd : ngtcp2_pkt_hd) : M ngtcp2_ppe :=
  lift (ngtcp2_ppe_encode_hd (ngtcp2_ppe_init destlen ctx) hd).

(** [ngtcp2_ppe_final(&ppe, NULL)] *)
Definition final_pkt (ppe : ngtcp2_ppe) : M bytes := fst <$> lift (ngtcp2_ppe_final ppe).

(** [++conn->last_tx_pkt_num;] *)
Definition next_pkt_num : M unit :=
  modify (fun c => set_conn_last_tx_pkt_num (u64 (conn_last_tx_pkt_num c + 1)) c).

(** The packet, and [*psend_pkt_cb_called]; the frame as the encoder leaves it. *)
Definition conn_ppe_write_frame (ppe : ngtcp2_ppe) (called : bool) (hd : ngtcp2_pkt_hd)
    (fr : ngtcp2_frame) : M (ngtcp2_ppe * bool * ngtcp2_frame) :=
  '(ppe, fr) ← lift (ngtcp2_ppe_encode_frame ppe fr);
  (if called then mret tt else conn_call_send_pkt cb hd);;
  conn_call_send_frame cb hd fr;;
  mret (ppe, true, fr).

(** ** Retransmission *)

(** What the loop over the frames of a packet has done: the packet, the frames
    written, and the frames left, when one did not fit. *)
Record written := mk_written {
  wn_ppe : ngtcp2_ppe;
  wn_called : bool;
  wn_done : list ngtcp2_frame;
  wn_left : list ngtcp2_frame
}.

(** A frame that does not fit ends the loop; other errors are returned. *)
Definition write_or_stop (ppe : ngtcp2_ppe) (called : bool) (hd : ngtcp2_pkt_hd)
    (done : list ngtcp2_frame) (fr : ngtcp2_frame) (rest : list ngtcp2_frame)
    (k : ngtcp2_ppe -> bool -> list ngtcp2_frame -> M written) : M written :=
  r ← attempt (conn_ppe_write_frame ppe called hd fr);
  match r with
  | inl (ppe, called, fr) => k ppe called (done ++ [fr])
  | inr rv => if rv =? NGTCP2_ERR_NOBUF then mret (mk_written ppe called done (fr :: rest)) else throw rv
  end.

Fixpoint write_frames (ppe : ngtcp2_ppe) (called : bool) (hd : ngtcp2_pkt_hd)
    (done frc : list ngtcp2_frame) : M written :=
  match frc with
  | [] => mret (mk_written ppe called done [])
  | fr :: rest =>
      write_or_stop ppe called hd done fr rest (fun ppe called done => write_frames ppe called hd done rest)
  end.

(** [ngtcp2_rtb_add(&conn->rtb, ent)] for a new entry, which is deleted when that fails. *)
Definition add_rtb_entry (p : positive) : M unit :=
  r ← attempt (conn_rtb_add p);
  match r with
  | inl _ => mret tt
  | inr rv =>
      assert_ (negb (rv =? NGTCP2_ERR_INVALID_ARGUMENT));;
      ngtcp2_rtb_entry_del p;;
      throw rv
  end.

(** The frames that were written go into a new entry; [ent] keeps the others. *)
Definition split_rtb_entry (p : positive) (hd : ngtcp2_pkt_hd) (w : written) (ts nwrite flags : Z) : M unit :=
  ent ← load_ent p;
  n ← new_rtb_entry hd [] ts (re_deadline ent) nwrite flags;
  nent ← load_ent n;
  nent ← lift (ngtcp2_rtb_entry_extend_expiry
    (mk_rtb_entry (re_hd nent) (wn_done w) (re_expiry nent) (re_deadline nent) (re_count ent)
       (re_pktlen nent) (re_flags nent)) ts);
  store_ent n nent;;
  store_ent p (mk_rtb_entry (re_hd ent) (wn_left w) (re_expiry ent) (re_deadline ent) (re_count ent)
                 (re_pktlen ent) (re_flags ent));;
  add_rtb_entry n.

(** [ent->hd = hd; ngtcp2_rtb_entry_extend_expiry(ent, ts);] and the frames as the
    encoder left them. *)
Definition renew_rtb_entry (p : positive) (hd : ngtcp2_pkt_hd) (frc : list ngtcp2_frame) (ts : Z) : M unit :=
  ent ← load_ent p;
  ent ← lift (ngtcp2_rtb_entry_extend_expiry
    (mk_rtb_entry hd frc (re_expiry ent) (re_deadline ent) (re_count ent) (re_pktlen ent) (re_flags ent)) ts);
  store_ent p ent.

Definition conn_retransmit_unprotected (destlen : Z) (p : positive) (ts : Z) : M bytes :=
  ent ← load_ent p;
  c ← get;
  let hd := mk_pkt_hd (hd_flags (re_hd ent)) (hd_type (re_hd ent)) (conn_conn_id c)
              (u64 (conn_last_tx_pkt_num c + 1)) (conn_version c) in
  ctx ← hs_ctx c;
  ppe ← start_pkt destlen ctx hd;
  w ← write_frames ppe false hd [] (re_frc ent);
  if bool_decide (wn_done w = []) then
    (* nothing was written: the loop's last [rv] *)
    throw_if (negb (bool_decide (wn_left w = []))) NGTCP2_ERR_NOBUF;; mret []
  else if bool_decide (wn_left w = []) then
    renew_rtb_entry p hd (wn_done w) ts;;
    ppe ←
      (if hd_type hd =? NGTCP2_PKT_INITIAL then
         '(ppe, len) ← lift (ngtcp2_ppe_padding (wn_ppe w));
         conn_call_send_frame cb hd (fr_padding len);;
         mret ppe
       else mret (wn_ppe w));
    next_pkt_num;;
    final_pkt ppe
  else
    pkt ← final_pkt (wn_ppe w);
    split_rtb_entry p hd w ts (zlen pkt) NGTCP2_RTB_FLAG_UNPROTECTED;;
    next_pkt_num;;
    mret pkt.

(** Whether the frame is dropped instead of being sent again. *)
Definition cancel_frame (fr : ngtcp2_frame) : M bool :=
  match fr with
  | fr_stream fr =>
      strm ← ngtcp2_conn_find_stream (stream_stream_id fr);
      match strm with
      | None => mret true
      | Some p => strm ← load_strm p; mret (has_bit (strm_flags strm) NGTCP2_STRM_FLAG_SENT_RST)
      end
  | fr_stop_sending stream_id _ =>
      strm ← ngtcp2_conn_find_stream stream_id;
      match strm with
      | None => mret true
      | Some p => strm ← load_strm p; mret (has_bit (strm_flags strm) NGTCP2_STRM_FLAG_SHUT_RD)
      end
  | fr_max_stream_id max_stream_id =>
      c ← get;
      mret (if bidi_stream max_stream_id then max_stream_id <? conn_max_remote_stream_id_bidi c
            else max_stream_id <? conn_max_remote_stream_id_uni c)
  | fr_max_stream_data stream_id max_stream_data =>
      strm ← ngtcp2_conn_find_stream stream_id;
      match strm with
      | None => mret true
      | Some p => strm ← load_strm p; mret (max_stream_data <? strm_max_rx_offset strm)
      end
  | fr_max_data max_data => c ← get; mret (max_data <? conn_max_rx_offset c)
  | _ => mret false
  end.

(** After a STOP_SENDING frame has been dropped the code goes on to write
    [*pfrc], the frame that follows it, without looking at its type; there may
    be none. *)
Fixpoint write_live_frames (ppe : ngtcp2_ppe) (called : bool) (hd : ngtcp2_pkt_hd)
    (done frc : list ngtcp2_frame) : M written :=
  match frc with
  | [] => mret (mk_written ppe called done [])
  | fr :: rest =>
      cancel ← cancel_frame fr;
      if (cancel : bool) then
        match fr, rest with
        | fr_stop_sending _ _, [] => undefined
        | fr_stop_sending _ _, fr' :: rest' =>
            write_or_stop ppe called hd done fr' rest'
              (fun ppe called done => write_live_frames ppe called hd done rest')
        | _, _ => write_live_frames ppe called hd done rest
        end
      else
        write_or_stop ppe called hd done fr rest
          (fun ppe called done => write_live_frames ppe called hd done rest)
  end.

(** The ACK frame, if any, that is added to a packet; a lack of space is not an
    error. *)
Definition write_ack (ppe : ngtcp2_ppe) (called : bool) (hd : ngtcp2_pkt_hd) (ts : Z) :
    M (ngtcp2_ppe * bool) :=
  ackfr ← conn_create_ack_frame ts false;
  match ackfr with
  | None => mret (ppe, called)
  | Some ack =>
      r ← attempt (conn_ppe_write_frame ppe called hd (fr_ack ack));
      match r with
      | inr rv => if rv =? NGTCP2_ERR_NOBUF then mret (ppe, called) else throw rv
      | inl (ppe, called, _) =>
          conn_commit_tx_ack;;
          conn_add_ack (hd_pkt_num hd) ack false;;
          mret (ppe, called)
      end
  end.

Definition conn_retransmit_protected (destlen : Z) (p : positive) (ts : Z) : M bytes :=
  ent ← load_ent p;
  c ← get;
  let ack_expired := conn_next_ack_expired c ts in
  let pkt_num := u64 (conn_last_tx_pkt_num c + 1) in
  let hd := mk_pkt_hd (hd_flags (re_hd ent)) (conn_select_pkt_type c pkt_num) (conn_conn_id c)
              pkt_num (conn_version c) in
  ctx ← tx_ctx c;
  ppe ← start_pkt destlen ctx hd;
  w ← write_live_frames ppe false hd [] (re_frc ent);
  (* the frames that were dropped have left the chain of [ent] *)
  store_ent p (mk_rtb_entry (re_hd ent) (wn_done w ++ wn_left w) (re_expiry ent) (re_deadline ent)
                 (re_count ent) (re_pktlen ent) (re_flags ent));;
  if bool_decide (wn_done w = []) then
    throw_if (negb (bool_decide (wn_left w = []))) NGTCP2_ERR_NOBUF;; mret []
  else
    '(ppe, _) ← (if ack_expired then write_ack (wn_ppe w) (wn_called w) hd ts
                 else mret (wn_ppe w, wn_called w));
    if bool_decide (wn_left w = []) then
      renew_rtb_entry p hd (wn_done w) ts;;
      pkt ← final_pkt ppe;
      next_pkt_num;;
      mret pkt
    else
      pkt ← final_pkt ppe;
      split_rtb_entry p hd w ts (zlen pkt) NGTCP2_RTB_FLAG_NONE;;
      next_pkt_num;;
      mret pkt.

(** [rv = ngtcp2_rtb_add(&conn->rtb, ent)], which must not fail with an error that
    is not fatal. *)
Definition readd_rtb_entry (p : positive) : M unit :=
  r ← attempt (conn_rtb_add p);
  match r with
  | inl _ => mret tt
  | inr rv => ngtcp2_rtb_entry_del p;; assert_ (negb (ngtcp2_err_fatal rv =? 0));; throw rv
  end.

(** The packet of [ent], by the type of its header. *)
Definition conn_retransmit_entry (destlen : Z) (p : positive) (ts : Z) : M bytes :=
  ent ← load_ent p;
  c ← get;
  let type := hd_type (re_hd ent) in
  if has_bit (hd_flags (re_hd ent)) NGTCP2_PKT_FLAG_LONG_FORM then
    if (type =? NGTCP2_PKT_INITIAL) || (type =? NGTCP2_PKT_HANDSHAKE) then
      if has_bit (conn_flags c) NGTCP2_CONN_FLAG_RECV_PROTECTED_PKT then mret []
      else conn_retransmit_unprotected destlen p ts
    else throw NGTCP2_ERR_INVALID_ARGUMENT
  else
    if (type =? NGTCP2_PKT_01) || (type =? NGTCP2_PKT_02) || (type =? NGTCP2_PKT_03) then
      conn_retransmit_protected destlen p ts
    else throw NGTCP2_ERR_INVALID_ARGUMENT.

(** Every iteration but the last takes a packet out of the buffer. *)
Fixpoint retransmit_loop (fuel : nat) (destlen ts : Z) : M bytes :=
  match fuel with
  | O => undefined
  | S fuel =>
      c ← get;
      match ngtcp2_rtb_top (conn_rtb c) with
      | None => mret []
      | Some p =>
          ent ← load_ent p;
          if ts <? re_expiry ent then mret []
          else
            rtb ← lift (ngtcp2_rtb_pop (conn_rtb_heap c) (conn_rtb c));
            modify (set_conn_rtb rtb);;
            if re_deadline ent <=? ts then
              ngtcp2_rtb_entry_del p;; throw NGTCP2_ERR_PKT_TIMEOUT
            else
              r ← attempt (conn_retransmit_entry destlen p ts);
              match r with
              | inr rv =>
                  if rv =? NGTCP2_ERR_NOBUF then readd_rtb_entry p;; throw rv
                  else ngtcp2_rtb_entry_del p;; throw rv
              | inl [] => ngtcp2_rtb_entry_del p;; retransmit_loop fuel destlen ts
              | inl pkt =>
                  ent ← load_ent p;
                  if bool_decide (re_frc ent = []) then ngtcp2_rtb_entry_del p;; mret pkt
                  else
                    store_ent p (mk_rtb_entry (re_hd ent) (re_frc ent) (re_expiry ent) (re_deadline ent)
                                   (re_count ent) (zlen pkt) (re_flags ent));;
                    readd_rtb_entry p;;
                    mret pkt
              end
      end
  end.

Definition conn_retransmit (destlen ts : Z) : M bytes :=
  c ← get;
  retransmit_loop (S (length (rtb_head (conn_rtb c)))) destlen ts.

(** ** Handshake packets *)

(** [ts + NGTCP2_PKT_DEADLINE_PERIOD] *)
Definition pkt_deadline (ts : Z) : Z := u64 (ts + NGTCP2_PKT_DEADLINE_PERIOD).

(** [ngtcp2_ppe_encode_frame(&ppe, fr)], then [conn_call_send_frame(conn, &hd, fr)]. *)
Definition encode_and_report (ppe : ngtcp2_ppe) (hd : ngtcp2_pkt_hd) (fr : ngtcp2_frame) :
    M (ngtcp2_ppe * ngtcp2_frame) :=
  '(ppe, fr) ← lift (ngtcp2_ppe_encode_frame ppe fr);
  conn_call_send_frame cb hd fr;;
  mret (ppe, fr).

(** The ACK frame of a handshake packet. *)
Definition write_handshake_ack (ppe : ngtcp2_ppe) (hd : ngtcp2_pkt_hd) (ts : Z) : M ngtcp2_ppe :=
  ackfr ← conn_create_ack_frame ts true;
  match ackfr with
  | None => mret ppe
  | Some ack =>
      '(ppe, _) ← encode_and_report ppe hd (fr_ack ack);
      conn_commit_tx_ack;;
      conn_add_ack (hd_pkt_num hd) ack true;;
      mret ppe
  end.

(** The STREAM frame with the data in [tx_buf] of stream 0. *)
Definition write_stream0_frame (ppe : ngtcp2_ppe) (hd : ngtcp2_pkt_hd) :
    M (ngtcp2_ppe * list ngtcp2_frame) :=
  strm0 ← gets conn_strm0;
  strm ← load_strm strm0;
  let tx_buf := strm_tx_buf strm in
  let nwrite := Z.min (ngtcp2_buf_len tx_buf) (u64 (ngtcp2_ppe_left ppe - NGTCP2_STREAM_OVERHEAD)) in
  throw_if (negb (nwrite =? ngtcp2_buf_len tx_buf) && (hd_type hd =? NGTCP2_PKT_INITIAL)) NGTCP2_ERR_NOBUF;;
  if 0 <? nwrite then
    ngtcp2_frame_chain_new;;
    rest ← lift (adv (b_pos tx_buf) (b_bytes tx_buf));
    data ← lift (rdn nwrite rest);
    '(ppe, fr) ← encode_and_report ppe hd (fr_stream (mk_stream 0 0 0 (strm_tx_offset strm) data));
    update_strm strm0 (fun strm =>
      let tx_buf := strm_tx_buf strm in
      set_tx_offset (set_tx_buf strm (mk_buf (b_cap tx_buf) (b_pos tx_buf + nwrite) (b_bytes tx_buf)))
        (u64 (strm_tx_offset strm + nwrite)));;
    mret (ppe, [fr])
  else mret (ppe, []).

(** The PADDING of an Initial packet, or the CONNECTION_CLOSE frame after a
    failed TLS handshake. *)
Definition write_handshake_trailer (ppe : ngtcp2_ppe) (hd : ngtcp2_pkt_hd) (frc : list ngtcp2_frame) :
    M (ngtcp2_ppe * list ngtcp2_frame) :=
  if hd_type hd =? NGTCP2_PKT_INITIAL then
    '(ppe, len) ← lift (ngtcp2_ppe_padding ppe);
    (if 0 <? len then conn_call_send_frame cb hd (fr_padding len) else mret tt);;
    mret (ppe, frc)
  else
    c ← get;
    if bool_decide (conn_state c = NGTCP2_CS_CLIENT_TLS_HANDSHAKE_FAILED) ||
       bool_decide (conn_state c = NGTCP2_CS_SERVER_TLS_HANDSHAKE_FAILED) then
      ngtcp2_frame_chain_new;;
      '(ppe, fr) ← encode_and_report ppe hd (fr_connection_close (mk_close NGTCP2_TLS_HANDSHAKE_FAILED []));
      mret (ppe, frc ++ [fr])
    else mret (ppe, frc).

(** [tx_buf] is [&conn->strm0->tx_buf] in every call. *)
Definition conn_write_handshake_pkt (destlen type ts : Z) : M bytes :=
  c ← get;
  let ack_expired := conn_next_ack_expired c ts in
  let hd := mk_pkt_hd NGTCP2_PKT_FLAG_LONG_FORM type (conn_conn_id c)
              (u64 (conn_last_tx_pkt_num c + 1)) (conn_version c) in
  ctx ← hs_ctx c;
  ppe ← start_pkt destlen ctx hd;
  conn_call_send_pkt cb hd;;
  '(ppe, full) ←
    (if negb (type =? NGTCP2_PKT_INITIAL) && ack_expired then
       ppe ← write_handshake_ack ppe hd ts;
       mret (ppe, ngtcp2_ppe_left ppe <? NGTCP2_STREAM_OVERHEAD + 1)
     else mret (ppe, false));
  if (full : bool) then next_pkt_num;; final_pkt ppe
  else
    '(ppe, frc) ← write_stream0_frame ppe hd;
    '(ppe, frc) ← write_handshake_trailer ppe hd frc;
    pkt ← final_pkt ppe;
    (if bool_decide (frc = []) then mret tt
     else
       p ← new_rtb_entry hd frc ts (pkt_deadline ts) (zlen pkt) NGTCP2_RTB_FLAG_UNPROTECTED;
       add_rtb_entry p);;
    next_pkt_num;;
    mret pkt.

Definition conn_write_handshake_ack_pkt (destlen type ts : Z) : M bytes :=
  c ← get;
  if negb (conn_next_ack_expired c ts) then mret []
  else
    ackfr ← conn_create_ack_frame ts true;
    match ackfr with
    | None => mret []
    | Some ack =>
        c ← get;
        let hd := mk_pkt_hd NGTCP2_PKT_FLAG_LONG_FORM type (conn_conn_id c)
                    (u64 (conn_last_tx_pkt_num c + 1)) (conn_version c) in
        ctx ← hs_ctx c;
        ppe ← start_pkt destlen ctx hd;
        conn_call_send_pkt cb hd;;
        '(ppe, _) ← encode_and_report ppe hd (fr_ack ack);
        conn_commit_tx_ack;;
        conn_add_ack (hd_pkt_num hd) ack true;;
        next_pkt_num;;
        final_pkt ppe
    end.

(** [ngtcp2_buf_init(tx_buf, payload, payloadlen); tx_buf->last += payloadlen;] *)
Definition set_stream0_data (payload : bytes) : M unit :=
  strm0 ← gets conn_strm0;
  update_strm strm0 (fun strm => set_tx_buf strm (buf_append (ngtcp2_buf_init (zlen payload)) payload)).

(** The data of stream 0 that is still to be sent. *)
Definition stream0_datalen : M Z :=
  strm0 ← gets conn_strm0;
  strm ← load_strm strm0;
  mret (ngtcp2_buf_len (strm_tx_buf strm)).

Definition conn_write_client_initial (destlen ts : Z) : M bytes :=
  c ← get;
  let retry := has_bit (conn_flags c) NGTCP2_CONN_FLAG_STATELESS_RETRY in
  '(user_data, pkt_num, payload) ← run_prog (cb_send_client_initial cb c (negb retry));
  modify (set_conn_user_data user_data);;
  match payload with
  | None | Some [] => throw NGTCP2_ERR_CALLBACK_FAILURE
  | Some payload =>
      set_stream0_data payload;;
      c ← get;
      (if has_bit (conn_flags c) NGTCP2_CONN_FLAG_STATELESS_RETRY then mret tt
       else modify (set_conn_last_tx_pkt_num (u64 (pkt_num - 1))));;
      conn_write_handshake_pkt destlen NGTCP2_PKT_INITIAL ts
  end.

Definition conn_write_client_handshake (destlen ts : Z) : M bytes :=
  len ← stream0_datalen;
  if len =? 0 then
    c ← get;
    '(user_data, payload) ← run_prog (cb_send_client_handshake cb c);
    modify (set_conn_user_data user_data);;
    match payload with
    | None => throw NGTCP2_ERR_CALLBACK_FAILURE
    | Some [] =>
        c ← get;
        throw_if (bool_decide (conn_state c = NGTCP2_CS_CLIENT_TLS_HANDSHAKE_FAILED)) NGTCP2_ERR_TLS_HANDSHAKE;;
        conn_write_handshake_ack_pkt destlen NGTCP2_PKT_HANDSHAKE ts
    | Some payload =>
        set_stream0_data payload;;
        conn_write_handshake_pkt destlen NGTCP2_PKT_HANDSHAKE ts
    end
  else conn_write_handshake_pkt destlen NGTCP2_PKT_HANDSHAKE ts.

(** [pkt_num] is 0 when the callback is not called, as it is initialised. *)
Definition conn_write_server_handshake (destlen : Z) (initial : bool) (ts : Z) : M bytes :=
  let write pkt_num :=
    (if initial then
       modify (fun c =>
         set_conn_rtb (mk_rtb (rtb_pq (conn_rtb c)) (rtb_head (conn_rtb c))
                         (rtb_bytes_in_flight (conn_rtb c)) (u64 (pkt_num - 1)))
           (set_conn_last_tx_pkt_num (u64 (pkt_num - 1)) c))
     else mret tt);;
    conn_write_handshake_pkt destlen NGTCP2_PKT_HANDSHAKE ts in
  len ← stream0_datalen;
  if len =? 0 then
    c ← get;
    '(user_data, pkt_num, payload) ← run_prog (cb_send_server_handshake cb c initial);
    modify (set_conn_user_data user_data);;
    match payload with
    | None => throw NGTCP2_ERR_CALLBACK_FAILURE
    | Some [] =>
        throw_if initial NGTCP2_ERR_CALLBACK_FAILURE;;
        c ← get;
        throw_if (bool_decide (conn_state c = NGTCP2_CS_SERVER_TLS_HANDSHAKE_FAILED)) NGTCP2_ERR_TLS_HANDSHAKE;;
        conn_write_handshake_ack_pkt destlen NGTCP2_PKT_HANDSHAKE ts
    | Some payload => set_stream0_data payload;; write pkt_num
    end
  else write 0.

(** ** Protected packets *)

(** The MAX_DATA frame. *)
Definition queue_max_data (ackfr : option ngtcp2_ack) : M unit :=
  c ← get;
  if (bool_decide (is_Some ackfr) || negb (bool_decide (conn_frq c = [])) || conn_should_send_max_data c) &&
     (conn_max_rx_offset c <? conn_unsent_max_rx_offset c) then
    ngtcp2_frame_chain_new;;
    conn_frq_push (fr_max_data (conn_unsent_max_rx_offset c));;
    modify (fun c => set_conn_max_rx_offset (conn_unsent_max_rx_offset c) c)
  else mret tt.

(** [while (conn->fc_strms)], for the streams [l] of the list. *)
Fixpoint queue_max_stream_data (l : list positive) : M unit :=
  match l with
  | [] => mret tt
  | p :: l =>
      ngtcp2_frame_chain_new;;
      strm ← load_strm p;
      conn_frq_push (fr_max_stream_data (strm_stream_id strm) (strm_unsent_max_rx_offset strm));;
      store_strm p (set_max_rx_offset strm (strm_unsent_max_rx_offset strm));;
      modify (set_conn_fc_strms l);;
      queue_max_stream_data l
  end.

(** The pointer [pfrc] into the queue [conn->frq]: [None] is [&conn->frq], and
    [Some n] is [&frc->next] of the frame [frc] that is followed by [n] others. A
    callback may put new frames at the front of the queue. *)
Definition frq_pointer := option nat.

(** The frames before [*pfrc], and those from there on. *)
Definition frq_before (pfrc : frq_pointer) (frq : list ngtcp2_frame) : list ngtcp2_frame :=
  match pfrc with None => [] | Some n => take (length frq - n) frq end.
Definition frq_from (pfrc : frq_pointer) (frq : list ngtcp2_frame) : list ngtcp2_frame :=
  match pfrc with None => frq | Some n => drop (length frq - n) frq end.

(** [pfrc = &( *pfrc)->next] *)
Definition frq_next (pfrc : frq_pointer) (frq : list ngtcp2_frame) : frq_pointer :=
  Some (length (frq_from pfrc frq) - 1)%nat.

(** [frc = *pfrc; *pfrc = ( *pfrc)->next; ngtcp2_frame_chain_del(frc, conn->mem);] *)
Definition frq_delete (pfrc : frq_pointer) : M frq_pointer :=
  modify (fun c =>
    set_conn_frq (frq_before pfrc (conn_frq c) ++ tail (frq_from pfrc (conn_frq c))) c);;
  mret (match pfrc with None => None | Some n => Some (n - 1)%nat end).

(** [*pfrc = nfrc], where [*pfrc] is NULL. *)
Definition frq_append (pfrc : frq_pointer) (fr : ngtcp2_frame) : M frq_pointer :=
  modify (fun c => set_conn_frq (conn_frq c ++ [fr]) c);;
  mret (match pfrc with None => None | Some n => Some (n + 1)%nat end).

(** Whether a queued frame has become useless. *)
Definition drop_queued_frame (fr : ngtcp2_frame) : M bool :=
  match fr with
  | fr_rst_stream fr =>
      strm ← ngtcp2_conn_find_stream (rst_stream_id fr);
      mret (bool_decide (strm = None) && negb (rst_app_error_code fr =? NGTCP2_STOPPING))
  | fr_stop_sending stream_id _ =>
      strm ← ngtcp2_conn_find_stream stream_id;
      match strm with
      | None => mret true
      | Some p => strm ← load_strm p; mret (has_bit (strm_flags strm) NGTCP2_STRM_FLAG_SHUT_RD)
      end
  | _ => mret false
  end.

(** The variables of [conn_write_pkt]: the packet, the position in the queue,
    [send_pkt_cb_called], [pkt_empty], and whether [rv] is [NGTCP2_ERR_NOBUF]. *)
Record pkt_build := mk_pkt_build {
  pb_ppe : ngtcp2_ppe;
  pb_pfrc : frq_pointer;
  pb_called : bool;
  pb_empty : bool;
  pb_nobuf : bool
}.

(** [conn_ppe_write_frame(conn, ..., &( *pfrc)->fr)]; only a lack of space may
    make it fail. The encoder changes none of the frames that are queued. *)
Definition write_queued_frame (hd : ngtcp2_pkt_hd) (fr : ngtcp2_frame) (b : pkt_build) : M pkt_build :=
  r ← attempt (conn_ppe_write_frame (pb_ppe b) (pb_called b) hd fr);
  match r with
  | inr rv =>
      assert_ (rv =? NGTCP2_ERR_NOBUF);;
      mret (mk_pkt_build (pb_ppe b) (pb_pfrc b) (pb_called b) (pb_empty b) true)
  | inl (ppe, called, _) =>
      frq ← gets conn_frq;
      mret (mk_pkt_build ppe (frq_next (pb_pfrc b) frq) called false false)
  end.

(** One round: the frame at [*pfrc] is taken out of the queue, or written, or
    does not fit. *)
Definition write_frq_round (hd : ngtcp2_pkt_hd) (fr : ngtcp2_frame) (b : pkt_build) : M pkt_build :=
  drop_frame ← drop_queued_frame fr;
  if (drop_frame : bool) then
    pfrc ← frq_delete (pb_pfrc b);
    mret (mk_pkt_build (pb_ppe b) pfrc (pb_called b) (pb_empty b) (pb_nobuf b))
  else write_queued_frame hd fr b.

(** The loop once a frame has been written: [pfrc] is [Some n], and the frames
    from there on, [n] of them, are not affected by the callbacks. *)
Fixpoint write_frq_next (n : nat) (hd : ngtcp2_pkt_hd) (b : pkt_build) : M pkt_build :=
  match n with
  | O => mret b
  | S n =>
      frq ← gets conn_frq;
      match frq_from (pb_pfrc b) frq with
      | [] => mret b
      | fr :: _ =>
          b ← write_frq_round hd fr b;
          if pb_nobuf b then mret b else write_frq_next n hd b
      end
  end.

(** The loop as long as [pfrc] is [&conn->frq], with the queue [l]. *)
Fixpoint write_frq (l : list ngtcp2_frame) (hd : ngtcp2_pkt_hd) (b : pkt_build) : M pkt_build :=
  match l with
  | [] => mret b
  | fr :: l =>
      b ← write_frq_round hd fr b;
      if pb_nobuf b then mret b
      else match pb_pfrc b with
           | None => write_frq l hd b
           | Some n => write_frq_next n hd b
           end
  end.

(** A MAX_STREAM_ID frame, for which the limit is raised from [max] to [unsent]. *)
Definition write_max_stream_id (hd : ngtcp2_pkt_hd) (unsent max : conn -> Z) (set_max : Z -> conn -> conn)
    (b : pkt_build) : M pkt_build :=
  c ← get;
  if negb (pb_nobuf b) && bool_decide (frq_from (pb_pfrc b) (conn_frq c) = []) && (max c <? unsent c) then
    ngtcp2_frame_chain_new;;
    pfrc ← frq_append (pb_pfrc b) (fr_max_stream_id (unsent c));
    modify (set_max (unsent c));;
    write_queued_frame hd (fr_max_stream_id (unsent c))
      (mk_pkt_build (pb_ppe b) pfrc (pb_called b) (pb_empty b) (pb_nobuf b))
  else mret b.

(** The frames written leave the queue, and the packet enters the
    retransmission buffer. *)
Definition store_written_frames (hd : ngtcp2_pkt_hd) (pfrc : frq_pointer) (ts pktlen : Z) : M unit :=
  match pfrc with
  | None => mret tt
  | Some _ =>
      p ← new_rtb_entry hd [] ts (pkt_deadline ts) pktlen NGTCP2_RTB_FLAG_NONE;
      ent ← load_ent p;
      frq ← gets conn_frq;
      store_ent p (mk_rtb_entry (re_hd ent) (frq_before pfrc frq) (re_expiry ent) (re_deadline ent)
                     (re_count ent) (re_pktlen ent) (re_flags ent));;
      modify (set_conn_frq (frq_from pfrc frq));;
      add_rtb_entry p
  end.

Definition conn_write_pkt (destlen ts : Z) : M bytes :=
  c ← get;
  ackfr ← (if conn_next_ack_expired c ts then conn_create_ack_frame ts false else mret None);
  queue_max_data ackfr;;
  c ← get;
  queue_max_stream_data (conn_fc_strms c);;
  c ← get;
  if bool_decide (ackfr = None) &&
     (conn_unsent_max_remote_stream_id_bidi c =? conn_max_remote_stream_id_bidi c) &&
     (conn_unsent_max_remote_stream_id_uni c =? conn_max_remote_stream_id_uni c) &&
     bool_decide (conn_frq c = [])
  then mret []
  else
    let pkt_num := u64 (conn_last_tx_pkt_num c + 1) in
    let hd := mk_pkt_hd NGTCP2_PKT_FLAG_NONE (conn_select_pkt_type c pkt_num) (conn_conn_id c)
                pkt_num (conn_version c) in
    ctx ← tx_ctx c;
    ppe ← start_pkt destlen ctx hd;
    '(ppe, called) ←
      match ackfr with
      | None => mret (ppe, false)
      | Some ack =>
          '(ppe, called, _) ← conn_ppe_write_frame ppe false hd (fr_ack ack);
          conn_commit_tx_ack;;
          conn_add_ack pkt_num ack false;;
          mret (ppe, called)
      end;
    frq ← gets conn_frq;
    b ← write_frq frq hd (mk_pkt_build ppe None called (bool_decide (ackfr = None)) false);
    b ← write_max_stream_id hd conn_unsent_max_remote_stream_id_bidi conn_max_remote_stream_id_bidi
          set_conn_max_remote_stream_id_bidi b;
    b ← write_max_stream_id hd conn_unsent_max_remote_stream_id_uni conn_max_remote_stream_id_uni
          set_conn_max_remote_stream_id_uni b;
    if pb_empty b then throw_if (pb_nobuf b) NGTCP2_ERR_NOBUF;; mret []
    else
      pkt ← final_pkt (pb_ppe b);
      store_written_frames hd (pb_pfrc b) ts (zlen pkt);;
      next_pkt_num;;
      mret pkt.

Definition conn_write_single_frame_pkt (destlen : Z) (fr : ngtcp2_frame) : M bytes :=
  c ← get;
  let pkt_num := u64 (conn_last_tx_pkt_num c + 1) in
  let hd := mk_pkt_hd NGTCP2_PKT_FLAG_NONE (conn_select_pkt_type c pkt_num) (conn_conn_id c)
              pkt_num (conn_version c) in
  ctx ← tx_ctx c;
  ppe ← start_pkt destlen ctx hd;
  conn_call_send_pkt cb hd;;
  '(ppe, fr) ← encode_and_report ppe hd fr;
  pkt ← final_pkt ppe;
  (match fr with fr_ack ack => conn_add_ack pkt_num ack false | _ => mret tt end);;
  next_pkt_num;;
  mret pkt.

Definition conn_write_protected_ack_pkt (destlen ts : Z) : M bytes :=
  c ← get;
  if negb (conn_next_ack_expired c ts) then mret []
  else
    ackfr ← conn_create_ack_frame ts false;
    match ackfr with
    | None => mret []
    | Some ack =>
        pkt ← conn_write_single_frame_pkt destlen (fr_ack ack);
        conn_commit_tx_ack;;
        mret pkt
    end.

(** ** The functions the application calls *)

(** The entries that are left are deleted when one cannot be added. *)
Fixpoint process_early_rtb_loop (l : list positive) : M unit :=
  match l with
  | [] => mret tt
  | p :: l' =>
      c ← get;
      (if has_bit (conn_flags c) NGTCP2_CONN_FLAG_EARLY_DATA_REJECTED then
         ent ← load_ent p;
         store_ent p (mk_rtb_entry (re_hd ent) (re_frc ent) 0 (re_deadline ent) (re_count ent)
                        (re_pktlen ent) (re_flags ent))
       else mret tt);;
      r ← attempt (conn_rtb_add p);
      match r with
      | inl _ => process_early_rtb_loop l'
      | inr rv =>
          assert_ (negb (rv =? NGTCP2_ERR_INVALID_ARGUMENT));;
          delete_rtb_entries l;;
          modify (set_conn_early_rtb []);;
          throw rv
      end
  end.

Definition conn_process_early_rtb : M unit :=
  c ← get;
  process_early_rtb_loop (conn_early_rtb c);;
  modify (set_conn_early_rtb []).

(** [if (conn->last_tx_pkt_num == UINT64_MAX)] *)
Definition check_pkt_num : M unit :=
  c ← get;
  throw_if (conn_last_tx_pkt_num c =? UINT64_MAX) NGTCP2_ERR_PKT_NUM_EXHAUSTED.

Definition ngtcp2_conn_write_pkt (destlen ts : Z) : M bytes :=
  check_pkt_num;;
  pkt ← conn_retransmit destlen ts;
  if negb (bool_decide (pkt = [])) then mret pkt
  else
    c ← get;
    match conn_state c with
    | NGTCP2_CS_CLIENT_INITIAL =>
        pkt ← conn_write_client_initial destlen ts;
        modify (set_conn_state NGTCP2_CS_CLIENT_WAIT_HANDSHAKE);;
        mret pkt
    | NGTCP2_CS_CLIENT_WAIT_HANDSHAKE => conn_write_client_handshake destlen ts
    | NGTCP2_CS_CLIENT_HANDSHAKE_ALMOST_FINISHED =>
        pkt ← conn_write_client_handshake destlen ts;
        if negb (bool_decide (pkt = [])) then mret pkt
        else
          modify (set_conn_state NGTCP2_CS_POST_HANDSHAKE);;
          c ← get;
          throw_if (negb (has_bit (conn_flags c) NGTCP2_CONN_FLAG_TRANSPORT_PARAM_RECVED))
            NGTCP2_ERR_REQUIRED_TRANSPORT_PARAM;;
          if bool_decide (conn_early_rtb c = []) then mret []
          else
            conn_process_early_rtb;;
            conn_retransmit destlen ts
    | NGTCP2_CS_CLIENT_TLS_HANDSHAKE_FAILED => conn_write_client_handshake destlen ts
    | NGTCP2_CS_SERVER_INITIAL =>
        pkt ← conn_write_server_handshake destlen true ts;
        modify (set_conn_state NGTCP2_CS_SERVER_WAIT_HANDSHAKE);;
        mret pkt
    | NGTCP2_CS_SERVER_WAIT_HANDSHAKE => conn_write_server_handshake destlen false ts
    | NGTCP2_CS_SERVER_TLS_HANDSHAKE_FAILED =>
        strm ← load_strm (conn_strm0 c);
        conn_write_server_handshake destlen (strm_tx_offset strm =? 0) ts
    | NGTCP2_CS_POST_HANDSHAKE => conn_write_pkt destlen ts
    | NGTCP2_CS_CLOSING | NGTCP2_CS_DRAINING => mret []
    end.

Definition ngtcp2_conn_write_ack_pkt (destlen ts : Z) : M bytes :=
  check_pkt_num;;
  pkt ← conn_retransmit destlen ts;
  if negb (bool_decide (pkt = [])) then mret pkt
  else
    c ← get;
    match conn_state c with
    | NGTCP2_CS_CLIENT_INITIAL | NGTCP2_CS_CLIENT_WAIT_HANDSHAKE
    | NGTCP2_CS_CLIENT_HANDSHAKE_ALMOST_FINISHED | NGTCP2_CS_SERVER_INITIAL
    | NGTCP2_CS_SERVER_WAIT_HANDSHAKE => conn_write_handshake_ack_pkt destlen NGTCP2_PKT_HANDSHAKE ts
    | NGTCP2_CS_POST_HANDSHAKE => conn_write_protected_ack_pkt destlen ts
    | _ => mret []
    end.

(** The flags and the type of the header, the connection ID, and the key. *)
Definition select_stream_pkt (c : conn) : res (Z * Z * Z * ngtcp2_crypto_km) :=
  match conn_tx_ckm c, conn_early_ckm c, conn_server c with
  | Some ckm, _, _ =>
      Ok (NGTCP2_PKT_FLAG_NONE, conn_select_pkt_type c (u64 (conn_last_tx_pkt_num c + 1)), conn_conn_id c, ckm)
  | None, Some ckm, false =>
      if has_bit (conn_flags c) NGTCP2_CONN_FLAG_EARLY_DATA_REJECTED then Err NGTCP2_ERR_EARLY_DATA_REJECTED
      else Ok (NGTCP2_PKT_FLAG_LONG_FORM, NGTCP2_PKT_0RTT_PROTECTED, conn_client_conn_id c, ckm)
  | _, _, _ => Err NGTCP2_ERR_NOKEY
  end.

(** A 0-RTT packet waits in [early_rtb], as a Short packet, for the end of the handshake. *)
Definition store_stream_pkt (p : positive) (pkt_type : Z) : M unit :=
  if pkt_type =? NGTCP2_PKT_0RTT_PROTECTED then
    ent ← load_ent p;
    let hd := re_hd ent in
    store_ent p (mk_rtb_entry
      (mk_pkt_hd (hd_flags hd .& Z.lxor 0xff NGTCP2_PKT_FLAG_LONG_FORM) NGTCP2_PKT_01 (hd_conn_id hd)
         (hd_pkt_num hd) (hd_version hd))
      (re_frc ent) (re_expiry ent) (re_deadline ent) (re_count ent) (re_pktlen ent) (re_flags ent));;
    modify (fun c => set_conn_early_rtb (conn_early_rtb c ++ [p]) c)
  else add_rtb_entry p.

(** The packet, and the length of the data it carries. *)
Definition ngtcp2_conn_write_stream (destlen stream_id : Z) (fin : bool) (data : bytes) (ts : Z) :
    M (bytes * Z) :=
  check_pkt_num;;
  p ← conn_get_stream stream_id;
  strm ← load_strm p;
  throw_if (has_bit (strm_flags strm) NGTCP2_STRM_FLAG_SHUT_WR) NGTCP2_ERR_STREAM_SHUT_WR;;
  c ← get;
  '(pkt_flags, pkt_type, conn_id, ckm) ← lift (select_stream_pkt c);
  let hd := mk_pkt_hd pkt_flags pkt_type conn_id (u64 (conn_last_tx_pkt_num c + 1)) (conn_version c) in
  ppe ← start_pkt destlen (mk_crypto_ctx ckm (conn_aead_overhead c) (cb_encrypt cb)) hd;
  let left := ngtcp2_ppe_left ppe in
  throw_if (left <=? NGTCP2_STREAM_OVERHEAD) NGTCP2_ERR_NOBUF;;
  let left := left - NGTCP2_STREAM_OVERHEAD in
  let ndatalen := Z.min (zlen data) left in
  let ndatalen := Z.min ndatalen (u64 (strm_max_tx_offset strm - strm_tx_offset strm)) in
  let ndatalen := Z.min ndatalen (u64 (conn_max_tx_offset c - conn_tx_offset c)) in
  throw_if ((0 <? zlen data) && (ndatalen =? 0)) NGTCP2_ERR_STREAM_DATA_BLOCKED;;
  let fin := fin && (ndatalen =? zlen data) in
  conn_call_send_pkt cb hd;;
  ngtcp2_frame_chain_new;;
  strm ← load_strm p;
  '(ppe, fr) ← encode_and_report ppe hd
    (fr_stream (mk_stream 0 (c_bool fin) stream_id (strm_tx_offset strm) (take (Z.to_nat ndatalen) data)));
  pkt ← final_pkt ppe;
  ent ← new_rtb_entry hd [fr] ts (pkt_deadline ts) (zlen pkt) NGTCP2_RTB_FLAG_NONE;
  store_stream_pkt ent pkt_type;;
  update_strm p (fun strm => set_tx_offset strm (u64 (strm_tx_offset strm + ndatalen)));;
  (if negb (stream_id =? 0) then
     modify (fun c => set_conn_tx_offset (u64 (conn_tx_offset c + ndatalen)) c)
   else mret tt);;
  next_pkt_num;;
  (if fin then update_strm p (fun strm => ngtcp2_strm_shutdown strm NGTCP2_STRM_FLAG_SHUT_WR) else mret tt);;
  mret (pkt, ndatalen).

Definition ngtcp2_conn_write_connection_close (destlen error_code : Z) : M bytes :=
  check_pkt_num;;
  c ← get;
  match conn_state c with
  | NGTCP2_CS_POST_HANDSHAKE =>
      pkt ← conn_write_single_frame_pkt destlen (fr_connection_close (mk_close error_code []));
      (if 0 <? zlen pkt then modify (set_conn_state NGTCP2_CS_CLOSING) else mret tt);;
      mret pkt
  | _ => throw NGTCP2_ERR_INVALID_STATE
  end.

Definition ngtcp2_conn_write_application_close (destlen app_error_code : Z) : M bytes :=
  throw_if (app_error_code =? NGTCP2_STOPPING) NGTCP2_ERR_INVALID_ARGUMENT;;
  check_pkt_num;;
  c ← get;
  match conn_state c with
  | NGTCP2_CS_POST_HANDSHAKE =>
      pkt ← conn_write_single_frame_pkt destlen (fr_application_close (mk_close app_error_code []));
      modify (set_conn_state NGTCP2_CS_CLOSING);;
      mret pkt
  | _ => throw NGTCP2_ERR_INVALID_STATE
  end.
End Send.
