(* ===== verification/ConnState.v ===== *)
(** The state of the connection: which functions leave [conn->state] alone, and
    the end of its life, when it is closed or drained. *)

From S2P Require Import Prelude Conv Frame PktDecode PktHd Mem Monad Range Gaptr Idtr Ringbuf.
From S2P Require Import AckScan Acktr Pq Rtb Map Rob Crypto Ppe Strm Err Conn.
From S2P Require Import ConnAck ConnApp ConnRecv ConnSend.

(** ** Relations between the states before and after *)

(** A key, once it has been set, stays. *)
Definition key_kept : relation (option ngtcp2_crypto_km) := fun k k' => forall km, k = Some km -> k' = Some km.

#[export] Instance key_kept_po : PreOrder key_kept.
Proof. split; [by intros k km|]. intros k1 k2 k3 H12 H23 km H. by apply H23, H12. Qed.

(** A relation that holds when [conn->state], the role and the number of the last
    packet do not change and the keys that protect packets stay. *)
Class StateRel {A} (R : relation (ngtcp2_conn A)) : Prop := {
  sr_po :: PreOrder R;
  sr_same c c' : conn_state c' = conn_state c -> conn_server c' = conn_server c ->
    conn_last_tx_pkt_num c' = conn_last_tx_pkt_num c ->
    key_kept (conn_tx_ckm c) (conn_tx_ckm c') -> key_kept (conn_hs_tx_ckm c) (conn_hs_tx_ckm c') -> R c c'
}.

(** The number may change, too. *)
Class NumberRel {A} (R : relation (ngtcp2_conn A)) : Prop := {
  nr_rel :: StateRel R;
  nr_same c c' : conn_state c' = conn_state c -> conn_server c' = conn_server c -> R c c'
}.

(** The state stays, or becomes one of [l]. *)
Definition into {A} (l : list ngtcp2_conn_state) : relation (ngtcp2_conn A) := fun c c' =>
  (conn_state c' = conn_state c \/ conn_state c' ∈ l) /\ conn_server c' = conn_server c.

(** The same for a server; a client may do anything. *)
Definition server_into {A} (l : list ngtcp2_conn_state) : relation (ngtcp2_conn A) := fun c c' =>
  (conn_server c = true -> conn_state c' = conn_state c \/ conn_state c' ∈ l) /\
  conn_server c' = conn_server c.

#[export] Instance into_rel {A} l : NumberRel (@into A l).
Proof.
  split; [split; [split|]|]; unfold into; [by split; [left|] | | by split; [left|] | by split; [left|]].
  intros c1 c2 c3 [H1 S1] [H2 S2]. split; [|congruence]. destruct H2 as [->|H2]; [done | by right].
Qed.
#[export] Instance server_into_rel {A} l : NumberRel (@server_into A l).
Proof.
  split; [split; [split|]|]; unfold server_into; [by split; [left|] | | by split; [left|] | by split; [left|]].
  intros c1 c2 c3 [H1 S1] [H2 S2]. split; [|congruence]. intros Hs. rewrite S1 in H2.
  destruct (H2 Hs) as [->|?]; [by apply H1 | by right].
Qed.

(** Whatever [m] returns, the states are in the relation. *)
Definition follows {A B} (R : relation (ngtcp2_conn A)) (m : M (ngtcp2_conn A) B) : Prop :=
  forall c, match m c with ret _ c' | fail _ c' => R c c' | undef => True end.

Create HintDb follow.
#[export] Hint Extern 0 (StateRel _) => typeclasses eauto : follow.
#[export] Hint Extern 0 (NumberRel _) => typeclasses eauto : follow.
#[export] Hint Extern 0 (_ ∈ _) => solve [repeat constructor] : follow.

Section Rules.
Context {A : Type} (R : relation (ngtcp2_conn A)) `{HR : !StateRel R}.
Implicit Types (c : ngtcp2_conn A).
Abbreviation follows := (follows R).

Lemma follows_ret {B} (b : B) : follows (mret b).
Proof. intros c. by apply sr_same. Qed.
Lemma follows_throw {B} e : follows (throw (A := B) e).
Proof. intros c. by apply sr_same. Qed.
Lemma follows_undefined {B} : follows (undefined (A := B)).
Proof. intros c. done. Qed.
Lemma follows_get : follows get.
Proof. intros c. by apply sr_same. Qed.
Lemma follows_gets {B} (f : _ -> B) : follows (gets f).
Proof. intros c. by apply sr_same. Qed.
Lemma follows_modify f : (forall c, R c (f c)) -> follows (modify f).
Proof. intros Hf c. apply Hf. Qed.
Lemma follows_lift {B} (r : res B) : follows (lift r).
Proof. intros c. unfold lift. destruct r; [by apply sr_same.. | done]. Qed.
Lemma follows_throw_if b e : follows (throw_if b e).
Proof. destruct b; [apply follows_throw | apply follows_ret]. Qed.
Lemma follows_check rv : follows (check rv).
Proof. apply follows_throw_if. Qed.
Lemma follows_assert b : follows (assert_ b).
Proof. destruct b; [apply follows_ret | apply follows_undefined]. Qed.
Lemma follows_bind {B C} (m : M (ngtcp2_conn A) B) (k : B -> M (ngtcp2_conn A) C) :
  follows m -> (forall b, follows (k b)) -> follows (m ≫= k).
Proof.
  intros Hm Hk c. unfold mbind, M_bind. specialize (Hm c). destruct (m c) as [b c'|e c'|]; [|done|done].
  specialize (Hk b c'). destruct (k b c'); [by etrans | by etrans | done].
Qed.
Lemma follows_fmap {B C} (f : B -> C) (m : M (ngtcp2_conn A) B) : follows m -> follows (f <$> m).
Proof. intros Hm. apply follows_bind; [done|]. intros b. apply follows_ret. Qed.
Lemma follows_attempt {B} (m : M (ngtcp2_conn A) B) : follows m -> follows (attempt m).
Proof. intros Hm c. unfold attempt. specialize (Hm c). by destruct (m c). Qed.
Lemma follows_ignore {B} (m : M (ngtcp2_conn A) B) : follows m -> follows (ignore m).
Proof. intros Hm. apply follows_bind; [by apply follows_attempt|]. intros b. apply follows_ret. Qed.
Lemma follows_status {B} (m : M (ngtcp2_conn A) B) : follows m -> follows (status m).
Proof. intros Hm. apply follows_bind; [by apply follows_attempt|]. intros b. apply follows_ret. Qed.
Lemma follows_with_mem {B} (f : mem -> res B * mem) : follows (with_mem f).
Proof.
  intros c. unfold with_mem. destruct (f (conn_mem c)) as [r m]. unfold lift. destruct r; [by apply sr_same.. | done].
Qed.
Lemma follows_load_strm p : follows (load_strm p).
Proof. intros c. unfold load_strm. destruct (_ !! _); [by apply sr_same | done]. Qed.
Lemma follows_load_ent p : follows (load_ent p).
Proof. intros c. unfold load_ent. destruct (_ !! _); [by apply sr_same | done]. Qed.
(** A key is set only when there is none. *)
Lemma follows_set_keys ckm set key iv :
  (forall m c km, ckm c = None -> R c (set (Some km) (set_conn_mem m c))) -> follows (set_keys ckm set key iv).
Proof.
  intros Hset c. unfold set_keys, mbind, M_bind, get. destruct (ckm c) eqn:Hk; [by apply sr_same|].
  unfold with_mem, ngtcp2_crypto_km_new. destruct (mem_alloc (conn_mem c)) as [[] m]; simpl; [by apply Hset | by apply sr_same].
Qed.
End Rules.

(** The setters of the keys. *)
Section Keys.
Context {A : Type} (R : relation (ngtcp2_conn A)) `{HR : !StateRel R} (key iv : bytes).

Ltac set_key := apply follows_set_keys; [done|]; intros m c km Hk; apply sr_same;
  first [reflexivity | intros ? E; simpl in *; congruence].
Lemma follows_set_handshake_tx_keys : follows R (ngtcp2_conn_set_handshake_tx_keys key iv).
Proof. set_key. Qed.
Lemma follows_update_tx_keys : follows R (ngtcp2_conn_update_tx_keys key iv).
Proof. set_key. Qed.
End Keys.

#[export] Hint Resolve follows_ret follows_throw follows_undefined follows_get follows_gets follows_lift
  follows_throw_if follows_check follows_assert follows_with_mem follows_load_strm follows_load_ent
  follows_set_handshake_tx_keys follows_update_tx_keys : follow.

Ltac head_of t := lazymatch t with ?f _ => head_of f | _ => t end.

(** A function that leaves [state] alone: the rules are applied, and the
    definitions that have no rule are unfolded. *)
Ltac follow_step :=
  lazymatch goal with
  | |- forall _, _ => intros
  | |- follows _ (mbind _ _) => apply follows_bind; [typeclasses eauto | |]
  | |- follows _ (fmap _ _) => apply follows_fmap; [typeclasses eauto|]
  | |- follows _ (attempt _) => apply follows_attempt
  | |- follows _ (ignore _) => apply follows_ignore; [typeclasses eauto|]
  | |- follows _ (status _) => apply follows_status; [typeclasses eauto|]
  | |- follows _ (modify _) =>
      first [ solve [auto 4 with follow]
            | apply follows_modify; intros; apply sr_same; unfold set_conn_idtr; repeat case_match; reflexivity
            | apply follows_modify; intros; apply nr_same; reflexivity ]
  | |- follows _ (match ?x with _ => _ end) => destruct x
  | |- follows _ (let _ := _ in _) => cbv zeta
  | |- follows _ ?m =>
      first [ solve [auto 4 with follow] | let h := head_of m in unfold h ]
  end.
Ltac follow := repeat follow_step.

(** ** The functions that neither close nor drain the connection *)

Section Functions.
Context {A : Type} (R : relation (ngtcp2_conn A)) `{HR : !StateRel R} (cb : ngtcp2_conn_callbacks A).
Abbreviation follows := (follows R).

Lemma follows_conn_idtr_open id : follows (conn_idtr_open id).
Proof. follow. Qed.
Lemma follows_init_stream p id ud : follows (ngtcp2_conn_init_stream p id ud).
Proof. follow. Qed.
Lemma follows_new_address : follows new_address.
Proof. follow. Qed.
Lemma follows_run_call call : follows (run_call call).
Proof. destruct call; simpl; follow. Qed.
Lemma follows_run_prog {B} (p : prog A B) : follows (run_prog p).
Proof.
  induction p as [b|call k IH]; simpl; [apply follows_ret; done|].
  apply follows_bind; [done | apply follows_status, follows_run_call; done |]. intros rv.
  apply follows_bind; [done | apply follows_get; done |]. intros c. apply IH.
Qed.
#[local] Hint Resolve follows_conn_idtr_open follows_init_stream follows_new_address follows_run_prog : follow.

Lemma follows_conn_call {X} (f : option (ngtcp2_conn A -> X -> prog A (A * Z))) x : follows (conn_call f x).
Proof. follow. Qed.
#[local] Hint Resolve follows_conn_call : follow.

Lemma follows_close_stream p code : follows (ngtcp2_conn_close_stream_if_shut_rdwr cb p code).
Proof. follow. Qed.
#[local] Hint Resolve follows_close_stream : follow.

Lemma follows_emit_loop fuel p off : follows (emit_loop cb fuel p off).
Proof. revert off. induction fuel as [|fuel IH]; intros; simpl; follow. Qed.
Lemma follows_emit0_loop fuel p off : follows (emit0_loop cb fuel p off).
Proof. revert off. induction fuel as [|fuel IH]; intros; simpl; follow. Qed.
#[local] Hint Resolve follows_emit_loop follows_emit0_loop : follow.

Lemma follows_recv_stream_data p fr off : follows (conn_recv_stream_data cb p fr off).
Proof. follow. Qed.
#[local] Hint Resolve follows_recv_stream_data : follow.

Lemma follows_recv_stream fr : follows (conn_recv_stream cb fr).
Proof. follow. Qed.
Lemma follows_recv_rst_stream fr : follows (conn_recv_rst_stream cb fr).
Proof. follow. Qed.
Lemma follows_recv_stop_sending id code : follows (conn_recv_stop_sending cb id code).
Proof. follow. Qed.
Lemma follows_recv_max_stream_data id n : follows (conn_recv_max_stream_data id n).
Proof. follow. Qed.
#[local] Hint Resolve follows_recv_stream follows_recv_rst_stream follows_recv_stop_sending
  follows_recv_max_stream_data : follow.

(** The walk over the retransmission buffer, which calls back into the connection. *)
Lemma run_rv_follows {B} (m : M (ngtcp2_conn A) B) c c' rv :
  follows m -> run_rv m c = Ok (c', rv) -> R c c'.
Proof. intros Hm. unfold run_rv. specialize (Hm c). destruct (m c); naive_solver. Qed.

Lemma acked_stream_offset_follows frc c c' rv :
  call_acked_stream_offset (H := conn_rtb_conn cb) c frc = Ok (c', rv) -> R c c'.
Proof.
  revert c. induction frc as [|fr frc IH]; intros c; simpl; [intros [= <- <-]; done|].
  destruct fr as [fr| | | | | | | | | | | | | | | |]; try apply IH.
  destruct (eval _ c) as [[p|]| |]; simpl; [|apply IH|done|done].
  destruct (eval _ c) as [g| |]; simpl; [|done|done].
  destruct (ngtcp2_gaptr_push _ _ _ _) as [[g' rv1] m]. 
  destruct (run_rv (update_strm p _) _) as [[c1 rv2]| |] eqn:E1; simpl; [|done|done].
  apply run_rv_follows in E1; [|follow]. 
  assert (H1 : R c c1) by (etrans; [|exact E1]; by apply sr_same).
  destruct (negb _); [intros [= <- <-]; done|].
  destruct (_ && _); [intros ?; etrans; [done | by apply IH]|].
  destruct (cb_acked_stream_data_offset cb) as [f|]; [|done].
  destruct (run_rv (load_strm p ≫= _) _) as [[c2 rv3]| |] eqn:E2; simpl; [|done|done].
  apply run_rv_follows in E2; [|follow]. assert (H2 : R c c2) by by etrans.
  destruct (negb _); [intros [= <- <-]; done|].
  destruct (run_rv _ c2) as [[c3 rv4]| |] eqn:E3; simpl; [|done|done].
  apply run_rv_follows in E3; [|follow]. assert (H3 : R c c3) by by etrans.
  destruct (negb _); [intros [= <- <-]; done|]. intros ?. etrans; [done | by apply IH].
Qed.

(** The connection of the walk [w], which began with [c]. *)
Definition walk_follows (c : ngtcp2_conn A) (w : res (rtb_walk (C := ngtcp2_conn A))) : Prop :=
  match w with Ok w => R c (w_conn w) | _ => True end.

Lemma rtb_on_acked_follows unprotected c w ent :
  walk_follows c w -> walk_follows c (rtb_on_acked (H := conn_rtb_conn cb) unprotected w ent).1.
Proof.
  destruct w as [w|e|]; [|done|done]. cbn [rtb_on_acked]. intros Hw.
  destruct (w_store w !! ent) as [e|]; [|done]. destruct (_ && _); [done|]. cbv zeta.
  lazymatch goal with |- context [match ?r with Ok _ => _ | Err _ => _ | Ub => _ end] =>
    destruct r as [[c' rv]| |] eqn:E; [|done|done] end.
  assert (Hc : R c c').
  { destruct (rc_has_acked_stream_data_offset _); [|by injection E as <- <-].
    etrans; [exact Hw|]. by eapply acked_stream_offset_follows. }
  destruct (negb _); [done|]. unfold rtb_remove. simpl.
  destruct (ngtcp2_pq_remove _ _ _); [|done|done]. simpl. by destruct (c_assert _).
Qed.

Lemma follows_rtb_recv_ack fr unprotected : follows (conn_rtb_recv_ack cb fr unprotected).
Proof.
  intros c. unfold conn_rtb_recv_ack, ngtcp2_rtb_recv_ack.
  pose proof (ack_scan_state (pkt_num_of (conn_rtb_heap c)) (rtb_on_acked (H := conn_rtb_conn cb) unprotected)
    (walk_follows c) (rtb_on_acked_follows unprotected c) fr
    (Ok (mk_walk (conn_rtb_heap c) (rtb_pq (conn_rtb c)) (rtb_bytes_in_flight (conn_rtb c))
       (rtb_largest_acked (conn_rtb c)) c)) (rtb_head (conn_rtb c)) (reflexivity c)) as Hscan.
  destruct (ack_scan _ _ fr _ _) as [[l r] rv]. simpl in Hscan. destruct r as [w|e|]; [|by apply sr_same|done].
  simpl. assert (Hc : R c (set_conn_rtb (mk_rtb (w_pq w) l (w_bytes_in_flight w) (w_largest_acked w))
                             (set_conn_rtb_heap (w_store w) (w_conn w)))).
  { etrans; [exact Hscan|]. by apply sr_same. }
  unfold check, throw_if. by destruct (negb _).
Qed.
#[local] Hint Resolve follows_rtb_recv_ack : follow.

Lemma follows_recv_ack fr unprotected : follows (conn_recv_ack cb fr unprotected).
Proof. follow. Qed.

(** ** The parts of packets *)

Lemma follows_ack_flush b : follows (ack_flush b).
Proof. follow. Qed.
#[local] Hint Resolve follows_ack_flush : follow.
Lemma follows_ack_loop unprotected l i b : follows (ack_loop unprotected l i b).
Proof. revert i b. induction l as [|e l IH]; intros; simpl; follow. Qed.
#[local] Hint Resolve follows_ack_loop : follow.
Lemma follows_create_ack_frame ts unprotected : follows (conn_create_ack_frame ts unprotected).
Proof. follow. Qed.
Lemma follows_ppe_write_frame ppe called hd fr : follows (conn_ppe_write_frame cb ppe called hd fr).
Proof. follow. Qed.
#[local] Hint Resolve follows_create_ack_frame follows_ppe_write_frame : follow.

Lemma follows_write_or_stop ppe called hd don fr rest k :
  (forall ppe called don, follows (k ppe called don)) ->
  follows (write_or_stop cb ppe called hd don fr rest k).
Proof. intros Hk. follow; apply Hk. Qed.

Lemma follows_write_frames ppe called hd don frc : follows (write_frames cb ppe called hd don frc).
Proof.
  revert ppe called don. induction frc as [|fr frc IH]; intros; simpl; [follow|].
  by apply follows_write_or_stop.
Qed.

Lemma follows_cancel_frame fr : follows (cancel_frame fr).
Proof. follow. Qed.

Lemma follows_write_live_frames n ppe called hd don frc :
  (length frc <= n)%nat -> follows (write_live_frames cb ppe called hd don frc).
Proof.
  revert ppe called don frc. induction n as [|n IH]; intros ppe called don [|fr frc] Hn; simpl in *;
    [follow | lia | follow |].
  apply follows_bind; [done | apply follows_cancel_frame |]. intros cancel.
  destruct cancel; [|apply follows_write_or_stop; intros; apply IH; lia].
  destruct fr; try (apply IH; lia).
  destruct frc as [|fr' frc]; [follow|]. simpl in Hn. apply follows_write_or_stop. intros. apply IH. lia.
Qed.
Lemma follows_live_frames ppe called hd don frc : follows (write_live_frames cb ppe called hd don frc).
Proof. by eapply follows_write_live_frames. Qed.
#[local] Hint Resolve follows_write_frames follows_live_frames : follow.

Lemma follows_rtb_add p : follows (conn_rtb_add p).
Proof. follow. Qed.
#[local] Hint Resolve follows_rtb_add : follow.
Lemma follows_queue_max_stream_data l : follows (queue_max_stream_data l).
Proof. induction l as [|p l IH]; simpl; follow. Qed.
Lemma follows_write_frq_round hd fr b : follows (write_frq_round cb hd fr b).
Proof. follow. Qed.
#[local] Hint Resolve follows_queue_max_stream_data follows_write_frq_round : follow.
Lemma follows_write_frq_next n hd b : follows (write_frq_next cb n hd b).
Proof. revert b. induction n as [|n IH]; intros; simpl; follow. Qed.
#[local] Hint Resolve follows_write_frq_next : follow.
Lemma follows_write_frq l hd b : follows (write_frq cb l hd b).
Proof. revert b. induction l as [|fr l IH]; intros; simpl; follow. Qed.
Lemma follows_delete_rtb_entries l : follows (delete_rtb_entries l).
Proof. induction l as [|p l IH]; simpl; follow. Qed.
#[local] Hint Resolve follows_delete_rtb_entries : follow.
Lemma follows_rtb_free : follows ngtcp2_rtb_free.
Proof. unfold ngtcp2_rtb_free. follow. Qed.

Lemma follows_early_rtb_loop l : follows (process_early_rtb_loop l).
Proof. induction l as [|p l IH]; cbn [process_early_rtb_loop]; follow. Qed.
#[local] Hint Resolve follows_early_rtb_loop : follow.
Lemma follows_process_early_rtb : follows conn_process_early_rtb.
Proof. follow. Qed.
Lemma follows_handshake_completed : follows (conn_handshake_completed cb).
Proof. follow. Qed.
Lemma follows_sched_ack pkt_num active ts unprotected : follows (ngtcp2_conn_sched_ack pkt_num active ts unprotected).
Proof. follow. Qed.
Lemma follows_recv_hs_stream hd fr failed : follows (conn_recv_hs_stream cb hd fr failed).
Proof. follow. Qed.
Lemma follows_open_pkt payload ad pkt_num ckm decrypt :
  follows (conn_open_pkt payload ad pkt_num ckm decrypt).
Proof. follow. Qed.
Lemma follows_next_frame payload : follows (next_frame payload).
Proof. follow. Qed.
End Functions.

#[export] Hint Resolve follows_run_prog follows_create_ack_frame follows_ppe_write_frame follows_write_frames
  follows_live_frames follows_rtb_add follows_queue_max_stream_data follows_write_frq : follow.

#[export] Hint Resolve follows_run_call follows_conn_call follows_recv_stream follows_recv_rst_stream
  follows_recv_stop_sending follows_recv_max_stream_data follows_recv_ack follows_process_early_rtb
  follows_handshake_completed follows_sched_ack follows_rtb_free follows_recv_hs_stream follows_open_pkt follows_next_frame : follow.

(** ** The functions that write packets *)

Section Senders.
Context {A : Type} (R : relation (ngtcp2_conn A)) `{HR : !NumberRel R} (cb : ngtcp2_conn_callbacks A).
Abbreviation follows := (follows R).

Lemma follows_retransmit_entry destlen p ts : follows (conn_retransmit_entry cb destlen p ts).
Proof. follow. Qed.
#[local] Hint Resolve follows_retransmit_entry : follow.
Lemma follows_retransmit_loop fuel destlen ts : follows (retransmit_loop cb fuel destlen ts).
Proof. induction fuel as [|fuel IH]; simpl; follow. Qed.
#[local] Hint Resolve follows_retransmit_loop : follow.
Lemma follows_retransmit destlen ts : follows (conn_retransmit cb destlen ts).
Proof. follow. Qed.

Lemma follows_handshake_pkt destlen type ts : follows (conn_write_handshake_pkt cb destlen type ts).
Proof. follow. Qed.
Lemma follows_handshake_ack_pkt destlen type ts : follows (conn_write_handshake_ack_pkt cb destlen type ts).
Proof. follow. Qed.
#[local] Hint Resolve follows_handshake_pkt follows_handshake_ack_pkt : follow.
Lemma follows_client_initial destlen ts : follows (conn_write_client_initial cb destlen ts).
Proof. follow. Qed.
Lemma follows_client_handshake destlen ts : follows (conn_write_client_handshake cb destlen ts).
Proof. follow. Qed.
Lemma follows_server_handshake destlen initial ts : follows (conn_write_server_handshake cb destlen initial ts).
Proof. follow. Qed.

Lemma follows_write_pkt destlen ts : follows (conn_write_pkt cb destlen ts).
Proof. follow. Qed.
Lemma follows_single_frame_pkt destlen fr : follows (conn_write_single_frame_pkt cb destlen fr).
Proof. follow. Qed.
#[local] Hint Resolve follows_single_frame_pkt : follow.
Lemma follows_protected_ack_pkt destlen ts : follows (conn_write_protected_ack_pkt cb destlen ts).
Proof. follow. Qed.

Lemma follows_write_stream destlen id fin data ts : follows (ngtcp2_conn_write_stream cb destlen id fin data ts).
Proof. follow. Qed.
End Senders.

#[export] Hint Resolve follows_retransmit follows_client_initial follows_client_handshake follows_server_handshake
  follows_write_pkt follows_single_frame_pkt follows_handshake_ack_pkt follows_protected_ack_pkt
  follows_write_stream : follow.

(** ** The functions that may drain the connection *)

Section Drain.
Context {A : Type} (R : relation (ngtcp2_conn A)) `{HR : !StateRel R} (cb : ngtcp2_conn_callbacks A).
Hypothesis Hdrain : forall c, R c (set_conn_state NGTCP2_CS_DRAINING c).
Abbreviation follows := (follows R).

Lemma follows_drain : follows (modify (set_conn_state NGTCP2_CS_DRAINING)).
Proof. intros c. apply Hdrain. Qed.
#[local] Hint Resolve follows_drain : follow.

Lemma follows_on_stateless_reset hd payload : follows (conn_on_stateless_reset cb hd payload).
Proof. follow. Qed.
Lemma follows_recv_frame hd fr : follows (conn_recv_frame cb hd fr).
Proof. follow. Qed.
#[local] Hint Resolve follows_on_stateless_reset follows_recv_frame : follow.

Lemma follows_recv_frames fuel hd payload ack : follows (conn_recv_frames cb fuel hd payload ack).
Proof. revert payload ack. induction fuel as [|fuel IH]; intros; simpl; follow. Qed.
Lemma follows_delayed_frames fuel hd payload ack : follows (conn_recv_delayed_frames cb fuel hd payload ack).
Proof. revert payload ack. induction fuel as [|fuel IH]; intros; simpl; follow. Qed.
Lemma follows_hs_frames fuel hd payload ack failed :
  follows (conn_recv_hs_frames cb fuel hd payload ack failed).
Proof. revert payload ack failed. induction fuel as [|fuel IH]; intros; simpl; follow. Qed.
#[local] Hint Resolve follows_recv_frames follows_delayed_frames follows_hs_frames : follow.

Lemma follows_protected_payload hd payload ad ts : follows (conn_recv_protected_payload cb hd payload ad ts).
Proof. follow. Qed.
#[local] Hint Resolve follows_protected_payload : follow.
Lemma follows_recv_pkt pkt ts : follows (conn_recv_pkt cb pkt ts).
Proof. follow. Qed.
Lemma follows_accept_hs_pkt hd pkt payload ts : follows (conn_accept_hs_pkt cb hd pkt payload ts).
Proof. follow. Qed.

Lemma follows_recv_each fuel recv i ts :
  (forall pkt ts, follows (recv pkt ts)) -> follows (recv_each fuel recv i ts).
Proof. intros Hr. revert i. induction fuel as [|fuel IH]; intros i; simpl; follow. Qed.
End Drain.

#[export] Hint Resolve follows_recv_pkt follows_accept_hs_pkt follows_hs_frames : follow.

(** ** The functions of the handshake *)

Section Handshake.
Context {A : Type} (cb : ngtcp2_conn_callbacks A).

Lemma follows_into s l : s ∈ l -> follows (into l) (modify (set_conn_state (A := A) s)).
Proof. intros Hs c. split; [by right | done]. Qed.
Lemma follows_server_into s l : s ∈ l -> follows (server_into l) (modify (set_conn_state (A := A) s)).
Proof. intros Hs c. split; [by right | done]. Qed.
Lemma drain_into l (c : ngtcp2_conn A) :
  NGTCP2_CS_DRAINING ∈ l -> into l c (set_conn_state NGTCP2_CS_DRAINING c).
Proof. split; [by right | done]. Qed.
Lemma drain_server_into l (c : ngtcp2_conn A) :
  NGTCP2_CS_DRAINING ∈ l -> server_into l c (set_conn_state NGTCP2_CS_DRAINING c).
Proof. split; [by right | done]. Qed.
#[local] Hint Resolve follows_into follows_server_into drain_into drain_server_into : follow.

(** On a client, only the role matters. *)
Lemma server_into_client {B} (m : M (ngtcp2_conn A) B) l l' c :
  follows (into l') m -> conn_server c = false ->
  match m c with ret _ c' | fail _ c' => server_into l c c' | undef => True end.
Proof. intros Hm Hs. specialize (Hm c). destruct (m c); [destruct Hm; split; [congruence | done]..|done]. Qed.

Section Client.
Context (l : list ngtcp2_conn_state) (Hdrain : NGTCP2_CS_DRAINING ∈ l) (Hinit : NGTCP2_CS_CLIENT_INITIAL ∈ l).

Lemma follows_server_retry : follows (A := A) (into l) (conn_recv_server_stateless_retry cb).
Proof. follow. Qed.
#[local] Hint Resolve follows_server_retry : follow.
Lemma follows_finish_hs_pkt hd ack failed ts : follows (into l) (conn_finish_hs_pkt cb hd ack failed ts).
Proof. follow. Qed.
#[local] Hint Resolve follows_finish_hs_pkt : follow.
Lemma follows_handshake_pkt_hd hd nread pkt ts : follows (into l) (conn_recv_handshake_pkt_hd cb hd nread pkt ts).
Proof. follow. Qed.
#[local] Hint Resolve follows_handshake_pkt_hd : follow.
Lemma recv_handshake_client pkt ts : follows (into l) (conn_recv_handshake_pkt cb pkt ts).
Proof. follow. Qed.
End Client.

Lemma server_refuses_retry hd pkt payload ts (c : ngtcp2_conn A) :
  hd_type hd = NGTCP2_PKT_RETRY -> conn_server c = true ->
  conn_accept_hs_pkt cb hd pkt payload ts c = fail NGTCP2_ERR_PROTO c.
Proof.
  intros Ht Hs. unfold conn_accept_hs_pkt. rewrite Ht. unfold mbind, M_bind, get. by rewrite Hs.
Qed.

(** A server does not accept a Retry packet, and the others do not make it start
    again. *)
Section Server.
Context (l : list ngtcp2_conn_state) (Hdrain : NGTCP2_CS_DRAINING ∈ l).

Lemma recv_handshake_hd_server hd nread pkt ts :
  follows (server_into l) (conn_recv_handshake_pkt_hd cb hd nread pkt ts).
Proof.
  unfold conn_recv_handshake_pkt_hd. do 3 (apply follows_bind; [typeclasses eauto | follow | intros ?]).
  destruct (Z.eqb_spec (hd_type hd) NGTCP2_PKT_RETRY) as [Ht|Ht].
  - intros c. destruct (conn_server c) eqn:Hs.
    + unfold mbind at 1, M_bind at 1. rewrite server_refuses_retry by done. by split; [left|].
    + apply server_into_client with [NGTCP2_CS_DRAINING; NGTCP2_CS_CLIENT_INITIAL]; [|done].
      pose proof follows_finish_hs_pkt. follow.
  - apply Z.eqb_neq in Ht.
    apply follows_bind; [typeclasses eauto | follow |]. intros []; [|follow].
    do 2 (apply follows_bind; [typeclasses eauto | follow | intros ?]).
    unfold conn_finish_hs_pkt. rewrite Ht. follow.
Qed.
#[local] Hint Resolve recv_handshake_hd_server : follow.
Lemma recv_handshake_server pkt ts : follows (server_into l) (conn_recv_handshake_pkt cb pkt ts).
Proof. follow. Qed.
End Server.
End Handshake.

#[export] Hint Resolve follows_into follows_server_into drain_into drain_server_into recv_handshake_client
  recv_handshake_server : follow.

(** ** The life of a connection *)

(** The steps of the state machine, for a server or a client. *)
Inductive conn_step : bool -> ngtcp2_conn_state -> ngtcp2_conn_state -> Prop :=
| cs_client_initial : conn_step false NGTCP2_CS_CLIENT_INITIAL NGTCP2_CS_CLIENT_WAIT_HANDSHAKE
| cs_client_retry : conn_step false NGTCP2_CS_CLIENT_WAIT_HANDSHAKE NGTCP2_CS_CLIENT_INITIAL
| cs_client_failed : conn_step false NGTCP2_CS_CLIENT_WAIT_HANDSHAKE NGTCP2_CS_CLIENT_TLS_HANDSHAKE_FAILED
| cs_client_failed_retry : conn_step false NGTCP2_CS_CLIENT_TLS_HANDSHAKE_FAILED NGTCP2_CS_CLIENT_INITIAL
| cs_client_handshake :
    conn_step false NGTCP2_CS_CLIENT_WAIT_HANDSHAKE NGTCP2_CS_CLIENT_HANDSHAKE_ALMOST_FINISHED
| cs_client_finished : conn_step false NGTCP2_CS_CLIENT_HANDSHAKE_ALMOST_FINISHED NGTCP2_CS_POST_HANDSHAKE
| cs_server_initial : conn_step true NGTCP2_CS_SERVER_INITIAL NGTCP2_CS_SERVER_WAIT_HANDSHAKE
| cs_server_failed_at_once : conn_step true NGTCP2_CS_SERVER_INITIAL NGTCP2_CS_SERVER_TLS_HANDSHAKE_FAILED
| cs_server_failed : conn_step true NGTCP2_CS_SERVER_WAIT_HANDSHAKE NGTCP2_CS_SERVER_TLS_HANDSHAKE_FAILED
| cs_server_finished_at_once : conn_step true NGTCP2_CS_SERVER_INITIAL NGTCP2_CS_POST_HANDSHAKE
| cs_server_finished : conn_step true NGTCP2_CS_SERVER_WAIT_HANDSHAKE NGTCP2_CS_POST_HANDSHAKE
| cs_closing server : conn_step server NGTCP2_CS_POST_HANDSHAKE NGTCP2_CS_CLOSING
| cs_draining server s :
    s <> NGTCP2_CS_CLIENT_INITIAL -> s <> NGTCP2_CS_CLOSING -> conn_step server s NGTCP2_CS_DRAINING.

(** The handshake is over. *)
Definition after_handshake (s : ngtcp2_conn_state) : Prop :=
  s ∈ [NGTCP2_CS_POST_HANDSHAKE; NGTCP2_CS_CLOSING; NGTCP2_CS_DRAINING].

Lemma steps_after_handshake server s s' : rtc (conn_step server) s s' -> after_handshake s -> after_handshake s'.
Proof.
  induction 1 as [|s1 s2 s3 H12 _ IH]; [done|]. intros H. apply IH.
  unfold after_handshake in *. destruct H12; set_solver.
Qed.

Lemma steps_ended server s s' :
  rtc (conn_step server) s s' -> s ∈ [NGTCP2_CS_CLOSING; NGTCP2_CS_DRAINING] -> s' = s.
Proof.
  induction 1 as [|s1 s2 s3 H12 _ IH]; [done|]. intros H.
  assert (s2 = s1) as -> by (destruct H12; set_solver). by apply IH.
Qed.

(** A call of the application. *)
Inductive conn_event :=
| ev_recv (pkt : bytes) (ts : Z)
| ev_write_pkt (destlen ts : Z)
| ev_write_ack_pkt (destlen ts : Z)
| ev_write_stream (destlen stream_id : Z) (fin : bool) (data : bytes) (ts : Z)
| ev_write_connection_close (destlen error_code : Z)
| ev_write_application_close (destlen app_error_code : Z)
| ev_call (call : api_call).

Section Life.
Context {A : Type} (cb : ngtcp2_conn_callbacks A).
Abbreviation M := (M (ngtcp2_conn A)).

(** What the call writes; nothing, for a call that writes no packet. *)
Definition event_out (ev : conn_event) : M bytes :=
  match ev with
  | ev_recv pkt ts => ngtcp2_conn_recv cb pkt ts;; mret []
  | ev_write_pkt destlen ts => ngtcp2_conn_write_pkt cb destlen ts
  | ev_write_ack_pkt destlen ts => ngtcp2_conn_write_ack_pkt cb destlen ts
  | ev_write_stream destlen stream_id fin data ts =>
      fst <$> ngtcp2_conn_write_stream cb destlen stream_id fin data ts
  | ev_write_connection_close destlen code => ngtcp2_conn_write_connection_close cb destlen code
  | ev_write_application_close destlen code => ngtcp2_conn_write_application_close cb destlen code
  | ev_call call => run_call call;; mret []
  end.

(** A call that fails writes nothing. *)
Definition run_event (ev : conn_event) : M bytes :=
  r ← attempt (event_out ev); mret (match r with inl pkt => pkt | inr _ => [] end).

(** The application makes the calls one after the other, and goes on after an
    error. The packets that are written. *)
Fixpoint run_events (evs : list conn_event) : M (list bytes) :=
  match evs with
  | [] => mret []
  | ev :: evs =>
      pkt ← run_event ev;
      pkts ← run_events evs;
      mret (if bool_decide (pkt = []) then pkts else pkt :: pkts)
  end.

(** The machine leads from the state of [c] to that of [c']. *)
Definition steps : relation (ngtcp2_conn A) := fun c c' =>
  rtc (conn_step (conn_server c)) (conn_state c) (conn_state c') /\ conn_server c' = conn_server c.

(** The state is one of the connection's role. *)
Definition role_ok (c : ngtcp2_conn A) : Prop :=
  match conn_state c with
  | NGTCP2_CS_CLIENT_INITIAL | NGTCP2_CS_CLIENT_WAIT_HANDSHAKE | NGTCP2_CS_CLIENT_HANDSHAKE_ALMOST_FINISHED
  | NGTCP2_CS_CLIENT_TLS_HANDSHAKE_FAILED => conn_server c = false
  | NGTCP2_CS_SERVER_INITIAL | NGTCP2_CS_SERVER_WAIT_HANDSHAKE | NGTCP2_CS_SERVER_TLS_HANDSHAKE_FAILED =>
      conn_server c = true
  | _ => True
  end.

(** Started in [c], [m] makes steps of the machine. *)
Definition runs {B} (m : M B) (c : ngtcp2_conn A) : Prop :=
  match m c with ret _ c' | fail _ c' => steps c c' | undef => True end.

Lemma steps_role c c' : role_ok c -> steps c c' -> role_ok c'.
Proof.
  intros Hc [Hs Hr]. unfold role_ok in *. rewrite Hr.
  induction Hs as [s|s1 s2 s3 H12 H23 IH]; [done|]. apply IH. by destruct H12.
Qed.

Lemma runs_into {B} (m : M B) l c :
  follows (into l) m ->
  (forall s, s ∈ l -> rtc (conn_step (conn_server c)) (conn_state c) s) -> runs m c.
Proof.
  intros Hm Hl. unfold runs. specialize (Hm c).
  by destruct (m c) as [? c'|? c'|]; [destruct Hm as [[E|?] ?]; (split; [|done]);
    [rewrite E; done | by apply Hl]..|].
Qed.

Lemma runs_server_into {B} (m : M B) l c :
  follows (server_into l) m -> conn_server c = true ->
  (forall s, s ∈ l -> rtc (conn_step (conn_server c)) (conn_state c) s) -> runs m c.
Proof.
  intros Hm Hs Hl. unfold runs. specialize (Hm c).
  by destruct (m c) as [? c'|? c'|]; [destruct Hm as [Hst ?]; destruct (Hst Hs) as [E|?]; (split; [|done]);
    [rewrite E; done | by apply Hl]..|].
Qed.

Lemma runs_throw_if {B} b e (m : M B) c : runs m c -> runs (throw_if b e;; m) c.
Proof. intros Hm. unfold runs, mbind, M_bind, throw_if. by destruct b. Qed.
Lemma runs_get {B} (k : ngtcp2_conn A -> M B) c : runs (k c) c -> runs (get ≫= k) c.
Proof. done. Qed.
Lemma runs_bind_ret {B C} (m : M B) (f : B -> C) c : runs m c -> runs (b ← m; mret (f b)) c.
Proof. unfold runs, mbind, M_bind. by destruct (m c). Qed.
Lemma runs_attempt {B} (m : M B) c : runs m c -> runs (attempt m) c.
Proof. unfold runs, attempt. by destruct (m c). Qed.

(** Every state of a list can be reached in one step. *)
Ltac one_step :=
  intros s Hs; repeat (apply elem_of_cons in Hs as [->|Hs]; [apply rtc_once; by constructor|]);
  by apply not_elem_of_nil in Hs.

Lemma recv_runs pkt ts c : role_ok c -> runs (ngtcp2_conn_recv cb pkt ts) c.
Proof.
  intros Hc. unfold ngtcp2_conn_recv. apply runs_throw_if, runs_get. unfold role_ok in Hc.
  destruct (conn_state c) eqn:E.
  - apply runs_into with []; [follow | one_step].
  - apply runs_into with [NGTCP2_CS_DRAINING; NGTCP2_CS_CLIENT_INITIAL; NGTCP2_CS_CLIENT_TLS_HANDSHAKE_FAILED;
      NGTCP2_CS_CLIENT_HANDSHAKE_ALMOST_FINISHED]; [follow | rewrite E, Hc; one_step].
  - apply runs_into with [NGTCP2_CS_DRAINING]; [follow | rewrite E; one_step].
  - apply runs_into with [NGTCP2_CS_DRAINING; NGTCP2_CS_CLIENT_INITIAL]; [follow | rewrite E, Hc; one_step].
  - apply runs_server_into with [NGTCP2_CS_DRAINING; NGTCP2_CS_SERVER_TLS_HANDSHAKE_FAILED;
      NGTCP2_CS_POST_HANDSHAKE]; [follow | done | rewrite E, Hc; one_step].
  - apply runs_server_into with [NGTCP2_CS_DRAINING; NGTCP2_CS_SERVER_TLS_HANDSHAKE_FAILED;
      NGTCP2_CS_POST_HANDSHAKE]; [follow | done | rewrite E, Hc; one_step].
  - apply runs_server_into with [NGTCP2_CS_DRAINING]; [follow | done | rewrite E, Hc; one_step].
  - apply runs_into with [NGTCP2_CS_DRAINING]; [follow | rewrite E; one_step].
  - apply runs_into with []; [follow | one_step].
  - apply runs_into with []; [follow | one_step].
Qed.

Lemma runs_bind_same {B C} (m : M B) (k : B -> M C) c :
  follows (into []) m ->
  (forall b c', conn_state c' = conn_state c -> conn_server c' = conn_server c -> runs (k b) c') ->
  runs (m ≫= k) c.
Proof.
  intros Hm Hk. unfold runs, mbind, M_bind. specialize (Hm c).
  destruct (m c) as [b c'|e c'|]; [|by destruct Hm as [[E|[]%not_elem_of_nil] ?]; split; [rewrite E|]|done].
  destruct Hm as [[Hs|[]%not_elem_of_nil] Hr]. specialize (Hk b c' Hs Hr). unfold runs, steps in *.
  rewrite Hs, Hr in Hk. by destruct (k b c').
Qed.

Lemma write_pkt_runs destlen ts c : role_ok c -> runs (ngtcp2_conn_write_pkt cb destlen ts) c.
Proof.
  intros Hc. unfold ngtcp2_conn_write_pkt. apply runs_bind_same; [follow|]. intros _ c1 Hs1 Hr1.
  apply runs_bind_same; [follow|]. intros pkt c2 Hs2 Hr2.
  destruct (negb _); [apply runs_into with []; [follow | one_step]|]. apply runs_get.
  unfold role_ok in Hc. rewrite <- Hs1, <- Hs2, <- Hr1, <- Hr2 in Hc. clear Hs1 Hs2 Hr1 Hr2.
  destruct (conn_state c2) eqn:E; try (apply runs_into with []; [solve [follow] | one_step]).
  - apply runs_into with [NGTCP2_CS_CLIENT_WAIT_HANDSHAKE]; [follow | rewrite E, Hc; one_step].
  - apply runs_into with [NGTCP2_CS_POST_HANDSHAKE]; [follow | rewrite E, Hc; one_step].
  - apply runs_into with [NGTCP2_CS_SERVER_WAIT_HANDSHAKE]; [follow | rewrite E, Hc; one_step].
Qed.

Lemma write_ack_pkt_runs destlen ts c : runs (ngtcp2_conn_write_ack_pkt cb destlen ts) c.
Proof. apply runs_into with []; [follow | one_step]. Qed.
Lemma write_stream_runs destlen id fin data ts c : runs (ngtcp2_conn_write_stream cb destlen id fin data ts) c.
Proof. apply runs_into with []; [follow | one_step]. Qed.

(** The connection enters the closing period from [NGTCP2_CS_POST_HANDSHAKE] only. *)
Lemma write_close_runs {B} (m : M B) c :
  follows (into [NGTCP2_CS_CLOSING]) m ->
  runs (c ← get; match conn_state c with NGTCP2_CS_POST_HANDSHAKE => m | _ => throw NGTCP2_ERR_INVALID_STATE end) c.
Proof.
  intros Hm. apply runs_get.
  destruct (conn_state c) eqn:E; try (apply runs_into with []; [solve [follow] | one_step]).
  apply runs_into with [NGTCP2_CS_CLOSING]; [done | rewrite E; one_step].
Qed.

Lemma connection_close_runs destlen code c : runs (ngtcp2_conn_write_connection_close cb destlen code) c.
Proof.
  apply runs_bind_same; [follow|]. intros _ c' _ _. apply write_close_runs. follow.
Qed.
Lemma application_close_runs destlen code c : runs (ngtcp2_conn_write_application_close cb destlen code) c.
Proof.
  apply runs_throw_if, runs_bind_same; [follow|]. intros _ c' _ _. apply write_close_runs. follow.
Qed.

Lemma event_runs ev c : role_ok c -> runs (run_event ev) c.
Proof.
  intros Hc. apply runs_bind_ret, runs_attempt. destruct ev; simpl.
  - by apply runs_bind_ret, recv_runs.
  - by apply write_pkt_runs.
  - apply write_ack_pkt_runs.
  - apply runs_bind_ret, write_stream_runs.
  - apply connection_close_runs.
  - apply application_close_runs.
  - apply runs_into with []; [follow | one_step].
Qed.

Lemma event_returns ev c : run_event ev c = undef \/ exists pkt c', run_event ev c = ret pkt c'.
Proof. unfold run_event, attempt, mbind, M_bind. destruct (event_out ev c); eauto. Qed.

Lemma events_run evs c pkts c' : role_ok c -> run_events evs c = ret pkts c' -> steps c c'.
Proof.
  revert c pkts. induction evs as [|ev evs IH]; intros c pkts Hc; simpl; [intros [= <- <-]; done|].
  unfold mbind, M_bind. pose proof (event_runs ev c Hc) as Hev. unfold runs in Hev.
  destruct (run_event ev c) as [pkt c1|e c1|]; [|done|done].
  destruct (run_events evs c1) as [pkts1 c2|e c2|] eqn:E; [|done|done]. intros [= <- <-].
  destruct (IH c1 pkts1) as [H1 H2]; [by eapply steps_role | done |]. destruct Hev as [H3 H4].
  split; [etrans; [done | congruence] | congruence].
Qed.
End Life.
