(* ===== verification/ConnTx.v ===== *)
(** The numbers of the packets that are sent: what the functions of [ConnSend] do
    to [last_tx_pkt_num], and the key, the number and the nonce a packet is sealed
    with. *)

From Stdlib Require Import Sorted.
From S2P Require Import Prelude Conv Frame PktDecode PktEncode PktHd Mem Monad Range Gaptr Idtr Ringbuf.
From S2P Require Import AckScan Acktr Pq Rtb Map Rob Crypto Ppe Strm Err Conn.
From S2P Require Import ConnAck ConnApp ConnRecv ConnSend ConnState.

(** ** Packets and their numbers *)

(** The keys a connection protects packets with, after the handshake and in it. *)
Record keyring := mk_keyring { kr_tx : ngtcp2_crypto_km; kr_hs_tx : ngtcp2_crypto_km }.

(** The connection has these keys. *)
Definition keyed {A} (K : keyring) (c : ngtcp2_conn A) : Prop :=
  conn_tx_ckm c = Some (kr_tx K) /\ conn_hs_tx_ckm c = Some (kr_hs_tx K).

(** What goes into the AEAD when a packet is sealed: the key with its IV, the packet
    number and the nonce. *)
Record sealing := mk_sealing { sl_km : ngtcp2_crypto_km; sl_num : Z; sl_nonce : bytes }.

(** [w] is the header [hd] as the code writes it. *)
Definition hd_encodes (hd : ngtcp2_pkt_hd) (w : bytes) : Prop :=
  exists outlen, (if has_bit (hd_flags hd) NGTCP2_PKT_FLAG_LONG_FORM then ngtcp2_pkt_encode_hd_long outlen hd
                  else ngtcp2_pkt_encode_hd_short outlen hd) = Ok (w, zlen w).

(** [pkt] has been sealed with [s] by a connection that has the callbacks [cb] and
    the keys [K]: it is a header with the number of [s] followed by what the
    encryption callback of the connection has made, with the key of the connection
    that goes with it, the nonce that belongs to the number under the IV of the key,
    and the header as associated data. *)
Definition sealed {A} (cb : ngtcp2_conn_callbacks A) (K : keyring) (s : sealing) (pkt : bytes) : Prop :=
  exists encrypt hd w space payload ct,
    ((sl_km s, encrypt) = (kr_tx K, cb_encrypt cb) \/ (sl_km s, encrypt) = (kr_hs_tx K, cb_hs_encrypt cb)) /\
    8 <= zlen (km_iv (sl_km s)) <= 32 /\ hd_pkt_num hd = sl_num s /\ hd_encodes hd w /\
    ngtcp2_crypto_create_nonce (km_iv (sl_km s)) (sl_num s) = Ok (sl_nonce s) /\
    encrypt space payload (km_key (sl_km s)) (sl_nonce s) w = Some ct /\ pkt = w ++ ct.

(** The encryption callbacks bind the nonce, as an AEAD does: no packet is the result
    of two calls with different nonces. *)
Definition binds_nonce {A} (cb : ngtcp2_conn_callbacks A) : Prop :=
  forall e e' space payload key nonce ad ct space' payload' nonce' ad' ct',
    e ∈ [cb_encrypt cb; cb_hs_encrypt cb] -> e' ∈ [cb_encrypt cb; cb_hs_encrypt cb] ->
    e space payload key nonce ad = Some ct -> e' space' payload' key nonce' ad' = Some ct' ->
    ad ++ ct = ad' ++ ct' -> nonce = nonce'.

(** Then the number a packet has been sealed with can be told from the packet. *)
Lemma sealed_number {A} (cb : ngtcp2_conn_callbacks A) K s s' pkt :
  binds_nonce cb -> sealed cb K s pkt -> sealed cb K s' pkt -> sl_km s = sl_km s' ->
  is_uint 64 (sl_num s) -> is_uint 64 (sl_num s') -> sl_num s = sl_num s'.
Proof.
  intros Hb (e & hd & w & sp & pl & ct & He & Hiv & _ & _ & Hn & Hc & ->)
    (e' & hd' & w' & sp' & pl' & ct' & He' & _ & _ & _ & Hn' & Hc' & Heq) Hkm H1 H2.
  assert (Hin : forall e s, (sl_km s, e) = (kr_tx K, cb_encrypt cb) \/ (sl_km s, e) = (kr_hs_tx K, cb_hs_encrypt cb) ->
    e ∈ [cb_encrypt cb; cb_hs_encrypt cb]).
  { intros ? ? [[= _ ->] | [= _ ->]]; rewrite !elem_of_cons; auto. }
  rewrite <- Hkm in *. apply (create_nonce_inj (km_iv (sl_km s)) _ _ (sl_nonce s)); [lia | done | done | done |].
  rewrite Hn'. f_equal. symmetry. by eapply (Hb e e'); eauto.
Qed.

(** For instance a ciphertext that ends with the nonce and its length. *)
Lemma binds_nonce_tail {A} (cb : ngtcp2_conn_callbacks A) (e := fun _ payload _ nonce _ => Some (payload ++ nonce ++ [zlen nonce])) :
  cb_encrypt cb = e -> cb_hs_encrypt cb = e -> binds_nonce cb.
Proof.
  intros H1 H2 f f' sp p k no ad ct sp' p' no' ad' ct'. rewrite H1, H2.
  assert (Hf : forall f, f ∈ [e; e] -> f = e) by (intros ? ?; set_solver).
  intros ->%Hf ->%Hf [= <-] [= <-]. rewrite !app_assoc. intros [H [= Hl]]%app_inj_2; [|done].
  apply app_inj_2 in H as [_ ?]; [done|]. unfold zlen in Hl. lia.
Qed.

(** Packets that are sealed with increasing numbers have different nonces. *)
Lemma nonces_differ {A} (cb : ngtcp2_conn_callbacks A) K ss pkts :
  Forall2 (sealed cb K) ss pkts -> StronglySorted Z.lt (sl_num <$> ss) -> Forall (fun s => is_uint 64 (sl_num s)) ss ->
  NoDup ((fun s => (sl_km s, sl_nonce s)) <$> ss).
Proof.
  induction 1 as [|s pkt ss pkts Hs Hss IH]; intros Hsort Hu; [constructor|].
  rewrite fmap_cons in Hsort. apply StronglySorted_inv in Hsort as [Hsort Hlt]. apply Forall_cons in Hu as [Hu1 Hu].
  constructor; [|by apply IH]. intros (s' & [= Hkm Hn] & Hin)%list_elem_of_fmap.
  rewrite Forall_fmap, Forall_forall in Hlt. specialize (Hlt s' Hin). simpl in Hlt. rewrite Forall_forall in Hu.
  apply list_elem_of_lookup in Hin as [i Hi]. destruct (Forall2_lookup_l _ _ _ _ _ Hss Hi) as (pkt' & _ & Hs').
  destruct Hs as (? & ? & ? & ? & ? & ? & _ & Hiv & _ & _ & E1 & _), Hs' as (? & ? & ? & ? & ? & ? & _ & _ & _ & _ & E2 & _).
  rewrite <- Hkm, <- Hn in E2.
  pose proof (create_nonce_inj (km_iv (sl_km s)) _ _ _ ltac:(lia) Hu1 (Hu s' (list_elem_of_lookup_2 _ _ _ Hi)) E1 E2). lia.
Qed.

(** ** The functions that do not send *)

Definition keys_kept {A} : relation (ngtcp2_conn A) := fun c c' =>
  key_kept (conn_tx_ckm c) (conn_tx_ckm c') /\ key_kept (conn_hs_tx_ckm c) (conn_hs_tx_ckm c').

#[export] Instance keys_kept_po {A} : PreOrder (@keys_kept A).
Proof. split; [by split|]. intros c1 c2 c3 [? ?] [? ?]. split; by etrans. Qed.

(** [m] does not use up a packet number. *)
Definition same_tx {A} : relation (ngtcp2_conn A) := fun c c' =>
  conn_last_tx_pkt_num c' = conn_last_tx_pkt_num c /\ keys_kept c c'.

(** It used up the number [n]. *)
Definition sent_tx {A} (n : Z) : relation (ngtcp2_conn A) := fun c c' =>
  conn_last_tx_pkt_num c' = n /\ keys_kept c c'.

#[export] Instance same_tx_rel {A} : StateRel (@same_tx A).
Proof.
  split; [split; [by split|] | by split]. intros c1 c2 c3 [H1 K1] [H2 K2]. split; [congruence | by etrans].
Qed.

Lemma same_tx_set_state {A} s : follows same_tx (modify (set_conn_state (A := A) s)).
Proof. done. Qed.
#[export] Hint Resolve same_tx_set_state : follow.

Lemma same_sent {A} n (c1 c2 c3 : ngtcp2_conn A) : same_tx c1 c2 -> sent_tx n c2 c3 -> sent_tx n c1 c3.
Proof. intros [_ K1] [? K2]. split; [done | by etrans]. Qed.
Lemma sent_same {A} n (c1 c2 c3 : ngtcp2_conn A) : sent_tx n c1 c2 -> same_tx c2 c3 -> sent_tx n c1 c3.
Proof. intros [H1 K1] [H2 K2]. split; [congruence | by etrans]. Qed.

Lemma keys_kept_keyed {A} K (c c' : ngtcp2_conn A) : keys_kept c c' -> keyed K c -> keyed K c'.
Proof. intros [H1 H2] [? ?]. split; auto. Qed.
Lemma same_tx_keyed {A} K (c c' : ngtcp2_conn A) : same_tx c c' -> keyed K c -> keyed K c'.
Proof. intros [_ H]. by apply keys_kept_keyed. Qed.

(** [m] does not send, and what it returns satisfies [Q]. *)
Definition yields {A B} (m : M (ngtcp2_conn A) B) (Q : B -> Prop) : Prop :=
  forall c, match m c with ret b c' => same_tx c c' /\ Q b | fail _ c' => same_tx c c' | undef => True end.

(** The number of the next packet. *)
Definition next_num {A} (c : ngtcp2_conn A) : Z := u64 (conn_last_tx_pkt_num c + 1).

Lemma same_tx_next {A} (c c' : ngtcp2_conn A) : same_tx c c' -> next_num c' = next_num c.
Proof. intros [H _]. unfold next_num. by rewrite H. Qed.

Section Rules.
Context {A : Type} (cb : ngtcp2_conn_callbacks A) (K : keyring).
Abbreviation M := (M (ngtcp2_conn A)).

(** The packet has been sealed with [n]. *)
Definition sealed_with (n : Z) (pkt : bytes) : Prop := exists s, sl_num s = n /\ sealed cb K s pkt.

(** From [c] on at most one packet has been sent; it is sealed with [n], which is now
    the last number. A packet that is lost to an error may have used up the number. *)
Definition sent {B} (f : B -> bytes) (n : Z) (c : ngtcp2_conn A) (o : out (ngtcp2_conn A) B) : Prop :=
  match o with
  | ret b c' => (f b = [] /\ same_tx c c') \/ (f b <> [] /\ sealed_with n (f b) /\ sent_tx n c c')
  | fail _ c' => same_tx c c' \/ sent_tx n c c'
  | undef => True
  end.

(** [m] sends at most one packet, with the next number, and with the keys [K] of the
    connection. *)
Definition sends {B} (f : B -> bytes) (n : Z) (m : M B) : Prop :=
  forall c, next_num c = n -> keyed K c -> sent f n c (m c).

Lemma sent_after {B} (f : B -> bytes) n c c' o : same_tx c c' -> sent f n c' o -> sent f n c o.
Proof.
  intros Hs. unfold sent. destruct o as [b c2|e c2|]; [|intros [H|H]; [left | right] |done].
  - intros [[Hb H]|(Hb & Hp & H)]; [left | right]; (split; [done|]); [by etrans | split; [done|]; by eapply same_sent].
  - by etrans.
  - by eapply same_sent.
Qed.
Lemma yields_follows {B} (m : M B) : follows same_tx m -> yields m (fun _ => True).
Proof. intros Hm c. specialize (Hm c). by destruct (m c). Qed.
Lemma yields_mono {B} (m : M B) (Q Q' : B -> Prop) : yields m Q -> (forall b, Q b -> Q' b) -> yields m Q'.
Proof. intros Hm HQ c. specialize (Hm c). destruct (m c); naive_solver. Qed.
Lemma yields_ret {B} (b : B) (Q : B -> Prop) : Q b -> yields (mret b : M B) Q.
Proof. done. Qed.
Lemma yields_throw {B} e (Q : B -> Prop) : yields (throw e : M B) Q.
Proof. done. Qed.
Lemma yields_lift {B} (r : res B) (Q : B -> Prop) : (forall b, r = Ok b -> Q b) -> yields (lift r : M B) Q.
Proof. intros HQ c. unfold lift. destruct r; [by split; [|apply HQ] | done..]. Qed.
Lemma yields_bind {B C} (m : M B) (k : B -> M C) Q Q' :
  yields m Q -> (forall b, Q b -> yields (k b) Q') -> yields (m ≫= k) Q'.
Proof.
  intros Hm Hk c. unfold mbind, M_bind. specialize (Hm c). destruct (m c) as [b c'|e c'|]; [|done|done].
  destruct Hm as [Hc Hb]. specialize (Hk b Hb c').
  destruct (k b c'); [|by etrans|done]. destruct Hk as [? ?]. split; [by etrans | done].
Qed.
Lemma yields_attempt {B} (m : M B) Q :
  yields m Q -> yields (attempt m) (fun r => match r with inl b => Q b | inr _ => True end).
Proof. intros Hm c. unfold attempt. specialize (Hm c). by destruct (m c). Qed.

Lemma sends_none {B} f n (m : M B) : yields m (fun b => f b = []) -> sends f n m.
Proof. intros Hm c _ _. specialize (Hm c). unfold sent. destruct (m c); naive_solver. Qed.
Lemma sends_get {B} f n (k : ngtcp2_conn A -> M B) :
  (forall c, next_num c = n -> keyed K c -> sends f n (k c)) -> sends f n (get ≫= k).
Proof. intros Hk c Hc Hkey. by apply Hk. Qed.
Lemma sends_bind {B C} f n (m : M B) (k : B -> M C) Q :
  yields m Q -> (forall b, Q b -> sends f n (k b)) -> sends f n (m ≫= k).
Proof.
  intros Hm Hk c Hc Hkey. unfold mbind, M_bind. specialize (Hm c).
  destruct (m c) as [b c'|e c'|]; [|by left|done]. destruct Hm as [Hs Hb].
  apply (sent_after _ _ c c'); [done|].
  apply Hk; [done | by rewrite (same_tx_next c) | by eapply same_tx_keyed].
Qed.
Lemma next_pkt_num_sent n (c : ngtcp2_conn A) : next_num c = n -> sent_tx n c (set_conn_last_tx_pkt_num (u64 (conn_last_tx_pkt_num c + 1)) c).
Proof. intros Hc. by split. Qed.
Lemma sends_next {B} f n pkt (k : M B) :
  pkt <> [] -> sealed_with n pkt -> yields k (fun b => f b = pkt) -> sends f n (next_pkt_num;; k).
Proof.
  intros Hp Hs Hk c Hc _. unfold next_pkt_num, modify, mbind, M_bind.
  pose proof (next_pkt_num_sent n c Hc) as Hn. revert Hn. generalize (set_conn_last_tx_pkt_num (u64 (conn_last_tx_pkt_num c + 1)) c).
  intros c1 Hn. specialize (Hk c1). unfold sent.
  destruct (k c1) as [b c'|e c'|]; [|right; by eapply sent_same|done]. destruct Hk as [Hc' <-].
  right. split_and!; [done..|]. by eapply sent_same.
Qed.
(** What follows a function that may have sent a packet. *)
Lemma sends_then {B C} f g n (m : M B) (k : B -> M C) :
  sends f n m -> (forall b, f b = [] -> sends g n (k b)) ->
  (forall b, f b <> [] -> yields (k b) (fun b' => g b' = f b)) -> sends g n (m ≫= k).
Proof.
  intros Hm Hn Hk c Hc Hkey. unfold mbind, M_bind. specialize (Hm c Hc Hkey).
  destruct (m c) as [b c'|e c'|]; [|done|done]. destruct Hm as [[Hb Hs]|(Hb & Hs & Hl)].
  - apply (sent_after _ _ c c'); [done|].
    apply Hn; [done | by rewrite (same_tx_next c) | by eapply same_tx_keyed].
  - specialize (Hk b Hb c'). unfold sent. destruct (k b c') as [b' c2|e c2|]; [|right; by eapply sent_same|done].
    destruct Hk as [H2 ->]. right. split_and!; [done | done | by eapply sent_same].
Qed.
(** The same when errors are handled; an error is returned in the end. *)
Lemma sends_attempt_then {B C} f g n (m : M B) (k : B + Z -> M C) :
  sends f n m -> (forall b, f b = [] -> sends g n (k (inl b))) ->
  (forall b, f b <> [] -> yields (k (inl b)) (fun b' => g b' = f b)) ->
  (forall e, yields (k (inr e)) (fun _ => False)) -> sends g n (attempt m ≫= k).
Proof.
  intros Hm Hn Hk He c Hc Hkey. pose proof (sends_then f g n m (fun b => k (inl b)) Hm Hn Hk c Hc Hkey) as H.
  unfold attempt, mbind, M_bind in *. specialize (Hm c Hc Hkey). destruct (m c) as [b c'|e c'|]; [done| |done].
  specialize (He e c'). unfold sent in *. destruct (k (inr e) c') as [b c2|e2 c2|]; [by destruct He | | done].
  destruct Hm as [Hm|Hm]; [left; by etrans | right; by eapply sent_same].
Qed.
End Rules.

(** ** Packets under construction *)

Section Building.
Context {A : Type} (cb : ngtcp2_conn_callbacks A) (K : keyring).
Abbreviation M := (M (ngtcp2_conn A)).

(** The context is one of the connection's. *)
Definition tx_context (ctx : ngtcp2_crypto_ctx) : Prop :=
  (ctx_ckm ctx, ctx_encrypt ctx) = (kr_tx K, cb_encrypt cb) \/
  (ctx_ckm ctx, ctx_encrypt ctx) = (kr_hs_tx K, cb_hs_encrypt cb).

(** A packet under construction with the number [n], after its header. *)
Definition tx_ppe (n : Z) (ppe : ngtcp2_ppe) : Prop :=
  ppe_pkt_num ppe = n /\ tx_context (ppe_ctx ppe) /\
  exists hd w rest, hd_pkt_num hd = n /\ hd_encodes hd w /\ w <> [] /\
    b_bytes (ppe_buf ppe) = w ++ rest /\ ppe_hdlen ppe = zlen w.

Lemma final_sealed n ppe pkt len :
  tx_ppe n ppe -> ngtcp2_ppe_final ppe = Ok (pkt, len) -> pkt <> [] /\ sealed_with cb K n pkt.
Proof.
  intros (Hn & Hctx & hd & w & rest & Hhn & Hw & Hne & Hb & Hl) Hf.
  apply res_bind_ok in Hf as (pl & _ & Hf). apply res_bind_ok in Hf as (w' & Hw' & Hf).
  rewrite Hl, Hb in Hw'. rewrite rdn_app in Hw' by done. injection Hw' as <-.
  apply res_bind_ok in Hf as ([] & Hiv%c_assert_ok%Z.leb_le & Hf). apply res_bind_ok in Hf as (nonce & Hnonce & Hf).
  destruct (ctx_encrypt _ _ _ _ _ _) as [ct|] eqn:He; [|done]. apply res_bind_ok in Hf as ([] & _ & [= <- _]).
  split; [by destruct w|]. exists (mk_sealing (ctx_ckm (ppe_ctx ppe)) n nonce). split; [done|].
  assert (8 <= zlen (km_iv (ctx_ckm (ppe_ctx ppe)))) by (eapply create_nonce_iv; [|exact Hnonce]; lia). rewrite Hn in Hnonce.
  unfold sealed. simpl. do 6 eexists. split; [exact Hctx|]. by split_and!.
Qed.

Lemma encode_hd_len long outlen hd w n :
  (if long : bool then ngtcp2_pkt_encode_hd_long outlen hd else ngtcp2_pkt_encode_hd_short outlen hd) = Ok (w, n) ->
  n = zlen w /\ 1 <= n.
Proof.
  destruct long.
  - rewrite encode_hd_long_spec. destruct (_ <? _); [done|]. intros [= <- <-]. unfold NGTCP2_LONG_HEADERLEN.
    split; [zlia | done].
  - unfold ngtcp2_pkt_encode_hd_short. destruct (short_pkt_num_len _) as [k|] eqn:E; [|done].
    apply short_pkt_num_len_cases in E.
    intros (_ & _ & H)%res_bind_ok. apply res_bind_ok in H as (w1 & _ & H).
    apply res_bind_ok in H as (w2 & _ & H). apply res_bind_ok in H as (w3 & _ & H).
    apply res_bind_ok in H as ([] & Hl%c_assert_ok%Z.eqb_eq & [= <- <-]). split; [done|]. destruct (negb _); lia.
Qed.

Lemma encode_hd_tx destlen ctx hd ppe :
  tx_context ctx -> ngtcp2_ppe_encode_hd (ngtcp2_ppe_init destlen ctx) hd = Ok ppe -> tx_ppe (hd_pkt_num hd) ppe.
Proof.
  intros Hctx (_ & _ & H)%res_bind_ok. apply res_bind_ok in H as ([w n] & Hw & [= <-]).
  destruct (encode_hd_len _ _ _ _ _ Hw) as [-> Hl].
  split; [done|]. split; [done|]. exists hd, w, []. rewrite app_nil_r. split_and!; try done; [by eexists|].
  intros ->. by rewrite zlen_nil in Hl.
Qed.

Lemma append_tx n ppe bs :
  tx_ppe n ppe -> tx_ppe n (mk_ppe (buf_append (ppe_buf ppe) bs) (ppe_ctx ppe) (ppe_hdlen ppe) (ppe_pkt_num ppe)).
Proof.
  intros (Hn & Hctx & hd & w & rest & Hhn & Hw & Hne & Hb & Hl). split; [done|]. split; [done|].
  exists hd, w, (rest ++ bs). simpl. rewrite Hb, app_assoc. done.
Qed.

Lemma encode_frame_tx n ppe fr ppe' fr' :
  tx_ppe n ppe -> ngtcp2_ppe_encode_frame ppe fr = Ok (ppe', fr') -> tx_ppe n ppe'.
Proof.
  intros Hn (_ & _ & H)%res_bind_ok. apply res_bind_ok in H as ([[w k] fr1] & _ & [= <- _]). by apply append_tx.
Qed.

Lemma padding_tx n ppe ppe' len : tx_ppe n ppe -> ngtcp2_ppe_padding ppe = Ok (ppe', len) -> tx_ppe n ppe'.
Proof. intros Hn (_ & _ & [= <- _])%res_bind_ok. by apply append_tx. Qed.

Lemma sends_next_final n ppe : tx_ppe n ppe -> sends cb K id n (next_pkt_num;; final_pkt ppe : M bytes).
Proof.
  intros Hn c Hc _. pose proof (next_pkt_num_sent n c Hc) as Hs.
  unfold next_pkt_num, modify, final_pkt, lift, fmap, M_fmap, mbind, M_bind.
  destruct (ngtcp2_ppe_final ppe) as [[pkt len]|e|] eqn:E; [|by right|done].
  apply (final_sealed n) in E as [Hp Hp']; [|done]. by right.
Qed.
End Building.

(** ** The parts of packets *)

Create HintDb yield.
#[export] Hint Resolve yields_throw : yield.
#[export] Hint Extern 0 (tx_ppe _ _ _ _) => assumption : yield.
#[export] Hint Extern 0 (keyed _ _) => eassumption : yield.
#[export] Hint Extern 0 (tx_context _ _ _) => assumption : yield.

(** Calls that concern the packet have rules of their own; the others do not send. *)
Ltac yield_step :=
  lazymatch goal with
  | |- forall _, _ => intros
  | |- yields (mbind _ _) _ =>
      first [ eapply yields_bind; [solve [eauto 3 with yield] | intros ? ?]
            | eapply yields_bind; [apply yields_follows; solve [follow] | intros ? _] ]
  | |- yields (mret _) _ => apply yields_ret; simpl in *; try (assumption || reflexivity)
  | |- yields (match ?x with _ => _ end) _ => destruct x; simpl in *
  | |- yields (let _ := _ in _) _ => cbv zeta
  | |- yields ?m _ => first [ solve [eauto 3 with yield] | let h := head_of m in unfold h ]
  end.
Ltac yield := repeat yield_step.

Section Parts.
Context {A : Type} (cb : ngtcp2_conn_callbacks A) (K : keyring) (n : Z).
Abbreviation M := (M (ngtcp2_conn A)).
Abbreviation tx_ppe := (tx_ppe cb K).

Lemma yields_tx_ctx (c : ngtcp2_conn A) : keyed K c -> yields (tx_ctx cb c : M _) (tx_context cb K).
Proof. intros [Hk _] c'. unfold tx_ctx. rewrite Hk. split; [done | by left]. Qed.
Lemma yields_hs_ctx (c : ngtcp2_conn A) : keyed K c -> yields (hs_ctx cb c : M _) (tx_context cb K).
Proof. intros [_ Hk] c'. unfold hs_ctx. rewrite Hk. split; [done | by right]. Qed.
Lemma yields_select_stream_pkt (c : ngtcp2_conn A) :
  keyed K c -> yields (lift (select_stream_pkt c) : M _) (fun r => r.2 = kr_tx K).
Proof. intros [Hk _]. apply yields_lift. unfold select_stream_pkt. rewrite Hk. by intros r [= <-]. Qed.
Lemma stream_context overhead : tx_context cb K (mk_crypto_ctx (kr_tx K) overhead (cb_encrypt cb)).
Proof. by left. Qed.

Lemma yields_start_pkt destlen ctx hd :
  tx_context cb K ctx -> hd_pkt_num hd = n -> yields (start_pkt destlen ctx hd : M _) (tx_ppe n).
Proof. intros Hctx <-. apply yields_lift. intros ppe. by apply encode_hd_tx. Qed.
Lemma yields_encode_frame ppe fr :
  tx_ppe n ppe -> yields (lift (ngtcp2_ppe_encode_frame ppe fr) : M _) (fun r => tx_ppe n r.1).
Proof. intros Hn. apply yields_lift. intros [ppe' fr'] H. by eapply encode_frame_tx. Qed.
Lemma yields_padding ppe :
  tx_ppe n ppe -> yields (lift (ngtcp2_ppe_padding ppe) : M _) (fun r => tx_ppe n r.1).
Proof. intros Hn. apply yields_lift. intros [ppe' l] H. by eapply padding_tx. Qed.
Lemma yields_final ppe :
  tx_ppe n ppe -> yields (final_pkt ppe : M _) (fun pkt => pkt <> [] /\ sealed_with cb K n pkt).
Proof.
  intros Hn. unfold final_pkt. eapply yields_bind; [apply yields_lift; intros r H; exact H|].
  intros [pkt len] H. apply yields_ret. by apply (final_sealed cb K n ppe pkt len).
Qed.
#[local] Hint Resolve yields_start_pkt yields_encode_frame yields_padding yields_final : yield.

Lemma yields_ppe_write_frame ppe called hd fr :
  tx_ppe n ppe -> yields (conn_ppe_write_frame cb ppe called hd fr) (fun r => tx_ppe n r.1.1).
Proof. intros Hn. yield. Qed.
Lemma yields_encode_and_report ppe hd fr :
  tx_ppe n ppe -> yields (encode_and_report cb ppe hd fr) (fun r => tx_ppe n r.1).
Proof. intros Hn. yield. Qed.
#[local] Hint Resolve yields_ppe_write_frame yields_encode_and_report : yield.

Lemma yields_try_frame ppe called hd fr :
  tx_ppe n ppe ->
  yields (attempt (conn_ppe_write_frame cb ppe called hd fr))
    (fun r => match r with inl r => tx_ppe n r.1.1 | inr _ => True end).
Proof. intros Hn. by apply yields_attempt, yields_ppe_write_frame. Qed.
#[local] Hint Resolve yields_try_frame : yield.

Lemma yields_write_or_stop ppe called hd don fr rest k :
  tx_ppe n ppe ->
  (forall ppe called don, tx_ppe n ppe -> yields (k ppe called don) (fun w => tx_ppe n (wn_ppe w))) ->
  yields (write_or_stop cb ppe called hd don fr rest k) (fun w => tx_ppe n (wn_ppe w)).
Proof. intros Hn Hk. yield. Qed.

Lemma yields_write_frames ppe called hd don frc :
  tx_ppe n ppe -> yields (write_frames cb ppe called hd don frc) (fun w => tx_ppe n (wn_ppe w)).
Proof.
  revert ppe called don. induction frc as [|fr frc IH]; intros ppe called don Hn; simpl; [yield|].
  apply yields_write_or_stop; [done|]. intros. by apply IH.
Qed.

Lemma yields_write_live_frames k ppe called hd don frc :
  (length frc <= k)%nat -> tx_ppe n ppe ->
  yields (write_live_frames cb ppe called hd don frc) (fun w => tx_ppe n (wn_ppe w)).
Proof.
  revert ppe called don frc. induction k as [|k IH]; intros ppe called don [|fr frc] Hk Hn; simpl in *;
    [yield | lia | yield |].
  apply yields_bind with (fun _ => True); [apply yields_follows, follows_cancel_frame; typeclasses eauto|].
  intros cancel _.
  destruct cancel; [|apply yields_write_or_stop; [done|]; intros; apply IH; [lia | done]].
  destruct fr; try (apply IH; [lia | done]).
  destruct frc as [|fr' frc]; [done|]. simpl in Hk. apply yields_write_or_stop; [done|].
  intros. apply IH; [lia | done].
Qed.
Lemma yields_live_frames ppe called hd don frc :
  tx_ppe n ppe -> yields (write_live_frames cb ppe called hd don frc) (fun w => tx_ppe n (wn_ppe w)).
Proof. by eapply yields_write_live_frames. Qed.

Lemma yields_write_ack ppe called hd ts :
  tx_ppe n ppe -> yields (write_ack cb ppe called hd ts) (fun r => tx_ppe n r.1).
Proof. intros Hn. yield. Qed.
#[local] Hint Resolve yields_write_frames yields_live_frames yields_write_ack : yield.

Lemma yields_queued_frame hd fr b :
  tx_ppe n (pb_ppe b) -> yields (write_queued_frame cb hd fr b) (fun b => tx_ppe n (pb_ppe b)).
Proof. intros Hn. yield. Qed.
#[local] Hint Resolve yields_queued_frame : yield.
Lemma yields_frq_round hd fr b :
  tx_ppe n (pb_ppe b) -> yields (write_frq_round cb hd fr b) (fun b => tx_ppe n (pb_ppe b)).
Proof. intros Hn. yield. Qed.
#[local] Hint Resolve yields_frq_round : yield.
Lemma yields_frq_next k hd b :
  tx_ppe n (pb_ppe b) -> yields (write_frq_next cb k hd b) (fun b => tx_ppe n (pb_ppe b)).
Proof. revert b. induction k as [|k IH]; intros b Hn; simpl; yield. Qed.
#[local] Hint Resolve yields_frq_next : yield.
Lemma yields_write_frq l hd b :
  tx_ppe n (pb_ppe b) -> yields (write_frq cb l hd b) (fun b => tx_ppe n (pb_ppe b)).
Proof. revert b. induction l as [|fr l IH]; intros b Hn; simpl; yield. Qed.
#[local] Hint Resolve yields_write_frq : yield.
End Parts.

#[export] Hint Resolve yields_tx_ctx yields_hs_ctx yields_select_stream_pkt stream_context yields_start_pkt yields_encode_frame yields_padding yields_final yields_ppe_write_frame
  yields_encode_and_report yields_write_frames yields_live_frames yields_write_ack yields_queued_frame
  yields_write_frq : yield.
#[export] Hint Extern 0 (hd_pkt_num _ = _) => eassumption : yield.

(** ** The functions that send a packet *)

Ltac send_step :=
  lazymatch goal with
  | |- forall _, _ => intros
  | |- sends _ _ _ _ (get ≫= _) => apply sends_get; intros ? ? ?
  | |- sends _ _ _ _ (next_pkt_num ≫= (fun _ => final_pkt _)) => apply sends_next_final; simpl in *; assumption
  | |- sends _ _ _ _ (next_pkt_num ≫= _) => eapply sends_next; [eassumption | eassumption | yield]
  | |- sends ?cb ?K _ ?n (mbind _ _) =>
      first [ eapply sends_bind; [solve [eauto 3 with yield] | intros ? ?]
            | apply sends_bind with (tx_ppe cb K n); [solve [yield] | intros ? ?]
            | apply sends_bind with (fun r => tx_ppe cb K n r.1); [solve [yield] | intros ? ?]
            | apply sends_bind with (fun b => tx_ppe cb K n (pb_ppe b)); [solve [yield] | intros ? ?]
            | eapply sends_bind; [apply yields_follows; solve [follow] | intros ? _] ]
  | |- sends _ _ _ _ (mret _) => apply sends_none, yields_ret; reflexivity
  | |- sends _ _ _ _ (throw _) => apply sends_none, yields_throw
  | |- sends _ _ _ _ (match ?x with _ => _ end) => destruct x; simpl in *
  | |- sends _ _ _ _ (let _ := _ in _) => cbv zeta
  | |- sends _ _ _ _ ?m => first [ solve [eauto 3 with yield] | let h := head_of m in unfold h ]
  end.
Ltac send := repeat (send_step; cbv beta in *; repeat match goal with H : _ /\ _ |- _ => destruct H | H : _ = kr_tx _ |- _ => rewrite H in *; clear H end).

Section Send.
Context {A : Type} (cb : ngtcp2_conn_callbacks A) (K : keyring) (n : Z).
Abbreviation M := (M (ngtcp2_conn A)).
Abbreviation sends := (sends cb K).
Abbreviation sealed_with := (sealed_with cb K).

Lemma sends_retransmit_unprotected destlen p ts : sends id n (conn_retransmit_unprotected cb destlen p ts).
Proof. send. Qed.
Lemma sends_retransmit_protected destlen p ts : sends id n (conn_retransmit_protected cb destlen p ts).
Proof. send. Qed.
#[local] Hint Resolve sends_retransmit_unprotected sends_retransmit_protected : yield.
Lemma sends_retransmit_entry destlen p ts : sends id n (conn_retransmit_entry cb destlen p ts).
Proof. send. Qed.

Lemma sends_retransmit_loop fuel destlen ts : sends id n (retransmit_loop cb fuel destlen ts).
Proof.
  induction fuel as [|fuel IH]; simpl; [by intros c|].
  apply sends_get. intros c Hn Hkey. destruct (ngtcp2_rtb_top _) as [p|]; [|send].
  do 1 send_step. destruct (_ <? _); [send|]. do 2 send_step. destruct (_ <=? _); [send|].
  eapply sends_attempt_then; [apply sends_retransmit_entry | | |].
  - intros pkt Hp. unfold id in Hp. subst pkt. send.
  - intros [|x pkt] Hp; [done|]. yield.
  - intros e. yield.
Qed.

Lemma sends_write_pkt destlen ts : sends id n (conn_write_pkt cb destlen ts).
Proof. send. Qed.
Lemma sends_single_frame_pkt destlen fr : sends id n (conn_write_single_frame_pkt cb destlen fr).
Proof. send. Qed.
(** The packet is passed on. *)
Lemma sends_pass {B} f g (m : M B) (k : B -> M bytes) :
  sends f n m -> (forall b, yields (k b) (fun pkt => g pkt = f b)) -> sends g n (m ≫= k).
Proof.
  intros Hm Hk. eapply sends_then; [done | | auto]. intros b Hb. apply sends_none. rewrite <- Hb. apply Hk.
Qed.

Lemma sends_protected_ack_pkt destlen ts : sends id n (conn_write_protected_ack_pkt cb destlen ts).
Proof.
  send. eapply sends_pass; [apply sends_single_frame_pkt|]. yield.
Qed.
Lemma sends_retransmit destlen ts : sends id n (conn_retransmit cb destlen ts).
Proof. apply sends_get. intros c _ _. apply sends_retransmit_loop. Qed.

Definition num_ok (c : ngtcp2_conn A) : Prop := 0 <= conn_last_tx_pkt_num c <= UINT64_MAX.

(** One call: the packet it gives, and its number. *)
Definition event_sends (c : ngtcp2_conn A) (pkt : bytes) (c' : ngtcp2_conn A) : Prop :=
  num_ok c' /\ keys_kept c c' /\
  ((pkt = [] /\ conn_last_tx_pkt_num c <= conn_last_tx_pkt_num c') \/
   (sealed_with (conn_last_tx_pkt_num c + 1) pkt /\ conn_last_tx_pkt_num c' = conn_last_tx_pkt_num c + 1)).

(** Started in [c], the call gives at most one packet. *)
Definition gives {B} (f : B -> bytes) (m : M B) (c : ngtcp2_conn A) : Prop :=
  match m c with ret b c' => event_sends c (f b) c' | fail _ c' => event_sends c [] c' | undef => True end.

Lemma gives_none {B} f (m : M B) c : num_ok c -> yields m (fun b => f b = []) -> gives f m c.
Proof.
  intros Hc Hm. unfold gives. specialize (Hm c). unfold event_sends, num_ok in *.
  destruct (m c) as [b c'|e c'|]; [| |done].
  - destruct Hm as [[-> Hk] ->]. (split; [done|]); (split; [done|]); by left.
  - destruct Hm as [-> Hk]. (split; [done|]); (split; [done|]); by left.
Qed.

Lemma gives_throw_if {B} f b e (m : M B) c : num_ok c -> gives f m c -> gives f (throw_if b e;; m) c.
Proof.
  intros Hc Hm. unfold gives, throw_if, mbind, M_bind. destruct b; [|done]. (split; [done|]); (split; [done|]); by left.
Qed.

(** The number does not wrap around. *)
Lemma gives_checked {B} f (m : M B) c :
  num_ok c -> keyed K c -> sends f (next_num c) m -> gives f (check_pkt_num;; m) c.
Proof.
  intros Hc Hkey Hm. unfold gives, check_pkt_num, get, throw_if, mbind, M_bind. specialize (Hm c eq_refl Hkey).
  destruct (Z.eqb_spec (conn_last_tx_pkt_num c) UINT64_MAX) as [E|E]; [(split; [done|]); (split; [done|]); by left|].
  unfold num_ok, sent, same_tx, sent_tx, next_num, UINT64_MAX in *. rewrite u64_small in Hm by clia.
  unfold event_sends, num_ok, UINT64_MAX. simpl. destruct (m c) as [b c'|e c'|]; [| |done].
  - destruct Hm as [(-> & Hs & ?)|(_ & ? & Hl & ?)]; [rewrite Hs|rewrite Hl];
      (split; [lia|]); (split; [done|]); [left; split; [done | lia] | by right].
  - destruct Hm as [[Hs ?]|[Hl ?]]; [rewrite Hs|rewrite Hl]; (split; [lia|]); (split; [done|]); left; (split; [done | lia]).
Qed.
Lemma sends_handshake_ack_pkt destlen type ts : sends id n (conn_write_handshake_ack_pkt cb destlen type ts).
Proof. send. Qed.
End Send.

Section Events.
Context {A : Type} (cb : ngtcp2_conn_callbacks A) (K : keyring).
Abbreviation M := (M (ngtcp2_conn A)).
Abbreviation sends := (sends cb K).

(** What [ngtcp2_conn_write_pkt] comes to after the handshake. *)
Lemma write_pkt_after destlen ts c :
  after_handshake (conn_state c) ->
  ngtcp2_conn_write_pkt cb destlen ts c =
  (check_pkt_num;;
   pkt ← conn_retransmit cb destlen ts;
   if negb (bool_decide (pkt = [])) then mret pkt
   else if bool_decide (conn_state c = NGTCP2_CS_POST_HANDSHAKE) then conn_write_pkt cb destlen ts else mret []) c.
Proof.
  intros Hs. unfold ngtcp2_conn_write_pkt, mbind, M_bind.
  assert (Hchk : forall c1, check_pkt_num c = ret tt c1 -> c1 = c).
  { intros c1. unfold check_pkt_num, get, throw_if, mbind, M_bind. destruct (_ =? _); [done | by intros [= <-]]. }
  destruct (check_pkt_num c) as [[] c1|e c1|]; [|done|done]. rewrite (Hchk c1 eq_refl). clear Hchk.
  pose proof (follows_retransmit (into []) cb destlen ts c) as Hr.
  destruct (conn_retransmit cb destlen ts c) as [pkt c2|e c2|]; [|done|done].
  destruct (negb _); [done|]. destruct Hr as [[Hr|Hr%not_elem_of_nil] _]; [|done]. unfold get. rewrite Hr.
  unfold after_handshake in Hs. rewrite !elem_of_cons, elem_of_nil in Hs.
  by destruct Hs as [->|[->|[->|[]]]].
Qed.
Lemma write_pkt_gives destlen ts c :
  after_handshake (conn_state c) -> num_ok c -> keyed K c -> gives cb K id (ngtcp2_conn_write_pkt cb destlen ts) c.
Proof.
  intros Hs Hn Hk. unfold gives. rewrite write_pkt_after by done. refine (gives_checked cb K id _ c Hn Hk _).
  eapply sends_then; [apply sends_retransmit | |].
  - intros pkt Hp. unfold id in Hp. subst pkt. simpl.
    destruct (bool_decide _); [apply sends_write_pkt | by apply sends_none].
  - intros [|x pkt] Hp; [done|]. by apply yields_ret.
Qed.

Lemma write_ack_pkt_gives destlen ts c :
  num_ok c -> keyed K c -> gives cb K id (ngtcp2_conn_write_ack_pkt cb destlen ts) c.
Proof.
  intros Hn Hk. apply gives_checked; [done | done|]. eapply sends_then; [apply sends_retransmit | |].
  - intros pkt Hp. unfold id in Hp. subst pkt. simpl. apply sends_get. intros c' _ _.
    destruct (conn_state c'); first [apply sends_handshake_ack_pkt | apply sends_protected_ack_pkt | by apply sends_none].
  - intros [|x pkt] Hp; [done|]. by apply yields_ret.
Qed.

(** A packet that closes the connection. *)
Lemma sends_close n destlen fr (k : bytes -> M bytes) :
  (forall pkt, yields (k pkt) (fun p => p = pkt)) ->
  sends id n (c ← get; match conn_state c with
    | NGTCP2_CS_POST_HANDSHAKE => pkt ← conn_write_single_frame_pkt cb destlen fr; k pkt
    | _ => throw NGTCP2_ERR_INVALID_STATE end).
Proof.
  intros Hk. apply sends_get. intros c _ _. destruct (conn_state c); try apply sends_none, yields_throw.
  eapply sends_pass; [apply sends_single_frame_pkt | done].
Qed.

Lemma recv_after pkt ts c :
  after_handshake (conn_state c) ->
  ngtcp2_conn_recv cb pkt ts c =
  (throw_if (zlen pkt =? 0) NGTCP2_ERR_INVALID_ARGUMENT;;
   if bool_decide (conn_state c = NGTCP2_CS_POST_HANDSHAKE) then conn_recv_pkt cb pkt ts else mret tt) c.
Proof.
  intros Hs. unfold ngtcp2_conn_recv, throw_if, get, mbind, M_bind. destruct (zlen pkt =? 0); [done|].
  unfold after_handshake in Hs. rewrite !elem_of_cons, elem_of_nil in Hs. simpl.
  by destruct Hs as [->|[->|[->|[]]]].
Qed.

Lemma recv_gives pkt ts c :
  after_handshake (conn_state c) -> num_ok c -> gives cb K (fun _ => []) (ngtcp2_conn_recv cb pkt ts) c.
Proof.
  intros Hs Hn. unfold gives. rewrite recv_after by done. refine (gives_throw_if cb K (fun _ => []) _ _ _ c Hn _).
  destruct (bool_decide _); [|by apply gives_none].
  apply gives_none; [done|]. eapply yields_mono; [apply yields_follows, follows_recv_pkt; [typeclasses eauto | done] | done].
Qed.

Lemma gives_fmap {B} f g (m : M B) (h : B -> bytes) c :
  (forall b, g (h b) = f b) -> gives cb K f m c -> gives cb K g (b ← m; mret (h b)) c.
Proof. intros Hh Hm. unfold gives, mbind, M_bind in *. destruct (m c) as [b c'|e c'|]; simpl; by rewrite ?Hh. Qed.

Lemma event_gives ev c : after_handshake (conn_state c) -> num_ok c -> keyed K c -> gives cb K id (event_out cb ev) c.
Proof.
  intros Hs Hn Hk. destruct ev as [pkt ts|destlen ts|destlen ts|destlen i fin data ts|destlen code|destlen code|call]; simpl.
  - by apply gives_fmap with (fun _ => []); [|apply recv_gives].
  - by apply write_pkt_gives.
  - by apply write_ack_pkt_gives.
  - apply gives_fmap with fst; [done|]. apply gives_checked; [done | done|].
    send.
  - apply gives_checked; [done | done|]. apply sends_close. intros pkt. yield.
  - apply gives_throw_if, gives_checked; [done..|]. apply sends_close. intros pkt. yield.
  - apply gives_fmap with (fun _ => []); [done|]. apply gives_none; [done|].
    eapply yields_mono; [apply yields_follows; follow | done].
Qed.

Lemma run_event_gives ev c pkt c' :
  after_handshake (conn_state c) -> num_ok c -> keyed K c -> run_event cb ev c = ret pkt c' ->
  event_sends cb K c pkt c'.
Proof.
  intros Hs Hn Hk. pose proof (event_gives ev c Hs Hn Hk) as H. unfold run_event, attempt, gives, mbind, M_bind in *.
  destruct (event_out cb ev c); [by intros [= <- <-]..|done].
Qed.

(** The packets are sealed with increasing numbers after [lo], up to [hi]. *)
Inductive numbered : Z -> list bytes -> Z -> Prop :=
| numbered_nil lo hi : lo <= hi -> numbered lo [] hi
| numbered_cons lo n pkt pkts hi : lo < n -> sealed_with cb K n pkt -> numbered n pkts hi -> numbered lo (pkt :: pkts) hi.

Lemma numbered_mono lo lo' pkts hi : lo' <= lo -> numbered lo pkts hi -> numbered lo' pkts hi.
Proof. intros Hl H. destruct H; [constructor; lia | econstructor; [|done..]; lia]. Qed.

Lemma numbered_le lo pkts hi : numbered lo pkts hi -> lo <= hi.
Proof. induction 1; lia. Qed.

Lemma numbered_sorted lo pkts hi :
  numbered lo pkts hi ->
  exists ss, Forall2 (sealed cb K) ss pkts /\ StronglySorted Z.lt (sl_num <$> ss) /\
    Forall (fun s => lo < sl_num s <= hi) ss.
Proof.
  induction 1 as [lo hi Hl|lo n pkt pkts hi Hl (s & <- & Hs) H (ss & H1 & H2 & H3)].
  - exists []. split_and!; constructor.
  - exists (s :: ss). apply numbered_le in H. split_and!.
    + by constructor.
    + rewrite fmap_cons. constructor; [done|]. rewrite Forall_fmap. eapply Forall_impl; [exact H3|]. simpl. lia.
    + constructor; [lia|]. eapply Forall_impl; [exact H3|]. simpl. lia.
Qed.

Lemma events_numbered evs c pkts c' :
  role_ok c -> after_handshake (conn_state c) -> num_ok c -> keyed K c -> run_events cb evs c = ret pkts c' ->
  numbered (conn_last_tx_pkt_num c) pkts (conn_last_tx_pkt_num c') /\ num_ok c'.
Proof.
  revert c pkts. induction evs as [|ev evs IH]; intros c pkts Hr Hs Hn Hk; simpl.
  { intros [= <- <-]. split; [by constructor | done]. }
  unfold mbind, M_bind. pose proof (event_runs cb ev c Hr) as Hrun. unfold runs in Hrun.
  destruct (run_event cb ev c) as [pkt c1|e c1|] eqn:E1; [|done|done].
  destruct (run_events cb evs c1) as [pkts1 c2|e c2|] eqn:E2; [|done|done]. intros [= <- <-].
  apply run_event_gives in E1 as (Hn1 & Hk1 & Hsend); [|done..]. apply keys_kept_keyed with (K := K) in Hk1; [|done].
  destruct (IH c1 pkts1) as [H1 H2]; [by eapply steps_role | by eapply steps_after_handshake; [apply Hrun|] | done..|]. split; [|done].
  destruct Hsend as [[-> Hle]|[Hp Hl]]; [by eapply numbered_mono|].
  destruct (bool_decide_reflect (pkt = [])); [eapply numbered_mono; [|done]; lia|].
  apply numbered_cons with (conn_last_tx_pkt_num c + 1); [lia | done | by rewrite <- Hl].
Qed.
End Events.
