(* ===== verification/ConnWrite.v ===== *)
(** Sending stream data: [ngtcp2_conn_write_stream]. *)

From S2P Require Import Prelude Conv Frame PktDecode PktEncode PktHd Mem Monad Range Gaptr Idtr Ringbuf.
From S2P Require Import AckScan Acktr Pq Rtb Map Rob Crypto Ppe Strm Err Conn ConnApp.
From S2P Require Import ConnAck ConnSend ConnInv.

Section Write.
Context {A : Type} (av : app_view A) (cb : ngtcp2_conn_callbacks A).
Implicit Types (c : ngtcp2_conn A) (strm : ngtcp2_strm Z).
Abbreviation conn_ok := (conn_ok av).
Abbreviation api_post := (api_post av).

(** ** The retransmission buffer *)

(** A change of the buffer and its entries, after allocations. *)
Lemma rtb_change_ok reliable x c rtb heap m n :
  conn_ok reliable x c -> wf_rtb heap rtb -> (forall p, is_Some (heap !! p) -> (p < n)%positive) ->
  (conn_next c <= n)%positive -> (reliable = true -> mem_reliable m) ->
  conn_ok reliable x (set_conn_rtb rtb (set_conn_rtb_heap heap (set_conn_next n (set_conn_mem m c)))).
Proof.
  intros [[M []] [] ? ? ? ? ? ? ?] Hw Hf Hn Hm. split; [exists M; split | split | ..]; try assumption.
  intros p strm Hp. destruct (st_heap p strm Hp) as (? & ? & ? & ?). split_and!; [done | simpl; lia | done..].
Qed.

(** The connection with a new entry [ent] at [conn_next c]. *)
Definition with_entry c (m : mem) (ent : ngtcp2_rtb_entry) : ngtcp2_conn A :=
  set_conn_rtb_heap (<[conn_next c := ent]> (conn_rtb_heap c))
    (set_conn_next (Pos.succ (conn_next c)) (set_conn_mem m c)).

Lemma with_entry_ok reliable x c m ent :
  conn_ok reliable x c -> (reliable = true -> mem_reliable m) ->
  conn_ok reliable x (with_entry c m ent) /\ conn_next c ∉ rtb_head (conn_rtb c).
Proof.
  intros Hok Hm. pose proof (co_rtb_fresh _ _ _ _ Hok) as Hf. pose proof (co_rtb _ _ _ _ Hok) as Hw.
  assert (Hn : conn_next c ∉ rtb_head (conn_rtb c)).
  { intros Hin. pose proof (wf_rtb_store _ _ Hw) as Hs. rewrite list.Forall_forall in Hs.
    destruct (Hs _ Hin) as (e & He & _). specialize (Hf _ (ex_intro _ e He)). lia. }
  split; [|done]. assert (with_entry c m ent = set_conn_rtb (conn_rtb c)
    (set_conn_rtb_heap (<[conn_next c := ent]> (conn_rtb_heap c))
      (set_conn_next (Pos.succ (conn_next c)) (set_conn_mem m c)))) as -> by reflexivity.
  apply rtb_change_ok; [done | | | lia | done].
  - eapply wf_rtb_store_ext; [|done]. intros h Hh. rewrite lookup_insert_ne; [done | by intros <-].
  - intros p [e [[<- _]|[_ He]]%lookup_insert_Some]; [lia|]. specialize (Hf _ (ex_intro _ e He)). lia.
Qed.

Lemma wp_new_rtb_entry reliable x c hd frc ts deadline pktlen flags
    (Q : positive -> ngtcp2_conn A -> Prop) (E : Z -> ngtcp2_conn A -> Prop) :
  conn_ok reliable x c ->
  (forall m, (reliable = true -> mem_reliable m) ->
    Q (conn_next c) (with_entry c m
      (mk_rtb_entry hd frc (u64 (ts + NGTCP2_INITIAL_EXPIRY)) deadline 0 pktlen flags))) ->
  (forall m, api_post reliable x c (set_conn_mem m c) -> E NGTCP2_ERR_NOMEM (set_conn_mem m c)) ->
  wp (new_rtb_entry hd frc ts deadline pktlen flags) Q E c.
Proof.
  intros Hok HQ HE. unfold new_rtb_entry, ngtcp2_rtb_entry_new. wp_step. unfold with_mem, wp at 1.
  pose proof (fun H => mem_alloc_reliable _ (co_mem _ _ _ _ Hok H)) as Hm.
  destruct (mem_alloc (conn_mem c)) as [[] m]; simpl in *.
  - wp_go. apply HQ. naive_solver.
  - apply HE, mem_ok; [done | naive_solver].
Qed.

(** The entry at [p], which is in no list, enters the buffer, or is deleted. *)
Lemma wp_add_rtb_entry reliable x c p ent (Q : unit -> ngtcp2_conn A -> Prop) (E : Z -> ngtcp2_conn A -> Prop) :
  conn_ok reliable x c -> conn_rtb_heap c !! p = Some ent -> entry_ok ent -> p ∉ rtb_head (conn_rtb c) ->
  rtb_bytes_in_flight (conn_rtb c) + re_pktlen ent < 2 ^ 64 ->
  (forall m rtb, rtb_head rtb = p :: rtb_head (conn_rtb c) ->
    let c' := set_conn_rtb rtb (set_conn_mem m c) in conn_ok reliable x c' -> Q tt c') ->
  (forall m, let c' := set_conn_rtb_heap (delete p (conn_rtb_heap c)) (set_conn_mem m c) in
    conn_ok reliable x c' -> E NGTCP2_ERR_NOMEM c') ->
  wp (add_rtb_entry p) Q E c.
Proof.
  intros Hok Hp He Hnin Hlen HQ HE. pose proof (co_rtb _ _ _ _ Hok) as Hw. pose proof (co_rtb_fresh _ _ _ _ Hok) as Hf.
  pose proof (rtb_add_spec (conn_mem c) (conn_rtb_heap c) (conn_rtb c) p Hw) as Hadd.
  pose proof (fun H => rtb_add_mem _ (conn_rtb_heap c) (conn_rtb c) p (co_mem _ _ _ _ Hok H)) as Hmem.
  unfold pktlen_of in Hadd. rewrite Hp in Hadd. specialize (Hadd (ex_intro _ ent (conj Hp He)) Hnin Hlen).
  unfold add_rtb_entry. wp_step. wp_step. unfold conn_rtb_add. wp_step.
  unfold load_ent, wp at 1. rewrite Hp. wp_go. unfold with_mem, wp at 1.
  destruct (ngtcp2_rtb_add _ _ _ _) as [[rtb|e|] m]; simpl in *; [| |done].
  - destruct Hadd as [Hw' Hh]. wp_go. apply HQ; [done|].
    assert (set_conn_rtb rtb (set_conn_mem m c) = set_conn_rtb rtb (set_conn_rtb_heap (conn_rtb_heap c)
      (set_conn_next (conn_next c) (set_conn_mem m c)))) as -> by reflexivity.
    by apply rtb_change_ok.
  - destruct Hadd as [-> _]. wp_step. apply wp_assert; [done|]. wp_step. unfold ngtcp2_rtb_entry_del. wp_step.
    unfold load_ent, wp at 1. simpl. rewrite Hp. wp_go. apply (HE m).
    assert (set_conn_rtb_heap (delete p (conn_rtb_heap c)) (set_conn_mem m c) = set_conn_rtb (conn_rtb c)
      (set_conn_rtb_heap (delete p (conn_rtb_heap c)) (set_conn_next (conn_next c) (set_conn_mem m c))))
      as -> by reflexivity.
    apply rtb_change_ok; [done | | | done | done].
    + eapply wf_rtb_store_ext; [|done]. intros h Hh. rewrite lookup_delete_ne; [done | by intros <-].
    + intros q [e [_ Hq]%lookup_delete_Some]. by apply Hf; exists e.
Qed.

(** ** Packets *)

Context (decrypt : bytes -> bytes -> bytes -> bytes -> option bytes).

(** What sending relies on, besides the invariant: the callbacks that are told of
    packets and frames leave what the application has got alone, the AEAD is one,
    the nonce fits the buffer of the encoder, and the integers are in the range of
    their types. *)
Record can_send c : Prop := {
  cs_send_pkt : quiet_opt av (cb_send_pkt cb);
  cs_send_frame : quiet_opt av (cb_send_frame cb);
  cs_aead : aead (conn_aead_overhead c) (cb_encrypt cb) decrypt;
  cs_overhead : 0 <= conn_aead_overhead c;
  cs_iv : forall km, conn_tx_ckm c = Some km \/ conn_early_ckm c = Some km -> zlen (km_iv km) <= 32;
  cs_conn_id : is_uint 64 (conn_conn_id c) /\ is_uint 64 (conn_client_conn_id c) /\ is_uint 32 (conn_version c);
  cs_num : is_uint 64 (conn_last_tx_pkt_num c);
  cs_bytes : rtb_bytes_in_flight (conn_rtb c) < 2 ^ 62;
  cs_credit : 0 <= conn_tx_offset c <= conn_max_tx_offset c /\ conn_max_tx_offset c < 2 ^ 62
}.

(** A packet under construction: the header [hd] and the payload. *)
Record building (ctx : ngtcp2_crypto_ctx) (cap : Z) (hd : ngtcp2_pkt_hd) (payload : bytes) (ppe : ngtcp2_ppe) : Prop := {
  bd_wf : wf_ppe ppe;
  bd_bytes : b_bytes (ppe_buf ppe) = hd_bytes hd ++ payload;
  bd_cap : b_cap (ppe_buf ppe) = cap;
  bd_ctx : ppe_ctx ppe = ctx;
  bd_hdlen : ppe_hdlen ppe = zlen (hd_bytes hd);
  bd_num : ppe_pkt_num ppe = hd_pkt_num hd
}.

Lemma wp_start_pkt destlen ctx hd c (Q : ngtcp2_ppe -> ngtcp2_conn A -> Prop) E :
  0 <= destlen < 2 ^ 62 -> 0 <= ctx_aead_overhead ctx -> wf_hd_out hd ->
  (forall ppe, building ctx destlen hd [] ppe -> Q ppe c) ->
  (destlen < zlen (hd_bytes hd) + ctx_aead_overhead ctx -> E NGTCP2_ERR_NOBUF c) ->
  wp (start_pkt destlen ctx hd) Q E c.
Proof.
  intros Hd Ho Hhd HQ HE. apply wp_lift. destruct (Z.le_gt_cases (ctx_aead_overhead ctx) destlen) as [Hle|Hgt].
  - pose proof (ppe_init_wf destlen ctx ltac:(lia) ltac:(lia)) as Hw.
    pose proof (ppe_encode_hd_spec _ hd Hw Hhd) as H.
    destruct (ngtcp2_ppe_encode_hd _ hd) as [ppe|e|]; simpl; [| |done].
    2:{ destruct H as [-> H]. apply HE. unfold ngtcp2_ppe_left, ngtcp2_buf_left, ngtcp2_ppe_init in H. simpl in H.
        change (zlen (A := Z) []) with 0 in H. rewrite Z.sub_0_r, (u64_small destlen) in H by clia.
        rewrite (proj2 (Z.ltb_ge _ _)) in H by lia. rewrite u64_small in H by clia. lia. }
    destruct H as (? & Hb & ? & ? & ? & ?). apply HQ. split; try done. by rewrite Hb, app_nil_r.
  - unfold ngtcp2_ppe_encode_hd, ngtcp2_ppe_init, ngtcp2_buf_left, ngtcp2_buf_init. simpl.
    change (zlen (A := Z) []) with 0. rewrite Z.sub_0_r, (u64_small destlen) by clia.
    rewrite (proj2 (Z.ltb_lt _ _)) by lia. apply HE. pose proof (zlen_nonneg (hd_bytes hd)). lia.
Qed.

Lemma wp_encode_and_report reliable x c ctx cap hd payload ppe h fr
    (Q : ngtcp2_ppe * ngtcp2_frame -> ngtcp2_conn A -> Prop) E :
  quiet_opt av (cb_send_frame cb) -> conn_ok reliable x c -> building ctx cap hd payload ppe -> encodable fr ->
  (forall ppe' c', building ctx cap hd (payload ++ layout fr) ppe' -> api_post reliable x c c' ->
    Q (ppe', encoded_frame fr) c') ->
  (forall e c', api_post reliable x c c' -> E e c') ->
  wp (encode_and_report cb ppe h fr) Q E c.
Proof.
  intros Hcb Hok [] Hfr HQ HE. unfold encode_and_report. wp_step. wp_step.
  pose proof (ppe_encode_frame_spec ppe fr bd_wf0 Hfr) as H.
  destruct (ngtcp2_ppe_encode_frame ppe fr) as [[ppe' fr']|e|]; simpl; [|by apply HE, api_post_refl|done].
  destruct H as (? & -> & Hb & ? & ? & ? & ?). wp_step.
  eapply wp_mono; [apply (conn_call_quiet av _ (h, encoded_frame fr) Hcb reliable x c Hok) | | auto].
  intros [] c' Hc'. wp_go. apply HQ; [|done]. split; try congruence. by rewrite Hb, bd_bytes0, app_assoc.
Qed.

(** The packet: the header, and what decrypts to the payload. *)
Definition protects (km : ngtcp2_crypto_km) (hd : ngtcp2_pkt_hd) (payload pkt : bytes) : Prop :=
  exists nonce ct, ngtcp2_crypto_create_nonce (km_iv km) (hd_pkt_num hd) = Ok nonce /\
    pkt = hd_bytes hd ++ ct /\ decrypt ct (km_key km) nonce (hd_bytes hd) = Some payload.

Lemma wp_final_pkt c ctx cap hd payload ppe (Q : bytes -> ngtcp2_conn A -> Prop) E :
  building ctx cap hd payload ppe -> aead (ctx_aead_overhead ctx) (ctx_encrypt ctx) decrypt ->
  8 <= zlen (km_iv (ctx_ckm ctx)) <= 32 -> is_uint 64 (hd_pkt_num hd) ->
  (forall pkt, zlen pkt <= cap -> protects (ctx_ckm ctx) hd payload pkt -> Q pkt c) ->
  E NGTCP2_ERR_CALLBACK_FAILURE c ->
  wp (final_pkt ppe) Q E c.
Proof.
  intros [] Ha Hiv Hn HQ HE. unfold final_pkt, fmap, M_fmap. wp_step. wp_step.
  rewrite <- bd_ctx0 in Ha, Hiv. rewrite <- bd_num0 in Hn.
  destruct (ppe_final_spec decrypt ppe bd_wf0 Ha Hiv Hn) as (nonce & Hnonce & H).
  rewrite bd_hdlen0, bd_bytes0, bd_ctx0, bd_num0, bd_cap0 in *.
  assert (Z.to_nat (zlen (hd_bytes hd)) = length (hd_bytes hd)) as Hl by (unfold zlen; lia).
  rewrite Hl, take_app_length, drop_app_length in H.
  destruct (ngtcp2_ppe_final ppe) as [[pkt n]|e|]; simpl; [|by subst e|done].
  destruct H as (-> & Hle & ct & -> & Hd). wp_go. apply HQ; [done|]. by exists nonce, ct.
Qed.

(** ** Stream data *)

(** [n] bytes have been sent on the stream at [p]; none, on the others. *)
Definition tx_moved c (p : positive) (n : Z) c' : Prop :=
  forall q s, conn_strm_heap c !! q = Some s ->
    exists s', conn_strm_heap c' !! q = Some s' /\ strm_stream_id s' = strm_stream_id s /\
      strm_tx_offset s' = strm_tx_offset s + (if decide (q = p) then n else 0).

Lemma api_post_tx reliable x c c' p : api_post reliable x c c' ->
  conn_tx_offset c' = conn_tx_offset c /\ tx_moved c p 0 c'.
Proof.
  intros [_ [Hf _]]. split; [apply Hf|]. intros q s Hq. destruct (af_heap _ _ Hf q s Hq) as (s' & ? & []).
  exists s'. split_and!; [done | done|]. destruct (decide _); lia.
Qed.

Lemma tx_moved_trans c1 c2 c3 p n : tx_moved c1 p 0 c2 -> tx_moved c2 p n c3 -> tx_moved c1 p n c3.
Proof.
  intros H12 H23 q s Hq. destruct (H12 q s Hq) as (s2 & Hq2 & Hi2 & Ht2), (H23 q s2 Hq2) as (s3 & Hq3 & Hi3 & Ht3).
  exists s3. split_and!; [done | congruence|]. rewrite Ht3, Ht2. destruct (decide _); lia.
Qed.

(** Nothing has been sent. *)
Definition not_sent reliable c c' : Prop :=
  conn_ok reliable None c' /\ conn_tx_offset c' = conn_tx_offset c /\ forall p, tx_moved c p 0 c'.

Lemma not_sent_post reliable c c' : api_post reliable None c c' -> not_sent reliable c c'.
Proof.
  intros H. split; [apply H|]. split; [apply (api_post_tx _ _ _ _ 1 H)|]. intros p. apply (api_post_tx _ _ _ _ p H).
Qed.

Lemma has_bit_self b m : m <> 0 -> has_bit (b .| m) m = true.
Proof.
  intros Hm. unfold has_bit. assert ((b .| m) .& m = m) as -> by
    (apply Z.bits_inj'; intros i _; rewrite Z.land_spec, Z.lor_spec; by destruct (Z.testbit b i), (Z.testbit m i)).
  by apply negb_true_iff, Z.eqb_neq.
Qed.

(** The bookkeeping once the packet has been stored. *)
Lemma wp_count_sent reliable c p strm stream_id (fin : bool) pkt n (Q : bytes * Z -> ngtcp2_conn A -> Prop) E :
  conn_ok reliable None c -> conn_strm_heap c !! p = Some strm ->
  0 <= n -> 0 <= strm_tx_offset strm -> strm_tx_offset strm + n < 2 ^ 62 ->
  0 <= conn_tx_offset c -> conn_tx_offset c + n < 2 ^ 62 ->
  (forall c', conn_ok reliable None c' -> tx_moved c p n c' ->
    conn_tx_offset c' = conn_tx_offset c + (if stream_id =? 0 then 0 else n) ->
    (fin = true -> exists s, conn_strm_heap c' !! p = Some s /\ has_bit (strm_flags s) NGTCP2_STRM_FLAG_SHUT_WR = true) ->
    conn_rtb c' = conn_rtb c -> conn_rtb_heap c' = conn_rtb_heap c -> conn_early_rtb c' = conn_early_rtb c ->
    Q (pkt, n) c') ->
  wp (update_strm p (fun strm => set_tx_offset strm (u64 (strm_tx_offset strm + n)));;
      (if negb (stream_id =? 0) then
         modify (fun c => set_conn_tx_offset (u64 (conn_tx_offset c + n)) c)
       else mret tt);;
      next_pkt_num;;
      (if fin then update_strm p (fun strm => ngtcp2_strm_shutdown strm NGTCP2_STRM_FLAG_SHUT_WR) else mret tt);;
      mret (pkt, n)) Q E c.
Proof.
  intros Hok Hp Hn Ht Htn Hc Hcn HQ. wp_step. eapply wp_update_strm; [done|].
  rewrite (u64_small (strm_tx_offset strm + n)) by clia. set (strm1 := set_tx_offset _ _).
  set (c1 := set_conn_strm_heap _ c).
  assert (Hok1 : conn_ok reliable None c1).
  { apply (store_strm_gen av reliable None c p strm strm1); try done; [|by split; [|left]].
    destruct (co_streams _ _ _ _ Hok) as [M Hs]. by apply (so_acked strm), (st_heap _ _ _ _ Hs p). }
  assert (Hq : conn_strm_heap c1 !! p = Some strm1) by (simpl; by rewrite lookup_insert_eq).
  assert (Hmv : tx_moved c p n c1).
  { intros q s Hs. simpl. destruct (decide (q = p)) as [->|Hne].
    - rewrite lookup_insert_eq. exists strm1. by replace s with strm by congruence.
    - rewrite lookup_insert_ne by done. exists s. rewrite Z.add_0_r. done. }
  wp_step. eapply wp_mono with (Q := fun _ c2 =>
    c2 = set_conn_tx_offset (conn_tx_offset c + (if stream_id =? 0 then 0 else n)) c1); [| |done].
  { destruct (stream_id =? 0); cbn [negb]; wp_go; [by rewrite Z.add_0_r|].
    change (conn_tx_offset c1) with (conn_tx_offset c). by rewrite u64_small by clia. }
  intros [] c2 ->. wp_step. unfold next_pkt_num. wp_step. set (c2 := set_conn_last_tx_pkt_num _ _).
  assert (Hok2 : conn_ok reliable None c2) by keep_ok Hok1. wp_step.
  destruct fin; [|wp_go; by apply HQ].
  eapply wp_update_strm; [exact Hq|]. wp_go. set (strm2 := ngtcp2_strm_shutdown _ _).
  assert (Hsd : strm_frame strm1 strm2) by (split; try done; by apply has_bit_lor).
  destruct (store_strm_ok av reliable None c2 p strm1 strm2 Hok2 Hq Hsd) as [Hok3 _].
  { destruct (co_streams _ _ _ _ Hok2) as [M Hs]. by apply (so_acked strm1), (st_heap _ _ _ _ Hs p). }
  apply HQ; try done.
  - intros q s Hs. destruct (Hmv q s Hs) as (s' & Hs' & ? & ?). simpl.
    destruct (decide (q = p)) as [->|Hne].
    + rewrite lookup_insert_eq. exists strm2. by replace s' with strm1 in * by congruence.
    + rewrite lookup_insert_ne by done. by exists s'.
  - intros _. exists strm2. simpl. split; [by rewrite lookup_insert_eq|]. by apply has_bit_self.
Qed.

(** A change of the entry at [p], which is in no list. *)
Lemma set_entry_ok reliable x c p ent ent' :
  conn_ok reliable x c -> conn_rtb_heap c !! p = Some ent -> p ∉ rtb_head (conn_rtb c) ->
  conn_ok reliable x (set_conn_rtb_heap (<[p := ent']> (conn_rtb_heap c)) c).
Proof.
  intros Hok Hp Hn. pose proof (co_rtb_fresh _ _ _ _ Hok) as Hf.
  assert (set_conn_rtb_heap (<[p := ent']> (conn_rtb_heap c)) c = set_conn_rtb (conn_rtb c)
    (set_conn_rtb_heap (<[p := ent']> (conn_rtb_heap c)) (set_conn_next (conn_next c) (set_conn_mem (conn_mem c) c))))
    as -> by reflexivity.
  apply rtb_change_ok; [done | | | done | apply Hok].
  - eapply wf_rtb_store_ext; [|apply Hok]. intros h Hh. rewrite lookup_insert_ne; [done | by intros <-].
  - intros q [e [[<- _]|[_ He]]%lookup_insert_Some]; apply Hf; [by exists ent | by exists e].
Qed.

Lemma early_rtb_ok reliable x c l : conn_ok reliable x c -> conn_ok reliable x (set_conn_early_rtb l c).
Proof. intros Hok. keep_ok Hok. Qed.

(** The new entry, with the frames [frc], is in the buffer, or waits in [early_rtb]. *)
Definition stored c (frc : list ngtcp2_frame) c' : Prop :=
  exists p ent, conn_rtb_heap c' !! p = Some ent /\ re_frc ent = frc /\
    (rtb_head (conn_rtb c') = p :: rtb_head (conn_rtb c) \/ p ∈ conn_early_rtb c').

Lemma wp_store_stream_pkt reliable c m ent type (Q : unit -> ngtcp2_conn A -> Prop) E :
  conn_ok reliable None c -> (reliable = true -> mem_reliable m) -> entry_ok ent ->
  rtb_bytes_in_flight (conn_rtb c) + re_pktlen ent < 2 ^ 64 ->
  (forall c', conn_ok reliable None c' -> conn_strm_heap c' = conn_strm_heap c ->
    conn_tx_offset c' = conn_tx_offset c -> stored c (re_frc ent) c' -> Q tt c') ->
  (forall e c', conn_ok reliable None c' -> conn_strm_heap c' = conn_strm_heap c ->
    conn_tx_offset c' = conn_tx_offset c -> E e c') ->
  wp (store_stream_pkt (conn_next c) type) Q E (with_entry c m ent).
Proof.
  intros Hok Hm He Hb HQ HE. destruct (with_entry_ok reliable None c m ent Hok Hm) as [Hok1 Hn].
  assert (Hp : conn_rtb_heap (with_entry c m ent) !! conn_next c = Some ent) by (simpl; by rewrite lookup_insert_eq).
  unfold store_stream_pkt. destruct (type =? _).
  - wp_step. unfold load_ent at 1, wp at 1. rewrite Hp. cbv zeta. wp_step. unfold store_ent. wp_step.
    unfold load_ent at 1, wp at 1. rewrite Hp. wp_go. set (ent' := mk_rtb_entry _ _ _ _ _ _ _).
    pose proof (set_entry_ok reliable None _ _ ent ent' Hok1 Hp Hn) as Hok2. apply HQ; [by apply early_rtb_ok | done | done|].
    exists (conn_next c), ent'. simpl. rewrite lookup_insert_eq. split_and!; [done | done|]. right.
    apply elem_of_app. right. by left.
  - apply (wp_add_rtb_entry reliable None _ _ ent); [done | done | done | done | done | |].
    + intros m' rtb Hh c' Hok'. apply HQ; [done | done | done|]. exists (conn_next c), ent. split_and!; [done | done|].
      by left.
    + intros m' c' Hok'. by apply HE.
Qed.

(** The header of the packet, and its key. *)
Lemma select_stream_pkt_ok c flags type conn_id km :
  can_send c -> conn_last_tx_pkt_num c <> UINT64_MAX ->
  select_stream_pkt c = Ok (flags, type, conn_id, km) ->
  wf_hd_out (mk_pkt_hd flags type conn_id (u64 (conn_last_tx_pkt_num c + 1)) (conn_version c)) /\
  (conn_tx_ckm c = Some km \/ conn_early_ckm c = Some km).
Proof.
  intros [_ _ _ _ _ (Hid1 & Hid2 & Hv) Hn _ _] Hmax. unfold select_stream_pkt.
  assert (Hn1 : is_uint 64 (u64 (conn_last_tx_pkt_num c + 1))) by (unfold u64; apply Z.mod_pos_bound; lia).
  destruct (conn_tx_ckm c) as [km1|].
  - intros [= <- <- <- <-]. split; [|by left]. right. split_and!; try done; [by left|].
    unfold conn_select_pkt_type. simpl. repeat (destruct (_ <=? _) || destruct (_ <? _)); auto.
  - destruct (conn_early_ckm c) as [km1|]; [|done]. destruct (conn_server c); [done|].
    destruct (has_bit _ _); [done|]. intros [= <- <- <- <-]. split; [|by right]. left. split_and!; try done. auto.
Qed.

(** The STREAM frame that carries the first [n] bytes of [data]. *)
Definition sent_frame strm (fin : bool) (data : bytes) (n : Z) : ngtcp2_frame :=
  fr_stream (mk_stream 0 (c_bool (fin && (n =? zlen data))) (strm_stream_id strm) (strm_tx_offset strm)
    (take (Z.to_nat n) data)).

Record stream_sent reliable (destlen : Z) c (p : positive) strm (fin : bool) (data : bytes) c' (pkt : bytes)
    (n : Z) : Prop := {
  ss_ok : conn_ok reliable None c';
  ss_len : 0 <= n <= zlen data /\ (0 < zlen data -> 0 < n);
  ss_limit : strm_tx_offset strm + n <= strm_max_tx_offset strm /\
    conn_tx_offset c + n <= conn_max_tx_offset c;
  ss_moved : tx_moved c p n c' /\
    conn_tx_offset c' = conn_tx_offset c + (if strm_stream_id strm =? 0 then 0 else n);
  ss_fin : fin = true -> n = zlen data ->
    exists s, conn_strm_heap c' !! p = Some s /\ has_bit (strm_flags s) NGTCP2_STRM_FLAG_SHUT_WR = true;
  ss_pkt : zlen pkt <= destlen /\
    exists km hd, select_stream_pkt c = Ok (hd_flags hd, hd_type hd, hd_conn_id hd, km) /\
      hd_pkt_num hd = u64 (conn_last_tx_pkt_num c + 1) /\ protects km hd (layout (sent_frame strm fin data n)) pkt;
  ss_stored : stored c [encoded_frame (sent_frame strm fin data n)] c'
}.

(** Everything after the packet has been sized: [n] bytes are sent, or none. *)
Lemma wp_send_frame reliable destlen c p strm (fin : bool) data n ppe ctx hd ts type (E : Z -> ngtcp2_conn A -> Prop) :
  conn_ok reliable None c -> can_send c -> conn_strm_heap c !! p = Some strm ->
  building ctx destlen hd [] ppe -> destlen < 2 ^ 62 -> all_bytes data -> zlen data < 2 ^ 62 ->
  ctx_aead_overhead ctx = conn_aead_overhead c -> ctx_encrypt ctx = cb_encrypt cb ->
  (conn_tx_ckm c = Some (ctx_ckm ctx) \/ conn_early_ckm c = Some (ctx_ckm ctx)) ->
  select_stream_pkt c = Ok (hd_flags hd, hd_type hd, hd_conn_id hd, ctx_ckm ctx) ->
  hd_pkt_num hd = u64 (conn_last_tx_pkt_num c + 1) ->
  0 <= n <= zlen data -> 0 <= strm_tx_offset strm -> strm_max_tx_offset strm < 2 ^ 62 ->
  (0 < zlen data -> 0 < n) ->
  strm_tx_offset strm + n <= strm_max_tx_offset strm -> conn_tx_offset c + n <= conn_max_tx_offset c ->
  (forall e c', not_sent reliable c c' -> E e c') ->
  wp (conn_call_send_pkt cb hd;;
      ngtcp2_frame_chain_new;;
      strm' ← load_strm p;
      '(ppe, fr) ← encode_and_report cb ppe hd (fr_stream (mk_stream 0 (c_bool (fin && (n =? zlen data)))
        (strm_stream_id strm) (strm_tx_offset strm') (take (Z.to_nat n) data)));
      pkt ← final_pkt ppe;
      ent ← new_rtb_entry hd [fr] ts (pkt_deadline ts) (zlen pkt) NGTCP2_RTB_FLAG_NONE;
      store_stream_pkt ent type;;
      update_strm p (fun strm => set_tx_offset strm (u64 (strm_tx_offset strm + n)));;
      (if negb (strm_stream_id strm =? 0) then
         modify (fun c => set_conn_tx_offset (u64 (conn_tx_offset c + n)) c)
       else mret tt);;
      next_pkt_num;;
      (if fin && (n =? zlen data) then update_strm p (fun strm => ngtcp2_strm_shutdown strm NGTCP2_STRM_FLAG_SHUT_WR)
       else mret tt);;
      mret (pkt, n))
    (fun r c' => stream_sent reliable destlen c p strm fin data c' r.1 r.2) E c.
Proof.
  intros Hok Hcs Hp Hbd Hd Hdata Hdl Hov Henc Hkm Hsel Hnum Hn Ht Hmax Hn0 Hlim Hclim HE.
  destruct Hcs. wp_step.
  eapply wp_mono; [apply (conn_call_quiet av _ hd cs_send_pkt0 reliable None c Hok) | | auto using not_sent_post].
  intros [] c1 Hc1. wp_step. apply (malloc_ok av reliable None); [apply Hc1 | |].
  2:{ intros m _ Hm. apply HE, not_sent_post. eapply api_post_trans; [apply Hc1 | done]. }
  intros m Hm. assert (Hc2 : api_post reliable None c (set_conn_mem m c1)) by (eapply api_post_trans; [apply Hc1 | done]).
  revert Hc2. generalize (set_conn_mem m c1). clear c1 m Hc1 Hm. intros c2 Hc2.
  destruct (af_heap _ _ (proj1 (proj2 Hc2)) p strm Hp) as (strm2 & Hp2 & Hf2).
  wp_step. eapply wp_load_strm; [done|]. rewrite (sf_tx _ _ Hf2).
  fold (sent_frame strm fin data n). set (fr := sent_frame strm fin data n).
  assert (Hsok : strm_ok strm).
  { destruct (co_streams _ _ _ _ Hok) as [M Hs]. by apply (st_heap _ _ _ _ Hs p). }
  assert (Htl : zlen (take (Z.to_nat n) data) = n) by (rewrite zlen_take; lia).
  assert (Hwf : wf_frame fr).
  { unfold fr, sent_frame, wf_frame. cbn [stream_stream_id stream_offset stream_data]. rewrite Htl.
    split_and!; [apply Hsok | unfold is_uint; lia | by apply Forall_take | unfold is_uint; lia]. }
  wp_step. apply (wp_encode_and_report reliable None c2 ctx destlen hd []); [done | apply Hc2 | done | done | |].
  2:{ intros e c3 Hc3. apply HE, not_sent_post. eapply api_post_trans; [apply Hc2 | done]. }
  intros ppe' c3 Hbd' Hc3'. assert (Hc3 : api_post reliable None c c3) by (eapply api_post_trans; [apply Hc2 | done]).
  clear c2 Hc2 Hc3' strm2 Hp2 Hf2. rewrite app_nil_l in Hbd'.
  assert (Hiv : 8 <= zlen (km_iv (ctx_ckm ctx)) <= 32).
  { split; [|by apply cs_iv0]. pose proof (co_keys _ _ _ _ Hok) as Hk. unfold keys_ok, conn_keys in Hk.
    rewrite !list.Forall_cons in Hk. destruct Hk as (_ & _ & Hk1 & Hk2 & _).
    destruct Hkm as [Hkm|Hkm]; [apply Hk2 in Hkm | apply Hk1 in Hkm]; apply Hkm. }
  wp_step. apply (wp_final_pkt c3 ctx destlen hd (layout fr) ppe'); [done | by rewrite Hov, Henc | done | | |].
  { rewrite Hnum. unfold u64. apply Z.mod_pos_bound. lia. }
  2:{ by apply HE, not_sent_post. }
  intros pkt Hpl Hprot. wp_step. apply (wp_new_rtb_entry reliable None c3); [apply Hc3 | |].
  2:{ intros m Hm. apply HE, not_sent_post. eapply api_post_trans; [apply Hc3 | done]. }
  intros m Hm. pose proof (af_rtb _ _ (proj1 (proj2 Hc3))) as [Hr1 Hr2]. zfacts. wp_step.
  apply (wp_store_stream_pkt reliable); [apply Hc3 | done | | rewrite Hr1; simpl; lia | |].
  { split; [done|]. constructor; [|constructor]. unfold fr, sent_frame, ackable. cbn. rewrite Htl. unfold UINT64_MAX. lia. }
  2:{ intros e c4 Hok4 Hh4 Ht4. apply HE. destruct (not_sent_post reliable c c3 Hc3) as (_ & Htx & Hmv).
      split; [done|]. split; [congruence|]. unfold tx_moved. rewrite Hh4. exact Hmv. }
  intros c4 Hok4 Hh4 Ht4 Hst4. destruct (af_heap _ _ (proj1 (proj2 Hc3)) p strm Hp) as (strm3 & Hp3 & Hf3).
  destruct (api_post_tx _ _ _ _ p Hc3) as [Htx Hmv]. pose proof (sf_tx _ _ Hf3) as Hsf.
  apply (wp_count_sent reliable c4 p strm3); [done | by rewrite Hh4 | lia | lia | lia | lia | lia|].
  intros c5 Hok5 Hmv5 Htx5 Hfin5 Hrtb5 Hrh5 Her5. split; simpl; try done.
  - split; [|congruence]. eapply tx_moved_trans; [exact Hmv|]. unfold tx_moved in *. by rewrite Hh4 in Hmv5.
  - intros -> ->. apply Hfin5. by rewrite Z.eqb_refl.
  - split; [done|]. by exists (ctx_ckm ctx), hd.
  - destruct Hst4 as (q & ent & ? & ? & ?). exists q, ent. rewrite Hrh5, Hrtb5, Her5. split_and!; [done | done|].
    by rewrite <- Hr1.
Qed.

Lemma write_stream_ok reliable destlen stream_id fin data ts c :
  conn_ok reliable None c -> can_send c -> 0 <= destlen < 2 ^ 62 -> all_bytes data -> zlen data < 2 ^ 62 ->
  (forall p strm, conn_strm_heap c !! p = Some strm -> strm_stream_id strm = stream_id ->
    0 <= strm_tx_offset strm <= strm_max_tx_offset strm /\ strm_max_tx_offset strm < 2 ^ 62) ->
  wp (ngtcp2_conn_write_stream cb destlen stream_id fin data ts)
    (fun r c' => exists p strm, conn_strm_heap c !! p = Some strm /\ strm_stream_id strm = stream_id /\
      stream_sent reliable destlen c p strm fin data c' r.1 r.2)
    (fun _ c' => not_sent reliable c c') c.
Proof.
  intros Hok Hcs Hd Hdata Hdl Hstrm. pose proof Hcs as []. unfold ngtcp2_conn_write_stream.
  assert (Hsame : not_sent reliable c c) by by apply not_sent_post, api_post_refl.
  wp_step. unfold check_pkt_num. wp_step. wp_step. wp_step; [done|]. apply Z.eqb_neq in H.
  wp_step. unfold conn_get_stream. wp_step. apply (wp_find_live av reliable None); [done | wp_go; done |].
  intros p strm Hp Hid _. specialize (Hstrm p strm Hp Hid) as [Ht Hmax]. subst stream_id. wp_step. wp_step.
  eapply wp_load_strm; [done|]. wp_step. wp_step; [done|]. wp_step. wp_step. wp_step. wp_step.
  destruct (select_stream_pkt c) as [[[[flags type] conn_id] km]|e|] eqn:Hsel; [|done|].
  2:{ unfold select_stream_pkt in Hsel. by repeat case_match. }
  destruct (select_stream_pkt_ok c flags type conn_id km Hcs H Hsel) as [Hhd Hkm]. cbn [wpe].
  wp_step. apply wp_start_pkt; [done | done | done | | done]. intros ppe Hbd.
  pose proof (ppe_space ppe (bd_wf _ _ _ _ _ Hbd)) as (Hleft & Hlt & Hu).
  assert (Hl : ngtcp2_ppe_left ppe = b_cap (ppe_buf ppe) - zlen (b_bytes (ppe_buf ppe)) - ctx_aead_overhead (ppe_ctx ppe))
    by (unfold ngtcp2_ppe_left; by rewrite Hlt, Hu).
  cbv zeta in Hleft. rewrite <- Hl in Hleft. cbv zeta. wp_step. wp_step; [done|].
  match goal with Hx : (_ <=? _) = false |- _ => apply Z.leb_gt in Hx end.
  rewrite !(u64_small (_ - _)) by clia. set (n := Z.min (Z.min (Z.min _ _) _) _).
  unfold NGTCP2_STREAM_OVERHEAD in *. zfacts. assert (Hn : 0 <= n <= zlen data) by (unfold n; lia).
  wp_step. wp_step; [done|].
  eapply wp_mono; [apply (wp_send_frame reliable destlen c p strm fin data n ppe
    (mk_crypto_ctx km (conn_aead_overhead c) (cb_encrypt cb)) _ ts type (fun _ c' => not_sent reliable c c')); try done | |].
  - lia.
  - lia.
  - intros Hpos. destruct (Z.ltb_spec 0 (zlen data)); [|lia]. destruct (Z.eqb_spec n 0); [done | lia].
  - unfold n. lia.
  - unfold n. lia.
  - intros r c' Hs. by exists p, strm.
  - done.
Qed.
End Write.
