(* ===== verification/ConnSingle.v ===== *)
(** Packets with one frame, [conn_write_single_frame_pkt]: closing a connection,
    and the delayed acknowledgement of received packets. *)

From S2P Require Import Prelude Conv Frame PktDecode PktEncode PktHd Mem Monad Range Gaptr Idtr Ringbuf.
From S2P Require Import AckScan Acktr Pq Rtb Map Rob Crypto Ppe Strm Err Conn ConnApp.
From S2P Require Import ConnAck ConnSend ConnInv ConnWrite.

Section Single.
Context {A : Type} (av : app_view A) (cb : ngtcp2_conn_callbacks A).
Context (decrypt : bytes -> bytes -> bytes -> bytes -> option bytes).
Implicit Types (c : ngtcp2_conn A).
Abbreviation conn_ok := (conn_ok av).
Abbreviation api_post := (api_post av).
Abbreviation can_send := (can_send av cb decrypt).

(** ** Errors *)

(** The ACK frames that wait for an acknowledgement went out in packets up to the
    last one. *)
Definition acks_sent c : Prop := exists al, wf_acktr (conn_acktr c) al /\ rb_nmemb (acks (conn_acktr c)) = 128 /\
  Forall (fun e => aa_pkt_num e <= conn_last_tx_pkt_num c) al.

(** What an ACK frame needs to be recorded. *)
Definition recordable c (fr : ngtcp2_frame) : Prop :=
  match fr with fr_ack ack => valid_ack ack /\ acks_sent c | _ => True end.

(** Sending [fr] fails when a callback does or when the buffer is too small. *)
Definition send_error (destlen : Z) c (fr : ngtcp2_frame) (e : Z) : Prop :=
  e = NGTCP2_ERR_CALLBACK_FAILURE \/
  e = NGTCP2_ERR_NOBUF /\ exists hd, hd_pkt_num hd = u64 (conn_last_tx_pkt_num c + 1) /\
    destlen < zlen (hd_bytes hd) + zlen (layout fr) + conn_aead_overhead c.

(** [pkt] is the next packet; it decrypts to [fr]. *)
Definition frame_sent (destlen : Z) c (km : ngtcp2_crypto_km) (fr : ngtcp2_frame) (pkt : bytes) : Prop :=
  0 < zlen pkt <= destlen /\
  exists hd, hd_pkt_num hd = u64 (conn_last_tx_pkt_num c + 1) /\ protects decrypt km hd (layout fr) pkt.

Lemma wp_call_quiet {X} (f : option (ngtcp2_conn A -> X -> prog A (A * Z))) y reliable x c
    (Q : unit -> ngtcp2_conn A -> Prop) E :
  quiet_opt av f -> conn_ok reliable x c -> (forall c', api_post reliable x c c' -> Q tt c') ->
  (forall c', api_post reliable x c c' -> E NGTCP2_ERR_CALLBACK_FAILURE c') -> wp (conn_call f y) Q E c.
Proof.
  intros Hf Hok HQ HE. destruct f as [f|]; simpl; [|wp_go; by apply HQ, api_post_refl].
  wp_step. apply (invoke_quiet av _ _ reliable x c); [done | by apply api_post_refl|].
  intros rv c' _ H. wp_go; auto.
Qed.

(** A frame that does not fit is not written. *)
Lemma wp_encode_exact reliable x c ctx cap hd ppe h fr (Q : ngtcp2_ppe * ngtcp2_frame -> ngtcp2_conn A -> Prop) E :
  quiet_opt av (cb_send_frame cb) -> conn_ok reliable x c -> building ctx cap hd [] ppe -> encodable fr ->
  (forall ppe' c', building ctx cap hd (layout fr) ppe' -> api_post reliable x c c' -> Q (ppe', encoded_frame fr) c') ->
  (forall c', api_post reliable x c c' -> E NGTCP2_ERR_CALLBACK_FAILURE c') ->
  (cap < zlen (hd_bytes hd) + zlen (layout fr) + ctx_aead_overhead ctx -> E NGTCP2_ERR_NOBUF c) ->
  wp (encode_and_report cb ppe h fr) Q E c.
Proof.
  intros Hcb Hok [] Hfr HQ HE1 HE2. unfold encode_and_report. wp_step. wp_step.
  pose proof (ppe_encode_frame_spec ppe fr bd_wf Hfr) as H.
  destruct (ngtcp2_ppe_encode_frame ppe fr) as [[ppe' fr']|e|]; simpl; [| |done].
  - destruct H as (? & -> & Hb & ? & ? & ? & ?). wp_step.
    apply (wp_call_quiet _ (h, encoded_frame fr) reliable x c); [done | done | | done].
    intros c' Hc'. wp_go. apply HQ; [|done]. split; try congruence. by rewrite Hb, bd_bytes, app_nil_r.
  - destruct H as [-> Hl]. apply HE2. destruct (ppe_space ppe bd_wf) as (_ & Hlt & Hu).
    unfold ngtcp2_ppe_left in Hl. rewrite Hlt, Hu, bd_bytes, bd_cap, bd_ctx, app_nil_r in Hl. lia.
Qed.

(** The ACK frame, if it is one, is recorded as sent, and the packet number moves on. *)
Lemma wp_record_sent reliable x c c0 fr (pkt : bytes) (Q : bytes -> ngtcp2_conn A -> Prop) E :
  conn_ok reliable x c -> recordable c0 fr -> conn_acktr c = conn_acktr c0 ->
  0 <= conn_last_tx_pkt_num c0 < UINT64_MAX ->
  (forall t n, let c' := set_conn_last_tx_pkt_num n (set_conn_acktr t c) in conn_ok reliable x c' -> Q pkt c') ->
  wp ((match fr with
       | fr_ack ack => conn_add_ack (u64 (conn_last_tx_pkt_num c0 + 1)) ack false
       | _ => mret tt
       end);; next_pkt_num;; mret pkt) Q E c.
Proof.
  intros Hok Hrec Ht Hn HQ.
  assert (Hmove : forall t, conn_ok reliable x (set_conn_acktr t c) ->
    wp (next_pkt_num;; mret pkt) Q E (set_conn_acktr t c)).
  { intros t Hok'. unfold next_pkt_num. wp_go. apply HQ. keep_ok Hok'. }
  assert (Hsame : set_conn_acktr (conn_acktr c) c = c) by (by destruct c).
  wp_step. destruct fr as [|ack| | | | | | | | | | | | | | |]; try (wp_step; rewrite <- Hsame; apply Hmove; by rewrite Hsame).
  destruct Hrec as [Hv (al & Hwf & Hmemb & Hal)]. unfold conn_add_ack. wp_step. rewrite Ht. apply Hmove.
  rewrite u64_small by clia.
  set (n := conn_last_tx_pkt_num c0 + 1).
  assert (Hinv : acktr_inv (ngtcp2_acktr_add_ack (conn_acktr c0) n ack false, take 128 (mk_acktr_ack_entry ack n false :: al))).
  { apply (acktr_step_inv (conn_acktr c0, al)); [by split|]. apply step_add_ack; [done|].
    eapply Forall_impl; [exact Hal|]. intros e He. cbv beta in He |- *. unfold n. lia. }
  destruct Hok as [[M []] [] ? ? ? ? ? ? ?]; split; [exists M; split | split | ..]; try assumption.
  eexists. exact Hinv.
Qed.

(** ** The packet *)

Lemma hd_bytes_pos hd : 0 < zlen (hd_bytes hd).
Proof.
  unfold hd_bytes, short_layout. destruct (has_bit _ _); rewrite zlen_cons;
    match goal with |- 0 < _ + zlen ?l => pose proof (zlen_nonneg l); lia end.
Qed.

Lemma single_frame_ok reliable destlen c km fr :
  conn_ok reliable None c -> can_send c -> conn_tx_ckm c = Some km -> conn_last_tx_pkt_num c <> UINT64_MAX ->
  0 <= destlen < 2 ^ 62 -> encodable fr -> recordable c fr ->
  wp (conn_write_single_frame_pkt cb destlen fr)
    (fun pkt c' => conn_ok reliable None c' /\ conn_state c' = conn_state c /\ frame_sent destlen c km fr pkt)
    (fun e c' => conn_ok reliable None c' /\ conn_state c' = conn_state c /\ send_error destlen c fr e) c.
Proof.
  intros Hok Hcs Hkm Hmax Hd Hfr Hrec. pose proof Hcs as []. unfold conn_write_single_frame_pkt. wp_step. wp_step.
  assert (Hsel : select_stream_pkt c = Ok (NGTCP2_PKT_FLAG_NONE,
    conn_select_pkt_type c (u64 (conn_last_tx_pkt_num c + 1)), conn_conn_id c, km)) by (unfold select_stream_pkt; by rewrite Hkm).
  destruct (select_stream_pkt_ok av cb decrypt c _ _ _ _ Hcs Hmax Hsel) as [Hhd _].
  set (hd := mk_pkt_hd _ _ _ _ _) in *. set (ctx := mk_crypto_ctx km (conn_aead_overhead c) (cb_encrypt cb)).
  wp_step. unfold tx_ctx. rewrite Hkm. wp_step. fold ctx. wp_step.
  assert (Hnobuf : forall n, 0 <= n -> destlen < zlen (hd_bytes hd) + n + conn_aead_overhead c ->
    n <= zlen (layout fr) -> send_error destlen c fr NGTCP2_ERR_NOBUF).
  { intros n Hn Hlt Hle. right. split; [done|]. exists hd. split; [done | lia]. }
  apply (wp_start_pkt destlen ctx hd); [done | done | done | |].
  2:{ intros Hlt. split; [done|]. split; [done|]. apply (Hnobuf 0); [lia | simpl in Hlt; lia | apply zlen_nonneg]. }
  intros ppe Hbd. wp_step. apply (wp_call_quiet _ hd reliable None c); [done | done | |].
  2:{ intros c' Hc'. split; [apply Hc'|]. split; [apply Hc' | by left]. }
  intros c1 Hc1. wp_step. apply (wp_encode_exact reliable None c1 ctx destlen hd); [done | apply Hc1 | done | done | | |].
  2:{ intros c' Hc'. split; [apply Hc'|]. split; [|by left].
      etrans; [apply (af_state _ _ (proj1 (proj2 Hc'))) | apply (af_state _ _ (proj1 (proj2 Hc1)))]. }
  2:{ intros Hlt. split; [apply Hc1|]. split; [apply Hc1|]. apply (Hnobuf (zlen (layout fr))); [apply zlen_nonneg | done | done]. }
  intros ppe' c2 Hbd' Hc2. wp_step.
  assert (Hst : conn_state c2 = conn_state c).
  { etrans; [apply (af_state _ _ (proj1 (proj2 Hc2))) | apply (af_state _ _ (proj1 (proj2 Hc1)))]. }
  apply (wp_final_pkt decrypt c2 ctx destlen hd (layout fr) ppe'); [done | done | | | |].
  { split; [|apply cs_iv; by left]. pose proof (co_keys _ _ _ _ Hok) as Hk. unfold keys_ok, conn_keys in Hk.
    rewrite !list.Forall_cons in Hk. destruct Hk as (_ & _ & _ & Hk & _). by apply Hk in Hkm as []. }
  { simpl. unfold u64. apply Z.mod_pos_bound. lia. }
  2:{ split; [apply Hc2|]. split; [done | by left]. }
  intros pkt Hlen Hprot. assert (Henc : forall f : ngtcp2_frame, match encoded_frame f with
    | fr_ack ack => conn_add_ack (A := A) (u64 (conn_last_tx_pkt_num c + 1)) ack false | _ => mret tt end =
    match f with fr_ack ack => conn_add_ack (u64 (conn_last_tx_pkt_num c + 1)) ack false | _ => mret tt end)
    by (by intros []).
  rewrite Henc. apply (wp_record_sent reliable None c2 c fr pkt); [apply Hc2 | done | | |].
  - etrans; [apply (af_acktr _ _ (proj1 (proj2 Hc2))) | apply (af_acktr _ _ (proj1 (proj2 Hc1)))].
  - unfold is_uint, UINT64_MAX in *. lia.
  - intros t n c' Hok'. split; [done|]. split; [done|]. split; [|by exists hd].
    destruct Hprot as (nonce & ct & _ & -> & _). split; [|done]. rewrite zlen_app.
    pose proof (hd_bytes_pos hd). pose proof (zlen_nonneg ct). lia.
Qed.

(** ** Closing *)

(** What the closing functions do with the frame [fr]. *)
Definition closes reliable destlen c fr (m : M (ngtcp2_conn A) bytes) : Prop :=
  wp m
    (fun pkt c' => conn_ok reliable None c' /\ conn_state c = NGTCP2_CS_POST_HANDSHAKE /\
      conn_state c' = NGTCP2_CS_CLOSING /\ exists km, conn_tx_ckm c = Some km /\ frame_sent destlen c km fr pkt)
    (fun e c' => conn_ok reliable None c' /\ conn_state c' = conn_state c /\
      (conn_last_tx_pkt_num c = UINT64_MAX /\ e = NGTCP2_ERR_PKT_NUM_EXHAUSTED \/
       conn_state c <> NGTCP2_CS_POST_HANDSHAKE /\ e = NGTCP2_ERR_INVALID_STATE \/
       send_error destlen c fr e)) c.

Lemma closing_ok reliable c : conn_ok reliable None c -> conn_ok reliable None (set_conn_state NGTCP2_CS_CLOSING c).
Proof. intros Hok. keep_ok Hok. Qed.

(** The body the two functions share. *)
Lemma close_body_ok reliable destlen c fr (k : bytes -> M (ngtcp2_conn A) bytes) :
  conn_ok reliable None c -> can_send c ->
  (conn_state c = NGTCP2_CS_POST_HANDSHAKE -> is_Some (conn_tx_ckm c)) -> 0 <= destlen < 2 ^ 62 ->
  encodable fr -> recordable c fr ->
  (forall pkt c' (Q : bytes -> ngtcp2_conn A -> Prop) E, 0 < zlen pkt ->
    Q pkt (set_conn_state NGTCP2_CS_CLOSING c') -> wp (k pkt) Q E c') ->
  closes reliable destlen c fr (check_pkt_num;; c ← get;
    match conn_state c with
    | NGTCP2_CS_POST_HANDSHAKE => pkt ← conn_write_single_frame_pkt cb destlen fr; k pkt
    | _ => throw NGTCP2_ERR_INVALID_STATE
    end).
Proof.
  intros Hok Hcs Hkey Hd Hfr Hrec Hk. unfold closes, check_pkt_num. wp_step. wp_step. wp_step. wp_step.
  { apply Z.eqb_eq in H. tauto. }
  apply Z.eqb_neq in H. wp_step. wp_step.
  destruct (conn_state c) eqn:Hst; try (wp_step; split_and!; try done; right; left; by split).
  destruct (Hkey eq_refl) as [km Hkm]. wp_step.
  eapply wp_mono; [by apply (single_frame_ok reliable destlen c km fr)| |].
  - intros pkt c' (Hok' & _ & Hsent). apply Hk; [apply Hsent|].
    split; [by apply closing_ok|]. split; [done|]. split; [done|]. by exists km.
  - intros e c' (Hok' & Hs & He). rewrite Hst in Hs. tauto.
Qed.

Lemma connection_close_ok reliable destlen error_code c :
  conn_ok reliable None c -> can_send c ->
  (conn_state c = NGTCP2_CS_POST_HANDSHAKE -> is_Some (conn_tx_ckm c)) -> 0 <= destlen < 2 ^ 62 ->
  is_uint 16 error_code ->
  closes reliable destlen c (fr_connection_close (mk_close error_code []))
    (ngtcp2_conn_write_connection_close cb destlen error_code).
Proof.
  intros Hok Hcs Hkey Hd He. apply close_body_ok; try done.
  intros pkt c' Q E Hpos HQ. rewrite (proj2 (Z.ltb_lt _ _) Hpos). by wp_go.
Qed.

Lemma application_close_ok reliable destlen app_error_code c :
  conn_ok reliable None c -> can_send c ->
  (conn_state c = NGTCP2_CS_POST_HANDSHAKE -> is_Some (conn_tx_ckm c)) -> 0 <= destlen < 2 ^ 62 ->
  is_uint 16 app_error_code -> app_error_code <> NGTCP2_STOPPING ->
  closes reliable destlen c (fr_application_close (mk_close app_error_code []))
    (ngtcp2_conn_write_application_close cb destlen app_error_code).
Proof.
  intros Hok Hcs Hkey Hd He Hstop. unfold ngtcp2_conn_write_application_close.
  rewrite (proj2 (Z.eqb_neq _ _) Hstop). by apply close_body_ok.
Qed.

(** ** Acknowledging *)

(** A frame has a block only for packets of its own. *)
Lemma blk_ranges_hits m blks :
  Forall wf_blk blks ->
  exists l, NoDup l /\ length l = length blks /\ forall x, x ∈ l -> in_ranges (blk_ranges m blks) x = true.
Proof.
  intros H. revert m. induction H as [|b blks Hb Hblks IH]; intros m; [exists []; split_and!; [constructor | done | set_solver]|].
  destruct (IH (m - blk_gap b - 2 - blk_blklen b)) as (l & Hnd & Hlen & Hl). destruct Hb as [Hg Hbl].
  exists (m - blk_gap b - 2 :: l). split_and!; [|simpl; lia|].
  - constructor; [|done]. intros Hin%Hl. rewrite in_blk_ranges_above in Hin; [done | done | clia].
  - intros x [->|Hx]%elem_of_cons; simpl.
    + rewrite (proj2 (Z.leb_le _ _)), Z.leb_refl by clia. done.
    + rewrite (Hl x Hx). apply orb_true_r.
Qed.

Lemma ack_blks_count fr nums :
  wf_ack fr -> (forall x, acked_by fr x = true -> x ∈ nums) -> zlen (ack_blks fr) < zlen nums.
Proof.
  intros (Hl & Hf & Hb) Hall.
  destruct (blk_ranges_hits (ack_largest_ack fr - ack_first_ack_blklen fr) _ Hb) as (l & Hnd & Hlen & Hin).
  assert (Hlargest : ack_largest_ack fr ∉ l).
  { intros Hx%Hin. rewrite in_blk_ranges_above in Hx; [done | done | clia]. }
  assert (Hle : (length (ack_largest_ack fr :: l) <= length nums)%nat).
  { apply submseteq_length, NoDup_submseteq; [by constructor|].
    intros x [->|Hx]%elem_of_cons; apply Hall; unfold acked_by, ack_ranges; simpl.
    - rewrite (proj2 (Z.leb_le _ _)), Z.leb_refl by clia. done.
    - rewrite (Hin x Hx). apply orb_true_r. }
  unfold zlen. simpl in Hle. lia.
Qed.

(** The received packets can be acknowledged by one frame at the time [ts]. *)
Record ack_range (ts : Z) c : Prop := {
  ar_time : ts < 2 ^ 62;
  ar_ents : Forall (fun e => is_uint 62 (ae_pkt_num e) /\ 0 <= ae_tstamp e <= ts) (ent (conn_acktr c));
  ar_few : zlen (ent (conn_acktr c)) <= 256;
  ar_exponent : 0 <= s_ack_delay_exponent (conn_local_settings c)
}.

(** [fr] acknowledges exactly the received packets. *)
Definition acks_all c (fr : ngtcp2_ack) : Prop :=
  forall x, acked_by fr x = true <-> x ∈ ae_pkt_num <$> ent (conn_acktr c).

Lemma create_ack_ok ts c (Q : option ngtcp2_ack -> ngtcp2_conn A -> Prop) E :
  conn_ok true None c -> ack_range ts c -> active_ack (conn_acktr c) = true -> ent (conn_acktr c) <> [] ->
  (forall fr m, acks_all c fr -> wf_frame (fr_ack fr) -> valid_ack fr -> mem_reliable m ->
    Q (Some fr) (set_conn_mem m c)) ->
  wp (conn_create_ack_frame ts false) Q E c.
Proof.
  intros Hok [Ht Hents Hfew Hexp] Hact Hne HQ. destruct (co_acktr _ _ _ _ Hok) as (al & Hwf & _).
  eapply wp_mono; [apply (create_ack_frame_spec c al ts false Hwf) | |].
  - eapply Forall_impl; [exact Hents|]. by intros ? [].
  - intros [fr|] c'; [|intros [_ [H|H]]; [congruence|]].
    2:{ unfold reported_nums in H. apply fmap_nil_inv in H. destruct (ent (conn_acktr c)) as [|e l]; [done|].
        by rewrite filter_cons_True in H. }
    intros (_ & Hfr & (e & He & Hdelay) & c1 & (m & -> & Hm) & Hc').
    destruct Hfr as (Hv & Hblks & acked & rest & Hent & Hmem & Hrest).
    assert (Hall : forall x, acked_by fr x = true -> x ∈ ae_pkt_num <$> ent (conn_acktr c)).
    { intros x (e' & He' & _ & <-)%Hmem. apply list_elem_of_fmap_2. rewrite Hent. set_solver. }
    pose proof (ack_blks_count fr _ (proj1 Hv) Hall) as Hcount.
    unfold NGTCP2_MAX_ACK_BLKS in *. assert (Hz : zlen (ack_blks fr) <= 255) by (unfold zlen in *; rewrite length_fmap in *; lia).
    destruct Hrest as [[-> Hsame]|[Hbad _]]; [|lia].
    rewrite Hsame in Hc'. change (set_conn_acktr (conn_acktr c) (set_conn_mem m c)) with (set_conn_mem m c) in Hc'.
    subst c'. apply HQ; [| | done |].
    + intros x. split; [apply Hall|]. intros (e' & -> & He')%list_elem_of_fmap_1. apply Hmem. exists e'.
      rewrite Hent, app_nil_r in He'. done.
    + destruct Hv as [(H1 & H2 & H3) _]. rewrite Forall_forall in Hents. destruct (Hents e He) as [_ Htime].
      split_and!; try done. rewrite Hdelay, u64_small by clia. split; [apply Z.shiftr_nonneg; lia|].
      rewrite Z.shiftr_div_pow2 by done. apply Z.div_lt_upper_bound; [by apply Z.pow_pos_nonneg|].
      pose proof (Z.pow_pos_nonneg 2 (s_ack_delay_exponent (conn_local_settings c)) ltac:(lia) Hexp). nia.
    + apply Hm. by apply (co_mem _ _ _ _ Hok).
  - intros e c' (_ & Hn & _). destruct Hn. by apply (co_mem _ _ _ _ Hok).
Qed.

(** No packet is due to be sent again. *)
Definition rtb_idle (ts : Z) c : Prop :=
  match ngtcp2_rtb_top (conn_rtb c) with
  | None => True
  | Some p => exists ent, conn_rtb_heap c !! p = Some ent /\ ts < re_expiry ent
  end.

Lemma wp_retransmit_idle destlen ts c (Q : bytes -> ngtcp2_conn A -> Prop) E :
  rtb_idle ts c -> Q [] c -> wp (conn_retransmit cb destlen ts) Q E c.
Proof.
  intros Hi HQ. unfold conn_retransmit. wp_step. wp_step. cbn [retransmit_loop]. wp_step. wp_step.
  unfold rtb_idle in Hi. destruct (ngtcp2_rtb_top (conn_rtb c)) as [p|]; [|by wp_step].
  destruct Hi as (ent & Hp & Hlt). wp_step. unfold wp at 1, load_ent. rewrite Hp.
  rewrite (proj2 (Z.ltb_lt _ _) Hlt). by wp_step.
Qed.

(** After the handshake an acknowledgement that is due is sent. *)
Lemma write_ack_ok destlen ts c km :
  conn_ok true None c -> can_send c -> conn_state c = NGTCP2_CS_POST_HANDSHAKE -> conn_tx_ckm c = Some km ->
  conn_last_tx_pkt_num c <> UINT64_MAX -> acks_sent c -> 0 <= destlen < 2 ^ 62 ->
  ack_range ts c -> active_ack (conn_acktr c) = true -> ent (conn_acktr c) <> [] ->
  conn_next_ack_expired c ts = true -> rtb_idle ts c ->
  wp (ngtcp2_conn_write_ack_pkt cb destlen ts)
    (fun pkt c' => conn_ok true None c' /\ active_ack (conn_acktr c') = false /\
      exists fr, acks_all c fr /\ frame_sent destlen c km (fr_ack fr) pkt)
    (fun e c' => conn_ok true None c' /\ exists fr, acks_all c fr /\ send_error destlen c (fr_ack fr) e) c.
Proof.
  intros Hok Hcs Hst Hkm Hmax Hsent Hd Hr Hact Hne Hexp Hidle. unfold ngtcp2_conn_write_ack_pkt, check_pkt_num.
  wp_step. wp_step. wp_step. wp_step; [by apply Z.eqb_eq in H|]. wp_step. apply wp_retransmit_idle; [done|].
  cbn [negb bool_decide decide_rel]. rewrite bool_decide_true by done. cbn [negb]. wp_step. wp_step. rewrite Hst.
  unfold conn_write_protected_ack_pkt. wp_step. wp_step. rewrite Hexp. cbn [negb]. wp_step.
  apply (create_ack_ok ts c); [done..|]. intros fr m Hall Hwf Hv Hm. wp_step.
  destruct (mem_ok av true None c m Hok (fun _ => Hm)) as [Hok1 _].
  assert (Hcs1 : can_send (set_conn_mem m c)) by (destruct Hcs; by split).
  eapply wp_mono; [apply (single_frame_ok true destlen _ km (fr_ack fr) Hok1 Hcs1 Hkm Hmax Hd (wf_encodable _ Hwf)); by split| |].
  - intros pkt c' (Hok' & _ & Hpkt). unfold conn_commit_tx_ack, conn_invalidate_next_ack_expiry. wp_go.
    split; [|split; [done | by exists fr]].
    keep_ok Hok'.
  - intros e c' (Hok' & _ & He). split; [done | by exists fr].
Qed.

(** ** The timer *)

(** What [ngtcp2_conn_sched_ack] does for a packet that has to be acknowledged. *)
Record scheduled (n ts : Z) c c1 : Prop := {
  sc_ok : conn_ok true None c1;
  sc_send : can_send c -> can_send c1;
  sc_same : conn_state c1 = conn_state c /\ conn_tx_ckm c1 = conn_tx_ckm c /\ conn_rtb c1 = conn_rtb c /\
    conn_rtb_heap c1 = conn_rtb_heap c /\ conn_last_tx_pkt_num c1 = conn_last_tx_pkt_num c /\
    conn_aead_overhead c1 = conn_aead_overhead c /\ conn_local_settings c1 = conn_local_settings c;
  sc_sent : acks_sent c -> acks_sent c1;
  sc_ents : ent (conn_acktr c1) ≡ₚ mk_acktr_entry n ts false :: ent (conn_acktr c);
  sc_active : active_ack (conn_acktr c1) = true;
  sc_timer : conn_immediate_ack c1 = true \/ 0 < conn_next_ack_expiry c1 <= ts + NGTCP2_DELAYED_ACK_TIMEOUT
}.

Lemma sched_ack_scheduled n ts c :
  conn_ok true None c -> zlen (ent (conn_acktr c)) < NGTCP2_ACKTR_MAX_ENT ->
  0 <= ts < 2 ^ 62 -> 0 <= conn_next_ack_expiry c <= ts + NGTCP2_DELAYED_ACK_TIMEOUT ->
  wp (ngtcp2_conn_sched_ack n true ts false) (fun _ => scheduled n ts c)
    (fun e _ => e = NGTCP2_ERR_PROTO /\ n ∈ ae_pkt_num <$> ent (conn_acktr c)) c.
Proof.
  intros Hok Hfew Hts Hexp. unfold NGTCP2_DELAYED_ACK_TIMEOUT, NGTCP2_ACKTR_MAX_ENT in *.
  unfold ngtcp2_conn_sched_ack, with_mem, ngtcp2_acktr_entry_new. wp_step.
  pose proof (mem_alloc_reliable (conn_mem c) (co_mem _ _ _ _ Hok eq_refl)) as [Hal Hm]. unfold wp at 1.
  destruct (mem_alloc (conn_mem c)) as [[] m]; [|done]. cbn [fst snd lift] in *. wp_step. wp_step.
  destruct (mem_ok av true None c m Hok (fun _ => Hm)) as [Hok1 _]. set (e := mk_acktr_entry n ts false).
  destruct (co_acktr _ _ _ _ Hok) as (al & Hwf & Hmemb). change (conn_acktr (set_conn_mem m c)) with (conn_acktr c).
  pose proof (acktr_add_result _ al e true Hwf) as Hres.
  assert (Hinv : forall al, wf_acktr (conn_acktr c) al -> wf_acktr (ngtcp2_acktr_add (conn_acktr c) e true).1 al)
    by (intros al'; apply acktr_add_wf).
  assert (Hacks : acks (ngtcp2_acktr_add (conn_acktr c) e true).1 = acks (conn_acktr c)).
  { unfold ngtcp2_acktr_add. destruct (acktr_insert _ _); [|done]. by destruct (_ <? _). }
  destruct (ngtcp2_acktr_add (conn_acktr c) e true) as [acktr rv]. cbn [fst] in *. wp_step. wp_step. wp_step.
  destruct Hres as [(-> & -> & Hin)|(-> & _ & Hact & l & Hl & _ & Hent)]; [by wp_step|]. wp_step; [done|].
  assert (Hok2 : conn_ok true None (set_conn_acktr acktr (set_conn_mem m c))).
  { destruct Hok1 as [[M []] [] ? ? ? ? ? ? ?]; split; [exists M; split | split | ..]; try assumption.
    exists al. split; [by apply Hinv|]. rewrite <- Hmemb, <- Hacks. done. }
  assert (Hents : ent acktr ≡ₚ e :: ent (conn_acktr c)).
  { rewrite Hent, take_ge; [done|]. rewrite Hl. unfold zlen, NGTCP2_ACKTR_MAX_ENT in *. simpl length. lia. }
  assert (Hsent : acks_sent c -> forall c1, conn_acktr c1 = acktr -> conn_last_tx_pkt_num c1 = conn_last_tx_pkt_num c ->
    acks_sent c1).
  { intros (al' & H1 & H2 & H3) c1 E1 E2. exists al'. rewrite E1, E2, Hacks. by split_and!; [apply Hinv| |]. }
  rewrite Hact, andb_true_r. cbn [orb].
  change (conn_immediate_ack (set_conn_mem m c)) with (conn_immediate_ack c).
  change (conn_next_ack_expiry (set_conn_mem m c)) with (conn_next_ack_expiry c).
  destruct (conn_immediate_ack c) eqn:Himm; [|destruct (Z.eqb_spec (conn_next_ack_expiry c) 0) as [He|He]]; cbn [negb andb].
  - wp_step. split; try done; [intros []; by split | by intros; apply Hsent | by left].
  - unfold conn_set_next_ack_expiry. wp_step. rewrite u64_small by (unfold NGTCP2_DELAYED_ACK_TIMEOUT; clia).
    split; try done; [keep_ok Hok2 | intros []; by split | by intros; apply Hsent | right; simpl;
      unfold NGTCP2_DELAYED_ACK_TIMEOUT; lia].
  - wp_step. split; try done; [intros []; by split | by intros; apply Hsent | right; simpl;
      unfold NGTCP2_DELAYED_ACK_TIMEOUT; lia].
Qed.

Lemma expiry_before c1 t :
  0 < conn_next_ack_expiry c1 <= t -> conn_next_ack_expiry c1 <> 0 /\ ngtcp2_conn_earliest_expiry c1 <= t.
Proof.
  intros [Hpos Hle]. split; [lia|]. unfold ngtcp2_conn_earliest_expiry.
  destruct (ngtcp2_rtb_top _) as [p|]; [|done]. rewrite (proj2 (Z.ltb_lt _ _) Hpos). lia.
Qed.

(** The packet [n] is acknowledged at [ts'], if no callback fails and the frame fits. *)
Definition acked_at (n ts' : Z) c km c1 : Prop := forall destlen, 0 <= destlen < 2 ^ 62 ->
  wp (ngtcp2_conn_write_ack_pkt cb destlen ts')
    (fun pkt c2 => conn_ok true None c2 /\ active_ack (conn_acktr c2) = false /\
      exists fr, acked_by fr n = true /\ frame_sent destlen c km (fr_ack fr) pkt)
    (fun e c2 => conn_ok true None c2 /\ exists fr, acked_by fr n = true /\ send_error destlen c (fr_ack fr) e) c1.

Lemma delayed_ack_ok n ts c km :
  conn_ok true None c -> can_send c -> conn_state c = NGTCP2_CS_POST_HANDSHAKE -> conn_tx_ckm c = Some km ->
  conn_last_tx_pkt_num c <> UINT64_MAX -> acks_sent c ->
  is_uint 62 n -> 0 <= ts -> ack_range ts c -> zlen (ent (conn_acktr c)) < 256 ->
  0 <= conn_next_ack_expiry c <= ts + NGTCP2_DELAYED_ACK_TIMEOUT ->
  wp (ngtcp2_conn_sched_ack n true ts false)
    (fun _ c1 =>
      (conn_immediate_ack c1 = true \/
       conn_next_ack_expiry c1 <> 0 /\ ngtcp2_conn_earliest_expiry c1 <= ts + NGTCP2_DELAYED_ACK_TIMEOUT) /\
      forall ts', ts + NGTCP2_DELAYED_ACK_TIMEOUT <= ts' < 2 ^ 62 -> rtb_idle ts' c -> acked_at n ts' c km c1)
    (fun e _ => e = NGTCP2_ERR_PROTO /\ n ∈ ae_pkt_num <$> ent (conn_acktr c)) c.
Proof.
  intros Hok Hcs Hst Hkm Hmax Hsent Hn Hts [Ht Hents Hfew Hexpo] Hlt Hexp.
  eapply wp_mono; [apply (sched_ack_scheduled n ts c Hok); [unfold NGTCP2_ACKTR_MAX_ENT; lia | done | done] | |done].
  intros _ c1 [Hok1 Hcs1 (Es & Ek & Er & Eh & El & Ea & Ese) Hsent1 Hents1 Hact Htimer]. split.
  { destruct Htimer as [Himm|Hpos]; [by left | right; by apply expiry_before]. }
  intros ts' Hts' Hidle destlen Hd.
  eapply wp_mono; [apply (write_ack_ok destlen ts' c1 km Hok1 (Hcs1 Hcs))| |]; try congruence; try auto.
  - split; [lia | | unfold zlen in *; rewrite Hents1; simpl length; lia | by rewrite Ese].
    rewrite Hents1. unfold NGTCP2_DELAYED_ACK_TIMEOUT in *. constructor; [simpl; clia|]. eapply Forall_impl; [exact Hents|]. cbv beta. intros e [? ?]. clia.
  - intros Hnil. rewrite Hnil in Hents1. by apply Permutation_nil_cons in Hents1.
  - unfold conn_next_ack_expired. destruct Htimer as [->|Hpos]; [done|]. apply orb_true_iff. right.
    apply andb_true_iff. split; [apply negb_true_iff, Z.eqb_neq; lia | apply Z.leb_le; lia].
  - unfold rtb_idle in *. by rewrite Er, Eh.
  - intros pkt c2 (Hok2 & Hact2 & fr & Hall & Hpkt). split; [done|]. split; [done|]. exists fr. split.
    + apply Hall. rewrite Hents1. left.
    + unfold frame_sent in *. by rewrite <- El.
  - intros e c2 (Hok2 & fr & Hall & He). split; [done|]. exists fr. split.
    + apply Hall. rewrite Hents1. left.
    + unfold send_error in *. by rewrite <- El, <- Ea.
Qed.
End Single.
