(* ===== verification/ConnDel.v ===== *)
(** The end of a connection: [ngtcp2_conn_del] and the functions it calls.

    Streams and packets of the retransmission buffer have addresses, so reading or
    releasing one that has been released is undefined behaviour here. The other
    objects are members of the model's records; a member that is released is
    cleared where it is a pointer of the connection. *)

From S2P Require Import Prelude Frame Mem Monad Range Gaptr Idtr Ringbuf AckScan Acktr Pq Rtb Map Rob Crypto.
From S2P Require Import Ppe Strm Conn ConnApp ConnInv ConnSend.

Section Del.
Context {A : Type}.
Implicit Types (c : ngtcp2_conn A).
Abbreviation M := (M (ngtcp2_conn A)).

Definition delete_strms_each (ent : ngtcp2_map_entry positive) : M unit := free_strm (me_val ent).

Definition delete_early_rtb (ent : list positive) : M unit := delete_rtb_entries ent.

(** [ngtcp2_map_each_free(&conn->strms, delete_strms_each, conn->mem)] *)
Definition delete_strms : M unit := fun c =>
  let r := ngtcp2_map_each_free (fun m ent => m;; delete_strms_each ent) (mret tt) (conn_strms c) in
  (r.1;; modify (set_conn_strms r.2)) c.

Definition ngtcp2_conn_del : M unit :=
  modify (set_conn_decrypt_buf_len 0);;
  modify (set_conn_buffed_rx_ppkts []);;
  modify (set_conn_rx_ckm None);;
  modify (set_conn_tx_ckm None);;
  modify (set_conn_early_ckm None);;
  modify (set_conn_hs_rx_ckm None);;
  modify (set_conn_hs_tx_ckm None);;
  modify (set_conn_frq []);;
  c ← get;
  delete_early_rtb (conn_early_rtb c);;
  ngtcp2_rtb_free;;
  delete_strms.

(** ** What is released *)

(** [h'] is [h] without the addresses [l]. *)
Definition released {X} (l : list positive) (h h' : gmap positive X) : Prop :=
  forall p, h' !! p = if decide (p ∈ l) then None else h !! p.

Lemma released_nil {X} (h : gmap positive X) : released [] h h.
Proof. intros p. rewrite decide_False; [done | apply not_elem_of_nil]. Qed.

Lemma released_cons {X} p l (h h' : gmap positive X) : released l (delete p h) h' -> released (p :: l) h h'.
Proof.
  intros H q. rewrite H. destruct (decide (q ∈ l)) as [Hq|Hq].
  - by rewrite decide_True by (by right).
  - destruct (decide (q = p)) as [->|Hne].
    + rewrite decide_True by (by left). apply lookup_delete_eq.
    + rewrite decide_False; [by apply lookup_delete_ne|]. by intros [?|?]%elem_of_cons.
Qed.

Lemma released_app {X} l1 l2 (h h1 h2 : gmap positive X) :
  released l1 h h1 -> released l2 h1 h2 -> released (l1 ++ l2) h h2.
Proof.
  intros H1 H2 p. rewrite H2, H1. destruct (decide (p ∈ l1)), (decide (p ∈ l2)), (decide (p ∈ l1 ++ l2)) as [|Hn];
    try done; set_solver.
Qed.

(** The addresses [l] can be released one after the other. *)
Definition releasable {X} (l : list positive) (h : gmap positive X) : Prop :=
  NoDup l /\ Forall (fun p => is_Some (h !! p)) l.

Lemma releasable_cons {X} p l (h : gmap positive X) :
  releasable (p :: l) h -> is_Some (h !! p) /\ releasable l (delete p h).
Proof.
  intros [[Hp Hnd]%NoDup_cons [Hl Hall]%Forall_cons]. split; [done|]. split; [done|].
  rewrite Forall_forall in *. intros q Hq. rewrite lookup_delete_ne; [by apply Hall|]. by intros ->.
Qed.

Lemma releasable_app {X} l1 l2 (h h1 : gmap positive X) :
  releasable (l1 ++ l2) h -> released l1 h h1 -> releasable l1 h /\ releasable l2 h1.
Proof.
  intros [(Hn1 & Hd & Hn2)%NoDup_app [H1 H2]%Forall_app] Hr. split; [by split|]. split; [done|].
  rewrite Forall_forall in *. intros p Hp. rewrite Hr, decide_False; [by apply H2|]. intros Hp1. by destruct (Hd p).
Qed.

Lemma wp_rtb_entry_del p (Q : unit -> ngtcp2_conn A -> Prop) E c :
  is_Some (conn_rtb_heap c !! p) -> Q tt (set_conn_rtb_heap (delete p (conn_rtb_heap c)) c) ->
  wp (ngtcp2_rtb_entry_del p) Q E c.
Proof.
  intros [ent Hp] HQ. unfold ngtcp2_rtb_entry_del. wp_step. unfold wp at 1, load_ent. by rewrite Hp.
Qed.

Lemma wp_delete_rtb_entries l (Q : unit -> ngtcp2_conn A -> Prop) E c :
  releasable l (conn_rtb_heap c) ->
  (forall h, released l (conn_rtb_heap c) h -> Q tt (set_conn_rtb_heap h c)) ->
  wp (delete_rtb_entries l) Q E c.
Proof.
  revert c. induction l as [|p l IH]; intros c Hl HQ; cbn [delete_rtb_entries].
  - wp_step. assert (c = set_conn_rtb_heap (conn_rtb_heap c) c) as -> by (by destruct c). apply HQ, released_nil.
  - apply releasable_cons in Hl as [Hp Hl]. wp_step. apply wp_rtb_entry_del; [exact Hp|].
    apply IH; [done|].
    intros h Hh. apply (HQ h). by apply released_cons.
Qed.

Lemma wp_delete_strms_each es (m : M unit) (Q : unit -> ngtcp2_conn A -> Prop) E c :
  wp m (fun _ c => releasable (me_val <$> es) (conn_strm_heap c) /\
    forall h, released (me_val <$> es) (conn_strm_heap c) h -> Q tt (set_conn_strm_heap h c)) E c ->
  wp (fold_left (fun m ent => m;; delete_strms_each ent) es m) Q E c.
Proof.
  revert m. induction es as [|e es IH]; intros m Hm; cbn [fold_left].
  - eapply wp_mono; [exact Hm| |done]. cbn. intros [] c' [_ HQ].
    assert (c' = set_conn_strm_heap (conn_strm_heap c') c') as -> by (by destruct c'). apply HQ, released_nil.
  - apply IH. wp_step. eapply wp_mono; [exact Hm| |done]. cbn. intros _ c' [Hl HQ].
    apply releasable_cons in Hl as [[strm Hp] Hl]. eapply wp_free_strm; [exact Hp|]. split; [exact Hl|].
    intros h Hh. apply (HQ h). by apply released_cons.
Qed.
End Del.

(** ** What is left

    The streams that have been taken out of the table of streams without being
    released, and the packets that are in neither list. *)
Section Left.
Context {A : Type} (av : app_view A).
Implicit Types (c : ngtcp2_conn A) (es : list (ngtcp2_map_entry positive)).

Record conn_released c c' : Prop := {
  cr_streams : forall p strm, conn_strm_heap c' !! p = Some strm <->
    conn_strm_heap c !! p = Some strm /\ unmapped c (strm_stream_id strm);
  cr_packets : released (conn_early_rtb c ++ rtb_head (conn_rtb c)) (conn_rtb_heap c) (conn_rtb_heap c')
}.

(** The entries of the table are the addresses of different streams. *)
Lemma table_releasable x c M es :
  streams_ok av x c M -> NoDup es -> (forall e, e ∈ es <-> M !! me_key e = Some e) ->
  releasable (me_val <$> es) (conn_strm_heap c).
Proof.
  intros Hst Hnd Hes. split.
  - apply NoDup_fmap_2_strong; [|done]. intros e1 e2 H1%Hes H2%Hes Hv.
    destruct (st_map_heap _ _ _ _ Hst _ _ H1) as (_ & s1 & Hs1 & Hk1).
    destruct (st_map_heap _ _ _ _ Hst _ _ H2) as (_ & s2 & Hs2 & Hk2).
    rewrite Hv in Hs1. simplify_eq. rewrite <- Hk1, Hk2 in H1. by simplify_eq.
  - apply Forall_fmap, Forall_forall. intros e He%Hes.
    destruct (st_map_heap _ _ _ _ Hst _ _ He) as (_ & strm & Hs & _). by exists strm.
Qed.

(** They are the streams that the table finds. *)
Lemma table_unmapped x c M es p strm :
  streams_ok av x c M -> (forall e, e ∈ es <-> M !! me_key e = Some e) ->
  conn_strm_heap c !! p = Some strm -> p ∉ me_val <$> es <-> unmapped c (strm_stream_id strm).
Proof.
  intros Hst Hes Hp. unfold unmapped. rewrite (map_find_repr _ _ _ (st_map _ _ _ _ Hst)). split.
  - intros Hn. destruct (M !! strm_stream_id strm) as [e|] eqn:He; [|done]. destruct Hn.
    destruct (st_map_heap _ _ _ _ Hst _ _ He) as (Hk & strm' & Hs & Hid).
    rewrite (st_unique _ _ _ _ Hst _ _ _ _ Hp Hs (eq_sym Hid)). apply list_elem_of_fmap_2, Hes. by rewrite Hk.
  - intros [= Hn] (e & -> & He%Hes)%list_elem_of_fmap_1.
    destruct (st_map_heap _ _ _ _ Hst _ _ He) as (_ & strm' & Hs & Hid). simplify_eq.
    by rewrite <- Hid, Hn in He.
Qed.

Lemma rtb_head_releasable c : wf_rtb (conn_rtb_heap c) (conn_rtb c) -> releasable (rtb_head (conn_rtb c)) (conn_rtb_heap c).
Proof.
  intros Hw. split.
  - rewrite <- (wf_rtb_perm _ _ Hw). apply (indexed_NoDup _ (proj2 (wf_rtb_pq _ _ Hw))).
  - eapply Forall_impl; [apply (wf_rtb_store _ _ Hw)|]. intros h (e & He & _). by exists e.
Qed.

(** [c2] has the streams of [c]. *)
Lemma wp_delete_strms x c c2 M :
  streams_ok av x c M -> conn_strms c2 = conn_strms c -> conn_strm_heap c2 = conn_strm_heap c ->
  wp delete_strms (fun _ c' => conn_rtb_heap c' = conn_rtb_heap c2 /\
    forall p strm, conn_strm_heap c' !! p = Some strm <->
      conn_strm_heap c !! p = Some strm /\ unmapped c (strm_stream_id strm)) (fun _ _ => False) c2.
Proof.
  intros Hst Ht Hh. destruct (map_each_free_spec _ _ (st_map _ _ _ _ Hst)) as (es & Hnd & Hes & Hfold).
  unfold delete_strms, wp at 1. rewrite Ht, Hfold. apply wp_bind, wp_delete_strms_each, wp_ret. rewrite Hh.
  split; [exact (table_releasable _ _ _ _ Hst Hnd Hes)|]. intros h Hr. wp_step. split; [reflexivity|].
  intros p strm. cbn [conn_strm_heap set_conn_strms set_conn_strm_heap]. rewrite Hr. destruct (decide _) as [Hin|Hin].
  - split; [done|]. intros [Hp Hu]. by apply (table_unmapped _ _ _ _ _ _ Hst Hes Hp) in Hu.
  - split; [|tauto]. intros Hp. split; [done|]. by apply (table_unmapped _ _ _ _ _ _ Hst Hes Hp).
Qed.

Lemma conn_del_ok reliable x c :
  conn_ok av reliable x c -> releasable (conn_early_rtb c) (conn_rtb_heap c) ->
  conn_early_rtb c ## rtb_head (conn_rtb c) ->
  wp ngtcp2_conn_del (fun _ => conn_released c) (fun _ _ => False) c.
Proof.
  intros [[M Hst] _ _ Hrtb _ _ _ _ _] Hearly Hdis. unfold ngtcp2_conn_del, delete_early_rtb, ngtcp2_rtb_free.
  wp_go. apply wp_delete_rtb_entries; [exact Hearly|]. intros h1 Hh1. cbn in Hh1. wp_go.
  apply wp_delete_rtb_entries.
  { destruct (rtb_head_releasable _ Hrtb) as [Hnd Hall]. split; [exact Hnd|]. cbn.
    rewrite Forall_forall in *. intros p Hp. rewrite Hh1, decide_False; [exact (Hall p Hp) | intros Hin; exact (Hdis p Hin Hp)]. }
  intros h2 Hh2. cbn in Hh2.
  eapply wp_mono; [apply (wp_delete_strms x c _ M Hst); reflexivity | | done].
  intros _ c' [Hr Hs]. split; [exact Hs|]. rewrite Hr. exact (released_app _ _ _ _ _ Hh1 Hh2).
Qed.
End Left.
