(* ===== verification/ConnFrames.v ===== *)
(** The handlers of all frames of a protected packet, and the packet as a whole:
    no frame a peer can send leads to undefined behaviour or breaks the invariant
    of the connection. *)

From S2P Require Import Prelude Conv Frame PktDecode PktHd Mem Monad Range Gaptr Idtr Ringbuf AckScan.
From S2P Require Import Acktr Pq Rtb Map Rob Crypto Ppe Strm Conn ConnAck ConnApp ConnInv.
From S2P Require Import ConnStream ConnRecv.

(** A handler keeps [J] when it succeeds; an error ends the connection. *)
Definition handler {A} (J : ngtcp2_conn A -> Prop) {B} (m : M (ngtcp2_conn A) B) : Prop := forall c, J c ->
  wp m (fun _ => J) (fun _ _ => True) c.

Section Handlers.
Context {A : Type} (J : ngtcp2_conn A -> Prop).
Abbreviation handler := (handler J).

Lemma handler_bind {B C} (m : M (ngtcp2_conn A) B) (k : B -> M (ngtcp2_conn A) C) :
  handler m -> (forall b, handler (k b)) -> handler (m ≫= k).
Proof. intros Hm Hk c Hok. wp_step. eapply wp_mono; [by apply Hm | intros b c'; apply Hk | done]. Qed.

Lemma handler_ret {B} (b : B) : handler (mret b).
Proof. intros c Hok. by wp_go. Qed.

Lemma handler_get {B} (k : ngtcp2_conn A -> M (ngtcp2_conn A) B) :
  (forall c, handler (k c)) -> handler (get ≫= k).
Proof. intros Hk c Hok. wp_step. wp_step. by apply Hk. Qed.

Lemma handler_modify f : (forall c, J c -> J (f c)) -> handler (modify f).
Proof. intros Hf c Hok. wp_go. by apply Hf. Qed.

Lemma handler_throw_if b e : handler (throw_if b e).
Proof. intros c Hok. by wp_go. Qed.

Lemma handler_throw {B} e : handler (throw (A := B) e).
Proof. intros c Hok. by wp_go. Qed.

Lemma handler_assert b : b = true -> handler (assert_ b).
Proof. intros -> c Hok. by wp_go. Qed.
End Handlers.

Section Frames.
Context {A : Type} (av : app_view A) (cb : ngtcp2_conn_callbacks A) (Hcb : callbacks_ok av cb).
Implicit Types (c : ngtcp2_conn A) (strm : ngtcp2_strm Z).
Abbreviation conn_ok := (conn_ok av true None).
Abbreviation handler_ok := (handler conn_ok).

Lemma handler_api {B} (m : M (ngtcp2_conn A) B) : api_ok av m -> handler_ok m.
Proof. intros Hm c Hok. eapply wp_mono; [apply Hm, Hok | by intros ? ? [] | done]. Qed.

(** ** Frames without a stream *)

Lemma recv_max_data_ok n : handler_ok (conn_recv_max_data n).
Proof. apply handler_modify. intros c Hok. keep_ok Hok. Qed.

Lemma recv_connection_close_ok : handler_ok conn_recv_connection_close.
Proof. apply handler_modify. intros c Hok. keep_ok Hok. Qed.

Lemma recv_pong_ok data : handler_ok (conn_recv_pong data).
Proof. apply handler_throw_if. Qed.

Lemma malloc_handler : handler_ok malloc.
Proof. apply handler_api, chain_new_ok. Qed.

Lemma recv_ping_ok data : handler_ok (conn_recv_ping data).
Proof.
  unfold conn_recv_ping. destruct (_ =? _); [apply handler_ret|].
  apply handler_bind; [apply malloc_handler|]. intros _. apply handler_api, frq_push_ok.
Qed.

Lemma recv_max_stream_id_ok id : is_uint 62 id -> handler_ok (conn_recv_max_stream_id cb id).
Proof.
  intros Hid. unfold conn_recv_max_stream_id. apply handler_bind.
  - destruct (bidi_stream id); apply handler_modify; intros c [[M []] [] ? ? ? ? ? ? ?];
      (split; [exists M; split | split | ..]; try assumption); simpl; clia.
  - intros _. apply handler_api, conn_call_quiet, Hcb.
Qed.

(** ** Frames that refer to a stream *)

Lemma check_id_handler id : handler_ok (conn_check_stream_id id).
Proof. intros c Hok. by apply check_stream_id_ok. Qed.

Lemma idtr_is_open_ok c id (Q : bool -> ngtcp2_conn A -> Prop) E :
  conn_ok c -> is_uint 62 id -> conn_local_stream c id = false ->
  (forall b, Q b c) -> wp (conn_idtr_is_open id) Q E c.
Proof.
  intros Hok Hid Hl HQ. unfold conn_idtr_is_open. wp_step. wp_step. wp_step. wp_step.
  unfold ngtcp2_idtr_is_open. pose proof (idtr_assert_remote av c id (co_ids _ _ _ _ Hok) Hl) as ->.
  simpl. wp_go. apply HQ.
Qed.

Lemma idtr_open_ok c id (Q : Z -> ngtcp2_conn A -> Prop) E :
  conn_ok c -> is_uint 62 id -> conn_local_stream c id = false ->
  (forall rv c', conn_ok c' -> Q rv c') -> wp (conn_idtr_open id) Q E c.
Proof. intros Hok Hid Hl HQ. apply (wp_idtr_open av true None); auto. Qed.

(** A change of a stream that touches neither its ID nor the data received. *)
Lemma update_flags_ok c p strm strm' :
  conn_ok c -> conn_strm_heap c !! p = Some strm -> strm_stream_id strm <> 0 ->
  strm_stream_id strm' = strm_stream_id strm -> strm_me strm' = strm_me strm ->
  strm_acked_tx_offset strm' = strm_acked_tx_offset strm -> strm_rob strm' = strm_rob strm ->
  strm_last_rx_offset strm' = strm_last_rx_offset strm ->
  conn_ok (set_conn_strm_heap (<[p := strm']> (conn_strm_heap c)) c).
Proof.
  intros Hok Hp Hne Hid Hme Hack Hrob Hlast.
  eapply store_strm_gen; try done; [|by auto].
  rewrite Hack. by destruct (strm_ok_at av _ _ _ _ _ Hok Hp).
Qed.

Lemma recv_rst_stream_ok fr : is_uint 62 (rst_stream_id fr) -> handler_ok (conn_recv_rst_stream cb fr).
Proof.
  intros Hid c Hok. unfold conn_recv_rst_stream. wp_step. wp_step; [done|]. wp_step.
  apply check_stream_id_ok; [|done]. wp_step. wp_step. wp_step.
  apply (wp_find_live av true None); [done | |].
  - destruct (conn_local_stream c (rst_stream_id fr)) eqn:Hl; [by wp_go|]. wp_step.
    apply idtr_is_open_ok; [done | done | done|]. intros []; [by wp_go|]. wp_step. wp_step; [done|]. wp_step.
    apply idtr_open_ok; [done | done | done|]. intros rv c' Hok'. wp_go. by apply rx_offset_ok.
  - intros p strm Hp Hsid _. apply Z.eqb_neq in H. wp_step. eapply wp_load_strm; [done|]. wp_step.
    assert (forall b1 b2 (Q : unit -> ngtcp2_conn A -> Prop), Q tt c -> wp (if has_bit (strm_flags strm)
      NGTCP2_STRM_FLAG_SHUT_RD then throw_if b1 NGTCP2_ERR_FINAL_OFFSET else throw_if b2 NGTCP2_ERR_FINAL_OFFSET)
      Q (fun _ _ => True) c) as Hthrow by (intros; destruct (has_bit _ _); by wp_go).
    apply Hthrow. wp_step. wp_step; [done|]. wp_step. wp_step. wp_step.
    apply (rx_offset_ok av true None c (u64 (conn_rx_offset c + u64 (rst_final_offset fr - strm_last_rx_offset strm)))) in Hok.
    set (c1 := set_conn_rx_offset _ c) in *. eapply (wp_store_strm p _ strm); [exact Hp|].
    eapply (close_if_ok av cb Hcb true _ p _); [|apply lookup_insert_eq | by intros ? ? | done].
    apply (update_flags_ok c1 p strm); try done. congruence.
Qed.

Lemma recv_stop_sending_ok id code : is_uint 62 id -> handler_ok (conn_recv_stop_sending cb id code).
Proof.
  intros Hid c Hok. unfold conn_recv_stop_sending. wp_step. wp_step; [done|]. wp_step.
  apply check_stream_id_ok; [|done]. wp_step. wp_step. wp_step.
  apply (wp_find_live av true None); [done | |].
  - destruct (conn_local_stream c id) eqn:Hl; [by wp_go|]. wp_step.
    apply idtr_is_open_ok; [done | done | done|]. intros []; [by wp_go|]. wp_step.
    apply idtr_open_ok; [done | done | done|]. intros rv c' Hok'. by wp_go.
  - intros p strm Hp Hsid _. apply Z.eqb_neq in H. wp_step.
    eapply wp_mono; [exact (rst_stream_ok av NGTCP2_STOPPING true None c p strm Hok Hp) | | done].
    intros ? c1 [Hok1 [Hf1 _]]. destruct (af_heap _ _ Hf1 _ _ Hp) as (s1 & Hp1 & []).
    wp_step. eapply wp_update_strm; [done|].
    eapply (close_if_ok av cb Hcb true _ p _); [|apply lookup_insert_eq | by intros ? ? | done].
    apply (update_flags_ok c1 p s1); try done. congruence.
Qed.

Lemma recv_max_stream_data_ok id n : is_uint 62 id -> handler_ok (conn_recv_max_stream_data id n).
Proof.
  intros Hid c Hok. unfold conn_recv_max_stream_data. wp_step. apply check_stream_id_ok; [|done]. wp_step. wp_step.
  assert (Hext : forall c p strm, conn_ok c -> conn_strm_heap c !! p = Some strm ->
    wp (update_strm p (fun strm => set_max_tx_offset strm (Z.max (strm_max_tx_offset strm) n)))
      (fun _ => conn_ok) (fun _ _ => True) c).
  { intros c' p strm Hok' Hp. unfold update_strm. wp_step. eapply wp_load_strm; [done|].
    eapply (wp_set_strm av true None); [done | done | done | done|]. by intros c2 _ []. }
  wp_step. apply (wp_find_live av true None); [done | |].
  - destruct (conn_local_stream c id) eqn:Hl; [by wp_go|]. wp_step.
    apply (wp_idtr_open av true None); [done | done | done | | | done].
    + intros c' Hok' _. by wp_go.
    + intros idtr m c1 Hok1 Hno Hop Hmono. simpl. wp_step. apply (new_remote_ok av true c); try done.
      intros c' Hok' (strm & Hp & _) _. by eapply Hext.
  - intros p strm Hp _ _. by eapply Hext.
Qed.

(** ** ACK frames *)

(** What the retransmission buffer relies on while it walks over the packets
    [st0]. *)
Definition walk_inv (st0 : rtb_store) c : Prop := conn_ok c /\ conn_rtb_heap c = st0.
Definition live_strm c (p : positive) : Prop := is_Some (conn_strm_heap c !! p).

Lemma walk_inv_post st0 c c' : walk_inv st0 c -> api_post av true None c c' -> walk_inv st0 c'.
Proof. intros [_ Hst] [Hok' [Hf _]]. split; [done|]. rewrite <- Hst. apply Hf. Qed.

Lemma live_post c c' p : api_post av true None c c' -> live_strm c p -> live_strm c' p.
Proof.
  intros H [strm Hp]. destruct (api_live av _ _ _ _ _ _ H Hp) as (s & ? & _). by exists s.
Qed.

(** The result of a call, as the buffer sees it. *)
Lemma run_rv_wp {B} (m : M (ngtcp2_conn A) B) (P : ngtcp2_conn A -> Prop) c :
  wp m (fun _ => P) (fun _ => P) c -> exists c' rv, run_rv m c = Ok (c', rv) /\ P c'.
Proof. unfold wp, run_rv. destruct (m c); [by eexists _, _ | by eexists _, _ | done]. Qed.

Lemma conn_rtb_conn_ok st0 :
  RtbConnOk (H := conn_rtb_conn cb) (ngtcp2_conn A) positive (walk_inv st0) live_strm.
Proof.
  split; simpl.
  - done.
  - intros c id [Hok _].
    assert (wp (ngtcp2_conn_find_stream id) (fun o c' => forall s, o = Some s -> live_strm c s) (fun _ _ => False) c) as H.
    { apply (wp_find_live av true None); [done | done|]. intros p strm Hp _ _ s [= <-]. by exists strm. }
    unfold wp, eval in *. destruct (ngtcp2_conn_find_stream id c) as [o c'|e c'|]; [by exists o | done | done].
  - intros c p [Hok _] [strm Hp]. exists (strm_acked_tx_offset strm).
    unfold eval, fmap, M_fmap, mbind, M_bind, load_strm. rewrite Hp.
    split; [done|]. by destruct (strm_ok_at av _ _ _ _ _ Hok Hp).
  - intros c m p gaptr [Hok Hst] [strm Hp] Hg Hm.
    unfold run_rv, update_strm, store_strm, mbind, M_bind, load_strm. simpl. rewrite Hp. simpl. rewrite Hp.
    eexists. split; [done|]. split; [split|].
    + destruct (mem_ok av true None c m Hok) as [Hok' _]; [intros _; by apply Hm, (co_mem _ _ _ _ Hok)|].
      eapply (store_strm_gen av true None (set_conn_mem m c)); try done. by auto.
    + done.
    + eexists. apply lookup_insert_eq.
  - intros c p offset datalen [Hok Hst] [strm Hp] Hhas. destruct (cb_acked_stream_data_offset cb) as [f|] eqn:Hf;
      [|by apply bool_decide_eq_true in Hhas as []].
    pose proof (cbo_acked_stream_data_offset _ _ Hcb) as Hq. rewrite Hf in Hq.
    destruct (run_rv_wp (strm ← load_strm p; rv ← invoke f (strm_stream_id strm, offset, datalen,
      strm_stream_user_data strm); check rv) (fun c' => api_post av true None c c') c) as (c' & rv & -> & Hpost).
    { wp_step. eapply wp_load_strm; [done|]. wp_step.
      eapply (invoke_quiet av f _ true None c c); [done | by apply api_post_refl|]. intros. by wp_go. }
    exists c', rv. split; [done|]. split; [by eapply walk_inv_post | eapply live_post; [done | by exists strm]].
  - intros c p [Hok Hst] [strm Hp].
    apply (run_rv_wp _ (fun c' => walk_inv st0 c')).
    eapply (close_if_ok av cb Hcb); [done | done | |]; [intros c' ? [Hk _] _ | intros e c' ? [Hk _] _]; by split; [|congruence].
Qed.

(** The buffer and the heap of its packets. *)
Lemma set_rtb_ok c heap rtb :
  conn_ok c -> wf_rtb heap rtb -> heap ⊆ conn_rtb_heap c ->
  conn_ok (set_conn_rtb rtb (set_conn_rtb_heap heap c)).
Proof.
  intros [[M []] [] ? ? Hfresh ? ? ? ?] Hwf Hsub. split; [exists M; split | split | ..]; try assumption.
  intros p [e He]. apply Hfresh. exists e. by eapply lookup_weaken.
Qed.

Lemma rtb_recv_ack_ok fr unprotected : valid_ack fr -> handler_ok (conn_rtb_recv_ack cb fr unprotected).
Proof.
  intros Hv c Hok. unfold conn_rtb_recv_ack, wp.
  destruct (rtb_recv_ack_safe (H0 := conn_rtb_conn_ok (conn_rtb_heap c))
    (conn_rtb_heap c) (conn_rtb c) fr unprotected c) as (heap & rtb & c' & rv & -> & Hwf & [Hok' Hst] & _ & _ & Hsub & _);
    [apply Hok | by split | done|].
  change (wp (check rv) (fun _ => conn_ok) (fun _ _ => True) (set_conn_rtb rtb (set_conn_rtb_heap heap c'))).
  wp_step; [done|]. apply set_rtb_ok; [done | done | by rewrite Hst].
Qed.

Lemma set_acktr_ok c acktr al :
  conn_ok c -> acktr_inv (acktr, al) -> conn_ok (set_conn_acktr acktr c).
Proof.
  intros [[M []] [] ? ? ? ? ? ? ?] [Hwf Hn]. split; [exists M; split | split | ..]; try assumption. by exists al.
Qed.

Lemma recv_ack_ok fr unprotected : wf_ack fr -> handler_ok (conn_recv_ack cb fr unprotected).
Proof.
  intros Hwf c Hok. unfold conn_recv_ack. pose proof (validate_ack_spec fr Hwf) as Hval. wp_step. wp_step.
  destruct (ngtcp2_pkt_validate_ack fr) as [[]|e|] eqn:Hv; [simpl|done|done]. wp_step. wp_step. wp_step. wp_step.
  destruct (co_acktr _ _ _ _ Hok) as (al & Hwa & Hn).
  destruct (acktr_recv_ack_spec (conn_acktr c) al fr unprotected Hwa) as (acktr' & Heq & _); [done|].
  rewrite Heq. simpl. wp_step. wp_step. apply rtb_recv_ack_ok; [done|].
  eapply set_acktr_ok; [done|]. apply (acktr_step_inv (conn_acktr c, al)); [done|].
  by apply (step_recv_ack _ _ fr unprotected).
Qed.

(** ** The frames of a packet *)

(** What is assumed of the frames of the peer: the STREAM frames carry the data
    of the streams. *)
Definition genuine (fr : ngtcp2_frame) : Prop :=
  match fr with fr_stream fr => authentic av fr | _ => True end.

Lemma recv_frame_ok hd fr : wf_frame fr -> genuine fr -> handler_ok (conn_recv_frame cb hd fr).
Proof.
  intros Hwf Hg. destruct fr; simpl; try apply handler_ret; try apply recv_connection_close_ok.
  - apply handler_bind; [apply handler_throw_if|]. intros _ c Hok. by apply (recv_stream_ok av cb Hcb).
  - by apply recv_ack_ok, wf_frame_ack.
  - apply recv_rst_stream_ok, Hwf.
  - apply recv_max_data_ok.
  - apply recv_max_stream_data_ok, Hwf.
  - by apply recv_max_stream_id_ok.
  - apply recv_ping_ok.
  - apply recv_stop_sending_ok, Hwf.
  - apply recv_pong_ok.
Qed.
End Frames.
