(* ===== verification/ConnPkt.v ===== *)
(** The receive path after the handshake: a packet is decrypted, its frames are
    handled one after the other, and it is scheduled to be acknowledged. *)

From S2P Require Import Prelude Conv Frame PktDecode PktHd Mem Monad Range Gaptr Idtr Ringbuf AckScan.
From S2P Require Import Acktr Pq Rtb Map Rob Crypto Ppe Strm Conn ConnAck ConnApp ConnInv.
From S2P Require Import ConnStream ConnRecv ConnFrames.

(** ** The frames of a payload

    As many as can be decoded. *)
Fixpoint payload_frames (fuel : nat) (payload : bytes) : list ngtcp2_frame :=
  match fuel with
  | O => []
  | S fuel =>
      match ngtcp2_pkt_decode_frame payload with
      | Ok (Some fr, n) => fr :: payload_frames fuel (advance n payload)
      | _ => []
      end
  end.

Definition frames_of (payload : bytes) : list ngtcp2_frame := payload_frames (S (length payload)) payload.

(** An ACK frame for which an [ngtcp2_frame] has room. *)
Definition short_ack (fr : ngtcp2_frame) : Prop :=
  match fr with fr_ack ack => zlen (ack_blks ack) <= 1 | _ => True end.

(** ** Growing the buffer *)

Lemma grow_len_ok n fuel : n <= 2 ^ 62 -> forall len,
  0 < len < 2 ^ 63 -> 2 ^ 62 <= len * 2 ^ Z.of_nat fuel ->
  exists len', grow_len (S fuel) len n = Ok len' /\ n <= len' < 2 ^ 63.
Proof.
  intros Hn. induction fuel as [|fuel IH]; intros len Hlen Hf; cbn [grow_len].
  - change (2 ^ Z.of_nat 0) with 1 in Hf. rewrite (proj2 (Z.ltb_ge len n)) by lia. exists len. split; [done | lia].
  - destruct (Z.ltb_spec len n); [|exists len; split; [done | lia]]. rewrite u64_small by clia. apply IH; [lia|].
    rewrite Nat2Z.inj_succ, Z.pow_succ_r in Hf by lia. lia.
Qed.

Lemma create_nonce_ok iv pkt_num : iv_ok iv -> exists nonce, ngtcp2_crypto_create_nonce iv pkt_num = Ok nonce.
Proof.
  intros [? ?]. unfold ngtcp2_crypto_create_nonce. rewrite u64_small by clia.
  assert (Hx : forall bs dest i, (i + length bs <= length dest)%nat -> exists d, xor_at dest i bs = Ok d).
  { induction bs as [|b bs IH]; intros dest i Hi; simpl in *; [by eexists|].
    destruct (lookup_lt_is_Some_2 dest i) as [d ->]; [lia|]. apply IH. rewrite length_insert. lia. }
  apply Hx. unfold zlen in *. rewrite length_le_store. lia.
Qed.

(** Decryption gives no more bytes than the ciphertext has, and what it gives is
    what the peer has sent. *)
Record aead_ok {A} (av : app_view A) (decrypt : Z -> bytes -> bytes -> bytes -> bytes -> bytes + Z)
    (P : ngtcp2_frame -> Prop) : Prop := {
  ao_len : forall destlen ct key nonce ad pt, decrypt destlen ct key nonce ad = inl pt ->
    zlen pt <= destlen /\ all_bytes pt;
  ao_frames : forall destlen ct key nonce ad pt, decrypt destlen ct key nonce ad = inl pt ->
    Forall (fun fr => genuine av fr /\ P fr) (frames_of pt)
}.

Lemma aead_ok_mono {A} (av : app_view A) decrypt (P Q : ngtcp2_frame -> Prop) :
  aead_ok av decrypt P -> (forall fr, P fr -> Q fr) -> aead_ok av decrypt Q.
Proof.
  intros [Hl Hf] HPQ. split; [done|]. intros. eapply Forall_impl; [by eapply Hf|]. intros fr []. auto.
Qed.

(** ** The interface to the handlers

    What the receive path relies on: an invariant [J] that implies the one of the
    connection, and that everything it calls keeps, for frames with the property
    [P] and packet numbers with the property [num]. *)
Class RecvInv {A} (av : app_view A) (cb : ngtcp2_conn_callbacks A)
    (J : ngtcp2_conn A -> Prop) (P : ngtcp2_frame -> Prop) (num : Z -> Prop) : Prop := {
  ri_ok c : J c -> conn_ok av true None c;
  ri_buffer c len m : let c' := set_conn_decrypt_buf_len len (set_conn_mem m c) in
    J c -> conn_ok av true None c' -> J c';
  ri_flag flag : handler J (conn_set_flag flag);
  ri_recv_frame y : handler J (conn_call (cb_recv_frame cb) y);
  ri_recv_pkt hd : handler J (conn_call_recv_pkt cb hd);
  ri_frame hd fr : wf_frame fr -> genuine av fr -> P fr -> handler J (conn_recv_frame cb hd fr);
  ri_stream fr : wf_frame (fr_stream fr) -> authentic av fr -> P (fr_stream fr) -> handler J (conn_recv_stream cb fr);
  ri_ack fr unprotected : wf_ack fr -> handler J (conn_recv_ack cb fr unprotected);
  ri_reset hd payload c : all_bytes payload -> J c ->
    wp (conn_on_stateless_reset cb hd payload) (fun _ => J) (fun _ => J) c;
  ri_num pkt_num : num pkt_num ->
    handler J (modify (fun c => set_conn_max_rx_pkt_num (Z.max (conn_max_rx_pkt_num c) pkt_num) c));
  ri_sched pkt_num active ts unprotected : num pkt_num -> handler J (ngtcp2_conn_sched_ack pkt_num active ts unprotected)
}.

(** ** The invariant of the connection *)

Section Instance.
Context {A : Type} (av : app_view A) (cb : ngtcp2_conn_callbacks A) (Hcb : callbacks_ok av cb).
Implicit Types (c : ngtcp2_conn A).
Abbreviation conn_ok := (conn_ok av true None).

Lemma token_diff_ok n t1 t2 : (n <= length t1)%nat -> (n <= length t2)%nat -> exists d, token_diff n t1 t2 = Ok d.
Proof.
  revert t1 t2. induction n as [|n IH]; intros t1 t2 H1 H2; simpl; [by eexists|].
  destruct t1 as [|x t1], t2 as [|y t2]; simpl in *; try lia.
  destruct (IH t1 t2) as [d ->]; [lia..|]. by eexists.
Qed.

Lemma on_stateless_reset_ok hd payload c : all_bytes payload -> conn_ok c ->
  wp (conn_on_stateless_reset cb hd payload) (fun _ => conn_ok) (fun _ => conn_ok) c.
Proof.
  intros Hb Hok. unfold conn_on_stateless_reset, ngtcp2_pkt_decode_stateless_reset, NGTCP2_STATELESS_RESET_TOKENLEN.
  wp_step. wp_step. apply wpe_bind, wpe_fail_if_lt; [done|]. intros Hl.
  apply wpe_bind, wpe_rdn; [done | lia|]. intros rand _ _ _.
  apply wpe_bind, wpe_adv; [done | lia|]. intros p _ Hp Hpb.
  apply wpe_bind, wpe_rdn; [done | lia|]. intros tok _ Htok _. apply wpe_ret.
  wp_step. wp_step. wp_step. wp_step. destruct (co_token _ _ _ _ Hok) as [Ht1 Ht2].
  unfold NGTCP2_STATELESS_RESET_TOKENLEN in *.
  destruct (token_diff_ok (Z.to_nat 16) (s_stateless_reset_token
    (if conn_server c then conn_local_settings c else conn_remote_settings c)) tok) as [d ->];
    [destruct (conn_server c); unfold zlen in *; lia | unfold zlen in *; lia|].
  cbn [wpe]. wp_step. wp_step; [done|]. wp_step. wp_step.
  assert (conn_ok (set_conn_state NGTCP2_CS_DRAINING c)) as Hok' by keep_ok Hok.
  eapply wp_mono; [apply (conn_call_quiet av _ _ (cbo_recv_stateless_reset _ _ Hcb) true None _ Hok') | |]; by intros ? ? [].
Qed.

Lemma sched_ack_ok pkt_num active ts unprotected :
  handler conn_ok (ngtcp2_conn_sched_ack (A := A) pkt_num active ts unprotected).
Proof.
  intros c Hok. unfold ngtcp2_conn_sched_ack. wp_step. unfold with_mem, ngtcp2_acktr_entry_new, wp at 1.
  pose proof (mem_alloc_reliable (conn_mem c) (co_mem _ _ _ _ Hok eq_refl)) as [_ Hm].
  destruct (mem_alloc (conn_mem c)) as [[] m]; [|done]. cbn [fst snd lift] in *. wp_step. wp_step.
  destruct (mem_ok av true None c m Hok) as [Hok' _]; [done|].
  destruct (co_acktr _ _ _ _ Hok') as (al & Hwa & Hn).
  set (e := mk_acktr_entry _ _ _).
  pose proof (acktr_step_inv (conn_acktr (set_conn_mem m c), al) _ (conj Hwa Hn) (step_add _ _ e active)) as Hinv. cbn [fst] in Hinv.
  destruct (ngtcp2_acktr_add _ e active) as [acktr rv]. cbn [fst] in Hinv. wp_step. wp_step. wp_step. wp_step; [done|].
  assert (conn_ok (set_conn_acktr acktr (set_conn_mem m c))) as Hok2 by (by eapply set_acktr_ok).
  destruct (_ && _); [|by wp_go]. unfold conn_set_next_ack_expiry. wp_go. keep_ok Hok2.
Qed.

Lemma max_rx_pkt_num_ok f : handler conn_ok (modify (fun c => set_conn_max_rx_pkt_num (f c) c)).
Proof. apply handler_modify. intros c Hok. keep_ok Hok. Qed.

Lemma ensure_decrypt_buffer_ok n c (Q : unit -> ngtcp2_conn A -> Prop) (E : Z -> ngtcp2_conn A -> Prop) :
  conn_ok c -> n <= 2 ^ 62 ->
  (forall len m, let c' := set_conn_decrypt_buf_len len (set_conn_mem m c) in
    conn_ok c' -> n <= len -> Q tt c') ->
  wp (conn_ensure_decrypt_buffer n) Q E c.
Proof.
  intros Hok Hn HQ. unfold conn_ensure_decrypt_buffer. wp_step. wp_step.
  destruct (Z.leb_spec n (conn_decrypt_buf_len c)) as [Hle|Hlt].
  { wp_go. replace c with (set_conn_decrypt_buf_len (conn_decrypt_buf_len c) (set_conn_mem (conn_mem c) c))
      by (by destruct c). apply HQ; [|lia]. by destruct c. }
  pose proof (co_buf _ _ _ _ Hok) as Hbuf. wp_step. wp_step.
  destruct (grow_len_ok n 64 Hn (if conn_decrypt_buf_len c =? 0 then 2048 else u64 (conn_decrypt_buf_len c * 2)))
    as (len & Hg & Hlen).
  { destruct (Z.eqb_spec (conn_decrypt_buf_len c) 0); [lia|]. rewrite u64_small; clia. }
  { change (2 ^ Z.of_nat 64) with 18446744073709551616.
    destruct (Z.eqb_spec (conn_decrypt_buf_len c) 0); [lia|].
    rewrite u64_small by clia. lia. }
  rewrite Hg. cbn [wpe]. wp_step. unfold malloc, with_mem, wp at 1.
  pose proof (mem_alloc_reliable (conn_mem c) (co_mem _ _ _ _ Hok eq_refl)) as [Ha Hm].
  destruct (mem_alloc (conn_mem c)) as [[] m]; [|done]. cbn [fst snd lift] in *. wp_go. apply HQ; [|lia].
  destruct (mem_ok av true None c m Hok) as [Hok' _]; [done|].
  destruct Hok' as [[M []] [] ? ? ? ? ? ? ?]. split; [exists M; split | split | ..]; try assumption. simpl. lia.
Qed.

#[export] Instance conn_recv_inv : RecvInv av cb conn_ok (fun _ => True) (fun _ => True).
Proof.
  split; intros; try done.
  - apply handler_api, set_flag_ok.
  - apply handler_api, conn_call_quiet, Hcb.
  - apply handler_api, conn_call_quiet, Hcb.
  - by apply recv_frame_ok.
  - intros c Hok. by apply (recv_stream_ok av cb Hcb).
  - by apply recv_ack_ok.
  - by apply on_stateless_reset_ok.
  - apply max_rx_pkt_num_ok.
  - apply sched_ack_ok.
Qed.
End Instance.

Section Packets.
Context {A : Type} (av : app_view A) (cb : ngtcp2_conn_callbacks A) (Hcb : callbacks_ok av cb).
Context (J : ngtcp2_conn A -> Prop) (P : ngtcp2_frame -> Prop) (num : Z -> Prop) {HJ : RecvInv av cb J P num}.
Implicit Types (c : ngtcp2_conn A).
Abbreviation conn_ok := (conn_ok av true None).
Abbreviation aead_ok := (aead_ok av).

(** ** The loops over the frames *)

Lemma next_frame_ok c payload (Q : ngtcp2_frame * bytes -> ngtcp2_conn A -> Prop) (E : Z -> ngtcp2_conn A -> Prop) :
  all_bytes payload -> zlen payload < 2 ^ 62 -> zlen payload <> 0 ->
  (forall fr n, ngtcp2_pkt_decode_frame payload = Ok (Some fr, n) -> wf_frame fr -> 1 <= n <= zlen payload ->
    Q (fr, advance n payload) c) ->
  (forall e, E e c) -> wp (next_frame payload) Q E c.
Proof.
  intros Hb Hs Hne HQ HE. unfold next_frame. pose proof (decode_frame_safe payload Hb Hs) as Hd. wp_step. wp_step.
  destruct (ngtcp2_pkt_decode_frame payload) as [[o n]|e|]; simpl in *; [|apply HE | done].
  destruct o as [fr|]; [|by destruct Hd as [-> _]]. destruct Hd as [Hwf Hn]. wp_step. wp_step.
  apply (wpe_adv_known n payload (advance n payload)); [done | lia|]. wp_step. by apply HQ.
Qed.

(** The frames that follow a frame. *)
Lemma rest_of_frames (R : ngtcp2_frame -> Prop) fuel payload fr n :
  ngtcp2_pkt_decode_frame payload = Ok (Some fr, n) -> Forall R (payload_frames (S fuel) payload) ->
  R fr /\ Forall R (payload_frames fuel (advance n payload)).
Proof. intros Hd. cbn [payload_frames]. rewrite Hd. apply Forall_cons. Qed.

Lemma rest_shorter payload n :
  1 <= n <= zlen payload -> (S (length (advance n payload)) <= length payload)%nat /\
  zlen (advance n payload) < zlen payload.
Proof. intros H. unfold advance, zlen in *. rewrite length_drop. lia. Qed.

Lemma recv_frames_ok hd fuel : forall payload require_ack,
  (length payload < fuel)%nat -> all_bytes payload -> zlen payload < 2 ^ 62 ->
  Forall (fun fr => genuine av fr /\ P fr) (payload_frames fuel payload) ->
  handler J (conn_recv_frames cb fuel hd payload require_ack).
Proof.
  induction fuel as [|fuel IH]; intros payload ra Hf Hb Hs Hg; [lia|]. cbn [conn_recv_frames].
  destruct (Z.eqb_spec (zlen payload) 0) as [H0|H0]; [apply handler_ret|]. intros c Hok. wp_step.
  apply next_frame_ok; [done | done | done | | done]. intros fr n Hd Hwf Hn.
  destruct (rest_of_frames _ _ _ _ _ Hd Hg) as [[Hg1 Hp1] Hg2], (rest_shorter _ _ Hn).
  revert c Hok. apply handler_bind; [apply ri_recv_frame|]. intros _.
  apply handler_bind; [by apply ri_frame|]. intros _.
  apply IH; [lia | by apply Forall_drop | lia | done].
Qed.

Lemma recv_delayed_frames_ok hd fuel : forall payload require_ack,
  (length payload < fuel)%nat -> all_bytes payload -> zlen payload < 2 ^ 62 ->
  Forall (fun fr => genuine av fr /\ P fr /\ short_ack fr) (payload_frames fuel payload) ->
  handler J (conn_recv_delayed_frames cb fuel hd payload require_ack).
Proof.
  induction fuel as [|fuel IH]; intros payload ra Hf Hb Hs Hg; [lia|]. cbn [conn_recv_delayed_frames].
  destruct (Z.eqb_spec (zlen payload) 0) as [H0|H0]; [apply handler_ret|]. intros c Hok. wp_step.
  apply next_frame_ok; [done | done | done | | done]. intros fr n Hd Hwf Hn.
  destruct (rest_of_frames _ _ _ _ _ Hd Hg) as [(Hg1 & Hp1 & Hsh) Hg2], (rest_shorter _ _ Hn).
  assert (Hrest : forall b, handler J (conn_recv_delayed_frames cb fuel hd (advance n payload) b))
    by (intros b; apply IH; [lia | by apply Forall_drop | lia | done]).
  revert c Hok. apply handler_bind; [apply handler_assert; destruct fr; try done; by apply Z.leb_le|]. intros _.
  apply handler_bind; [apply ri_recv_frame|]. intros _.
  destruct fr as [s|a| | | | | | | | | | | | | | | ]; try apply handler_throw.
  - apply handler_bind; [by apply ri_stream | auto].
  - apply handler_bind; [apply handler_throw_if|]. intros _.
    apply handler_bind; [by apply ri_ack, wf_frame_ack | auto].
  - apply Hrest.
Qed.

(** ** Decryption *)

(** [ckm] is one of the keys. *)
Definition key_of (ckm : ngtcp2_conn A -> option ngtcp2_crypto_km) : Prop :=
  (forall c, ckm c ∈ conn_keys c) /\
  (forall len m c, ckm (set_conn_decrypt_buf_len len (set_conn_mem m c)) = ckm c).

Lemma open_pkt_ok payload ad pkt_num ckm decrypt R c (Q : bytes -> ngtcp2_conn A -> Prop) (E : Z -> ngtcp2_conn A -> Prop) :
  J c -> zlen payload < 2 ^ 62 -> key_of ckm -> is_Some (ckm c) -> aead_ok decrypt R ->
  (forall pt c', J c' -> all_bytes pt -> zlen pt < 2 ^ 62 ->
    Forall (fun fr => genuine av fr /\ R fr) (frames_of pt) -> Q pt c') ->
  (forall e c', J c' -> E e c') ->
  wp (conn_open_pkt payload ad pkt_num ckm decrypt) Q E c.
Proof.
  intros Hok Hl [Hkey Hsame] [km Hkm] Ha HQ HE. unfold conn_open_pkt. wp_step.
  apply (ensure_decrypt_buffer_ok av); [by apply ri_ok | lia|]. intros len m c' Hok1 _.
  pose proof (ri_buffer c len m Hok Hok1) as Hok'. wp_step. wp_step.
  unfold c' at 1. rewrite Hsame, Hkm. unfold conn_decrypt_pkt.
  assert (Hiv : iv_ok (km_iv km)).
  { pose proof (co_keys _ _ _ _ (ri_ok _ Hok)) as Hk. unfold keys_ok in Hk. rewrite Forall_forall in Hk. by eapply Hk. }
  wp_step. apply wp_assert; [apply Z.leb_le, Hiv|]. wp_step. wp_step.
  destruct (create_nonce_ok (km_iv km) pkt_num Hiv) as [nonce ->]. cbn [wpe].
  destruct (decrypt _ _ _ _ _) as [pt|e] eqn:Hd.
  - destruct (ao_len _ _ _ Ha _ _ _ _ _ _ Hd) as [Hpt Hb]. wp_step. apply wp_assert; [by apply Z.leb_le|]. wp_step.
    apply HQ; [done | done | lia | by eapply ao_frames].
  - destruct (_ =? _); wp_go; by apply HE.
Qed.

(** ** Packets *)

Lemma rx_key_of : key_of conn_rx_ckm.
Proof. split; [|done]. intros c. unfold conn_keys. set_solver. Qed.
Lemma early_key_of : key_of conn_early_ckm.
Proof. split; [|done]. intros c. unfold conn_keys. set_solver. Qed.
Lemma hs_rx_key_of : key_of conn_hs_rx_ckm.
Proof. split; [|done]. intros c. unfold conn_keys. set_solver. Qed.

Context (Haead : aead_ok (cb_decrypt cb) P) (Hhs : aead_ok (cb_hs_decrypt cb) (fun fr => P fr /\ short_ack fr)).

Lemma recv_protected_payload_ok hd payload ad ts c :
  all_bytes payload -> zlen payload < 2 ^ 62 -> num (hd_pkt_num hd) -> J c ->
  is_Some (if has_bit (hd_flags hd) NGTCP2_PKT_FLAG_LONG_FORM then conn_early_ckm c else conn_rx_ckm c) ->
  wp (conn_recv_protected_payload cb hd payload ad ts) (fun _ => J) (fun _ _ => True) c.
Proof.
  intros Hb Hl Hnum Hok Hkey. unfold conn_recv_protected_payload, conn_open_protected_pkt.
  set (long := has_bit _ _) in *. wp_step. wp_step. wp_step.
  apply (open_pkt_ok _ _ _ _ _ P);
    [done | done | destruct long; [apply early_key_of | apply rx_key_of] | by destruct long | done | |].
  - intros pt c1 Hok1 Hpb Hpl Hfr. wp_step. revert c1 Hok1. apply handler_bind.
    { destruct long; [apply handler_ret | apply ri_flag]. }
    intros _. apply handler_get. intros c2. destruct (_ && _); [apply handler_ret|].
    apply handler_bind; [by apply recv_frames_ok; [lia|..]|].
    intros ra. apply handler_bind; [by apply ri_num|]. intros _. by apply ri_sched.
  - intros e c1 Hok1. wp_step. wp_step; [done|]. wp_step. wp_step.
    eapply wp_mono; [by apply ri_reset | |].
    + intros [] c2 Hok2. simpl. by wp_go.
    + intros rv c2 Hok2. cbv beta. destruct (rv =? 0); wp_step; [by apply wp_ret | done].
Qed.

Lemma recv_delayed_pkt_ok hd payload ad ts c :
  all_bytes payload -> zlen payload < 2 ^ 62 -> num (hd_pkt_num hd) -> J c -> is_Some (conn_hs_rx_ckm c) ->
  wp (conn_recv_delayed_handshake_pkt cb hd payload ad ts) (fun _ => J) (fun _ _ => True) c.
Proof.
  intros Hb Hl Hnum Hok Hkey. unfold conn_recv_delayed_handshake_pkt. wp_step. wp_step.
  match goal with |- context [if ?b then mret tt else _] => destruct b; [by wp_go|] end. wp_step.
  apply (open_pkt_ok _ _ _ _ _ (fun fr => P fr /\ short_ack fr)); [done | done | apply hs_rx_key_of | done | done | | done].
  intros pt c1 Hok1 Hpb Hpl Hfr. revert c1 Hok1. apply handler_bind; [by apply recv_delayed_frames_ok; [lia|..]|].
  intros ra. apply handler_bind; [by apply ri_num|]. intros _. by apply ri_sched.
Qed.

(** What the callback for a packet leaves of the keys. *)
Lemma recv_pkt_cb_ok hd c (Q : unit -> ngtcp2_conn A -> Prop) :
  J c -> (forall c', J c' -> conn_frame c c' -> Q tt c') ->
  wp (conn_call_recv_pkt cb hd) Q (fun _ _ => True) c.
Proof.
  intros HJc HQ. pose proof (conn_call_quiet av _ hd (cbo_recv_pkt _ _ Hcb) true None c (ri_ok _ HJc)) as Hcall.
  eapply wp_mono; [exact (wp_and _ _ _ _ _ _ (ri_recv_pkt hd c HJc) Hcall) | | done].
  intros [] c' [HJ' [_ [Hf _]]]. by apply HQ.
Qed.

(** The packet number recovered from the header of the next packet. *)
Definition num_next c : Prop := forall pkt_num bits, is_uint 32 pkt_num -> bits = 8 \/ bits = 16 \/ bits = 32 ->
  num (ngtcp2_pkt_adjust_pkt_num (conn_max_rx_pkt_num c) pkt_num bits).

(** The header fits the first byte. *)
Definition hd_form (hd : ngtcp2_pkt_hd) : Prop :=
  hd_flags hd = NGTCP2_PKT_FLAG_LONG_FORM \/
  (has_bit (hd_flags hd) NGTCP2_PKT_FLAG_LONG_FORM = false /\
   (hd_type hd = NGTCP2_PKT_01 \/ hd_type hd = NGTCP2_PKT_02 \/ hd_type hd = NGTCP2_PKT_03)).

Lemma recv_pkt_hd_ok hd nread pkt ts c :
  all_bytes pkt -> zlen pkt < 2 ^ 62 -> 1 <= nread <= zlen pkt -> hd_form hd -> is_uint 32 (hd_pkt_num hd) ->
  num_next c -> J c -> is_Some (conn_hs_rx_ckm c) -> is_Some (conn_rx_ckm c) ->
  wp (conn_recv_pkt_hd cb hd nread pkt ts) (fun _ => J) (fun _ _ => True) c.
Proof.
  intros Hb Hl Hn Hform Hpn Hnum Hok Hk1 Hk2. unfold conn_recv_pkt_hd. wp_step. wp_step.
  apply wpe_rdn; [done | lia|]. intros ad _ _ _. wp_step. wp_step. apply wpe_adv; [done | lia|].
  intros payload _ Hpl Hpb. wp_step. wp_step.
  assert (Hbits : exists bits, (bits = 8 \/ bits = 16 \/ bits = 32) /\ (if has_bit (hd_flags hd) NGTCP2_PKT_FLAG_LONG_FORM then Ok 32
    else short_pkt_num_bits (hd_type hd)) = Ok bits).
  { destruct Hform as [-> | [-> Ht]]; [exists 32; tauto|]. unfold short_pkt_num_bits.
    destruct Ht as [-> | [-> | ->]]; [exists 8 | exists 16 | exists 32]; tauto. }
  destruct Hbits as (bits & Hbits & ->). cbn [wpe]. wp_step. wp_step. wp_step.
  apply recv_pkt_cb_ok; [done|]. intros c1 Hok1 [Hf1 Hf2]%af_keys. wp_step. wp_step.
  change (hd_flags (set_hd_pkt_num hd ?x)) with (hd_flags hd).
  destruct (has_bit (hd_flags hd) NGTCP2_PKT_FLAG_LONG_FORM) eqn:Hlong; simpl hd_pkt_num.
  - destruct (_ || _); [apply recv_delayed_pkt_ok; auto; [lia | by apply Hnum]|]. destruct (_ =? _); [|by wp_go].
    destruct (_ || _); [by wp_go|]. destruct (conn_early_ckm c1) eqn:Hk; [|by wp_go].
    rewrite bool_decide_false by done. apply recv_protected_payload_ok; [done | lia | by apply Hnum | done|].
    simpl. rewrite Hlong, Hk. by eexists.
  - apply recv_protected_payload_ok; [done | lia | by apply Hnum | done|]. simpl. rewrite Hlong. auto.
Qed.

Lemma recv_pkt_ok pkt ts c :
  all_bytes pkt -> 1 <= zlen pkt < 2 ^ 62 -> num_next c -> J c ->
  is_Some (conn_hs_rx_ckm c) -> is_Some (conn_rx_ckm c) ->
  wp (conn_recv_pkt cb pkt ts) (fun _ => J) (fun _ _ => True) c.
Proof.
  intros Hb Hl Hnum Hok Hk1 Hk2. unfold conn_recv_pkt. wp_step. wp_step.
  apply wpe_rd; [done | lia|]. intros b _ _. wp_step. wp_step.
  destruct (has_bit b NGTCP2_HEADER_FORM_BIT); wp_step; wp_step.
  - eapply wpe_mono; [by apply decode_hd_long_safe | | done]. intros [hd n] [[Hwf Hn] Hf].
    destruct (_ =? _); [destruct (_ || _); [by wp_go | by apply recv_pkt_cb_ok]|].
    destruct (negb _); [by wp_go|]. apply recv_pkt_hd_ok; try done; [lia | by left | apply Hwf].
  - eapply wpe_mono; [apply decode_hd_short_safe; [done | lia] | | done]. intros [hd n] [[Hwf Hn] Hf].
    wp_step. wp_step; [done|]. apply recv_pkt_hd_ok; try done; [lia | by right | apply Hwf].
Qed.
End Packets.

(** Any datagram, once the handshake packets have been read. *)
Lemma recv_ok {A} (av : app_view A) (cb : ngtcp2_conn_callbacks A) c pkt ts :
  callbacks_ok av cb -> aead_ok av (cb_decrypt cb) (fun _ => True) -> aead_ok av (cb_hs_decrypt cb) short_ack ->
  all_bytes pkt -> zlen pkt < 2 ^ 62 -> conn_ok av true None c ->
  conn_state c ∈ [NGTCP2_CS_CLIENT_HANDSHAKE_ALMOST_FINISHED; NGTCP2_CS_POST_HANDSHAKE;
    NGTCP2_CS_CLOSING; NGTCP2_CS_DRAINING] ->
  is_Some (conn_hs_rx_ckm c) -> is_Some (conn_rx_ckm c) ->
  wp (ngtcp2_conn_recv cb pkt ts) (fun _ => conn_ok av true None) (fun _ _ => True) c.
Proof.
  intros Hcb H1 H2 Hb Hl Hok Hst Hk1 Hk2. unfold ngtcp2_conn_recv. wp_step. wp_step; [done|].
  apply Z.eqb_neq in H. zfacts. wp_step. wp_step.
  pose proof (conn_recv_inv av cb Hcb).
  assert (wp (conn_recv_pkt cb pkt ts) (fun _ => conn_ok av true None) (fun _ _ => True) c) as Hrecv
    by (apply (recv_pkt_ok av cb Hcb _ (fun _ => True) (fun _ => True)); try done;
        [eapply aead_ok_mono; [exact H2 | done] | lia]).
  rewrite !elem_of_cons, elem_of_nil in Hst. destruct Hst as [->|[->|[->|[->|[]]]]]; try done; by wp_go.
Qed.
