(* ===== verification/ConnReady.v ===== *)
(** What sending relies on, and that no call and no packet breaks it.

    [conn_ok] is about the streams and the data received. The frames that wait to be
    sent or acknowledged, and the counters that go into frames, headers and timers,
    are the matter of [ready]. The lemmas here are about partial correctness: a
    function that returns leaves the connection ready; that it returns follows from
    [conn_ok]. *)

From S2P Require Import Prelude Conv Frame PktDecode PktEncode PktHd Mem Monad Range Gaptr Idtr Ringbuf.
From S2P Require Import AckScan Acktr Pq Rtb Map Rob Crypto Ppe Strm Err Conn ConnApp.
From S2P Require Import ConnAck ConnInv ConnStream ConnRecv ConnSend ConnState ConnFrames ConnPkt.

(** ** Frames and packets *)

(** A frame that can be sent again at any time. STOP_SENDING is not one: when it is
    dropped, the code writes the frame that follows it, and there may be none. *)
Definition sendable (fr : ngtcp2_frame) : Prop :=
  wf_frame fr /\ match fr with fr_stop_sending _ _ => False | _ => True end.

(** A packet of the retransmission buffer: its timer has been doubled no more often
    than the time that has passed allows. *)
Record sent_entry (e : ngtcp2_rtb_entry) : Prop := {
  se_frc : Forall sendable (re_frc e);
  se_hd : wf_hd_out (re_hd e);
  se_count : 0 <= re_count e /\ (re_count e = 0 \/ NGTCP2_INITIAL_EXPIRY * 2 ^ re_count e <= re_expiry e);
  se_len : 0 <= re_pktlen e
}.

(** The counters of a stream, and the size of the chunks of its reorder buffer. *)
Record strm_ready (strm : ngtcp2_strm Z) : Prop := {
  sr_id : is_uint 62 (strm_stream_id strm);
  sr_tx : 0 <= strm_tx_offset strm <= strm_max_tx_offset strm /\ strm_max_tx_offset strm < 2 ^ 62;
  sr_unsent : is_uint 62 (strm_unsent_max_rx_offset strm);
  sr_rob : small_chunks NGTCP2_MAX_VARINT (strm_rob strm)
}.

Definition send_key (ckm : option ngtcp2_crypto_km) : Prop :=
  exists km, ckm = Some km /\ 8 <= zlen (km_iv km) <= 32.

(** The calls an application makes once the handshake is over. It does not ask the
    peer to stop sending, and the credit it gives at a time is an offset. *)
Definition call_live (call : api_call) : Prop :=
  match call with
  | api_set_aead_overhead _ | api_update_early_keys _ _ | api_set_remote_transport_params _ _
  | api_set_early_remote_transport_params _ | api_shutdown_stream _ _ | api_shutdown_stream_read _ _ => False
  | api_extend_max_stream_offset _ datalen => u64 datalen <= NGTCP2_MAX_VARINT
  | _ => True
  end.

Fixpoint prog_live {A R} (p : prog A R) : Prop :=
  match p with
  | p_ret _ => True
  | p_call call k => call_live call /\ forall rv c, prog_live (k rv c)
  end.

Definition live_opt {A X} (f : option (ngtcp2_conn A -> X -> prog A (A * Z))) : Prop :=
  forall g, f = Some g -> forall c y, prog_live (g c y).

(** The callbacks for received packets and for the progress of streams make such
    calls, the one for stream data at least when it is given no more data than a
    stream has; those that are told of sent packets and frames do not fail either. *)
Definition told {A X} (f : option (ngtcp2_conn A -> X -> prog A (A * Z))) : Prop :=
  live_opt f /\ forall g, f = Some g -> forall c y, prog_ends (fun r => r.2 = 0) (g c y).

Record callbacks_live {A} (cb : ngtcp2_conn_callbacks A) : Prop := {
  cl_recv_stream_data : forall g, cb_recv_stream_data cb = Some g ->
    forall c y, zlen y.1.2 <= NGTCP2_MAX_VARINT -> prog_live (g c y);
  cl_stream_close : live_opt (cb_stream_close cb);
  cl_extend_max_stream_id : live_opt (cb_extend_max_stream_id cb);
  cl_acked_stream_data_offset : live_opt (cb_acked_stream_data_offset cb);
  cl_recv_pkt : live_opt (cb_recv_pkt cb);
  cl_recv_frame : live_opt (cb_recv_frame cb);
  cl_recv_stateless_reset : live_opt (cb_recv_stateless_reset cb);
  cl_send_pkt : told (cb_send_pkt cb);
  cl_send_frame : told (cb_send_frame cb)
}.

(** A stream in the hands of a function: that it is not stream 0, and the limits of
    the data sent on it and on the connection that have been read. *)
Record focus := mk_focus {
  fo_strm : positive;
  fo_nonzero : bool;
  fo_max_tx : Z;
  fo_conn_max : Z
}.
Definition in_focus (f : focus) (strm : ngtcp2_strm Z) : Prop :=
  (fo_nonzero f = true -> strm_stream_id strm <> 0) /\ fo_max_tx f <= strm_max_tx_offset strm.

(** ** The invariant *)

Section Ready.
Context {A : Type} (cb : ngtcp2_conn_callbacks A).
Context (decrypt hs_decrypt : bytes -> bytes -> bytes -> bytes -> option bytes).
Implicit Types (c : ngtcp2_conn A) (strm : ngtcp2_strm Z).

(** [n] is the number of the last packet sent; the ACK frames that wait for an
    acknowledgement went out in packets up to [N]. [bound] limits the numbers of
    received packets and the bytes in flight. What the function has read of the
    stream [x], if any, still holds. *)
Record ready (bound n N : Z) (x : option focus) c : Prop := {
  rd_frq : Forall sendable (conn_frq c);
  rd_ents : map_Forall (fun _ e => sent_entry e) (conn_rtb_heap c);
  rd_strms : map_Forall (fun _ s => strm_ready s) (conn_strm_heap c);
  rd_x : forall f, x = Some f -> (fo_strm f < conn_next c)%positive /\ fo_conn_max f <= conn_max_tx_offset c /\
    forall s, conn_strm_heap c !! fo_strm f = Some s -> in_focus f s;
  rd_credit : 0 <= conn_tx_offset c <= conn_max_tx_offset c /\ conn_max_tx_offset c < 2 ^ 62;
  rd_unsent : is_uint 62 (conn_unsent_max_rx_offset c) /\
    is_uint 62 (conn_unsent_max_remote_stream_id_bidi c) /\ is_uint 62 (conn_unsent_max_remote_stream_id_uni c);
  rd_next : 0 <= conn_next_local_stream_id_bidi c /\ 0 <= conn_next_local_stream_id_uni c /\
    conn_max_local_stream_id_bidi c < 2 ^ 62 /\ conn_max_local_stream_id_uni c < 2 ^ 62;
  rd_settings : is_uint 62 (s_max_stream_data (conn_local_settings c)) /\
    is_uint 62 (s_max_stream_data (conn_remote_settings c)) /\
    2 <= s_ack_delay_exponent (conn_local_settings c);
  rd_acks : exists al, wf_acktr (conn_acktr c) al /\ rb_nmemb (acks (conn_acktr c)) = 128 /\
    Forall (fun e => aa_pkt_num e <= N) al;
  rd_received : Forall (fun e => 0 <= ae_pkt_num e <= bound) (ent (conn_acktr c)) /\
    0 <= conn_max_rx_pkt_num c <= bound;
  rd_bytes : rtb_bytes_in_flight (conn_rtb c) <= bound;
  rd_num : conn_last_tx_pkt_num c = n;
  rd_ids : is_uint 64 (conn_conn_id c) /\ is_uint 64 (conn_client_conn_id c) /\ is_uint 32 (conn_version c);
  rd_keys : send_key (conn_tx_ckm c) /\ send_key (conn_hs_tx_ckm c) /\
    (forall km, conn_early_ckm c = Some km -> zlen (km_iv km) <= 32);
  rd_rx_keys : is_Some (conn_hs_rx_ckm c) /\ is_Some (conn_rx_ckm c);
  rd_aead : 0 <= conn_aead_overhead c /\ aead (conn_aead_overhead c) (cb_encrypt cb) decrypt /\
    aead NGTCP2_HANDSHAKE_AEAD_OVERHEAD (cb_hs_encrypt cb) hs_decrypt
}.
(** ** Functions that leave the connection ready *)

Section Keeps.
Context (bound n N : Z) (x : option focus).
Abbreviation I := (ready bound n N x).

(** Started in a connection that is ready, [m] leaves it ready whatever it returns;
    its values satisfy [Q]. *)
Definition keeps {B} (m : M (ngtcp2_conn A) B) (Q : B -> Prop) : Prop :=
  forall c, I c -> match m c with ret b c' => I c' /\ Q b | fail _ c' => I c' | undef => True end.

Lemma keeps_weaken {B} (m : M (ngtcp2_conn A) B) (Q Q' : B -> Prop) :
  keeps m Q -> (forall b, Q b -> Q' b) -> keeps m Q'.
Proof. intros Hm HQ c Hc. specialize (Hm c Hc). destruct (m c); [|done..]. destruct Hm. auto. Qed.
Lemma keeps_bind {B C} (m : M (ngtcp2_conn A) B) (k : B -> M (ngtcp2_conn A) C) Q R :
  keeps m Q -> (forall b, Q b -> keeps (k b) R) -> keeps (m ≫= k) R.
Proof.
  intros Hm Hk c Hc. unfold mbind, M_bind. specialize (Hm c Hc). destruct (m c) as [b c'|e c'|]; [|done|done].
  destruct Hm as [Hc' Hb]. by apply (Hk b Hb c' Hc').
Qed.
Lemma keeps_ret {B} (b : B) (Q : B -> Prop) : Q b -> keeps (mret b) Q.
Proof. intros Hb c Hc. by split. Qed.
Lemma keeps_throw {B} e (Q : B -> Prop) : keeps (throw e) Q.
Proof. by intros c Hc. Qed.
Lemma keeps_undefined {B} (Q : B -> Prop) : keeps undefined Q.
Proof. by intros c Hc. Qed.
Lemma keeps_get : keeps get I.
Proof. by intros c Hc. Qed.
Lemma keeps_gets {B} (f : _ -> B) : keeps (gets f) (fun b => exists c, I c /\ b = f c).
Proof. intros c Hc. split; [done | by exists c]. Qed.
Lemma keeps_modify f (Q : unit -> Prop) : Q tt -> (forall c, I c -> I (f c)) -> keeps (modify f) Q.
Proof. intros HQ Hf c Hc. split; [by apply Hf | done]. Qed.
Lemma keeps_lift {B} (r : res B) : keeps (lift r) (fun b => r = Ok b).
Proof. intros c Hc. unfold lift. by destruct r. Qed.
Lemma keeps_throw_if b e : keeps (throw_if b e) (fun _ => b = false).
Proof. intros c Hc. by destruct b. Qed.
Lemma keeps_check rv : keeps (check rv) (fun _ => rv = 0).
Proof. intros c Hc. unfold check. by destruct (Z.eqb_spec rv 0). Qed.
Lemma keeps_assert b : keeps (assert_ b) (fun _ => b = true).
Proof. intros c Hc. by destruct b. Qed.
Lemma keeps_fmap {B C} (f : B -> C) (m : M (ngtcp2_conn A) B) Q (R : C -> Prop) :
  keeps m Q -> (forall b, Q b -> R (f b)) -> keeps (f <$> m) R.
Proof. intros Hm HR. eapply keeps_bind; [done|]. intros b Hb. apply keeps_ret. auto. Qed.
Lemma keeps_attempt {B} (m : M (ngtcp2_conn A) B) Q :
  keeps m Q -> keeps (attempt m) (fun r => match r with inl b => Q b | inr _ => True end).
Proof. intros Hm c Hc. unfold attempt. specialize (Hm c Hc). by destruct (m c). Qed.
Lemma keeps_ignore {B} (m : M (ngtcp2_conn A) B) Q : keeps m Q -> keeps (ignore m) (fun _ => True).
Proof. intros Hm. eapply keeps_bind; [by apply keeps_attempt|]. intros b _. by apply keeps_ret. Qed.
Lemma keeps_status {B} (m : M (ngtcp2_conn A) B) Q : keeps m Q -> keeps (status m) (fun _ => True).
Proof. intros Hm. eapply keeps_bind; [by apply keeps_attempt|]. intros b _. by apply keeps_ret. Qed.
End Keeps.
End Ready.

Create HintDb keep.
#[export] Hint Resolve keeps_throw keeps_undefined keeps_get keeps_gets keeps_lift keeps_throw_if keeps_check
  keeps_assert : keep.
#[export] Hint Extern 2 (keeps _ _ _ _ _ _ _ (mret _) _) => apply keeps_ret; solve [auto] : keep.

(** [keep_rd]: a change of members that [ready] does not mention, or that keeps what
    it says of them by the context. *)
Ltac keep_rd :=
  let c := fresh in let H := fresh in
  intros c H; destruct H; split; try assumption; simpl in *; auto.

(** One step through a function: the lemmas in the hint database give what is known
    of a value; definitions that have no lemma are unfolded. *)
Ltac keep_lemma := solve [auto 4 with keep | eapply keeps_weaken; [solve [eauto 3 with keep] | done]].
Ltac keep_step :=
  lazymatch goal with
  | |- forall _, _ => intros
  | |- keeps _ _ _ _ _ _ _ (mbind _ ?m) _ =>
      first [ eapply keeps_bind; [solve [eauto 4 with keep]|]; cbv beta; intros
            | eapply (keeps_bind _ _ _ _ _ _ _ m _ (fun _ => True)); [|] ]
  | |- keeps _ _ _ _ _ _ _ (fmap _ _) (fun _ => True) => eapply (keeps_fmap _ _ _ _ _ _ _ _ _ (fun _ => True)); [|done]
  | |- keeps _ _ _ _ _ _ _ (attempt _) (fun _ => True) =>
      eapply keeps_weaken; [apply (keeps_attempt _ _ _ _ _ _ _ _ (fun _ => True))|done]
  | |- keeps _ _ _ _ _ _ _ (ignore _) (fun _ => True) => apply (keeps_ignore _ _ _ _ _ _ _ _ (fun _ => True))
  | |- keeps _ _ _ _ _ _ _ (status _) (fun _ => True) => apply (keeps_status _ _ _ _ _ _ _ _ (fun _ => True))
  | |- keeps _ _ _ _ _ _ _ (modify _) _ =>
      first [ keep_lemma | apply keeps_modify; [done | solve [keep_rd]] ]
  | |- keeps _ _ _ _ _ _ _ (match ?y with _ => _ end) _ => destruct y eqn:?
  | |- keeps _ _ _ _ _ _ _ (let _ := _ in _) _ => cbv zeta
  | |- keeps _ _ _ _ _ _ _ ?m _ => first [ keep_lemma | let h := head_of m in unfold h ]
  end.
Ltac keep := repeat keep_step.

Section Functions.
Context {A : Type} (cb : ngtcp2_conn_callbacks A).
Context (decrypt hs_decrypt : bytes -> bytes -> bytes -> bytes -> option bytes).
Context (bound n N : Z) (x : option focus).
Implicit Types (c : ngtcp2_conn A) (strm : ngtcp2_strm Z).
Abbreviation I := (ready cb decrypt hs_decrypt bound n N x).
Abbreviation keeps := (keeps cb decrypt hs_decrypt bound n N x).

(** ** Objects *)

(** A stream as it is stored at [p]. *)
Definition fits (p : positive) strm : Prop :=
  strm_ready strm /\ (forall f, x = Some f -> p = fo_strm f -> in_focus f strm).

(** The stream at [p] is new. *)
Definition apart_from_x (p : positive) : Prop := forall f, x = Some f -> p <> fo_strm f.

Lemma mem_ready m c : I c -> I (set_conn_mem m c).
Proof. revert c. keep_rd. Qed.

Lemma keeps_with_mem {B} (f : mem -> res B * mem) : keeps (with_mem f) (fun b => exists m, (f m).1 = Ok b).
Proof.
  intros c Hc. unfold with_mem. destruct (f (conn_mem c)) as [r m] eqn:Hf.
  apply (mem_ready m) in Hc. unfold lift. destruct r; [|done..]. split; [done|]. exists (conn_mem c). by rewrite Hf.
Qed.

Lemma keeps_load_strm p : keeps (load_strm p) (fits p).
Proof.
  intros c Hc. unfold load_strm. destruct (_ !! p) as [s|] eqn:Hs; [|done]. split; [done|]. split.
  - by apply (rd_strms _ _ _ _ _ _ _ _ Hc p).
  - intros f Hx ->. by apply (rd_x _ _ _ _ _ _ _ _ Hc f Hx).
Qed.

Lemma insert_strm_ready p strm c : fits p strm -> I c -> I (set_conn_strm_heap (<[p := strm]> (conn_strm_heap c)) c).
Proof.
  intros [Hs Hx] []. split; try assumption; simpl.
  - by apply map_Forall_insert_2.
  - intros f Hf. destruct (rd_x0 f Hf) as (? & ? & Hid). split; [done|]. split; [done|]. intros s.
    destruct (decide (fo_strm f = p)) as [<-|]; [|rewrite lookup_insert_ne by done; apply Hid].
    rewrite lookup_insert_eq. intros [= <-]. auto.
Qed.

Lemma keeps_store_strm p strm : fits p strm -> keeps (store_strm p strm) (fun _ => True).
Proof.
  intros Hs. eapply keeps_bind; [apply keeps_load_strm|]. intros _ _. apply keeps_modify; [done|].
  intros c. by apply insert_strm_ready.
Qed.

Lemma keeps_update_strm p f : (forall strm, fits p strm -> fits p (f strm)) -> keeps (update_strm p f) (fun _ => True).
Proof. intros Hf. eapply keeps_bind; [apply keeps_load_strm|]. intros s Hs. apply keeps_store_strm. auto. Qed.

Lemma keeps_free_strm p : keeps (free_strm p) (fun _ => True).
Proof.
  eapply keeps_bind; [apply keeps_load_strm|]. intros _ _. apply keeps_modify; [done|]. intros c [].
  split; try assumption; simpl.
  - by apply map_Forall_delete.
  - intros f Hf. destruct (rd_x0 f Hf) as (? & ? & Hid). split; [done|]. split; [done|].
    intros s [_ ?]%lookup_delete_Some. by apply Hid.
Qed.

Lemma keeps_load_ent p : keeps (load_ent p) sent_entry.
Proof.
  intros c Hc. unfold load_ent. destruct (_ !! p) as [e|] eqn:He; [|done]. split; [done|].
  by apply (rd_ents _ _ _ _ _ _ _ _ Hc p).
Qed.

Lemma keeps_frq_push fr : sendable fr -> keeps (conn_frq_push fr) (fun _ => True).
Proof.
  intros Hf. apply keeps_modify; [done|]. intros c []. split; try assumption. by constructor.
Qed.

Lemma keeps_new_address : keeps new_address apart_from_x.
Proof.
  unfold new_address. eapply keeps_bind; [apply keeps_with_mem|]. intros _ _.
  intros c Hc. unfold mbind, M_bind, get, throw_if, gets, modify. destruct (_ <=? _); [done|].
  change (I (set_conn_next (Pos.succ (conn_next c)) c) /\ apart_from_x (conn_next c)). split.
  - destruct Hc. split; try assumption. intros f Hf. destruct (rd_x0 f Hf) as [? ?]. split; [simpl; lia | done].
  - intros f Hx Heq. destruct (rd_x _ _ _ _ _ _ _ _ Hc _ Hx) as [? _]. lia.
Qed.

(** ** Streams *)

#[local] Hint Resolve keeps_with_mem keeps_load_strm keeps_free_strm keeps_load_ent keeps_new_address : keep.

(** A stream that differs from a stored one in other members. *)
Ltac fits :=
  match goal with H : fits ?p ?s |- fits ?p _ =>
    let Hx := fresh "Hx" in destruct H as [[] Hx]; split; [split; simpl in *; auto | try exact Hx] end.
#[local] Hint Extern 1 (keeps (store_strm _ _) _) => apply keeps_store_strm; solve [fits] : keep.
#[local] Hint Extern 1 (keeps (update_strm _ _) _) =>
  apply keeps_update_strm; intros; solve [fits] : keep.
#[local] Hint Extern 1 (keeps (conn_frq_push _) _) =>
  apply keeps_frq_push; solve [auto with keep] : keep.

Lemma keeps_strms_insert p : keeps (conn_strms_insert p) (fun _ => True).
Proof. keep. Qed.
Lemma keeps_strms_remove key : keeps (conn_strms_remove key) (fun _ => True).
Proof. keep. Qed.

Lemma keeps_idtr_open id : keeps (conn_idtr_open id) (fun _ => True).
Proof.
  unfold conn_idtr_open. keep. apply keeps_modify; [done|]. unfold set_conn_idtr. destruct (bidi_stream id); keep_rd.
Qed.
#[local] Hint Resolve keeps_strms_insert keeps_strms_remove keeps_idtr_open : keep.

Lemma keeps_strm_init p id max_rx max_tx ud :
  apart_from_x p -> is_uint 62 id -> is_uint 62 max_rx -> is_uint 62 max_tx ->
  keeps (conn_strm_init p id max_rx max_tx ud) (fun _ => True).
Proof.
  intros Hp Hid Hr Ht. unfold conn_strm_init. eapply keeps_bind; [apply keeps_with_mem|]. intros s [m Hs].
  apply keeps_modify; [done|]. intros c. apply insert_strm_ready.
  unfold ngtcp2_strm_init in Hs. destruct (ngtcp2_gaptr_init m) as [[g| |] m1]; [|done..].
  destruct (ngtcp2_rob_init m1 _) as [[rob| |] m2] eqn:Hrob; [|done..]. injection Hs as <-.
  split; [split; simpl; [done | clia | done |]|intros f Hf ->; by destruct (Hp f Hf)].
  eapply rob_init_chunks; [|exact Hrob]. unfold NGTCP2_MAX_VARINT. lia.
Qed.

Lemma keeps_init_stream p id ud : apart_from_x p -> is_uint 62 id ->
  keeps (ngtcp2_conn_init_stream p id ud) (fun _ => True).
Proof.
  intros Hp Hid. unfold ngtcp2_conn_init_stream. eapply keeps_bind; [apply keeps_get|]. intros c [].
  eapply keeps_bind; [apply keeps_strm_init; tauto|]. intros _ _. keep.
Qed.

Lemma keeps_open_bidi ud : keeps (ngtcp2_conn_open_bidi_stream ud) (fun _ => True).
Proof.
  unfold ngtcp2_conn_open_bidi_stream. eapply keeps_bind; [apply keeps_get|]. intros c [].
  eapply keeps_bind; [apply keeps_throw_if|]. intros _ Hle%Z.ltb_ge.
  eapply keeps_bind; [apply keeps_new_address|]. intros p Hp.
  eapply keeps_bind; [apply keeps_init_stream; [done | clia]|]. intros _ _.
  eapply keeps_bind; [apply keeps_modify with (Q := fun _ => True)|]; [done | | keep].
  keep_rd. split_and!; [apply u64_range | tauto..].
Qed.

Lemma keeps_open_uni ud : keeps (ngtcp2_conn_open_uni_stream ud) (fun _ => True).
Proof.
  unfold ngtcp2_conn_open_uni_stream. eapply keeps_bind; [apply keeps_get|]. intros c [].
  eapply keeps_bind; [apply keeps_throw_if|]. intros _ Hle%Z.ltb_ge.
  eapply keeps_bind; [apply keeps_new_address|]. intros p Hp.
  eapply keeps_bind; [apply keeps_init_stream; [done | clia]|]. intros _ _.
  eapply keeps_bind; [apply keeps_update_strm; intros; fits|]. intros _ _.
  eapply keeps_bind; [apply keeps_modify with (Q := fun _ => True)|]; [done | | keep].
  keep_rd. split_and!; [tauto | apply u64_range | tauto..].
Qed.
#[local] Hint Resolve keeps_open_bidi keeps_open_uni : keep.

Lemma keeps_find_stream id : keeps (ngtcp2_conn_find_stream id) (fun _ => True).
Proof. keep. Qed.
#[local] Hint Resolve keeps_find_stream : keep.

Lemma keeps_rst_stream p code : is_uint 16 code -> keeps (conn_rst_stream p code) (fun _ => True).
Proof.
  intros Hcode. unfold conn_rst_stream. keep. apply keeps_frq_push. destruct H0 as [[] _]. split; [|done].
  split_and!; simpl; [done | done | clia].
Qed.

Lemma keeps_shutdown_write p code : is_uint 16 code -> keeps (conn_shutdown_stream_write p code) (fun _ => True).
Proof. intros Hcode. pose proof (keeps_rst_stream p code Hcode). unfold conn_shutdown_stream_write. keep. Qed.

Lemma keeps_extend_offset p datalen : 0 <= datalen <= NGTCP2_MAX_VARINT ->
  keeps (conn_extend_max_stream_offset p datalen) (fun _ => True).
Proof.
  intros Hd. unfold conn_extend_max_stream_offset. eapply keeps_bind; [apply keeps_load_strm|]. intros s Hs.
  eapply keeps_bind; [apply keeps_store_strm|intros; keep].
  destruct (Z.leb_spec (strm_unsent_max_rx_offset s) (u64 (NGTCP2_MAX_VARINT - datalen))) as [Hle|]; [|done].
  destruct Hs as [[] ?]. unfold NGTCP2_MAX_VARINT in *. rewrite u64_small in Hle by clia.
  split; [split|]; simpl; [done | done | rewrite u64_small; clia | done | done].
Qed.

(** ** The calls of the API *)

Lemma keeps_get_stream id : keeps (conn_get_stream id) (fun _ => True).
Proof. keep. Qed.
#[local] Hint Resolve keeps_get_stream : keep.

Lemma keeps_extend_max_offset datalen : keeps (ngtcp2_conn_extend_max_offset (u64 datalen)) (fun _ => True).
Proof.
  apply keeps_modify; [done|]. intros c Hc. destruct (_ || _) eqn:Hb; revert c Hc Hb; intros c [] Hb;
    (split; try assumption); (split; [|apply rd_unsent0]); simpl; [done|].
  apply orb_false_iff in Hb as [H1%Z.ltb_ge H2%Z.ltb_ge]. pose proof (u64_range datalen).
  destruct rd_unsent0 as [? _]. unfold NGTCP2_MAX_VARINT in *. rewrite u64_small in H2 by clia.
  rewrite u64_small; clia.
Qed.

Lemma keeps_set_keys (ckm : ngtcp2_conn A -> option ngtcp2_crypto_km) set key iv :
  (forall c, I c -> is_Some (ckm c)) -> keeps (set_keys ckm set key iv) (fun _ => True).
Proof.
  intros Hs. unfold set_keys. eapply keeps_bind; [apply keeps_get|]. intros c Hc.
  destruct (Hs c Hc) as [km ->]. apply keeps_throw.
Qed.

Lemma send_key_some ckm : send_key ckm -> is_Some ckm.
Proof. intros (km & -> & _). by eexists. Qed.

Lemma keeps_get_local_params v exttype : keeps (ngtcp2_conn_get_local_transport_params v exttype) (fun _ => True).
Proof.
  unfold ngtcp2_conn_get_local_transport_params. eapply keeps_bind; [apply keeps_get|]. intros c Hc.
  apply (keeps_bind _ _ _ _ _ _ _ _ _ (fun _ => True)); [keep|]. intros w _. simpl.
  eapply keeps_bind; [apply keeps_modify with (Q := fun _ => True)|intros; keep]; [done|].
  keep_rd. destruct Hc. tauto.
Qed.

Lemma keeps_call call : call_live call -> keeps (run_call call) (fun _ => True).
Proof.
  intros Hl. destruct call; simpl in Hl; try done; cbn [run_call].
  all: try (apply keeps_set_keys; intros c []; first [by apply rd_rx_keys0 | apply send_key_some, rd_keys0]).
  all: try (unfold ngtcp2_conn_handshake_completed, ngtcp2_conn_early_data_rejected; keep; fail).
  - eapply keeps_bind; [apply keeps_get_local_params | intros; keep].
  - assert (is_uint 16 (u16 app_error_code)) as Hc by (by apply Z.mod_pos_bound).
    pose proof (fun p => keeps_shutdown_write p _ Hc). unfold ngtcp2_conn_shutdown_stream_write. keep.
  - pose proof (fun p => keeps_extend_offset p _ (conj (proj1 (u64_range datalen)) Hl)).
    unfold ngtcp2_conn_extend_max_stream_offset. keep.
  - apply keeps_extend_max_offset.
Qed.

(** ** Callbacks *)

Lemma keeps_prog {R} (p : prog A R) : prog_live p -> keeps (run_prog p) (fun _ => True).
Proof.
  induction p as [r|call k IH]; simpl; [intros _; by apply keeps_ret|]. intros [Hc Hk].
  eapply keeps_bind; [eapply keeps_status; by apply keeps_call|]. intros rv _.
  eapply keeps_bind; [apply keeps_get|]. intros c _. by apply IH.
Qed.

Lemma keeps_invoke {X} (f : ngtcp2_conn A -> X -> prog A (A * Z)) y :
  (forall c y, prog_live (f c y)) -> keeps (invoke f y) (fun _ => True).
Proof.
  intros Hf. unfold invoke. eapply keeps_bind; [apply keeps_get|]. intros c _.
  eapply keeps_bind; [apply keeps_prog, Hf|]. intros [a rv] _. keep.
Qed.

Lemma keeps_conn_call {X} (f : option (ngtcp2_conn A -> X -> prog A (A * Z))) y :
  live_opt f -> keeps (conn_call f y) (fun _ => True).
Proof.
  intros Hf. destruct f as [f|]; simpl; [|by apply keeps_ret].
  eapply keeps_bind; [apply keeps_invoke; by apply Hf|]. intros rv _. keep.
Qed.

(** ** Frames that concern streams *)

Context (Hlive : callbacks_live cb).

Lemma keeps_extend_remote_id id : keeps (conn_extend_remote_stream_id id) (fun _ => True).
Proof.
  unfold conn_extend_remote_stream_id. eapply keeps_bind; [apply keeps_get|]. intros c Hc.
  assert (Hnext : forall v w idtr, is_uint 62 v -> is_uint 62 (handle_remote_stream_id_extension v w idtr)).
  { intros v w idtr Hv. unfold handle_remote_stream_id_extension. destruct (Z.leb_spec v (NGTCP2_MAX_VARINT - 4)); simpl;
      [|done]. destruct (_ <? _); [|done]. unfold NGTCP2_MAX_VARINT in *. rewrite u64_small; clia. }
  destruct (conn_local_stream c id); [by apply keeps_ret|].
  destruct Hc. destruct (bidi_stream id); (apply keeps_modify; [done|]); keep_rd; split_and!; try tauto; apply Hnext; tauto.
Qed.

Lemma keeps_close_stream p code : keeps (ngtcp2_conn_close_stream_if_shut_rdwr cb p code) (fun _ => True).
Proof.
  pose proof keeps_extend_remote_id.
  pose proof (fun y => keeps_conn_call (cb_stream_close cb) y (cl_stream_close _ Hlive)). keep.
Qed.
#[local] Hint Resolve keeps_close_stream : keep.

Lemma keeps_recv_data p fin data : zlen data <= NGTCP2_MAX_VARINT ->
  keeps (conn_call_recv_stream_data cb p fin data) (fun _ => True).
Proof.
  intros Hlen. unfold conn_call_recv_stream_data. eapply keeps_bind; [apply keeps_load_strm|]. intros s _.
  destruct (cb_recv_stream_data cb) as [f|] eqn:Hf; simpl; [|by apply keeps_ret].
  apply (keeps_bind _ _ _ _ _ _ _ _ _ (fun _ => True)); [|intros rv _; keep]. unfold invoke. eapply keeps_bind; [apply keeps_get|]. intros c _.
  eapply keeps_bind; [apply keeps_prog; by apply (cl_recv_stream_data _ Hlive f Hf)|]. intros [a rv] _. keep.
Qed.

Lemma load_bytes_len bs data : load_bytes bs = Ok data -> zlen data = zlen bs.
Proof.
  unfold load_bytes. destruct (mapM id bs) as [l|] eqn:E; [|done]. intros [= <-].
  apply mapM_Some_1, Forall2_length in E. unfold zlen. by rewrite E.
Qed.

Lemma keeps_emit_loop fuel p off : keeps (emit_loop cb fuel p off) (fun _ => True).
Proof.
  revert off. induction fuel as [|fuel IH]; intros off; simpl; [keep|].
  eapply keeps_bind; [apply keeps_load_strm|]. intros s [[] _]. eapply keeps_bind; [apply keeps_lift|]. intros [datalen bs] Hat.
  destruct (datalen =? 0); [keep|]. eapply keeps_bind; [apply keeps_lift|]. intros data Hdata%load_bytes_len.
  eapply keeps_bind; [apply keeps_recv_data; rewrite Hdata; by eapply rob_data_at_len|]. intros _ _.
  eapply keeps_bind; [apply keeps_load_strm|]. intros s2 Hs2. eapply keeps_bind; [apply keeps_lift|]. intros rob Hrob.
  eapply keeps_bind; [apply keeps_store_strm|intros; apply IH]. pose proof (rob_pop_chunks _ _ _ _ _ (sr_rob _ (proj1 Hs2)) Hrob).
  fits.
Qed.
#[local] Hint Resolve keeps_emit_loop : keep.

Lemma keeps_reordering p fr : keeps (conn_recv_reordering p fr) (fun _ => True).
Proof.
  unfold conn_recv_reordering. eapply keeps_bind; [apply keeps_load_strm|]. intros s Hs.
  eapply keeps_bind; [apply keeps_get|]. intros c _. eapply keeps_bind; [apply keeps_lift|]. intros [[s' rv] m] Heq.
  eapply keeps_bind; [apply keeps_modify with (Q := fun _ => True); [done|]; keep_rd|]. intros _ _.
  eapply keeps_bind; [apply keeps_store_strm|]; [|intros; keep].
  unfold ngtcp2_strm_recv_reordering in Heq. destruct (ngtcp2_rob_push _ _ _ _) as [[[rob rv'] m']| |] eqn:Hpush; [|done..].
  simpl in Heq. injection Heq as <- <- <-. pose proof (rob_push_chunks _ _ _ _ _ _ _ _ (sr_rob _ (proj1 Hs)) Hpush). fits.
Qed.
#[local] Hint Resolve keeps_reordering : keep.

Lemma keeps_cut_frame p fr off : keeps (conn_cut_frame p fr off) (fun r => zlen r.1 <= zlen (stream_data fr)).
Proof.
  unfold conn_cut_frame. cbv zeta. eapply keeps_bind; [apply keeps_lift|]. intros data Hadv.
  eapply (keeps_bind _ _ _ _ _ _ _ _ _ (fun _ => True)).
  - apply keeps_update_strm. intros s Hs.
    pose proof (rob_remove_prefix_chunks _ _ (u64 (off + u64 (zlen (stream_data fr) - u64 (off - stream_offset fr))))
      (sr_rob _ (proj1 Hs))). fits.
  - intros _ _. apply keeps_ret. simpl. revert Hadv. unfold adv. destruct (_ && _); [|done]. intros [= <-].
    unfold zlen. rewrite length_drop. lia.
Qed.

(** Past this point the stream at [p] is not stream 0. *)
Lemma keeps_stream_data p fr off :
  (exists f, x = Some f /\ fo_strm f = p /\ fo_nonzero f = true) -> zlen (stream_data fr) <= NGTCP2_MAX_VARINT ->
  keeps (conn_recv_stream_data cb p fr off) (fun _ => True).
Proof.
  intros (f & Hx & Hp & Hnz) Hlen. unfold conn_recv_stream_data.
  eapply (keeps_bind _ _ _ _ _ _ _ _ _ (fun _ => True)); [|intros; keep].
  destruct (_ <=? _); [|keep].
  eapply keeps_bind; [apply keeps_cut_frame|]. intros [data off'] Hdata. simpl in Hdata.
  pose proof (fun p fin => keeps_recv_data p fin data ltac:(lia)).
  eapply keeps_bind; [apply keeps_load_strm|]. intros s [_ Hne]. rewrite (proj2 (Z.eqb_neq _ _)) by (by apply (Hne f)). keep.
Qed.

Lemma keeps_on_stream p fr fr_end : (exists f, x = Some f /\ fo_strm f = p /\ fo_nonzero f = true) ->
  zlen (stream_data fr) <= NGTCP2_MAX_VARINT ->
  keeps (conn_recv_stream_fc p fr_end;;
         strm ← load_strm p;
         if negb (stream_fin fr =? 0) then conn_recv_stream_fin cb p fr fr_end strm
         else conn_recv_stream_nofin cb p fr fr_end strm) (fun _ => True).
Proof.
  intros Hx Hlen. pose proof (fun off => keeps_stream_data p fr off Hx Hlen).
  pose proof (fun p fin => keeps_recv_data p fin [] ltac:(done)).
  eapply (keeps_bind _ _ _ _ _ _ _ _ _ (fun _ => True)); [keep|]. intros _ _.
  eapply keeps_bind; [apply keeps_load_strm|]. intros s Hs.
  destruct (negb _); [unfold conn_recv_stream_fin | unfold conn_recv_stream_nofin]; keep.
Qed.

Lemma keeps_new_remote id : is_uint 62 id -> keeps (conn_new_remote_stream id) (fun _ => True).
Proof.
  intros Hid. unfold conn_new_remote_stream. eapply keeps_bind; [apply keeps_new_address|]. intros p Hp.
  eapply keeps_bind; [by apply keeps_init_stream|]. intros _ _. keep.
Qed.

Lemma keeps_stream_for_frame id : is_uint 62 id -> keeps (conn_stream_for_frame id) (fun _ => True).
Proof. intros Hid. pose proof (keeps_new_remote id Hid). keep. Qed.

Lemma keeps_check_stream_id id : keeps (conn_check_stream_id id) (fun _ => True).
Proof. keep. Qed.
#[local] Hint Resolve keeps_check_stream_id : keep.

Lemma keeps_recv_rst_stream fr : keeps (conn_recv_rst_stream cb fr) (fun _ => True).
Proof. keep. Qed.

Lemma keeps_recv_stop_sending id code : keeps (conn_recv_stop_sending cb id code) (fun _ => True).
Proof. pose proof (fun p => keeps_rst_stream p NGTCP2_STOPPING ltac:(done)). keep. Qed.

Lemma keeps_recv_max_stream_data id v : is_uint 62 id -> is_uint 62 v ->
  keeps (conn_recv_max_stream_data id v) (fun _ => True).
Proof.
  intros Hid Hv. pose proof (keeps_new_remote id Hid).
  assert (Hext : forall p, keeps (update_strm p (fun strm => set_max_tx_offset strm (Z.max (strm_max_tx_offset strm) v)))
    (fun _ => True)).
  { intros p. apply keeps_update_strm. intros s Hs. pose proof Hs as [_ Hx]. fits; [clia|].
    intros f Hf Hp. destruct (Hx f Hf Hp). split; [done | simpl; lia]. }
  unfold conn_recv_max_stream_data. keep.
Qed.

Lemma keeps_recv_max_data v : is_uint 62 v -> keeps (conn_recv_max_data v) (fun _ => True).
Proof.
  intros Hv. apply keeps_modify; [done|]. keep_rd; [|clia]. intros f Hf. destruct (rd_x0 f Hf) as (? & ? & ?).
  split_and!; [done | lia | done].
Qed.

Lemma keeps_recv_max_stream_id id : is_uint 62 id -> keeps (conn_recv_max_stream_id cb id) (fun _ => True).
Proof.
  intros Hid. unfold conn_recv_max_stream_id.
  eapply keeps_bind with (Q := fun _ => True); [|intros; by apply keeps_conn_call, Hlive].
  destruct (bidi_stream id); (apply keeps_modify; [done|]); keep_rd; clia.
Qed.

Lemma keeps_recv_ping data : wf_frame (fr_ping data) -> keeps (conn_recv_ping data) (fun _ => True).
Proof. intros Hd. assert (sendable (fr_pong data)) by done. keep. Qed.

(** ** ACK frames *)

Lemma run_rv_ready {B} (m : M (ngtcp2_conn A) B) Q c c' rv : keeps m Q -> I c -> run_rv m c = Ok (c', rv) -> I c'.
Proof. intros Hm Hc. unfold run_rv. specialize (Hm c Hc). destruct (m c); naive_solver. Qed.

Lemma acked_offset_ready frc c c' rv :
  I c -> call_acked_stream_offset (H := conn_rtb_conn cb) c frc = Ok (c', rv) -> I c'.
Proof.
  revert c. induction frc as [|fr frc IH]; intros c Hc; simpl; [by intros [= <- <-]|].
  destruct fr as [fr| | | | | | | | | | | | | | | |]; try by apply IH.
  destruct (eval _ c) as [[p|]| |]; simpl; [|by apply IH|done|done].
  destruct (eval _ c) as [g| |]; simpl; [|done|done].
  destruct (ngtcp2_gaptr_push _ _ _ _) as [[g' rv1] m].
  destruct (run_rv (update_strm p _) _) as [[c1 rv2]| |] eqn:E1; simpl; [|done|done].
  eapply run_rv_ready in E1; [|apply keeps_update_strm; intros; fits | by apply mem_ready].
  destruct (negb _); [by intros [= <- <-]|]. destruct (_ && _); [by apply IH|].
  destruct (cb_acked_stream_data_offset cb) as [f|] eqn:Hf; [|done].
  destruct (run_rv (load_strm p ≫= _) _) as [[c2 rv3]| |] eqn:E2; simpl; [|done|done].
  eapply (run_rv_ready _ (fun _ => True)) in E2; [| |done].
  2:{ pose proof (fun y => keeps_invoke f y (cl_acked_stream_data_offset _ Hlive f Hf)). keep. }
  destruct (negb _); [by intros [= <- <-]|].
  destruct (run_rv _ c2) as [[c3 rv4]| |] eqn:E3; simpl; [|done|done].
  eapply run_rv_ready in E3; [|apply keeps_close_stream|done].
  destruct (negb _); [by intros [= <- <-] | by apply IH].
Qed.

(** The walk over the packets. *)
Definition walk_ready (w : res (rtb_walk (C := ngtcp2_conn A))) : Prop :=
  match w with
  | Ok w => I (w_conn w) /\ map_Forall (fun _ e => sent_entry e) (w_store w) /\ w_bytes_in_flight w <= bound
  | _ => True
  end.

Lemma rtb_on_acked_ready unprotected w ent :
  walk_ready w -> walk_ready (rtb_on_acked (H := conn_rtb_conn cb) unprotected w ent).1.
Proof.
  destruct w as [w|e|]; [|done|done]. cbn [rtb_on_acked]. intros (Hw & Hst & Hb).
  destruct (w_store w !! ent) as [e|] eqn:He; [|done]. destruct (_ && _); [done|]. cbv zeta.
  lazymatch goal with |- context [match ?r with Ok _ => _ | Err _ => _ | Ub => _ end] =>
    destruct r as [[c' rv]| |] eqn:E; [|done|done] end.
  assert (Hc : I c').
  { destruct (rc_has_acked_stream_data_offset _); [by eapply acked_offset_ready|]. by injection E as <- <-. }
  destruct (negb _); [done|]. unfold rtb_remove. simpl.
  destruct (ngtcp2_pq_remove _ _ _); [|done|done]. simpl. unfold pktlen_of. rewrite He.
  lazymatch goal with |- context [c_assert ?b] => destruct b eqn:Hle end; [|done]. apply Z.leb_le in Hle. split; [done|]. split; [by apply map_Forall_delete|].
  simpl in *. pose proof (se_len _ (Hst _ _ He)). etrans; [apply Z.mod_le|]; lia.
Qed.

Lemma set_rtb_ready rtb heap c :
  I c -> map_Forall (fun _ e => sent_entry e) heap -> rtb_bytes_in_flight rtb <= bound ->
  I (set_conn_rtb rtb (set_conn_rtb_heap heap c)).
Proof. by intros []; split. Qed.

Lemma keeps_rtb_recv_ack fr unprotected : keeps (conn_rtb_recv_ack cb fr unprotected) (fun _ => True).
Proof.
  intros c Hc. unfold conn_rtb_recv_ack, ngtcp2_rtb_recv_ack.
  pose proof (ack_scan_state (pkt_num_of (conn_rtb_heap c)) (rtb_on_acked (H := conn_rtb_conn cb) unprotected)
    walk_ready (rtb_on_acked_ready unprotected) fr
    (Ok (mk_walk (conn_rtb_heap c) (rtb_pq (conn_rtb c)) (rtb_bytes_in_flight (conn_rtb c))
       (rtb_largest_acked (conn_rtb c)) c)) (rtb_head (conn_rtb c))) as Hscan.
  destruct (ack_scan _ _ fr _ _) as [[l r] rv]. simpl in Hscan.
  specialize (Hscan ltac:(by destruct Hc)). destruct r as [w|e|]; [|done|done].
  destruct Hscan as (Hw & Hst & Hb). simpl.
  assert (Hc' : I (set_conn_rtb (mk_rtb (w_pq w) l (w_bytes_in_flight w) (w_largest_acked w))
                     (set_conn_rtb_heap (w_store w) (w_conn w)))) by (by apply set_rtb_ready).
  unfold check, throw_if. by destruct (negb _).
Qed.

Lemma set_acktr_ready acktr al c : I c -> acktr_inv (acktr, al) -> Forall (fun e => aa_pkt_num e <= N) al ->
  Forall (fun e => 0 <= ae_pkt_num e <= bound) (ent acktr) -> I (set_conn_acktr acktr c).
Proof.
  intros [] [Hw Hn] Hal Hent. split; try assumption; simpl; [by exists al | tauto].
Qed.

Lemma keeps_recv_ack fr unprotected : wf_ack fr -> keeps (conn_recv_ack cb fr unprotected) (fun _ => True).
Proof.
  intros Hwf. unfold conn_recv_ack. eapply keeps_bind; [apply keeps_lift|]. intros [] Hval.
  assert (valid_ack fr) as Hv by done. intros c Hc. destruct (rd_acks _ _ _ _ _ _ _ _ Hc) as (al & Hwa & Hn & Hal).
  destruct (acktr_recv_ack_spec (conn_acktr c) al fr unprotected Hwa Hv) as (acktr' & Heq & Hr).
  unfold mbind at 1, M_bind at 1, get, mbind at 1, M_bind at 1, lift. rewrite Heq.
  unfold mbind at 1, M_bind at 1, modify. apply keeps_rtb_recv_ack.
  pose proof (rd_received _ _ _ _ _ _ _ _ Hc) as [Hent _].
  destruct (list_find _ al) as [[j e]|] eqn:Hf.
  - destruct Hr as [Hw' He']. eapply (set_acktr_ready _ (take j al)); [done | | by apply Forall_take |].
    + split; [done|]. pose proof (acktr_step_inv (conn_acktr c, al) _ (conj Hwa Hn)
        (step_recv_ack _ _ fr unprotected _ Hv Heq)) as [_ H]. exact H.
    + rewrite He'. by apply Forall_filter.
  - subst acktr'. by eapply (set_acktr_ready _ al).
Qed.

(** ** Received packets *)

Lemma acktr_add_ents acktr al e active (P : ngtcp2_acktr_entry -> Prop) :
  wf_acktr acktr al -> P e -> Forall P (ent acktr) -> Forall P (ent (ngtcp2_acktr_add acktr e active).1).
Proof.
  intros (_ & _ & _ & Hd & _) He Hent. unfold ngtcp2_acktr_add.
  pose proof (acktr_insert_spec e (ent acktr) Hd) as H. destruct (acktr_insert e (ent acktr)) as [l|]; [|done].
  destruct H as (_ & Hp & _). assert (Forall P l) as Hl by (rewrite Hp; by constructor).
  destruct (_ <? _); simpl; [by apply Forall_take | done].
Qed.

Lemma keeps_sched_ack pkt_num active ts unprotected : 0 <= pkt_num <= bound ->
  keeps (ngtcp2_conn_sched_ack pkt_num active ts unprotected) (fun _ => True).
Proof.
  intros Hp. unfold ngtcp2_conn_sched_ack. eapply keeps_bind; [apply keeps_with_mem|]. intros e [m He].
  assert (ae_pkt_num e = pkt_num) as Hnum.
  { unfold ngtcp2_acktr_entry_new in He. destruct (mem_alloc m) as [[] m']; simpl in He; by simplify_eq/=. }
  intros c Hc. destruct (rd_acks _ _ _ _ _ _ _ _ Hc) as (al & Hwa & Hn & Hal).
  destruct (rd_received _ _ _ _ _ _ _ _ Hc) as [Hent _].
  unfold mbind at 1, M_bind at 1, get.
  pose proof (acktr_step_inv (conn_acktr c, al) _ (conj Hwa Hn) (step_add _ _ e active)) as Hinv.
  pose proof (acktr_add_ents (conn_acktr c) al e active (fun e => 0 <= ae_pkt_num e <= bound) Hwa ltac:(cbv beta; lia) Hent) as Hent'.
  destruct (ngtcp2_acktr_add _ e active) as [acktr rv]. simpl in Hinv, Hent'.
  unfold mbind at 1, M_bind at 1, modify.
  assert (Hc' : I (set_conn_acktr acktr c)) by (by eapply set_acktr_ready).
  revert Hc'. generalize (set_conn_acktr acktr c).
  change (keeps (check rv;;
    if negb (conn_immediate_ack c) && (conn_next_ack_expiry c =? 0) && active_ack acktr
    then conn_set_next_ack_expiry ts else mret tt) (fun _ => True)). keep.
Qed.

Lemma keeps_max_rx pkt_num : 0 <= pkt_num <= bound ->
  keeps (modify (fun c => set_conn_max_rx_pkt_num (Z.max (conn_max_rx_pkt_num c) pkt_num) c)) (fun _ => True).
Proof. intros Hp. apply keeps_modify; [done|]. keep_rd. split; [tauto | lia]. Qed.

Lemma keeps_stateless_reset hd payload : keeps (conn_on_stateless_reset cb hd payload) (fun _ => True).
Proof.
  pose proof (fun y => keeps_conn_call (cb_recv_stateless_reset cb) y (cl_recv_stateless_reset _ Hlive)). keep.
Qed.
End Functions.

(** ** The receive path *)

(** The peer has finished with stream 0: its data is for the handshake, and the
    credit the library gives for it is not limited. *)
Definition past_handshake (fr : ngtcp2_frame) : Prop :=
  match fr with fr_stream fr => stream_stream_id fr <> 0 | _ => True end.

Section Receive.
Context {A : Type} (av : app_view A) (cb : ngtcp2_conn_callbacks A) (Hcb : callbacks_ok av cb) (Hlive : callbacks_live cb).
Context (decrypt hs_decrypt : bytes -> bytes -> bytes -> bytes -> option bytes) (bound n N : Z).
Implicit Types (c : ngtcp2_conn A).
Abbreviation conn_ok := (conn_ok av true None).
Abbreviation ready := (ready cb decrypt hs_decrypt bound n N).
Abbreviation keeps := (keeps cb decrypt hs_decrypt bound n N).

Definition live c : Prop := conn_ok c /\ ready None c.

Lemma live_handler {B} (m : M (ngtcp2_conn A) B) : handler conn_ok m -> keeps None m (fun _ => True) -> handler live m.
Proof.
  intros Hm Hk c [Hok Hr]. specialize (Hm c Hok). specialize (Hk c Hr). unfold wp in *.
  destruct (m c); [|done..]. by destruct Hk.
Qed.

Lemma ready_focus f c : ready None c -> (fo_strm f < conn_next c)%positive -> fo_conn_max f <= conn_max_tx_offset c ->
  (forall s, conn_strm_heap c !! fo_strm f = Some s -> in_focus f s) -> ready (Some f) c.
Proof. intros [] Hn Hm Hs. split; try assumption. by intros ? [= <-]. Qed.

(** A stream that is not stream 0. *)
Definition nonzero (p : positive) : focus := mk_focus p true 0 0.
Lemma ready_forget x c : ready x c -> ready None c.
Proof. by intros []; split. Qed.

(** A function that is known to keep the invariant of the connection, and partially
    to leave it ready. *)
Lemma live_wp {B} (m : M (ngtcp2_conn A) B) x (Q : B -> ngtcp2_conn A -> Prop) R E c :
  wp m Q E c -> keeps x m R -> ready x c ->
  wp m (fun b c' => Q b c' /\ ready x c' /\ R b) (fun e c' => E e c' /\ ready x c') c.
Proof. intros Hm Hk Hr. specialize (Hk c Hr). unfold wp in *. by destruct (m c). Qed.

(** The stream of the frame is not stream 0. *)
Lemma stream_for_frame_live id c (Q : option positive -> ngtcp2_conn A -> Prop) (E : Z -> ngtcp2_conn A -> Prop) :
  conn_ok c -> ready None c -> is_uint 62 id -> id <> 0 ->
  (forall c', ready None c' -> Q None c') -> (forall p c', ready (Some (nonzero p)) c' -> Q (Some p) c') ->
  (forall e c', E e c') -> wp (conn_stream_for_frame id) Q E c.
Proof.
  intros Hok Hr Hid Hne HN HS HE.
  eapply wp_mono; [eapply (live_wp _ None (fun o c' => conn_ok c' /\ forall p, o = Some p ->
    exists strm, conn_strm_heap c' !! p = Some strm /\ strm_stream_id strm = id) (fun _ => True) (fun _ _ => True))| |auto].
  - apply (stream_for_frame_ok av c id); try done.
    + intros p frs (strm & Hp & Hs & _). split; [done|]. intros q [= <-]. by exists strm.
    + intros p c' Hok' (strm & Hp & Hs & _) _ _. split; [done|]. intros q [= <-]. by exists strm.
  - by apply keeps_stream_for_frame.
  - done.
  - intros [p|] c' [[Hok' Hs] [Hr' _]]; [|auto]. apply HS. destruct (Hs p eq_refl) as (strm & Hp & Hstrm).
    pose proof (rd_credit _ _ _ _ _ _ _ _ Hr') as [? _]. apply ready_focus; [done | | simpl; lia |].
    2:{ simpl. intros s Hs'. assert (s = strm) as -> by congruence. split; [intros _; congruence|].
        destruct (rd_strms _ _ _ _ _ _ _ _ Hr' p strm Hp) as [_ [? _] _]. simpl. lia. }
    destruct (co_streams _ _ _ _ Hok') as [M Hst]. by apply (st_heap _ _ _ _ Hst p strm).
Qed.

(** What [m] returns when it succeeds. *)
Definition yields_from {B} (m : M (ngtcp2_conn A) B) (Q : B -> ngtcp2_conn A -> Prop) c : Prop :=
  match m c with ret b c' => Q b c' | _ => True end.

Lemma from_bind {B C} (m : M (ngtcp2_conn A) B) (k : B -> M (ngtcp2_conn A) C) Q c :
  yields_from m (fun b c' => yields_from (k b) Q c') c -> yields_from (m ≫= k) Q c.
Proof. unfold yields_from, mbind, M_bind. by destruct (m c). Qed.
Lemma from_wp {B} (m : M (ngtcp2_conn A) B) Q E c : wp m Q E c -> yields_from m Q c.
Proof. unfold yields_from, wp. by destruct (m c). Qed.
Lemma from_throw_if b e Q c : (b = false -> Q tt c) -> yields_from (throw_if b e) Q c.
Proof. unfold yields_from. destruct b; simpl; auto. Qed.
Lemma from_keeps {B} (m : M (ngtcp2_conn A) B) x R c : keeps x m R -> ready x c -> yields_from m (fun _ => ready None) c.
Proof.
  intros Hm Hr. specialize (Hm c Hr). unfold yields_from. destruct (m c); [|done..]. destruct Hm as [H _].
  by eapply ready_forget.
Qed.

Lemma live_recv_stream fr : wf_frame (fr_stream fr) -> authentic av fr -> past_handshake (fr_stream fr) ->
  handler live (conn_recv_stream cb fr).
Proof.
  intros Hwf Ha Hne c [Hok Hr]. pose proof (recv_stream_ok av cb Hcb c fr Hok Hwf Ha) as Hwp.
  assert (yields_from (conn_recv_stream cb fr) (fun _ => ready None) c) as Hy.
  2:{ unfold wp, yields_from in *. by destruct (conn_recv_stream cb fr c). }
  unfold conn_recv_stream. do 2 (apply from_bind, from_throw_if; intros _).
  apply from_bind, (from_wp _ _ (fun _ _ => True)), check_stream_id_ok; [|done].
  apply from_bind, (from_wp _ _ (fun _ _ => True)), wp_get.
  do 2 (apply from_bind, from_throw_if; intros _).
  apply from_bind, (from_wp _ _ (fun _ _ => True)), stream_for_frame_live; try done; [apply Hwf|].
  intros p c' Hr'. eapply from_keeps; [apply keeps_on_stream; [done | by exists (nonzero p) |]|done].
  destruct Hwf as (_ & _ & _ & Hlen). unfold NGTCP2_MAX_VARINT. clia.
Qed.

#[export] Instance live_recv_inv :
  RecvInv av cb live past_handshake (fun pkt_num => 0 <= pkt_num <= bound).
Proof.
  pose proof (conn_recv_inv av cb Hcb) as Hinv.
  split.
  - by intros c [].
  - intros c len m c' [_ Hr] Hok'. split; [done|]. unfold c'. apply (mem_ready _ _ _ _ _ _ _ m) in Hr.
    revert Hr. generalize (set_conn_mem m c). intros c2 []. by split.
  - intros flag. apply live_handler; [apply Hinv | keep].
  - intros y. apply live_handler; [apply Hinv | apply keeps_conn_call, Hlive].
  - intros hd. apply live_handler; [apply Hinv | apply keeps_conn_call, Hlive].
  - intros hd fr Hwf Hg Hp. destruct fr as [s|a| | | | | | | | | | | | | | | ].
    1: { apply handler_bind; [apply handler_throw_if|]. intros _. by apply live_recv_stream. }
    all: apply live_handler; [by apply Hinv|]; simpl; try by apply keeps_ret.
    + by apply keeps_recv_ack, wf_frame_ack.
    + by apply keeps_recv_rst_stream.
    + keep.
    + keep.
    + by apply keeps_recv_max_data.
    + by apply keeps_recv_max_stream_data; apply Hwf.
    + by apply keeps_recv_max_stream_id.
    + by apply keeps_recv_ping.
    + by apply keeps_recv_stop_sending.
    + keep.
  - intros fr Hwf Ha Hp. by apply live_recv_stream.
  - intros fr unprotected Hwf. apply live_handler; [by apply Hinv | by apply keeps_recv_ack].
  - intros hd payload c Hb [Hok Hr].
    eapply wp_mono; [by eapply (live_wp _ None); [by apply on_stateless_reset_ok | by apply keeps_stateless_reset|] | |].
    + by intros [] c' (? & ? & _).
    + by intros e c' [? ?].
  - intros pkt_num Hp. apply live_handler; [by apply Hinv | by apply keeps_max_rx].
  - intros pkt_num active ts unprotected Hp. apply live_handler; [by apply Hinv | by apply keeps_sched_ack].
Qed.
End Receive.
