(* ===== verification/ConnRetx.v ===== *)
(** Retransmission, and the packets of [ngtcp2_conn_write_pkt] after the handshake:
    no undefined behaviour, and the connection stays ready. *)

From S2P Require Import Prelude Conv Frame PktDecode PktEncode PktHd Mem Monad Range Gaptr Idtr Ringbuf.
From S2P Require Import AckScan Acktr Pq Rtb Map Rob Crypto Ppe Strm Err Conn ConnApp.
From S2P Require Import ConnAck ConnSend ConnInv ConnFrames ConnState ConnTx ConnWrite ConnSingle ConnReady.

(** What the callbacks that are told of sent packets leave alone. *)
Record sends_quiet {A} (av : app_view A) (cb : ngtcp2_conn_callbacks A) : Prop := {
  sq_pkt : quiet_opt av (cb_send_pkt cb);
  sq_frame : quiet_opt av (cb_send_frame cb)
}.

Section Send.
Context {A : Type} (av : app_view A) (cb : ngtcp2_conn_callbacks A).
Context (Hlive : callbacks_live cb) (Hquiet : sends_quiet av cb).
Context (decrypt hs_decrypt : bytes -> bytes -> bytes -> bytes -> option bytes).
Implicit Types (c : ngtcp2_conn A).
Abbreviation conn_ok := (conn_ok av true None).
Abbreviation live := (live av cb decrypt hs_decrypt).

Lemma live_mono b n N b' N' c : live b n N c -> b <= b' -> N <= N' -> live b' n N' c.
Proof.
  intros [Hok []] Hb HN. split; [done|]. split; try assumption; try lia.
  - destruct rd_acks as (al & ? & ? & Hal). exists al. split_and!; try done.
    eapply Forall_impl; [exact Hal|]. simpl. lia.
  - destruct rd_received as [Hr ?]. split; [|lia]. eapply Forall_impl; [exact Hr|]. simpl. lia.
Qed.

(** The next packet number. *)
Lemma live_next b n N c : live b n N c -> 0 <= n < UINT64_MAX -> N <= n + 1 ->
  live b (n + 1) (n + 1) (set_conn_last_tx_pkt_num (u64 (conn_last_tx_pkt_num c + 1)) c).
Proof.
  intros Hl Hn HN. apply (live_mono b n N b (n + 1)) in Hl; [|lia..]. destruct Hl as [Hok []].
  split; [keep_ok Hok|]. split; try assumption. simpl. rewrite rd_num. unfold UINT64_MAX in *. rewrite u64_small; clia.
Qed.

(** ** Callbacks *)

Lemma run_prog_returns {R} (P : R -> Prop) (p : prog A R) c : prog_ends P p ->
  match run_prog p c with ret r _ => P r | fail _ _ => False | undef => True end.
Proof.
  revert c. induction p as [r|call k IH]; intros c Hp; [exact Hp|].
  simpl. unfold mbind, M_bind, status, attempt, get, mbind, M_bind.
  destruct (run_call call c) as [? c'|e c'|]; [apply (IH 0 c' c'), Hp | apply (IH e c' c'), Hp | done].
Qed.

(** A callback that is told of what has been sent. *)
Lemma wp_told_x {X} (f : option (ngtcp2_conn A -> X -> prog A (A * Z))) y b n N x c
    (Q : unit -> ngtcp2_conn A -> Prop) E :
  told f -> quiet_opt av f -> conn_ok c -> ready cb decrypt hs_decrypt b n N x c ->
  (forall c', conn_ok c' -> ready cb decrypt hs_decrypt b n N x c' -> conn_frame c c' -> Q tt c') ->
  wp (conn_call f y) Q E c.
Proof.
  intros [Hf Hend] Hq Hok Hr HQ.
  pose proof (conn_call_quiet av f y Hq true None c Hok) as Hwp.
  pose proof (keeps_conn_call cb decrypt hs_decrypt b n N x f y Hf c Hr) as Hk.
  assert (match conn_call f y c with fail _ _ => False | _ => True end) as Hret.
  { destruct f as [f|]; [|done]. simpl. unfold mbind, M_bind, invoke, get, mbind, M_bind.
    pose proof (run_prog_returns _ _ c (Hend f eq_refl c y)) as H.
    destruct (run_prog (f c y) c) as [[a rv] c'|e c'|]; [|done..]. simpl in H. by subst rv. }
  unfold wp in *. destruct (conn_call f y c) as [[] c'|e c'|]; [|done..].
  destruct Hwp as (? & ? & _), Hk as [? _]. by apply HQ.
Qed.

Lemma wp_told {X} (f : option (ngtcp2_conn A -> X -> prog A (A * Z))) y b n N c (Q : unit -> ngtcp2_conn A -> Prop) E :
  told f -> quiet_opt av f -> live b n N c ->
  (forall c', live b n N c' -> conn_frame c c' -> Q tt c') -> wp (conn_call f y) Q E c.
Proof. intros Hf Hq [Hok Hr] HQ. apply (wp_told_x f y b n N None); try done. intros c' ? ?. by apply HQ. Qed.

(** ** Packets under construction *)

Lemma sendable_encoded fr : sendable fr -> sendable (encoded_frame fr).
Proof. by destruct fr. Qed.

Lemma sendable_encodable fr : sendable fr -> encodable fr.
Proof. intros [H _]. by apply wf_encodable. Qed.

Lemma wp_write_frame b n N c ctx cap hd payload ppe called h fr
    (Q : ngtcp2_ppe * bool * ngtcp2_frame -> ngtcp2_conn A -> Prop) E :
  live b n N c -> building ctx cap hd payload ppe -> encodable fr ->
  (forall ppe' c', building ctx cap hd (payload ++ layout fr) ppe' -> live b n N c' -> conn_frame c c' ->
    Q (ppe', true, encoded_frame fr) c') ->
  E NGTCP2_ERR_NOBUF c ->
  wp (conn_ppe_write_frame cb ppe called h fr) Q E c.
Proof.
  intros Hl [] Hfr HQ HE. unfold conn_ppe_write_frame. wp_step. wp_step.
  pose proof (ppe_encode_frame_spec ppe fr bd_wf Hfr) as H.
  destruct (ngtcp2_ppe_encode_frame ppe fr) as [[ppe' fr']|e|]; simpl; [|by destruct H as [-> _]|done].
  destruct H as (? & -> & Hb & ? & ? & ? & ?).
  assert (Hrest : forall c1, live b n N c1 -> conn_frame c c1 ->
    wp (conn_call_send_frame cb h (encoded_frame fr);; mret (ppe', true, encoded_frame fr)) Q E c1).
  { intros c1 Hl1 Hf1. wp_step. apply (wp_told _ _ b n N); [apply Hlive | apply Hquiet | done|].
    intros c2 Hl2 Hf2. wp_go. apply HQ; [|done | by etrans]. split; try congruence. by rewrite Hb, bd_bytes, app_assoc. }
  wp_step. destruct called; [wp_step; by apply Hrest|].
  apply (wp_told _ _ b n N); [apply Hlive | apply Hquiet | done|]. intros c1 Hl1 Hf1. by apply Hrest.
Qed.

(** The loops over the frames of a packet: what is written, and what is left, can be
    sent. *)
Definition wrote b n N c0 ctx cap hd (w : written) c : Prop :=
  live b n N c /\ conn_frame c0 c /\ (exists payload, building ctx cap hd payload (wn_ppe w)) /\
  Forall sendable (wn_done w) /\ Forall sendable (wn_left w).

Lemma write_or_stop_ok b n N c0 c ctx cap hd payload ppe called h don fr rest k (E : Z -> ngtcp2_conn A -> Prop) :
  live b n N c -> conn_frame c0 c -> building ctx cap hd payload ppe ->
  Forall sendable don -> Forall sendable (fr :: rest) ->
  (forall ppe' c', building ctx cap hd (payload ++ layout fr) ppe' -> live b n N c' -> conn_frame c0 c' ->
    Forall sendable (don ++ [encoded_frame fr]) ->
    wp (k ppe' true (don ++ [encoded_frame fr])) (wrote b n N c0 ctx cap hd) E c') ->
  wp (write_or_stop cb ppe called h don fr rest k) (wrote b n N c0 ctx cap hd) E c.
Proof.
  intros Hl Hf Hbd Hdon Hrest Hk. pose proof Hrest as [Hfr _]%list.Forall_cons. unfold write_or_stop. wp_step. wp_step.
  apply (wp_write_frame b n N c ctx cap hd payload); [done | done | by apply sendable_encodable | |].
  - intros ppe' c' Hbd' Hl' Hf'. apply Hk; [done | done | by etrans|]. apply Forall_app. split; [done|].
    constructor; [by apply sendable_encoded | constructor].
  - wp_go. split; [done|]. split; [done|]. split; [by exists payload | done].
Qed.

Lemma write_frames_ok b n N c0 ctx cap hd h (E : Z -> ngtcp2_conn A -> Prop) frc :
  forall c payload ppe called don,
  live b n N c -> conn_frame c0 c -> building ctx cap hd payload ppe -> Forall sendable don -> Forall sendable frc ->
  wp (write_frames cb ppe called h don frc) (wrote b n N c0 ctx cap hd) E c.
Proof.
  induction frc as [|fr frc IH]; intros c payload ppe called don Hl Hf Hbd Hdon Hfrc; simpl.
  - wp_go. split; [done|]. split; [done|]. split; [by exists payload | done].
  - eapply write_or_stop_ok; try done. intros ppe' c' Hbd' Hl' Hf' Hdon'.
    apply list.Forall_cons in Hfrc as [_ Hfrc]. by eapply IH.
Qed.

(** Looking up the stream of a frame changes nothing. *)
Lemma wp_cancel_frame fr c (Q : bool -> ngtcp2_conn A -> Prop) E :
  conn_ok c -> (forall b, Q b c) -> wp (cancel_frame fr) Q E c.
Proof.
  intros Hok HQ. destruct fr; simpl; try (wp_go; by apply HQ).
  all: wp_step; apply (wp_find_live av true None); [done | wp_go; by apply HQ|].
  all: intros p strm Hp _ _; wp_step; eapply wp_load_strm; [done|]; wp_go; by apply HQ.
Qed.

Lemma write_live_frames_ok b n N c0 ctx cap hd h (E : Z -> ngtcp2_conn A -> Prop) frc :
  forall c payload ppe called don,
  live b n N c -> conn_frame c0 c -> building ctx cap hd payload ppe -> Forall sendable don -> Forall sendable frc ->
  wp (write_live_frames cb ppe called h don frc) (wrote b n N c0 ctx cap hd) E c.
Proof.
  induction frc as [|fr frc IH]; intros c payload ppe called don Hl Hf Hbd Hdon Hfrc; simpl.
  - wp_go. split; [done|]. split; [done|]. split; [by exists payload | done].
  - pose proof Hfrc as [[_ Hfr] Hfrc']%list.Forall_cons. wp_step. apply wp_cancel_frame; [apply Hl|]. intros [].
    + destruct fr; try by eapply IH. done.
    + eapply write_or_stop_ok; try done. intros. by eapply IH.
Qed.

(** ** Packets *)

Lemma memory b n N c m : live b n N c -> mem_reliable m -> live b n N (set_conn_mem m c).
Proof.
  intros [Hok Hr] Hm. split; [by apply mem_ok | by apply mem_ready].
Qed.

Lemma live_reliable b n N c : live b n N c -> mem_reliable (conn_mem c).
Proof. intros [Hok _]. by apply (co_mem _ _ _ _ Hok). Qed.

Lemma wp_chain_new b n N c (Q : unit -> ngtcp2_conn A -> Prop) E :
  live b n N c -> (forall m, live b n N (set_conn_mem m c) -> Q tt (set_conn_mem m c)) ->
  wp ngtcp2_frame_chain_new Q E c.
Proof.
  intros Hl HQ. apply (malloc_ok av true None); [apply Hl | | done]. intros m [Hm _]. apply HQ, memory; [done|].
  by apply (co_mem _ _ _ _ Hm).
Qed.

Lemma wp_hs_ctx b n N c (Q : ngtcp2_crypto_ctx -> ngtcp2_conn A -> Prop) E :
  live b n N c ->
  (forall ctx, ctx_aead_overhead ctx = NGTCP2_HANDSHAKE_AEAD_OVERHEAD -> ctx_encrypt ctx = cb_hs_encrypt cb ->
    8 <= zlen (km_iv (ctx_ckm ctx)) <= 32 -> Q ctx c) -> wp (hs_ctx cb c) Q E c.
Proof.
  intros [_ []] HQ. destruct rd_keys as (_ & (km & Hkm & Hiv) & _). unfold hs_ctx. rewrite Hkm. wp_go. by apply HQ.
Qed.

Lemma wp_tx_ctx b n N c (Q : ngtcp2_crypto_ctx -> ngtcp2_conn A -> Prop) E :
  live b n N c ->
  (forall ctx, ctx_aead_overhead ctx = conn_aead_overhead c -> ctx_encrypt ctx = cb_encrypt cb ->
    8 <= zlen (km_iv (ctx_ckm ctx)) <= 32 -> Q ctx c) -> wp (tx_ctx cb c) Q E c.
Proof.
  intros [_ []] HQ. destruct rd_keys as ((km & Hkm & Hiv) & _). unfold tx_ctx. rewrite Hkm. wp_go. by apply HQ.
Qed.

(** A packet that can be finished: the header and the payload fit, and the key is
    one. *)
Definition finishing (cap : Z) (hd : ngtcp2_pkt_hd) (ppe : ngtcp2_ppe) : Prop := exists ctx payload dec,
  building ctx cap hd payload ppe /\ aead (ctx_aead_overhead ctx) (ctx_encrypt ctx) dec /\
  8 <= zlen (km_iv (ctx_ckm ctx)) <= 32.

Lemma wp_final cap hd ppe c (Q : bytes -> ngtcp2_conn A -> Prop) E :
  finishing cap hd ppe -> is_uint 64 (hd_pkt_num hd) ->
  (forall pkt, 0 < zlen pkt <= cap -> Q pkt c) -> E NGTCP2_ERR_CALLBACK_FAILURE c ->
  wp (final_pkt ppe) Q E c.
Proof.
  intros (ctx & payload & dec & Hbd & Ha & Hiv) Hn HQ HE.
  apply (wp_final_pkt dec c ctx cap hd payload); try done. intros pkt Hle (nonce & ct & _ & -> & _).
  apply HQ. split; [|done]. rewrite zlen_app. pose proof (hd_bytes_pos hd). pose proof (zlen_nonneg ct). lia.
Qed.

Lemma padding_building ctx cap hd payload ppe :
  building ctx cap hd payload ppe ->
  exists ppe' len payload', ngtcp2_ppe_padding ppe = Ok (ppe', len) /\ building ctx cap hd payload' ppe'.
Proof.
  intros []. destruct (ppe_padding_spec ppe bd_wf) as (ppe' & Heq & Hw & Hb & _).
  eexists _, _, _. split; [exact Heq|]. pose proof Heq as (_ & _ & [= <- _])%res_bind_ok.
  split; try done. simpl. rewrite bd_bytes, <- app_assoc. reflexivity.
Qed.

(** ** Entries of the retransmission buffer *)

(** What is sent on the streams. *)
Definition same_strms c c' : Prop := conn_strm_heap c' = conn_strm_heap c /\
  conn_tx_offset c' = conn_tx_offset c /\ conn_max_tx_offset c' = conn_max_tx_offset c.

Lemma sent_entry_ok e : sent_entry e -> entry_ok e.
Proof.
  intros []. split; [done|]. eapply Forall_impl; [exact se_frc|]. intros fr [Hwf _]. destruct fr; try done.
  destruct Hwf as (_ & Ho & _ & Hl). unfold ackable, is_uint, UINT64_MAX in *. lia.
Qed.

(** A change of the buffer and of its entries. *)
Lemma live_rtb b b' n N c rtb heap m nx :
  live b n N c -> wf_rtb heap rtb -> (forall p, is_Some (heap !! p) -> (p < nx)%positive) ->
  (conn_next c <= nx)%positive -> mem_reliable m -> map_Forall (fun _ e => sent_entry e) heap ->
  b <= b' -> rtb_bytes_in_flight rtb <= b' ->
  live b' n N (set_conn_rtb rtb (set_conn_rtb_heap heap (set_conn_next nx (set_conn_mem m c)))).
Proof.
  intros Hl Hw Hf Hn Hm He Hb Hbytes. apply (live_mono b n N b' N) in Hl; [|lia..]. destruct Hl as [Hok []].
  split; [by apply rtb_change_ok|]. split; try assumption. done.
Qed.

Lemma live_rtb_change b n N c rtb heap :
  live b n N c -> wf_rtb heap rtb -> (forall p, is_Some (heap !! p) -> is_Some (conn_rtb_heap c !! p)) ->
  map_Forall (fun _ e => sent_entry e) heap -> rtb_bytes_in_flight rtb <= b ->
  live b n N (set_conn_rtb rtb (set_conn_rtb_heap heap c)).
Proof.
  intros Hl Hw Hf He Hb. pose proof Hl as [Hok Hr].
  assert (set_conn_rtb rtb (set_conn_rtb_heap heap c) = set_conn_rtb rtb (set_conn_rtb_heap heap
    (set_conn_next (conn_next c) (set_conn_mem (conn_mem c) c)))) as -> by reflexivity.
  apply (live_rtb b); try done; [|by eapply live_reliable]. intros p Hp. by apply (co_rtb_fresh _ _ _ _ Hok), Hf.
Qed.

Lemma live_heap b n N c heap :
  live b n N c -> wf_rtb heap (conn_rtb c) -> (forall p, is_Some (heap !! p) -> is_Some (conn_rtb_heap c !! p)) ->
  map_Forall (fun _ e => sent_entry e) heap -> live b n N (set_conn_rtb_heap heap c).
Proof.
  intros Hl Hw Hf He. assert (set_conn_rtb_heap heap c = set_conn_rtb (conn_rtb c) (set_conn_rtb_heap heap c))
    as -> by reflexivity. apply live_rtb_change; try done. apply Hl.
Qed.

(** The entry at [p] is in no list. *)
Definition apart c (p : positive) (ent : ngtcp2_rtb_entry) : Prop :=
  conn_rtb_heap c !! p = Some ent /\ p ∉ rtb_head (conn_rtb c).

Lemma apart_frame c c' p ent : conn_frame c c' -> apart c p ent -> apart c' p ent.
Proof. intros Hf [Hp Hn]. destruct (af_rtb _ _ Hf) as [E1 E2]. unfold apart. by rewrite E1, E2. Qed.

Lemma live_ents b n N c p ent : live b n N c -> conn_rtb_heap c !! p = Some ent -> sent_entry ent.
Proof. intros [_ []] Hp. by apply (rd_ents p). Qed.

Lemma wp_load_ent p ent c (Q : ngtcp2_rtb_entry -> ngtcp2_conn A -> Prop) E :
  conn_rtb_heap c !! p = Some ent -> Q ent c -> wp (load_ent p) Q E c.
Proof. intros Hp HQ. unfold wp, load_ent. by rewrite Hp. Qed.

Lemma wp_store_ent b n N p ent ent' c (Q : unit -> ngtcp2_conn A -> Prop) E :
  live b n N c -> apart c p ent -> sent_entry ent' ->
  (forall c', live b n N c' -> apart c' p ent' -> conn_rtb c' = conn_rtb c ->
    conn_rtb_heap c' = <[p := ent']> (conn_rtb_heap c) -> Q tt c') ->
  wp (store_ent p ent') Q E c.
Proof.
  intros Hl [Hp Hn] He HQ. unfold store_ent. wp_step. eapply wp_load_ent; [done|]. wp_go.
  pose proof Hl as [Hok Hr]. apply HQ; [|by split; [apply lookup_insert_eq|] | done..].
  apply live_heap; [done|..].
  - eapply wf_rtb_store_ext; [|apply Hok]. intros h Hh. rewrite lookup_insert_ne; [done | by intros <-].
  - intros q [e [[<- _]|[_ Hq]]%lookup_insert_Some]; [by exists ent | by exists e].
  - apply map_Forall_insert_2; [done | apply Hr].
Qed.

Lemma wp_entry_del b n N p ent c (Q : unit -> ngtcp2_conn A -> Prop) E :
  live b n N c -> apart c p ent ->
  (forall c', live b n N c' -> conn_rtb c' = conn_rtb c -> conn_rtb_heap c' = delete p (conn_rtb_heap c) -> Q tt c') ->
  wp (ngtcp2_rtb_entry_del p) Q E c.
Proof.
  intros Hl [Hp Hn] HQ. unfold ngtcp2_rtb_entry_del. wp_step. eapply wp_load_ent; [done|]. wp_go.
  pose proof Hl as [Hok Hr]. apply HQ; [|done..].
  apply live_heap; [done|..].
  - eapply wf_rtb_store_ext; [|apply Hok]. intros h Hh. rewrite lookup_delete_ne; [done | by intros <-].
  - intros q [e [_ Hq]%lookup_delete_Some]. by exists e.
  - apply map_Forall_delete, Hr.
Qed.

Lemma wp_new_entry b n N hd frc ts deadline pktlen flags c (Q : positive -> ngtcp2_conn A -> Prop) E :
  live b n N c -> Forall sendable frc -> wf_hd_out hd -> 0 <= pktlen ->
  (forall p c', live b n N c' ->
    apart c' p (mk_rtb_entry hd frc (u64 (ts + NGTCP2_INITIAL_EXPIRY)) deadline 0 pktlen flags) ->
    (forall q e, conn_rtb_heap c !! q = Some e -> q <> p /\ conn_rtb_heap c' !! q = Some e) ->
    conn_rtb c' = conn_rtb c -> same_strms c c' -> Q p c') ->
  wp (new_rtb_entry hd frc ts deadline pktlen flags) Q E c.
Proof.
  intros Hl Hfrc Hhd Hlen HQ. pose proof Hl as [Hok Hr]. unfold new_rtb_entry, ngtcp2_rtb_entry_new. wp_step.
  unfold with_mem, wp at 1. destruct (mem_alloc_reliable _ (live_reliable _ _ _ _ Hl)) as [Ha Hm].
  destruct (mem_alloc (conn_mem c)) as [[] m]; [|done]. simpl in Hm |- *. wp_go.
  set (ent := mk_rtb_entry _ _ _ _ _ _ _). change (Q (conn_next c) (with_entry c m ent)).
  destruct (with_entry_ok av true None c m ent Hok (fun _ => Hm)) as [Hok' Hn].
  assert (He : sent_entry ent) by (split; simpl; auto; lia).
  apply HQ; [ | split; [apply lookup_insert_eq | done] | | done..].
  - split; [done|]. destruct Hr. split; try assumption; [by apply map_Forall_insert_2 | by intros ? [=]].
  - intros q e Hq. assert (q <> conn_next c) as Hne.
    { pose proof (co_rtb_fresh _ _ _ _ Hok q (ex_intro _ e Hq)). lia. }
    split; [done|]. simpl. by rewrite lookup_insert_ne.
Qed.

(** The entry at [p] enters the buffer; there is memory. *)
Lemma wp_rtb_add b n N p ent c (Q : unit -> ngtcp2_conn A -> Prop) E :
  live b n N c -> apart c p ent -> rtb_bytes_in_flight (conn_rtb c) + re_pktlen ent <= b -> b < 2 ^ 62 ->
  (forall c', live b n N c' -> rtb_head (conn_rtb c') = p :: rtb_head (conn_rtb c) ->
    rtb_bytes_in_flight (conn_rtb c') = rtb_bytes_in_flight (conn_rtb c) + re_pktlen ent ->
    conn_rtb_heap c' = conn_rtb_heap c /\ same_strms c c' -> Q tt c') ->
  wp (conn_rtb_add p) Q E c.
Proof.
  intros Hl [Hp Hn] Hb Hb62 HQ. pose proof Hl as [Hok Hr]. pose proof (live_reliable _ _ _ _ Hl) as Hm.
  pose proof (co_rtb _ _ _ _ Hok) as Hw. pose proof (live_ents _ _ _ _ _ _ Hl Hp) as He.
  pose proof (rtb_add_spec (conn_mem c) (conn_rtb_heap c) (conn_rtb c) p Hw
    (ex_intro _ ent (conj Hp (sent_entry_ok ent He))) Hn) as Hadd.
  pose proof (rtb_add_mem (conn_mem c) (conn_rtb_heap c) (conn_rtb c) p Hm) as Hm'.
  unfold pktlen_of in Hadd. rewrite Hp in Hadd. simpl in Hadd. specialize (Hadd ltac:(lia)).
  unfold conn_rtb_add. wp_step. eapply wp_load_ent; [done|]. wp_step. wp_step. wp_step. unfold with_mem, wp at 1.
  destruct (ngtcp2_rtb_add _ _ _ _) as [[rtb|e|] m]; simpl in *; [|by destruct Hadd as [_ []]|done].
  destruct Hadd as [Hw' Hh]. assert (Hbytes : rtb_bytes_in_flight rtb = rtb_bytes_in_flight (conn_rtb c) + re_pktlen ent).
  { rewrite (wf_rtb_bytes _ _ Hw'), Hh, (wf_rtb_bytes _ _ Hw). simpl. unfold pktlen_of at 1. rewrite Hp. simpl. lia. }
  wp_go. apply HQ; [|done..].
  apply (live_rtb_change b n N (set_conn_mem m c)); try done; [by apply memory; [|apply Hm'] | apply Hr | lia].
Qed.

Lemma wp_add_entry b n N p ent c (Q : unit -> ngtcp2_conn A -> Prop) E :
  live b n N c -> apart c p ent -> rtb_bytes_in_flight (conn_rtb c) + re_pktlen ent <= b -> b < 2 ^ 62 ->
  (forall c', live b n N c' -> rtb_head (conn_rtb c') = p :: rtb_head (conn_rtb c) ->
    rtb_bytes_in_flight (conn_rtb c') = rtb_bytes_in_flight (conn_rtb c) + re_pktlen ent ->
    conn_rtb_heap c' = conn_rtb_heap c /\ same_strms c c' -> Q tt c') ->
  wp (add_rtb_entry p) Q E c /\ wp (readd_rtb_entry p) Q E c.
Proof.
  intros Hl Ha Hb Hb62 HQ. split; (unfold add_rtb_entry, readd_rtb_entry; wp_step; wp_step;
    eapply wp_rtb_add; [done..|]; intros c' H1 H2 H3 H4; wp_go; by apply HQ).
Qed.

(** The packet whose timer has run out leaves the buffer. *)
Lemma wp_rtb_pop b n N p ent c (Q : ngtcp2_rtb -> ngtcp2_conn A -> Prop) E :
  live b n N c -> ngtcp2_rtb_top (conn_rtb c) = Some p -> conn_rtb_heap c !! p = Some ent ->
  (forall rtb, live b n N (set_conn_rtb rtb c) -> apart (set_conn_rtb rtb c) p ent ->
    rtb_bytes_in_flight rtb + re_pktlen ent = rtb_bytes_in_flight (conn_rtb c) ->
    (length (rtb_head rtb) < length (rtb_head (conn_rtb c)))%nat -> Q rtb c) ->
  wp (lift (ngtcp2_rtb_pop (conn_rtb_heap c) (conn_rtb c))) Q E c.
Proof.
  intros Hl Htop Hp HQ. pose proof Hl as [Hok Hr]. pose proof (co_rtb _ _ _ _ Hok) as Hw.
  destruct (rtb_pop_spec _ _ Hw) as (rtb & Hpop & Hw' & _ & H). rewrite Htop in H. destruct H as (Hin & Hh & _).
  rewrite Hpop. apply wp_lift. simpl. pose proof (unlink_perm p _ (rtb_NoDup _ _ Hw) Hin) as Hperm.
  assert (Hbytes : rtb_bytes_in_flight rtb + re_pktlen ent = rtb_bytes_in_flight (conn_rtb c)).
  { pose proof (sum_pktlen_perm (conn_rtb_heap c) _ _ Hperm) as Hsum. rewrite <- (wf_rtb_bytes _ _ Hw), <- Hh in Hsum.
    simpl in Hsum. unfold pktlen_of in Hsum at 1. rewrite Hp in Hsum. simpl in Hsum. rewrite (wf_rtb_bytes _ _ Hw'). lia. }
  pose proof (se_len _ (live_ents _ _ _ _ _ _ Hl Hp)). apply HQ; [| |done|].
  - apply (live_rtb_change b n N c); try done; [apply Hr | destruct Hr; lia].
  - split; [done|]. simpl. rewrite Hh. unfold unlink. rewrite list_elem_of_filter. naive_solver.
  - rewrite Hh. apply Permutation_length in Hperm. simpl in Hperm. lia.
Qed.

(** An entry of the buffer is there. *)
Lemma live_top b n N c p : live b n N c -> ngtcp2_rtb_top (conn_rtb c) = Some p ->
  exists ent, conn_rtb_heap c !! p = Some ent.
Proof.
  intros [Hok _] Htop. pose proof (co_rtb _ _ _ _ Hok) as Hw.
  destruct (rtb_pop_spec _ _ Hw) as (rtb & _ & _ & _ & H). rewrite Htop in H. destruct H as (Hin & _).
  pose proof (wf_rtb_store _ _ Hw) as Hs. rewrite list.Forall_forall in Hs. destruct (Hs p Hin) as (ent & ? & _). by exists ent.
Qed.

(** ** ACK frames *)

(** The packets in the buffer, and the entries. *)
Definition same_rtb c c' : Prop :=
  conn_rtb c' = conn_rtb c /\ conn_rtb_heap c' = conn_rtb_heap c.

Lemma frame_same_rtb c c' : conn_frame c c' -> same_rtb c c'.
Proof. by intros []. Qed.

Lemma same_rtb_trans c1 c2 c3 : same_rtb c1 c2 -> same_rtb c2 c3 -> same_rtb c1 c3.
Proof. intros [? ?] [? ?]. split; congruence. Qed.

Lemma apart_same c c' p ent : same_rtb c c' -> apart c p ent -> apart c' p ent.
Proof. intros [E1 E2] [Hp Hn]. unfold apart. by rewrite E1, E2. Qed.

Lemma live_acktr b n N N' c acktr al :
  live b n N c -> N <= N' -> acktr_inv (acktr, al) -> Forall (fun e => aa_pkt_num e <= N') al ->
  Forall (fun e => 0 <= ae_pkt_num e <= b) (ent acktr) -> live b n N' (set_conn_acktr acktr c).
Proof.
  intros Hl HN Hinv Hal Hent. apply (live_mono b n N b N') in Hl; [|lia..]. destruct Hl as [Hok Hr].
  split; [by eapply set_acktr_ok | by eapply set_acktr_ready].
Qed.

Lemma live_timer b n N c i e : live b n N c ->
  live b n N (set_conn_immediate_ack i (set_conn_next_ack_expiry e c)).
Proof. intros [Hok []]. split; [keep_ok Hok | by split]. Qed.

(** What is known of an ACK frame the library builds. *)
Definition own_ack (fr : ngtcp2_ack) : Prop := valid_ack fr /\ encodable (fr_ack fr).

Lemma wp_create_ack b n N ts c (Q : option ngtcp2_ack -> ngtcp2_conn A -> Prop) E :
  live b n N c -> b < 2 ^ 62 ->
  (forall o c', live b n N c' -> same_rtb c c' -> (forall fr, o = Some fr -> own_ack fr) -> Q o c') ->
  wp (conn_create_ack_frame ts false) Q E c.
Proof.
  intros Hl Hb HQ. pose proof Hl as [Hok Hr]. destruct (rd_acks _ _ _ _ _ _ _ _ Hr) as (al & Hwf & Hn & Hal).
  destruct (rd_received _ _ _ _ _ _ _ _ Hr) as [Hent _].
  assert (Hnone : wp (conn_invalidate_next_ack_expiry;; mret None) Q E c).
  { unfold conn_invalidate_next_ack_expiry. wp_go. apply HQ; [by apply live_timer | done | done]. }
  destruct (active_ack (conn_acktr c)) eqn:Hact.
  2:{ unfold conn_create_ack_frame. wp_step. wp_step. by rewrite Hact. }
  destruct (ent (conn_acktr c)) as [|e0 l0] eqn:Hl0.
  { unfold conn_create_ack_frame. wp_step. wp_step. by rewrite Hact, Hl0. }
  rewrite <- Hl0 in Hent.
  eapply wp_mono; [apply (create_ack_frame_spec c al ts false Hwf) | |].
  - eapply Forall_impl; [exact Hent|]. simpl. clia.
  - intros [fr|] c'; [|intros [_ [H|H]]; [congruence|]].
    2:{ unfold reported_nums in H. apply fmap_nil_inv in H. rewrite Hl0 in H. by rewrite filter_cons_True in H. }
    intros (_ & (Hv & Hblks & acked & rest & Heq & _ & Hrest) & (e & _ & Hdelay) & c1 & (m & -> & Hm) & Hc').
    pose proof (memory b n N c m Hl (Hm (live_reliable _ _ _ _ Hl))) as Hl1.
    assert (Hinv : acktr_inv (conn_acktr c', al) /\ Forall (fun e => 0 <= ae_pkt_num e <= b) (ent (conn_acktr c'))).
    { destruct Hrest as [[_ ->]|(_ & k & e' & _ & ->)]; [by split|]. split; [|simpl; by apply Forall_take].
      by apply (acktr_step_inv (conn_acktr c, al)); [|constructor]. }
    rewrite Hc'. apply HQ.
    + by eapply live_acktr; [exact Hl1 | done | apply Hinv | done | apply Hinv].
    + done.
    + intros ? [= <-]. split; [done|]. destruct Hv as [(H1 & H2 & H3) _]. split_and!; try done. rewrite Hdelay.
      destruct (rd_settings _ _ _ _ _ _ _ _ Hr) as (_ & _ & Hexp). pose proof (u64_range (ts - ae_tstamp e)) as Hu.
      split; [apply Z.shiftr_nonneg, Hu|].
      rewrite Z.shiftr_div_pow2 by lia. pose proof (Z.pow_le_mono_r 2 2 _ ltac:(lia) Hexp).
      apply Z.div_lt_upper_bound; [by apply Z.pow_pos_nonneg; lia|]. eapply Z.lt_le_trans; [apply Hu|].
      change (2 ^ 64) with (2 ^ 2 * 2 ^ 62). by apply Z.mul_le_mono_nonneg_r.
  - intros e c' (_ & Hno & _). destruct Hno. by eapply live_reliable.
Qed.

(** An ACK frame has gone out in the packet that is about to be sent. *)
Lemma live_add_ack b n c fr t :
  live b n n c -> own_ack fr ->
  acks t = acks (conn_acktr c) -> ent t = ent (conn_acktr c) -> nack t = nack (conn_acktr c) ->
  live b n (n + 1) (set_conn_acktr (ngtcp2_acktr_add_ack t (n + 1) fr false) c).
Proof.
  intros Hl [Hv _] E1 E2 E3. pose proof Hl as [Hok Hr].
  destruct (rd_acks _ _ _ _ _ _ _ _ Hr) as (al & Hwf & Hn & Hal).
  assert (Hstep : acktr_inv (ngtcp2_acktr_add_ack t (n + 1) fr false, take 128 (mk_acktr_ack_entry fr (n + 1) false :: al))).
  { apply (acktr_step_inv (t, al)).
    - unfold acktr_inv, wf_acktr in *. simpl. by rewrite E1, E2, E3.
    - apply step_add_ack; [done|]. eapply Forall_impl; [exact Hal|]. simpl. lia. }
  eapply (live_acktr b n n); [done | lia | exact Hstep | |].
  - apply Forall_take. constructor; [simpl; lia|]. eapply Forall_impl; [exact Hal|]. simpl. lia.
  - destruct (rd_received _ _ _ _ _ _ _ _ Hr) as [Hent _]. unfold ngtcp2_acktr_add_ack.
    destruct (ngtcp2_ringbuf_push_front _). simpl. by rewrite E2.
Qed.

Lemma wp_commit_ack {B} b n c fr (k : M (ngtcp2_conn A) B) (Q : B -> ngtcp2_conn A -> Prop) E :
  live b n n c -> own_ack fr -> (forall c', live b n (n + 1) c' -> same_rtb c c' -> wp k Q E c') ->
  wp (conn_commit_tx_ack;; conn_add_ack (n + 1) fr false;; k) Q E c.
Proof.
  intros Hl Hfr HQ. unfold conn_commit_tx_ack, conn_invalidate_next_ack_expiry, conn_add_ack.
  wp_step. wp_step. wp_step. wp_step. wp_step. wp_step.
  apply HQ; [|done]. apply (live_add_ack b n (set_conn_immediate_ack false (set_conn_next_ack_expiry 0 c))); [by apply live_timer | done..].
Qed.

(** The ACK frame that is added to a packet. *)
Lemma wp_write_ack b n c ctx cap hd payload ppe called h ts (E : Z -> ngtcp2_conn A -> Prop) :
  live b n n c -> b < 2 ^ 62 -> building ctx cap hd payload ppe -> hd_pkt_num h = n + 1 ->
  wp (write_ack cb ppe called h ts)
    (fun r c' => (exists payload', building ctx cap hd payload' r.1) /\ live b n (n + 1) c' /\ same_rtb c c') E c.
Proof.
  intros Hl Hb Hbd Hnum. unfold write_ack. wp_step. apply (wp_create_ack b n n); [done..|]. intros o c1 Hl1 Hs1 Ho.
  destruct o as [fr|].
  2:{ wp_go. split; [by exists payload|]. split; [eapply live_mono; [done | lia..] | done]. }
  destruct (Ho fr eq_refl) as [Hv Henc]. wp_step. wp_step.
  apply (wp_write_frame b n n c1 ctx cap hd payload); [done..| |].
  - intros ppe' c2 Hbd' Hl2 Hf2. rewrite Hnum. cbn [encoded_frame]. apply (wp_commit_ack b n c2 fr); [done | by split|].
    intros c3 Hl3 Hs3. wp_go. split; [by eexists|]. split; [done|].
    eapply same_rtb_trans; [done|]. eapply same_rtb_trans; [by apply frame_same_rtb | done].
  - wp_go. split; [by exists payload|]. split; [eapply live_mono; [done | lia..] | done].
Qed.

(** ** One packet again *)

(** The packet at [p] has left the buffer; its timer has run out. *)
Record due b ts c (p : positive) ent : Prop := {
  du_apart : apart c p ent;
  du_expiry : re_expiry ent <= ts;
  du_bytes : rtb_bytes_in_flight (conn_rtb c) + re_pktlen ent <= b
}.

Lemma due_same b ts c c' p ent : same_rtb c c' -> due b ts c p ent -> due b ts c' p ent.
Proof. intros Hs []. split; [by eapply apart_same | done |]. by destruct Hs as [-> _]. Qed.

(** The timer can be doubled. *)
Lemma extend_sent ent hd frc deadline pktlen flags e ts :
  sent_entry ent -> re_expiry ent <= ts -> 0 <= ts < 2 ^ 61 -> wf_hd_out hd -> Forall sendable frc -> 0 <= pktlen ->
  exists ent', ngtcp2_rtb_entry_extend_expiry (mk_rtb_entry hd frc e deadline (re_count ent) pktlen flags) ts = Ok ent' /\
    sent_entry ent' /\ re_frc ent' = frc /\ re_pktlen ent' = pktlen.
Proof.
  intros [] He Hts Hhd Hfrc Hlen. assert (Hc : 0 <= re_count ent < 42).
  { split; [lia|]. destruct (Z.lt_ge_cases (re_count ent) 42) as [|Hge]; [done|]. exfalso.
    destruct (proj2 se_count) as [?|Hexp]; [lia|].
    pose proof (Z.pow_le_mono_r 2 42 _ ltac:(lia) Hge). unfold NGTCP2_INITIAL_EXPIRY in Hexp. lia. }
  destruct (extend_expiry_spec (mk_rtb_entry hd frc e deadline (re_count ent) pktlen flags) ts Hc ltac:(lia))
    as (ent' & Heq & E1 & E2 & E3 & E4 & E5). simpl in *.
  exists ent'. split_and!; try done. split; rewrite ?E1, ?E2, ?E3, ?E4, ?E5; try done. split; [lia|]. right. lia.
Qed.

Lemma wp_renew b n N p hd frc ts ent c (Q : unit -> ngtcp2_conn A -> Prop) E :
  live b n N c -> apart c p ent -> re_expiry ent <= ts -> 0 <= ts < 2 ^ 61 -> wf_hd_out hd -> Forall sendable frc ->
  (forall ent' c', live b n N c' -> apart c' p ent' -> conn_rtb c' = conn_rtb c -> Q tt c') ->
  wp (renew_rtb_entry p hd frc ts) Q E c.
Proof.
  intros Hl Ha He Hts Hhd Hfrc HQ. pose proof (live_ents _ _ _ _ _ _ Hl (proj1 Ha)) as Hent.
  destruct (extend_sent ent hd frc (re_deadline ent) (re_pktlen ent) (re_flags ent) (re_expiry ent) ts)
    as (ent' & Heq & Hent' & _); try done; [apply Hent|].
  unfold renew_rtb_entry. wp_step. eapply wp_load_ent; [apply Ha|]. wp_step. rewrite Heq. wp_step. simpl.
  eapply (wp_store_ent b n N p ent ent'); [done..|]. intros c' Hl' Ha' Hr _. by eapply HQ.
Qed.

Lemma wp_split b n N p hd w ts nwrite flags ent c (Q : unit -> ngtcp2_conn A -> Prop) E :
  live b n N c -> apart c p ent -> re_expiry ent <= ts -> 0 <= ts < 2 ^ 61 -> wf_hd_out hd ->
  Forall sendable (wn_done w) -> Forall sendable (wn_left w) -> 0 <= nwrite -> b < 2 ^ 62 ->
  rtb_bytes_in_flight (conn_rtb c) + nwrite <= b ->
  (forall ent' c', live b n N c' -> apart c' p ent' ->
    rtb_bytes_in_flight (conn_rtb c') = rtb_bytes_in_flight (conn_rtb c) + nwrite -> Q tt c') ->
  wp (split_rtb_entry p hd w ts nwrite flags) Q E c.
Proof.
  intros Hl Ha He Hts Hhd Hdone Hleft Hnw Hb Hbytes HQ. pose proof (live_ents _ _ _ _ _ _ Hl (proj1 Ha)) as Hent.
  unfold split_rtb_entry. wp_step. eapply wp_load_ent; [apply Ha|]. wp_step.
  apply (wp_new_entry b n N); [done | constructor | done | done|]. intros q c1 Hl1 Hq1 Hold Hr1 _.
  destruct (Hold p ent (proj1 Ha)) as [Hpq Hp1].
  wp_step. eapply wp_load_ent; [apply Hq1|]. cbn [re_hd re_expiry re_deadline re_pktlen re_flags].
  destruct (extend_sent ent hd (wn_done w) (re_deadline ent) nwrite flags (u64 (ts + NGTCP2_INITIAL_EXPIRY)) ts)
    as (nent & Heq & Hnent & _ & Hlen); try done.
  wp_step. rewrite Heq. wp_step. simpl. wp_step.
  eapply (wp_store_ent b n N q _ nent); [done..|]. intros c2 Hl2 Hq2 Hr2 Hh2. wp_step.
  assert (Hp2 : apart c2 p ent).
  { split; [by rewrite Hh2, lookup_insert_ne | rewrite Hr2, Hr1; apply Ha]. }
  eapply (wp_store_ent b n N p ent); [done | done | by destruct Hent; split |]. intros c3 Hl3 Hp3 Hr3 Hh3.
  assert (Hq3 : apart c3 q nent).
  { split; [rewrite Hh3, lookup_insert_ne by done; apply Hq2 | rewrite Hr3; apply Hq2]. }
  assert (Hr : conn_rtb c3 = conn_rtb c) by congruence.
  eapply wp_add_entry; [done | done | rewrite Hr, Hlen; done | done|].
  intros c4 Hl4 Hh4 Hb4 [Hheap4 _]. eapply HQ; [done| |rewrite Hb4, Hr, Hlen; done].
  split; [rewrite Hheap4; apply Hp3|]. rewrite Hh4. intros [?|Hin]%elem_of_cons; [done|]. by apply Hp3.
Qed.

Section Entry.
Context (b n destlen ts : Z) (Hn : 0 <= n < UINT64_MAX) (Hd : 0 <= destlen) (Hb : b + 2 * destlen < 2 ^ 62).
Context (Hts : 0 <= ts < 2 ^ 61).

(** The packet has been sent again, and there is room for its entry; or none of its
    frames matters any more. *)
Definition resent p c (pkt : bytes) c' : Prop := exists ent, apart c' p ent /\
  (pkt = [] /\ live b n n c' /\ conn_rtb c' = conn_rtb c \/
   0 < zlen pkt <= destlen /\ live (b + 2 * destlen) (n + 1) (n + 1) c' /\
   rtb_bytes_in_flight (conn_rtb c') <= b + destlen).

(** It has not been sent, or the AEAD has failed. *)
Definition unsent p e c' : Prop := exists ent, apart c' p ent /\
  (e = NGTCP2_ERR_CALLBACK_FAILURE \/
   live b n n c' /\ rtb_bytes_in_flight (conn_rtb c') + re_pktlen ent <= b).

Lemma bytes_le k N c : live k n N c -> rtb_bytes_in_flight (conn_rtb c) <= k.
Proof. by intros [_ []]. Qed.

Lemma due_unsent p ent c e : live b n n c -> due b ts c p ent -> unsent p e c.
Proof. intros Hl [Ha _ Hle]. exists ent. split; [done|]. by right. Qed.

(** The packet number is used. *)
Lemma wp_next_num p ent k N c (Q : unit -> ngtcp2_conn A -> Prop) E :
  live k n N c -> N <= n + 1 -> apart c p ent ->
  (forall c', live k (n + 1) (n + 1) c' -> apart c' p ent -> conn_rtb c' = conn_rtb c -> Q tt c') ->
  wp next_pkt_num Q E c.
Proof. intros Hl HN Ha HQ. unfold next_pkt_num. wp_go. apply HQ; [by eapply live_next | done..]. Qed.

Lemma hs_finishing ctx hd payload ppe c :
  live b n n c -> ctx_aead_overhead ctx = NGTCP2_HANDSHAKE_AEAD_OVERHEAD -> ctx_encrypt ctx = cb_hs_encrypt cb ->
  8 <= zlen (km_iv (ctx_ckm ctx)) <= 32 -> building ctx destlen hd payload ppe -> finishing destlen hd ppe.
Proof.
  intros [_ []] Ho He Hiv Hbd. exists ctx, payload, hs_decrypt. split_and!; try done; try apply Hiv. rewrite Ho, He. apply rd_aead.
Qed.

Lemma hd_num64 : is_uint 64 (u64 (n + 1)).
Proof. apply u64_range. Qed.

Lemma retransmit_unprotected_ok p ent c :
  live b n n c -> due b ts c p ent -> has_bit (hd_flags (re_hd ent)) NGTCP2_PKT_FLAG_LONG_FORM = true ->
  wp (conn_retransmit_unprotected cb destlen p ts) (resent p c) (unsent p) c.
Proof.
  intros Hl Hdue Hlong. pose proof Hdue as [Ha He Hbytes]. pose proof (live_ents _ _ _ _ _ _ Hl (proj1 Ha)) as Hent.
  unfold conn_retransmit_unprotected. wp_step. eapply wp_load_ent; [apply Ha|]. wp_step. wp_step.
  pose proof Hl as [_ []]. rewrite rd_num. set (hd := mk_pkt_hd _ _ _ _ _).
  assert (Hhd : wf_hd_out hd).
  { left. destruct (se_hd _ Hent) as [(Hf & Ht & _)|(Hf & _)].
    - split_and!; try done; try apply rd_ids. apply hd_num64.
    - exfalso. by destruct Hf as [Hf|[Hf|[Hf|Hf]]]; rewrite Hf in Hlong. }
  wp_step. apply (wp_hs_ctx b n n); [done|]. intros ctx Ho Henc Hiv. wp_step.
  apply (wp_start_pkt destlen ctx hd); [lia | by rewrite Ho | done | |intros _; by eapply due_unsent].
  intros ppe Hbd. wp_step.
  eapply wp_mono; [apply (write_frames_ok b n n c ctx destlen hd hd (unsent p) (re_frc ent) c [] ppe false []);
    [done | done | done | constructor | apply Hent] | | done].
  intros w c1 (Hl1 & Hf1 & (payload & Hbd1) & Hdone & Hleft). pose proof (frame_same_rtb _ _ Hf1) as Hs1.
  pose proof (due_same _ _ _ _ _ _ Hs1 Hdue) as Hdue1. pose proof (du_apart _ _ _ _ _ Hdue1) as Ha1.
  destruct (bool_decide (wn_done w = [])).
  { wp_step. wp_step; [by eapply due_unsent|]. wp_step. exists ent. split; [done|]. left. by destruct Hs1. }
  assert (Hfin : forall payload' ppe', building ctx destlen hd payload' ppe' -> finishing destlen hd ppe')
    by (intros; by eapply hs_finishing).
  destruct (bool_decide (wn_left w = [])).
  - wp_step. apply (wp_renew b n n p hd (wn_done w) ts ent); try done. intros ent2 c2 Hl2 Ha2 Hr2. wp_step.
    eapply wp_mono with (Q := fun ppe' c3 => finishing destlen hd ppe' /\ live b n n c3 /\ apart c3 p ent2); [| |done].
    { destruct (_ =? _); [|wp_go; split; [by eapply Hfin | done]]. wp_step. wp_step.
      destruct (padding_building _ _ _ _ _ Hbd1) as (ppe' & len & payload' & -> & Hbd'). simpl. wp_step.
      apply (wp_told _ _ b n n); [apply Hlive | apply Hquiet | done|]. intros c3 Hl3 Hf3. wp_go.
      split; [by eapply Hfin|]. split; [done | by eapply apart_frame]. }
    intros ppe' c3 (Hf & Hl3 & Ha3). wp_step. eapply wp_next_num; [done | lia | done|]. intros c4 Hl4 Ha4 Hr4.
    eapply wp_final; [done | apply hd_num64 | |].
    + intros pkt Hlen. exists ent2. split; [done|]. right. split; [done|]. split; [eapply live_mono; [done | lia..]|].
      pose proof (bytes_le _ _ _ Hl3). rewrite Hr4. lia.
    + exists ent2. split; [done | by left].
  - wp_step. eapply wp_final; [by eapply Hfin | apply hd_num64 | |].
    2:{ exists ent. split; [done | by left]. }
    intros pkt Hlen. wp_step. pose proof (bytes_le _ _ _ Hl1).
    eapply (wp_split (b + 2 * destlen) n n p hd w ts (zlen pkt) _ ent c1); try done; try lia; [eapply live_mono; [done | lia..]|].
    intros ent2 c2 Hl2 Ha2 Hb2. wp_step. eapply wp_next_num; [done | lia | done|]. intros c3 Hl3 Ha3 Hr3. wp_go.
    exists ent2. split; [done|]. right. split; [done|]. split; [done|]. rewrite Hr3, Hb2. lia.
Qed.

Lemma tx_finishing ctx hd payload ppe c :
  live b n n c -> ctx_aead_overhead ctx = conn_aead_overhead c -> ctx_encrypt ctx = cb_encrypt cb ->
  8 <= zlen (km_iv (ctx_ckm ctx)) <= 32 -> building ctx destlen hd payload ppe -> finishing destlen hd ppe.
Proof.
  intros [_ []] Ho He Hiv Hbd. exists ctx, payload, decrypt. split_and!; try done; try apply Hiv. rewrite Ho, He. apply rd_aead.
Qed.

Lemma short_type c m : conn_select_pkt_type c m = NGTCP2_PKT_01 \/ conn_select_pkt_type c m = NGTCP2_PKT_02 \/
  conn_select_pkt_type c m = NGTCP2_PKT_03.
Proof. unfold conn_select_pkt_type. repeat (destruct (_ <=? _) || destruct (_ <? _)); auto. Qed.

Lemma retransmit_protected_ok p ent c :
  live b n n c -> due b ts c p ent -> has_bit (hd_flags (re_hd ent)) NGTCP2_PKT_FLAG_LONG_FORM = false ->
  wp (conn_retransmit_protected cb destlen p ts) (resent p c) (unsent p) c.
Proof.
  intros Hl Hdue Hlong. pose proof Hdue as [Ha He Hbytes]. pose proof (live_ents _ _ _ _ _ _ Hl (proj1 Ha)) as Hent.
  unfold conn_retransmit_protected. wp_step. eapply wp_load_ent; [apply Ha|]. wp_step. wp_step. cbv zeta.
  pose proof Hl as [_ []]. rewrite rd_num. rewrite (u64_small (n + 1)) by (unfold UINT64_MAX in *; clia).
  set (hd := mk_pkt_hd _ _ _ _ _).
  assert (Hhd : wf_hd_out hd).
  { right. destruct (se_hd _ Hent) as [(Hf & _)|(Hf & _)]; [by rewrite Hf in Hlong|].
    split_and!; try done; try apply rd_ids; [apply short_type | unfold UINT64_MAX in *; simpl; clia..]. }
  assert (Hn64 : is_uint 64 (hd_pkt_num hd)) by (unfold UINT64_MAX in *; simpl; clia).
  wp_step. apply (wp_tx_ctx b n n); [done|]. intros ctx Ho Henc Hiv. wp_step.
  apply (wp_start_pkt destlen ctx hd); [lia | rewrite Ho; apply rd_aead | done | |intros _; by eapply due_unsent].
  intros ppe Hbd. wp_step.
  eapply wp_mono; [apply (write_live_frames_ok b n n c ctx destlen hd hd (unsent p) (re_frc ent) c [] ppe false []);
    [done | done | done | constructor | apply Hent] | | done].
  intros w c1 (Hl1 & Hf1 & (payload & Hbd1) & Hdone & Hleft). pose proof (frame_same_rtb _ _ Hf1) as Hs1.
  pose proof (due_same _ _ _ _ _ _ Hs1 Hdue) as Hdue1.
  assert (Hfin : forall payload' ppe', building ctx destlen hd payload' ppe' -> finishing destlen hd ppe')
    by (intros payload2 ppe2; exact (tx_finishing ctx hd payload2 ppe2 c Hl Ho Henc Hiv)).
  wp_step. eapply (wp_store_ent b n n p ent); [done | apply Hdue1 | |].
  { destruct Hent. split; try done. by apply Forall_app. }
  set (ent2 := mk_rtb_entry _ _ _ _ _ _ _). intros c2 Hl2 Ha2 Hr2 _.
  assert (Hdue2 : due b ts c2 p ent2) by (split; [done | done | rewrite Hr2; apply Hdue1]).
  destruct (bool_decide (wn_done w = [])).
  { wp_step. wp_step; [by eapply due_unsent|]. wp_step. exists ent2. split; [done|]. left. split; [done|]. split; [done|].
    rewrite Hr2. apply Hs1. }
  wp_step.
  eapply wp_mono with (Q := fun r c3 => finishing destlen hd r.1 /\ live b n (n + 1) c3 /\ same_rtb c2 c3); [| |done].
  { destruct (conn_next_ack_expired c ts).
    - eapply wp_mono; [apply (wp_write_ack b n c2 ctx destlen hd payload); [done | lia | done | done] | | done].
      intros [ppe' called] c3 ([payload' Hbd3] & Hl3 & Hs3). split; [by eapply Hfin | done].
    - wp_go. split; [by eapply Hfin|]. split; [eapply live_mono; [done | lia..] | done]. }
  intros [ppe' called] c3 (Hf3 & Hl3 & Hs3). simpl in Hf3. pose proof (due_same _ _ _ _ _ _ Hs3 Hdue2) as Hdue3.
  pose proof (bytes_le _ _ _ Hl3). destruct (bool_decide (wn_left w = [])).
  - wp_step. apply (wp_renew b n (n + 1) p hd (wn_done w) ts ent2); try done; [apply Hdue3|]. intros ent4 c4 Hl4 Ha4 Hr4.
    wp_step. eapply wp_final; [done | done | |].
    2:{ exists ent4. split; [done | by left]. }
    intros pkt Hlen. wp_step. eapply wp_next_num; [done | lia | done|]. intros c5 Hl5 Ha5 Hr5. wp_go.
    exists ent4. split; [done|]. right. split; [done|]. split; [eapply live_mono; [done | lia..]|]. rewrite Hr5, Hr4. lia.
  - wp_step. eapply wp_final; [done | done | |].
    2:{ exists ent2. split; [apply Hdue3 | by left]. }
    intros pkt Hlen. wp_step.
    eapply (wp_split (b + 2 * destlen) n (n + 1) p hd w ts (zlen pkt) _ ent2 c3); try done; try lia;
      [eapply live_mono; [done | lia..] | apply Hdue3|].
    intros ent4 c4 Hl4 Ha4 Hb4. wp_step. eapply wp_next_num; [done | lia | done|]. intros c5 Hl5 Ha5 Hr5. wp_go.
    exists ent4. split; [done|]. right. split; [done|]. split; [done|]. rewrite Hr5, Hb4. lia.
Qed.

Lemma retransmit_entry_ok p ent c :
  live b n n c -> due b ts c p ent -> wp (conn_retransmit_entry cb destlen p ts) (resent p c) (unsent p) c.
Proof.
  intros Hl Hdue. unfold conn_retransmit_entry. wp_step. eapply wp_load_ent; [apply Hdue|]. wp_step. wp_step. cbv zeta.
  assert (Hnone : resent p c [] c) by (exists ent; split; [apply Hdue | by left]).
  assert (Herr : unsent p NGTCP2_ERR_INVALID_ARGUMENT c) by by eapply due_unsent.
  destruct (has_bit (hd_flags _) _) eqn:Hlong; destruct (_ || _); try by wp_go.
  - destruct (has_bit (conn_flags c) _); [wp_step; exact Hnone | by eapply retransmit_unprotected_ok].
  - by eapply retransmit_protected_ok.
Qed.

(** ** The packets that are due *)

(** What a call that writes a packet leaves. *)
Definition gave (pkt : bytes) c' : Prop :=
  pkt = [] /\ live b n n c' \/ 0 < zlen pkt <= destlen /\ live (b + 2 * destlen) (n + 1) (n + 1) c'.
Definition failed e c' : Prop := e = NGTCP2_ERR_CALLBACK_FAILURE \/ live b n n c'.

Lemma wp_throw_deleted {B} p ent rv (Q : B -> ngtcp2_conn A -> Prop) c :
  apart c p ent -> (rv = NGTCP2_ERR_CALLBACK_FAILURE \/ live b n n c) ->
  wp (ngtcp2_rtb_entry_del p;; throw rv) Q failed c.
Proof.
  intros Ha Hor. wp_step. destruct Hor as [->|Hl].
  - unfold ngtcp2_rtb_entry_del. wp_step. eapply wp_load_ent; [apply Ha|]. wp_go. by left.
  - eapply wp_entry_del; [done..|]. intros c' Hl' _ _. wp_go. by right.
Qed.

Lemma retransmit_loop_ok fuel c :
  live b n n c -> (length (rtb_head (conn_rtb c)) < fuel)%nat ->
  wp (retransmit_loop cb fuel destlen ts) gave failed c.
Proof.
  revert c. induction fuel as [|fuel IH]; intros c Hl Hfuel; [lia|]. cbn [retransmit_loop]. wp_step. wp_step.
  assert (Hnone : gave [] c) by by left.
  destruct (ngtcp2_rtb_top (conn_rtb c)) as [p|] eqn:Htop; [|by wp_step].
  destruct (live_top _ _ _ _ _ Hl Htop) as [ent Hp]. wp_step. eapply wp_load_ent; [done|].
  destruct (Z.ltb_spec ts (re_expiry ent)) as [|Hexp]; [by wp_step|].
  wp_step. apply (wp_rtb_pop b n n p ent); [done..|]. intros rtb Hl1 Ha1 Hbytes Hlen. wp_step. wp_step.
  set (c1 := set_conn_rtb rtb c) in *.
  destruct (re_deadline ent <=? ts); [eapply wp_throw_deleted; [done | by right]|].
  pose proof (bytes_le _ _ _ Hl). wp_step. wp_step.
  assert (Hdue : due b ts c1 p ent) by (split; [done | done | simpl; lia]).
  eapply wp_mono; [by apply (retransmit_entry_ok p ent c1) | |].
  - intros pkt c2 (ent2 & Ha2 & [(-> & Hl2 & Hr2)|(Hpkt & Hl2 & Hb2)]).
    + wp_step. eapply wp_entry_del; [done..|]. intros c3 Hl3 Hr3 _. apply IH; [done|]. rewrite Hr3, Hr2. simpl. lia.
    + assert (Hgave : forall c', live (b + 2 * destlen) (n + 1) (n + 1) c' -> gave pkt c') by (intros; by right).
      destruct pkt as [|x pkt]; [by destruct Hpkt|]. wp_step. eapply wp_load_ent; [apply Ha2|].
      destruct (bool_decide _).
      * wp_step. eapply wp_entry_del; [done..|]. intros c3 Hl3 _ _. wp_go. by apply Hgave.
      * wp_step. pose proof (live_ents _ _ _ _ _ _ Hl2 (proj1 Ha2)) as Hent2.
        eapply wp_store_ent; [done | done | destruct Hent2; split; try done; apply zlen_nonneg|].
        intros c3 Hl3 Ha3 Hr3 _. wp_step. eapply wp_add_entry; [done | done | | done|].
        { rewrite Hr3. cbn [re_pktlen]. lia. }
        intros c4 Hl4 _ _ _. wp_go. by apply Hgave.
  - intros e c2 (ent2 & Ha2 & Hor). destruct (Z.eqb_spec e NGTCP2_ERR_NOBUF) as [->|].
    + destruct Hor as [?|[Hl2 Hb2]]; [done|]. wp_step. eapply wp_add_entry; [done | done | done | lia|].
      intros c3 Hl3 _ _ _. wp_go. by right.
    + eapply wp_throw_deleted; [done|]. naive_solver.
Qed.

Lemma retransmit_ok c : live b n n c -> wp (conn_retransmit cb destlen ts) gave failed c.
Proof. intros Hl. unfold conn_retransmit. wp_step. wp_step. apply retransmit_loop_ok; [done | lia]. Qed.
End Entry.
End Send.
