(* ===== verification/ConnOut.v ===== *)
(** The packets of [ngtcp2_conn_write_pkt], [ngtcp2_conn_write_ack_pkt] and
    [ngtcp2_conn_write_stream] after the handshake: no undefined behaviour, and the
    connection stays ready. *)

From S2P Require Import Prelude Conv Frame PktDecode PktEncode PktHd Mem Monad Range Gaptr Idtr Ringbuf.
From S2P Require Import AckScan Acktr Pq Rtb Map Rob Crypto Ppe Strm Err Conn ConnApp.
From S2P Require Import ConnAck ConnSend ConnInv ConnFrames ConnState ConnTx ConnWrite ConnSingle ConnReady ConnRetx.

Section Out.
Context {A : Type} (av : app_view A) (cb : ngtcp2_conn_callbacks A).
Context (Hlive : callbacks_live cb) (Hquiet : sends_quiet av cb).
Context (decrypt hs_decrypt : bytes -> bytes -> bytes -> bytes -> option bytes).
Implicit Types (c : ngtcp2_conn A).
Abbreviation conn_ok := (conn_ok av true None).
Abbreviation live := (live av cb decrypt hs_decrypt).

(** ** The queue of frames *)

Lemma live_frq b n N c frq : live b n N c -> Forall sendable frq -> live b n N (set_conn_frq frq c).
Proof. intros [Hok []] Hf. split; [keep_ok Hok | by split]. Qed.

Lemma wp_frq_push b n N fr c (Q : unit -> ngtcp2_conn A -> Prop) E :
  live b n N c -> sendable fr -> (forall c', live b n N c' -> conn_fc_strms c' = conn_fc_strms c -> Q tt c') ->
  wp (conn_frq_push fr) Q E c.
Proof.
  intros Hl Hfr HQ. unfold conn_frq_push. wp_step. apply HQ; [|done]. apply live_frq; [done|].
  constructor; [done | apply Hl].
Qed.

Lemma wp_queue_max_data b n N ackfr c (Q : unit -> ngtcp2_conn A -> Prop) E :
  live b n N c -> (forall c', live b n N c' -> Q tt c') -> wp (queue_max_data ackfr) Q E c.
Proof.
  intros Hl HQ. unfold queue_max_data. wp_step. wp_step. destruct (_ && _); [|wp_step; by apply HQ].
  wp_step. apply (wp_chain_new av cb decrypt hs_decrypt b n N); [done|]. intros m Hl1. wp_step.
  eapply wp_frq_push; [done | split; [apply Hl | done]|]. intros c2 [Hok2 []] _. wp_step. apply HQ.
  split; [keep_ok Hok2 | by split].
Qed.

Lemma wp_queue_max_stream_data b n N l (E : Z -> ngtcp2_conn A -> Prop) :
  forall c (Q : unit -> ngtcp2_conn A -> Prop),
  live b n N c -> Forall (fun p => is_Some (conn_strm_heap c !! p)) l ->
  (forall c', live b n N c' -> Q tt c') -> wp (queue_max_stream_data l) Q E c.
Proof.
  induction l as [|p l IH]; intros c Q Hl Hall HQ; cbn [queue_max_stream_data]; [wp_step; by apply HQ|].
  apply list.Forall_cons in Hall as [[strm Hp] Hall]. wp_step.
  apply (wp_chain_new av cb decrypt hs_decrypt b n N); [done|]. intros m Hl1. wp_step. eapply wp_load_strm; [done|].
  pose proof (rd_strms _ _ _ _ _ _ _ _ (proj2 Hl) p strm Hp) as [Hid Htx Hun Hrob]. wp_step. unfold conn_frq_push. wp_step.
  pose proof (live_frq b n N _ (fr_max_stream_data (strm_stream_id strm) (strm_unsent_max_rx_offset strm) ::
    conn_frq (set_conn_mem m c)) Hl1 ltac:(constructor; [by split | apply Hl])) as Hl2.
  set (c2 := set_conn_frq _ _) in *. wp_step. eapply wp_store_strm; [done|]. set (strm' := set_max_rx_offset _ _).
  assert (Hl3 : live b n N (set_conn_strm_heap (<[p := strm']> (conn_strm_heap c2)) c2)).
  { destruct Hl2 as [Hok2 Hr2]. split.
    - apply (store_strm_ok av true None c2 p strm strm'); [done | done | by split |]. by destruct (strm_ok_at av _ _ _ _ _ Hok2 Hp).
    - apply insert_strm_ready; [|done]. split; [by split | done]. }
  set (c3 := set_conn_strm_heap _ _) in *. wp_step. wp_step.
  assert (Hall3 : Forall (fun p => is_Some (conn_strm_heap c3 !! p)) l).
  { eapply Forall_impl; [exact Hall|]. intros q Hq. simpl. destruct (decide (q = p)) as [->|];
      [rewrite lookup_insert_eq; by eexists | by rewrite lookup_insert_ne]. }
  apply IH; [|done..]. destruct Hl3 as [[[M []] [] ? ? ? ? ? ? ?] []].
  split; [split; [exists M; split | split | ..]; assumption | by split].
Qed.

(** ** The frames of a packet *)

Section Build.
Context (b n destlen : Z) (hd : ngtcp2_pkt_hd) (ctx : ngtcp2_crypto_ctx).

(** The packet under construction; nothing has been written as long as it is empty. *)
Definition built N (pb : pkt_build) c : Prop :=
  live b n N c /\ (exists payload, building ctx destlen hd payload (pb_ppe pb)) /\ (pb_empty pb = true -> N = n).

Lemma write_queued_ok N fr pb c (E : Z -> ngtcp2_conn A -> Prop) :
  built N pb c -> sendable fr -> wp (write_queued_frame cb hd fr pb) (built N) E c.
Proof.
  intros (Hl & [payload Hbd] & He) Hfr. unfold write_queued_frame. wp_step. wp_step.
  apply (wp_write_frame av cb Hlive Hquiet decrypt hs_decrypt b n N c ctx destlen hd payload); [done | done | | |].
  - by apply sendable_encodable.
  - intros ppe' c' Hbd' Hl' _. wp_go. split; [done|]. split; [by eexists | done].
  - wp_step. apply wp_assert; [done|]. wp_go. split; [done|]. split; [by exists payload | done].
Qed.

Lemma wp_drop_frame N fr pb c (Q : bool -> ngtcp2_conn A -> Prop) E :
  built N pb c -> (forall d, Q d c) -> wp (drop_queued_frame fr) Q E c.
Proof.
  intros [[Hok _] _] HQ. destruct fr; simpl; try (wp_go; by apply HQ).
  all: wp_step; apply (wp_find_live av true None); [done | wp_go; by apply HQ|].
  - intros p strm _ _ _. wp_go. by apply HQ.
  - intros p strm Hp _ _. wp_step. eapply wp_load_strm; [done|]. wp_go. by apply HQ.
Qed.

Lemma Forall_frq_before {P : ngtcp2_frame -> Prop} pfrc l : Forall P l -> Forall P (frq_before pfrc l).
Proof. destruct pfrc; [apply Forall_take | by constructor]. Qed.
Lemma Forall_frq_from {P : ngtcp2_frame -> Prop} pfrc l : Forall P l -> Forall P (frq_from pfrc l).
Proof. destruct pfrc; [apply Forall_drop | done]. Qed.

Lemma write_round_ok N fr pb c (E : Z -> ngtcp2_conn A -> Prop) :
  built N pb c -> sendable fr -> wp (write_frq_round cb hd fr pb) (built N) E c.
Proof.
  intros Hb Hfr. unfold write_frq_round. wp_step. eapply wp_drop_frame; [done|]. intros [].
  - unfold frq_delete. wp_go. destruct Hb as (Hl & Hb & He). split; [|by split]. apply live_frq; [done|].
    pose proof (rd_frq _ _ _ _ _ _ _ _ (proj2 Hl)) as Hfrq. apply Forall_app. split; [by apply Forall_frq_before|].
    apply Forall_frq_from with (pfrc := pb_pfrc pb) in Hfrq. by destruct Hfrq.
  - by apply write_queued_ok.
Qed.

Lemma write_frq_next_ok k N pb c (E : Z -> ngtcp2_conn A -> Prop) :
  built N pb c -> wp (write_frq_next cb k hd pb) (built N) E c.
Proof.
  revert pb c. induction k as [|k IH]; intros pb c Hb; simpl; [by wp_go|]. wp_step. wp_step.
  pose proof (rd_frq _ _ _ _ _ _ _ _ (proj2 (proj1 Hb))) as Hfrq. apply Forall_frq_from with (pfrc := pb_pfrc pb) in Hfrq.
  destruct (frq_from _ _) as [|fr l]; [by wp_go|]. apply list.Forall_cons in Hfrq as [Hfr _]. wp_step.
  eapply wp_mono; [by apply write_round_ok | | done]. intros pb' c' Hb'. destruct (pb_nobuf pb'); [by wp_go | by apply IH].
Qed.

Lemma write_frq_ok l N pb c (E : Z -> ngtcp2_conn A -> Prop) :
  built N pb c -> Forall sendable l -> wp (write_frq cb l hd pb) (built N) E c.
Proof.
  revert pb c. induction l as [|fr l IH]; intros pb c Hb Hl; simpl; [by wp_go|].
  apply list.Forall_cons in Hl as [Hfr Hl]. wp_step. eapply wp_mono; [by apply write_round_ok | | done].
  intros pb' c' Hb'. destruct (pb_nobuf pb'); [by wp_go|]. destruct (pb_pfrc pb'); [by apply write_frq_next_ok | by apply IH].
Qed.

Lemma write_max_stream_id_ok N unsent max set_max pb c (E : Z -> ngtcp2_conn A -> Prop) :
  built N pb c -> (forall c, live b n N c -> is_uint 62 (unsent c)) ->
  (forall c v, live b n N c -> live b n N (set_max v c)) ->
  wp (write_max_stream_id cb hd unsent max set_max pb) (built N) E c.
Proof.
  intros Hb Hun Hset. unfold write_max_stream_id. wp_step. wp_step. destruct (_ && _); [|by wp_go].
  destruct Hb as (Hl & Hb & He). wp_step. apply (wp_chain_new av cb decrypt hs_decrypt b n N); [done|]. intros m Hl1.
  assert (Hfr : sendable (fr_max_stream_id (unsent c))) by (split; [by apply Hun | done]).
  unfold frq_append. wp_go. apply write_queued_ok; [|done]. split; [|by split]. apply Hset, live_frq; [done|].
  apply Forall_app. split; [apply Hl1 | by constructor].
Qed.

Lemma store_written_ok N pfrc ts pktlen c (Q : unit -> ngtcp2_conn A -> Prop) E :
  live b n N c -> wf_hd_out hd -> 0 <= pktlen -> rtb_bytes_in_flight (conn_rtb c) + pktlen <= b -> b < 2 ^ 62 ->
  (forall c', live b n N c' -> Q tt c') -> wp (store_written_frames hd pfrc ts pktlen) Q E c.
Proof.
  intros Hl Hhd Hlen Hbytes Hb HQ. unfold store_written_frames. destruct pfrc as [k|]; [|wp_step; by apply HQ].
  wp_step. apply (wp_new_entry av cb decrypt hs_decrypt b n N); [done | constructor | done | done|].
  intros p c1 Hl1 Ha1 _ Hr1 _. wp_step. eapply wp_load_ent; [apply Ha1|]. wp_step. wp_step. wp_step.
  pose proof (rd_ents _ _ _ _ _ _ _ _ (proj2 Hl1) p _ (proj1 Ha1)) as [].
  pose proof (rd_frq _ _ _ _ _ _ _ _ (proj2 Hl1)) as Hfrq.
  eapply (wp_store_ent av cb decrypt hs_decrypt b n N p); [done | done | |].
  { split; try done. by apply (Forall_frq_before (Some k)). }
  intros c2 Hl2 Ha2 Hr2 _. wp_step. wp_step.
  assert (Hl3 : live b n N (set_conn_frq (frq_from (Some k) (conn_frq c1)) c2))
    by (apply live_frq; [done | by apply Forall_frq_from]).
  eapply wp_add_entry; [exact Hl3 | exact Ha2 | | done|].
  - cbn [re_pktlen]. change (conn_rtb (set_conn_frq _ c2)) with (conn_rtb c2). by rewrite Hr2, Hr1.
  - intros c4 Hl4 _ _ _. by apply HQ.
Qed.
End Build.

(** ** Packets *)

Section Pkt.
Context (b n destlen : Z) (Hn : 0 <= n < UINT64_MAX) (Hd : 0 <= destlen) (Hb : b + 2 * destlen < 2 ^ 62).
Abbreviation gave := (gave av cb decrypt hs_decrypt b n destlen).
Abbreviation failed := (failed av cb decrypt hs_decrypt b n).

(** The header of a protected packet, and its key. *)
Lemma next_hd c flags : live b n n c -> flags = NGTCP2_PKT_FLAG_NONE ->
  let hd := mk_pkt_hd flags (conn_select_pkt_type c (u64 (conn_last_tx_pkt_num c + 1))) (conn_conn_id c)
    (u64 (conn_last_tx_pkt_num c + 1)) (conn_version c) in
  wf_hd_out hd /\ is_uint 64 (hd_pkt_num hd) /\ u64 (conn_last_tx_pkt_num c + 1) = n + 1.
Proof.
  intros [_ []] ->. rewrite rd_num, (u64_small (n + 1)) by (unfold UINT64_MAX in *; clia). simpl.
  assert (is_uint 64 (n + 1)) by (unfold UINT64_MAX in *; clia). split; [|done]. right.
  split_and!; try done; [by left | apply short_type | apply rd_ids].
Qed.

(** The packet is started; the frames go into [built]. *)
Lemma wp_start {B} c (k : ngtcp2_ppe -> M (ngtcp2_conn A) B) (Q : B -> ngtcp2_conn A -> Prop) hd :
  live b n n c -> wf_hd_out hd ->
  (forall ctx ppe, building ctx destlen hd [] ppe ->
    (forall payload ppe, building ctx destlen hd payload ppe -> finishing destlen hd ppe) ->
    wp (k ppe) Q failed c) ->
  wp (ctx ← tx_ctx cb c; ppe ← start_pkt destlen ctx hd; k ppe) Q failed c.
Proof.
  intros Hl Hhd HQ. wp_step. apply (wp_tx_ctx av cb decrypt hs_decrypt b n n); [done|]. intros ctx Ho He Hiv. wp_step.
  pose proof Hl as [_ []].
  apply (wp_start_pkt destlen ctx hd); [lia | rewrite Ho; apply rd_aead | done | | intros _; by right].
  intros ppe Hbd. apply (HQ ctx); [done|]. intros payload ppe' Hbd'.
  exact (tx_finishing av cb decrypt hs_decrypt b n destlen ctx hd payload ppe' c Hl Ho He Hiv Hbd').
Qed.

Lemma bytes_bound k N c : live k n N c -> rtb_bytes_in_flight (conn_rtb c) <= k.
Proof. by intros [_ []]. Qed.

Lemma write_pkt_ok ts c : live b n n c -> wp (conn_write_pkt cb destlen ts) gave failed c.
Proof.
  intros Hl. unfold conn_write_pkt. wp_step. wp_step. wp_step.
  eapply wp_mono with (Q := fun o c' => live b n n c' /\ forall fr, o = Some fr -> own_ack fr); [| |done].
  { destruct (conn_next_ack_expired c ts); [|by wp_go].
    apply (wp_create_ack av cb decrypt hs_decrypt b n n); [done | lia | by intros]. }
  intros ackfr c1 [Hl1 Hack]. wp_step. apply (wp_queue_max_data b n n); [done|]. intros c2 Hl2. wp_step. wp_step. wp_step.
  destruct (co_streams _ _ _ _ (proj1 Hl2)) as [M2 Hst2].
  apply (wp_queue_max_stream_data b n n); [done | apply Hst2|]. intros c3 Hl3. wp_step. wp_step.
  assert (Hnone : forall c, live b n n c -> gave [] c) by (intros; by left).
  destruct (bool_decide (ackfr = None) && _ && _ && _); [wp_step; by apply Hnone|].
  pose proof (next_hd c3 _ Hl3 eq_refl) as (Hhd & Hn64 & Hnum). cbv zeta in *. set (hd := mk_pkt_hd _ _ _ _ _) in *.
  apply wp_start; [done..|]. intros ctx ppe Hbd Hfin. wp_step.
  eapply wp_mono with (Q := fun r c' => exists N, N <= n + 1 /\
    built b n destlen hd ctx N (mk_pkt_build r.1 None r.2 (bool_decide (ackfr = None)) false) c'); [| |done].
  { destruct ackfr as [fr|].
    2:{ wp_go. exists n. split; [lia|]. split; [done|]. split; [by exists [] | done]. }
    destruct (Hack fr eq_refl) as [Hv Henc]. wp_step.
    apply (wp_write_frame av cb Hlive Hquiet decrypt hs_decrypt b n n c3 ctx destlen hd []); [done..| |by right].
    intros ppe' c4 Hbd' Hl4 _. rewrite Hnum.
    apply (wp_commit_ack av cb decrypt hs_decrypt b n c4 fr); [done | by split|]. intros c5 Hl5 _. wp_go.
    exists (n + 1). split; [lia|]. split; [done|]. split; [by eexists | done]. }
  intros [ppe' called] c4 (N & HN & Hb4). wp_step. wp_step. wp_step.
  eapply wp_mono; [apply (write_frq_ok b n destlen hd ctx _ N _ _ failed Hb4); apply Hb4 | |done].
  intros pb1 c5 Hb5. wp_step.
  eapply wp_mono; [apply (write_max_stream_id_ok b n destlen hd ctx N _ _ _ _ _ failed Hb5) | |done].
  { intros c' [_ []]. apply rd_unsent. }
  { intros c' v [Hok []]. split; [keep_ok Hok | by split]. }
  intros pb2 c6 Hb6. wp_step.
  eapply wp_mono; [apply (write_max_stream_id_ok b n destlen hd ctx N _ _ _ _ _ failed Hb6) | |done].
  { intros c' [_ []]. apply rd_unsent. }
  { intros c' v [Hok []]. split; [keep_ok Hok | by split]. }
  intros pb c7 (Hl7 & [payload Hbd7] & He). destruct (pb_empty pb).
  { rewrite (He eq_refl) in Hl7. wp_step. wp_step; [by right|]. wp_step. by apply Hnone. }
  wp_step. eapply wp_final; [by eapply Hfin | done | |by left]. intros pkt Hlen. wp_step.
  pose proof (bytes_bound _ _ _ Hl7).
  apply (store_written_ok (b + 2 * destlen) n hd N); [eapply live_mono; [done | lia..] | done | lia | lia | done|].
  intros c8 Hl8. wp_step. unfold next_pkt_num. wp_go. right. split; [done|]. by eapply live_next.
Qed.

(** ** Packets with one frame *)

Lemma wp_encode_told c ctx hd payload ppe h fr (Q : ngtcp2_ppe * ngtcp2_frame -> ngtcp2_conn A -> Prop) E x :
  conn_ok c -> ready cb decrypt hs_decrypt b n n x c -> building ctx destlen hd payload ppe -> encodable fr ->
  (forall ppe' c', building ctx destlen hd (payload ++ layout fr) ppe' -> conn_ok c' ->
    ready cb decrypt hs_decrypt b n n x c' -> conn_frame c c' -> Q (ppe', encoded_frame fr) c') ->
  E NGTCP2_ERR_NOBUF c ->
  wp (encode_and_report cb ppe h fr) Q E c.
Proof.
  intros Hok Hr [] Hfr HQ HE. unfold encode_and_report. wp_step. wp_step.
  pose proof (ppe_encode_frame_spec ppe fr bd_wf Hfr) as H.
  destruct (ngtcp2_ppe_encode_frame ppe fr) as [[ppe' fr']|e|]; simpl; [|by destruct H as [-> _]|done].
  destruct H as (? & -> & Hbb & ? & ? & ? & ?). wp_step.
  eapply wp_told_x; [apply Hlive | apply Hquiet | done | done|]. intros c' Hok' Hr' Hf'. wp_go. apply HQ; try done.
  split; try congruence. by rewrite Hbb, bd_bytes, app_assoc.
Qed.

Lemma single_frame_live fr c (Q : bytes -> ngtcp2_conn A -> Prop) :
  live b n n c -> encodable fr -> (forall ack, fr = fr_ack ack -> own_ack ack) ->
  (forall pkt c', 0 < zlen pkt <= destlen -> live b (n + 1) (n + 1) c' -> Q pkt c') ->
  wp (conn_write_single_frame_pkt cb destlen fr) Q failed c.
Proof.
  intros Hl Hfr Hack HQ. unfold conn_write_single_frame_pkt. wp_step. wp_step.
  pose proof (next_hd c _ Hl eq_refl) as (Hhd & Hn64 & Hnum). cbv zeta in *. set (hd := mk_pkt_hd _ _ _ _ _) in *.
  apply wp_start; [done..|]. intros ctx ppe Hbd Hfin. wp_step.
  apply (wp_told av cb decrypt hs_decrypt _ hd b n n); [apply Hlive | apply Hquiet | done|]. intros c1 Hl1 _. wp_step.
  eapply (wp_encode_told c1 ctx hd [] ppe hd fr _ _ None); [apply Hl1 | apply Hl1 | done | done | | by right].
  intros ppe' c2 Hbd2 Hok2 Hr2 _. wp_step. eapply wp_final; [by eapply Hfin | done | |by left]. intros pkt Hlen. wp_step.
  assert (Hl2 : live b n n c2) by done. rewrite Hnum.
  assert (Hnext : forall c', live b n (n + 1) c' -> wp (next_pkt_num;; mret pkt) Q failed c').
  { intros c' Hl'. unfold next_pkt_num. wp_go. apply HQ; [done|]. by eapply live_next. }
  assert (Hlow : live b n (n + 1) c2) by (eapply live_mono; [exact Hl2 | lia..]).
  destruct fr as [|ack| | | | | | | | | | | | | | |]; simpl; try (wp_step; by apply Hnext).
  unfold conn_add_ack. wp_step. apply Hnext, live_add_ack; [done | by apply Hack | done..].
Qed.

Lemma commit_live k N c (Q : unit -> ngtcp2_conn A -> Prop) E :
  live b k N c -> (forall c', live b k N c' -> Q tt c') -> wp conn_commit_tx_ack Q E c.
Proof.
  intros Hl HQ. unfold conn_commit_tx_ack, conn_invalidate_next_ack_expiry. wp_go. apply HQ.
  pose proof Hl as [_ Hr]. destruct (rd_acks _ _ _ _ _ _ _ _ Hr) as (al & Hwf & Hnm & Hal).
  eapply (live_acktr av cb decrypt hs_decrypt b k N N _ _ al); [by apply live_timer | lia | by split | done | apply Hr].
Qed.

Lemma protected_ack_ok ts c : live b n n c -> wp (conn_write_protected_ack_pkt cb destlen ts) gave failed c.
Proof.
  intros Hl. unfold conn_write_protected_ack_pkt. wp_step. wp_step.
  destruct (negb _); [wp_step; by left|]. wp_step.
  apply (wp_create_ack av cb decrypt hs_decrypt b n n); [done | lia|]. intros o c1 Hl1 _ Ho.
  destruct o as [fr|]; [|wp_step; by left]. destruct (Ho fr eq_refl) as [Hv Henc]. wp_step.
  apply single_frame_live; [done | done | by intros ? [= <-]|]. intros pkt c2 Hlen Hl2. wp_step.
  eapply commit_live; [done|]. intros c3 Hl3. wp_go. right. split; [done|]. eapply live_mono; [done | lia..].
Qed.

(** ** Stream data *)

(** The data received on the stream is the same. *)
Definition same_received (strm strm' : ngtcp2_strm Z) : Prop :=
  strm_stream_id strm' = strm_stream_id strm /\ strm_me strm' = strm_me strm /\
  strm_acked_tx_offset strm' = strm_acked_tx_offset strm /\ strm_rob strm' = strm_rob strm /\
  strm_last_rx_offset strm' = strm_last_rx_offset strm /\
  has_bit (strm_flags strm') NGTCP2_STRM_FLAG_SHUT_RD = has_bit (strm_flags strm) NGTCP2_STRM_FLAG_SHUT_RD.

Lemma live_strm k m N p strm strm' c :
  live k m N c -> conn_strm_heap c !! p = Some strm -> same_received strm strm' -> strm_ready strm' ->
  live k m N (set_conn_strm_heap (<[p := strm']> (conn_strm_heap c)) c).
Proof.
  intros [Hok Hr] Hp (H1 & H2 & H3 & H4 & H5 & H6) Hs. split; [|apply insert_strm_ready; [by split | done]].
  eapply store_strm_gen; [done | exact Hp | done | done | | by auto | by auto].
  rewrite H3. by destruct (strm_ok_at av _ _ _ _ _ Hok Hp).
Qed.

(** The bookkeeping for [m] bytes that have been sent. *)
Lemma wp_count_live c p strm stream_id (fin : bool) pkt m :
  live (b + 2 * destlen) n n c -> conn_strm_heap c !! p = Some strm -> 0 < zlen pkt <= destlen -> 0 <= m ->
  strm_tx_offset strm + m <= strm_max_tx_offset strm -> conn_tx_offset c + m <= conn_max_tx_offset c ->
  wp (update_strm p (fun strm => set_tx_offset strm (u64 (strm_tx_offset strm + m)));;
      (if negb (stream_id =? 0) then
         modify (fun c => set_conn_tx_offset (u64 (conn_tx_offset c + m)) c)
       else mret tt);;
      next_pkt_num;;
      (if fin then update_strm p (fun strm => ngtcp2_strm_shutdown strm NGTCP2_STRM_FLAG_SHUT_WR) else mret tt);;
      mret (pkt, m)) (fun r => gave r.1) failed c.
Proof.
  intros Hl Hp Hpkt Hm Hmax Hcmax. pose proof (rd_strms _ _ _ _ _ _ _ _ (proj2 Hl) p strm Hp) as [Hid Htx Hun Hrob].
  pose proof (rd_credit _ _ _ _ _ _ _ _ (proj2 Hl)) as Hcr. wp_step. eapply wp_update_strm; [done|].
  rewrite (u64_small (strm_tx_offset strm + m)) by clia. set (strm1 := set_tx_offset _ _).
  assert (Hs1 : strm_ready strm1) by (split; simpl; [done | lia | done | done]).
  pose proof (live_strm _ n n p strm strm1 c Hl Hp ltac:(done) Hs1) as Hl1. set (c1 := set_conn_strm_heap _ c) in *.
  wp_step. eapply wp_mono with (Q := fun _ c2 => live (b + 2 * destlen) n n c2 /\ conn_strm_heap c2 !! p = Some strm1); [| |done].
  { assert (conn_strm_heap c1 !! p = Some strm1) as Hp1 by apply lookup_insert_eq.
    destruct (negb _); wp_go; [|done]. split; [|done]. destruct Hl1 as [Hok1 Hr1]. split; [keep_ok Hok1|].
    destruct Hr1. split; try assumption. simpl. rewrite u64_small by clia. lia. }
  intros [] c2 [Hl2 Hp2]. wp_step. unfold next_pkt_num. wp_step. apply (live_next av cb) in Hl2; [|done | lia].
  set (c3 := set_conn_last_tx_pkt_num _ c2) in *. wp_step.
  destruct fin; [|wp_go; by right]. eapply wp_update_strm; [exact Hp2|]. wp_go. right. split; [done|].
  apply (live_strm _ _ _ p strm1); [done | done | | by destruct Hs1; split].
  split_and!; try done. by apply has_bit_lor.
Qed.

(** The packet has been sized: [m] bytes are sent, or none. *)
Lemma wp_send_live c p strm (fin : bool) data m ctx hd ppe ts (E : Z -> ngtcp2_conn A -> Prop) :
  live b n n c -> conn_strm_heap c !! p = Some strm -> building ctx destlen hd [] ppe ->
  (forall payload ppe, building ctx destlen hd payload ppe -> finishing destlen hd ppe) ->
  wf_hd_out hd -> is_uint 64 (hd_pkt_num hd) -> hd_type hd <> NGTCP2_PKT_0RTT_PROTECTED ->
  all_bytes data -> 0 <= m <= zlen data ->
  strm_tx_offset strm + m <= strm_max_tx_offset strm -> conn_tx_offset c + m <= conn_max_tx_offset c ->
  wp (conn_call_send_pkt cb hd;;
      ngtcp2_frame_chain_new;;
      strm' ← load_strm p;
      '(ppe, fr) ← encode_and_report cb ppe hd (fr_stream (mk_stream 0 (c_bool fin)
        (strm_stream_id strm) (strm_tx_offset strm') (take (Z.to_nat m) data)));
      pkt ← final_pkt ppe;
      ent ← new_rtb_entry hd [fr] ts (pkt_deadline ts) (zlen pkt) NGTCP2_RTB_FLAG_NONE;
      store_stream_pkt ent (hd_type hd);;
      update_strm p (fun strm => set_tx_offset strm (u64 (strm_tx_offset strm + m)));;
      (if negb (strm_stream_id strm =? 0) then
         modify (fun c => set_conn_tx_offset (u64 (conn_tx_offset c + m)) c)
       else mret tt);;
      next_pkt_num;;
      (if fin then update_strm p (fun strm => ngtcp2_strm_shutdown strm NGTCP2_STRM_FLAG_SHUT_WR) else mret tt);;
      mret (pkt, m)) (fun r => gave r.1) failed c.
Proof.
  intros Hl Hp Hbd Hfin Hhd Hn64 Hty Hdata Hm Hmax Hcmax.
  pose proof (rd_strms _ _ _ _ _ _ _ _ (proj2 Hl) p strm Hp) as [Hid Htx Hun Hrob].
  set (f := mk_focus p false (strm_tx_offset strm + m) (conn_tx_offset c + m)).
  assert (Hr : ready cb decrypt hs_decrypt b n n (Some f) c).
  { apply ready_focus; [apply Hl | | done |].
    - destruct (co_streams _ _ _ _ (proj1 Hl)) as [M Hst]. by apply (st_heap _ _ _ _ Hst p strm).
    - simpl. intros s Hs. assert (s = strm) as -> by congruence. done. }
  wp_step. eapply (wp_told_x av cb decrypt hs_decrypt _ hd b n n (Some f)); [apply Hlive | apply Hquiet | apply Hl | done|].
  intros c1 Hok1 Hr1 Hf1. wp_step. apply (malloc_ok av true None); [done | | done]. intros mm [Hok2 [Hf2 _]].
  apply (mem_ready _ _ _ _ _ _ _ mm) in Hr1. assert (Hf : conn_frame c (set_conn_mem mm c1)) by (by etrans).
  revert Hok2 Hr1 Hf. generalize (set_conn_mem mm c1). clear c1 Hok1 Hf1 Hf2. intros c2 Hok2 Hr2 Hf2.
  destruct (af_heap _ _ Hf2 p strm Hp) as (strm2 & Hp2 & Hsf2). wp_step. eapply wp_load_strm; [done|].
  rewrite (sf_tx _ _ Hsf2). assert (Htl : zlen (take (Z.to_nat m) data) = m) by (rewrite zlen_take; lia).
  set (fr := fr_stream _). assert (Hwf : wf_frame fr).
  { unfold fr, wf_frame. cbn [stream_stream_id stream_offset stream_data]. rewrite Htl.
    split_and!; [done | clia | by apply Forall_take | clia]. }
  wp_step. eapply (wp_encode_told c2 ctx hd [] ppe hd fr _ _ (Some f)); [done | done | done | by apply wf_encodable | |].
  2:{ right. split; [done | by eapply ready_forget]. }
  intros ppe' c3 Hbd3 Hok3 Hr3 Hf3. wp_step. eapply wp_final; [by eapply Hfin | done | |by left]. intros pkt Hlen.
  assert (Hl3 : live b n n c3) by (split; [done | by eapply ready_forget]).
  destruct (rd_x _ _ _ _ _ _ _ _ Hr3 f eq_refl) as (_ & Hcm & Hin). cbn [fo_strm fo_conn_max f] in Hcm, Hin.
  assert (Hf : conn_frame c c3) by (by etrans). destruct (af_heap _ _ Hf p strm Hp) as (strm3 & Hp3 & Hsf3).
  destruct (Hin strm3 Hp3) as [_ Hsm]. cbn [fo_max_tx f] in Hsm. pose proof (bytes_bound _ _ _ Hl3).
  apply (live_mono av cb _ _ b n n (b + 2 * destlen) n) in Hl3; [|lia..]. wp_step.
  apply (wp_new_entry av cb decrypt hs_decrypt (b + 2 * destlen) n n); [done | | done | lia |].
  { constructor; [|constructor]. by apply sendable_encoded. }
  intros q c4 Hl4 Ha4 _ Hr4 (Es4 & Et4 & Em4). wp_step. unfold store_stream_pkt. rewrite (proj2 (Z.eqb_neq _ _)) by done.
  eapply wp_add_entry; [done | done | rewrite Hr4; simpl; lia | done|].
  intros c5 Hl5 _ _ (_ & Es5 & Et5 & Em5). pose proof (af_tx_offset _ _ Hf) as Etx. pose proof (sf_tx _ _ Hsf3) as Estx.
  eapply wp_count_live; [done | by rewrite Es5, Es4 | done | lia | lia | lia].
Qed.

(** ** The functions the application calls *)

Lemma wp_check_num {B} (k : M (ngtcp2_conn A) B) (Q : B -> ngtcp2_conn A -> Prop) c :
  live b n n c -> wp k Q failed c -> wp (check_pkt_num;; k) Q failed c.
Proof. intros Hl Hk. unfold check_pkt_num. wp_step. wp_step. wp_step. wp_step; [by right | done]. Qed.

Lemma write_stream_live stream_id fin data ts c :
  live b n n c -> all_bytes data -> zlen data < 2 ^ 62 ->
  wp (ngtcp2_conn_write_stream cb destlen stream_id fin data ts) (fun r => gave r.1) failed c.
Proof.
  intros Hl Hdata Hdl. unfold ngtcp2_conn_write_stream. apply wp_check_num; [done|]. pose proof Hl as [Hok Hr].
  assert (Herr : forall e, failed e c) by (by right). wp_step. unfold conn_get_stream. wp_step.
  apply (wp_find_live av true None); [done | by wp_go|]. intros p strm Hp Hid _. subst stream_id. wp_step. wp_step.
  eapply wp_load_strm; [done|]. wp_step. wp_step; [done|]. wp_step. wp_step. wp_step. wp_step.
  pose proof (rd_strms _ _ _ _ _ _ _ _ Hr p strm Hp) as [_ Htx _ _]. pose proof (rd_credit _ _ _ _ _ _ _ _ Hr) as Hcr.
  destruct (rd_keys _ _ _ _ _ _ _ _ Hr) as ((km & Hkm & Hiv) & _). unfold select_stream_pkt. rewrite Hkm. cbn [wpe].
  pose proof (next_hd c _ Hl eq_refl) as (Hhd & Hn64 & Hnum). cbv zeta in *. set (hd := mk_pkt_hd _ _ _ _ _) in *.
  set (ctx := mk_crypto_ctx km (conn_aead_overhead c) (cb_encrypt cb)).
  destruct (rd_aead _ _ _ _ _ _ _ _ Hr) as (Hov & Haead & _).
  destruct (rd_received _ _ _ _ _ _ _ _ Hr) as [_ Hb0].
  wp_step. apply (wp_start_pkt destlen ctx hd); [lia | done | done | | done]. intros ppe Hbd.
  pose proof (ppe_space ppe (bd_wf _ _ _ _ _ Hbd)) as (Hleft & Hlt & Hu).
  assert (Hll : ngtcp2_ppe_left ppe = b_cap (ppe_buf ppe) - zlen (b_bytes (ppe_buf ppe)) - ctx_aead_overhead (ppe_ctx ppe))
    by (unfold ngtcp2_ppe_left; by rewrite Hlt, Hu).
  cbv zeta in Hleft. rewrite <- Hll in Hleft. wp_step. wp_step; [done|].
  match goal with Hx : (_ <=? _) = false |- _ => apply Z.leb_gt in Hx end.
  rewrite !(u64_small (_ - _)) by clia. set (m := Z.min (Z.min (Z.min _ _) _) _).
  unfold NGTCP2_STREAM_OVERHEAD in *. zfacts. assert (Hm : 0 <= m <= zlen data) by (unfold m; lia).
  wp_step. wp_step; [done|].
  apply (wp_send_live c p strm (fin && (m =? zlen data)) data m ctx hd ppe ts failed); try done.
  - intros payload ppe' Hbd'. exact (tx_finishing av cb decrypt hs_decrypt b n destlen ctx hd payload ppe' c Hl eq_refl eq_refl Hiv Hbd').
  - simpl. destruct (short_type c (u64 (conn_last_tx_pkt_num c + 1))) as [->|[->| ->]]; done.
  - unfold m. lia.
  - unfold m. lia.
Qed.

Lemma close_live fr (k : bytes -> M (ngtcp2_conn A) bytes) c :
  live b n n c -> encodable fr -> (forall ack, fr <> fr_ack ack) ->
  (forall pkt c' (Q : bytes -> ngtcp2_conn A -> Prop) E, 0 < zlen pkt ->
    Q pkt (set_conn_state NGTCP2_CS_CLOSING c') -> wp (k pkt) Q E c') ->
  wp (check_pkt_num;; c ← get;
      match conn_state c with
      | NGTCP2_CS_POST_HANDSHAKE => pkt ← conn_write_single_frame_pkt cb destlen fr; k pkt
      | _ => throw NGTCP2_ERR_INVALID_STATE
      end) gave failed c.
Proof.
  intros Hl Hfr Hna Hk. apply wp_check_num; [done|]. wp_step. wp_step.
  destruct (conn_state c); try (wp_step; by right). wp_step.
  apply single_frame_live; [done | done | by intros ack E%Hna|]. intros pkt c' Hlen Hl'. apply Hk; [lia|].
  right. split; [done|]. apply (live_mono av cb _ _ b (n + 1) (n + 1) (b + 2 * destlen) (n + 1)) in Hl' as [Hok' []]; [|lia..].
  split; [keep_ok Hok' | by split].
Qed.
End Pkt.

(** A call that writes at the time [ts] into [destlen] bytes. *)
Section Calls.
Context (b n destlen ts : Z) (Hn : 0 <= n <= UINT64_MAX) (Hd : 0 <= destlen) (Hb : b + 2 * destlen < 2 ^ 62).
Context (Hts : 0 <= ts < 2 ^ 61).
Abbreviation gave := (gave av cb decrypt hs_decrypt b n destlen).
Abbreviation failed := (failed av cb decrypt hs_decrypt b n).

Lemma wp_num {B} (k : M (ngtcp2_conn A) B) (Q : B -> ngtcp2_conn A -> Prop) c :
  live b n n c -> (n < UINT64_MAX -> wp (check_pkt_num;; k) Q failed c) -> wp (check_pkt_num;; k) Q failed c.
Proof.
  intros Hl Hk. destruct (Z.eq_dec n UINT64_MAX) as [E|]; [|apply Hk; lia].
  unfold check_pkt_num. wp_step. wp_step. wp_step. wp_step; [by right|].
  apply Z.eqb_neq in H. by rewrite (rd_num _ _ _ _ _ _ _ _ (proj2 Hl)) in H.
Qed.

Lemma write_pkt_live c : live b n n c -> after_handshake (conn_state c) ->
  wp (ngtcp2_conn_write_pkt cb destlen ts) gave failed c.
Proof.
  intros Hl Hs. unfold wp. rewrite write_pkt_after by done.
  refine (wp_num _ _ c Hl _). intros Hmax. apply wp_check_num; [done|]. wp_step.
  eapply wp_mono; [apply (retransmit_ok av cb Hlive Hquiet decrypt hs_decrypt b n destlen ts); [lia | done..] | |done].
  intros pkt c1 [[-> Hl1]|[Hlen Hl1]].
  - simpl. destruct (bool_decide _); [apply write_pkt_ok; (done || lia) | wp_step; by left].
  - rewrite bool_decide_false by (intros ->; by destruct Hlen). simpl. wp_step. by right.
Qed.

Lemma wp_state {B} (m : M (ngtcp2_conn A) B) (Q : B -> ngtcp2_conn A -> Prop) E c :
  follows (into []) m -> wp m Q E c -> wp m (fun r c' => Q r c' /\ conn_state c' = conn_state c) E c.
Proof.
  intros Hf. specialize (Hf c). unfold wp. destruct (m c); [|done..]. intros HQ.
  destruct Hf as [[?|?%not_elem_of_nil] _]; done.
Qed.

Lemma write_ack_pkt_live c : live b n n c -> after_handshake (conn_state c) ->
  wp (ngtcp2_conn_write_ack_pkt cb destlen ts) gave failed c.
Proof.
  intros Hl Hs. unfold ngtcp2_conn_write_ack_pkt. apply wp_num; [done|]. intros Hmax. apply wp_check_num; [done|]. wp_step.
  eapply wp_mono; [apply wp_state; [apply follows_retransmit; typeclasses eauto |
    apply (retransmit_ok av cb Hlive Hquiet decrypt hs_decrypt b n destlen ts); (done || lia)] | |done].
  intros pkt c1 [[[-> Hl1]|[Hlen Hl1]] Hst].
  - simpl. wp_step. wp_step. rewrite Hst. unfold after_handshake in Hs. rewrite !elem_of_cons, elem_of_nil in Hs.
    destruct Hs as [->|[->|[->|[]]]]; [apply protected_ack_ok; (done || lia) | wp_step; by left..].
  - rewrite bool_decide_false by (intros ->; by destruct Hlen). simpl. wp_step. by right.
Qed.
End Calls.
End Out.
