(* ===== verification/ConnSession.v ===== *)
(** Sessions: the calls an application makes after the handshake, one after the
    other. None of them runs into undefined behaviour. *)

From S2P Require Import Prelude Conv Frame PktDecode PktEncode PktHd Mem Monad Range Gaptr Idtr Ringbuf.
From S2P Require Import AckScan Acktr Pq Rtb Map Rob Crypto Ppe Strm Err Conn ConnApp.
From S2P Require Import ConnAck ConnSend ConnInv ConnStream ConnRecv ConnFrames ConnPkt ConnState ConnTx ConnWrite.
From S2P Require Import ConnSingle ConnReady ConnRetx ConnOut.

(** An error of [ngtcp2_conn_recv], and a callback that fails, end the session. The
    others, like a buffer that is too small or a stream that is blocked, do not. *)
Definition ends_session (ev : conn_event) (e : Z) : bool :=
  match ev with
  | ev_recv _ _ => true
  | _ => e =? NGTCP2_ERR_CALLBACK_FAILURE
  end.

Section Run.
Context {A : Type} (cb : ngtcp2_conn_callbacks A).

(** The packets that are written, and whether the session goes on after the calls. *)
Fixpoint run_session (evs : list conn_event) : M (ngtcp2_conn A) (list bytes * bool) :=
  match evs with
  | [] => mret ([], true)
  | ev :: evs =>
      r ← attempt (event_out cb ev);
      match r with
      | inl pkt => '(pkts, alive) ← run_session evs; mret (pkt :: pkts, alive)
      | inr e => if ends_session ev e then mret ([], false) else run_session evs
      end
  end.
End Run.

(** The arguments are in the range of their types; times, in microseconds, leave
    room for the timers. *)
Definition event_ok (ev : conn_event) : Prop :=
  match ev with
  | ev_recv pkt _ => all_bytes pkt /\ zlen pkt < 2 ^ 62
  | ev_write_pkt destlen ts | ev_write_ack_pkt destlen ts => 0 <= destlen /\ 0 <= ts < 2 ^ 61
  | ev_write_stream destlen _ _ data _ => 0 <= destlen /\ all_bytes data /\ zlen data < 2 ^ 62
  | ev_write_connection_close destlen code | ev_write_application_close destlen code => 0 <= destlen /\ is_uint 16 code
  | ev_call call => call_ok call /\ call_live call
  end.

(** How far the call may move packet numbers and the bytes in flight. *)
Definition event_cost (ev : conn_event) : Z :=
  match ev with
  | ev_recv _ _ => 2 ^ 34
  | ev_write_pkt destlen _ | ev_write_ack_pkt destlen _ | ev_write_stream destlen _ _ _ _
  | ev_write_connection_close destlen _ | ev_write_application_close destlen _ => 2 * destlen
  | ev_call _ => 0
  end.
Definition session_cost (evs : list conn_event) : Z := foldr (fun ev n => event_cost ev + n) 0 evs.

Section Session.
Context {A : Type} (av : app_view A) (cb : ngtcp2_conn_callbacks A).
Context (Hcb : callbacks_ok av cb) (Hlive : callbacks_live cb) (Hquiet : sends_quiet av cb).
Context (Haead : aead_ok av (cb_decrypt cb) past_handshake).
Context (Hhs : aead_ok av (cb_hs_decrypt cb) (fun fr => past_handshake fr /\ short_ack fr)).
Context (decrypt hs_decrypt : bytes -> bytes -> bytes -> bytes -> option bytes).
Implicit Types (c : ngtcp2_conn A).
Abbreviation live := (live av cb decrypt hs_decrypt).

Lemma recv_live b n pkt ts c :
  live b n n c -> after_handshake (conn_state c) -> all_bytes pkt -> zlen pkt < 2 ^ 62 -> b + 2 ^ 34 < 2 ^ 62 ->
  wp (ngtcp2_conn_recv cb pkt ts) (fun _ => live (b + 2 ^ 34) n n) (fun _ _ => True) c.
Proof.
  intros Hl Hs Hb Hlen Hb62. unfold wp. rewrite recv_after by done.
  pose proof (rd_received _ _ _ _ _ _ _ _ (proj2 Hl)) as [_ Hmax].
  apply (live_mono av cb decrypt hs_decrypt b n n (b + 2 ^ 34) n) in Hl; [|lia..].
  change (wp (throw_if (zlen pkt =? 0) NGTCP2_ERR_INVALID_ARGUMENT;;
    (if bool_decide (conn_state c = NGTCP2_CS_POST_HANDSHAKE) then conn_recv_pkt cb pkt ts else mret tt))
    (fun _ => live (b + 2 ^ 34) n n) (fun _ _ => True) c).
  wp_step. wp_step; [done|]. apply Z.eqb_neq in H. pose proof (zlen_nonneg pkt). destruct (bool_decide _); [|by wp_step].
  pose proof (live_recv_inv av cb Hcb Hlive decrypt hs_decrypt (b + 2 ^ 34) n n) as Hinv.
  destruct (rd_rx_keys _ _ _ _ _ _ _ _ (proj2 Hl)) as [Hk1 Hk2].
  apply (recv_pkt_ok av cb Hcb _ past_handshake (fun p => 0 <= p <= b + 2 ^ 34)); try done; [lia|].
  intros pkt_num bits Hp Hbits.
  pose proof (adjust_pkt_num_bound (conn_max_rx_pkt_num c) pkt_num bits ltac:(lia) Hp ltac:(lia)). lia.
Qed.

Lemma call_live_ok b n call c :
  live b n n c -> call_ok call -> call_live call ->
  wp (run_call call) (fun _ => live b n n) (fun _ => live b n n) c.
Proof.
  intros [Hok Hr] Hc Hcl. pose proof (run_call_ok av call Hc true None c Hok) as Hwp.
  pose proof (keeps_call cb decrypt hs_decrypt b n n None call Hcl c Hr) as Hk. unfold wp in *.
  destruct (run_call call c); [|split; [apply Hwp | done] | done]. split; [apply Hwp | apply Hk].
Qed.

(** What a call that succeeds, or fails without ending the session, leaves. *)
Definition goes_on b c : Prop := exists n, live b n n c.

Lemma goes_on_mono b b' n c : live b n n c -> b <= b' -> goes_on b' c.
Proof. intros Hl Hb. exists n. eapply live_mono; [exact Hl | lia..]. Qed.

Section Event.
Context (b n : Z) (Hn : 0 <= n <= UINT64_MAX).

(** The calls that write. *)
Lemma wrote_goes_on {B} destlen (out : B -> bytes) ev (m : M (ngtcp2_conn A) B) c :
  0 <= destlen -> (forall e, ends_session ev e = (e =? NGTCP2_ERR_CALLBACK_FAILURE)) ->
  wp m (fun r => gave av cb decrypt hs_decrypt b n destlen (out r)) (failed av cb decrypt hs_decrypt b n) c ->
  wp m (fun _ => goes_on (b + 2 * destlen)) (fun e c' => ends_session ev e = true \/ goes_on (b + 2 * destlen) c') c.
Proof.
  intros Hd He Hm. eapply wp_mono; [exact Hm | |].
  - intros r c' [[_ Hl]|[_ Hl]]; [eapply goes_on_mono; [exact Hl | lia] | by exists (n + 1)].
  - intros e c' [->|Hl]; [left; by rewrite He | right; eapply goes_on_mono; [exact Hl | lia]].
Qed.

Lemma event_live ev c :
  live b n n c -> after_handshake (conn_state c) -> event_ok ev -> b + event_cost ev < 2 ^ 62 ->
  wp (event_out cb ev) (fun _ => goes_on (b + event_cost ev))
    (fun e c' => ends_session ev e = true \/ goes_on (b + event_cost ev) c') c.
Proof.
  intros Hl Hs Hev Hb. destruct ev; simpl in Hev, Hb |- *.
  - destruct Hev as [Hp Hlen]. wp_step.
    eapply wp_mono; [by apply (recv_live b n) | | by left]. intros ? c' Hl'. wp_step. by exists n.
  - apply (wrote_goes_on destlen id (ev_write_pkt destlen ts)); [lia | done |].
    apply write_pkt_live; (done || lia).
  - apply (wrote_goes_on destlen id (ev_write_ack_pkt destlen ts)); [lia | done |].
    apply write_ack_pkt_live; (done || lia).
  - destruct Hev as (Hd & Hdata & Hlen). unfold fmap, M_fmap. wp_step.
    eapply wp_mono; [apply (wrote_goes_on destlen fst (ev_write_stream destlen stream_id fin data ts)); [done..|] | | done].
    + refine (wp_num av cb decrypt hs_decrypt b n Hn _ _ c Hl _). intros Hmax.
      apply (write_stream_live av cb Hlive Hquiet decrypt hs_decrypt b n destlen); (done || lia).
    + intros r c' Hg. by wp_step.
  - destruct Hev as [Hd Hcode]. apply (wrote_goes_on destlen id (ev_write_connection_close destlen error_code)); [done..|].
    refine (wp_num av cb decrypt hs_decrypt b n Hn _ _ c Hl _). intros Hmax.
    apply close_live; try (done || lia). intros pkt c' Q E Hpos HQ. rewrite (proj2 (Z.ltb_lt _ _) Hpos). by wp_go.
  - destruct Hev as [Hd Hcode]. apply (wrote_goes_on destlen id (ev_write_application_close destlen app_error_code)); [done..|].
    unfold ngtcp2_conn_write_application_close. wp_step. wp_step; [by right|].
    refine (wp_num av cb decrypt hs_decrypt b n Hn _ _ c Hl _). intros Hmax.
    apply close_live; (done || lia).
  - destruct Hev as [Hc Hcl]. wp_step. rewrite Z.add_0_r.
    eapply wp_mono; [by apply call_live_ok | |]; [intros ? c' Hl'; wp_step; by exists n | intros e c' Hl'; right; by exists n].
Qed.
End Event.

Lemma session_cost_nonneg evs : Forall event_ok evs -> 0 <= session_cost evs.
Proof.
  induction 1 as [|ev evs Hev _ IH]; simpl; [lia|]. enough (0 <= event_cost ev) by lia.
  destruct ev; simpl in *; lia.
Qed.

(** After the handshake, and short of the last packet number. *)
Definition on_going c : Prop := after_handshake (conn_state c) /\ num_ok c.

Lemma live_keyed b n N c : live b n N c -> exists K, keyed K c.
Proof.
  intros [_ Hr]. destruct (rd_keys _ _ _ _ _ _ _ _ Hr) as ((km & Hk & _) & (hkm & Hh & _) & _).
  by exists (mk_keyring km hkm).
Qed.

Lemma event_on_going K ev c (Q : bytes -> ngtcp2_conn A -> Prop) E :
  on_going c -> keyed K c -> wp (event_out cb ev) Q E c ->
  wp (event_out cb ev) (fun pkt c' => Q pkt c' /\ on_going c') (fun e c' => E e c' /\ on_going c') c.
Proof.
  intros [Hs Hn] Hk. assert (role_ok c) as Hr by (unfold role_ok; unfold after_handshake in Hs;
    rewrite !elem_of_cons, elem_of_nil in Hs; by destruct Hs as [->|[->|[->|[]]]]).
  pose proof (event_runs cb ev c Hr) as Hrun. pose proof (fun pkt c' => run_event_gives cb K ev c pkt c' Hs Hn Hk) as Hgive.
  unfold wp, runs, run_event, attempt, mbind, M_bind in *.
  destruct (event_out cb ev c) as [pkt c1|e c1|]; [..|done]; intros HQ; (split; [done|]).
  all: split; [by eapply steps_after_handshake; [apply Hrun|] | by eapply Hgive].
Qed.

(** The calls of a session, one after the other. *)
Lemma session_ok evs b n c :
  live b n n c -> on_going c -> Forall event_ok evs -> b + session_cost evs < 2 ^ 62 ->
  wp (run_session cb evs) (fun r c' => r.2 = true -> goes_on (b + session_cost evs) c') (fun _ _ => False) c.
Proof.
  revert b n c. induction evs as [|ev evs IH]; intros b n c Hl Hg Hevs Hb; simpl.
  { wp_step. intros _. rewrite Z.add_0_r. by exists n. }
  simpl in Hb. apply Forall_cons in Hevs as [Hev Hevs]. pose proof (session_cost_nonneg evs Hevs) as Hc0.
  rewrite Z.add_assoc in Hb |- *. wp_step. apply wp_attempt.
  destruct (live_keyed _ _ _ _ Hl) as [K Hk].
  eapply wp_mono; [apply (event_on_going K); [done | done | apply (event_live b n); try done] | |].
  - rewrite <- (rd_num _ _ _ _ _ _ _ _ (proj2 Hl)). apply Hg.
  - apply Hg.
  - lia.
  - intros pkt c' [[n' Hl'] Hg']. wp_step. eapply wp_mono; [by eapply IH | | done].
    intros [pkts alive] c2 Hc2. by wp_step.
  - intros e c' [[Hend|[n' Hl']] Hg']; [rewrite Hend; by wp_step|].
    destruct (ends_session ev e); [by wp_step | by eapply IH].
Qed.
End Session.
