(* ===== verification/ConnNew.v ===== *)
(** Creating a connection: [ngtcp2_conn_client_new] and [ngtcp2_conn_server_new]
    establish the invariant, or fail for lack of memory. *)

From S2P Require Import Prelude Conv Frame PktDecode PktHd Mem Monad Range Gaptr Idtr Ringbuf AckScan.
From S2P Require Import Acktr Pq Rtb Map Rob Crypto Ppe Strm Conn ConnAck ConnApp ConnInv.

Section New.
Context {A : Type} (av : app_view A).
Implicit Types (c : ngtcp2_conn A) (strm : ngtcp2_strm Z).

(** What [conn_new] leaves. *)
Record new_conn (reliable : bool) (server : bool) (settings : ngtcp2_settings) (a : A) c : Prop := {
  nc_heap : exists strm, fresh_strm 0 strm /\ conn_strm_heap c = {[1%positive := strm]};
  nc_strms : map_repr (conn_strms c) {[0 := mk_map_entry 0 1%positive]} /\ map_tablelen (conn_strms c) <= 2 ^ 30;
  nc_strm0 : conn_strm0 c = 1%positive;
  nc_next : conn_next c = 2%positive;
  nc_fc : conn_fc_strms c = [];
  nc_idtr : forall b, wf_idtr (conn_idtr b c) /\ idtr_server (conn_idtr b c) = negb server;
  nc_acktr : wf_acktr (conn_acktr c) [] /\ rb_nmemb (acks (conn_acktr c)) = 128;
  nc_rtb : conn_rtb c = ngtcp2_rtb_init /\ conn_rtb_heap c = ∅;
  nc_user_data : conn_user_data c = a;
  nc_server : conn_server c = server;
  nc_keys : conn_keys c = replicate 5 None /\ conn_decrypt_buf_len c = 0;
  nc_settings : conn_local_settings c = settings /\ conn_remote_settings c = zero_settings;
  nc_max : conn_max_local_stream_id_bidi c = 0 /\ conn_max_local_stream_id_uni c = 0;
  nc_state : conn_state c = if server then NGTCP2_CS_SERVER_INITIAL else NGTCP2_CS_CLIENT_INITIAL;
  nc_mem : reliable = true -> mem_reliable (conn_mem c)
}.

(** The values of the other members. *)
Record new_values (conn_id : Z) (server : bool) (settings : ngtcp2_settings) c : Prop := {
  nv_conn_id : conn_conn_id c = conn_id;
  nv_uni : conn_remote_uni_idtr c = mk_idtr [ngtcp2_range_init 0 UINT64_MAX] (negb server);
  nv_received : ent (conn_acktr c) = [] /\ conn_max_rx_pkt_num c = 0 /\ conn_rx_offset c = 0;
  nv_sent : conn_last_tx_pkt_num c = 0 /\ conn_tx_offset c = 0 /\ conn_frq c = [] /\ conn_early_rtb c = [];
  nv_data_credit : conn_max_rx_offset c = s_max_data settings /\ conn_unsent_max_rx_offset c = s_max_data settings;
  nv_stream_credit : conn_max_remote_stream_id_bidi c = s_max_stream_id_bidi settings /\
    conn_max_remote_stream_id_uni c = s_max_stream_id_uni settings
}.

(** No memory. *)
Definition no_mem (reliable : bool) (e : Z) : Prop := e = NGTCP2_ERR_NOMEM /\ reliable = false.

Lemma no_mem_not reliable m : (reliable = true -> mem_reliable m) -> ~ mem_reliable m -> reliable = false.
Proof. destruct reliable; [|done]. intros H Hn. by destruct Hn; apply H. Qed.

Lemma malloc_new reliable c (Q : unit -> ngtcp2_conn A -> Prop) (E : Z -> ngtcp2_conn A -> Prop) :
  (reliable = true -> mem_reliable (conn_mem c)) ->
  (forall m, (reliable = true -> mem_reliable m) -> Q tt (set_conn_mem m c)) ->
  (forall e c', no_mem reliable e -> E e c') -> wp malloc Q E c.
Proof.
  intros Hm HQ HE. unfold malloc, with_mem, wp. pose proof (mem_alloc_reliable (conn_mem c)) as Ha.
  destruct (mem_alloc (conn_mem c)) as [[] m]; simpl in *; [naive_solver|].
  apply HE. split; [done|]. apply (no_mem_not _ _ Hm). naive_solver.
Qed.

(** An initialisation that allocates. *)
Lemma with_mem_new {B} reliable (f : mem -> res B * mem) (P : B -> Prop) c
    (Q : B -> ngtcp2_conn A -> Prop) (E : Z -> ngtcp2_conn A -> Prop) :
  (reliable = true -> mem_reliable (conn_mem c)) ->
  (forall m, match f m with
    | (Ok b, m') => P b /\ (mem_reliable m -> mem_reliable m')
    | (Err e, _) => e = NGTCP2_ERR_NOMEM /\ ~ mem_reliable m
    | (Ub, _) => False end) ->
  (forall b m, P b -> (reliable = true -> mem_reliable m) -> Q b (set_conn_mem m c)) ->
  (forall e c', no_mem reliable e -> E e c') -> wp (with_mem f) Q E c.
Proof.
  intros Hm Hf HQ HE. unfold with_mem, wp. specialize (Hf (conn_mem c)).
  destruct (f (conn_mem c)) as [[b|e|] m]; simpl in *; [naive_solver | | done].
  apply HE. destruct Hf as [-> Hn]. split; [done|]. by eapply no_mem_not.
Qed.

Lemma idtr_init_new server m :
  match ngtcp2_idtr_init m server with
  | (Ok idtr, m') => idtr = mk_idtr [ngtcp2_range_init 0 UINT64_MAX] server /\ (mem_reliable m -> mem_reliable m')
  | (Err e, _) => e = NGTCP2_ERR_NOMEM /\ ~ mem_reliable m
  | (Ub, _) => False
  end.
Proof.
  unfold ngtcp2_idtr_init. pose proof (mem_alloc_reliable m). destruct (mem_alloc m) as [[] m']; simpl in *; naive_solver.
Qed.

Lemma map_init_new m :
  match ngtcp2_map_init (V := positive) m with
  | (Ok map, m') => (map_repr map ∅ /\ map_tablelen map <= 2 ^ 30) /\ (mem_reliable m -> mem_reliable m')
  | (Err e, _) => e = NGTCP2_ERR_NOMEM /\ ~ mem_reliable m
  | (Ub, _) => False
  end.
Proof.
  pose proof (map_init_repr (V := positive) m) as H. unfold ngtcp2_map_init in *.
  pose proof (mem_alloc_reliable m) as Hm. destruct (mem_alloc m) as [[] m']; cbn [fst snd] in *; [|done].
  split; [by split | by intros []%Hm].
Qed.

Lemma acktr_init_new m :
  match ngtcp2_acktr_init m with
  | (Ok acktr, m') => (wf_acktr acktr [] /\ rb_nmemb (acks acktr) = 128 /\ ent acktr = []) /\
      (mem_reliable m -> mem_reliable m')
  | (Err e, _) => e = NGTCP2_ERR_NOMEM /\ ~ mem_reliable m
  | (Ub, _) => False
  end.
Proof.
  pose proof (acktr_init_wf m) as H. unfold ngtcp2_acktr_init, ngtcp2_ringbuf_init in *.
  pose proof (mem_alloc_reliable m) as Hm. destruct (mem_alloc m) as [[] m']; cbn [fst snd] in *; [|done].
  split; [split_and!; [apply H|apply H|done] | by intros []%Hm].
Qed.

(** Stream 0 in the empty table. *)
Lemma insert_zero_new reliable c p strm map (Q : unit -> ngtcp2_conn A -> Prop) (E : Z -> ngtcp2_conn A -> Prop) :
  (reliable = true -> mem_reliable (conn_mem c)) -> conn_strm_heap c !! p = Some strm -> fresh_strm 0 strm ->
  conn_strms c = map -> map_repr map ∅ -> map_tablelen map <= 2 ^ 30 ->
  (forall map' m, map_repr map' {[0 := mk_map_entry 0 p]} -> map_tablelen map' <= 2 ^ 30 ->
    (reliable = true -> mem_reliable m) -> Q tt (set_conn_strms map' (set_conn_mem m c))) ->
  (forall e c', no_mem reliable e -> E e c') ->
  wp (conn_strms_insert p) Q E c.
Proof.
  intros Hm Hp Hf Hmap Hr Ht HQ HE. unfold conn_strms_insert. wp_step. eapply wp_load_strm; [done|].
  wp_step. wp_step. wp_step. unfold with_mem, wp at 1. rewrite (fs_me _ _ Hf), Hmap.
  destruct (map_insert_repr (conn_mem c) map ∅ (mk_map_entry 0 p)) as (map' & rv & m' & Heq & H);
    [done | done | rewrite map_size_empty; lia|].
  destruct (map_insert_bounds _ _ _ _ _ _ _ Hr Ht ltac:(rewrite map_size_empty; lia) Heq) as [Ht' Hm'].
  rewrite Heq. cbn [lift]. wp_step. wp_step. cbn [me_key] in H.
  destruct H as [(-> & _ & Hr')|[(-> & [y Hy] & _)|(-> & _ & Hn)]].
  - wp_step; [done|]. apply HQ; [by rewrite insert_empty in Hr' | done | naive_solver].
  - done.
  - wp_step; [|done]. apply HE. split; [done | by eapply no_mem_not].
Qed.

Lemma conn_new_ok reliable m conn_id version settings a server :
  (reliable = true -> mem_reliable m) ->
  wp (conn_new conn_id settings server) (fun _ c => new_conn reliable server settings a c /\
      conn_remote_bidi_idtr c = mk_idtr [ngtcp2_range_init 0 UINT64_MAX] (negb server) /\
      new_values conn_id server settings c)
    (fun e _ => no_mem reliable e) (zero_conn m version a server).
Proof.
  intros Hm. unfold conn_new. wp_step. apply (malloc_new reliable); [done | | done]. intros m1 Hm1.
  wp_step. unfold new_address. wp_step. apply (malloc_new reliable); [done | | done]. intros m2 Hm2.
  wp_step. wp_step. wp_step. wp_step; [done|]. do 5 wp_step. wp_step. wp_step.
  wp_step. apply wp_strm_init; [|intros m' Hn; split; [done | by eapply no_mem_not]].
  intros strm m3 Hf Hm3. cbn [conn_mem set_conn_mem set_conn_strm0 set_conn_next] in Hm3.
  wp_step. apply (with_mem_new reliable _ (fun map => map_repr map ∅ /\ map_tablelen map <= 2 ^ 30));
    [simpl; naive_solver | apply map_init_new | | done]. intros map m4 [Hr Ht] Hm4. wp_step. wp_step. wp_step.
  apply (insert_zero_new reliable _ _ strm map); [done | apply lookup_insert_eq | done | done | done | done | | done].
  intros map' m5 Hr' Ht' Hm5. wp_step.
  apply (with_mem_new reliable _ (fun idtr => idtr = mk_idtr [ngtcp2_range_init 0 UINT64_MAX] (negb server)));
    [done | apply idtr_init_new | | done]. intros idtr m6 -> Hm6. wp_step. wp_step. wp_step.
  apply (with_mem_new reliable _ (fun idtr => idtr = mk_idtr [ngtcp2_range_init 0 UINT64_MAX] (negb server)));
    [done | apply idtr_init_new | | done]. intros idtr m7 -> Hm7. wp_step. wp_step. wp_step.
  apply (with_mem_new reliable _ (fun acktr => wf_acktr acktr [] /\ rb_nmemb (acks acktr) = 128 /\ ent acktr = []));
    [done | apply acktr_init_new | | done]. intros acktr m8 (Hacktr & Hnm & Hent) Hm8. wp_go.
  split; [|split; [done | by split]]. split; try done.
  - exists strm. split; [done|]. simpl. apply insert_empty.
  - destruct (idtr_init_wf [] (negb server) _ eq_refl) as [Hwf _]. by intros [].
Qed.

(** What is left to show, once the IDs are known. *)
Lemma new_conn_ok reliable server settings a c c' kb ku :
  new_conn reliable server settings a c ->
  c' = set_conn_next_local_stream_id_uni ku (set_conn_next_local_stream_id_bidi kb c) ->
  zlen (s_stateless_reset_token settings) = NGTCP2_STATELESS_RESET_TOKENLEN ->
  (forall id, av_log av a id = []) -> id_opened c' 0 ->
  (exists k, 0 <= k < 4 /\ kb = 4 * k + if server then 1 else 0) -> ku = (if server then 3 else 2) ->
  conn_ok av reliable None c'.
Proof.
  intros [(strm & Hf & Hheap) [Hr Ht] H0 Hn Hfc Hid [Ha Ha'] [Hrtb Hrh] Hud Hsv [Hk Hb] [Hs1 Hs2] [Hm1 Hm2] _ Hmem]
    -> Htok Hlog Hop (k & Hk4 & Hkb) Hku.
  set (c' := set_conn_next_local_stream_id_uni _ _) in *.
  assert (Hlook : forall p s, conn_strm_heap c' !! p = Some s -> p = 1%positive /\ s = strm).
  { intros p s. change (conn_strm_heap c') with (conn_strm_heap c). rewrite Hheap.
    intros [<- <-]%lookup_singleton_Some. done. }
  assert (Hone : conn_strm_heap c' !! 1%positive = Some strm)
    by (change (conn_strm_heap c') with (conn_strm_heap c); rewrite Hheap; apply lookup_singleton_eq).
  split; [exists {[0 := mk_map_entry 0 1%positive]}; split | split | ..]; simpl;
    rewrite ?Hheap, ?Hn, ?Hfc, ?H0, ?Hud, ?Hsv, ?Hm1, ?Hm2, ?Hrtb, ?Hrh, ?Hb, ?Hs1, ?Hs2; try done.
  - rewrite <- Hheap. intros p s [-> ->]%Hlook. destruct Hf. split; [split; congruence || (rewrite fs_id; done)|].
    split; [lia|]. split; [by rewrite fs_id|]. intros _. exists []. rewrite Hlog.
    split; [apply fs_delivered | split; [lia | constructor]].
  - rewrite <- Hheap. by intros p q s t [-> ->]%Hlook [-> ->]%Hlook.
  - intros id e [<- <-]%lookup_singleton_Some. split; [done|]. exists strm. simpl.
    rewrite lookup_singleton_eq. split; [done | apply Hf].
  - exists strm. rewrite lookup_singleton_eq. split; [done|]. split; [apply Hf|]. by rewrite (fs_flags _ _ Hf).
  - by intros e [_ <-]%lookup_singleton_Some.
  - exists k. split; [lia | done].
  - exists 0. split; [lia|]. rewrite Hku. by destruct server.
  - subst kb ku. destruct server; lia.
  - by exists [].
  - intros p [e He]. by rewrite lookup_empty in He.
  - unfold keys_ok. change (conn_keys c') with (conn_keys c). rewrite Hk. by repeat constructor.
Qed.

(** The connection is as new: it satisfies the invariant and is in the initial state
    of its role; stream 0 is fresh, and the only stream, in memory and in the table;
    no packet has been received, sent or acknowledged; of the streams of the peer
    only stream 0 of a client has been opened; the limits for the peer are those of
    the settings; there are no keys. *)
Record created (reliable : bool) (conn_id : Z) (server : bool) (settings : ngtcp2_settings) c : Prop := {
  cr_ok : conn_ok av reliable None c;
  cr_role : conn_server c = server /\
    conn_state c = (if server then NGTCP2_CS_SERVER_INITIAL else NGTCP2_CS_CLIENT_INITIAL);
  cr_settings : conn_local_settings c = settings;
  cr_strm0 : exists strm, fresh_strm 0 strm /\ conn_strm_heap c = {[conn_strm0 c := strm]} /\
    map_repr (conn_strms c) {[0 := mk_map_entry 0 (conn_strm0 c)]};
  cr_acktr : wf_acktr (conn_acktr c) [];
  cr_rtb : conn_rtb c = ngtcp2_rtb_init /\ conn_rtb_heap c = ∅;
  cr_bidi : conn_remote_bidi_idtr c =
    mk_idtr [ngtcp2_range_init (if server then 1 else 0) UINT64_MAX] (negb server);
  cr_next : conn_next_local_stream_id_bidi c = (if server then 1 else 4) /\
    conn_next_local_stream_id_uni c = (if server then 3 else 2);
  cr_keys : conn_keys c = replicate 5 None;
  cr_values : new_values conn_id server settings c
}.

Lemma new_conn_created reliable conn_id server settings a c c' kb ku :
  new_conn reliable server settings a c -> new_values conn_id server settings c ->
  c' = set_conn_next_local_stream_id_uni ku (set_conn_next_local_stream_id_bidi kb c) ->
  conn_ok av reliable None c' -> kb = (if server then 1 else 4) -> ku = (if server then 3 else 2) ->
  conn_remote_bidi_idtr c = mk_idtr [ngtcp2_range_init (if server then 1 else 0) UINT64_MAX] (negb server) ->
  created reliable conn_id server settings c'.
Proof.
  intros [(strm & Hf & Hheap) [Hr _] H0 _ _ _ [Ha _] Hrtb _ Hsv [Hk _] [Hs _] _ Hst _] [] -> Hok -> -> Hid.
  split; try done. exists strm. simpl. by rewrite H0.
Qed.

Definition new_result (reliable : bool) (conn_id : Z) (server : bool) (settings : ngtcp2_settings) (o : out (ngtcp2_conn A) unit) : Prop :=
  match o with
  | ret _ c => created reliable conn_id server settings c
  | fail e _ => no_mem reliable e
  | undef => False
  end.

Lemma client_new_ok reliable m conn_id version settings a :
  (reliable = true -> mem_reliable m) ->
  zlen (s_stateless_reset_token settings) = NGTCP2_STATELESS_RESET_TOKENLEN ->
  (forall id, av_log av a id = []) ->
  new_result reliable conn_id false settings (ngtcp2_conn_client_new m conn_id version settings a).
Proof.
  intros Hm Ht Hlog. unfold ngtcp2_conn_client_new.
  change (wp (conn_new conn_id settings false;; modify (set_conn_client_conn_id conn_id);;
    modify (set_conn_next_local_stream_id_bidi 4);; modify (set_conn_next_local_stream_id_uni 2))
    (fun _ c => created reliable conn_id false settings c) (fun e _ => no_mem reliable e) (zero_conn m version a false)).
  wp_step. eapply wp_mono; [by apply conn_new_ok | | done]. intros _ c (Hc & Hid & Hv). wp_go.
  assert (Hc' : new_conn reliable false settings a (set_conn_client_conn_id conn_id c)) by (by destruct Hc).
  pose proof (nc_server _ _ _ _ _ Hc) as Hsv.
  eapply new_conn_created; [exact Hc' | by destruct Hv | done | | done | done | exact Hid].
  eapply new_conn_ok; [exact Hc' | done | done | done | | | done].
  - unfold id_opened, conn_local_stream. simpl. by rewrite Hsv.
  - exists 1. split; [lia | done].
Qed.

Lemma server_new_ok m conn_id version settings a :
  mem_reliable m ->
  zlen (s_stateless_reset_token settings) = NGTCP2_STATELESS_RESET_TOKENLEN ->
  (forall id, av_log av a id = []) ->
  new_result true conn_id true settings (ngtcp2_conn_server_new m conn_id version settings a).
Proof.
  intros Hm Ht Hlog. unfold ngtcp2_conn_server_new.
  change (wp (conn_new conn_id settings true;; conn_idtr_open 0;;
    modify (set_conn_next_local_stream_id_bidi 1);; modify (set_conn_next_local_stream_id_uni 3))
    (fun _ c => created true conn_id true settings c) (fun e _ => no_mem true e) (zero_conn m version a true)).
  wp_step. eapply wp_mono; [by apply (conn_new_ok true) | | done]. intros _ c (Hc & Hid & Hv).
  wp_step. unfold conn_idtr_open. do 4 wp_step. change (conn_idtr (bidi_stream 0) c) with (conn_remote_bidi_idtr c).
  rewrite Hid. set (idtr := mk_idtr [mk_range 1 UINT64_MAX] false).
  assert (ngtcp2_idtr_open (conn_mem c) (mk_idtr [ngtcp2_range_init 0 UINT64_MAX] (negb true)) 0 = Ok (idtr, 0, conn_mem c))
    as -> by reflexivity. cbn [wpe]. wp_go.
  assert (Hwf : wf_idtr idtr).
  { unfold wf_idtr, wf_ids. simpl. split; [clia|]. apply in_gaps_cons. left. unfold in_range. simpl. clia. }
  set (c1 := set_conn_mem (conn_mem c) (set_conn_idtr (bidi_stream 0) idtr c)).
  assert (Hc' : new_conn true true settings a c1).
  { destruct Hc. split; try done. intros []; [done | apply (nc_idtr0 false)]. }
  pose proof (nc_server _ _ _ _ _ Hc') as Hsv.
  eapply new_conn_created; [exact Hc' | by destruct Hv | done | | done | done | done].
  eapply new_conn_ok; [exact Hc' | done | done | done | | | done].
  - unfold id_opened, conn_local_stream. simpl. rewrite (nc_server _ _ _ _ _ Hc). simpl.
    unfold opened. simpl. rewrite in_gaps_cons. unfold in_range.
    change (id_from_stream_id 0) with 0. simpl. intros [?|[]%Exists_nil]; lia.
  - exists 0. split; [lia | done].
Qed.
End New.
