(* ===== verification/ConnLink.v ===== *)
(** Two connections: stream data that one writes arrives at the application of the
    other. *)

From S2P Require Import Prelude Conv Frame PktDecode PktEncode PktHd Mem Monad Range Gaptr Idtr Ringbuf AckScan.
From S2P Require Import Acktr Pq Rtb Map Rob Crypto Ppe Strm Conn ConnAck ConnApp ConnInv.
From S2P Require Import ConnStream ConnRecv ConnSend ConnState ConnTx ConnWrite ConnFrames ConnPkt.

(** ** Packet numbers *)

(** The sender leaves out as many bits of the packet number as the receiver can
    restore, when the receiver has got all that was acknowledged, and nothing that
    was sent later. *)
Lemma sent_num_recovered {A} (c : ngtcp2_conn A) pkt_num max :
  0 <= rtb_largest_acked (conn_rtb c) <= max -> max < pkt_num < 2 ^ 62 ->
  pkt_num - rtb_largest_acked (conn_rtb c) < 2 ^ 31 ->
  exists bits, short_pkt_num_bits (conn_select_pkt_type c pkt_num) = Ok bits /\
    (forall hd, hd_type hd = conn_select_pkt_type c pkt_num -> pkt_num_bits hd = bits) /\
    ngtcp2_pkt_adjust_pkt_num max (pkt_num mod 2 ^ bits) bits = pkt_num.
Proof.
  intros Hla Hmax Hd. set (la := rtb_largest_acked _) in *.
  assert (Hadj : forall bits, 1 <= bits <= 32 -> pkt_num - la <= 2 ^ bits / 2 ->
    ngtcp2_pkt_adjust_pkt_num max (pkt_num mod 2 ^ bits) bits = pkt_num).
  { intros bits Hb Hw. assert (0 < 2 ^ bits) by (apply Z.pow_pos_nonneg; lia). 
    pose proof (adjust_pkt_num_spec max bits pkt_num ltac:(lia) Hb ltac:(lia)) as E. cbv zeta in E. rewrite E by lia.
    rewrite (proj2 (Z.ltb_ge _ _)); [done|]. pose proof (Z.mul_div_le (max + 1) (2 ^ bits) ltac:(done)). lia. }
  unfold conn_select_pkt_type. fold la. change (UINT64_MAX / 2) with 9223372036854775807.
  rewrite (proj2 (Z.leb_gt _ _)) by lia.
  rewrite (u64_small (pkt_num - la)), u64_small by clia. unfold pkt_num_bits.
  destruct (Z.ltb_spec 0xffff ((pkt_num - la) * 2 + 1)) as [H16|H16];
    [|destruct (Z.ltb_spec 0xff ((pkt_num - la) * 2 + 1)) as [H8|H8]].
  - exists 32. split_and!; [done | by intros hd -> | apply Hadj; [lia | change (2 ^ 32 / 2) with 2147483648; lia]].
  - exists 16. split_and!; [done | by intros hd -> | apply Hadj; [lia | change (2 ^ 16 / 2) with 32768; lia]].
  - exists 8. split_and!; [done | by intros hd -> | apply Hadj; [lia | change (2 ^ 8 / 2) with 128; lia]].
Qed.

(** ** The receiver *)

Section Receiver.
Context {A : Type} (av : app_view A) (cb : ngtcp2_conn_callbacks A) (Hcb : callbacks_ok av cb).
Context (Hpkt : cb_recv_pkt cb = None) (Hframe : cb_recv_frame cb = None).
Implicit Types (c : ngtcp2_conn A).
Abbreviation conn_ok := (conn_ok av true None).

(** The frame has been received, and the stream may have been closed after it. *)
Definition arrived (p : positive) (fr : ngtcp2_stream) frs c : Prop :=
  conn_ok c /\ counted av c p (stream_stream_id fr) (fr :: frs).

Definition cb_failure (e : Z) c : Prop := e = NGTCP2_ERR_CALLBACK_FAILURE.

(** The connection expects the frame: its stream is known, of it the frames [frs]
    have been received, and nothing speaks against this one. *)
Record expects c (p : positive) strm (frs : list ngtcp2_stream) (fr : ngtcp2_stream) : Prop := {
  ex_id : stream_stream_id fr <> 0;
  ex_find : mapped c (stream_stream_id fr) (mk_map_entry (stream_stream_id fr) p);
  ex_strm : conn_strm_heap c !! p = Some strm;
  ex_received : received av c p (stream_stream_id fr) frs;
  ex_wanted : wanted fr strm;
  ex_acceptable : acceptable c strm fr;
  ex_authentic : authentic av fr
}.

(** What [expects] depends on. *)
Definition same_receiver c c' : Prop :=
  conn_strms c' = conn_strms c /\ conn_strm_heap c' = conn_strm_heap c /\ conn_user_data c' = conn_user_data c /\
  conn_server c' = conn_server c /\ conn_rx_offset c' = conn_rx_offset c /\
  conn_max_rx_offset c' = conn_max_rx_offset c /\
  conn_next_local_stream_id_bidi c' = conn_next_local_stream_id_bidi c /\
  conn_next_local_stream_id_uni c' = conn_next_local_stream_id_uni c /\
  conn_max_remote_stream_id_bidi c' = conn_max_remote_stream_id_bidi c /\
  conn_max_remote_stream_id_uni c' = conn_max_remote_stream_id_uni c.

Lemma expects_same c c' p strm frs fr : same_receiver c c' -> expects c p strm frs fr -> expects c' p strm frs fr.
Proof.
  intros (Hs & Hh & Hu & Hsv & Hr & Hm & H1 & H2 & H3 & H4) [? ? ? ? ? [? Hid ? ? ?] ?].
  split; try done; unfold mapped, received in *; rewrite ?Hs, ?Hh, ?Hu; try done.
  split; try done; unfold conn_local_stream, within_credit in *; rewrite ?Hsv, ?Hr, ?Hm; try done.
  revert Hid. unfold conn_check_stream_id, conn_local_stream, get, throw_if, mbind, M_bind.
  rewrite Hsv, H1, H2, H3, H4. by repeat case_match.
Qed.

(** A packet that has not been received before is noted for acknowledgement. *)
Lemma sched_new_ack pkt_num active ts p fr frs c :
  arrived p fr frs c -> Forall (fun e => ae_pkt_num e <> pkt_num) (ent (conn_acktr c)) ->
  wp (ngtcp2_conn_sched_ack pkt_num active ts false) (fun _ => arrived p fr frs) cb_failure c.
Proof.
  intros [Hok Ha] Hnew. pose proof (sched_ack_ok av pkt_num active ts false c Hok) as H.
  enough (wp (ngtcp2_conn_sched_ack pkt_num active ts false) (fun _ c' => conn_strm_heap c' = conn_strm_heap c /\
    conn_user_data c' = conn_user_data c) cb_failure c) as H'.
  { unfold wp in *. destruct (ngtcp2_conn_sched_ack _ _ _ _ c) as [? c'| |]; try done. split; [done|].
    destruct H' as [Hh Hu]. unfold counted, closed_after, received in *. by rewrite Hh, Hu. }
  clear H. unfold ngtcp2_conn_sched_ack. wp_step. unfold with_mem, ngtcp2_acktr_entry_new, wp at 1.
  pose proof (mem_alloc_reliable (conn_mem c) (co_mem _ _ _ _ Hok eq_refl)) as [Hal _].
  destruct (mem_alloc (conn_mem c)) as [[] m]; [|done]. cbn [fst snd lift] in *. wp_step. wp_step.
  destruct (co_acktr _ _ _ _ Hok) as (al & (_ & _ & _ & Hdec & _) & _). set (e := mk_acktr_entry _ _ _).
  pose proof (acktr_insert_spec e (ent (conn_acktr c)) Hdec) as Hins. unfold ngtcp2_acktr_add. simpl.
  destruct (acktr_insert e _) as [l|].
  2:{ destruct Hins as (x & Hx & Heq). rewrite Forall_forall in Hnew. by destruct (Hnew x Hx). }
  destruct (_ <? _); wp_step; wp_step; wp_step; (wp_step; [done|]); destruct (_ && _); by wp_go.
Qed.

(** The frames of the payload: the one STREAM frame. *)
Lemma one_frame_arrives hd s fr c p strm frs :
  received_frame (fr_stream s) = fr_stream fr -> wf_frame (fr_stream s) ->
  conn_ok c -> expects c p strm frs fr ->
  wp (conn_recv_frames cb (S (length (layout (fr_stream s)))) hd (layout (fr_stream s)) false)
    (fun _ c' => arrived p fr frs c' /\ conn_acktr c' = conn_acktr c) cb_failure c.
Proof.
  intros Hfr Hwf Hok Hex. pose proof (decode_layout (fr_stream s) [] Hwf) as Hd. rewrite app_nil_r in Hd.
  specialize (Hd ltac:(done)). rewrite Hfr in Hd.
  destruct (layout_cons _ Hwf) as (t & q & El). set (payload := layout (fr_stream s)) in *.
  assert (length payload = S (length q)) as Hlen by (by rewrite El). rewrite Hlen.
  cbn [conn_recv_frames]. destruct (Z.eqb_spec (zlen payload) 0) as [E|_]; [rewrite El in E; zlia|].
  wp_step. unfold next_frame. wp_step. wp_step. rewrite Hd. cbn [wpe]. wp_step. wp_step.
  pose proof (adv_app (zlen payload) payload [] eq_refl) as Hadv. rewrite app_nil_r in Hadv. rewrite Hadv. cbn [wpe].
  wp_step. unfold conn_call_recv_frame, conn_call. rewrite Hframe. wp_step. wp_step. wp_step. simpl conn_recv_frame.
  destruct Hex. rewrite (proj2 (Z.eqb_neq _ _)) by done. wp_step. wp_step; [done|].
  assert (Hfind : ngtcp2_conn_find_stream (stream_stream_id fr) c = ret (Some p) c).
  { unfold ngtcp2_conn_find_stream, get, lift, mbind, M_bind, mapped in *. by rewrite ex_find0. }
  assert (Hwf' : wf_frame (fr_stream fr)) by (injection Hfr as <-; exact Hwf).
  eapply wp_mono; [by apply (recv_known_stream_ok av cb Hcb c fr p strm frs) | |].
  - intros ? c' [[Hok' Hack] Hr]. simpl. wp_step. by split.
  - intros e c' He. by apply He.
Qed.

(** A protected packet with the number [hd_pkt_num hd] and the payload of one frame. *)
Lemma payload_arrives hd s fr ct ad ts km nonce c p strm frs :
  received_frame (fr_stream s) = fr_stream fr -> wf_frame (fr_stream s) ->
  conn_ok c -> expects c p strm frs fr -> hd_flags hd = NGTCP2_PKT_FLAG_NONE -> hd_conn_id hd = conn_conn_id c ->
  conn_rx_ckm c = Some km -> ngtcp2_crypto_create_nonce (km_iv km) (hd_pkt_num hd) = Ok nonce ->
  cb_decrypt cb (zlen ct) ct (km_key km) nonce ad = inl (layout (fr_stream s)) ->
  zlen (layout (fr_stream s)) <= zlen ct < 2 ^ 62 ->
  Forall (fun e => ae_pkt_num e <> hd_pkt_num hd) (ent (conn_acktr c)) ->
  wp (conn_recv_protected_payload cb hd ct ad ts) (fun _ => arrived p fr frs) cb_failure c.
Proof.
  intros Hfr Hwf Hok Hex Hf Hid Hkm Hnonce Hdec Hlen Hnew.
  unfold conn_recv_protected_payload, conn_open_protected_pkt. rewrite Hf.
  change (has_bit NGTCP2_PKT_FLAG_NONE NGTCP2_PKT_FLAG_LONG_FORM) with false.
  change (has_bit NGTCP2_PKT_FLAG_NONE NGTCP2_PKT_FLAG_OMIT_CONN_ID) with false.
  wp_step. wp_step. wp_step. unfold conn_open_pkt. wp_step.
  apply (ensure_decrypt_buffer_ok av); [done | lia|]. intros len m c1 Hok1 _. wp_step. wp_step.
  unfold conn_decrypt_pkt. change (conn_rx_ckm c1) with (conn_rx_ckm c). rewrite Hkm.
  assert (Hiv : iv_ok (km_iv km)).
  { pose proof (co_keys _ _ _ _ Hok) as Hk. unfold keys_ok in Hk. rewrite Forall_forall in Hk. eapply Hk; [|exact Hkm].
    unfold conn_keys. set_solver. }
  wp_step. apply wp_assert; [apply Z.leb_le, Hiv|]. wp_step. wp_step. rewrite Hnonce. cbn [wpe]. rewrite Hdec.
  wp_step. apply wp_assert; [apply Z.leb_le; lia|]. wp_step. wp_step. wp_step.
  pose proof (set_flag_ok av NGTCP2_CONN_FLAG_RECV_PROTECTED_PKT true None c1 Hok1) as [Hok2 _].
  unfold conn_set_flag. wp_step. set (c2 := set_conn_flags _ c1) in *. wp_step. wp_step.
  change (conn_conn_id c2) with (conn_conn_id c). rewrite Hid, Z.eqb_refl. simpl.
  assert (expects c2 p strm frs fr) as Hex2 by (eapply expects_same; [|exact Hex]; done). wp_step.
  eapply wp_mono; [by apply (one_frame_arrives hd s fr c2 p strm frs) | |done]. intros ra c3 [[Hok3 Hr] Hack]. wp_step. wp_step.
  apply sched_new_ack.
  - split; [keep_ok Hok3 | exact Hr].
  - simpl. by rewrite Hack.
Qed.

(** A datagram with a short header. *)
Lemma packet_arrives hd s fr ct ts km nonce c p strm frs :
  let hdr := hd_bytes hd in
  received_frame (fr_stream s) = fr_stream fr -> wf_frame (fr_stream s) ->
  conn_ok c -> conn_state c = NGTCP2_CS_POST_HANDSHAKE -> expects c p strm frs fr ->
  short_hd hd -> hd_flags hd = NGTCP2_PKT_FLAG_NONE -> hd_conn_id hd = conn_conn_id c ->
  (exists bits, short_pkt_num_bits (hd_type hd) = Ok bits /\ pkt_num_bits hd = bits /\
    ngtcp2_pkt_adjust_pkt_num (conn_max_rx_pkt_num c) (hd_pkt_num hd mod 2 ^ bits) bits = hd_pkt_num hd) ->
  conn_rx_ckm c = Some km -> ngtcp2_crypto_create_nonce (km_iv km) (hd_pkt_num hd) = Ok nonce ->
  cb_decrypt cb (zlen ct) ct (km_key km) nonce hdr = inl (layout (fr_stream s)) ->
  zlen (layout (fr_stream s)) <= zlen ct < 2 ^ 62 ->
  Forall (fun e => ae_pkt_num e <> hd_pkt_num hd) (ent (conn_acktr c)) ->
  wp (ngtcp2_conn_recv cb (hdr ++ ct) ts) (fun _ => arrived p fr frs) cb_failure c.
Proof.
  intros hdr Hfr Hwf Hok Hst Hex Hshort Hf Hid (bits & Hbits & Hb & Hnum) Hkm Hnonce Hdec Hlen Hnew.
  assert (hdr = short_layout hd) as Hhdr by (unfold hdr, hd_bytes; by rewrite Hf).
  pose proof (hd_short_roundtrip hd ct Hshort) as Hd. rewrite <- Hhdr in Hd.
  unfold wp. rewrite recv_after by (rewrite Hst; left).
  assert (exists bs, hdr = hd_type hd :: bs) as (bs & Eb)
    by (rewrite Hhdr; unfold short_layout, short_first; rewrite Hf; simpl; eauto).
  assert (has_bit (hd_type hd) NGTCP2_HEADER_FORM_BIT = false) as Hform
    by (destruct Hshort as (_ & [-> | [-> | ->]] & _); done).
  unfold ngtcp2_pkt_decode_hd in Hd. destruct (Z.eqb_spec (zlen (hdr ++ ct)) 0) as [?|_]; [done|].
  assert (rd (hdr ++ ct) = Ok (hd_type hd)) as Hrd by (by rewrite Eb).
  rewrite Hrd in Hd. cbn [mbind res_bind] in Hd. rewrite Hform in Hd.
  change (wp (if bool_decide (conn_state c = NGTCP2_CS_POST_HANDSHAKE) then conn_recv_pkt cb (hdr ++ ct) ts else mret tt)
    (fun _ => arrived p fr frs) cb_failure c).
  rewrite bool_decide_true by done. unfold conn_recv_pkt. wp_step. wp_step. rewrite Hrd. cbn [wpe]. wp_step. wp_step.
  rewrite Hform. wp_step. wp_step. rewrite Hd. cbn [wpe]. wp_step. unfold received_hd. rewrite Hf.
  change (has_bit NGTCP2_PKT_FLAG_NONE NGTCP2_PKT_FLAG_LONG_FORM) with false.
  change (has_bit NGTCP2_PKT_FLAG_NONE NGTCP2_PKT_FLAG_OMIT_CONN_ID) with false. rewrite andb_false_r. wp_step; [done|].
  unfold conn_recv_pkt_hd. cbn [hd_flags hd_type hd_pkt_num hd_conn_id hd_version].
  change (has_bit NGTCP2_PKT_FLAG_NONE NGTCP2_PKT_FLAG_LONG_FORM) with false. cbv iota.
  wp_step. wp_step. rewrite (rdn_app (zlen hdr)) by done. cbn [wpe]. wp_step. wp_step.
  rewrite (adv_app (zlen hdr)) by done. cbn [wpe]. wp_step. wp_step. rewrite Hbits. cbn [wpe]. wp_step. wp_step.
  rewrite Hb, Hnum. unfold conn_call_recv_pkt, conn_call. rewrite Hpkt. wp_step. wp_step. wp_step. wp_step.
  by eapply (payload_arrives _ s fr ct hdr ts km nonce c p strm frs).
Qed.
End Receiver.

Lemma counted_delivered {A} (av : app_view A) c p id frs :
  counted av c p id frs -> exists strm : ngtcp2_strm Z, delivered (av_content av id) strm (av_log av (conn_user_data c) id) frs.
Proof. by intros [(_ & strm & _ & _ & ? & _)|(strm & _ & _ & ? & _)]; exists strm. Qed.

(** The next bytes of a stream of which all before has been delivered: the
    application gets exactly these. *)
Lemma delivered_next content (strm strm' : ngtcp2_strm Z) out frs out' fr last :
  delivered content strm out frs -> delivered content strm' out' (fr :: frs) ->
  Forall (fun fr => stream_offset fr + zlen (stream_data fr) <= last) frs -> last <= zlen out ->
  stream_offset fr = zlen out -> stream_data fr = stretch content (stream_offset fr) (zlen (stream_data fr)) ->
  zlen out + zlen (stream_data fr) < 2 ^ 62 -> out' = out ++ stream_data fr.
Proof.
  intros [[Hr1 Ho1 _ _] Hrx1 Hg1] [[Hr2 Ho2 _ _] Hrx2 Hg2] Hlast Hle Hoff Hdata Hmax. zfacts.
  destruct (rob_first_gap_spec _ _ Hr1) as [Hl1 Hi1], (rob_first_gap_spec _ _ Hr2) as [Hl2 Hi2].
  unfold ngtcp2_strm_rx_offset in *. rewrite Hrx1 in Hl1, Hi1. rewrite Hrx2 in Hl2, Hi2.
  pose proof (zlen_nonneg out). pose proof (zlen_nonneg (stream_data fr)).
  assert (zlen out' = zlen out + zlen (stream_data fr)) as Hlen.
  { apply Z.le_antisymm.
    - apply Hl2, Hg2. split; [clia|]. rewrite carried_cons. intros [?|Hc]; [lia|].
      unfold carried in Hc. rewrite Exists_exists in Hc. destruct Hc as (f & Hf & ?).
      rewrite Forall_forall in Hlast. specialize (Hlast f Hf). simpl in Hlast. lia.
    - apply Hg2 in Hi2 as [Hb Hno]. rewrite carried_cons in Hno.
      destruct (Z.le_gt_cases (zlen out) (zlen out')) as [|Hlt]; [lia|].
      assert (zlen out <= zlen out'); [|lia]. apply Hl1, Hg1. split; [done|]. tauto. }
  rewrite Ho2, Hlen, <- stretch_app by done. rewrite <- Ho1. f_equal. rewrite Hoff in Hdata. by rewrite Z.add_0_l, <- Hdata.
Qed.

(** ** The two ends *)

(** The connections have agreed on keys and connection ID; the AEAD of the receiver
    opens what that of the sender has sealed; and the receiver has got at least the
    packets that were acknowledged, but none that the sender has not sent yet. *)
Record linked {A1 A2} (decrypt : bytes -> bytes -> bytes -> bytes -> option bytes) (cb2 : ngtcp2_conn_callbacks A2)
    (c1 : ngtcp2_conn A1) (c2 : ngtcp2_conn A2) : Prop := {
  lk_state : conn_state c2 = NGTCP2_CS_POST_HANDSHAKE;
  lk_key : exists km, conn_tx_ckm c1 = Some km /\ conn_rx_ckm c2 = Some km;
  lk_id : conn_conn_id c1 = conn_conn_id c2;
  lk_open : forall ct key nonce ad p, decrypt ct key nonce ad = Some p ->
    zlen p <= zlen ct /\ cb_decrypt cb2 (zlen ct) ct key nonce ad = inl p;
  lk_acked : 0 <= rtb_largest_acked (conn_rtb c1) <= conn_max_rx_pkt_num c2;
  lk_sent : conn_max_rx_pkt_num c2 <= conn_last_tx_pkt_num c1 < 2 ^ 62 - 1 /\
    Forall (fun e => ae_pkt_num e <= conn_last_tx_pkt_num c1) (ent (conn_acktr c2));
  lk_flight : conn_last_tx_pkt_num c1 - rtb_largest_acked (conn_rtb c1) < 2 ^ 31 - 1
}.

(** The two ends of the stream [id]: [strm1] at the sender, [strm2] at [p2] at the
    receiver, which has got the frames [frs] of it. The receiver has allowed the
    stream, has got no more than was sent, and allows at least the data the sender
    believes it may send; [data] comes next in the stream. *)
Record stream_ends {A1 A2} (av2 : app_view A2) (c1 : ngtcp2_conn A1) (c2 : ngtcp2_conn A2) (id : Z)
    (strm1 : ngtcp2_strm Z) (p2 : positive) (strm2 : ngtcp2_strm Z) (frs : list ngtcp2_stream) (data : bytes) : Prop := {
  se_id : id <> 0 /\ conn_check_stream_id id c2 = ret tt c2 /\
    (bidi_stream id = true \/ conn_local_stream c2 id = false);
  se_find : mapped c2 id (mk_map_entry id p2) /\ conn_strm_heap c2 !! p2 = Some strm2 /\ received av2 c2 p2 id frs;
  se_open : has_bit (strm_flags strm2) NGTCP2_STRM_FLAG_SHUT_RD = false /\
    has_bit (strm_flags strm2) NGTCP2_STRM_FLAG_STOP_SENDING = false;
  se_sent : strm_last_rx_offset strm2 <= strm_tx_offset strm1 /\
    conn_rx_offset c2 - strm_last_rx_offset strm2 <= conn_tx_offset c1 - strm_tx_offset strm1;
  se_limits : strm_max_tx_offset strm1 <= strm_max_rx_offset strm2 /\
    conn_max_tx_offset c1 <= conn_max_rx_offset c2 < 2 ^ 64 /\ 0 <= conn_rx_offset c2;
  se_data : data = stretch (av_content av2 id) (strm_tx_offset strm1) (zlen data)
}.

(** The STREAM frame as the receiver reads it. *)
Definition frame_read (id offset : Z) (fin : bool) (data : bytes) : ngtcp2_stream :=
  mk_stream (stream_flags_of (mk_stream 0 (c_bool fin) id offset data)) (c_bool fin) id offset data.

Lemma frame_read_ok id offset fin data :
  received_frame (fr_stream (mk_stream 0 (c_bool fin) id offset data)) = fr_stream (frame_read id offset fin data).
Proof. by destruct fin. Qed.

Lemma stretch_take content x k n : 0 <= n <= k -> take (Z.to_nat n) (stretch content x k) = stretch content x n.
Proof.
  intros Hn. replace k with (n + (k - n)) by lia. rewrite <- stretch_app by lia.
  rewrite take_app_length'; [done|]. pose proof (zlen_stretch content x n). unfold zlen in *. lia.
Qed.

(** The frame that is sent is one the receiver expects. *)
Lemma ends_expect {A1 A2} (av2 : app_view A2) (c1 : ngtcp2_conn A1) (c2 : ngtcp2_conn A2) id strm1 p2 strm2 frs data
    (fin : bool) n :
  stream_ends av2 c1 c2 id strm1 p2 strm2 frs data ->
  0 <= strm_tx_offset strm1 -> strm_max_tx_offset strm1 < 2 ^ 62 -> 0 <= n <= zlen data -> (fin = false -> 0 < n) ->
  strm_tx_offset strm1 + n <= strm_max_tx_offset strm1 -> conn_tx_offset c1 + n <= conn_max_tx_offset c1 ->
  expects av2 c2 p2 strm2 frs (frame_read id (strm_tx_offset strm1) fin (take (Z.to_nat n) data)).
Proof.
  intros [(H0 & Hchk & Hdir) (Hm & Hp & Hr) (Hs1 & Hs2) (Hl1 & Hl2) (Hx1 & Hx2 & Hx3) Hdata] Ht Hmax Hn Hfin Hlim Hclim.
  assert (Htl : zlen (take (Z.to_nat n) data) = n) by (rewrite zlen_take; lia).
  assert (Hf : c_bool fin <> 0 -> fin = true) by (by destruct fin).
  split; cbn [frame_read stream_stream_id stream_offset stream_data stream_fin]; rewrite ?Htl; try done.
  - split; [by right | done].
  - split; cbn [frame_read stream_stream_id stream_offset stream_data stream_fin]; rewrite ?Htl; try done.
    + intros Hz E. rewrite E in Htl. destruct fin; [done|]. specialize (Hfin eq_refl). change (zlen []) with 0 in Htl. lia.
    + lia.
    + split; [lia|]. intros _. lia.
    + split; [by rewrite Hs1|]. simpl. intros _. lia.
  - unfold authentic. simpl. rewrite Htl, Hdata. apply stretch_take. lia.
Qed.

(** What the receiver has once the first [n] bytes of [data] have arrived. *)
Definition data_arrived {A2} (av2 : app_view A2) (c2 : ngtcp2_conn A2) (id offset : Z) (p2 : positive) frs (fin : bool)
    (data : bytes) (n : Z) c2' : Prop :=
  conn_ok av2 true None c2' /\
  counted av2 c2' p2 id (frame_read id offset fin (take (Z.to_nat n) data) :: frs) /\
  (zlen (av_log av2 (conn_user_data c2) id) = offset ->
   av_log av2 (conn_user_data c2') id = av_log av2 (conn_user_data c2) id ++ take (Z.to_nat n) data).

Section Ends.
Context {A1 A2 : Type} (av1 : app_view A1) (cb1 : ngtcp2_conn_callbacks A1).
Context (av2 : app_view A2) (cb2 : ngtcp2_conn_callbacks A2) (Hcb : callbacks_ok av2 cb2).
Context (Hpkt : cb_recv_pkt cb2 = None) (Hframe : cb_recv_frame cb2 = None).
Context (decrypt : bytes -> bytes -> bytes -> bytes -> option bytes).

Lemma sent_data_arrives reliable destlen (c1 : ngtcp2_conn A1) (c2 : ngtcp2_conn A2) id p1 strm1 p2 strm2 frs fin data pkt n ts c1' :
  conn_ok av1 reliable None c1 -> can_send av1 cb1 decrypt c1 -> conn_ok av2 true None c2 ->
  linked decrypt cb2 c1 c2 -> stream_ends av2 c1 c2 id strm1 p2 strm2 frs data ->
  conn_strm_heap c1 !! p1 = Some strm1 -> strm_stream_id strm1 = id ->
  0 <= strm_tx_offset strm1 -> strm_max_tx_offset strm1 < 2 ^ 62 -> destlen < 2 ^ 62 -> all_bytes data ->
  fin = true \/ data <> [] ->
  stream_sent av1 decrypt reliable destlen c1 p1 strm1 fin data c1' pkt n ->
  wp (ngtcp2_conn_recv cb2 pkt ts) (fun _ => data_arrived av2 c2 id (strm_tx_offset strm1) p2 frs (fin && (n =? zlen data)) data n)
    (fun e _ => e = NGTCP2_ERR_CALLBACK_FAILURE) c2.
Proof.
  intros Hok1 Hcs Hok2 [Hst (km & Hk1 & Hk2) Hid Hopen Hla [Hlast Hnew] Hfl] Hends Hp1 Hsid Ht Hmax Hdl Hdata Hne.
  intros [_ [Hn Hn0] [Hlim Hclim] _ _ [Hlen (km' & hd & Hsel & Hnum & nonce & ct & Hnonce & -> & Hdec)] _].
  set (fin' := fin && (n =? zlen data)). set (pn := conn_last_tx_pkt_num c1 + 1) in *.
  unfold select_stream_pkt in Hsel. rewrite Hk1 in Hsel. injection Hsel as Hhf Hht Hhi <-.
  assert (Hpos : fin' = false -> 0 < n).
  { intros E. destruct data as [|x l]; [|apply Hn0; rewrite zlen_cons; pose proof (zlen_nonneg l); lia].
    destruct Hne as [->|?]; [|done]. change (zlen []) with 0 in *. assert (n = 0) as -> by lia. done. }
  pose proof (ends_expect av2 c1 c2 id strm1 p2 strm2 frs data fin' n Hends Ht Hmax Hn Hpos Hlim Hclim) as Hex.
  set (fr := frame_read _ _ _ _) in *. unfold sent_frame in Hdec. rewrite Hsid in Hdec. fold fin' in Hdec.
  pose proof (frame_read_ok id (strm_tx_offset strm1) fin' (take (Z.to_nat n) data)) as Hfr. fold fr in Hfr.
  set (s := mk_stream _ _ _ _ _) in *.
  pose proof Hcs as [_ _ _ _ _ (Hid1 & _) _ _ _]. rewrite u64_small in Hnum by clia. fold pn in Hnum.
  rewrite u64_small in Hht by clia. fold pn in Hht.
  destruct (sent_num_recovered c1 pn (conn_max_rx_pkt_num c2)) as (bits & Hbits & Hb & Hadj); [lia..|].
  assert (short_hd hd) as Hshort.
  { split_and!; [by left | | by rewrite <- Hhi | rewrite Hnum; clia].
    rewrite <- Hht. unfold conn_select_pkt_type. repeat (destruct (_ <=? _) || destruct (_ <? _)); auto. }
  destruct (Hopen _ _ _ _ _ Hdec) as [Hle Hd2].
  assert (Htl : zlen (take (Z.to_nat n) data) = n) by (rewrite zlen_take; lia).
  assert (Hwf : wf_frame (fr_stream s)).
  { unfold wf_frame. cbn. rewrite Htl. pose proof (zlen_nonneg data).
    destruct (co_streams _ _ _ _ Hok1) as [M Hs]. destruct (st_heap _ _ _ _ Hs p1 strm1 Hp1) as [Hs1 _].
    rewrite <- Hsid. split_and!; [apply Hs1 | clia | by apply Forall_take | clia]. }
  rewrite zlen_app in Hlen. pose proof (zlen_nonneg (hd_bytes hd)).
  eapply wp_mono; [apply (packet_arrives av2 cb2 Hcb Hpkt Hframe hd s fr ct ts km nonce c2 p2 strm2 frs); try done | | done].
  - congruence.
  - exists bits. rewrite Hnum, <- Hht. split_and!; [done | by apply Hb | done].
  - split; [done | lia].
  - eapply Forall_impl; [exact Hnew|]. simpl. lia.
  - intros ? c2' [Hok' Hr']. split; [done|]. split; [exact Hr'|]. intros Hlog.
    destruct Hends as [_ (_ & Hp2 & (s2 & Hs2 & _ & Hd0 & Hwi)) _ [Hl1 _] _ _].
    rewrite Hp2 in Hs2. injection Hs2 as <-. destruct (counted_delivered _ _ _ _ _ Hr') as [s2' Hd'].
    change (stream_stream_id fr) with id in Hd'. change (take (Z.to_nat n) data) with (stream_data fr).
    eapply (delivered_next _ strm2 s2' _ frs _ fr (strm_last_rx_offset strm2)); try done.
    + apply Hwi.
    + lia.
    + by apply (ex_authentic _ _ _ _ _ _ Hex).
    + simpl. lia.
Qed.
End Ends.
