(* ===== verification/ConnProps.v ===== *)
(** The properties of the connection: creation, the calls of the application, the
    state machine, packet numbers, whole sessions, the order of stream data, flow control, sent
    stream data, acknowledgements, closing, deletion, and the packets received
    after the handshake. The witnesses use a server connection whose application
    keeps a log of the data it gets. *)

From Stdlib Require Import Sorted.
From S2P Require Import Prelude Conv Frame PktDecode PktHd Mem Monad Range Gaptr Idtr Ringbuf AckScan.
From S2P Require Import Acktr Pq Rtb Map Rob Crypto Ppe Strm Conn ConnAck ConnApp ConnInv.
From S2P Require Import ConnStream ConnRecv ConnSend ConnState ConnTx ConnWrite ConnSingle ConnDel ConnFrames ConnPkt ConnReady ConnRetx ConnOut ConnSession ConnNew.

(** ** An application *)

Definition example_app : Type := list (Z * bytes).

Fixpoint log_of (a : example_app) (id : Z) : bytes :=
  match a with
  | [] => []
  | (i, data) :: a => (if i =? id then data else []) ++ log_of a id
  end.

(** Byte [x] of the stream [id]. *)
Definition example_content (id x : Z) : Z := (id + x) mod 256.
Definition example_view : app_view example_app := mk_app_view log_of example_content.

(** Three bytes of stream 4, in a STREAM frame. *)
Definition example_payload : bytes := [0x12; 4; 3; 4; 5; 6].
Definition example_frame : ngtcp2_stream := mk_stream 0x2 0 4 0 [4; 5; 6].

Definition example_decrypt (destlen : Z) (ct key nonce ad : bytes) : bytes + Z :=
  if bool_decide (ct = example_payload) && (6 <=? destlen) then inl ct else inr NGTCP2_ERR_TLS_DECRYPT.

Definition example_encrypt (destlen : Z) (pt key nonce ad : bytes) : option bytes :=
  if zlen pt <=? destlen then Some pt else None.

Definition example_callbacks : ngtcp2_conn_callbacks example_app := mk_callbacks
  (fun c _ => p_ret (conn_user_data c, 1, None)) (fun c => p_ret (conn_user_data c, None)) None
  (fun c _ => p_ret (conn_user_data c, 1, None)) (fun c data => p_ret (conn_user_data c ++ [(0, data)], 0))
  None None None None None None
  (fun _ _ _ _ _ => None) example_decrypt example_encrypt example_decrypt
  (Some (fun c y => p_call (api_extend_max_stream_offset y.1.1.1 (zlen y.1.2))
    (fun _ _ => p_ret (conn_user_data c ++ [(y.1.1.1, y.1.2)], 0))))
  None None None None None.

Definition example_settings : ngtcp2_settings := mk_settings 1000 1000 100 100 30 0 1200 (replicate 16 0) 0 0 0 0 3.

Definition example_params : ngtcp2_transport_params :=
  mk_params (v_ch NGTCP2_PROTO_VER_D8) 1000 1000 101 103 30 0 1200 (replicate 16 0) 0 0 0 0 3.

(** The application sets the keys and the parameters of the peer, and opens a stream. *)
Definition example_keys : prog example_app unit :=
  p_call (api_set_handshake_rx_keys [1] (replicate 12 0)) (fun _ _ =>
    p_call (api_update_rx_keys [1] (replicate 12 0)) (fun _ _ =>
      p_call (api_update_tx_keys [2] (replicate 12 0)) (fun _ _ =>
        p_call (api_set_remote_transport_params NGTCP2_TRANSPORT_PARAMS_TYPE_CLIENT_HELLO example_params) (fun _ _ =>
          p_call (api_open_bidi_stream 0) (fun _ _ =>
            p_call (api_set_handshake_tx_keys [1] (replicate 12 0)) (fun _ _ => p_ret tt)))))).

Definition state_of {S B} (s : S) (o : out S B) : S :=
  match o with ret _ s' | fail _ s' => s' | undef => s end.

Definition example_new : ngtcp2_conn example_app :=
  state_of (zero_conn [] 0 [] true) (ngtcp2_conn_server_new [] 7 NGTCP2_PROTO_VER_D8 example_settings []).
Definition example_conn : ngtcp2_conn example_app :=
  set_conn_state NGTCP2_CS_POST_HANDSHAKE (state_of example_new (run_prog example_keys example_new)).

Example example_delivery :
  match ngtcp2_conn_recv example_callbacks ([0x1f; 0; 0; 0; 0; 0; 0; 0; 7; 1] ++ example_payload) 10 example_conn with
  | ret _ c => Some (conn_user_data c, ae_pkt_num <$> ent (conn_acktr c), conn_rx_offset c)
  | _ => None
  end = Some ([(4, [4; 5; 6])], [1], 3).
Proof. vm_compute. reflexivity. Qed.

Lemma log_of_app a id i data : log_of (a ++ [(i, data)]) id = log_of a id ++ (if i =? id then data else []).
Proof.
  induction a as [|[j d] a IH]; simpl; [by rewrite app_nil_r|]. by rewrite IH, app_assoc.
Qed.

Lemma log_of_receive a id data i :
  log_of (a ++ [(id, data)]) i = if decide (i = id) then log_of a i ++ data else log_of a i.
Proof.
  rewrite log_of_app. destruct (Z.eqb_spec id i) as [->|]; [by rewrite decide_True|].
  rewrite decide_False by congruence. apply app_nil_r.
Qed.

Lemma example_callbacks_ok : callbacks_ok example_view example_callbacks.
Proof.
  split; try done.
  - eexists. split; [reflexivity|]. intros c y. split; [by repeat split|]. simpl. intros _ _ _. apply log_of_receive.
  - intros c y. split; [done|]. simpl. intros _. apply log_of_receive.
Qed.

Lemma wp_state_of {S B} (m : M S B) (P : S -> Prop) s0 s :
  wp m (fun _ => P) (fun _ => P) s -> P (state_of s0 (m s)).
Proof. unfold wp, state_of. by destruct (m s). Qed.

Lemma example_new_ok : conn_ok example_view true None example_new.
Proof.
  pose proof (server_new_ok example_view [] 7 NGTCP2_PROTO_VER_D8 example_settings []
    ltac:(constructor) eq_refl (fun _ => eq_refl)) as Hnew. unfold example_new, new_result in *.
  destruct (ngtcp2_conn_server_new _ _ _ _ _) as [[] c|e c|]; [apply Hnew | by destruct Hnew | done].
Qed.

Lemma example_conn_ok : conn_ok example_view true None example_conn.
Proof.
  assert (Hk : conn_ok example_view true None (state_of example_new (run_prog example_keys example_new))).
  { apply wp_state_of. eapply wp_mono; [apply (run_prog_ok example_view example_keys); [|apply api_post_refl, example_new_ok] | |].
    - repeat split; vm_compute; discriminate.
    - by intros ? ? [].
    - by intros ? ? []. }
  unfold example_conn. revert Hk. generalize (state_of example_new (run_prog example_keys example_new)).
  intros c Hk. keep_ok Hk.
Qed.

Lemma example_frames : frames_of example_payload = [fr_stream example_frame].
Proof. reflexivity. Qed.

Lemma example_genuine : genuine example_view (fr_stream example_frame).
Proof. reflexivity. Qed.

Lemma example_aead_ok (P : ngtcp2_frame -> Prop) : P (fr_stream example_frame) -> aead_ok example_view example_decrypt P.
Proof.
  intros HP. split; intros destlen ct key nonce ad pt; unfold example_decrypt;
    destruct (bool_decide_reflect (ct = example_payload)) as [->|]; try done;
    destruct (Z.leb_spec 6 destlen); intros [= <-].
  - split; [done|]. repeat constructor; done.
  - rewrite example_frames. by repeat constructor.
Qed.

Lemma example_conn_keys : is_Some (conn_hs_rx_ckm example_conn) /\ is_Some (conn_rx_ckm example_conn).
Proof. split; vm_compute; by eexists. Qed.

(** ** Properties *)

(** C3. Stream data is delivered in order and once. Whatever frames have come
    before, in any order, with overlaps and duplicates, and whatever the callbacks
    do with the connection, a STREAM frame that carries what the peer sent leaves
    the connection in order: what the application has got of each stream is the
    stream up to the first byte that is missing, so nothing is lost, repeated or
    reordered. If the stream is known and the application still wants its data, the
    frame counts: all that has been received of the stream in one piece, this frame
    included, has been delivered, and the stream is still open or has been closed
    after that, when it was finished. Such a frame is never refused when it keeps to
    the limits and to the final size of the stream: only a callback can then make the
    handler fail. The handler never accesses a freed stream, no assertion fails, and
    the delivery loop ends. *)
Theorem stream_in_order {A} (av : app_view A) (cb : ngtcp2_conn_callbacks A) c fr :
  callbacks_ok av cb -> conn_ok av true None c -> wf_frame (fr_stream fr) -> authentic av fr ->
  wp (conn_recv_stream cb fr)
    (fun _ c' => (conn_ok av true None c' /\ in_order av c') /\
      forall p strm frs, ngtcp2_conn_find_stream (stream_stream_id fr) c = ret (Some p) c ->
        conn_strm_heap c !! p = Some strm -> received av c p (stream_stream_id fr) frs -> wanted fr strm ->
        closed_after av c' p (stream_stream_id fr) (fr :: frs) \/ received av c' p (stream_stream_id fr) (fr :: frs))
    (fun e _ =>
      forall p strm frs, ngtcp2_conn_find_stream (stream_stream_id fr) c = ret (Some p) c ->
        conn_strm_heap c !! p = Some strm -> received av c p (stream_stream_id fr) frs -> wanted fr strm ->
        stream_stream_id fr <> 0 -> acceptable c strm fr -> e = NGTCP2_ERR_CALLBACK_FAILURE) c.
Proof.
  intros Hcb Hok Hwf Ha. pose proof (recv_stream_ok av cb Hcb c fr Hok Hwf Ha) as H.
  pose proof (recv_known_stream_ok av cb Hcb c fr) as Hk. unfold wp in *.
  destruct (conn_recv_stream cb fr c) as [[] c'|e c'|]; [|intros * ? ? ? ? ? ?; by eapply Hk|done].
  split; [split; [done | exact (conn_ok_in_order av true c' H)]|].
  intros p strm frs Hfind Hp Hr Hw. by apply (Hk p strm frs).
Qed.

Lemma stream_in_order_witness :
  wp (conn_recv_stream example_callbacks example_frame)
    (fun _ c' => in_order example_view c') (fun _ _ => True) example_conn.
Proof.
  eapply wp_mono; [apply (stream_in_order example_view example_callbacks example_conn example_frame) | |done].
  - apply example_callbacks_ok.
  - apply example_conn_ok.
  - repeat split; try done. repeat constructor; done.
  - reflexivity.
  - intros ? c' [[_ H] _]. exact H.
Defined.

(** C5. No packet a peer sends can harm the connection. After the handshake, or
    while the connection is closing or draining, [ngtcp2_conn_recv] runs without
    undefined behaviour on every datagram: no read outside of it, no access to a
    freed object, no failed assertion, and the loops over frames and data end. A
    packet that is processed leaves the invariant of the connection intact. It is
    assumed that the peer's STREAM frames carry its data, that decryption gives no
    more bytes than it was given, and that the ACK frames of late handshake
    packets, for which the code has no room otherwise, have at most one block. *)
Theorem recv_after_handshake_safe {A} (av : app_view A) (cb : ngtcp2_conn_callbacks A) c pkt ts :
  callbacks_ok av cb -> aead_ok av (cb_decrypt cb) (fun _ => True) -> aead_ok av (cb_hs_decrypt cb) short_ack ->
  all_bytes pkt -> zlen pkt < 2 ^ 62 -> conn_ok av true None c ->
  conn_state c ∈ [NGTCP2_CS_CLIENT_HANDSHAKE_ALMOST_FINISHED; NGTCP2_CS_POST_HANDSHAKE;
    NGTCP2_CS_CLOSING; NGTCP2_CS_DRAINING] ->
  is_Some (conn_hs_rx_ckm c) -> is_Some (conn_rx_ckm c) ->
  wp (ngtcp2_conn_recv cb pkt ts) (fun _ => conn_ok av true None) (fun _ _ => True) c.
Proof.
  intros. by apply recv_ok.
Qed.

Lemma recv_after_handshake_safe_witness :
  wp (ngtcp2_conn_recv example_callbacks ([0x1f; 0; 0; 0; 0; 0; 0; 0; 7; 1] ++ example_payload) 10)
    (fun _ => conn_ok example_view true None) (fun _ _ => True) example_conn.
Proof.
  apply recv_after_handshake_safe.
  - apply example_callbacks_ok.
  - by apply example_aead_ok.
  - by apply example_aead_ok.
  - repeat constructor; done.
  - reflexivity.
  - apply example_conn_ok.
  - right. left.
  - apply example_conn_keys.
  - apply example_conn_keys.
Defined.

(** C14. When there is memory, a connection is created, of a client or of a server; it
    satisfies the invariant and is in the initial state of its role, with the
    connection ID and the settings it was given. Stream 0 is fresh and the only stream,
    in memory and in the table; the trackers of received packets, of sent ACKs and of
    retransmissions are empty and the counters are 0; of the streams of the peer only
    stream 0 is open, at a server; the next stream IDs are the first ones of the role;
    the limits for the peer are those of the settings; and there are no keys. *)
Theorem conn_new_establishes {A} (av : app_view A) m conn_id version settings (a : A) :
  mem_reliable m -> zlen (s_stateless_reset_token settings) = NGTCP2_STATELESS_RESET_TOKENLEN ->
  (forall id, av_log av a id = []) ->
  exists c s, ngtcp2_conn_client_new m conn_id version settings a = ret tt c /\
    created av true conn_id false settings c /\
    ngtcp2_conn_server_new m conn_id version settings a = ret tt s /\ created av true conn_id true settings s.
Proof.
  intros Hm Ht Hlog.
  pose proof (client_new_ok av true m conn_id version settings a (fun _ => Hm) Ht Hlog) as Hc.
  pose proof (server_new_ok av m conn_id version settings a Hm Ht Hlog) as Hs. unfold new_result in *.
  destruct (ngtcp2_conn_client_new _ _ _ _ _) as [[] c|e c|]; [|by destruct Hc | done].
  destruct (ngtcp2_conn_server_new _ _ _ _ _) as [[] s|e s|]; [|by destruct Hs | done].
  by exists c, s.
Qed.

Lemma conn_new_establishes_witness :
  exists c s, ngtcp2_conn_client_new [] 7 NGTCP2_PROTO_VER_D8 example_settings [] = ret tt c /\
    created example_view true 7 false example_settings c /\
    ngtcp2_conn_server_new [] 7 NGTCP2_PROTO_VER_D8 example_settings [] = ret tt s /\
    created example_view true 7 true example_settings s.
Proof. apply conn_new_establishes; [constructor | reflexivity | reflexivity]. Defined.

(** C10. The application can make any calls of the API, in any order, from a callback
    or outside of one, also when memory is short. The arguments are values of the
    parameters' types, an IV has 8 to 64 bytes, and transport parameters are in the
    ranges the decoder guarantees, with a reset token of 16 bytes. Then there
    is no undefined behaviour, the invariant of the connection is kept, and the
    calls leave alone what has been received, sent and acknowledged: no stream is
    closed, the state does not change, and a stream ID that was used stays used. *)
Theorem api_calls_safe {A R} (av : app_view A) (p : prog A R) reliable x c :
  prog_ok p -> conn_ok av reliable x c ->
  wp (run_prog p) (fun _ c' => conn_ok av reliable x c' /\ api_frame av c c') (fun _ _ => False) c.
Proof. intros Hp Hok. apply (run_prog_ok av p Hp). by apply api_post_refl. Qed.

Lemma api_calls_safe_witness :
  wp (run_prog (p_call (api_open_bidi_stream 9) (fun rv _ => p_call (api_shutdown_stream 4 rv) (fun _ _ => p_ret tt))))
    (fun _ c' => conn_ok example_view true None c') (fun _ _ => False) example_conn.
Proof.
  eapply wp_mono; [apply (api_calls_safe example_view _ true None example_conn); [by repeat split | apply example_conn_ok] | |].
  - intros ? ? [H _]. exact H.
  - intros ? ? H. exact H.
Defined.

(** C39. The loop that sizes the buffer for decryption ends: for a packet of any
    size that exists (up to [2 ^ 62] bytes) doubling reaches the size before it
    wraps around, and the buffer has room for the packet. *)
Theorem decrypt_buffer_terminates {A} (av : app_view A) (c : ngtcp2_conn A) n :
  conn_ok av true None c -> n <= 2 ^ 62 ->
  exists c', conn_ensure_decrypt_buffer n c = ret tt c' /\ conn_ok av true None c' /\ n <= conn_decrypt_buf_len c'.
Proof.
  intros Hok Hn.
  assert (wp (conn_ensure_decrypt_buffer n)
    (fun _ c' => conn_ok av true None c' /\ n <= conn_decrypt_buf_len c') (fun _ _ => False) c) as H
    by (by apply (ensure_decrypt_buffer_ok av)).
  unfold wp in H. destruct (conn_ensure_decrypt_buffer n c) as [[] c'|e c'|]; [by exists c' | done | done].
Qed.

Lemma decrypt_buffer_terminates_witness :
  exists c', conn_ensure_decrypt_buffer 5000 example_conn = ret tt c' /\
    conn_ok example_view true None c' /\ 5000 <= conn_decrypt_buf_len c'.
Proof. apply decrypt_buffer_terminates; [apply example_conn_ok | lia]. Defined.

(** The new bytes a frame that ends at [fr_end] counts for. *)
Definition new_bytes (strm : ngtcp2_strm Z) (fr_end : Z) : Z :=
  if strm_stream_id strm =? 0 then 0 else Z.max 0 (fr_end - strm_last_rx_offset strm).

(** C15. Flow control: a frame is accepted exactly when it ends within the limit of
    its stream and its new bytes fit the limit of the connection (to which stream 0
    does not count); the count of bytes then goes up by the new bytes and stays
    within the limit. Otherwise the error is [NGTCP2_ERR_FLOW_CONTROL] and nothing
    changes. *)
Theorem recv_flow_control {A} (c : ngtcp2_conn A) p strm fr_end :
  conn_strm_heap c !! p = Some strm -> 0 <= strm_last_rx_offset strm -> 0 <= fr_end < 2 ^ 62 ->
  0 <= conn_rx_offset c <= conn_max_rx_offset c -> conn_max_rx_offset c < 2 ^ 62 ->
  let n := new_bytes strm fr_end in
  if (fr_end <=? strm_max_rx_offset strm) && (conn_rx_offset c + n <=? conn_max_rx_offset c) then
    conn_recv_stream_fc p fr_end c = ret tt (set_conn_rx_offset (conn_rx_offset c + n) c)
  else conn_recv_stream_fc p fr_end c = fail NGTCP2_ERR_FLOW_CONTROL c.
Proof.
  intros Hp Hl He Hrx Hmax n. unfold n, new_bytes, conn_recv_stream_fc, conn_max_data_violated, mbind, M_bind, load_strm, get.
  rewrite Hp. unfold throw_if.
  destruct (Z.leb_spec fr_end (strm_max_rx_offset strm)) as [Hle|Hlt].
  2:{ rewrite (proj2 (Z.ltb_lt _ _)) by lia. done. }
  rewrite (proj2 (Z.ltb_ge _ _)) by lia. cbn [mret M_ret].
  assert (Hsame : c = set_conn_rx_offset (conn_rx_offset c + 0) c) by (rewrite Z.add_0_r; by destruct c).
  destruct (Z.eqb_spec (strm_stream_id strm) 0) as [H0|H0].
  { rewrite andb_false_r, (proj2 (Z.leb_le _ _)) by lia. simpl. by rewrite <- Hsame. }
  rewrite andb_true_r. destruct (Z.ltb_spec (strm_last_rx_offset strm) fr_end) as [Hlt|Hge].
  - rewrite Z.max_r by lia. rewrite (u64_small (fr_end - _)), (u64_small (_ - conn_rx_offset c)) by clia.
    cbn [andb]. destruct (Z.leb_spec (conn_rx_offset c + (fr_end - strm_last_rx_offset strm)) (conn_max_rx_offset c)).
    + rewrite (proj2 (Z.ltb_ge _ _)) by lia. simpl. unfold modify. rewrite u64_small by clia. done.
    + by rewrite (proj2 (Z.ltb_lt _ _)) by lia.
  - rewrite Z.max_l by lia. rewrite (proj2 (Z.leb_le _ _)) by lia. simpl. by rewrite <- Hsame.
Qed.

Lemma recv_flow_control_witness :
  conn_recv_stream_fc 1 500 example_conn = ret tt (set_conn_rx_offset (conn_rx_offset example_conn + 0) example_conn).
Proof.
  assert (exists strm, conn_strm_heap example_conn !! 1%positive = Some strm /\ 0 <= strm_last_rx_offset strm /\
    strm_max_rx_offset strm = 1000 /\ strm_stream_id strm = 0) as (strm & Hp & Hl & Hm & Hid).
  { eexists. split; [vm_compute; reflexivity|]. split_and!; [done | reflexivity | reflexivity]. }
  assert (0 <= conn_rx_offset example_conn <= conn_max_rx_offset example_conn /\
    conn_max_rx_offset example_conn < 2 ^ 62) as [H1 H2] by (vm_compute; repeat split; discriminate).
  pose proof (recv_flow_control example_conn 1 strm 500 Hp Hl ltac:(lia) H1 H2) as H.
  unfold new_bytes in H. rewrite Hm, Hid in H. cbn [Z.eqb] in H. cbn zeta in H.
  rewrite (proj2 (Z.leb_le 500 1000)), (proj2 (Z.leb_le (_ + 0) _)) in H by lia. exact H.
Defined.

(** Nothing is left of the comparison when the tokens are equal. *)
Lemma token_diff_zero n t1 t2 :
  length t1 = n -> length t2 = n -> all_bytes t1 -> all_bytes t2 ->
  exists d, token_diff n t1 t2 = Ok d /\ 0 <= d /\ (d = 0 <-> t1 = t2).
Proof.
  revert t1 t2. induction n as [|n IH]; intros t1 t2 H1 H2 B1 B2; simpl.
  { destruct t1, t2; try done. exists 0. done. }
  destruct t1 as [|x t1], t2 as [|y t2]; try done. simpl in *. injection H1 as H1. injection H2 as H2.
  apply Forall_cons in B1 as [Bx B1], B2 as [By B2].
  destruct (IH t1 t2 H1 H2 B1 B2) as (d & -> & Hd & Heq). cbn [mbind res_bind]. eexists. split; [done|].
  assert (0 <= x .^ y) by (apply Z.lxor_nonneg; clia). split; [by apply Z.lor_nonneg|].
  rewrite Z.lor_eq_0_iff, Z.lxor_eq_0_iff, Heq. split; [by intros [-> ->] | by intros [= -> ->]].
Qed.

(** The token the peer shares with this endpoint. *)
Definition reset_token {A} (c : ngtcp2_conn A) : bytes :=
  s_stateless_reset_token (if conn_server c then conn_local_settings c else conn_remote_settings c).

(** C38. Stateless Reset: a packet ends the connection exactly when its last 16
    bytes are the token of the connection, all 16 of them; then the connection is
    drained and the application is told. Any other packet is refused, and nothing
    changes. *)
Theorem stateless_reset_exact {A} (av : app_view A) (cb : ngtcp2_conn_callbacks A) c hd payload :
  conn_ok av true None c -> all_bytes payload -> all_bytes (reset_token c) ->
  let n := (length payload - 16)%nat in
  conn_on_stateless_reset cb hd payload c =
    if (16 <=? zlen payload) && bool_decide (drop n payload = reset_token c) then
      conn_call (cb_recv_stateless_reset cb) (hd, (take n payload, drop n payload))
        (set_conn_state NGTCP2_CS_DRAINING c)
    else fail NGTCP2_ERR_INVALID_ARGUMENT c.
Proof.
  intros Hok Hb Ht n. unfold conn_on_stateless_reset, mbind, M_bind, get.
  destruct (Z.leb_spec 16 (zlen payload)) as [Hl|Hl].
  2:{ unfold ngtcp2_pkt_decode_stateless_reset, NGTCP2_STATELESS_RESET_TOKENLEN, fail_if.
      by rewrite (proj2 (Z.ltb_lt _ _)) by lia. }
  assert (Hlen : length (drop n payload) = 16%nat) by (rewrite length_drop; unfold zlen, n in *; lia).
  assert (Hdec : ngtcp2_pkt_decode_stateless_reset payload = Ok (take n payload, drop n payload)).
  { rewrite <- (take_drop n payload) at 1. apply decode_reset_app. unfold zlen. lia. }
  rewrite Hdec. cbn [lift andb]. fold (reset_token c).
  assert (Hlen' : length (reset_token c) = 16%nat).
  { destruct (co_token _ _ _ _ Hok) as [H1 H2]. unfold reset_token, NGTCP2_STATELESS_RESET_TOKENLEN, zlen in *.
    destruct (conn_server c); lia. }
  destruct (token_diff_zero 16 (reset_token c) (drop n payload)) as (d & Hd & _ & Hz);
    [done | done | done | by apply Forall_drop|].
  unfold NGTCP2_STATELESS_RESET_TOKENLEN. change (Z.to_nat 16) with 16%nat. rewrite Hd. cbn [lift].
  destruct (bool_decide_reflect (drop n payload = reset_token c)) as [Heq|Hne].
  - rewrite (proj2 Hz) by done. done.
  - destruct (Z.eqb_spec d 0) as [H0|H0]; [destruct Hne; symmetry; by apply Hz | done].
Qed.

Lemma stateless_reset_exact_witness :
  let payload := [1; 2; 3] ++ replicate 16 0 in
  conn_on_stateless_reset example_callbacks (mk_pkt_hd 0 NGTCP2_PKT_01 7 1 0) payload example_conn =
    ret tt (set_conn_state NGTCP2_CS_DRAINING example_conn).
Proof.
  intros payload. rewrite (stateless_reset_exact example_view).
  - reflexivity.
  - apply example_conn_ok.
  - repeat constructor; done.
  - assert (reset_token example_conn = replicate 16 0) as -> by (vm_compute; reflexivity). repeat constructor; done.
Defined.

(** The packet of [example_delivery], and one that cannot be decrypted and ends with
    the token. *)
Definition example_pkt : bytes := [0x1f; 0; 0; 0; 0; 0; 0; 0; 7; 1] ++ example_payload.
Definition example_reset : bytes := [0x1f; 0; 0; 0; 0; 0; 0; 0; 7; 1] ++ replicate 20 0.

(** C7. The life of a connection. Whatever packets arrive and whatever calls the
    application makes, in any order, failed calls included, the state of a
    connection moves only along the transitions of the state machine of its role:
    a client never gets into a state of a server or the other way round, the
    handshake is never started again once it is over, and a connection that is
    closed or drained stays so. *)
Theorem conn_lifecycle {A} (cb : ngtcp2_conn_callbacks A) evs c pkts c' :
  role_ok c -> run_events cb evs c = ret pkts c' ->
  rtc (conn_step (conn_server c)) (conn_state c) (conn_state c') /\ role_ok c' /\
  (after_handshake (conn_state c) -> after_handshake (conn_state c')) /\
  (conn_state c ∈ [NGTCP2_CS_CLOSING; NGTCP2_CS_DRAINING] -> conn_state c' = conn_state c).
Proof.
  intros Hc Hrun. pose proof (events_run cb evs c pkts c' Hc Hrun) as Hs.
  pose proof (steps_role c c' Hc Hs) as Hc'. destruct Hs as [Hs _].
  split_and!; eauto using steps_after_handshake, steps_ended.
Qed.

Lemma conn_lifecycle_witness :
  exists c', run_events example_callbacks [ev_recv example_pkt 10; ev_recv example_reset 20; ev_recv example_pkt 30]
      example_conn = ret [] c' /\
    rtc (conn_step true) NGTCP2_CS_POST_HANDSHAKE (conn_state c') /\ conn_state c' = NGTCP2_CS_DRAINING.
Proof.
  eexists. split; [vm_compute; reflexivity|]. split; [|reflexivity].
  refine (proj1 (conn_lifecycle example_callbacks
    [ev_recv example_pkt 10; ev_recv example_reset 20; ev_recv example_pkt 30] example_conn [] _ I _)).
  vm_compute. reflexivity.
Defined.

(** A packet is received and acknowledged, and the connection is closed. *)
Definition example_events : list conn_event :=
  [ev_recv example_pkt 10; ev_write_ack_pkt 1200 100000000; ev_write_connection_close 1200 0; ev_recv example_pkt 30].

(** C6. No two packets are protected with the same key and nonce. Take a connection
    that has its keys and is past the handshake. Whatever the application does and
    whatever packets arrive, each packet that is sent (retransmissions,
    acknowledgements, stream data, the closing packet) is a header with its packet
    number and the ciphertext that the callback of the connection has made under the
    connection's key, with the nonce that belongs to this number; the numbers
    strictly increase from one packet to the next and do not wrap around, so the
    nonces of two packets with the same key are different; and the last number of
    the connection is never less than that of a packet that was sent. *)
Theorem pkt_nums_increase {A} (cb : ngtcp2_conn_callbacks A) K evs c pkts c' :
  role_ok c -> after_handshake (conn_state c) -> 0 <= conn_last_tx_pkt_num c <= UINT64_MAX -> keyed K c ->
  run_events cb evs c = ret pkts c' ->
  exists ss, Forall2 (sealed cb K) ss pkts /\ StronglySorted Z.lt (sl_num <$> ss) /\
    NoDup ((fun s => (sl_km s, sl_nonce s)) <$> ss) /\
    Forall (fun s => conn_last_tx_pkt_num c < sl_num s <= conn_last_tx_pkt_num c') ss /\
    conn_last_tx_pkt_num c' <= UINT64_MAX.
Proof.
  intros Hr Hs Hn Hk Hrun. destruct (events_numbered cb K evs c pkts c' Hr Hs Hn Hk Hrun) as [H [_ Hn']].
  destruct (numbered_sorted _ _ _ _ _ H) as (ss & H1 & H2 & H3). exists ss. split_and!; try done.
  eapply nonces_differ; [done..|]. eapply Forall_impl; [exact H3|]. unfold UINT64_MAX in *. simpl. clia.
Qed.

Definition example_keyring : keyring :=
  mk_keyring (mk_crypto_km [2] (replicate 12 0)) (mk_crypto_km [1] (replicate 12 0)).

Lemma pkt_nums_increase_witness :
  exists pkts c' ss, run_events example_callbacks example_events example_conn = ret pkts c' /\
    length pkts = 2%nat /\ Forall2 (sealed example_callbacks example_keyring) ss pkts /\
    NoDup ((fun s => (sl_km s, sl_nonce s)) <$> ss).
Proof.
  assert (Hrun : match run_events example_callbacks example_events example_conn with
    | ret pkts _ => length pkts = 2%nat | _ => False end) by (vm_compute; reflexivity).
  destruct (run_events example_callbacks example_events example_conn) as [pkts c'|e c'|] eqn:E; [|destruct Hrun..].
  destruct (pkt_nums_increase example_callbacks example_keyring example_events example_conn pkts c')
    as (ss & H1 & _ & H2 & _).
  - exact I.
  - left.
  - vm_compute. split; discriminate.
  - split; vm_compute; reflexivity.
  - exact E.
  - exists pkts, c', ss. split; [reflexivity|]. split; [exact Hrun|]. split; [exact H1 | exact H2].
Defined.

(** C8. Sending stream data. A call of [ngtcp2_conn_write_stream] on a connection
    that satisfies the invariant runs without undefined behaviour, whatever the
    callbacks do. If it succeeds, it sends a prefix of the data that is not empty
    unless the data is and that exceeds neither the peer's limit for the stream nor
    that for the connection; the packet fits the buffer and its payload decrypts to
    one STREAM frame with exactly these bytes at the offset of the stream, and with
    FIN only when all data has been sent; the same frame is kept for
    retransmission; the offsets of the stream and of the connection advance by the
    number of bytes and those of other streams do not. If it fails, nothing counts
    as sent. The invariant is kept in both cases. *)
Theorem write_stream_exact {A} (av : app_view A) (cb : ngtcp2_conn_callbacks A) decrypt reliable
    destlen stream_id fin data ts c :
  conn_ok av reliable None c -> can_send av cb decrypt c -> 0 <= destlen < 2 ^ 62 ->
  all_bytes data -> zlen data < 2 ^ 62 ->
  (forall p strm, conn_strm_heap c !! p = Some strm -> strm_stream_id strm = stream_id ->
    0 <= strm_tx_offset strm <= strm_max_tx_offset strm /\ strm_max_tx_offset strm < 2 ^ 62) ->
  wp (ngtcp2_conn_write_stream cb destlen stream_id fin data ts)
    (fun r c' => exists p strm, conn_strm_heap c !! p = Some strm /\ strm_stream_id strm = stream_id /\
      stream_sent av decrypt reliable destlen c p strm fin data c' r.1 r.2)
    (fun _ c' => not_sent av reliable c c') c.
Proof. apply write_stream_ok. Qed.

(** The AEAD of the example can be inverted, whatever the state. *)
Lemma example_can_send_if c :
  conn_aead_overhead c = 0 -> conn_early_ckm c = None -> conn_tx_ckm c = Some (mk_crypto_km [2] (replicate 12 0)) ->
  is_uint 64 (conn_conn_id c) /\ is_uint 64 (conn_client_conn_id c) /\ is_uint 32 (conn_version c) ->
  is_uint 64 (conn_last_tx_pkt_num c) -> rtb_bytes_in_flight (conn_rtb c) < 2 ^ 62 ->
  0 <= conn_tx_offset c <= conn_max_tx_offset c /\ conn_max_tx_offset c < 2 ^ 62 ->
  can_send example_view example_callbacks (fun ct _ _ _ => Some ct) c.
Proof.
  intros Ho He Ht Hid Hn Hb Hcr. split; try done; rewrite ?Ho; try done.
  - split; intros destlen pt key nonce ad ct; cbn [cb_encrypt example_callbacks]; unfold example_encrypt;
      destruct (_ <=? _); intros [= <-]; [reflexivity | lia].
  - intros km. rewrite He, Ht. by intros [[= <-]|[=]].
Qed.

Lemma example_can_send : can_send example_view example_callbacks (fun ct _ _ _ => Some ct) example_conn.
Proof. apply example_can_send_if; try (vm_compute; reflexivity); apply (bool_decide_unpack _); vm_compute; exact I. Qed.

Lemma write_stream_exact_witness :
  exists pkt c' p strm, ngtcp2_conn_write_stream example_callbacks 1200 1 true [1; 2; 3] 10 example_conn =
      ret (pkt, 3) c' /\
    stream_sent example_view (fun ct _ _ _ => Some ct) true 1200 example_conn p strm true [1; 2; 3] c' pkt 3.
Proof.
  assert (Hrun : match ngtcp2_conn_write_stream example_callbacks 1200 1 true [1; 2; 3] 10 example_conn with
    | ret r _ => r.2 = 3 | _ => False end) by (vm_compute; reflexivity).
  pose proof (write_stream_exact example_view example_callbacks (fun ct _ _ _ => Some ct) true 1200 1 true [1; 2; 3] 10
    example_conn example_conn_ok example_can_send) as H. unfold wp in H.
  destruct (ngtcp2_conn_write_stream _ _ _ _ _ _ _) as [[pkt n] c'|e c'|]; [|destruct Hrun..].
  simpl in Hrun. subst n. destruct H as (p & strm & _ & _ & H); [lia | repeat constructor; done | done | |].
  - assert (Hall : map_Forall (fun _ s => 0 <= strm_tx_offset s <= strm_max_tx_offset s /\ strm_max_tx_offset s < 2 ^ 62)
      (conn_strm_heap example_conn)) by (apply (bool_decide_unpack _); vm_compute; exact I).
    intros q s Hq _. exact (Hall q s Hq).
  - exists pkt, c', p, strm. split; [reflexivity | exact H].
Defined.

(** C11. Closing a connection. After the handshake each of the two closing functions
    either sends a packet that decrypts to its one frame with the error code, fits
    the buffer and has the next packet number, and leaves the connection in the
    closing state; or it fails and the state stays. It fails in any other state,
    when the packet numbers are used up, when a callback fails, and when the buffer
    is too small. The invariant is kept in all cases. *)
Theorem close_exact {A} (av : app_view A) (cb : ngtcp2_conn_callbacks A) decrypt reliable destlen error_code c :
  conn_ok av reliable None c -> can_send av cb decrypt c ->
  (conn_state c = NGTCP2_CS_POST_HANDSHAKE -> is_Some (conn_tx_ckm c)) -> 0 <= destlen < 2 ^ 62 ->
  is_uint 16 error_code -> error_code <> NGTCP2_STOPPING ->
  closes av decrypt reliable destlen c (fr_connection_close (mk_close error_code []))
    (ngtcp2_conn_write_connection_close cb destlen error_code) /\
  closes av decrypt reliable destlen c (fr_application_close (mk_close error_code []))
    (ngtcp2_conn_write_application_close cb destlen error_code).
Proof. intros. split; [by apply connection_close_ok | by apply application_close_ok]. Qed.

Lemma close_exact_witness :
  exists pkt c', ngtcp2_conn_write_connection_close example_callbacks 1200 0x8001 example_conn = ret pkt c' /\
    conn_state c' = NGTCP2_CS_CLOSING /\
    frame_sent (fun ct _ _ _ => Some ct) 1200 example_conn (mk_crypto_km [2] (replicate 12 0))
      (fr_connection_close (mk_close 0x8001 [])) pkt.
Proof.
  assert (Hrun : match ngtcp2_conn_write_connection_close example_callbacks 1200 0x8001 example_conn with
    | ret _ _ => True | _ => False end) by (vm_compute; exact I).
  assert (Hkm : conn_tx_ckm example_conn = Some (mk_crypto_km [2] (replicate 12 0))) by (vm_compute; reflexivity).
  destruct (close_exact example_view example_callbacks (fun ct _ _ _ => Some ct) true 1200 0x8001 example_conn
    example_conn_ok example_can_send) as [H _].
  - intros _. exists (mk_crypto_km [2] (replicate 12 0)). exact Hkm.
  - lia.
  - clia.
  - discriminate.
  - unfold closes, wp in H.
    destruct (ngtcp2_conn_write_connection_close _ _ _ _) as [pkt c'|e c'|]; [|destruct Hrun..].
    destruct H as (_ & _ & Hs & km & Hk & Hp). rewrite Hkm in Hk. injection Hk as <-.
    exists pkt, c'. split; [reflexivity|]. split; [exact Hs | exact Hp].
Defined.

(** C9. Received packets are acknowledged in time. When a packet that has to be
    acknowledged is recorded, its number is a duplicate or a timer runs out after
    at most [NGTCP2_DELAYED_ACK_TIMEOUT], unless an acknowledgement is due at once.
    From then on [ngtcp2_conn_write_ack_pkt] sends, in the next packet, an ACK frame
    that covers it, if no callback fails and the buffer has room for the frame; the
    hypotheses on the tracker say that 255 blocks are enough for the packets in it
    and that the times are in the range of the field, and no retransmission is due
    then. *)
Theorem delayed_ack_sent {A} (av : app_view A) (cb : ngtcp2_conn_callbacks A) decrypt n ts c km :
  conn_ok av true None c -> can_send av cb decrypt c ->
  conn_state c = NGTCP2_CS_POST_HANDSHAKE -> conn_tx_ckm c = Some km ->
  conn_last_tx_pkt_num c <> UINT64_MAX -> acks_sent c ->
  is_uint 62 n -> 0 <= ts -> ack_range ts c -> zlen (ent (conn_acktr c)) < 256 ->
  0 <= conn_next_ack_expiry c <= ts + NGTCP2_DELAYED_ACK_TIMEOUT ->
  wp (ngtcp2_conn_sched_ack n true ts false)
    (fun _ c1 =>
      (conn_immediate_ack c1 = true \/
       conn_next_ack_expiry c1 <> 0 /\ ngtcp2_conn_earliest_expiry c1 <= ts + NGTCP2_DELAYED_ACK_TIMEOUT) /\
      forall ts', ts + NGTCP2_DELAYED_ACK_TIMEOUT <= ts' < 2 ^ 62 -> rtb_idle ts' c ->
        acked_at av cb decrypt n ts' c km c1)
    (fun e _ => e = NGTCP2_ERR_PROTO /\ n ∈ ae_pkt_num <$> ent (conn_acktr c)) c.
Proof. apply delayed_ack_ok. Qed.

Lemma delayed_ack_sent_witness :
  exists c1, ngtcp2_conn_sched_ack 9 true 10 false example_conn = ret tt c1 /\
    ngtcp2_conn_earliest_expiry c1 = 25010 /\
    acked_at example_view example_callbacks (fun ct _ _ _ => Some ct) 9 25010 example_conn
      (mk_crypto_km [2] (replicate 12 0)) c1.
Proof.
  assert (Hrun : match ngtcp2_conn_sched_ack 9 true 10 false example_conn with
    | ret _ c1 => ngtcp2_conn_earliest_expiry c1 = 25010 | _ => False end) by (vm_compute; reflexivity).
  assert (Hent : ent (conn_acktr example_conn) = []) by (vm_compute; reflexivity).
  pose proof (delayed_ack_sent example_view example_callbacks (fun ct _ _ _ => Some ct) 9 10 example_conn
    (mk_crypto_km [2] (replicate 12 0)) example_conn_ok example_can_send) as H. unfold wp in H.
  destruct (ngtcp2_conn_sched_ack 9 true 10 false example_conn) as [[] c1|e c1|]; [|destruct Hrun..].
  exists c1. split; [reflexivity|]. split; [exact Hrun|]. apply H.
  - vm_compute. reflexivity.
  - vm_compute. reflexivity.
  - vm_compute. discriminate.
  - destruct (co_acktr _ _ _ _ example_conn_ok) as (al & Hwf & Hn). exists al. split; [exact Hwf|]. split; [exact Hn|].
    destruct Hwf as ((_ & _ & _ & Hlen & _) & _).
    assert (rb_len (acks (conn_acktr example_conn)) = 0) as E by (vm_compute; reflexivity). rewrite E in Hlen.
    destruct al as [|a al]; [apply Forall_nil_2|]. exfalso. clear -Hlen. rewrite zlen_cons in Hlen.
    pose proof (zlen_nonneg al). lia.
  - clia.
  - lia.
  - split; [lia | rewrite Hent; constructor | rewrite Hent; vm_compute; discriminate | vm_compute; discriminate].
  - rewrite Hent. vm_compute. reflexivity.
  - vm_compute. split; discriminate.
  - unfold NGTCP2_DELAYED_ACK_TIMEOUT. lia.
  - vm_compute. exact I.
Defined.

(** C12. The end of a connection. [ngtcp2_conn_del] uses and releases nothing that
    has been released before: it releases every stream of the table of streams, and
    every packet of the retransmission buffer and of the list of 0-RTT packets,
    each once. What is left of the streams are those that were not in the table,
    and of the packets those that were in neither list. It is assumed that the list of
    0-RTT packets holds live packets, none twice, and shares none with the
    retransmission buffer. *)
Theorem conn_del_exact {A} (av : app_view A) reliable c :
  conn_ok av reliable None c -> releasable (conn_early_rtb c) (conn_rtb_heap c) ->
  conn_early_rtb c ## rtb_head (conn_rtb c) ->
  wp ngtcp2_conn_del (fun _ => conn_released c) (fun _ _ => False) c.
Proof. apply conn_del_ok. Qed.

(** Nothing is left of the example. *)
Lemma conn_del_exact_witness :
  exists c', ngtcp2_conn_del example_conn = ret tt c' /\ conn_released example_conn c' /\
    conn_strm_heap c' = ∅ /\ conn_rtb_heap c' = ∅.
Proof.
  assert (Hrun : match ngtcp2_conn_del example_conn with
    | ret _ c' => (map_to_list (conn_strm_heap c'), map_to_list (conn_rtb_heap c')) = ([], []) | _ => False end)
    by (vm_compute; reflexivity).
  assert (E : conn_early_rtb example_conn = []) by (vm_compute; reflexivity).
  assert (H : wp ngtcp2_conn_del (fun _ => conn_released example_conn) (fun _ _ => False) example_conn).
  { apply (conn_del_exact example_view true example_conn example_conn_ok); rewrite E; [split; constructor|].
    intros p Hp. apply not_elem_of_nil in Hp. destruct Hp. }
  destruct (ngtcp2_conn_del example_conn) as [[] c'|e c'|] eqn:Ed; [|destruct Hrun..].
  injection Hrun as H1 H2. apply map_to_list_empty_iff in H1. apply map_to_list_empty_iff in H2.
  exists c'. split; [reflexivity|]. split; [exact (wp_result _ _ _ _ _ _ H Ed)|]. split; [exact H1 | exact H2].
Defined.

(** C4. A whole session runs safely. After the handshake an application may receive
    packets, write data, packets, acknowledgements and the closing packets, and make
    its other calls, also from the callbacks, in any order and any number of times,
    whatever the network loses, duplicates or reorders; left out are the calls that
    ask the peer to stop sending and those that belong to the handshake, the setters
    of the AEAD overhead, of the early keys and of the peer's parameters (received, or
    remembered for early data). Every call returns, none runs into undefined
    behaviour (no read outside of a packet, no freed object, no failed assertion),
    and the connection stays fit for the next call, until a received packet or a
    callback fails. It is assumed that the peer's STREAM frames carry its data, that
    the AEAD keeps its promises, that the callbacks that are told of sent packets do
    not fail, that neither side uses stream 0, and that the session is not so long
    that packet numbers and bytes in flight reach 2^62. *)
Theorem session_safe {A} (av : app_view A) (cb : ngtcp2_conn_callbacks A) decrypt hs_decrypt bound n evs c :
  callbacks_ok av cb -> callbacks_live cb -> sends_quiet av cb ->
  aead_ok av (cb_decrypt cb) past_handshake ->
  aead_ok av (cb_hs_decrypt cb) (fun fr => past_handshake fr /\ short_ack fr) ->
  conn_ok av true None c -> ready cb decrypt hs_decrypt bound n n None c ->
  after_handshake (conn_state c) -> 0 <= conn_last_tx_pkt_num c <= UINT64_MAX ->
  Forall event_ok evs -> bound + session_cost evs < 2 ^ 62 ->
  exists pkts alive c', run_session cb evs c = ret (pkts, alive) c' /\
    (alive = true -> conn_ok av true None c' /\
      exists n', ready cb decrypt hs_decrypt (bound + session_cost evs) n' n' None c').
Proof.
  intros Hcb Hlive Hquiet H1 H2 Hok Hr Hs Hn Hevs Hb.
  pose proof (session_ok av cb Hcb Hlive Hquiet H1 H2 decrypt hs_decrypt evs bound n c
    (conj Hok Hr) (conj Hs Hn) Hevs Hb) as H. unfold wp in H.
  destruct (run_session cb evs c) as [[pkts alive] c'|e c'|]; [|done..].
  exists pkts, alive, c'. split; [done|]. intros Ha. destruct (H Ha) as (n' & ? & ?). eauto.
Qed.

Lemma example_callbacks_live : callbacks_live example_callbacks.
Proof.
  split; try (by intros ? [=]); try (by split; intros ? [=]).
  intros g [= <-] c y Hy. split; [|done]. simpl. rewrite u64_small; [done|].
  pose proof (zlen_nonneg y.1.2). unfold NGTCP2_MAX_VARINT in *. clia.
Qed.

Lemma example_ready : ready example_callbacks (fun ct _ _ _ => Some ct) (fun _ _ _ _ => None) 0 0 0 None example_conn.
Proof.
  assert (Hh : conn_rtb_heap example_conn = ∅) by (vm_compute; reflexivity).
  split.
  - assert (conn_frq example_conn = []) as -> by (vm_compute; reflexivity). constructor.
  - rewrite Hh. apply map_Forall_empty.
  - apply map_Forall_to_list. match goal with |- Forall _ ?l => let l' := eval vm_compute in l in
      replace l with l' by (vm_compute; reflexivity) end. repeat constructor; simpl; try clia; try done.
  - done.
  - apply (bool_decide_unpack _); vm_compute; exact I.
  - apply (bool_decide_unpack _); vm_compute; exact I.
  - apply (bool_decide_unpack _); vm_compute; exact I.
  - apply (bool_decide_unpack _); vm_compute; exact I.
  - exists []. pose proof (acktr_init_wf []) as Hw.
    assert (fst (ngtcp2_acktr_init []) = Ok (conn_acktr example_conn)) as E by (vm_compute; reflexivity).
    destruct (ngtcp2_acktr_init []) as [r m]. cbn [fst] in E. subst r. destruct Hw as [Hw Hn].
    exact (conj Hw (conj Hn (Forall_nil_2 _))).
  - assert (ent (conn_acktr example_conn) = []) as -> by (vm_compute; reflexivity). split; [constructor|].
    vm_compute. split; discriminate.
  - vm_compute. discriminate.
  - vm_compute. reflexivity.
  - apply (bool_decide_unpack _); vm_compute; exact I.
  - split_and!; [eexists; split; [vm_compute; reflexivity | vm_compute; split; discriminate].. |].
    intros km. assert (conn_early_ckm example_conn = None) as -> by (vm_compute; reflexivity). done.
  - split; vm_compute; by eexists.
  - assert (conn_aead_overhead example_conn = 0) as -> by (vm_compute; reflexivity). split; [done|]. split; [apply example_can_send|].
    by split.
Qed.


(** A packet is received and acknowledged, data is sent, lost and sent again, the
    stream is reset, and the connection is closed. *)
Definition example_session : list conn_event :=
  [ev_recv example_pkt 10; ev_write_ack_pkt 1200 100000000; ev_write_stream 1200 1 true [1; 2; 3] 100000001;
   ev_write_stream 1200 1 true [4] 100000002; ev_write_pkt 1200 102000000; ev_call (api_shutdown_stream_write 1 7);
   ev_write_pkt 1200 102000001; ev_write_connection_close 1200 0; ev_recv example_pkt 102000002].

Lemma example_session_ok : Forall event_ok example_session.
Proof.
  repeat apply Forall_cons_2; [..|constructor]; cbn [event_ok]; try (split; [done|]); try (repeat constructor; clia).
Qed.

Lemma example_past_handshake : past_handshake (fr_stream example_frame).
Proof. discriminate. Qed.

Lemma session_safe_witness :
  exists pkts c', run_session example_callbacks example_session example_conn = ret (pkts, true) c' /\
    zlen <$> pkts = [0; 18; 16; 16; 0; 15; 14; 0] /\ conn_ok example_view true None c'.
Proof.
  assert (Hrun : match run_session example_callbacks example_session example_conn with
    | ret (pkts, alive) _ => alive = true /\ zlen <$> pkts = [0; 18; 16; 16; 0; 15; 14; 0]
    | _ => False end) by (vm_compute; split; reflexivity).
  destruct (session_safe example_view example_callbacks (fun ct _ _ _ => Some ct) (fun _ _ _ _ => None) 0 0
    example_session example_conn) as (pkts & alive & c' & E & H).
  - exact example_callbacks_ok.
  - exact example_callbacks_live.
  - split; exact I.
  - exact (example_aead_ok _ example_past_handshake).
  - exact (example_aead_ok _ (conj example_past_handshake I)).
  - exact example_conn_ok.
  - exact example_ready.
  - left.
  - split; vm_compute; discriminate.
  - exact example_session_ok.
  - reflexivity.
  - rewrite E in Hrun. destruct Hrun as [-> Hlen]. exists pkts, c'. split; [exact E|]. split; [exact Hlen|].
    apply H. reflexivity.
Defined.
