(* ===== verification/ConnPeers.v ===== *)
(** Two peers: the data that one writes on a stream is what the application of the
    other gets. In the example the server of [ConnProps.v], which has received data
    on stream 4, answers its client on the same stream. *)

From S2P Require Import Prelude Conv Frame PktDecode PktHd Mem Monad Range Gaptr Idtr Ringbuf AckScan.
From S2P Require Import Acktr Pq Rtb Map Rob Crypto Ppe Strm Conn ConnAck ConnApp ConnInv.
From S2P Require Import ConnStream ConnRecv ConnSend ConnState ConnTx ConnWrite ConnFrames ConnPkt ConnNew ConnLink ConnProps.

(** C2. Stream data gets across. One connection writes data on a stream, and the
    packet it gives reaches the peer before any later packet: the peer takes the
    truncated number for the right one, decrypts the packet and accepts its frame,
    or a callback of its application fails, and nothing else goes wrong. Afterwards
    the frame counts as received, also when it was the last one and the stream has
    been closed; and if all earlier data of the stream had been delivered, the
    application has now got exactly the bytes that counted as sent, after those it
    had, whether the stream has been closed or not. Some bytes are sent whenever
    there are any. It is assumed that the two ends agree on keys and limits
    ([linked], [stream_ends]), that the receiver knows the stream, and that the
    call asks for something to be sent, data or the end of the stream. *)
Theorem stream_data_arrives {A1 A2} (av1 : app_view A1) (cb1 : ngtcp2_conn_callbacks A1)
    (av2 : app_view A2) (cb2 : ngtcp2_conn_callbacks A2) decrypt reliable destlen
    (c1 c1' : ngtcp2_conn A1) (c2 : ngtcp2_conn A2) id fin data ts1 ts2 pkt n p1 strm1 p2 strm2 frs :
  conn_ok av1 reliable None c1 -> can_send av1 cb1 decrypt c1 ->
  callbacks_ok av2 cb2 -> cb_recv_pkt cb2 = None -> cb_recv_frame cb2 = None -> conn_ok av2 true None c2 ->
  linked decrypt cb2 c1 c2 ->
  conn_strm_heap c1 !! p1 = Some strm1 -> strm_stream_id strm1 = id ->
  0 <= strm_tx_offset strm1 <= strm_max_tx_offset strm1 -> strm_max_tx_offset strm1 < 2 ^ 62 ->
  stream_ends av2 c1 c2 id strm1 p2 strm2 frs data ->
  0 <= destlen < 2 ^ 62 -> all_bytes data -> zlen data < 2 ^ 62 -> fin = true \/ data <> [] ->
  ngtcp2_conn_write_stream cb1 destlen id fin data ts1 c1 = ret (pkt, n) c1' ->
  (0 <= n <= zlen data /\ (data <> [] -> 0 < n)) /\
  wp (ngtcp2_conn_recv cb2 pkt ts2)
    (fun _ => data_arrived av2 c2 id (strm_tx_offset strm1) p2 frs (fin && (n =? zlen data)) data n)
    (fun e _ => e = NGTCP2_ERR_CALLBACK_FAILURE) c2.
Proof.
  intros Hok1 Hcs Hcb Hpkt Hframe Hok2 Hlk Hp1 Hid Ht Hmax Hends Hd Hdata Hdl Hne Hw.
  destruct (co_streams _ _ _ _ Hok1) as [M Hs].
  assert (Hone : forall p strm, conn_strm_heap c1 !! p = Some strm -> strm_stream_id strm = id -> strm = strm1).
  { intros p strm Hp Hi. assert (p = p1) as -> by (apply (st_unique _ _ _ _ Hs p p1 strm strm1); congruence). congruence. }
  pose proof (write_stream_ok av1 cb1 decrypt reliable destlen id fin data ts1 c1 Hok1 Hcs Hd Hdata Hdl) as H.
  unfold wp at 1 in H. rewrite Hw in H. destruct H as (p & strm & Hp & Hi & Hsent).
  { intros p strm Hp Hi. by rewrite (Hone p strm Hp Hi). }
  assert (p = p1) as -> by (apply (st_unique _ _ _ _ Hs p p1 strm strm1); congruence).
  rewrite (Hone _ _ Hp Hi) in Hsent. cbn [fst snd] in Hsent. split.
  - destruct (ss_len _ _ _ _ _ _ _ _ _ _ _ _ Hsent) as [? Hpos]. split; [done|]. intros Hdne. apply Hpos.
    destruct data as [|x l]; [done|]. rewrite zlen_cons. pose proof (zlen_nonneg l). lia.
  - apply (sent_data_arrives av1 cb1 av2 cb2 Hcb Hpkt Hframe decrypt reliable destlen c1 c2 id p1 strm1 p2 strm2
      frs fin data pkt n ts2 c1'); try done; [apply Ht | apply Hd].
Qed.

(** The client of [example_conn]: it has opened stream 4, on which the packet
    [example_pkt] has reached the server. *)
Definition server_params : ngtcp2_transport_params :=
  mk_params (v_ee NGTCP2_PROTO_VER_D8 [NGTCP2_PROTO_VER_D8]) 1000 1000 100 102 30 0 1200 (replicate 16 0) 0 0 0 0 3.

Definition client_keys : prog example_app unit :=
  p_call (api_set_handshake_rx_keys [2] (replicate 12 0)) (fun _ _ =>
    p_call (api_update_rx_keys [2] (replicate 12 0)) (fun _ _ =>
      p_call (api_update_tx_keys [1] (replicate 12 0)) (fun _ _ =>
        p_call (api_set_remote_transport_params NGTCP2_TRANSPORT_PARAMS_TYPE_ENCRYPTED_EXTENSIONS server_params) (fun _ _ =>
          p_call (api_open_bidi_stream 0) (fun _ _ => p_ret tt))))).

Definition client_new : ngtcp2_conn example_app :=
  state_of (zero_conn [] 0 [] false) (ngtcp2_conn_client_new [] 7 NGTCP2_PROTO_VER_D8 example_settings []).
Definition client_conn : ngtcp2_conn example_app :=
  set_conn_state NGTCP2_CS_POST_HANDSHAKE (state_of client_new (run_prog client_keys client_new)).

Definition server_conn : ngtcp2_conn example_app :=
  state_of example_conn (ngtcp2_conn_recv example_callbacks example_pkt 10 example_conn).

(** The AEAD of the client: it opens all that fits. *)
Definition client_callbacks : ngtcp2_conn_callbacks example_app := mk_callbacks
  (fun c _ => p_ret (conn_user_data c, 1, None)) (fun c => p_ret (conn_user_data c, None)) None
  (fun c _ => p_ret (conn_user_data c, 1, None)) (fun c data => p_ret (conn_user_data c ++ [(0, data)], 0))
  None None None None None None
  (fun _ _ _ _ _ => None) (fun _ _ _ _ _ => inr NGTCP2_ERR_TLS_DECRYPT) example_encrypt
  (fun destlen ct _ _ _ => if zlen ct <=? destlen then inl ct else inr NGTCP2_ERR_TLS_DECRYPT)
  (Some (fun c y => p_ret (conn_user_data c ++ [(y.1.1.1, y.1.2)], 0)))
  None None None None None.

Lemma client_callbacks_ok : callbacks_ok example_view client_callbacks.
Proof.
  split; try done.
  - eexists. split; [reflexivity|]. intros c y. split; [done|]. simpl. intros _. apply log_of_receive.
  - intros c y. split; [done|]. simpl. intros _. apply log_of_receive.
Qed.

Lemma client_conn_ok : conn_ok example_view true None client_conn.
Proof.
  assert (Hn : conn_ok example_view true None client_new).
  { pose proof (client_new_ok example_view true [] 7 NGTCP2_PROTO_VER_D8 example_settings []
      ltac:(constructor) eq_refl (fun _ => eq_refl)) as Hnew. unfold client_new, new_result in *.
    destruct (ngtcp2_conn_client_new _ _ _ _ _) as [[] c|e c|]; [apply Hnew | by destruct Hnew | done]. }
  assert (Hk : conn_ok example_view true None (state_of client_new (run_prog client_keys client_new))).
  { apply wp_state_of. eapply wp_mono; [apply (run_prog_ok example_view client_keys); [|apply api_post_refl, Hn] | |].
    - repeat split; try (vm_compute; discriminate). by eexists _, _.
    - by intros ? ? [].
    - by intros ? ? []. }
  unfold client_conn. revert Hk. generalize (state_of client_new (run_prog client_keys client_new)).
  intros c Hk. keep_ok Hk.
Qed.

Lemma server_conn_ok : conn_ok example_view true None server_conn.
Proof.
  pose proof (recv_ok example_view example_callbacks example_conn example_pkt 10 example_callbacks_ok
    (example_aead_ok _ I) (example_aead_ok _ I) ltac:(repeat constructor; done) eq_refl example_conn_ok
    ltac:(right; left) (proj1 example_conn_keys) (proj2 example_conn_keys)) as H. unfold wp in H.
  assert (Hret : match ngtcp2_conn_recv example_callbacks example_pkt 10 example_conn with ret _ _ => True | _ => False end)
    by (vm_compute; exact I).
  unfold server_conn. by destruct (ngtcp2_conn_recv _ _ _ _).
Qed.

Lemma server_can_send : can_send example_view example_callbacks (fun ct _ _ _ => Some ct) server_conn.
Proof. apply example_can_send_if; try (vm_compute; reflexivity); apply (bool_decide_unpack _); vm_compute; exact I. Qed.

Lemma client_linked : linked (fun ct _ _ _ => Some ct) client_callbacks server_conn client_conn.
Proof.
  split.
  - vm_compute. reflexivity.
  - eexists. split; vm_compute; reflexivity.
  - vm_compute. reflexivity.
  - intros ct key nonce ad p [= <-]. split; [done|]. cbn [cb_decrypt client_callbacks]. by rewrite Z.leb_refl.
  - apply (bool_decide_unpack _); vm_compute; exact I.
  - split; [split; vm_compute; [discriminate | reflexivity]|].
    assert (ent (conn_acktr client_conn) = []) as -> by (vm_compute; reflexivity). constructor.
  - vm_compute. reflexivity.
Qed.

(** The server answers on stream 4; the packet has room for all of the data. *)
Lemma stream_data_arrives_witness :
  exists pkt server' client',
    ngtcp2_conn_write_stream example_callbacks 1200 4 true [4; 5; 6; 7; 8] 20 server_conn = ret (pkt, 5) server' /\
    ngtcp2_conn_recv client_callbacks pkt 30 client_conn = ret tt client' /\
    av_log example_view (conn_user_data client') 4 = [4; 5; 6; 7; 8].
Proof.
  set (data := [4; 5; 6; 7; 8]).
  assert (Hw : match ngtcp2_conn_write_stream example_callbacks 1200 4 true data 20 server_conn with
    | ret (pkt, n) _ => n = 5 /\ match ngtcp2_conn_recv client_callbacks pkt 30 client_conn with
        | ret _ _ => True | _ => False end
    | _ => False end) by (vm_compute; split; [reflexivity | exact I]).
  destruct (ngtcp2_conn_write_stream example_callbacks 1200 4 true data 20 server_conn) as [[pkt n] server'|e c|] eqn:E;
    [|destruct Hw..].
  destruct Hw as [-> Hr].
  assert (Hp1 : exists strm1, conn_strm_heap server_conn !! 3%positive = Some strm1 /\ strm_stream_id strm1 = 4 /\
    strm_tx_offset strm1 = 0 /\ strm_max_tx_offset strm1 = 1000)
    by (eexists; split; [vm_compute; reflexivity | vm_compute; repeat split; reflexivity]).
  assert (Hp2 : exists strm2, conn_strm_heap client_conn !! 2%positive = Some strm2 /\ strm_stream_id strm2 = 4 /\
    strm_flags strm2 = 0 /\ strm_last_rx_offset strm2 = 0 /\ strm_max_rx_offset strm2 = 1000)
    by (eexists; split; [vm_compute; reflexivity | vm_compute; repeat split; reflexivity]).
  destruct Hp1 as (strm1 & Hp1 & Hid1 & Ht1 & Hm1), Hp2 as (strm2 & Hp2 & Hid2 & Hf2 & Hl2 & Hm2).
  destruct (co_streams _ _ _ _ client_conn_ok) as [M Hs].
  destruct (st_heap _ _ _ _ Hs _ _ Hp2) as (_ & _ & _ & Hd). destruct (Hd ltac:(discriminate)) as (frs & Hdel & Hwi).
  rewrite Hid2 in Hdel.
  destruct (stream_data_arrives example_view example_callbacks example_view client_callbacks (fun ct _ _ _ => Some ct) true
    1200 server_conn server' client_conn 4 true data 20 30 pkt 5 3%positive strm1 2%positive strm2 frs) as [_ H].
  - exact server_conn_ok.
  - exact server_can_send.
  - exact client_callbacks_ok.
  - reflexivity.
  - reflexivity.
  - exact client_conn_ok.
  - exact client_linked.
  - exact Hp1.
  - exact Hid1.
  - lia.
  - lia.
  - split.
    + split; [discriminate|]. split; [vm_compute; reflexivity | left; reflexivity].
    + split; [vm_compute; reflexivity|]. split; [exact Hp2|].
      exists strm2. exact (conj Hp2 (conj Hid2 (conj Hdel Hwi))).
    + rewrite Hf2. split; reflexivity.
    + split; [lia|]. assert (conn_rx_offset client_conn = 0) as -> by (vm_compute; reflexivity).
      assert (conn_tx_offset server_conn = 0) as -> by (vm_compute; reflexivity). lia.
    + split; [lia|]. split; [split; vm_compute; [discriminate | reflexivity] | vm_compute; discriminate].
    + rewrite Ht1. reflexivity.
  - lia.
  - repeat constructor; discriminate.
  - reflexivity.
  - left. reflexivity.
  - exact E.
  - exists pkt, server'. unfold wp in H.
    destruct (ngtcp2_conn_recv client_callbacks pkt 30 client_conn) as [[] c|e c|]; [|destruct Hr..].
    exists c. split; [reflexivity|]. split; [reflexivity|]. destruct H as [_ [_ H]].
    assert (conn_user_data client_conn = []) as Hu by (vm_compute; reflexivity). rewrite Hu, Ht1 in H.
    exact (H eq_refl).
Defined.
